(* ===== verification/_CoqProject ===== *)
-Q . S2P
Prelude.v
GoStrings.v
GoStrconv.v
GoPath.v
GoFlag.v
Shell.v
ShellScript.v
VmLib.v
TestWorld.v
ScriptedVm.v
Retry.v
MachineOps.v
MachineFiles.v
MachineInspect.v
MachineDump.v
MachineEnv.v
MachineNew.v
TestRunner.v
BazelFiles.v
VmTestRule.v
VmTestShare.v
VmtestConfig.v
ConfigSource.v
GoTestRule.v
HostWorld.v
RunnerConfig.v
QemuArgs.v
ScriptedHost.v
ProcessManager.v
OutputStreamer.v
RunnerNet.v
RunnerRun.v
RunnerSafety.v
RunnerProtocol.v
RunnerOrder.v
Cancellation.v
RunAlone.v
RunnerArtifacts.v
VmCmd.v
Signals.v
Interrupts.v
Orchestrator.v
VmRules.v
