(* ===== verification/Prelude.v ===== *)
(** * rules_vmtest: a verification development

    rules_vmtest boots virtual machines for tests.  This library models its Go
    code, the program's own logic in full, and the Bazel rules that compute its
    input.  This file is the root: after this overview it holds the vocabulary
    that every other file shares.

    ** The program

    Six parts, under src/:

    - machine/machine.go is the library a Go test uses.  [New] boots a VM from
      options and from the VMTEST_* environment and registers its end with
      [t.Cleanup]; methods run commands, wait for conditions, read reports, and
      dump diagnostics when the test failed.
    - vmtest/config.bzl writes a Go package whose [init] sets the VMTEST_*
      variables that [New] reads.
    - runner/ runs one QEMU by hand.  [Run] checks the bridge and the firmware,
      then builds (a disk, firmware variables and a TPM state in a work
      directory, an installation from an ISO) or runs what was built.  It
      starts swtpm and QEMU and must leave neither behind.
    - vmtest/cmd/main.go turns flags and link-time variables into a
      [RunnerConfig], and hands SIGINT and SIGTERM to [Run] as a cancelled
      context; vmtest/cmd/testrunner/main.go boots a VM and waits for a marker
      on its serial port.
    - orchestrator/main.go keeps a tmux session with a window per VM command.
    - vmtest/vm_test.bzl and vmtest/vm_go_test.bzl write scripts that hand a
      rule's attributes to the marker runner as arguments and to a Go test as
      variables; the macros of vmtest/rules.bzl declare VM commands with their
      link-time variables, alone, among other VMs, or as a cluster.

    ** Files

    Shared: Prelude (results, the state-and-error monad, [wp], [preserves]),
    GoStrings, GoStrconv, GoPath and GoFlag (what the program calls of Go's
    packages strings, strconv, fmt, path/filepath and flag), Shell (how a shell
    reads quoted words), ShellScript (how bash reads and runs the scripts of the
    rules), BazelFiles (short paths, runfiles and the optional toolchains), VmLib and TestWorld (the outside
    of package machine and the state of a test), HostWorld (the outside of
    package runner and the state of a run), ScriptedVm and ScriptedHost
    (instances of those outsides that evaluate, for the witnesses).

    Package machine, all from machine/machine.go:
    - Retry: [RetryOption], [applyRetryOpts], the polling loop and its rounds;
    - MachineOps: [Execute] to [ForwardedPort], [WaitUntilOutput], files, HTTP,
      [WaitForLog]; MachineFiles: its file methods together;
    - MachineInspect: [JournalLines], [FindProcesses], the network reports;
    - MachineDump: [DumpOnFailure], its helpers, the cleanup stack;
    - MachineEnv: the machine options, [macFromTap], [buildVMOptsFromEnv];
    - MachineNew: [New], [Serial], [QMP], the end of a test.

    TestRunner is vmtest/cmd/testrunner/main.go.  The rules: VmTestRule is
    vm_test.bzl joined to TestRunner, VmTestShare the directory that rule shares
    with the guest, VmtestConfig and ConfigSource are config.bzl (what the
    generated [init] sets; the Go file it is in) and GoTestRule is vm_go_test.bzl,
    both joined to [buildVMOptsFromEnv]; VmRules is rules.bzl joined to VmCmd and
    Orchestrator.

    Package runner:
    - RunnerConfig: config.go, and the types and paths of runner.go;
    - QemuArgs: qemu.go, and a reader of QEMU command lines;
    - ProcessManager, OutputStreamer: process_manager.go;
    - RunnerNet: network.go and tpm.go;
    - RunnerRun: [Run] and both modes of runner.go;
    - RunnerProtocol: an automaton over the calls of a run as its abstract
      specification, and the simulation that shows [Run] implements it;
      RunnerOrder: what that says of a trace;
    - Cancellation: [Run] on a host that is interrupted after a given number of
      calls, compared with the run left alone; RunAlone: the latter is [Run] on
      the host itself;
    - RunnerSafety, RunnerArtifacts: further properties of [Run].

    VmCmd is vmtest/cmd/main.go, whose end, the goroutines and the signals, is a
    step relation in Signals; Interrupts joins it to Cancellation, so that taking
    a signal cancels the run at that moment.  Orchestrator is
    orchestrator/main.go.

    ** How code becomes definitions

    A Go function that acts is a computation of the monad [M] over a world; a
    returned error, [t.Fatalf], a panic and [os.Exit] are its early stops, and
    the world survives them, so a theorem can speak of what happened before.
    The worlds hold the program's own state as the code has it (the cleanup
    stack of a test, the process manager, the started commands by index) and a
    trace of the calls that leave the program.  [defer] is [deferred], and an
    error kept as a value is [try].

    Code that is not in the repository is a parameter, never a made-up body:
    the package [vm] and the agent ([VmPackage]), the operating system
    ([Host]), [ProcessEscapeSequences], the runfiles library ([Runfiles]),
    [regexp] ([Regexp]), the marker scan ([MarkerScan]), tmux ([Tmux]).  Each
    maps an unknown state to an answer and a next state, so a theorem holds
    for every behaviour of that code; the few assumptions a theorem makes about
    it are its hypotheses, and its witness shows an instance that meets them.
    The streams a reader returns, when a context is cancelled, and the kill
    that os/exec then sends to a command started under it, are part of these
    answers too.

    ** Loops, fuel and widths

    [poll], the loop of every WaitFor method, takes a fuel.  It stops with
    [OutOfFuel] only when the fuel is gone; when sleeping moves the clock by
    the interval at least and the interval is positive, [rounds timeout
    interval] rounds and one more are always enough (Retry), and each theorem
    on a WaitFor method says both what an outcome means and that this fuel
    gives one.  With a zero interval the loop of the code has no such bound.
    [lines_loop] is started with one more than the length of its buffer and each
    round removes a byte at least, so it never runs out; so is [scan_loop].  The other loops
    are structural.  Numbers read by [Atoi] are checked against the 64-bit range
    as Go does, and the timeout of the marker runner is multiplied at 64 bits
    ([wrap64]); other durations and ports are mathematical integers: the code
    only compares, adds or prints them.

    ** What the theorems show

    - The protocol of a run: every trace of [Run] is accepted by the automaton
      ([Run_follows_protocol]), hence the order in which artifacts, swtpm, QEMU
      and the signals come ([Run_in_order]) and what the tables of the runner
      mean at the end ([Run_tables_valid]).
    - Cancellation: up to the moment its context is cancelled a run does what it
      would have done alone, and after it no QEMU is started ([cancelled_run]).
    - Signals: the vm command never ends before its run where signals are handled
      ([exit_after_run]), and it ends with the status of the sequential reading
      ([exit_refines_launch], [main_exit_status]).  With a QEMU that hangs until it
      is killed it ends, under a scheduler that does not starve it, when a signal
      comes, and only then ([interrupted_process_ends]); a run that a signal
      cancels starts no QEMU any more and leaves no swtpm ([signal_stops_run]).
    - What is left behind: swtpm is stopped and the QEMU of run mode waited for on
      every path through [Run] ([Run_stops_swtpm], [Run_waits_for_qemu]); the
      QEMU of build mode is not always ([Run_build_qemu]); [CleanupAll_correct],
      [cleanupPIDFile_correct], [New_closed_at_end] and
      [diagnostics_before_close] for a test and its machine.
    - The two modes fit: a build that ends well leaves what run mode asks for
      ([build_enables_run], [setupRunArtifacts_correct]), and nothing is touched
      before the configuration is accepted ([Run_validates_first],
      [checkBridgeSetup_correct], [configure_correct], [main_exit_status],
      [work_directories_differ]).
    - Round trips: from the attributes of vmtest_config, vm_test and vm_go_test
      through the text of the Go file or script they write, read and run, back to
      the options of the VM, with every file named found in the runfiles
      ([config_roundtrip], [vm_test_roundtrip], [go_test_roundtrip],
      [env_network], [env_options_errors]); a rule's as the
      configuration of the vm command ([vm_rules_configure], [cluster_correct]),
      a file copied into the guest as the file read there ([files_roundtrip]), the
      files of a vm_test as those of the directory its guest sees
      ([share_correct]),
      and QEMU reads from the command line the machine that was asked for
      ([QEMU_reads_intended]).
    - Waiting: each WaitFor method ends, and the first attempt that decides
      decides: every one before it, each made in time and followed by a sleep
      ([tried]), did not; without one the test fails after the deadline, with the
      report of the last ([WaitUntilSucceeds_correct], [WaitForUnit_correct],
      [WaitForLog_correct] and their siblings); [WaitUntilSucceeds_bounded]
      bounds the time it takes.
    - Output: [AttachTagged] loses nothing ([AttachTagged_conserves]) and, up to
      its limit on the length of a line, prints the lines of the text however
      the reads cut it ([AttachTagged_lines]); the lines a filter passes on, and
      what it leaves unread from the first one too long ([AttachFilter_correct]);
      what waiting for the streams guarantees ([Wait_correct]).
    - tmux: [ensure_windows_correct], [run_replaces_window],
      [run_in_foreground_correct]; all of it together, from the rule to the
      exit status, in [orchestrated_build].
    - Where the code does something other than it says, the theorem states what
      it does: [DumpDmesg_needs_a_filter], [dumpFailedUnits_panics],
      [macFromTap_valid_iff], [runner_main_correct].

    ** Not modelled

    The text the commands print for a person, where no property is about it; the
    mutex of the process manager, which one goroutine uses; tests and examples.
    Of Bazel itself: what labels and toolchains resolve to is an input of the
    rules; the layout of a runfiles tree and the directory a test starts in are
    as documented (BazelFiles); that the runfiles of an executable hold it is a
    hypothesis.

    A signal the vm command does not ask for (a hangup) is a step of Signals and
    nothing more is shown of it.  That [cmd.Wait] could fail without the process
    having ended is not modelled.

    A cancellation takes effect between two calls: one that comes during a call is
    the one before it, or after it for the start of QEMU, which looks at the
    context first.  What the host makes of it (os/exec kills what it started) is a
    parameter of Cancellation.

    Every Go component and every rule above is modelled; what remains outside is
    the package vm, tmux, regexp and the runfiles library, which are parameters,
    and code that only passes arguments on.  In the marker runner a signal cancels
    the context its start and its scan run under, and nothing else looks at it: it
    is among their answers, so that command has no interleaving of its own.

    A theorem on a script is about the fragment of bash in which every byte stands
    for itself ([sh_script] answers [None] elsewhere): its hypotheses on the values
    say where the rules, which quote little or nothing, write such text. *)

From stdpp Require Export base tactics list strings gmap pretty sorting.
From Stdlib Require Export ZArith NArith Ascii String Lia ZifyBool ZifyN.
Export Corelib.Init.Datatypes.

#[export] Set Default Goal Selector "!".

(** ** Results and the state-and-error monad

    A Go function that may stop early (a returned [error], [t.Fatalf],
    [os.Exit], a panic) is a value of [M W E A]: it reads and changes a world
    of type [W] and either returns an [A] or stops with a reason of type [E].
    The world survives an early stop: effects that happened are kept. *)
Inductive result (E A : Type) : Type :=
| Ok (a : A)
| Err (e : E).
Arguments Ok {E A} a.
Arguments Err {E A} e.

Definition M (W E A : Type) : Type := W → result E A * W.

#[export] Instance M_ret W E : MRet (M W E) := λ A a w, (Ok a, w).
#[export] Instance M_bind W E : MBind (M W E) := λ A B f c w,
  match c w with
  | (Ok a, w') => f a w'
  | (Err e, w') => (Err e, w')
  end.

Definition throw {W E A} (e : E) : M W E A := λ w, (Err e, w).
Definition gets {W E A} (f : W → A) : M W E A := λ w, (Ok (f w), w).
Definition modify {W E} (f : W → W) : M W E unit := λ w, (Ok tt, f w).
(** Run [c] and hand its outcome over as a value (Go's [err := f()]). *)
Definition try {W E E' A} (c : M W E A) : M W E' (result E A) := λ w,
  let (r, w') := c w in (Ok r, w').
(** [defer d]: [d] runs whatever way [c] ends, then [c]'s outcome stands. *)
Definition deferred {W E A} (c : M W E A) (d : M W E unit) : M W E A := λ w,
  let (r, w') := c w in (r, (d w').2).
(** [if err != nil { return wrap(err) }]. *)
Definition wrap_err {W E E' A} (wrap : E → E') (c : M W E A) : M W E' A := λ w,
  match c w with
  | (Ok a, w') => (Ok a, w')
  | (Err e, w') => (Err (wrap e), w')
  end.

Fixpoint for_each {W E A} (f : A → M W E unit) (l : list A) : M W E unit :=
  match l with
  | [] => mret tt
  | x :: l' => f x;; for_each f l'
  end.

Definition is_ok {E A} (r : result E A) : bool :=
  match r with Ok _ => true | Err _ => false end.

(** ** Reasoning about the monad

    [wp c Q w]: running [c] from [w] ends in an outcome and a world that
    satisfy [Q].  [preserves R c]: [c] relates every world it starts in to the
    world it ends in, however it ends; used with preorders such as "the trace
    only grows". *)
Definition wp {W E A} (c : M W E A) (Q : result E A → W → Prop) (w : W) : Prop :=
  Q (c w).1 (c w).2.

Definition preserves {W E A} (R : W → W → Prop) (c : M W E A) : Prop :=
  ∀ w, R w (c w).2.

Create HintDb preserve.

Section MonadLemmas.
Context {W E : Type}.
Implicit Types (w : W).

Lemma bind_ret {A B} (f : A → M W E B) a : mret a ≫= f = f a.
Proof. done. Qed.

Lemma bind_run {A B} (f : A → M W E B) (c : M W E A) w :
  (c ≫= f) w = match c w with
               | (Ok a, w') => f a w'
               | (Err e, w') => (Err e, w')
               end.
Proof. done. Qed.

Lemma wp_bind {A B} (f : A → M W E B) (c : M W E A) Q w :
  wp c (λ r w', match r with
                | Ok a => wp (f a) Q w'
                | Err e => Q (Err e) w'
                end) w →
  wp (c ≫= f) Q w.
Proof. unfold wp. rewrite bind_run. by destruct (c w) as [[a|e] w']. Qed.

Lemma wp_gets {A B} (f : W → A) (k : A → M W E B) Q w :
  wp (k (f w)) Q w → wp (gets f ≫= k) Q w.
Proof. done. Qed.

Lemma wp_mono {A} (c : M W E A) (P Q : result E A → W → Prop) w :
  (∀ r w', P r w' → Q r w') → wp c P w → wp c Q w.
Proof. unfold wp. auto. Qed.

Lemma wp_ext {A} (c d : M W E A) (Q : result E A → W → Prop) w :
  (∀ w, c w = d w) → wp d Q w → wp c Q w.
Proof. unfold wp. by intros ->. Qed.

Lemma wp_intro {A} (c : M W E A) (Q : result E A → W → Prop) w r w' :
  wp c Q w → c w = (r, w') → Q r w'.
Proof. unfold wp. intros H Hc. by rewrite Hc in H. Qed.

Lemma for_each_app {A} (f : A → M W E unit) l1 l2 w :
  for_each f (l1 ++ l2) w = (for_each f l1;; for_each f l2) w.
Proof.
  revert w. induction l1 as [|x l1 IH]; intros w; [done|].
  cbn. rewrite !bind_run. destruct (f x w) as [[[]|e] w']; [|done]. apply IH.
Qed.

Section Preorder.
Context (R : W → W → Prop) `{!PreOrder R}.

Lemma preserves_ret {A} (a : A) : preserves R (mret a : M W E A).
Proof. intros w. cbn. reflexivity. Qed.

Lemma preserves_throw {A} (e : E) : preserves R (throw e : M W E A).
Proof. intros w. cbn. reflexivity. Qed.

Lemma preserves_gets {A} (f : W → A) : preserves R (gets f : M W E A).
Proof. intros w. cbn. reflexivity. Qed.

Lemma preserves_modify (f : W → W) :
  (∀ w, R w (f w)) → preserves R (modify f : M W E unit).
Proof. intros Hf w. apply Hf. Qed.

Lemma preserves_bind {A B} (f : A → M W E B) (c : M W E A) :
  preserves R c → (∀ a, preserves R (f a)) → preserves R (c ≫= f).
Proof.
  intros Hc Hf w. rewrite bind_run. specialize (Hc w).
  destruct (c w) as [[a|e] w']; cbn in *; [|done].
  etrans; [exact Hc|]. apply Hf.
Qed.

Lemma preserves_try {E' A} (c : M W E A) :
  preserves R c → preserves R (try c : M W E' (result E A)).
Proof. intros Hc w. unfold try. specialize (Hc w). by destruct (c w). Qed.

Lemma preserves_wrap_err {E' A} (g : E → E') (c : M W E A) :
  preserves R c → preserves R (wrap_err g c).
Proof. intros Hc w. unfold wrap_err. specialize (Hc w). by destruct (c w) as [[]]. Qed.

Lemma preserves_deferred {A} (c : M W E A) (d : M W E unit) :
  preserves R c → preserves R d → preserves R (deferred c d).
Proof.
  intros Hc Hd w. unfold deferred. specialize (Hc w).
  destruct (c w) as [r w']; cbn in *. etrans; [exact Hc|]. apply Hd.
Qed.

Lemma preserves_for_each {A} (f : A → M W E unit) l :
  (∀ x, preserves R (f x)) → preserves R (for_each f l).
Proof.
  intros Hf. induction l as [|x l IH]; cbn; [apply preserves_ret|].
  by apply preserves_bind.
Qed.
End Preorder.
End MonadLemmas.

#[export] Hint Resolve preserves_ret preserves_throw preserves_gets
  preserves_modify preserves_bind preserves_try preserves_wrap_err
  preserves_deferred preserves_for_each : preserve.
#[export] Hint Extern 1 (PreOrder _) => apply _ : preserve.

(** ** Tactics *)

(** Split one monadic step off a hypothesis or a goal about a run. *)
Ltac step_run :=
  match goal with
  | |- context [(mbind ?f ?c) ?w] => rewrite (bind_run f c w)
  | H : context [(mbind ?f ?c) ?w] |- _ => rewrite (bind_run f c w) in H
  end.

(** Name the pieces of an existential or a conjunction, keeping binder names. *)
Ltac deex :=
  repeat match goal with
         | H : ∃ x, _ |- _ => let y := fresh x in destruct H as [y H]
         | H : _ ∧ _ |- _ => destruct H
         end.

(** Decide every boolean test that blocks a [match] or an [if]. *)
Ltac case_bools :=
  repeat match goal with
         | |- context [if ?b then _ else _] => destruct b eqn:?; simplify_eq/=
         | H : context [if ?b then _ else _] |- _ => destruct b eqn:?; simplify_eq/=
         end.

(** Discharge a closed, computable hypothesis (used by the witnesses). *)
Ltac by_compute :=
  first [ vm_compute; reflexivity
        | apply Nat.ltb_lt; vm_compute; reflexivity
        | apply Nat.leb_le; vm_compute; reflexivity
        | vm_compute; done
        | vm_compute; lia ].

Lemma forallb_Forall {A} (p : A → bool) (l : list A) : forallb p l = true → Forall (λ x, p x = true) l.
Proof. intros H. apply Forall_forall. intros x Hx. apply (proj1 (forallb_forall p l) H x), list_elem_of_In, Hx. Qed.
