(* ===== verification/GoStrings.v ===== *)
(** * GoStrings: the functions of Go's package [strings] the program calls

    A Go string is a sequence of bytes; it is a [string] here, one [ascii] per
    byte.  Only the argument shapes the program uses are modelled: [Split] and
    [ReplaceAll] take a one-byte separator, [Join] any separator.  White space
    is Go's [unicode.IsSpace] read off the UTF-8 bytes: the six ASCII blanks
    and the encodings of U+0085, U+00A0, U+1680, U+2000-U+200A, U+2028, U+2029,
    U+202F, U+205F and U+3000. *)

From S2P Require Import Prelude.

Module GoStrings.

#[local] Arguments String.append !s1 s2 / : simpl nomatch.

(** ** Bytes *)

Definition byte_in (lo hi : N) (a : ascii) : bool :=
  ((lo <=? N_of_ascii a) && (N_of_ascii a <=? hi))%N.
Definition is_byte (n : N) (a : ascii) : bool := (N_of_ascii a =? n)%N.

(** Newline, single quote and double quote. *)
Definition newline : ascii := "010"%char.
Definition newline_s : string := String newline EmptyString.
Definition quote : ascii := "039"%char.
Definition dquote : ascii := "034"%char.

Fixpoint all_chars (p : ascii → bool) (s : string) : bool :=
  match s with
  | EmptyString => true
  | String a s' => p a && all_chars p s'
  end.
Definition lacks (c : ascii) (s : string) : bool := all_chars (λ a, negb (Ascii.eqb a c)) s.
Definition visible (a : ascii) : bool := byte_in 33 126 a.

Fixpoint skip (n : nat) (s : string) : string :=
  match n, s with
  | O, _ => s
  | S n', String _ s' => skip n' s'
  | S _, EmptyString => EmptyString
  end.

Definition rev_string (s : string) : string :=
  string_of_list_ascii (rev (list_ascii_of_string s)).

(** ** Searching and cutting *)

Definition HasPrefix (s p : string) : bool := String.prefix p s.

Fixpoint Contains (s sub : string) : bool :=
  String.prefix sub s || match s with
                         | EmptyString => false
                         | String _ s' => Contains s' sub
                         end.

Fixpoint LastIndex_from (i : Z) (best : Z) (s sub : string) : Z :=
  let best' := if String.prefix sub s then i else best in
  match s with
  | EmptyString => best'
  | String _ s' => LastIndex_from (i + 1) best' s' sub
  end.
(** Byte offset of the last occurrence, [-1] when there is none. *)
Definition LastIndex (s sub : string) : Z := LastIndex_from 0 (-1) s sub.

(** [bytes.IndexByte]: offset of the first [c], with the parts around it. *)
Fixpoint cut_at (c : ascii) (s : string) : option (string * string) :=
  match s with
  | EmptyString => None
  | String a s' =>
      if Ascii.eqb a c then Some (EmptyString, s')
      else match cut_at c s' with
           | Some (h, t) => Some (String a h, t)
           | None => None
           end
  end.

Fixpoint Split (s : string) (c : ascii) : list string :=
  match s with
  | EmptyString => [EmptyString]
  | String a s' =>
      if Ascii.eqb a c then EmptyString :: Split s' c
      else match Split s' c with
           | h :: t => String a h :: t
           | [] => [String a EmptyString]
           end
  end.

Fixpoint Join (l : list string) (sep : string) : string :=
  match l with
  | [] => EmptyString
  | [x] => x
  | x :: l' => x +:+ sep +:+ Join l' sep
  end.

Fixpoint ReplaceAll (s : string) (old : ascii) (new : string) : string :=
  match s with
  | EmptyString => EmptyString
  | String a s' =>
      if Ascii.eqb a old then new +:+ ReplaceAll s' old new
      else String a (ReplaceAll s' old new)
  end.

(** ** White space *)

Definition ascii_space (a : ascii) : bool := byte_in 9 13 a || is_byte 32 a.
Definition space2 (a b : ascii) : bool := is_byte 194 a && (is_byte 133 b || is_byte 160 b).
Definition space3 (a b c : ascii) : bool :=
  (is_byte 225 a && is_byte 154 b && is_byte 128 c)
  || (is_byte 226 a && is_byte 128 b
      && (byte_in 128 138 c || is_byte 168 c || is_byte 169 c || is_byte 175 c))
  || (is_byte 226 a && is_byte 129 b && is_byte 159 c)
  || (is_byte 227 a && is_byte 128 b && is_byte 128 c).

(** Width in bytes of the white-space rune [s] starts with, 0 when there is none. *)
Definition space_width (s2 : ascii → ascii → bool) (s3 : ascii → ascii → ascii → bool)
    (s : string) : nat :=
  match s with
  | EmptyString => 0
  | String a s' =>
      if ascii_space a then 1
      else match s' with
           | EmptyString => 0
           | String b s'' =>
               if s2 a b then 2
               else match s'' with
                    | EmptyString => 0
                    | String c _ => if s3 a b c then 3 else 0
                    end
           end
  end.
Definition width_left : string → nat := space_width space2 space3.
(** The same at the end of a string, read backwards. *)
Definition width_right : string → nat :=
  space_width (λ a b, space2 b a) (λ a b c, space3 c b a).

(** [pending]: bytes still to drop of a white-space rune already recognised. *)
Fixpoint trim_left (width : string → nat) (pending : nat) (s : string) : string :=
  match s with
  | EmptyString => EmptyString
  | String _ s' =>
      match pending with
      | S k => trim_left width k s'
      | O => match width s with
             | O => s
             | S k => trim_left width k s'
             end
      end
  end.
Definition TrimSpace (s : string) : string :=
  rev_string (trim_left width_right 0 (rev_string (trim_left width_left 0 s))).

Definition emit (field : string) (rest : list string) : list string :=
  match field with EmptyString => rest | _ => field :: rest end.
Fixpoint fields_from (pending : nat) (field : string) (s : string) : list string :=
  match s with
  | EmptyString => emit field []
  | String a s' =>
      match pending with
      | S k => fields_from k field s'
      | O => match width_left s with
             | O => fields_from 0 (field +:+ String a EmptyString) s'
             | S k => emit field (fields_from k EmptyString s')
             end
      end
  end.
Definition Fields (s : string) : list string := fields_from 0 EmptyString s.

(** ** Case

    The program compares the result with ASCII constants only.  Besides A-Z
    the runes whose lower case is ASCII are U+0130 (bytes C4 B0, lower case
    [i]) and U+212A (bytes E2 84 AA, lower case [k]); any other non-ASCII rune
    has a non-ASCII lower case and is left alone here, which no such
    comparison can see. *)
Definition lower_byte (a : ascii) : ascii :=
  if byte_in 65 90 a then ascii_of_N (N_of_ascii a + 32) else a.
Fixpoint ToLower (s : string) : string :=
  match s with
  | EmptyString => EmptyString
  | String a s1 =>
      match s1 with
      | EmptyString => String (lower_byte a) EmptyString
      | String b s2 =>
          if is_byte 196 a && is_byte 176 b then String "i" (ToLower s2)
          else match s2 with
               | EmptyString => String (lower_byte a) (ToLower s1)
               | String c s3 =>
                   if is_byte 226 a && is_byte 132 b && is_byte 170 c
                   then String "k" (ToLower s3)
                   else String (lower_byte a) (ToLower s1)
               end
      end
  end.

(** ** Lemmas *)

Lemma append_assoc s1 s2 s3 : (s1 +:+ s2) +:+ s3 = s1 +:+ s2 +:+ s3.
Proof. induction s1; cbn; congruence. Qed.
Lemma append_nil_r s : s +:+ EmptyString = s.
Proof. induction s; cbn; congruence. Qed.
Lemma append_inj_l s s1 s2 : s +:+ s1 = s +:+ s2 → s1 = s2.
Proof. induction s; cbn; [done|]. intros [=]. auto. Qed.
Lemma append_list s1 s2 :
  list_ascii_of_string (s1 +:+ s2) = list_ascii_of_string s1 ++ list_ascii_of_string s2.
Proof. induction s1; cbn; congruence. Qed.
Lemma length_append s1 s2 :
  String.length (s1 +:+ s2) = (String.length s1 + String.length s2)%nat.
Proof. induction s1; cbn; congruence. Qed.
Lemma append_inj_r s s1 s2 : s1 +:+ s = s2 +:+ s → s1 = s2.
Proof.
  intros H. apply (f_equal list_ascii_of_string) in H.
  rewrite !append_list in H. apply app_inv_tail in H.
  by rewrite <- (string_of_list_ascii_of_string s1), H, string_of_list_ascii_of_string.
Qed.

Lemma all_chars_append p s1 s2 : all_chars p (s1 +:+ s2) = all_chars p s1 && all_chars p s2.
Proof. induction s1; cbn; [done|]. rewrite IHs1. apply andb_assoc. Qed.
Lemma lacks_append c s1 s2 : lacks c (s1 +:+ s2) = lacks c s1 && lacks c s2.
Proof. apply all_chars_append. Qed.
Lemma all_chars_impl (p q : ascii → bool) s :
  (∀ a, p a = true → q a = true) → all_chars p s = true → all_chars q s = true.
Proof.
  intros Hpq. induction s; cbn; [done|]. rewrite !andb_true_iff.
  intros [??]. auto.
Qed.

Lemma prefix_spec p s : String.prefix p s = true ↔ ∃ t, s = p +:+ t.
Proof.
  revert s. induction p as [|a p IH]; intros s; cbn.
  - split; [by exists s|]. intros [t ->]. by destruct t.
  - destruct s as [|b s]; cbn; [split; [done|by intros [t ?]]|].
    destruct (ascii_dec a b) as [->|Hne].
    + rewrite IH. split; intros [t Ht]; exists t; [by rewrite Ht|by injection Ht].
    + split; [done|]. intros [t [=]]; congruence.
Qed.

Lemma Contains_unfold s sub :
  Contains s sub = String.prefix sub s || match s with
                                          | EmptyString => false
                                          | String _ s' => Contains s' sub
                                          end.
Proof. by destruct s. Qed.

Lemma Contains_spec s sub : Contains s sub = true ↔ ∃ l r, s = l +:+ sub +:+ r.
Proof.
  induction s as [|a s IH]; rewrite Contains_unfold, orb_true_iff, prefix_spec.
  - split.
    + intros [[t Ht]|?]; [|done]. by exists EmptyString, t.
    + intros (l & r & H). left. destruct l; [by exists r|done].
  - rewrite IH. split.
    + intros [[t Ht]|(l & r & ->)]; [by exists EmptyString, t|by exists (String a l), r].
    + intros (l & r & H). destruct l as [|b l]; cbn in H.
      * left. by exists r.
      * right. injection H as -> ->. by exists l, r.
Qed.

Lemma Contains_empty s : Contains s EmptyString = true.
Proof. apply Contains_spec. by exists EmptyString, s. Qed.

Lemma Split_not_nil s c : Split s c ≠ [].
Proof. destruct s; cbn; [done|]. case_match; [done|]. by destruct (Split s c). Qed.

Lemma Split_lacks s c : Forall (λ x, lacks c x = true) (Split s c).
Proof.
  induction s as [|a s IH]; cbn; [by repeat constructor|].
  destruct (Ascii.eqb a c) eqn:E; [by constructor|].
  destruct (Split s c) as [|h t]; [by repeat constructor; cbn; rewrite E|].
  inversion IH; subst. constructor; [|done]. by cbn; rewrite E.
Qed.

Lemma Split_lacks_id s c : lacks c s = true → Split s c = [s].
Proof.
  induction s as [|a s IH]; cbn; [done|]. rewrite andb_true_iff, negb_true_iff.
  intros [-> H]. by rewrite IH.
Qed.

Lemma Split_sep x s c :
  lacks c x = true → Split (x +:+ String c s) c = x :: Split s c.
Proof.
  induction x as [|a x IH]; cbn; [by rewrite Ascii.eqb_refl|].
  rewrite andb_true_iff, negb_true_iff. intros [-> H]. by rewrite IH.
Qed.

Lemma Split_chars p c s : all_chars p s = true → Forall (λ x, all_chars p x = true) (Split s c).
Proof.
  induction s as [|b s IH]; cbn; [by repeat constructor|]. intros [Hb Hs]%andb_true_iff. specialize (IH Hs).
  destruct (Ascii.eqb b c); [by constructor|]. destruct (Split s c) as [|h r]; cbn; [by repeat constructor; cbn; rewrite Hb|].
  apply Forall_cons in IH as [Hh Hr]. constructor; [|done]. cbn. by rewrite Hb.
Qed.
(** Splitting what [Join] glued gives the parts back. *)
Lemma Split_Join l c :
  l ≠ [] → Forall (λ x, lacks c x = true) l →
  Split (Join l (String c EmptyString)) c = l.
Proof.
  induction l as [|x l IH]; [done|]. intros _ Hl. inversion Hl as [|? ? Hx Hl']; subst.
  destruct l as [|y l]; [by apply Split_lacks_id|].
  change (Join (x :: y :: l) (String c EmptyString)) with
    (x +:+ String c EmptyString +:+ Join (y :: l) (String c EmptyString)).
  cbn [append]. rewrite Split_sep by done. f_equal. by apply IH.
Qed.

Lemma Join_Split s c : Join (Split s c) (String c EmptyString) = s.
Proof.
  induction s as [|a s IH]; cbn; [done|].
  destruct (Ascii.eqb_spec a c) as [->|].
  - pose proof (Split_not_nil s c). destruct (Split s c); [done|]. cbn in *. by rewrite IH.
  - pose proof (Split_not_nil s c). destruct (Split s c) as [|h t]; [done|].
    rewrite <- IH. by destruct t.
Qed.

(** The parts of a text are in it. *)
Lemma Contains_Join l sep x : x ∈ l → Contains (Join l sep) x = true.
Proof.
  intros Hx. apply Contains_spec. induction l as [|y l IH]; [by apply elem_of_nil in Hx|].
  apply elem_of_cons in Hx as [<-|Hx].
  - destruct l as [|z l]; [exists "", ""; cbn; by rewrite append_nil_r|]. by exists "", (sep +:+ Join (z :: l) sep).
  - destruct (IH Hx) as (p & q & E). destruct l as [|z l]; [by apply elem_of_nil in Hx|].
    exists (y +:+ sep +:+ p), q. change (Join (y :: z :: l) sep) with (y +:+ sep +:+ Join (z :: l) sep).
    by rewrite E, !append_assoc.
Qed.
Lemma Contains_Split s c x : x ∈ Split s c → Contains s x = true.
Proof. intros Hx. rewrite <- (Join_Split s c). by apply Contains_Join. Qed.

(** Concatenating two split texts: the last part meets the first. *)
Fixpoint glue (l1 l2 : list string) : list string :=
  match l1, l2 with
  | [], _ => l2
  | [x], y :: l2' => (x +:+ y) :: l2'
  | [x], [] => [x]
  | x :: l1', _ => x :: glue l1' l2
  end.

Lemma Split_append a b c : Split (a +:+ b) c = glue (Split a c) (Split b c).
Proof.
  induction a as [|x a IH]; cbn [Split String.append].
  - pose proof (Split_not_nil b c). by destruct (Split b c).
  - pose proof (Split_not_nil a c). rewrite IH.
    destruct (Split a c) as [|y [|z l]]; [done|..]; destruct (Ascii.eqb x c); cbn; try done;
      pose proof (Split_not_nil b c); by destruct (Split b c).
Qed.

Lemma Split_app_last a b c :
  Split (a +:+ b) c
  = removelast (Split a c) ++ Split (List.last (Split a c) EmptyString +:+ b) c.
Proof.
  rewrite Split_append. pose proof (Split_lacks a c) as Hl. pose proof (Split_not_nil a c) as Hn.
  induction (Split a c) as [|x [|y l] IH]; [done|..].
  - cbn. inversion Hl; subst. rewrite Split_append, (Split_lacks_id x) by done.
    cbn. pose proof (Split_not_nil b c). by destruct (Split b c).
  - inversion Hl; subst. change (glue (x :: y :: l) (Split b c)) with (x :: glue (y :: l) (Split b c)).
    change (removelast (x :: y :: l)) with (x :: removelast (y :: l)).
    change (List.last (x :: y :: l) EmptyString) with (List.last (y :: l) EmptyString).
    cbn [app]. f_equal. by apply IH.
Qed.

Lemma cut_at_spec c s h t :
  cut_at c s = Some (h, t) ↔ s = h +:+ String c t ∧ lacks c h = true.
Proof.
  revert h. induction s as [|a s IH]; intros h; cbn.
  - split; [done|]. intros [H _]. by destruct h.
  - destruct (Ascii.eqb_spec a c) as [->|Hne].
    + split; [by intros [= <- <-]|]. intros [H Hh]. destruct h as [|b h]; [by simplify_eq/=|].
      injection H as -> ->. cbn in Hh. by rewrite Ascii.eqb_refl in Hh.
    + destruct (cut_at c s) as [[h' t']|] eqn:E.
      * split.
        -- intros [= <- <-]. destruct (proj1 (IH h') eq_refl) as [-> ?].
           split; [done|]. cbn. by apply Ascii.eqb_neq in Hne as ->.
        -- intros [H Hh]. destruct h as [|b h]; [by injection H|].
           injection H as -> ->. cbn in Hh. apply andb_true_iff in Hh as [_ Hh].
           pose proof (proj2 (IH h) (conj eq_refl Hh)). by simplify_eq.
      * split; [done|]. intros [H Hh]. destruct h as [|b h]; [by injection H|].
        injection H as -> ->. cbn in Hh. apply andb_true_iff in Hh as [_ Hh].
        pose proof (proj2 (IH h) (conj eq_refl Hh)). by simplify_eq.
Qed.

Lemma cut_at_None c s : cut_at c s = None ↔ lacks c s = true.
Proof.
  unfold lacks. induction s as [|a s IH]; cbn; [done|].
  destruct (Ascii.eqb a c); cbn; [done|].
  destruct (cut_at c s) as [[]|]; [|exact IH]. split; [done|]. intros H.
  apply (proj2 IH) in H. discriminate.
Qed.

(** *** White space *)

Lemma visible_bounds a : visible a = true ↔ (33 ≤ N_of_ascii a ≤ 126)%N.
Proof. unfold visible, byte_in. rewrite andb_true_iff, !N.leb_le. lia. Qed.

Ltac byte_lia :=
  unfold ascii_space, space2, space3, is_byte, byte_in in *; lia.

Lemma width_left_visible a s : visible a = true → width_left (String a s) = 0.
Proof.
  rewrite visible_bounds. intros H. unfold width_left, space_width.
  replace (ascii_space a) with false by byte_lia.
  destruct s as [|b [|c s]]; [done|by replace (space2 a b) with false by byte_lia|].
  replace (space2 a b) with false by byte_lia.
  by replace (space3 a b c) with false by byte_lia.
Qed.

Lemma width_right_visible a s : visible a = true → width_right (String a s) = 0.
Proof.
  rewrite visible_bounds. intros H. unfold width_right, space_width.
  replace (ascii_space a) with false by byte_lia.
  destruct s as [|b [|c s]]; [done|by replace (space2 b a) with false by byte_lia|].
  replace (space2 b a) with false by byte_lia.
  by replace (space3 c b a) with false by byte_lia.
Qed.

Definition starts_visible (s : string) : bool :=
  match s with String a _ => visible a | EmptyString => false end.

Section TrimLeft.
Context (w : string → nat).
Hypothesis w_visible : ∀ a s, visible a = true → w (String a s) = 0.
Hypothesis w_blank : ∀ a s, ascii_space a = true → w (String a s) = 1.

Lemma trim_left_blanks b s :
  all_chars ascii_space b = true → starts_visible s = true →
  trim_left w 0 (b +:+ s) = s.
Proof.
  intros Hb Hs. induction b as [|a b IH]; cbn in *.
  - destruct s as [|a s]; [done|]. cbn in *. by rewrite w_visible.
  - apply andb_true_iff in Hb as [Ha Hb]. rewrite w_blank by done. auto.
Qed.
End TrimLeft.

Lemma rev_string_append s1 s2 : rev_string (s1 +:+ s2) = rev_string s2 +:+ rev_string s1.
Proof.
  unfold rev_string. rewrite append_list, rev_app_distr.
  generalize (rev (list_ascii_of_string s2)), (rev (list_ascii_of_string s1)).
  intros l1 l2. induction l1; cbn; congruence.
Qed.
Lemma rev_string_involutive s : rev_string (rev_string s) = s.
Proof.
  unfold rev_string.
  by rewrite list_ascii_of_string_of_list_ascii, rev_involutive,
    string_of_list_ascii_of_string.
Qed.
Lemma all_chars_rev p s : all_chars p (rev_string s) = all_chars p s.
Proof.
  induction s as [|a s IH]; [done|].
  change (String a s) with (String a EmptyString +:+ s).
  rewrite rev_string_append, !all_chars_append, IH. cbn.
  rewrite !andb_true_r. apply andb_comm.
Qed.

(** Blanks around a text that begins and ends visibly are exactly what goes. *)
Lemma TrimSpace_blanks b1 s b2 :
  all_chars ascii_space b1 = true → all_chars ascii_space b2 = true →
  starts_visible s = true → starts_visible (rev_string s) = true →
  TrimSpace (b1 +:+ s +:+ b2) = s.
Proof.
  intros H1 H2 Hs Hr. unfold TrimSpace.
  rewrite (trim_left_blanks width_left); [|apply width_left_visible| |done|].
  - rewrite rev_string_append, (trim_left_blanks width_right);
      [apply rev_string_involutive|apply width_right_visible| |by rewrite all_chars_rev|done].
    intros a t Ha. unfold width_right, space_width. by rewrite Ha.
  - intros a t Ha. unfold width_left, space_width. by rewrite Ha.
  - by destruct s.
Qed.

Lemma all_visible_starts s :
  s ≠ EmptyString → all_chars visible s = true → starts_visible s = true.
Proof. destruct s; [done|]. cbn. rewrite andb_true_iff. tauto. Qed.

Lemma TrimSpace_visible s : all_chars visible s = true → TrimSpace s = s.
Proof.
  intros H. destruct (decide (s = EmptyString)) as [->|Hne]; [done|].
  pose proof (TrimSpace_blanks EmptyString s EmptyString eq_refl eq_refl) as HT.
  rewrite append_nil_r in HT. apply HT; apply all_visible_starts; [done|done| |].
  - intros Hr. apply (f_equal rev_string) in Hr. by rewrite rev_string_involutive in Hr.
  - by rewrite all_chars_rev.
Qed.

Lemma TrimSpace_newline s :
  s ≠ EmptyString → all_chars visible s = true →
  TrimSpace (s +:+ String newline EmptyString) = s.
Proof.
  intros Hne H.
  apply (TrimSpace_blanks EmptyString s (String newline EmptyString)); [done|done| |].
  - by apply all_visible_starts.
  - apply all_visible_starts; [|by rewrite all_chars_rev].
    intros Hr. apply (f_equal rev_string) in Hr. by rewrite rev_string_involutive in Hr.
Qed.

(** *** Fields *)

Definition has_visible (s : string) : bool := negb (all_chars (λ a, negb (visible a)) s).

Lemma emit_not_nil f l : f ≠ EmptyString → emit f l ≠ [].
Proof. by destruct f. Qed.

Lemma append_char_not_nil f a : f +:+ String a EmptyString ≠ EmptyString.
Proof. by destruct f. Qed.

Lemma fields_from_field k f s : f ≠ EmptyString → fields_from k f s ≠ [].
Proof.
  revert k f. induction s as [|a s IH]; intros k f Hf; cbn [fields_from].
  - by apply emit_not_nil.
  - destruct k; [|by apply IH]. destruct (width_left _).
    + apply IH, append_char_not_nil.
    + by apply emit_not_nil.
Qed.

Lemma width_left_invisible a s k :
  width_left (String a s) = S k →
  ∃ b s', s = b +:+ s' ∧ String.length b = k ∧ all_chars (λ c, negb (visible c)) b = true
          ∧ visible a = false.
Proof.
  assert (Hv : ∀ c, (N_of_ascii c < 33 ∨ 126 < N_of_ascii c)%N → visible c = false).
  { intros c Hc. apply not_true_is_false. rewrite visible_bounds. lia. }
  unfold width_left, space_width. destruct (ascii_space a) eqn:Ea.
  { intros [= <-]. exists EmptyString, s. repeat split. apply Hv. byte_lia. }
  destruct s as [|b s]; [done|]. destruct (space2 a b) eqn:E2.
  { intros [= <-]. exists (String b EmptyString), s. cbn.
    rewrite !Hv; [done|byte_lia|byte_lia]. }
  destruct s as [|c s]; [done|]. destruct (space3 a b c) eqn:E3; [|done].
  intros [= <-]. exists (String b (String c EmptyString)), s. cbn.
  rewrite !Hv; [done|byte_lia|byte_lia|byte_lia].
Qed.

Lemma fields_from_skip b f s :
  fields_from (String.length b) f (b +:+ s) = fields_from 0 f s.
Proof. induction b; cbn; [by destruct s|done]. Qed.

(** A line with a visible character has a first field. *)
Lemma Fields_visible s : has_visible s = true → Fields s ≠ [].
Proof.
  unfold Fields. remember (String.length s) as n eqn:Hn.
  revert s Hn. induction n as [n IH] using lt_wf_ind. intros s -> Hs.
  destruct s as [|a s]; [done|]. cbn [fields_from].
  destruct (width_left (String a s)) as [|k] eqn:Hw.
  { apply fields_from_field, append_char_not_nil. }
  apply width_left_invisible in Hw as (b & s' & -> & <- & Hb & Ha).
  rewrite fields_from_skip. cbn [emit].
  apply (IH (String.length s')); [|done|].
  - cbn. rewrite length_append. lia.
  - revert Hs. unfold has_visible. cbn. by rewrite all_chars_append, Ha, Hb.
Qed.

Lemma fields_from_word f s : all_chars visible s = true → fields_from 0 f s = emit (f +:+ s) [].
Proof.
  revert f. induction s as [|a s IH]; intros f Hs; cbn [fields_from]; [by rewrite append_nil_r|].
  pose proof Hs as [Ha Hs']%andb_true_iff. destruct (width_left (String a s)) as [|k] eqn:Hw.
  - rewrite IH by done. by rewrite append_assoc.
  - apply width_left_invisible in Hw as (b & s' & _ & _ & _ & Hv). congruence.
Qed.
(** A visible word is its own only field. *)
Lemma Fields_word s : s ≠ EmptyString → all_chars visible s = true → Fields s = [s].
Proof. intros Hn Hs. unfold Fields. rewrite fields_from_word by done. by destruct s. Qed.

End GoStrings.
Export GoStrings.
