(* ===== verification/GoStrconv.v ===== *)
(** * GoStrconv: the number conversions of Go's [strconv] and [fmt]

    [strconv.Atoi] with the order in which Go finds its errors, and the two
    verbs the program prints integers with, [%d] and [%02x].  Go's [int] is 64
    bits wide on every platform the program supports. *)

From S2P Require Import Prelude GoStrings.
From Stdlib Require Import HexadecimalString.

Module GoStrconv.

Definition min_int : Z := - 2 ^ 63.
Definition max_int : Z := 2 ^ 63 - 1.
Definition max_uint : Z := 2 ^ 64 - 1.
Definition is_int (z : Z) : Prop := (min_int ≤ z ≤ max_int)%Z.

(** The two errors [strconv.NumError] wraps. *)
Inductive num_error := ErrSyntax | ErrRange.

Definition digit (a : ascii) : option Z :=
  if byte_in 48 57 a then Some (Z.of_N (N_of_ascii a) - 48)%Z else None.

(** [ParseUint(s, 10, 64)] on a non-empty [s]: digits are read left to right and
    the first problem met, overflow or a foreign byte, is the one reported. *)
Fixpoint parse_uint (n : Z) (s : string) : result num_error Z :=
  match s with
  | EmptyString => Ok n
  | String a s' =>
      match digit a with
      | None => Err ErrSyntax
      | Some d =>
          let n' := (n * 10 + d)%Z in
          if (max_uint <? n')%Z then Err ErrRange else parse_uint n' s'
      end
  end.

Definition parse_magnitude (neg : bool) (s : string) : result num_error Z :=
  match s with
  | EmptyString => Err ErrSyntax
  | _ =>
      match parse_uint 0 s with
      | Err e => Err e
      | Ok n =>
          if neg
          then if (2 ^ 63 <? n)%Z then Err ErrRange else Ok (- n)%Z
          else if (2 ^ 63 <=? n)%Z then Err ErrRange else Ok n
      end
  end.

Definition Atoi (s : string) : result num_error Z :=
  match s with
  | String a s' =>
      if Ascii.eqb a "-" then parse_magnitude true s'
      else if Ascii.eqb a "+" then parse_magnitude false s'
      else parse_magnitude false s
  | EmptyString => Err ErrSyntax
  end.

(** The verb [%d]. *)
Definition fmt_d (z : Z) : string := pretty z.

Fixpoint zeros (n : nat) : string :=
  match n with O => EmptyString | S n' => String "0" (zeros n') end.
Definition hex (n : N) : string := NilZero.string_of_uint (N.to_hex_uint n).
Definition pad_zeros (width : nat) (s : string) : string :=
  zeros (width - String.length s) +:+ s.
(** The verb [%02x] on an integer: lower-case digits of the magnitude, padded
    with zeros to two characters in all, the sign of a negative number counted. *)
Definition fmt_02x (z : Z) : string :=
  if (z <? 0)%Z then String "-" (pad_zeros 1 (hex (Z.to_N (- z))))
  else pad_zeros 2 (hex (Z.to_N z)).

(** ** Lemmas *)

Definition is_digit (a : ascii) : bool := byte_in 48 57 a.

Lemma digit_pretty d : (d < 10)%N → digit (pretty_N_char d) = Some (Z.of_N d).
Proof.
  intros. assert (d = 0 ∨ d = 1 ∨ d = 2 ∨ d = 3 ∨ d = 4 ∨ d = 5 ∨ d = 6 ∨ d = 7 ∨ d = 8 ∨ d = 9)%N
    as Hd by lia.
  by repeat destruct Hd as [->|Hd]; [..|subst].
Qed.

Lemma pretty_char_is_digit d : (d < 10)%N → is_digit (pretty_N_char d) = true.
Proof.
  intros H. generalize (digit_pretty d H). unfold digit, is_digit. by case_match.
Qed.

Lemma parse_uint_pretty_go x s :
  (Z.of_N x ≤ max_uint)%Z →
  parse_uint 0 (pretty_N_go x s) = parse_uint (Z.of_N x) s.
Proof.
  revert s. induction (N.lt_wf_0 x) as [x _ IH]. intros s Hx.
  destruct (decide (x = 0)%N) as [->|]; [by rewrite pretty_N_go_0|].
  rewrite pretty_N_go_step by lia.
  assert (x mod 10 < 10)%N by (by apply N.mod_lt).
  rewrite IH; [|apply N.div_lt; lia|].
  - cbn [parse_uint]. rewrite digit_pretty by done.
    replace (Z.of_N (x `div` 10) * 10 + Z.of_N (x mod 10))%Z with (Z.of_N x)
      by (pose proof (N.div_mod x 10); lia).
    by destruct (Z.ltb_spec max_uint (Z.of_N x)); [lia|].
  - trans (Z.of_N x); [|done]. apply N2Z.inj_le, N.Div0.div_le_upper_bound. lia.
Qed.

Lemma pretty_N_go_digits x s :
  all_chars is_digit s = true → all_chars is_digit (pretty_N_go x s) = true.
Proof.
  revert s. induction (N.lt_wf_0 x) as [x _ IH]. intros s Hs.
  destruct (decide (x = 0)%N) as [->|]; [by rewrite pretty_N_go_0|].
  rewrite pretty_N_go_step by lia. apply IH; [apply N.div_lt; lia|].
  cbn. rewrite Hs, pretty_char_is_digit; [done|by apply N.mod_lt].
Qed.

Lemma pretty_N_digits (x : N) : all_chars is_digit (pretty x) = true.
Proof.
  unfold pretty, pretty_N. case_decide; [done|]. by apply pretty_N_go_digits.
Qed.

Lemma pretty_N_go_length x s : (String.length s ≤ String.length (pretty_N_go x s))%nat.
Proof.
  revert s. induction (N.lt_wf_0 x) as [x _ IH]. intros s.
  destruct (decide (x = 0)%N) as [->|]; [by rewrite pretty_N_go_0|].
  rewrite pretty_N_go_step by lia.
  etrans; [|apply IH, N.div_lt; lia]. cbn. lia.
Qed.

Lemma pretty_N_not_empty (x : N) : pretty x ≠ EmptyString.
Proof.
  unfold pretty, pretty_N. case_decide; [done|].
  rewrite pretty_N_go_step by lia. intros Hnil.
  pose proof (pretty_N_go_length (x `div` 10) (String (pretty_N_char (x mod 10)) "")) as Hl.
  rewrite Hnil in Hl. cbn in Hl. lia.
Qed.

Lemma parse_uint_pretty (x : N) :
  (Z.of_N x ≤ max_uint)%Z → parse_uint 0 (pretty x) = Ok (Z.of_N x).
Proof.
  intros. unfold pretty, pretty_N. case_decide; [by subst|].
  by rewrite parse_uint_pretty_go.
Qed.

Lemma pretty_Z_unfold (z : Z) :
  pretty z = if (z <? 0)%Z then String "-" (pretty (Z.to_N (- z))) else pretty (Z.to_N z).
Proof. destruct z as [|p|p]; [done..|]. cbn. done. Qed.

Lemma parse_magnitude_pretty neg (x : N) :
  (Z.of_N x ≤ 2 ^ 63)%Z →
  parse_magnitude neg (pretty x)
  = if neg then Ok (- Z.of_N x)%Z
    else if (2 ^ 63 <=? Z.of_N x)%Z then Err ErrRange else Ok (Z.of_N x).
Proof.
  intros. unfold parse_magnitude.
  pose proof (pretty_N_not_empty x). pose proof (parse_uint_pretty x) as Hp.
  destruct (pretty x); [done|]. rewrite Hp by (unfold max_uint; lia).
  destruct neg; [|done]. by destruct (Z.ltb_spec (2 ^ 63) (Z.of_N x)); [lia|].
Qed.

Lemma digits_sign s a s' :
  all_chars is_digit s = true → s = String a s' →
  Ascii.eqb a "-" = false ∧ Ascii.eqb a "+" = false.
Proof.
  intros H ->. cbn in H. apply andb_true_iff in H as [H _].
  unfold is_digit, byte_in in H.
  split; apply Ascii.eqb_neq; intros ->; by vm_compute in H.
Qed.

(** Reading back what [%d] printed. *)
Lemma Atoi_fmt_d z : is_int z → Atoi (fmt_d z) = Ok z.
Proof.
  unfold is_int, min_int, max_int, fmt_d. intros Hz. rewrite pretty_Z_unfold.
  destruct (Z.ltb_spec z 0).
  - cbn [Atoi]. change (Ascii.eqb "-" "-") with true. cbv iota.
    rewrite parse_magnitude_pretty by lia. f_equal. lia.
  - pose proof (pretty_N_digits (Z.to_N z)) as Hd.
    pose proof (pretty_N_not_empty (Z.to_N z)).
    pose proof (parse_magnitude_pretty false (Z.to_N z)) as Hp.
    unfold Atoi. destruct (pretty (Z.to_N z)) as [|a s] eqn:E; [done|].
    destruct (digits_sign _ a s Hd eq_refl) as [-> ->]. rewrite Hp by lia.
    destruct (Z.leb_spec (2 ^ 63) (Z.of_N (Z.to_N z))); [lia|]. f_equal. lia.
Qed.

Lemma is_digit_visible a : is_digit a = true → visible a = true.
Proof. unfold is_digit, visible, byte_in. lia. Qed.

Lemma fmt_d_visible z : all_chars visible (fmt_d z) = true.
Proof.
  unfold fmt_d. rewrite pretty_Z_unfold. case_match; [cbn|];
    (eapply all_chars_impl; [apply is_digit_visible|apply pretty_N_digits]).
Qed.

Lemma fmt_d_lacks c z : visible c = true → is_digit c = false → c ≠ "-"%char →
  lacks c (fmt_d z) = true.
Proof.
  intros _ Hc Hm. unfold fmt_d, lacks. rewrite pretty_Z_unfold.
  assert (∀ x : N, all_chars (λ a, negb (Ascii.eqb a c)) (pretty x) = true) as Hp.
  { intros x. eapply all_chars_impl; [|apply pretty_N_digits].
    intros a Ha. apply negb_true_iff, Ascii.eqb_neq. congruence. }
  case_match; [cbn [all_chars]|apply Hp]. rewrite Hp, andb_true_r.
  by apply negb_true_iff, Ascii.eqb_neq.
Qed.

Lemma fmt_d_not_empty z : fmt_d z ≠ EmptyString.
Proof.
  unfold fmt_d. rewrite pretty_Z_unfold. case_match; [done|apply pretty_N_not_empty].
Qed.

(** A value [Atoi] accepts fits in 64 bits. *)
Lemma parse_uint_range s n m :
  (0 ≤ n)%Z → parse_uint n s = Ok m → (0 ≤ m)%Z.
Proof.
  revert n. induction s as [|a s IH]; intros n Hn; cbn [parse_uint].
  - by intros [= <-].
  - unfold digit. destruct (byte_in 48 57 a) eqn:E; [|done]. case_match; [done|].
    apply IH. unfold byte_in in E. lia.
Qed.

Lemma Atoi_range s z : Atoi s = Ok z → is_int z.
Proof.
  assert (Hm : ∀ neg s', parse_magnitude neg s' = Ok z → is_int z).
  { intros neg s'. unfold parse_magnitude, is_int, min_int, max_int.
    destruct s'; [done|]. destruct (parse_uint 0 _) as [n|] eqn:E; [|done].
    apply parse_uint_range in E; [|done].
    destruct neg; case_match; intros; simplify_eq; lia. }
  unfold Atoi. destruct s as [|a s]; [done|]. repeat case_match; apply Hm.
Qed.

End GoStrconv.
Export GoStrconv.
