(* ===== verification/GoPath.v ===== *)
(** * GoPath: the lexical functions of Go's [path/filepath] (Unix)

    [Clean], [Join], [Dir] and [IsAbs].  [Clean] is written on the list of
    slash-separated elements: empty and [.] elements go, [..] removes the
    element before it when there is one to remove. *)

From S2P Require Import Prelude GoStrings.

Module GoPath.

#[local] Arguments String.append !s1 s2 / : simpl nomatch.

Definition slash : ascii := "/"%char.
Definition slash_s : string := String slash EmptyString.

Definition IsAbs (p : string) : bool := HasPrefix p "/".

(** [stack]: the elements kept so far, last one first. *)
Fixpoint clean_elems (rooted : bool) (stack elems : list string) : list string :=
  match elems with
  | [] => rev stack
  | e :: es =>
      if String.eqb e "" || String.eqb e "." then clean_elems rooted stack es
      else if String.eqb e ".." then
        match stack with
        | top :: below =>
            if String.eqb top ".." then clean_elems rooted (e :: stack) es
            else clean_elems rooted below es
        | [] => clean_elems rooted (if rooted then [] else [e]) es
        end
      else clean_elems rooted (e :: stack) es
  end.

Definition Clean (p : string) : string :=
  match p with
  | EmptyString => "."
  | _ =>
      let rooted := IsAbs p in
      let body := Join (clean_elems rooted [] (Split p slash)) slash_s in
      match (if rooted then slash_s +:+ body else body) with
      | EmptyString => "."
      | out => out
      end
  end.

Fixpoint drop_empty (elems : list string) : list string :=
  match elems with
  | e :: es => if String.eqb e "" then drop_empty es else elems
  | [] => []
  end.
(** [filepath.Join]. *)
Definition path_join (elems : list string) : string :=
  match drop_empty elems with
  | [] => EmptyString
  | es => Clean (Join es slash_s)
  end.

(** [filepath.Dir]: the cleaned text up to the last slash, that slash included. *)
Definition Dir (p : string) : string :=
  match removelast (Split p slash) with
  | [] => Clean EmptyString
  | es => Clean (Join es slash_s +:+ slash_s)
  end.

(** ** Lemmas *)

(** An element [Clean] keeps wherever it stands. *)
Definition plain (e : string) : bool :=
  negb (String.eqb e "") && negb (String.eqb e ".") && negb (String.eqb e "..")
  && lacks slash e.
(** The absolute path with these elements. *)
Definition abs_path (es : list string) : string := slash_s +:+ Join es slash_s.

Lemma plain_inv e :
  plain e = true →
  String.eqb e "" = false ∧ String.eqb e "." = false ∧ String.eqb e ".." = false
  ∧ lacks slash e = true.
Proof. unfold plain. rewrite !andb_true_iff, !negb_true_iff. tauto. Qed.

Lemma clean_elems_plain r st es :
  Forall (λ e, plain e = true) es → clean_elems r st es = rev st ++ es.
Proof.
  revert st. induction es as [|e es IH]; intros st H; cbn; [by rewrite app_nil_r|].
  inversion H as [|? ? He Hes]; subst. apply plain_inv in He as (-> & -> & -> & _).
  cbn. rewrite IH by done. cbn. by rewrite <- app_assoc.
Qed.

Lemma clean_elems_empty r st es : clean_elems r st ("" :: es) = clean_elems r st es.
Proof. done. Qed.

Lemma plain_lacks es :
  Forall (λ e, plain e = true) es → Forall (λ e, lacks slash e = true) es.
Proof. intros H. eapply Forall_impl; [exact H|]. intros e He. by apply plain_inv in He as (_&_&_&?). Qed.

Lemma IsAbs_abs_path es : IsAbs (abs_path es) = true.
Proof. apply prefix_spec. by exists (Join es slash_s). Qed.

Lemma Split_Join_slash es :
  es ≠ [] → Forall (λ e, lacks slash e = true) es → Split (Join es slash_s) slash = es.
Proof. apply Split_Join. Qed.

Lemma Split_abs_path es :
  Forall (λ e, lacks slash e = true) es → es ≠ [] → Split (abs_path es) slash = "" :: es.
Proof. intros. transitivity ("" :: Split (Join es slash_s) slash); [done|]. by rewrite Split_Join_slash. Qed.

Lemma Clean_rooted p :
  IsAbs p = true →
  Clean p = slash_s +:+ Join (clean_elems true [] (Split p slash)) slash_s.
Proof. intros H. destruct p; [done|]. unfold Clean. by rewrite H. Qed.

Lemma Clean_slash es :
  Forall (λ e, plain e = true) es → Clean (abs_path es) = abs_path es.
Proof.
  intros H. rewrite Clean_rooted by apply IsAbs_abs_path.
  destruct es as [|e es]; [done|].
  rewrite Split_abs_path by (done || by apply plain_lacks).
  by rewrite clean_elems_empty, clean_elems_plain.
Qed.

Lemma Join_cons_app es f :
  es ≠ [] → Join (es ++ [f]) slash_s = Join es slash_s +:+ slash_s +:+ f.
Proof.
  induction es as [|e es IH]; [done|]. intros _. destruct es as [|e' es]; [done|].
  change (Join ((e :: e' :: es) ++ [f]) slash_s)
    with (e +:+ slash_s +:+ Join ((e' :: es) ++ [f]) slash_s).
  rewrite IH by done. cbn [Join]. by rewrite !append_assoc.
Qed.

(** Joining a plain name to a clean absolute path appends it as one element. *)
Lemma path_join_abs es f :
  Forall (λ e, plain e = true) es → plain f = true →
  path_join [abs_path es; f] = abs_path (es ++ [f]).
Proof.
  intros Hes Hf. pose proof (plain_inv _ Hf) as (Hne & _).
  unfold path_join. change (drop_empty [abs_path es; f]) with [abs_path es; f].
  cbv iota. cbn [Join]. destruct (decide (es = [])) as [->|He].
  - change (abs_path [] +:+ slash_s +:+ f) with (String slash (String slash f)).
    rewrite Clean_rooted by (apply prefix_spec; by eexists).
    change (Split (String slash (String slash f)) slash) with ("" :: "" :: Split f slash).
    rewrite !clean_elems_empty, Split_lacks_id by (by apply plain_inv in Hf as (_&_&_&?)).
    by rewrite clean_elems_plain by (by repeat constructor).
  - replace (abs_path es +:+ slash_s +:+ f) with (abs_path (es ++ [f])).
    + apply Clean_slash, Forall_app. by repeat constructor.
    + unfold abs_path. by rewrite Join_cons_app, !append_assoc.
Qed.

Lemma path_join_abs3 es f g :
  es ≠ [] → Forall (λ e, plain e = true) es → plain f = true → plain g = true →
  path_join [abs_path es; f; g] = abs_path (es ++ [f; g]).
Proof.
  intros He Hes Hf Hg. unfold path_join.
  change (drop_empty [abs_path es; f; g]) with [abs_path es; f; g]. cbv iota. cbn [Join].
  replace (abs_path es +:+ slash_s +:+ f +:+ slash_s +:+ g) with (abs_path (es ++ [f; g])).
  - apply Clean_slash, Forall_app. by repeat constructor.
  - replace (es ++ [f; g]) with ((es ++ [f]) ++ [g]) by (by rewrite <- app_assoc).
    unfold abs_path. rewrite Join_cons_app by (by destruct es). rewrite Join_cons_app by done.
    by rewrite !append_assoc.
Qed.

Lemma Join_inj es1 es2 :
  es1 ≠ [] → es2 ≠ [] →
  Forall (λ e, plain e = true) es1 → Forall (λ e, plain e = true) es2 →
  abs_path es1 = abs_path es2 → es1 = es2.
Proof.
  intros Hn1 Hn2 H1 H2 H. apply append_inj_l in H.
  rewrite <- (Split_Join_slash es1), <- (Split_Join_slash es2)
    by (done || by apply plain_lacks).
  by rewrite H.
Qed.

Lemma Join_removelast es f :
  es ≠ [] → Join (removelast ("" :: es ++ [f])) slash_s +:+ slash_s = abs_path es +:+ slash_s.
Proof.
  intros He. replace ("" :: es ++ [f]) with (("" :: es) ++ [f]) by done.
  rewrite removelast_last. by destruct es.
Qed.

(** The directory of a file directly below a clean absolute path is that path. *)
Lemma Dir_abs es f :
  Forall (λ e, plain e = true) es → plain f = true →
  Dir (abs_path (es ++ [f])) = abs_path es.
Proof.
  intros Hes Hf. pose proof (plain_inv _ Hf) as (Hne & _ & _ & Hl). unfold Dir.
  assert (Hs : Split (abs_path (es ++ [f])) slash = "" :: es ++ [f]).
  { apply Split_abs_path; [|by destruct es].
    apply Forall_app. split; [by apply plain_lacks|by repeat constructor]. }
  rewrite Hs. destruct (decide (es = [])) as [->|He]; [done|].
  pose proof (Join_removelast es f He) as Hr.
  destruct (removelast ("" :: es ++ [f])) as [|x xs] eqn:E.
  { by destruct es. }
  rewrite Hr, Clean_rooted by (apply prefix_spec; by eexists).
  assert (Split (abs_path es +:+ slash_s) slash = "" :: es ++ [""]) as ->.
  { replace (abs_path es +:+ slash_s) with (abs_path (es ++ [""])).
    - apply Split_abs_path; [|by destruct es].
      apply Forall_app. split; [by apply plain_lacks|by repeat constructor].
    - unfold abs_path. by rewrite Join_cons_app, append_nil_r, append_assoc. }
  rewrite clean_elems_empty.
  assert (∀ st, clean_elems true st (es ++ [""]) = rev st ++ es) as ->; [|by destruct es].
  clear -Hes. induction Hes as [|e es He Hes IH]; intros st; cbn; [by rewrite app_nil_r|].
  apply plain_inv in He as (-> & -> & -> & _). cbn. rewrite IH. cbn. by rewrite <- app_assoc.
Qed.

End GoPath.
Export GoPath.
