(* ===== verification/GoFlag.v ===== *)
(** * GoFlag: the command lines of Go's package [flag]

    [flag.Parse] on the kinds of flags the commands define: strings, integers
    and booleans.  The flags of a command are a map from names to current
    values, which starts as the defaults; a value keeps its kind.  The default
    error handling of [flag.CommandLine] ends the program: with 0 when help was
    asked for, with 2 on any error. *)

From S2P Require Import Prelude GoStrings GoStrconv.

Module GoFlag.

(** ** [strconv.ParseInt(s, 0, 64)] and [strconv.ParseBool] *)

Definition lower (a : ascii) : ascii := lower_byte a.
Definition hex_digit (a : ascii) : option Z :=
  let n := Z.of_N (N_of_ascii a) in
  if byte_in 48 57 a then Some (n - 48)%Z
  else if byte_in 97 122 (lower a) then Some (Z.of_N (N_of_ascii (lower a)) - 87)%Z else None.

(** The digits of a number in some base; underscores are skipped. *)
Fixpoint base_digits (base n : Z) (s : string) : option Z :=
  match s with
  | EmptyString => Some n
  | String a s' =>
      if is_byte 95 a then base_digits base n s'
      else match hex_digit a with
           | Some d =>
               if (d <? base)%Z && (n * base + d <=? max_uint)%Z
               then base_digits base (n * base + d) s' else None
           | None => None
           end
  end.

(** The base a prefix announces, and the rest. *)
Definition split_base (s : string) : Z * string :=
  match s with
  | String z (String b ((String _ _) as s')) =>
      if is_byte 48 z then
        if is_byte 98 (lower b) then (2, s') else if is_byte 111 (lower b) then (8, s')
        else if is_byte 120 (lower b) then (16, s') else (8, String b s')
      else (10, s)
  | String z s' => if is_byte 48 z then (8, s') else (10, s)
  | EmptyString => (10, s)
  end%Z.

(** [underscoreOK] on a number without sign: every underscore stands between
    digits, a base prefix counting as a digit. *)
Inductive seen := SawStart | SawDigit | SawUnderscore | SawOther.
Fixpoint underscores_from (hexa : bool) (saw : seen) (s : string) : bool :=
  match s with
  | EmptyString => match saw with SawUnderscore => false | _ => true end
  | String a s' =>
      if byte_in 48 57 a || (hexa && byte_in 97 102 (lower a))
      then underscores_from hexa SawDigit s'
      else if is_byte 95 a
      then match saw with SawDigit => underscores_from hexa SawUnderscore s' | _ => false end
      else match saw with SawUnderscore => false | _ => underscores_from hexa SawOther s' end
  end.
Definition underscoreOK (s : string) : bool :=
  match s with
  | String z (String b s') =>
      if is_byte 48 z && (is_byte 98 (lower b) || is_byte 111 (lower b) || is_byte 120 (lower b))
      then underscores_from (is_byte 120 (lower b)) SawDigit s'
      else underscores_from false SawStart s
  | _ => underscores_from false SawStart s
  end.

Definition parse_number (neg : bool) (s : string) : option Z :=
  match s with
  | EmptyString => None
  | _ =>
      let '(base, digits) := split_base s in
      n ← base_digits base 0 digits;
      if negb (underscoreOK s) && negb (lacks "_" s) then None
      else if neg then (if (n <=? 2 ^ 63)%Z then Some (- n)%Z else None)
      else (if (n <? 2 ^ 63)%Z then Some n else None)
  end.
Definition ParseInt0 (s : string) : option Z :=
  match s with
  | String a s' =>
      if Ascii.eqb a "-" then parse_number true s'
      else if Ascii.eqb a "+" then parse_number false s' else parse_number false s
  | EmptyString => None
  end.

Definition ParseBool (s : string) : option bool :=
  if existsb (String.eqb s) ["1"; "t"; "T"; "true"; "TRUE"; "True"] then Some true
  else if existsb (String.eqb s) ["0"; "f"; "F"; "false"; "FALSE"; "False"] then Some false
  else None.

(** ** Flags *)

Inductive fval := VString (s : string) | VInt (z : Z) | VBool (b : bool).
#[export] Instance fval_eq_dec : EqDecision fval.
Proof. solve_decision. Defined.

Notation flags := (gmap string fval).
Inductive parsed :=
| Parsed (m : flags) (rest : list string)
| ExitStatus (code : Z).

(** [flag.Value.Set]: the kind is that of the value there already. *)
Definition set_value (old : fval) (v : string) : option fval :=
  match old with
  | VString _ => Some (VString v)
  | VInt _ => option_map VInt (ParseInt0 v)
  | VBool _ => option_map VBool (ParseBool v)
  end.

(** What an argument is: no flag (the rest is left alone), the mark that ends the
    flags, a malformed flag, or a flag with its value when it has one. *)
Inductive argument :=
| Positional
| EndOfFlags
| Malformed
| FlagArg (name : string) (value : option string).

Definition classify (s : string) : argument :=
  match s with
  | String d rest =>
      if negb (Ascii.eqb d "-") then Positional
      else match rest with
           | EmptyString => Positional
           | String d2 rest2 =>
               let name := if Ascii.eqb d2 "-" then rest2 else rest in
               match name with
               | EmptyString => EndOfFlags
               | String a _ =>
                   if Ascii.eqb a "-" || Ascii.eqb a "=" then Malformed
                   else match cut_at "=" name with
                        | Some (n, v) => FlagArg n (Some v)
                        | None => FlagArg name None
                        end
               end
           end
  | EmptyString => Positional
  end.

Definition help_or_bad (name : string) : Z :=
  if String.eqb name "help" || String.eqb name "h" then 0%Z else 2%Z.

(** [flag.Parse] on the arguments after the program's name. *)
Fixpoint Parse (m : flags) (args : list string) : parsed :=
  match args with
  | [] => Parsed m []
  | s :: args' =>
      match classify s with
      | Positional => Parsed m args
      | EndOfFlags => Parsed m args'
      | Malformed => ExitStatus 2
      | FlagArg name value =>
          match m !! name with
          | None => ExitStatus (help_or_bad name)
          | Some (VBool b) =>
              match set_value (VBool b) (default "true" value) with
              | Some v => Parse (<[name := v]> m) args'
              | None => ExitStatus 2
              end
          | Some old =>
              match value, args' with
              | Some v, _ =>
                  match set_value old v with
                  | Some x => Parse (<[name := x]> m) args'
                  | None => ExitStatus 2
                  end
              | None, [] => ExitStatus 2
              | None, v :: args'' =>
                  match set_value old v with
                  | Some x => Parse (<[name := x]> m) args''
                  | None => ExitStatus 2
                  end
              end
          end
      end
  end.

(** [*flag.String(..)] and its siblings, after [Parse]. *)
Definition get_string (m : flags) (n : string) : string :=
  match m !! n with Some (VString s) => s | _ => "" end.
Definition get_int (m : flags) (n : string) : Z :=
  match m !! n with Some (VInt z) => z | _ => 0%Z end.
Definition get_bool (m : flags) (n : string) : bool :=
  match m !! n with Some (VBool b) => b | _ => false end.

(** ** Lemmas *)

Definition kind (v : fval) : nat := match v with VString _ => 0 | VInt _ => 1 | VBool _ => 2 end.
Lemma set_value_kind old s v : set_value old s = Some v → kind v = kind old.
Proof. destruct old; cbn; [|destruct (ParseInt0 s)|destruct (ParseBool s)]; by intros [= <-]. Qed.

(** A name that can be written on a command line and read back. *)
Definition flag_name (n : string) : bool :=
  match n with
  | String a _ => negb (Ascii.eqb a "-") && lacks "=" n
  | EmptyString => false
  end.

Lemma classify_flag n : flag_name n = true → classify ("--" +:+ n) = FlagArg n None.
Proof.
  destruct n as [|a n]; [done|]. unfold flag_name. intros [Ha Hl]%andb_true_iff.
  change ("--" +:+ String a n) with (String "-" (String "-" (String a n))).
  unfold classify. cbn [Ascii.eqb negb Bool.eqb].
  assert (Ascii.eqb a "=" = false) as He.
  { unfold lacks in Hl. cbn [all_chars] in Hl. apply andb_true_iff in Hl as [Hl _].
    by apply negb_true_iff in Hl. }
  apply negb_true_iff in Ha. rewrite Ha, He. cbn [orb].
  apply cut_at_None in Hl. by rewrite Hl.
Qed.

Definition show_bool (b : bool) : string := if b then "true" else "false".

(** A setting as arguments: a boolean in the form [--name=value]. *)
Definition setting : Type := string * fval.
Definition render (x : setting) : list string :=
  match x.2 with
  | VString s => ["--" +:+ x.1; s]
  | VInt z => ["--" +:+ x.1; fmt_d z]
  | VBool true => ["--" +:+ x.1]
  | VBool false => ["--" +:+ x.1 +:+ "=false"]
  end.
Definition fits (v : fval) : Prop := match v with VInt z => is_int z | _ => True end.
(** [x] sets a flag of [m], to a value of its kind. *)
Definition sets (m : flags) (x : setting) : Prop :=
  flag_name x.1 = true ∧ fits x.2 ∧ ∃ old, m !! x.1 = Some old ∧ kind old = kind x.2.

Lemma hex_digit_digit a d : digit a = Some d → hex_digit a = Some d ∧ (0 ≤ d < 10)%Z.
Proof. unfold digit, hex_digit, byte_in. case_match eqn:E; [|done]. intros [= <-]. split; [done|lia]. Qed.

Lemma digit_not_underscore a : is_digit a = true → is_byte 95 a = false.
Proof. unfold is_digit, byte_in, is_byte. lia. Qed.

Lemma base_digits_10 n s m :
  (0 ≤ n)%Z → parse_uint n s = Ok m → base_digits 10 n s = Some m.
Proof.
  revert n. induction s as [|a s IH]; intros n Hn; cbn [parse_uint base_digits]; [by intros [= <-]|].
  destruct (digit a) as [d|] eqn:Ed; [|done].
  assert (is_digit a = true) as Ha by (unfold digit in Ed; unfold is_digit; by case_match).
  rewrite (digit_not_underscore a Ha). apply hex_digit_digit in Ed as [-> Hd].
  destruct (Z.ltb_spec max_uint (n * 10 + d)); [done|]. intros Hp.
  rewrite (proj2 (Z.ltb_lt d 10)) by lia. rewrite (proj2 (Z.leb_le _ max_uint)) by lia.
  apply IH; [lia|done].
Qed.

Lemma digits_lack_underscore s : all_chars is_digit s = true → lacks "_" s = true.
Proof.
  intros H. unfold lacks. eapply all_chars_impl; [|exact H]. intros a Ha.
  apply negb_true_iff, Ascii.eqb_neq. by intros ->.
Qed.

Lemma all_digits_no_prefix s :
  all_chars is_digit s = true → match s with String a _ => a ≠ "0"%char | _ => True end →
  split_base s = (10%Z, s).
Proof.
  intros Hd H0. destruct s as [|a s]; [done|]. unfold split_base.
  assert (is_byte 48 a = false) as ->.
  { apply N.eqb_neq. intros E. apply H0. by rewrite <- (ascii_N_embedding a), E. }
  by destruct s as [|b [|c s]].
Qed.

Lemma pretty_N_go_head x s :
  (x ≠ 0)%N → match pretty_N_go x s with String a _ => a ≠ "0"%char | _ => False end.
Proof.
  revert s. induction (N.lt_wf_0 x) as [x _ IH]. intros s Hx. rewrite pretty_N_go_step by lia.
  destruct (decide (N.div x 10 = 0)%N) as [E|E]; [|apply IH; [apply N.div_lt; lia|done]].
  rewrite E, pretty_N_go_0. intros H0. apply N.div_small_iff in E; [|done].
  pose proof (digit_pretty (x mod 10)) as Hp. rewrite H0 in Hp.
  rewrite N.mod_small in Hp by done. specialize (Hp E). vm_compute in Hp. by destruct x.
Qed.

Lemma parse_number_pretty (neg : bool) (x : N) :
  (Z.of_N x ≤ if neg then 2 ^ 63 else max_int)%Z →
  parse_number neg (pretty x) = Some (if neg then - Z.of_N x else Z.of_N x)%Z.
Proof.
  intros Hx. assert (Hm : (Z.of_N x ≤ max_uint)%Z) by (unfold max_int, max_uint in *; destruct neg; lia).
  destruct (decide (x = 0)%N) as [->|Hn]; [by destruct neg|].
  pose proof (pretty_N_digits x) as Hd. pose proof (parse_uint_pretty x Hm) as Hu.
  apply base_digits_10 in Hu; [|done].
  assert (split_base (pretty x) = (10%Z, pretty x)) as Hs.
  { apply all_digits_no_prefix; [done|]. unfold pretty, pretty_N. rewrite decide_False by done.
    pose proof (pretty_N_go_head x "" Hn). by destruct (pretty_N_go x ""). }
  pose proof (pretty_N_not_empty x) as Hne. unfold parse_number.
  destruct (pretty x) as [|a s] eqn:E; [done|]. rewrite <- E in *.
  rewrite Hs, Hu. cbn [mbind option_bind]. rewrite (digits_lack_underscore (pretty x)) by done.
  rewrite andb_false_r. unfold max_int in Hx. destruct neg.
  - by destruct (Z.leb_spec (Z.of_N x) (2 ^ 63)); [|lia].
  - by destruct (Z.ltb_spec (Z.of_N x) (2 ^ 63)); [|lia].
Qed.

Lemma ParseInt0_fmt_d z : is_int z → ParseInt0 (fmt_d z) = Some z.
Proof.
  unfold is_int, min_int, max_int. intros Hz. unfold fmt_d. rewrite pretty_Z_unfold.
  destruct (Z.ltb_spec z 0).
  - change (ParseInt0 (String "-" (pretty (Z.to_N (- z))))) with (parse_number true (pretty (Z.to_N (- z)))).
    rewrite parse_number_pretty by lia. f_equal. lia.
  - pose proof (pretty_N_digits (Z.to_N z)) as Hd. pose proof (pretty_N_not_empty (Z.to_N z)).
    pose proof (parse_number_pretty false (Z.to_N z)) as Hp. unfold ParseInt0.
    destruct (pretty (Z.to_N z)) as [|a s] eqn:E; [done|].
    destruct (digits_sign _ a s Hd eq_refl) as [-> ->].
    rewrite Hp by (unfold max_int; lia). f_equal. lia.
Qed.

Lemma Parse_setting m x rest :
  sets m x → Parse m (render x ++ rest) = Parse (<[x.1 := x.2]> m) rest.
Proof.
  destruct x as [n v]. intros (Hn & Hf & old & Ho & Hk). cbn [fst snd] in *. unfold render. cbn [fst snd].
  destruct v as [s|z|[]]; cbn [app Parse].
  - rewrite (classify_flag n Hn), Ho. by destruct old.
  - rewrite (classify_flag n Hn), Ho. destruct old; [done| |done]. cbn [set_value].
    by rewrite ParseInt0_fmt_d.
  - rewrite (classify_flag n Hn), Ho. by destruct old.
  - assert (classify ("--" +:+ n +:+ "=false") = FlagArg n (Some "false")) as ->.
    { destruct n as [|a n]; [done|]. unfold flag_name in Hn. apply andb_true_iff in Hn as [Ha Hl].
      change ("--" +:+ String a n +:+ "=false") with (String "-" (String "-" (String a (n +:+ "=false")))).
      unfold classify. cbn [Ascii.eqb negb Bool.eqb]. apply negb_true_iff in Ha. rewrite Ha.
      assert (Ascii.eqb a "=" = false) as He.
      { unfold lacks in Hl. cbn [all_chars] in Hl. apply andb_true_iff in Hl as [Hl _].
        by apply negb_true_iff in Hl. }
      rewrite He. cbn [orb]. change (String a (n +:+ "=false")) with (String a n +:+ String "=" "false").
      by rewrite (proj2 (cut_at_spec "=" _ (String a n) "false")). }
    rewrite Ho. by destruct old.
Qed.

(** Settings written one after the other are read back, the last of a name wins. *)
Lemma Parse_render m l rest :
  Forall (sets m) l →
  Parse m (flat_map render l ++ rest) = Parse (foldl (λ m x, <[x.1 := x.2]> m) m l) rest.
Proof.
  revert m. induction l as [|x l IH]; intros m Hl; [done|]. apply Forall_cons in Hl as [Hx Hl].
  cbn [flat_map foldl]. rewrite <- app_assoc, Parse_setting by done. apply IH.
  eapply Forall_impl; [exact Hl|]. intros y (Hn & Hf & old & Ho & Hk). split_and!; [done..|].
  destruct Hx as (_ & _ & old' & Ho' & Hk'). destruct (decide (x.1 = y.1)) as [E|E].
  - exists x.2. rewrite E in Ho' |- *. rewrite lookup_insert_eq. split; [done|].
    rewrite Ho in Ho'. injection Ho' as <-. congruence.
  - exists old. by rewrite lookup_insert_ne.
Qed.

(** Parsing never adds a flag and never changes the kind of one. *)
Lemma Parse_kinds m args m' rest n :
  Parse m args = Parsed m' rest → option_map kind (m' !! n) = option_map kind (m !! n).
Proof.
  remember (length args) as k eqn:Hk. assert (length args ≤ k)%nat as Hle by lia. clear Hk.
  revert m args Hle. induction k as [|k IH]; intros m args Hle.
  { destruct args; [|cbn in Hle; lia]. by intros [= -> _]. }
  assert (Hset : ∀ name old v s args', (length args' ≤ k)%nat → m !! name = Some old →
    set_value old s = Some v → Parse (<[name := v]> m) args' = Parsed m' rest →
    option_map kind (m' !! n) = option_map kind (m !! n)).
  { intros name old v s args' Hl Ho Hs Hp. rewrite (IH _ _ Hl Hp). apply set_value_kind in Hs.
    destruct (decide (name = n)) as [<-|].
    - rewrite lookup_insert_eq, Ho. cbn. by f_equal.
    - by rewrite lookup_insert_ne. }
  destruct args as [|s args]; cbn [Parse]; [by intros [= -> _]|].
  cbn in Hle. destruct (classify s) as [| | |name value]; [by intros [= -> _]|by intros [= -> _]|done|].
  destruct (m !! name) as [[]|] eqn:Ho; [..|done].
  1,2: destruct value as [v|]; [|destruct args as [|v args]; [done|cbn in Hle]];
    (destruct (set_value _ v) as [x|] eqn:Es; [|done]);
    intros Hp; (eapply Hset; [|exact Ho|exact Es|exact Hp]; lia).
  destruct (set_value (VBool b) _) as [x|] eqn:Es; [|done].
  intros Hp. eapply Hset; [|exact Ho|exact Es|exact Hp]. lia.
Qed.

Lemma Parse_exit m args code : Parse m args = ExitStatus code → code = 0%Z ∨ code = 2%Z.
Proof.
  remember (length args) as k eqn:Hk. assert (length args ≤ k)%nat as Hle by lia. clear Hk.
  revert m args Hle. induction k as [|k IH]; intros m args Hle.
  { by destruct args; [|cbn in Hle; lia]. }
  destruct args as [|s args]; [done|]. cbn in Hle. cbn [Parse].
  destruct (classify s) as [| | |name value]; [done..|intros [= <-]; by right|].
  destruct (m !! name) as [[]|] eqn:Ho.
  1,2: destruct value as [v|]; [|destruct args as [|v args]; [intros [= <-]; by right|cbn in Hle]];
    (destruct (set_value _ v) as [x|]; [apply IH; lia|intros [= <-]; by right]).
  - destruct (set_value (VBool b) _); [apply IH; lia|intros [= <-]; by right].
  - intros [= <-]. unfold help_or_bad. case_match; [by left|by right].
Qed.
End GoFlag.
Export GoFlag.
