(* ===== verification/Shell.v ===== *)
(** * Shell: how a POSIX shell reads quoted text

    The repository writes commands for a shell in three places: the dmesg
    pipeline of machine.go, and the scripts of the rules vm_test and vm_go_test.
    These are readers of the fragment of the shell's language in which every
    byte stands for itself; on any other text they answer [None].  They are what
    the theorems on quoting are stated against. *)

From S2P Require Import Prelude GoStrings.

(** How a POSIX shell reads one word made of quoted parts: inside single quotes
    every byte stands for itself; inside double quotes all but dollar, backquote
    and backslash do; unquoted, only letters, digits and a few marks do.
    [None]: the text is not one word, or the shell would expand it. *)
Inductive quoting := Unquoted | InSingle | InDouble.
Definition unquoted_safe (a : ascii) : bool :=
  byte_in 48 57 a || byte_in 65 90 a || byte_in 97 122 a
  || byte_in 43 47 a || is_byte 58 a || is_byte 61 a || is_byte 64 a || is_byte 95 a.
Definition double_safe (a : ascii) : bool :=
  negb (is_byte 36 a || is_byte 96 a || is_byte 92 a).
Fixpoint sh_word (mode : quoting) (s : string) : option string :=
  match s with
  | EmptyString => match mode with Unquoted => Some EmptyString | _ => None end
  | String a s' =>
      match mode with
      | InSingle =>
          if Ascii.eqb a quote then sh_word Unquoted s'
          else option_map (String a) (sh_word InSingle s')
      | InDouble =>
          if Ascii.eqb a dquote then sh_word Unquoted s'
          else if double_safe a then option_map (String a) (sh_word InDouble s') else None
      | Unquoted =>
          if Ascii.eqb a quote then sh_word InSingle s'
          else if Ascii.eqb a dquote then sh_word InDouble s'
          else if unquoted_safe a then option_map (String a) (sh_word Unquoted s') else None
      end
  end.

(** Several words, separated by blanks; a backslash outside quotes protects the
    next byte.  [cur] is the word being read, when one has begun. *)
Definition blank (a : ascii) : bool := is_byte 32 a || is_byte 9 a.
Definition push (cur : option string) (a : ascii) : option string :=
  Some (default "" cur +:+ String a "").
Definition emit_word (cur : option string) (ws : list string) : list string :=
  match cur with Some w => w :: ws | None => ws end.
Fixpoint sh_split (mode : quoting) (cur : option string) (s : string) : option (list string) :=
  match s with
  | EmptyString => match mode with Unquoted => Some (emit_word cur []) | _ => None end
  | String a s' =>
      match mode with
      | InSingle =>
          if Ascii.eqb a quote then sh_split Unquoted cur s' else sh_split InSingle (push cur a) s'
      | InDouble =>
          if Ascii.eqb a dquote then sh_split Unquoted cur s'
          else if double_safe a then sh_split InDouble (push cur a) s' else None
      | Unquoted =>
          if Ascii.eqb a quote then sh_split InSingle (Some (default "" cur)) s'
          else if Ascii.eqb a dquote then sh_split InDouble (Some (default "" cur)) s'
          else if blank a then option_map (emit_word cur) (sh_split Unquoted None s')
          else if is_byte 92 a
          then match s' with
               | String b s'' => if Ascii.eqb b newline then None else sh_split Unquoted (push cur b) s''
               | EmptyString => None
               end
          else if unquoted_safe a then sh_split Unquoted (push cur a) s' else None
      end
  end.
Definition sh_words (s : string) : option (list string) := sh_split Unquoted None s.

(** A word that needs no quotes. *)
Definition bare_word (s : string) : bool := negb (String.eqb s "") && all_chars unquoted_safe s.

(** ** Lemmas *)

Lemma push_append w a s : default "" (push (Some w) a) +:+ s = w +:+ String a s.
Proof. cbn. by rewrite append_assoc. Qed.

Lemma unquoted_safe_plain a : unquoted_safe a = true →
  Ascii.eqb a quote = false ∧ Ascii.eqb a dquote = false ∧ blank a = false ∧ is_byte 92 a = false.
Proof.
  intros H. unfold unquoted_safe, byte_in, is_byte in H. unfold blank, is_byte.
  split_and!; [apply Ascii.eqb_neq; intros ->; by vm_compute in H..|lia|lia].
Qed.

Lemma sh_split_bare w s rest :
  all_chars unquoted_safe s = true →
  sh_split Unquoted (Some w) (s +:+ rest) = sh_split Unquoted (Some (w +:+ s)) rest.
Proof.
  revert w. induction s as [|a s IH]; intros w Hs; [by rewrite append_nil_r|].
  cbn [all_chars] in Hs. apply andb_true_iff in Hs as [Ha Hs].
  destruct (unquoted_safe_plain a Ha) as (E1 & E2 & E3 & E4).
  change (String a s +:+ rest) with (String a (s +:+ rest)). cbn [sh_split].
  rewrite E1, E2, E3, E4, Ha. unfold push. rewrite IH by done. cbn [default].
  by rewrite append_assoc.
Qed.

Lemma sh_split_bare_word s rest :
  bare_word s = true → sh_split Unquoted None (s +:+ rest) = sh_split Unquoted (Some s) rest.
Proof.
  unfold bare_word. intros [Hn Hs]%andb_true_iff. destruct s as [|a s]; [done|].
  cbn [all_chars] in Hs. apply andb_true_iff in Hs as [Ha Hs].
  destruct (unquoted_safe_plain a Ha) as (E1 & E2 & E3 & E4).
  change (String a s +:+ rest) with (String a (s +:+ rest)). cbn [sh_split].
  rewrite E1, E2, E3, E4, Ha. unfold push. by rewrite sh_split_bare.
Qed.

(** Text in double quotes whose bytes all stand for themselves. *)
Definition double_text (a : ascii) : bool := double_safe a && negb (Ascii.eqb a dquote).
Lemma sh_split_double w s rest :
  all_chars double_text s = true →
  sh_split InDouble (Some w) (s +:+ String dquote rest) = sh_split Unquoted (Some (w +:+ s)) rest.
Proof.
  revert w. induction s as [|a s IH]; intros w Hs; [by rewrite append_nil_r|].
  cbn [all_chars] in Hs. apply andb_true_iff in Hs as [[Ha Hq]%andb_true_iff Hs].
  apply negb_true_iff in Hq. change (String a s +:+ String dquote rest) with (String a (s +:+ String dquote rest)).
  cbn [sh_split]. rewrite Hq, Ha. unfold push. rewrite IH by done. cbn [default]. by rewrite append_assoc.
Qed.
