(* ===== verification/ShellScript.v ===== *)
(** * ShellScript: how bash reads and runs the scripts of the rules

    vm_test and vm_go_test write a script that sets a few variables and ends in
    [exec].  [sh_script] reads such a text byte by byte into its commands, each a
    list of words: quotes as in Shell, comments, the arguments of the script for
    a quoted dollar-at, its own path for BASH_SOURCE.  [run_script] runs them up
    to the program they become.  Any other text is answered with [None]. *)

From S2P Require Import Prelude GoStrings Shell.

Inductive reading := Text (q : quoting) | Escaped | Dollar | Brace (name : string) | AllArgs | AfterArgs | Comment.

Definition end_command (ws : list string) (cs : list (list string)) : list (list string) :=
  match ws with [] => cs | _ => ws :: cs end.

(** How each of these scripts begins. *)
Definition script_head : string := "#!/bin/bash" +:+ newline_s +:+ "set -euo pipefail" +:+ newline_s.

Section Script.
(** The path of the script and its arguments. *)
Variables (self : string) (args : list string).

(** [cur]: the word being read, when one has begun; [ws]: the words before it. *)
Fixpoint sh_script (mode : reading) (cur : option string) (ws : list string) (s : string)
    : option (list (list string)) :=
  match s with
  | EmptyString =>
      match mode with
      | Text Unquoted | AfterArgs | Comment => Some (end_command (ws ++ emit_word cur []) [])
      | _ => None
      end
  | String a s' =>
      let next_command := option_map (end_command (ws ++ emit_word cur [])) (sh_script (Text Unquoted) None [] s') in
      let next_word := sh_script (Text Unquoted) None (ws ++ emit_word cur []) s' in
      match mode with
      | Text InSingle =>
          if Ascii.eqb a quote then sh_script (Text Unquoted) cur ws s'
          else sh_script (Text InSingle) (push cur a) ws s'
      | Text InDouble =>
          if Ascii.eqb a dquote then sh_script (Text Unquoted) cur ws s'
          else if double_safe a then sh_script (Text InDouble) (push cur a) ws s'
          else if is_byte 36 a then sh_script Dollar cur ws s' else None
      | Text Unquoted =>
          if Ascii.eqb a quote then sh_script (Text InSingle) (Some (default "" cur)) ws s'
          else if Ascii.eqb a dquote then sh_script (Text InDouble) (Some (default "" cur)) ws s'
          else if blank a then next_word
          else if is_byte 92 a then sh_script Escaped cur ws s'
          else if unquoted_safe a then sh_script (Text Unquoted) (push cur a) ws s'
          else if Ascii.eqb a newline then next_command
          else if is_byte 35 a && negb (bool_decide (is_Some cur)) then sh_script Comment None ws s'
          else None
      | Escaped => if Ascii.eqb a newline then None else sh_script (Text Unquoted) (push cur a) ws s'
      | Dollar =>
          if is_byte 123 a then sh_script (Brace "") cur ws s'
          else if is_byte 64 a && bool_decide (cur = Some "") then sh_script AllArgs None ws s'
          else None
      | Brace n =>
          if is_byte 125 a
          then if String.eqb n "BASH_SOURCE[0]"
               then sh_script (Text InDouble) (Some (default "" cur +:+ self)) ws s' else None
          else sh_script (Brace (n +:+ String a "")) cur ws s'
      | AllArgs => if Ascii.eqb a dquote then sh_script AfterArgs None (ws ++ args) s' else None
      | AfterArgs =>
          if blank a then next_word else if Ascii.eqb a newline then next_command else None
      | Comment => if Ascii.eqb a newline then next_command else sh_script Comment cur ws s'
      end
  end.
Definition sh_commands (s : string) : option (list (list string)) := sh_script (Text Unquoted) None [] s.

(** A plain assignment reaches the programs that are run only when the variable
    was in the environment already. *)
Definition assign (k v : string) (env : gmap string string) : gmap string string :=
  match env !! k with Some _ => <[k := v]> env | None => env end.
(** Up to [exec]: the program with its arguments, and its environment.  The
    options set are about failures only, and nothing before [exec] fails. *)
Fixpoint run_commands (cs : list (list string)) (env : gmap string string)
    : option (list string * gmap string string) :=
  match cs with
  | [] => None
  | [] :: cs' => run_commands cs' env
  | (cmd :: ws) :: cs' =>
      if String.eqb cmd "exec" then match ws with [] => None | _ => Some (ws, env) end
      else if String.eqb cmd "set" then if bool_decide (ws = ["-euo"; "pipefail"]) then run_commands cs' env else None
      else if String.eqb cmd "export" then
        match ws with
        | [w] => match cut_at "=" w with Some (k, v) => run_commands cs' (<[k := v]> env) | None => None end
        | _ => None
        end
      else match ws, cut_at "=" cmd with [], Some (k, v) => run_commands cs' (assign k v env) | _, _ => None end
  end.
Definition run_script (s : string) (env : gmap string string) : option (list string * gmap string string) :=
  cs ← sh_commands s; run_commands cs env.

(** ** Lemmas *)

(** What [sh_split] reads, [sh_script] reads. *)
Lemma sh_script_split s : ∀ q cur ws l, sh_split q cur s = Some l →
  ∃ ws1 cur1, l = ws1 ++ emit_word cur1 [] ∧
    ∀ rest, sh_script (Text q) cur ws (s +:+ rest) = sh_script (Text Unquoted) cur1 (ws ++ ws1) rest.
Proof.
  remember (String.length s) as n eqn:En. assert (Hn : (String.length s ≤ n)%nat) by lia. clear En.
  revert s Hn. induction n as [|n IH]; intros [|a s] Hn q cur ws l; cbn [String.length] in Hn; try lia.
  1,2: destruct q; try done; cbn; intros [= <-]; exists [], cur; split; [done|]; intros rest; by rewrite app_nil_r.
  assert (Hs : (String.length s ≤ n)%nat) by lia.
  change (String a s +:+ ?r) with (String a (s +:+ r)).
  destruct q; cbn [sh_split].
  - destruct (Ascii.eqb a quote) eqn:E1.
    { intros (ws1 & cur1 & -> & E)%(IH _ Hs _ _ ws). exists ws1, cur1. split; [done|]. intros rest.
      cbn [sh_script]. by rewrite E1, E. }
    destruct (Ascii.eqb a dquote) eqn:E2.
    { intros (ws1 & cur1 & -> & E)%(IH _ Hs _ _ ws). exists ws1, cur1. split; [done|]. intros rest.
      cbn [sh_script]. by rewrite E1, E2, E. }
    destruct (blank a) eqn:E3.
    { destruct (sh_split Unquoted None s) as [l'|] eqn:El; [|done]. intros [= <-].
      apply (IH _ Hs _ _ (ws ++ emit_word cur [])) in El as (ws1 & cur1 & -> & E).
      exists (emit_word cur [] ++ ws1), cur1. split; [by destruct cur|]. intros rest.
      cbn [sh_script]. by rewrite E1, E2, E3, E, app_assoc. }
    destruct (is_byte 92 a) eqn:E4.
    { destruct s as [|b s]; [done|]. destruct (Ascii.eqb b newline) eqn:E5; [done|]. cbn [String.length] in Hs.
      intros (ws1 & cur1 & -> & E)%(IH s ltac:(lia) _ _ ws). exists ws1, cur1. split; [done|]. intros rest.
      change (String b s +:+ rest) with (String b (s +:+ rest)). cbn [sh_script]. by rewrite E1, E2, E3, E4, E5, E. }
    destruct (unquoted_safe a) eqn:E5; [|done].
    intros (ws1 & cur1 & -> & E)%(IH _ Hs _ _ ws). exists ws1, cur1. split; [done|]. intros rest.
    cbn [sh_script]. by rewrite E1, E2, E3, E4, E5, E.
  - destruct (Ascii.eqb a quote) eqn:E1; intros (ws1 & cur1 & -> & E)%(IH _ Hs _ _ ws);
      exists ws1, cur1; (split; [done|]); intros rest; cbn [sh_script]; by rewrite E1, E.
  - destruct (Ascii.eqb a dquote) eqn:E1; [|destruct (double_safe a) eqn:E2; [|done]];
      intros (ws1 & cur1 & -> & E)%(IH _ Hs _ _ ws);
      exists ws1, cur1; (split; [done|]); intros rest; cbn [sh_script]; by rewrite E1, ?E2, E.
Qed.

Lemma sh_script_line q cur ws s l rest :
  sh_split q cur s = Some l →
  sh_script (Text q) cur ws (s +:+ String newline rest) = option_map (end_command (ws ++ l)) (sh_commands rest).
Proof. intros (ws1 & cur1 & -> & E)%(sh_script_split s _ _ ws). by rewrite E, app_assoc. Qed.
Lemma sh_commands_line s l rest :
  sh_words s = Some l → sh_commands (s +:+ String newline rest) = option_map (end_command l) (sh_commands rest).
Proof. apply (sh_script_line _ _ []). Qed.
(** The last line: words, then the arguments of the script. *)
Definition all_args : string := " " +:+ String dquote ("$@" +:+ String dquote (String newline "")).
Lemma sh_commands_exec s l : l ≠ [] → sh_words s = Some l → sh_commands (s +:+ all_args) = Some [l ++ args].
Proof.
  intros Hl (ws & cur & -> & E)%(sh_script_split s _ _ []). unfold sh_commands. rewrite E.
  change (sh_script (Text Unquoted) cur ([] ++ ws) all_args)
    with (Some (end_command (((ws ++ emit_word cur []) ++ args) ++ []) [])). rewrite app_nil_r.
  by destruct (ws ++ emit_word cur []).
Qed.
Lemma sh_commands_head rest :
  sh_commands (script_head +:+ rest) = option_map (cons ["set"; "-euo"; "pipefail"]) (sh_commands rest).
Proof.
  change (sh_commands (script_head +:+ rest))
    with (option_map (end_command []) (option_map (end_command ["set"; "-euo"; "pipefail"]) (sh_commands rest))).
  by destruct (sh_commands rest).
Qed.
Lemma run_exec ws env : ws ≠ [] → run_commands ["exec" :: ws] env = Some (ws, env).
Proof. by destruct ws. Qed.
Lemma run_assignment k v cs env :
  lacks "=" k = true → run_commands ([k +:+ String "=" v] :: cs) env = run_commands cs (assign k v env).
Proof.
  intros Hk. assert (Hc : cut_at "=" (k +:+ String "=" v) = Some (k, v)) by by apply cut_at_spec.
  cbn [run_commands]. rewrite Hc.
  assert (Hne : ∀ w, cut_at "=" w = None → String.eqb (k +:+ String "=" v) w = false).
  { intros w Hw. apply String.eqb_neq. intros <-. by rewrite Hc in Hw. }
  by rewrite !Hne.
Qed.
End Script.

(** A constant path between double quotes is one word. *)
Lemma sh_words_exec p : all_chars double_text p = true →
  sh_words ("exec " +:+ String dquote (p +:+ String dquote "")) = Some ["exec"; p].
Proof.
  intros Hp. unfold sh_words.
  change (sh_split Unquoted None ("exec " +:+ String dquote ?r))
    with (option_map (cons "exec") (sh_split InDouble (Some "") r)).
  by rewrite sh_split_double.
Qed.
