(* ===== verification/VmLib.v ===== *)
(** * VmLib: what the program relies on outside its own source

    The package [github.com/mikn/rules_qemu/vm] is not part of the repository.
    Its options are kept as the calls that build them ([VmOption]); what its
    methods do is a parameter, the class [VmPackage], over an unknown outside
    world [Ext].  The same class carries the two answers of the host the
    [machine] package asks for directly: the contents of a host file and how
    far a sleep overshoots. *)

From S2P Require Import Prelude GoStrings.

(** ** Durations, in nanoseconds *)

Definition Nanosecond : Z := 1.
Definition Millisecond : Z := 10 ^ 6.
Definition Second : Z := 10 ^ 9.
Definition Minute : Z := 60 * Second.

(** Go's [int64] and [time.Duration]: 64 bits, two's complement. *)
Definition wrap64 (z : Z) : Z := ((z + 2 ^ 63) mod 2 ^ 64 - 2 ^ 63)%Z.
Lemma wrap64_small z : (- 2 ^ 63 ≤ z < 2 ^ 63)%Z → wrap64 z = z.
Proof. intros Hz. unfold wrap64. rewrite Z.mod_small by lia. lia. Qed.
Lemma wrap64_range z : (- 2 ^ 63 ≤ wrap64 z < 2 ^ 63)%Z.
Proof. unfold wrap64. pose proof (Z.mod_pos_bound (z + 2 ^ 63) (2 ^ 64)). lia. Qed.

(** An error value that comes from outside, known by its text only. *)
Definition error : Type := string.

(** ** Options of the [vm] package, as the calls that make them

    [OtherVmOption] stands for an option the caller of the library brings and
    this repository never builds itself. *)
Inductive VmOption :=
| WithQemuBinary (path : string)
| WithQemuImg (path : string)
| WithMachineType (base : string)
| WithAccel (accel : string)
| WithKernelBoot (kernel initrd cmdline : string)
| WithUEFI (code vars : string)
| WithISO (path : string)
| WithExistingDisk (path : string)
| WithDisk (size : string)
| WithMemory (size : string)
| WithCPUs (n : Z)
| WithTPM (swtpm swtpm_setup : string)
| WithNoNetwork
| WithUserNet
| WithPortForward (guest_port : Z)
| WithTapDevice (tap bridge : string)
| WithMacAddress (mac : string)
| WithAgent
| WithSerialCapture
| WithQMP
| WithName (name : string)
| WithWorkDir (dir : string)
| With9PShare (tag dir : string)
| OtherVmOption (description : string).

#[export] Instance VmOption_eq_dec : EqDecision VmOption.
Proof. solve_decision. Defined.

(** ** Replies of the guest agent (fields the program reads) *)

Record ExecResponse := { Stdout : string; Stderr : string; ExitCode : Z }.
Record UnitResponse := { ActiveState : string; SubState : string }.
Record StatResponse := { Exists : bool; Size : Z }.
Record HTTPGetResponse := { RespStatusCode : Z; RespBody : string }.
Record ProcessEntry :=
  { EntryPID : Z; EntryUID : Z; EntryGID : Z; EntryCmdline : string; EntryState : string }.
Record AddrEntry := { AddrInterface : string; Address : string }.
Record RouteEntry := { RouteDestination : string; RouteGateway : string; RouteInterface : string }.
Record LinkEntry := { LinkName : string; LinkState : string; LinkMTU : Z }.
Record NetworkInfoResponse :=
  { RespAddrs : list AddrEntry; RespRoutes : list RouteEntry; RespLinks : list LinkEntry }.

(** ** The outside world

    A call answers, takes some nanoseconds and leaves the world changed. *)
Definition answer (Ext R : Type) : Type := Ext → result error R * (N * Ext).

Class VmPackage := {
  Ext : Type;
  (** Handles: [*vm.VM], [*vm.AgentConn], [*vm.SerialConsole], [*vm.Bridge],
      [*vm.QMPClient]. *)
  VM : Type;
  AgentConn : Type;
  SerialConsole : Type;
  Bridge : Type;
  QMPClient : Type;

  vm_Start : list VmOption → answer Ext VM;
  vm_Kill : option VM → Ext → N * Ext;
  vm_Stop : option VM → answer Ext unit;
  vm_ForwardedPort : VM → Z → Ext → Z;
  vm_AgentSocketPath : VM → string;
  vm_Serial : option VM → Ext → option SerialConsole;
  serial_OnLine : SerialConsole → Ext → N * Ext;
  vm_QMP : option VM → Ext → option QMPClient;
  vm_ConnectAgent : Z → string → answer Ext AgentConn;
  bridge_AllocateTap : Bridge → answer Ext string;
  bridge_Name : Bridge → string;

  agent_Exec : AgentConn → Z → string → Z → answer Ext ExecResponse;
  agent_Background : AgentConn → list string → answer Ext string;
  agent_UnitStatus : AgentConn → string → answer Ext UnitResponse;
  agent_CheckPort : AgentConn → Z → answer Ext bool;
  agent_Stat : AgentConn → string → answer Ext StatResponse;
  agent_WriteFile : AgentConn → string → string → Z → answer Ext unit;
  agent_ReadFile : AgentConn → string → answer Ext string;
  agent_Listen : AgentConn → Z → answer Ext unit;
  agent_FileHash : AgentConn → string → string → answer Ext string;
  agent_HTTPGet : AgentConn → string → answer Ext HTTPGetResponse;
  agent_JournalLines : AgentConn → string → Z → string → answer Ext (list string);
  agent_FindProcesses : AgentConn → string → answer Ext (list ProcessEntry);
  agent_NetworkInfo : AgentConn → string → answer Ext NetworkInfoResponse;
  agent_Close : AgentConn → Ext → N * Ext;

  host_ReadFile : string → answer Ext string;
  host_oversleep : Z → Ext → N * Ext;
}.

(** ** Regular expressions

    Go's package [regexp]: [Compile pattern] is [None] for a pattern that does
    not compile, else it gives the submatches of the leftmost match in a text. *)
Class Regexp := { Compile : string → option (string → option (list string)) }.
