(* ===== verification/TestWorld.v ===== *)
(** * TestWorld: the state a test runs in

    A Go test that drives a VM touches: the clock, the outside world behind
    the [vm] package, and its [testing.TB] (failure flag, log, cleanup stack).
    [World] is that state; [trace] records, with the time it was made, every
    call that leaves the process.  Closures given to [t.Cleanup] are data
    ([cleanup]): the file [MachineDump] interprets them.  One [testing.TB] is
    modelled; a test that hands methods the [TB] of a subtest has one such
    state per [TB]. *)

From S2P Require Import Prelude GoStrings VmLib.

(** ** What [DumpOnFailure] is told to collect (machine.go, [dumpConfig])

    A Go slice is [None] when nil, which an empty slice is not. *)
Record dumpConfig := {
  journalUnits : list string;
  dmesgFilters : option (list string);
  processGlob : string;
  fileGlobs : list string;
  hasOptions : bool;
}.

Section World.
Context {P : VmPackage}.

(** machine.go, [type Machine]; a nil [*vm.VM] is [None]. *)
Record Machine := {
  vm : option VM;
  agent : AgentConn;
}.

(** The two closures the program registers with [t.Cleanup].  [logDone] is the
    channel of the goroutine that logs a serial console's lines, known by that
    console; nil is [None]. *)
Inductive cleanup :=
| CloseMachine (m : Machine) (logDone : option SerialConsole)
| DumpDiagnostics (m : Machine) (dc : dumpConfig).

(** Calls that leave the process. *)
Inductive call :=
| CallStart (opts : list VmOption)
| CallKill (v : option VM)
| CallStop (v : option VM)
| CallConnectAgent (budget : Z) (socket : string)
| CallAllocateTap (b : Bridge)
| CallExec (budget : Z) (cmd : string) (wait : Z)
| CallBackground (argv : list string)
| CallUnitStatus (unit : string)
| CallCheckPort (port : Z)
| CallStat (path : string)
| CallWriteFile (path data : string) (mode : Z)
| CallReadFile (path : string)
| CallListen (port : Z)
| CallFileHash (path algo : string)
| CallHTTPGet (url : string)
| CallJournalLines (unit : string) (lines : Z) (since : string)
| CallFindProcesses (pattern : string)
| CallNetworkInfo (iface : string)
| CallClose (a : AgentConn)
| CallHostReadFile (path : string)
| CallOnLine (serial : SerialConsole)
| WaitLogDone (serial : SerialConsole)
| CallScanForMarker (deadline : Z).

(** The [t.Fatalf] sites of machine.go, with the values their messages print. *)
Inductive fatal :=
| NewStart (e : error)
| NewConnect (e : error)
| SucceedRPC (cmd : string) (e : error)
| SucceedExit (cmd : string) (code : Z) (stdout stderr : string)
| BackgroundFailed (argv : list string) (e : error)
| FailRPC (cmd : string) (e : error)
| FailExitedZero (cmd : string)
| UntilSucceedsRPC (cmd : string) (timeout : Z) (e : error)
| UntilSucceedsExit (cmd : string) (timeout code : Z) (stdout stderr : string)
| UnitFailed (unit sub : string)
| UnitTimeout (unit : string) (timeout : Z)
| OpenPortTimeout (port timeout : Z)
| ClosedPortTimeout (port timeout : Z)
| FileTimeout (path : string) (timeout : Z)
| CopyHost (path : string) (e : error)
| CopyGuest (path : string) (e : error)
| ListenFailed (port : Z) (e : error)
| ShutdownFailed (e : error)
| UntilOutputRPC (cmd : string) (timeout : Z) (e : error)
| UntilOutputMismatch (cmd : string) (timeout code : Z) (stdout stderr : string)
| ReadFileFailed (path : string) (e : error)
| FileHashFailed (path algo : string) (e : error)
| FileSizeFailed (path : string) (e : error)
| FileSizeMissing (path : string)
| HTTPGetFailed (url : string) (e : error)
| HTTPTimeout (url : string) (timeout status : Z)
| JournalFailed (unit : string) (e : error)
| LogTimeout (unit pattern : string) (timeout : Z)
| FindProcessesFailed (pattern : string) (e : error)
| AddrsFailed (iface : string) (e : error)
| RoutesFailed (e : error)
| LinksFailed (e : error)
| EnvCPUs (value : string)
| EnvPort (value : string).

(** How a run can stop short.  [OutOfFuel] is the model's own: a loop was cut. *)
Inductive stop :=
| Fatal (f : fatal)
| PanicBridge (e : error)
| PanicIndex
| PanicRegexp (pattern : string)
| OutOfFuel.

Inductive log_entry :=
| LogLine (s : string)
| LogTiming (label : string) (elapsed : Z)
| LogFatal (f : fatal).

Record World := {
  now : Z;
  ext : Ext;
  environ : gmap string string;
  failed : bool;
  log : list log_entry;
  cleanups : list cleanup;
  trace : list (Z * call);
}.

#[local] Notation TestM := (M World stop).

Definition set_now (t : Z) (w : World) : World :=
  {| now := t; ext := ext w; environ := environ w; failed := failed w; log := log w;
     cleanups := cleanups w; trace := trace w |}.
Definition set_ext (g : Ext) (w : World) : World :=
  {| now := now w; ext := g; environ := environ w; failed := failed w; log := log w;
     cleanups := cleanups w; trace := trace w |}.
Definition set_failed (w : World) : World :=
  {| now := now w; ext := ext w; environ := environ w; failed := true; log := log w;
     cleanups := cleanups w; trace := trace w |}.
Definition add_log (l : log_entry) (w : World) : World :=
  {| now := now w; ext := ext w; environ := environ w; failed := failed w;
     log := log w ++ [l]; cleanups := cleanups w; trace := trace w |}.
(** [t.Cleanup]: the last function registered runs first. *)
Definition push_cleanup (c : cleanup) (w : World) : World :=
  {| now := now w; ext := ext w; environ := environ w; failed := failed w; log := log w;
     cleanups := c :: cleanups w; trace := trace w |}.
Definition set_cleanups (cs : list cleanup) (w : World) : World :=
  {| now := now w; ext := ext w; environ := environ w; failed := failed w; log := log w;
     cleanups := cs; trace := trace w |}.
Definition add_trace (c : call) (w : World) : World :=
  {| now := now w; ext := ext w; environ := environ w; failed := failed w; log := log w;
     cleanups := cleanups w; trace := trace w ++ [(now w, c)] |}.

(** ** The standard library's part *)

(** [os.Getenv]: an unset variable reads as the empty string. *)
Definition Getenv (env : gmap string string) (k : string) : string := default "" (env !! k).

Definition Logf (s : string) : TestM () := modify (add_log (LogLine s)).
Definition Cleanup (c : cleanup) : TestM () := modify (push_cleanup c).
(** [t.Fatalf]: log, mark the test failed, leave the goroutine. *)
Definition Fatalf {A} (f : fatal) : TestM A := λ w,
  (Err (Fatal f), set_failed (add_log (LogFatal f) w)).

(** A call to the outside: recorded, then answered after its duration. *)
Definition outside {R} (c : call) (f : answer Ext R) : TestM (result error R) := λ w,
  let w1 := add_trace c w in
  let '(r, (d, g)) := f (ext w1) in
  (Ok r, set_ext g (set_now (now w1 + Z.of_N d) w1)).
Definition outside_void (c : call) (f : Ext → N * Ext) : TestM () := λ w,
  let w1 := add_trace c w in
  let '(d, g) := f (ext w1) in
  (Ok tt, set_ext g (set_now (now w1 + Z.of_N d) w1)).

(** [time.Sleep(d)]: at least [d], and at once when [d] is not positive. *)
Definition Sleep (d : Z) : TestM () := λ w,
  if (d <=? 0)%Z then (Ok tt, w)
  else let '(over, g) := host_oversleep d (ext w) in
       (Ok tt, set_ext g (set_now (now w + d + Z.of_N over) w)).

(** [if err != nil { t.Fatalf(..) }] around a call. *)
Definition must {R} (f : error → fatal) (r : result error R) : TestM R :=
  match r with
  | Ok x => mret x
  | Err e => Fatalf (f e)
  end.

(** ** What every operation keeps

    Time never runs backwards, the trace, the log and the cleanup stack only
    grow, a failed test stays failed, the environment is only read. *)
Record later (w w' : World) : Prop := {
  later_now : (now w ≤ now w')%Z;
  later_environ : environ w' = environ w;
  later_failed : failed w = true → failed w' = true;
  later_log : ∃ l, log w' = log w ++ l;
  later_trace : ∃ l, trace w' = trace w ++ l;
}.

#[export] Instance later_preorder : PreOrder later.
Proof.
  split.
  - intros w. split; eauto with lia; by exists []; rewrite app_nil_r.
  - intros w1 w2 w3 [A1 A2 A3 [l1 A4] [m1 A5]] [B1 B2 B3 [l2 B4] [m2 B5]]. split.
    + lia.
    + congruence.
    + auto.
    + exists (l1 ++ l2). by rewrite B4, A4, app_assoc.
    + exists (m1 ++ m2). by rewrite B5, A5, app_assoc.
Qed.

Lemma later_same w : later w w.
Proof. reflexivity. Qed.

Ltac solve_later :=
  split; cbn; try lia; try done; eauto; try (by eexists); by exists []; rewrite app_nil_r.

Lemma Logf_later s : preserves later (Logf s).
Proof. intros w. solve_later. Qed.
Lemma Cleanup_later c : preserves later (Cleanup c).
Proof. intros w. solve_later. Qed.
Lemma Fatalf_later {A} f : preserves later (Fatalf f : TestM A).
Proof. intros w. solve_later. Qed.
Lemma outside_later {R} c (f : answer Ext R) : preserves later (outside c f).
Proof. intros w. unfold outside. destruct (f _) as [r [d g]]. solve_later. Qed.
Lemma outside_void_later c f : preserves later (outside_void c f).
Proof. intros w. unfold outside_void. destruct (f _) as [d g]. solve_later. Qed.
Lemma Sleep_later d : preserves later (Sleep d).
Proof.
  intros w. unfold Sleep. case_bools; [reflexivity|].
  destruct (host_oversleep _ _) as [o g]. solve_later.
Qed.
Lemma must_later {R} f (r : result error R) : preserves later (must f r).
Proof. destruct r; cbn; [apply preserves_ret, _|apply Fatalf_later]. Qed.

Lemma wp_Fatalf {A} f (Q : result stop A → World → Prop) w :
  (∀ w', failed w' = true → now w' = now w → later w w' → trace w' = trace w →
         Q (Err (Fatal f)) w') →
  wp (Fatalf f) Q w.
Proof. intros H. apply H; [done..| |done]. apply (Fatalf_later (A:=A)). Qed.

(** A sleep of a positive duration lasts at least that long. *)
Lemma Sleep_now d w : ((now w + Z.max 0 d) ≤ now (Sleep d w).2)%Z.
Proof.
  unfold Sleep. case_bools; [lia|]. destruct (host_oversleep _ _) as [o g]. cbn. lia.
Qed.
Lemma Sleep_ok d w : (Sleep d w).1 = Ok tt.
Proof. unfold Sleep. case_bools; [done|]. by destruct (host_oversleep _ _). Qed.
Lemma Sleep_trace d w : trace (Sleep d w).2 = trace w.
Proof. unfold Sleep. case_bools; [done|]. by destruct (host_oversleep _ _). Qed.
End World.

(** Computations of the test process. *)
Notation TestM := (M World stop).

#[export] Hint Resolve Logf_later Cleanup_later Fatalf_later outside_later
  outside_void_later Sleep_later must_later later_same : preserve.
