(* ===== verification/ScriptedVm.v ===== *)
(** * ScriptedVm: a concrete outside world

    An instance of [VmPackage] that answers from scripts, the way the mock
    agent of machine_integration_test.go does: each kind of call has the list
    of its coming answers; a call takes a millisecond; sleeps are exact.  The
    theorems are stated for every instance; this one shows that their
    hypotheses can hold, and evaluates. *)

From S2P Require Import Prelude GoStrings GoStrconv VmLib TestWorld.

Record Script := {
  boots : bool;
  connects : bool;
  serial_on : bool;
  next_tap : nat;
  execs : list (result error ExecResponse);
  units : list (result error UnitResponse);
  ports : list (result error bool);
  pages : list (result error HTTPGetResponse);
  journals : list (result error (list string));
  processes : list (result error (list ProcessEntry));
  networks : list (result error NetworkInfoResponse);
  guest_files : gmap string string;
  host_files : gmap string string;
}.

Definition idle : Script := {|
  boots := true; connects := true; serial_on := true; next_tap := 1;
  execs := []; units := []; ports := []; pages := []; journals := [];
  processes := []; networks := []; guest_files := ∅; host_files := ∅ |}.

Definition tick : N := 1000000.
Definition exhausted : error := "script exhausted".

Definition set_execs l s := {|
  boots := boots s; connects := connects s; serial_on := serial_on s; next_tap := next_tap s;
  execs := l; units := units s; ports := ports s; pages := pages s;
  journals := journals s; processes := processes s; networks := networks s;
  guest_files := guest_files s; host_files := host_files s |}.
Definition set_units l s := {|
  boots := boots s; connects := connects s; serial_on := serial_on s; next_tap := next_tap s;
  execs := execs s; units := l; ports := ports s; pages := pages s;
  journals := journals s; processes := processes s; networks := networks s;
  guest_files := guest_files s; host_files := host_files s |}.
Definition set_ports l s := {|
  boots := boots s; connects := connects s; serial_on := serial_on s; next_tap := next_tap s;
  execs := execs s; units := units s; ports := l; pages := pages s;
  journals := journals s; processes := processes s; networks := networks s;
  guest_files := guest_files s; host_files := host_files s |}.
Definition set_pages l s := {|
  boots := boots s; connects := connects s; serial_on := serial_on s; next_tap := next_tap s;
  execs := execs s; units := units s; ports := ports s; pages := l;
  journals := journals s; processes := processes s; networks := networks s;
  guest_files := guest_files s; host_files := host_files s |}.
Definition set_journals l s := {|
  boots := boots s; connects := connects s; serial_on := serial_on s; next_tap := next_tap s;
  execs := execs s; units := units s; ports := ports s; pages := pages s;
  journals := l; processes := processes s; networks := networks s;
  guest_files := guest_files s; host_files := host_files s |}.
Definition set_processes l s := {|
  boots := boots s; connects := connects s; serial_on := serial_on s; next_tap := next_tap s;
  execs := execs s; units := units s; ports := ports s; pages := pages s;
  journals := journals s; processes := l; networks := networks s;
  guest_files := guest_files s; host_files := host_files s |}.
Definition set_networks l s := {|
  boots := boots s; connects := connects s; serial_on := serial_on s; next_tap := next_tap s;
  execs := execs s; units := units s; ports := ports s; pages := pages s;
  journals := journals s; processes := processes s; networks := l;
  guest_files := guest_files s; host_files := host_files s |}.
Definition set_tap n s := {|
  boots := boots s; connects := connects s; serial_on := serial_on s; next_tap := n;
  execs := execs s; units := units s; ports := ports s; pages := pages s;
  journals := journals s; processes := processes s; networks := networks s;
  guest_files := guest_files s; host_files := host_files s |}.
Definition set_guest_files f s := {|
  boots := boots s; connects := connects s; serial_on := serial_on s; next_tap := next_tap s;
  execs := execs s; units := units s; ports := ports s; pages := pages s;
  journals := journals s; processes := processes s; networks := networks s;
  guest_files := f; host_files := host_files s |}.

(** Take the next answer of a script. *)
Definition next {R} (get : Script → list (result error R))
    (set : list (result error R) → Script → Script) : answer Script R := λ s,
  match get s with
  | [] => (Err exhausted, (tick, s))
  | r :: l => (r, (tick, set l s))
  end.
Definition reply {R} (r : Script → result error R) : answer Script R := λ s, (r s, (tick, s)).
Definition found {R} (o : option R) : result error R :=
  match o with Some x => Ok x | None => Err "no such file" end.

#[export] Instance ScriptedVm : VmPackage := {|
  Ext := Script;
  VM := list VmOption;
  AgentConn := ();
  SerialConsole := ();
  Bridge := string;
  vm_Start := λ opts, reply (λ s, if boots s then Ok opts else Err "cannot start");
  vm_Kill := λ _ s, (tick, s);
  vm_Stop := λ _, reply (λ _, Ok tt);
  vm_ForwardedPort := λ opts p _,
    if decide (WithPortForward p ∈ opts) then (p + 40000)%Z else 0%Z;
  vm_AgentSocketPath := λ _, "/run/agent.sock";
  vm_Serial := λ _ s, if serial_on s then Some tt else None;
  serial_OnLine := λ _ s, (0%N, s);
  vm_QMP := λ _ _, Some tt;
  vm_ConnectAgent := λ _ _, reply (λ s, if connects s then Ok tt else Err "no agent");
  bridge_AllocateTap := λ _ s,
    (Ok ("mltt-tap" +:+ fmt_d (Z.of_nat (next_tap s))), (tick, set_tap (S (next_tap s)) s));
  bridge_Name := λ b, b;
  agent_Exec := λ _ _ _ _, next execs set_execs;
  agent_Background := λ _ _, reply (λ _, Ok "run-test.service");
  agent_UnitStatus := λ _ _, next units set_units;
  agent_CheckPort := λ _ _, next ports set_ports;
  agent_Stat := λ _ path, reply (λ s, Ok match guest_files s !! path with
                                         | Some data => {| Exists := true; Size := Z.of_nat (String.length data) |}
                                         | None => {| Exists := false; Size := 0 |}
                                         end);
  agent_WriteFile := λ _ path data _ s,
    (Ok tt, (tick, set_guest_files (<[path := data]> (guest_files s)) s));
  agent_ReadFile := λ _ path, reply (λ s, found (guest_files s !! path));
  agent_Listen := λ _ _, reply (λ _, Ok tt);
  agent_FileHash := λ _ _ _, reply (λ _, Err "unsupported");
  agent_HTTPGet := λ _ _, next pages set_pages;
  agent_JournalLines := λ _ _ _ _, next journals set_journals;
  agent_FindProcesses := λ _ _, next processes set_processes;
  agent_NetworkInfo := λ _ _, next networks set_networks;
  agent_Close := λ _ s, (tick, s);
  host_ReadFile := λ path, reply (λ s, found (host_files s !! path));
  host_oversleep := λ _ s, (0%N, s);
|}.

(** A fresh test at time zero with an empty environment. *)
Definition fresh_test (s : Script) : World := {|
  now := 0; ext := s; environ := ∅; failed := false; log := []; cleanups := []; trace := [] |}.

Definition exits (code : Z) (out : string) : result error ExecResponse :=
  Ok {| Stdout := out; Stderr := ""; ExitCode := code |}.
Definition in_state (s : string) : result error UnitResponse :=
  Ok {| ActiveState := s; SubState := "sub" |}.

Definition test_machine : Machine := {| vm := None; agent := tt |}.

(** Patterns without operators: the text itself; an open bracket does not compile. *)
Definition LiteralRegexp : Regexp := {|
  Compile := λ p,
    if Contains p "(" then None
    else Some (λ s, if Contains s p then Some [p] else None) |}.
