(* ===== verification/Retry.v ===== *)
(** * Retry: the polling loop of package [machine]

    Every [WaitFor..] and [WaitUntil..] method of machine.go is the same loop,
    [for time.Now().Before(deadline) { attempt; time.Sleep(interval) }].
    [poll] is that loop; [polls] says what one run of it does, round by round,
    and [poll_polls] that [poll] does nothing else.  The loop is cut by a fuel;
    [rounds] many rounds are enough whenever the interval is positive
    ([poll_terminates]).  [tried] says what a loop asked and was answered before its
    last round, and [poll_contract] what that round then decides. *)

From S2P Require Import Prelude GoStrings VmLib TestWorld.

(** ** Retry options (machine.go, lines 16-20 and 86-113) *)

Definition defaultRetryTimeout : Z := 60 * Second.
Definition defaultRetryInterval : Z := 1 * Second.

Record retryConfig := { timeout : Z; interval : Z }.
Definition RetryOption : Type := retryConfig → retryConfig.

Definition WithRetryTimeout (d : Z) : RetryOption := λ c,
  {| timeout := d; interval := interval c |}.
Definition WithRetryInterval (d : Z) : RetryOption := λ c,
  {| timeout := timeout c; interval := d |}.

Definition applyRetryOpts (opts : list RetryOption) : retryConfig :=
  foldl (λ rc o, o rc)
    {| timeout := defaultRetryTimeout; interval := defaultRetryInterval |} opts.

(** Rounds that fit in [span] nanoseconds when each lasts [step] at least. *)
Definition rounds (span step : Z) : nat := Z.to_nat ((span + step - 1) / step).

Section Poll.
Context {P : VmPackage} {V A : Type}.
Implicit Types (w : World) (s : V).

(** One attempt: [inr a] ends the loop with [a], [inl s] carries the variables
    the loop body leaves for the code after the loop. *)
Fixpoint poll (fuel : nat) (deadline ival : Z) (attempt : V → TestM (V + A)) (s : V) : TestM (V + A) :=
  match fuel with
  | O => throw OutOfFuel
  | S fuel' =>
      t ← gets now;
      if (t <? deadline)%Z then
        r ← attempt s;
        match r with
        | inr a => mret (inr a)
        | inl s' => Sleep ival;; poll fuel' deadline ival attempt s'
        end
      else mret (inl s)
  end.

Lemma poll_ext deadline ival (f g : V → TestM (V + A)) :
  (∀ s w, f s w = g s w) → ∀ fuel s w, poll fuel deadline ival f s w = poll fuel deadline ival g s w.
Proof.
  intros E fuel. induction fuel as [|fuel IH]; intros s w; [done|]. cbn [poll]. rewrite !bind_run. cbn [gets].
  destruct (now w <? deadline)%Z; [|done]. rewrite !bind_run, E. destruct (g s w) as [[[s'|a]|e] w']; [|done..].
  rewrite !bind_run. by destruct (Sleep ival w') as [[[]|e] w1].
Qed.

(** The runs of the loop, with the number of attempts made. *)
Inductive polls (deadline ival : Z) (attempt : V → TestM (V + A)) :
    V → World → result stop (V + A) → World → nat → Prop :=
| polls_expired s w :
    (deadline ≤ now w)%Z →
    polls deadline ival attempt s w (Ok (inl s)) w 0
| polls_done s w a w' :
    (now w < deadline)%Z →
    attempt s w = (Ok (inr a), w') →
    polls deadline ival attempt s w (Ok (inr a)) w' 1
| polls_stopped s w e w' :
    (now w < deadline)%Z →
    attempt s w = (Err e, w') →
    polls deadline ival attempt s w (Err e) w' 1
| polls_again s w s1 w1 r w2 n :
    (now w < deadline)%Z →
    attempt s w = (Ok (inl s1), w1) →
    polls deadline ival attempt s1 (Sleep ival w1).2 r w2 n →
    polls deadline ival attempt s w r w2 (1 + n).

Context (deadline ival : Z) (attempt : V → TestM (V + A)).

Lemma poll_polls fuel s w r w' :
  poll fuel deadline ival attempt s w = (r, w') →
  r ≠ Err OutOfFuel → ∃ n, polls deadline ival attempt s w r w' n.
Proof.
  revert s w. induction fuel as [|fuel IH]; intros s w; cbn [poll].
  { by intros [= <- <-]. }
  rewrite bind_run. cbn [gets]. destruct (Z.ltb_spec (now w) deadline) as [Hlt|Hge].
  - rewrite bind_run. destruct (attempt s w) as [[[s1|a]|e] w1] eqn:Ha.
    + rewrite bind_run. destruct (Sleep ival w1) as [rs w2] eqn:Hs.
      pose proof (Sleep_ok ival w1) as Hok. rewrite Hs in Hok. cbn in Hok. subst rs.
      intros Hp Hr. apply IH in Hp as [n Hn]; [|done].
      exists (1 + n)%nat. eapply polls_again; [done..|]. by rewrite Hs.
    + intros [= <- <-] _. eexists. by eapply polls_done.
    + intros [= <- <-] _. eexists. by eapply polls_stopped.
  - intros [= <- <-] _. eexists. by apply polls_expired.
Qed.

Section Bounded.
Hypothesis attempt_later : ∀ s, preserves later (attempt s).

Lemma polls_later s w r w' n : polls deadline ival attempt s w r w' n → later w w'.
Proof.
  induction 1 as [|s w a w' _ Ha|s w e w' _ Ha|s w s1 w1 r w2 n _ Ha Hp IH].
  - reflexivity.
  - pose proof (attempt_later s w) as H. by rewrite Ha in H.
  - pose proof (attempt_later s w) as H. by rewrite Ha in H.
  - pose proof (attempt_later s w) as H. rewrite Ha in H. cbn in H.
    etrans; [exact H|]. etrans; [|exact IH]. apply Sleep_later.
Qed.

Hypothesis ival_pos : (0 < ival)%Z.

Lemma attempt_then_sleep s w s1 w1 :
  attempt s w = (Ok (inl s1), w1) → (now w + ival ≤ now (Sleep ival w1).2)%Z.
Proof.
  intros Ha. pose proof (attempt_later s w) as H. rewrite Ha in H. destruct H as [H _ _ _ _].
  cbn in H. pose proof (Sleep_now ival w1). lia.
Qed.

(** The number of attempts is bounded by the time allowed. *)
Lemma polls_attempts s w r w' n :
  polls deadline ival attempt s w r w' n →
  (Z.of_nat n * ival < Z.max 0 (deadline - now w) + ival)%Z.
Proof.
  induction 1 as [|s w a w' Hlt|s w e w' Hlt|s w s1 w1 r w2 n Hlt Ha Hp IH]; try lia.
  pose proof (attempt_then_sleep _ _ _ _ Ha).
  assert (n = 0%nat ∨ (ival ≤ Z.of_nat n * ival)%Z) as [->|] by (destruct n; [by left|right; nia]).
  - lia.
  - replace (Z.of_nat (1 + n) * ival)%Z with (Z.of_nat n * ival + ival)%Z by lia. lia.
Qed.

(** The loop overruns its deadline by one round at most. *)
Lemma polls_overrun longest over s w r w' n :
  (∀ s w, (now (attempt s w).2 ≤ now w + longest)%Z) →
  (∀ w, (now (Sleep ival w).2 ≤ now w + ival + over)%Z) →
  polls deadline ival attempt s w r w' n →
  (now w' ≤ Z.max (now w) (deadline + longest + ival + over))%Z.
Proof.
  intros Hl Ho.
  assert (0 ≤ over)%Z.
  { pose proof (Ho w) as H1. pose proof (Sleep_now ival w). lia. }
  induction 1 as [|s w a w' Hlt Ha|s w e w' Hlt Ha|s w s1 w1 r w2 n Hlt Ha Hp IH]; [lia|..].
  - pose proof (Hl s w) as H1. rewrite Ha in H1. cbn in H1. lia.
  - pose proof (Hl s w) as H1. rewrite Ha in H1. cbn in H1. lia.
  - pose proof (Hl s w) as H1. rewrite Ha in H1. cbn in H1.
    pose proof (Ho w1). lia.
Qed.

(** Attempts that make one outside call each are counted by the trace. *)
Lemma polls_trace s w r w' n :
  (∀ s w, length (trace (attempt s w).2) = S (length (trace w))) →
  polls deadline ival attempt s w r w' n →
  length (trace w') = (n + length (trace w))%nat.
Proof.
  intros Ht. induction 1 as [|s w a w' _ Ha|s w e w' _ Ha|s w s1 w1 r w2 n _ Ha Hp IH]; [done|..].
  - pose proof (Ht s w) as H. by rewrite Ha in H.
  - pose proof (Ht s w) as H. by rewrite Ha in H.
  - pose proof (Ht s w) as H. rewrite Ha in H. cbn in H. rewrite IH, Sleep_trace. lia.
Qed.

Hypothesis attempt_fuel : ∀ s w, (attempt s w).1 ≠ Err OutOfFuel.

Lemma poll_enough fuel s w :
  (deadline - now w ≤ (Z.of_nat fuel - 1) * ival)%Z → (0 < fuel)%nat →
  (poll fuel deadline ival attempt s w).1 ≠ Err OutOfFuel.
Proof.
  revert s w. induction fuel as [|fuel IH]; intros s w Hf Hp; [lia|]. cbn [poll].
  rewrite bind_run. cbn [gets]. destruct (Z.ltb_spec (now w) deadline) as [Hlt|]; [|done].
  rewrite bind_run. pose proof (attempt_fuel s w) as He.
  destruct (attempt s w) as [[[s1|a]|e] w1] eqn:Ha; [|done|done].
  rewrite bind_run. pose proof (attempt_then_sleep _ _ _ _ Ha) as Hs.
  pose proof (Sleep_ok ival w1). destruct (Sleep ival w1) as [rs w2]. cbn in *. subst rs.
  apply IH; nia.
Qed.

(** With a positive interval the loop ends: [rounds] and one more test suffice. *)
Lemma poll_terminates fuel s w :
  (rounds (deadline - now w) ival < fuel)%nat →
  (poll fuel deadline ival attempt s w).1 ≠ Err OutOfFuel.
Proof.
  intros Hf. apply poll_enough; [|lia]. unfold rounds in Hf.
  set (span := (deadline - now w)%Z) in *.
  assert (span ≤ (span + ival - 1) / ival * ival)%Z.
  { pose proof (Z.div_mod (span + ival - 1) ival). pose proof (Z.mod_pos_bound (span + ival - 1) ival).
    lia. }
  assert ((span + ival - 1) / ival ≤ Z.of_nat fuel - 1)%Z by lia. nia.
Qed.
End Bounded.

End Poll.

(** ** The rounds of a loop

    [tried deadline ival question w l w']: from [w], the question was asked once for each
    answer of [l], each time before the deadline and each time followed by a sleep
    of [ival]; that led to [w'], where the next round would begin. *)
Section Rounds.
Context {P : VmPackage} {X : Type}.
Inductive tried (deadline ival : Z) (question : TestM X) : World → list X → World → Prop :=
| tried_nothing w : tried deadline ival question w [] w
| tried_once w x w1 l w2 :
    (now w < deadline)%Z → question w = (Ok x, w1) →
    tried deadline ival question (Sleep ival w1).2 l w2 → tried deadline ival question w (x :: l) w2.

Context {V A : Type} (deadline ival : Z) (question : TestM X) (judge : V → X → TestM (V + A)).
Context (keep : V → X → V) (refused : X → Prop).
Hypothesis question_answered : ∀ w, ∃ x w1, question w = (Ok x, w1).
Hypothesis judge_refuses : ∀ s x w s1 w1,
  judge s x w = (Ok (inl s1), w1) → refused x ∧ s1 = keep s x ∧ w1 = w.
#[local] Notation attempt := (λ s, x ← question; judge s x).

Lemma attempt_asks s w r w' :
  attempt s w = (r, w') → ∃ x w1, question w = (Ok x, w1) ∧ judge s x w1 = (r, w').
Proof.
  cbv beta. rewrite bind_run. destruct (question_answered w) as (x & w1 & E). rewrite E. intros Hj. by exists x, w1.
Qed.
(** Every round but the last was refused, and the last one decides. *)
Lemma polls_tried s w r w' n :
  polls deadline ival attempt s w r w' n →
  ∃ l w1, tried deadline ival question w l w1 ∧ Forall refused l ∧
    match r with
    | Ok (inl s') => (deadline ≤ now w1)%Z ∧ w' = w1 ∧ s' = foldl keep s l
    | _ => (now w1 < deadline)%Z ∧ ∃ x w2, question w1 = (Ok x, w2) ∧ judge (foldl keep s l) x w2 = (r, w')
    end.
Proof.
  induction 1 as [s w Hd|s w a w' Hlt Ha|s w e w' Hlt Ha|s w s1 w1 r w2 n Hlt Ha Hp IH].
  - exists [], w. repeat constructor. done.
  - exists [], w. split; [constructor|]. split; [constructor|]. split; [done|]. by apply attempt_asks.
  - exists [], w. split; [constructor|]. split; [constructor|]. split; [done|]. by apply attempt_asks.
  - destruct IH as (l & w3 & Ht & Hr & Hl). apply attempt_asks in Ha as (x & w4 & Hx & Hj).
    apply judge_refuses in Hj as (Hrx & -> & ->). exists (x :: l), w3.
    split; [by econstructor|]. split; [by constructor|exact Hl].
Qed.

Hypothesis question_later : preserves later question.
Hypothesis judge_later : ∀ s x, preserves later (judge s x).
Hypothesis judge_fuel : ∀ s x w, (judge s x w).1 ≠ Err OutOfFuel.

Lemma attempt_fuel s w : (attempt s w).1 ≠ Err OutOfFuel.
Proof. cbv beta. rewrite bind_run. destruct (question_answered w) as (x & w1 & ->). apply judge_fuel. Qed.
Lemma attempt_later s : preserves later (attempt s).
Proof. apply preserves_bind; [apply _|exact question_later|apply judge_later]. Qed.

(** The contract of a loop with a positive interval and enough fuel: it ends, every
    round but the last was refused, and either the last one decides or the deadline
    has passed and the variables are those the rounds leave. *)
Lemma poll_contract fuel s w :
  (0 < ival)%Z → (rounds (deadline - now w) ival < fuel)%nat →
  wp (poll fuel deadline ival attempt s) (λ r w', later w w' ∧
    ∃ l w1, tried deadline ival question w l w1 ∧ Forall refused l ∧
      match r with
      | Ok (inl s') => (deadline ≤ now w1)%Z ∧ w' = w1 ∧ s' = foldl keep s l
      | _ => (now w1 < deadline)%Z ∧ ∃ x w2, question w1 = (Ok x, w2) ∧ judge (foldl keep s l) x w2 = (r, w')
      end) w.
Proof.
  intros Hi Hf. unfold wp.
  pose proof (poll_terminates deadline ival attempt attempt_later Hi attempt_fuel fuel s w Hf) as Hr.
  destruct (poll fuel deadline ival attempt s w) as [r w'] eqn:Hp. cbn in *.
  apply poll_polls in Hp as [n Hn]; [|done]. split; [|by eapply polls_tried].
  exact (polls_later _ _ _ attempt_later _ _ _ _ _ Hn).
Qed.
End Rounds.
