(* ===== verification/MachineOps.v ===== *)
(** * MachineOps: commands, waits and files of a running machine

    The methods of machine.go that drive a booted guest: [Execute] to
    [ForwardedPort] (lines 169-354), the output matchers and
    [WaitUntilOutput] (366-412), [ReadFile], [FileHash] and [FileSize]
    (414-448), [HTTPGet] and [WaitForHTTP] (450-529) and [WaitForLog] (693-713).
    Polling methods take the fuel of [poll].  Regular expressions are those of
    Go's package [regexp], a parameter ([Regexp]): a pattern that does not
    compile makes [MustCompile] panic. *)

From S2P Require Import Prelude GoStrings VmLib TestWorld ScriptedVm Retry.

Section Machine.
Context {P : VmPackage} {RE : Regexp}.
Implicit Types (m : Machine).

(** ** Commands (lines 169-221) *)

(** Go's results [(stdout, stderr, exitCode, err)]; [err] nil is [None]. *)
Record execution := {
  ex_stdout : string; ex_stderr : string; ex_code : Z; ex_err : option error }.

Definition ExecuteWithTimeout m (cmd : string) (timeout : Z) : TestM execution :=
  r ← outside (CallExec timeout cmd 0) (agent_Exec (agent m) timeout cmd 0);
  match r with
  | Err e => mret {| ex_stdout := ""; ex_stderr := ""; ex_code := -1; ex_err := Some e |}
  | Ok resp => mret {| ex_stdout := Stdout resp; ex_stderr := Stderr resp;
                       ex_code := ExitCode resp; ex_err := None |}
  end.

Definition Execute m (cmd : string) : TestM execution :=
  ExecuteWithTimeout m cmd (120 * Second).

Definition Succeed m (cmd : string) : TestM string :=
  x ← Execute m cmd;
  match ex_err x with
  | Some e => Fatalf (SucceedRPC cmd e)
  | None =>
      if negb (ex_code x =? 0)%Z
      then Fatalf (SucceedExit cmd (ex_code x) (ex_stdout x) (ex_stderr x))
      else mret (ex_stdout x)
  end.

Definition Background m (argv : list string) : TestM () :=
  r ← outside (CallBackground argv) (agent_Background (agent m) argv);
  match r with
  | Err e => Fatalf (BackgroundFailed argv e)
  | Ok _ => mret tt
  end.

Definition Fail m (cmd : string) : TestM () :=
  x ← Execute m cmd;
  match ex_err x with
  | Some e => Fatalf (FailRPC cmd e)
  | None => if (ex_code x =? 0)%Z then Fatalf (FailExitedZero cmd) else mret tt
  end.

(** ** Waits (lines 223-316) *)

(** The loops that keep no variable for the code after them. *)
Definition poll_unit {A} (fuel : nat) (rc : retryConfig) (attempt : TestM (option A))
    (timed_out : fatal) : TestM A :=
  start ← gets now;
  r ← poll fuel (start + timeout rc) (interval rc)
        (λ _ : (), o ← attempt; match o with Some a => mret (inr a) | None => mret (inl tt) end)
        tt;
  match r with
  | inr a => mret a
  | inl _ => Fatalf timed_out
  end.

Definition accepts_success (x : execution) : bool :=
  match ex_err x with None => (ex_code x =? 0)%Z | Some _ => false end.

(** [lastStdout], [lastStderr], [lastExitCode], [lastErr] before the first attempt. *)
Definition no_execution : execution :=
  {| ex_stdout := ""; ex_stderr := ""; ex_code := 0; ex_err := None |}.

Definition WaitUntilSucceeds (fuel : nat) m (cmd : string) (opts : list RetryOption) :
    TestM string :=
  let rc := applyRetryOpts opts in
  start ← gets now;
  r ← poll fuel (start + timeout rc) (interval rc)
        (λ _, x ← Execute m cmd;
              if accepts_success x then mret (inr (ex_stdout x)) else mret (inl x))
        no_execution;
  match r with
  | inr out => mret out
  | inl last =>
      match ex_err last with
      | Some e => Fatalf (UntilSucceedsRPC cmd (timeout rc) e)
      | None => Fatalf (UntilSucceedsExit cmd (timeout rc) (ex_code last)
                          (ex_stdout last) (ex_stderr last))
      end
  end.

Definition WaitForUnit (fuel : nat) m (unit : string) (opts : list RetryOption) : TestM () :=
  let rc := applyRetryOpts opts in
  poll_unit fuel rc
    (r ← outside (CallUnitStatus unit) (agent_UnitStatus (agent m) unit);
     match r with
     | Ok resp =>
         if String.eqb (ActiveState resp) "active" then mret (Some tt)
         else if String.eqb (ActiveState resp) "failed"
              then Fatalf (UnitFailed unit (SubState resp))
              else mret None
     | Err _ => mret None
     end)
    (UnitTimeout unit (timeout rc)).

Definition WaitForOpenPort (fuel : nat) m (port : Z) (opts : list RetryOption) : TestM () :=
  let rc := applyRetryOpts opts in
  poll_unit fuel rc
    (r ← outside (CallCheckPort port) (agent_CheckPort (agent m) port);
     match r with
     | Ok true => mret (Some tt)
     | _ => mret None
     end)
    (OpenPortTimeout port (timeout rc)).

Definition WaitForClosedPort (fuel : nat) m (port : Z) (opts : list RetryOption) : TestM () :=
  let rc := applyRetryOpts opts in
  poll_unit fuel rc
    (r ← outside (CallCheckPort port) (agent_CheckPort (agent m) port);
     match r with
     | Ok false => mret (Some tt)
     | _ => mret None
     end)
    (ClosedPortTimeout port (timeout rc)).

Definition WaitForFile (fuel : nat) m (path : string) (opts : list RetryOption) : TestM () :=
  let rc := applyRetryOpts opts in
  poll_unit fuel rc
    (r ← outside (CallStat path) (agent_Stat (agent m) path);
     match r with
     | Ok resp => if Exists resp then mret (Some tt) else mret None
     | Err _ => mret None
     end)
    (FileTimeout path (timeout rc)).

(** ** Files, listeners, power (lines 318-354) *)

Definition CopyFromHost m (hostPath guestPath : string) : TestM () :=
  r ← outside (CallHostReadFile hostPath) (host_ReadFile hostPath);
  data ← must (CopyHost hostPath) r;
  r2 ← outside (CallWriteFile guestPath data 420) (agent_WriteFile (agent m) guestPath data 420);
  must (CopyGuest guestPath) r2.

Definition Listen m (port : Z) : TestM () :=
  r ← outside (CallListen port) (agent_Listen (agent m) port);
  must (ListenFailed port) r.

Definition Shutdown m : TestM () :=
  r ← outside (CallStop (vm m)) (vm_Stop (vm m));
  must ShutdownFailed r.

Definition ForwardedPort m (guestPort : Z) : TestM Z :=
  match vm m with
  | None => mret 0%Z
  | Some v => gets (λ w, vm_ForwardedPort v guestPort (ext w))
  end.

(** ** Output matchers (lines 366-412) *)

Definition OutputMatcher : Type := string → bool.
Definition OutputContains (substr : string) : OutputMatcher := λ stdout, Contains stdout substr.
Definition OutputEquals (exact : string) : OutputMatcher := λ stdout,
  String.eqb (TrimSpace stdout) exact.

Definition MustCompile (pattern : string) : TestM (string → option (list string)) :=
  match Compile pattern with
  | Some re => mret re
  | None => throw (PanicRegexp pattern)
  end.
Definition MatchString (re : string → option (list string)) (s : string) : bool :=
  match re s with Some _ => true | None => false end.
Definition OutputMatches (pattern : string) : TestM OutputMatcher :=
  re ← MustCompile pattern; mret (MatchString re).

Definition WaitUntilOutput (fuel : nat) m (cmd : string) (matcher : OutputMatcher)
    (opts : list RetryOption) : TestM string :=
  let rc := applyRetryOpts opts in
  start ← gets now;
  r ← poll fuel (start + timeout rc) (interval rc)
        (λ _, x ← Execute m cmd;
              if accepts_success x && matcher (ex_stdout x)
              then mret (inr (ex_stdout x)) else mret (inl x))
        no_execution;
  match r with
  | inr out => mret out
  | inl last =>
      match ex_err last with
      | Some e => Fatalf (UntilOutputRPC cmd (timeout rc) e)
      | None => Fatalf (UntilOutputMismatch cmd (timeout rc) (ex_code last)
                          (ex_stdout last) (ex_stderr last))
      end
  end.

(** ** Guest files (lines 414-448) *)

Definition ReadFile m (path : string) : TestM string :=
  r ← outside (CallReadFile path) (agent_ReadFile (agent m) path);
  must (ReadFileFailed path) r.

Definition FileHash m (path algo : string) : TestM string :=
  r ← outside (CallFileHash path algo) (agent_FileHash (agent m) path algo);
  must (FileHashFailed path algo) r.

Definition FileSize m (path : string) : TestM Z :=
  r ← outside (CallStat path) (agent_Stat (agent m) path);
  resp ← must (FileSizeFailed path) r;
  if negb (Exists resp) then Fatalf (FileSizeMissing path) else mret (Size resp).

(** ** HTTP (lines 450-529) *)

Record HTTPResponse := { StatusCode : Z; Body : string }.

Definition HTTPGet m (url : string) : TestM HTTPResponse :=
  r ← outside (CallHTTPGet url) (agent_HTTPGet (agent m) url);
  resp ← must (HTTPGetFailed url) r;
  mret {| StatusCode := RespStatusCode resp; Body := RespBody resp |}.

Record httpConfig := { statusCode : Z; bodyContains : string }.
Definition HTTPOption : Type := httpConfig → httpConfig.
Definition HTTPStatus (code : Z) : HTTPOption := λ c,
  {| statusCode := code; bodyContains := bodyContains c |}.
Definition HTTPBodyContains (substr : string) : HTTPOption := λ c,
  {| statusCode := statusCode c; bodyContains := substr |}.

(** The interface [WaitForHTTPOption] and its two implementations. *)
Inductive WaitForHTTPOption :=
| AsHTTPOption (f : HTTPOption)
| httpRetryOption (o : RetryOption).
Definition applyHTTP (o : WaitForHTTPOption) (c : httpConfig * retryConfig) :
    httpConfig * retryConfig :=
  match o with
  | AsHTTPOption f => (f c.1, c.2)
  | httpRetryOption o => (c.1, o c.2)
  end.
Definition WithHTTPRetryTimeout (d : Z) : WaitForHTTPOption :=
  httpRetryOption (WithRetryTimeout d).
Definition WithHTTPRetryInterval (d : Z) : WaitForHTTPOption :=
  httpRetryOption (WithRetryInterval d).

Definition http_settings (opts : list WaitForHTTPOption) : httpConfig * retryConfig :=
  foldl (λ c o, applyHTTP o c)
    ({| statusCode := 200; bodyContains := "" |},
     {| timeout := defaultRetryTimeout; interval := defaultRetryInterval |}) opts.

Definition http_matches (hc : httpConfig) (resp : HTTPGetResponse) : bool :=
  (RespStatusCode resp =? statusCode hc)%Z
  && (String.eqb (bodyContains hc) "" || Contains (RespBody resp) (bodyContains hc)).

Definition WaitForHTTP (fuel : nat) m (url : string) (opts : list WaitForHTTPOption) :
    TestM HTTPResponse :=
  let '(hc, rc) := http_settings opts in
  poll_unit fuel rc
    (r ← outside (CallHTTPGet url) (agent_HTTPGet (agent m) url);
     match r with
     | Ok resp =>
         if http_matches hc resp
         then mret (Some {| StatusCode := RespStatusCode resp; Body := RespBody resp |})
         else mret None
     | Err _ => mret None
     end)
    (HTTPTimeout url (timeout rc) (statusCode hc)).

(** ** Journal patterns (lines 693-713) *)

Definition WaitForLog (fuel : nat) m (unit pattern : string) (opts : list RetryOption) :
    TestM string :=
  let rc := applyRetryOpts opts in
  re ← MustCompile pattern;
  poll_unit fuel rc
    (r ← outside (CallJournalLines unit 0 "") (agent_JournalLines (agent m) unit 0 "");
     match r with
     | Ok lines => mret (List.find (MatchString re) lines)
     | Err _ => mret None
     end)
    (LogTimeout unit pattern (timeout rc)).

(** ** Lemmas *)

Lemma Execute_run m cmd w :
  ∃ x w', Execute m cmd w = (Ok x, w') ∧
          trace w' = trace w ++ [(now w, CallExec (120 * Second) cmd 0)].
Proof.
  unfold Execute, ExecuteWithTimeout. rewrite bind_run. unfold outside.
  destruct (agent_Exec _ _ _ _ _) as [[resp|e] [d g]]; by do 2 eexists.
Qed.

Lemma Execute_later m cmd : preserves later (Execute m cmd).
Proof.
  apply preserves_bind; [apply _|apply outside_later|].
  intros [resp|e]; apply preserves_ret, _.
Qed.

(** The attempts of the loops that run a command. *)
Definition exec_attempt m cmd (accept : execution → bool) (_ : execution) :
    TestM (execution + string) :=
  x ← Execute m cmd;
  if accept x then mret (inr (ex_stdout x)) else mret (inl x).

Lemma exec_attempt_run m cmd accept s w :
  ∃ x w', Execute m cmd w = (Ok x, w') ∧
          exec_attempt m cmd accept s w
          = (Ok (if accept x then inr (ex_stdout x) else inl x), w') ∧
          trace w' = trace w ++ [(now w, CallExec (120 * Second) cmd 0)].
Proof.
  destruct (Execute_run m cmd w) as (x & w' & Hx & Ht). exists x, w'.
  split; [done|]. split; [|done]. unfold exec_attempt. rewrite bind_run, Hx.
  by destruct (accept x).
Qed.

Lemma exec_attempt_later m cmd accept s : preserves later (exec_attempt m cmd accept s).
Proof.
  apply preserves_bind; [apply _|apply Execute_later|].
  intros x. destruct (accept x); apply preserves_ret, _.
Qed.

Lemma exec_attempt_fuel m cmd accept s w :
  (exec_attempt m cmd accept s w).1 ≠ Err OutOfFuel.
Proof.
  destruct (exec_attempt_run m cmd accept s w) as (x & w' & _ & Ha & _). by rewrite Ha.
Qed.

(** The commands of the loop: run, refused, followed by a sleep. *)
#[local] Notation commands m cmd rc w :=
  (tried (now w + timeout rc) (interval rc) (Execute m cmd) w).
Definition last_of (l : list execution) : execution := default no_execution (last l).

Lemma last_of_fold l : foldl (λ _ x, x) no_execution l = last_of l.
Proof.
  unfold last_of. induction l as [|x l _] using rev_ind; [done|]. by rewrite foldl_app, last_snoc.
Qed.

(** The loop and the code after it. *)
Lemma exec_loop_contract fuel rc m cmd accept (on_rpc : error → fatal) (on_exit : execution → fatal) w :
  (0 < interval rc)%Z → (rounds (timeout rc) (interval rc) < fuel)%nat →
  wp (r ← poll fuel (now w + timeout rc) (interval rc) (exec_attempt m cmd accept) no_execution;
      match r with
      | inr out => mret out
      | inl last => match ex_err last with
                    | Some e => Fatalf (on_rpc e)
                    | None => Fatalf (on_exit last)
                    end
      end)
    (λ r w', later w w' ∧ ∃ l w1, commands m cmd rc w l w1 ∧ Forall (λ x, accept x = false) l ∧
      match r with
      | Ok out => (now w1 < now w + timeout rc)%Z ∧
                  ∃ x, Execute m cmd w1 = (Ok x, w') ∧ accept x = true ∧ out = ex_stdout x
      | Err e => (now w + timeout rc ≤ now w1)%Z ∧
                 (r, w') = Fatalf (match ex_err (last_of l) with
                                   | Some e' => on_rpc e' | None => on_exit (last_of l) end) w1
      end) w.
Proof.
  intros Hi Hf. apply wp_bind. eapply wp_mono.
  2: { apply (poll_contract (now w + timeout rc) (interval rc) (Execute m cmd)
         (λ _ x, if accept x then mret (inr (ex_stdout x)) else mret (inl x))
         (λ _ x, x) (λ x, accept x = false)); [..|done|by replace (now w + timeout rc - now w)%Z with (timeout rc) by lia].
       - intros w0. destruct (Execute_run m cmd w0) as (x & w1 & E & _). by exists x, w1.
       - intros s x w0 s1 w1. by destruct (accept x); intros [= <- <-].
       - apply Execute_later.
       - intros s x. destruct (accept x); apply preserves_ret, _.
       - intros s x w0. by destruct (accept x). }
  intros r w' (Hl & l & w1 & Ht & Hr & Hd). rewrite last_of_fold in Hd. destruct r as [[s|out]|e].
  - destruct Hd as (Hd & -> & ->).
    destruct (ex_err (last_of l)) eqn:He; (split; [etrans; [exact Hl|apply (Fatalf_later (A:=string))]|]);
      (exists l, w1; rewrite He; done).
  - destruct Hd as (Hd & x & w2 & Hx & Hj). split; [done|]. exists l, w1. destruct (accept x) eqn:Ea; [|done].
    injection Hj as <- <-. repeat (split; [done|]). by exists x.
  - destruct Hd as (_ & x & w2 & _ & Hj). by destruct (accept x).
Qed.

Lemma accepts_success_true x : accepts_success x = true ↔ ex_err x = None ∧ ex_code x = 0%Z.
Proof.
  unfold accepts_success. destruct (ex_err x); [by split; [|intros []]|].
  rewrite Z.eqb_eq. by split; [|intros []].
Qed.

(** An attempt that makes one outside call and judges its answer. *)
Definition judged {R A} (c : call) (f : answer Ext R) (j : result error R → TestM (option A)) :
    TestM (option A) :=
  r ← outside c f; j r.

Lemma outside_run {R} c (f : answer Ext R) w :
  ∃ r w', outside c f w = (Ok r, w') ∧ trace w' = trace w ++ [(now w, c)].
Proof. unfold outside. destruct (f _) as [r [d g]]. by do 2 eexists. Qed.

(** The rounds of such a loop: all refused but the last, which decides. *)
Lemma judged_contract {R A} fuel rc c (f : answer Ext R) (j : result error R → TestM (option A))
    (refused : result error R → Prop) timed_out w :
  (0 < interval rc)%Z → (rounds (timeout rc) (interval rc) < fuel)%nat →
  (∀ r, preserves later (j r)) → (∀ r w, (j r w).1 ≠ Err OutOfFuel) →
  (∀ a w w', j a w = (Ok None, w') → refused a ∧ w' = w) →
  wp (poll_unit fuel rc (judged c f j) timed_out) (λ r w', later w w' ∧
    ∃ l w1, tried (now w + timeout rc) (interval rc) (outside c f) w l w1 ∧ Forall refused l ∧
    match r with
    | Ok v => (now w1 < now w + timeout rc)%Z ∧
              ∃ a w2, outside c f w1 = (Ok a, w2) ∧ j a w2 = (Ok (Some v), w')
    | Err e => ((now w1 < now w + timeout rc)%Z ∧
                ∃ a w2, outside c f w1 = (Ok a, w2) ∧ j a w2 = (Err e, w')) ∨
               ((now w + timeout rc ≤ now w1)%Z ∧ (r, w') = Fatalf timed_out w1)
    end) w.
Proof.
  intros Hi Hf Hl He Hj. unfold poll_unit. apply wp_bind. cbn. apply wp_bind.
  set (judge := λ (_ : ()) a, o ← j a; match o with Some v => mret (inr v : () + A) | None => mret (inl tt) end).
  assert (Hjudge : ∀ s a w, judge s a w = match j a w with
                        | (Ok (Some v), w') => (Ok (inr v), w')
                        | (Ok None, w') => (Ok (inl tt), w')
                        | (Err e, w') => (Err e, w')
                        end).
  { intros s a w0. unfold judge. rewrite bind_run. by destruct (j a w0) as [[[]|]]. }
  assert (Hatt : ∀ s w, (o ← judged c f j; match o with Some v => mret (inr v : () + A) | None => mret (inl tt) end) w
    = (a ← outside c f; judge s a) w).
  { intros s w0. unfold judged. rewrite !bind_run. by destruct (outside_run c f w0) as (a & w1 & -> & _). }
  pose proof (poll_contract (now w + timeout rc) (interval rc) (outside c f) judge (λ _ _, tt) refused) as Hc.
  refine (wp_ext _ _ _ _ (poll_ext _ _ _ (λ s, a ← outside c f; judge s a) Hatt fuel tt) _).
  refine (wp_mono _ _ _ _ _ (Hc _ _ _ _ _ fuel tt w _ _)).
  - intros r w' (Hw & l & w1 & Ht & Hr & Hd). destruct r as [[[]|v]|e].
    + destruct Hd as (Hd & -> & _). split; [etrans; [exact Hw|apply (Fatalf_later (A:=A))]|].
      exists l, w1. repeat (split; [done|]). by right.
    + split; [done|]. exists l, w1. repeat (split; [done|]). destruct Hd as (Hd & a & w2 & Ha & Hv). split; [done|].
      exists a, w2. split; [done|]. rewrite Hjudge in Hv. destruct (j a w2) as [[[]|]]; by simplify_eq.
    + split; [done|]. exists l, w1. repeat (split; [done|]). left. destruct Hd as (Hd & a & w2 & Ha & Hv).
      split; [done|]. exists a, w2. split; [done|]. rewrite Hjudge in Hv. destruct (j a w2) as [[[]|]]; by simplify_eq.
  - intros w0. destruct (outside_run c f w0) as (a & w1 & E & _). by exists a, w1.
  - intros [] a w0 [] w1 E. rewrite Hjudge in E. destruct (j a w0) as [[[v|]|e] w2] eqn:Ej; simplify_eq.
    apply Hj in Ej as [? ->]. done.
  - apply outside_later.
  - intros s a w0. rewrite Hjudge. specialize (Hl a w0). by destruct (j a w0) as [[[]|]].
  - intros s a w0. rewrite Hjudge. specialize (He a w0). destruct (j a w0) as [[[]|]]; cbn in *; congruence.
  - done.
  - by replace (now w + timeout rc - now w)%Z with (timeout rc) by lia.
Qed.

Lemma exec_loop_ends fuel rc m cmd accept w :
  (0 < interval rc)%Z → (rounds (timeout rc) (interval rc) < fuel)%nat →
  ∃ r w' n,
    poll fuel (now w + timeout rc) (interval rc) (exec_attempt m cmd accept) no_execution w
      = (r, w') ∧
    polls (now w + timeout rc) (interval rc) (exec_attempt m cmd accept) no_execution w r w' n.
Proof.
  intros Hi Hf.
  pose proof (poll_terminates (now w + timeout rc) (interval rc) _
    (exec_attempt_later m cmd accept) Hi (exec_attempt_fuel m cmd accept) fuel no_execution w) as Ht.
  replace (now w + timeout rc - now w)%Z with (timeout rc) in Ht by lia.
  specialize (Ht Hf). destruct (poll _ _ _ _ _ w) as [r w'] eqn:Hp.
  apply poll_polls in Hp as Hn; [|done]. destruct Hn as [n Hn]. by exists r, w', n.
Qed.

Lemma exec_attempt_trace m cmd accept s w :
  length (trace (exec_attempt m cmd accept s w).2) = S (length (trace w)).
Proof.
  destruct (exec_attempt_run m cmd accept s w) as (x & w' & _ & -> & Ht). cbn.
  rewrite Ht, length_app. cbn. lia.
Qed.

Lemma http_matches_true hc resp :
  http_matches hc resp = true ↔
  RespStatusCode resp = statusCode hc ∧ Contains (RespBody resp) (bodyContains hc) = true.
Proof.
  unfold http_matches. rewrite andb_true_iff, Z.eqb_eq, orb_true_iff, String.eqb_eq.
  split; intros [? H]; (split; [done|]); [|by right].
  destruct H as [->|]; [apply Contains_empty|done].
Qed.

Lemma find_first {A} (p : A → bool) l x :
  List.find p l = Some x →
  ∃ before after, l = before ++ x :: after ∧ p x = true ∧ Forall (λ y, p y = false) before.
Proof.
  induction l as [|y l IH]; cbn; [done|]. destruct (p y) eqn:Hy.
  - intros [= ->]. by exists [], l.
  - intros H. destruct (IH H) as (b & a & -> & ? & ?). exists (y :: b), a. by repeat constructor.
Qed.
End Machine.

(** ** Properties *)

Section MachineProperties.
Context {P : VmPackage} {RE : Regexp}.
Implicit Types (m : Machine) (w : World).

(** C10: with a positive interval and fuel for every round that fits the timeout,
    [WaitUntilSucceeds] ends, and it is decided by its last round.  It ran the
    command over and over, before the deadline and with a sleep after each run, and
    every one but the last met an RPC error or exited with another code than 0.
    Then either the deadline was not reached, the command was run again, exited 0
    without RPC error, and its standard output is returned at once; or the deadline
    had passed, and the test fails on the spot, reporting the last run: its RPC
    error, else its exit code and output (zeros and no text when there was none). *)
Theorem WaitUntilSucceeds_correct fuel m cmd opts w :
  let rc := applyRetryOpts opts in
  let deadline := (now w + timeout rc)%Z in
  (0 < interval rc)%Z → (rounds (timeout rc) (interval rc) < fuel)%nat →
  wp (WaitUntilSucceeds fuel m cmd opts) (λ r w', later w w' ∧
    ∃ l w1, tried deadline (interval rc) (Execute m cmd) w l w1 ∧
      Forall (λ x, ex_err x = None → ex_code x ≠ 0%Z) l ∧
      match r with
      | Ok out => (now w1 < deadline)%Z ∧
                  ∃ x, Execute m cmd w1 = (Ok x, w') ∧ ex_err x = None ∧ ex_code x = 0%Z ∧ ex_stdout x = out
      | Err e => (deadline ≤ now w1)%Z ∧
                 (r, w') = Fatalf (match last l with
                                   | None => UntilSucceedsExit cmd (timeout rc) 0 "" ""
                                   | Some x => match ex_err x with
                                               | Some e' => UntilSucceedsRPC cmd (timeout rc) e'
                                               | None => UntilSucceedsExit cmd (timeout rc) (ex_code x)
                                                           (ex_stdout x) (ex_stderr x)
                                               end
                                   end) w1
      end) w.
Proof.
  intros rc deadline Hi Hf. apply wp_gets.
  refine (wp_mono _ _ _ _ _ (exec_loop_contract fuel rc m cmd accepts_success
    (UntilSucceedsRPC cmd (timeout rc))
    (λ x, UntilSucceedsExit cmd (timeout rc) (ex_code x) (ex_stdout x) (ex_stderr x)) w Hi Hf)).
  intros r w' (Hl & l & w1 & Ht & Hr & Hd). split; [done|]. exists l, w1. split; [done|]. split.
  { eapply Forall_impl; [exact Hr|]. intros x Hx He Hc. cbn in Hx.
    by rewrite (proj2 (accepts_success_true x) (conj He Hc)) in Hx. }
  destruct r as [out|e].
  - destruct Hd as (? & x & ? & Ha & ->). apply accepts_success_true in Ha as [??]. split; [done|]. by exists x.
  - destruct Hd as [? ->]. split; [done|]. unfold last_of. by destruct (last l).
Qed.
(** C29: polling is bounded.  However [WaitUntilSucceeds] ends, the commands it
    ran (one trace entry each), times the interval, stay below the timeout plus
    one interval; and when a command takes at most [longest] and a sleep
    overshoots by at most [over], it is over one round after the deadline. *)
Theorem WaitUntilSucceeds_bounded fuel m cmd opts w longest over :
  let rc := applyRetryOpts opts in
  (0 < interval rc)%Z → (rounds (timeout rc) (interval rc) < fuel)%nat →
  (∀ w, (now (Execute m cmd w).2 ≤ now w + longest)%Z) →
  (∀ w, (now (Sleep (interval rc) w).2 ≤ now w + interval rc + over)%Z) →
  let w' := (WaitUntilSucceeds fuel m cmd opts w).2 in
  (Z.of_nat (length (trace w') - length (trace w)) * interval rc
     < Z.max 0 (timeout rc) + interval rc)%Z ∧
  (now w' ≤ Z.max (now w) (now w + timeout rc + longest + interval rc + over))%Z.
Proof.
  intros rc Hi Hf Hlong Hover w'.
  destruct (exec_loop_ends fuel rc m cmd accepts_success w Hi Hf) as (r & w1 & n & Hp & Hn).
  assert (now w' = now w1 ∧ trace w' = trace w1) as [-> ->].
  { unfold w', WaitUntilSucceeds. rewrite bind_run. cbn. rewrite bind_run.
    fold rc. change (λ _, x ← Execute m cmd; _) with (exec_attempt m cmd accepts_success).
    rewrite Hp. destruct r as [[last|out]|e]; [by destruct (ex_err last)|done..]. }
  split.
  - rewrite (polls_trace _ _ _ _ _ _ _ _ (exec_attempt_trace m cmd _) Hn).
    replace (n + length (trace w) - length (trace w))%nat with n by lia.
    pose proof (polls_attempts _ _ _ (exec_attempt_later m cmd _) Hi _ _ _ _ _ Hn) as Hb.
    by replace (now w + timeout rc - now w)%Z with (timeout rc) in Hb by lia.
  - eapply (polls_overrun _ _ _ Hi); [|done|exact Hn].
    intros s w0. destruct (exec_attempt_run m cmd accepts_success s w0) as (x & w2 & Hx & -> & _).
    specialize (Hlong w0). by rewrite Hx in Hlong.
Qed.

(** C30: [WaitForUnit] is decided by the first answer that decides.  It asked for
    the unit's status over and over, before the deadline and with a sleep after each
    answer, and every answer but the last was an RPC error or a state other than
    active and failed.  Then either the deadline was not reached and the status asked
    for again was active, and it returns at once, or failed, and the test fails at
    once, naming the unit's sub-state; or the deadline had passed, and the test fails
    for the timeout.  It always ends. *)
Theorem WaitForUnit_correct fuel m unit opts w :
  let rc := applyRetryOpts opts in
  let deadline := (now w + timeout rc)%Z in
  let status := outside (CallUnitStatus unit) (agent_UnitStatus (agent m) unit) in
  (0 < interval rc)%Z → (rounds (timeout rc) (interval rc) < fuel)%nat →
  wp (WaitForUnit fuel m unit opts) (λ r w', later w w' ∧
    ∃ l w1, tried deadline (interval rc) status w l w1 ∧
      Forall (λ a, ∀ s, a = Ok s → ActiveState s ≠ "active" ∧ ActiveState s ≠ "failed") l ∧
      match r with
      | Ok _ => (now w1 < deadline)%Z ∧ ∃ s, status w1 = (Ok (Ok s), w') ∧ ActiveState s = "active"
      | Err e =>
          ((now w1 < deadline)%Z ∧ ∃ s w2, status w1 = (Ok (Ok s), w2) ∧ ActiveState s = "failed" ∧
             (r, w') = Fatalf (UnitFailed unit (SubState s)) w2) ∨
          ((deadline ≤ now w1)%Z ∧ (r, w') = Fatalf (UnitTimeout unit (timeout rc)) w1)
      end) w.
Proof.
  intros rc deadline status Hi Hf.
  refine (wp_mono _ _ _ _ _ (judged_contract fuel rc _ _ _
    (λ a, ∀ s, a = Ok s → ActiveState s ≠ "active" ∧ ActiveState s ≠ "failed") _ w Hi Hf _ _ _)).
  - intros r w' (Hl & l & w1 & Ht & Hr & Hd). split; [done|]. exists l, w1. split; [done|]. split; [done|].
    destruct r as [[]|e].
    + destruct Hd as (Hd & [s|] & w2 & Ha & Hj); [|done]. split; [done|]. exists s.
      destruct (String.eqb_spec (ActiveState s) "active"); [by injection Hj as <-|by case_bools].
    + destruct Hd as [(Hd & [s|] & w2 & Ha & Hj)|Hd]; [left|done|by right]. split; [done|]. exists s, w2.
      destruct (String.eqb (ActiveState s) "active"); [done|].
      destruct (String.eqb_spec (ActiveState s) "failed"); [|done]. by injection Hj as <- <-.
  - intros [a|]; case_bools; auto with preserve.
  - intros [a|] w0; by case_bools.
  - intros [a|] w0 w1; [|by intros [= <-]]. destruct (String.eqb_spec (ActiveState a) "active"); [done|].
    destruct (String.eqb_spec (ActiveState a) "failed"); [done|]. intros [= <-]. split; [|done]. by intros s [= <-].
Qed.

(** [WaitForOpenPort] and [WaitForClosedPort] are decided by the first answer that
    says what they wait for; an RPC error says nothing.  Both always end, and fail
    only for the timeout, after the deadline. *)
Theorem WaitForPort_correct fuel m port opts w :
  let rc := applyRetryOpts opts in
  let deadline := (now w + timeout rc)%Z in
  let check := outside (CallCheckPort port) (agent_CheckPort (agent m) port) in
  let contract (op : TestM ()) (b : bool) (timed_out : fatal) :=
    wp op (λ r w', later w w' ∧
      ∃ l w1, tried deadline (interval rc) check w l w1 ∧ Forall (λ a, a ≠ Ok b) l ∧
        match r with
        | Ok _ => (now w1 < deadline)%Z ∧ check w1 = (Ok (Ok b), w')
        | Err e => (deadline ≤ now w1)%Z ∧ (r, w') = Fatalf timed_out w1
        end) w in
  (0 < interval rc)%Z → (rounds (timeout rc) (interval rc) < fuel)%nat →
  contract (WaitForOpenPort fuel m port opts) true (OpenPortTimeout port (timeout rc)) ∧
  contract (WaitForClosedPort fuel m port opts) false (ClosedPortTimeout port (timeout rc)).
Proof.
  intros rc deadline check contract Hi Hf. split.
  1: refine (wp_mono _ _ _ _ _ (judged_contract fuel rc _ _ _ (λ a, a ≠ Ok true) _ w Hi Hf _ _ _)).
  5: refine (wp_mono _ _ _ _ _ (judged_contract fuel rc _ _ _ (λ a, a ≠ Ok false) _ w Hi Hf _ _ _)).
  2,6: by intros [[]|]; auto with preserve.
  2,5: by intros [[]|] w0.
  2,4: by intros [[]|] w0 w1; intros [= <-].
  all: intros r w' (Hl & l & w1 & Ht & Hr & Hd); split; [done|]; exists l, w1; do 2 (split; [done|]).
  all: destruct r as [[]|e]; [|destruct Hd as [(_ & [[]|] & w2 & _ & Hj)|Hd]; done].
  all: destruct Hd as (Hd & [[]|] & w2 & Ha & Hj); try done; split; [done|]; by injection Hj as <-.
Qed.

(** [WaitUntilOutput] is decided by its last round: the commands before exited
    with another code than 0, met an RPC error or had output the matcher refuses.
    It returns only output of a command that exited 0 and that the matcher accepts;
    else it fails once the deadline has passed, reporting the last run. *)
Theorem WaitUntilOutput_correct fuel m cmd matcher opts w :
  let rc := applyRetryOpts opts in
  let deadline := (now w + timeout rc)%Z in
  (0 < interval rc)%Z → (rounds (timeout rc) (interval rc) < fuel)%nat →
  wp (WaitUntilOutput fuel m cmd matcher opts) (λ r w', later w w' ∧
    ∃ l w1, tried deadline (interval rc) (Execute m cmd) w l w1 ∧
      Forall (λ x, ex_err x = None → ex_code x = 0%Z → matcher (ex_stdout x) = false) l ∧
      match r with
      | Ok out => (now w1 < deadline)%Z ∧ matcher out = true ∧
                  ∃ x, Execute m cmd w1 = (Ok x, w') ∧ ex_err x = None ∧ ex_code x = 0%Z ∧ ex_stdout x = out
      | Err e => (deadline ≤ now w1)%Z ∧
                 (r, w') = Fatalf (match last l with
                                   | None => UntilOutputMismatch cmd (timeout rc) 0 "" ""
                                   | Some x => match ex_err x with
                                               | Some e' => UntilOutputRPC cmd (timeout rc) e'
                                               | None => UntilOutputMismatch cmd (timeout rc) (ex_code x)
                                                           (ex_stdout x) (ex_stderr x)
                                               end
                                   end) w1
      end) w.
Proof.
  intros rc deadline Hi Hf. apply wp_gets.
  refine (wp_mono _ _ _ _ _ (exec_loop_contract fuel rc m cmd (λ x, accepts_success x && matcher (ex_stdout x))
    (UntilOutputRPC cmd (timeout rc))
    (λ x, UntilOutputMismatch cmd (timeout rc) (ex_code x) (ex_stdout x) (ex_stderr x)) w Hi Hf)).
  intros r w' (Hl & l & w1 & Ht & Hr & Hd). split; [done|]. exists l, w1. split; [done|]. split.
  { eapply Forall_impl; [exact Hr|]. intros x Hx He Hc. cbn in Hx.
    by rewrite (proj2 (accepts_success_true x) (conj He Hc)) in Hx. }
  destruct r as [out|e].
  - destruct Hd as (? & x & ? & Ha & ->). apply andb_true_iff in Ha as [Ha Hm].
    apply accepts_success_true in Ha as [??]. do 2 (split; [done|]). by exists x.
  - destruct Hd as [? ->]. split; [done|]. unfold last_of. by destruct (last l).
Qed.

(** [WaitForHTTP] returns the first response with the status and body text the
    options ask for (200 and any body by default; of several options of one kind
    the last counts), the answers before being RPC errors or other responses; else
    it fails for the timeout, after the deadline. *)
Theorem WaitForHTTP_correct fuel m url opts w :
  let '(hc, rc) := http_settings opts in
  let deadline := (now w + timeout rc)%Z in
  let get := outside (CallHTTPGet url) (agent_HTTPGet (agent m) url) in
  let wanted a := RespStatusCode a = statusCode hc ∧ Contains (RespBody a) (bodyContains hc) = true in
  (0 < interval rc)%Z → (rounds (timeout rc) (interval rc) < fuel)%nat →
  wp (WaitForHTTP fuel m url opts) (λ r w', later w w' ∧
    ∃ l w1, tried deadline (interval rc) get w l w1 ∧ Forall (λ a, ∀ p, a = Ok p → ¬ wanted p) l ∧
      match r with
      | Ok resp => (now w1 < deadline)%Z ∧ ∃ p, get w1 = (Ok (Ok p), w') ∧ wanted p ∧
                     resp = {| StatusCode := RespStatusCode p; Body := RespBody p |}
      | Err e => (deadline ≤ now w1)%Z ∧ (r, w') = Fatalf (HTTPTimeout url (timeout rc) (statusCode hc)) w1
      end) w.
Proof.
  unfold WaitForHTTP. destruct (http_settings opts) as [hc rc]. intros Hi Hf.
  set (wanted := λ a, RespStatusCode a = statusCode hc ∧ Contains (RespBody a) (bodyContains hc) = true).
  refine (wp_mono _ _ _ _ _ (judged_contract fuel rc _ _ _ (λ a, ∀ p, a = Ok p → ¬ wanted p) _ w Hi Hf _ _ _)).
  - intros r w' (Hl & l & w1 & Ht & Hr & Hd). split; [done|]. exists l, w1. do 2 (split; [done|]).
    destruct r as [resp|e].
    + destruct Hd as (Hd & [p|] & w2 & Ha & Hj); [|done]. split; [done|].
      destruct (http_matches hc p) eqn:Hm; [|done]. injection Hj as <- <-. apply http_matches_true in Hm. by exists p.
    + destruct Hd as [(_ & [p|] & w2 & _ & Hj)|Hd]; [by destruct (http_matches hc p)|done..].
  - intros [a|]; case_bools; auto with preserve.
  - intros [a|] w0; by case_bools.
  - intros [a|] w0 w1; [|by intros [= <-]]. destruct (http_matches hc a) eqn:Hm; [done|]. intros [= <-].
    split; [|done]. intros p [= <-] Hw. apply http_matches_true in Hw. congruence.
Qed.

(** C31: [WaitForLog] panics, touching nothing, when the pattern does not compile;
    otherwise it returns the first line the pattern matches of the first journal
    that has one, or fails for the timeout, after the deadline. *)
Theorem WaitForLog_correct fuel m unit pattern opts w :
  let rc := applyRetryOpts opts in
  let deadline := (now w + timeout rc)%Z in
  let journal := outside (CallJournalLines unit 0 "") (agent_JournalLines (agent m) unit 0 "") in
  (0 < interval rc)%Z → (rounds (timeout rc) (interval rc) < fuel)%nat →
  match Compile pattern with
  | None => WaitForLog fuel m unit pattern opts w = (Err (PanicRegexp pattern), w)
  | Some re =>
      wp (WaitForLog fuel m unit pattern opts) (λ r w', later w w' ∧
        ∃ l w1, tried deadline (interval rc) journal w l w1 ∧
          Forall (λ a, ∀ text, a = Ok text → Forall (λ line, re line = None) text) l ∧
          match r with
          | Ok line => (now w1 < deadline)%Z ∧ ∃ before after, journal w1 = (Ok (Ok (before ++ line :: after)), w') ∧
                         re line ≠ None ∧ Forall (λ y, re y = None) before
          | Err e => (deadline ≤ now w1)%Z ∧ (r, w') = Fatalf (LogTimeout unit pattern (timeout rc)) w1
          end) w
  end.
Proof.
  intros rc deadline journal Hi Hf. unfold WaitForLog, MustCompile. destruct (Compile pattern) as [re|]; [|done].
  assert (Hre : ∀ y, MatchString re y = false ↔ re y = None) by (intros y; unfold MatchString; by destruct (re y)).
  refine (wp_mono _ _ _ _ _ (judged_contract fuel rc _ _ _
    (λ a, ∀ text, a = Ok text → Forall (λ line, re line = None) text) _ w Hi Hf _ _ _)).
  - intros r w' (Hl & l & w1 & Ht & Hr & Hd). split; [done|]. exists l, w1. do 2 (split; [done|]).
    destruct r as [line|e].
    + destruct Hd as (Hd & [text|] & w2 & Ha & Hj); [|done]. split; [done|]. injection Hj as Hfind <-.
      apply find_first in Hfind as (b & a & -> & Hm & Hb). exists b, a. split; [done|]. split.
      * rewrite <- Hre. congruence.
      * eapply Forall_impl; [exact Hb|]. intros y. apply Hre.
    + by destruct Hd as [(_ & [text|] & w2 & _ & Hj)|Hd].
  - intros [a|]; auto with preserve.
  - by intros [a|] w0.
  - intros [a|] w0 w1; [|by intros [= <-]]. intros [= Hn <-]. split; [|done]. intros text [= <-].
    apply List.Forall_forall. intros y Hy. apply Hre. by apply (List.find_none _ _ Hn).
Qed.

(** [Succeed] and [Fail] split the outcomes of a command between them: the
    first passes exactly on exit code 0, the second exactly on any other code,
    neither on an RPC error; the one that does not pass marks the test failed
    and the one that passes leaves the world as [Execute] left it. *)
Theorem Succeed_Fail_split m cmd w :
  ∃ x w1, Execute m cmd w = (Ok x, w1) ∧
  let passes {A} (op : TestM A) := is_ok (op w).1 in
  (passes (Succeed m cmd) = true ↔ ex_err x = None ∧ ex_code x = 0%Z) ∧
  (passes (Fail m cmd) = true ↔ ex_err x = None ∧ ex_code x ≠ 0%Z) ∧
  (passes (Succeed m cmd) = true → Succeed m cmd w = (Ok (ex_stdout x), w1)) ∧
  (passes (Fail m cmd) = true → Fail m cmd w = (Ok tt, w1)) ∧
  (passes (Succeed m cmd) = false → failed (Succeed m cmd w).2 = true) ∧
  (passes (Fail m cmd) = false → failed (Fail m cmd w).2 = true).
Proof.
  destruct (Execute_run m cmd w) as (x & w1 & Hx & _). exists x, w1. split; [done|].
  unfold Succeed, Fail. rewrite !bind_run, Hx.
  destruct (ex_err x); [naive_solver|].
  destruct (Z.eqb_spec (ex_code x) 0); cbn; naive_solver.
Qed.
End MachineProperties.

Definition two_tries : World := fresh_test (set_execs [exits 1 ""; exits 0 "ok"] idle).
Definition quick : list RetryOption :=
  [WithRetryTimeout (2 * Second); WithRetryInterval Second].

Lemma WaitUntilSucceeds_correct_witness :
  (0 < interval (applyRetryOpts quick))%Z ∧
  later two_tries (WaitUntilSucceeds 3 test_machine "check" quick two_tries).2 ∧
  (WaitUntilSucceeds 3 test_machine "check" quick two_tries).1 = Ok "ok".
Proof.
  split; [done|]. split; [|by vm_compute].
  by destruct (WaitUntilSucceeds_correct 3 test_machine "check" quick two_tries)
    as [H _]; [by_compute..|].
Defined.

Lemma WaitUntilSucceeds_bounded_witness :
  let w' := (WaitUntilSucceeds 3 test_machine "check" quick two_tries).2 in
  (Z.of_nat (length (trace w') - length (trace two_tries)) * Second < 3 * Second)%Z ∧
  (now w' ≤ 3 * Second + Millisecond)%Z.
Proof.
  intros w'.
  destruct (WaitUntilSucceeds_bounded 3 test_machine "check" quick two_tries Millisecond 0)
    as [H1 H2]; [by_compute|by_compute| | |split; [exact H1|exact H2]].
  - intros w. unfold Execute, ExecuteWithTimeout. rewrite bind_run. unfold outside. cbn.
    unfold next. destruct (execs (ext w)) as [|[] l]; exact (Z.le_refl (now w + Millisecond)).

  - intros w. exact (Z.le_refl (now w + Second + 0)).
Defined.

Definition late_unit : World :=
  fresh_test (set_units [in_state "activating"; in_state "active"] idle).

Lemma WaitForUnit_correct_witness :
  (WaitForUnit 3 test_machine "nginx.service" quick late_unit).1 = Ok tt ∧
  later late_unit (WaitForUnit 3 test_machine "nginx.service" quick late_unit).2.
Proof.
  split; [by vm_compute|].
  by destruct (WaitForUnit_correct 3 test_machine "nginx.service" quick late_unit)
    as [H _]; [by_compute..|].
Defined.

Definition port_opens : World := fresh_test (set_ports [Ok false; Err "eof"; Ok true] idle).

Lemma WaitForPort_correct_witness :
  (WaitForOpenPort 4 test_machine 8080 [WithRetryTimeout (3 * Second)] port_opens).1 = Ok tt ∧
  later port_opens
    (WaitForOpenPort 4 test_machine 8080 [WithRetryTimeout (3 * Second)] port_opens).2.
Proof.
  split; [by vm_compute|].
  by destruct (WaitForPort_correct 4 test_machine 8080 [WithRetryTimeout (3 * Second)] port_opens)
    as [[H _] _]; [by_compute..|].
Defined.

Lemma WaitUntilOutput_correct_witness :
  (WaitUntilOutput 3 test_machine "check" (OutputContains "o") quick two_tries).1 = Ok "ok" ∧
  later two_tries (WaitUntilOutput 3 test_machine "check" (OutputContains "o") quick two_tries).2.
Proof.
  split; [by vm_compute|].
  by destruct (WaitUntilOutput_correct 3 test_machine "check" (OutputContains "o") quick two_tries)
    as [H _]; [by_compute..|].
Defined.

Definition page (code : Z) (body : string) : result error HTTPGetResponse :=
  Ok {| RespStatusCode := code; RespBody := body |}.
Definition slow_page : World :=
  fresh_test (set_pages [page 503 "starting"; page 200 "all is ok"] idle).
Definition page_options : list WaitForHTTPOption :=
  [AsHTTPOption (HTTPBodyContains "ok"); WithHTTPRetryTimeout (2 * Second)].

Lemma WaitForHTTP_correct_witness :
  (WaitForHTTP 3 test_machine "http://localhost" page_options slow_page).1
    = Ok {| StatusCode := 200; Body := "all is ok" |} ∧
  later slow_page (WaitForHTTP 3 test_machine "http://localhost" page_options slow_page).2.
Proof.
  split; [by vm_compute|].
  by destruct (WaitForHTTP_correct 3 test_machine "http://localhost" page_options slow_page)
    as [H _]; [by_compute..|].
Defined.

Definition journal_fills : World :=
  fresh_test (set_journals [Ok ["boot"]; Ok ["boot"; "ready 1"; "ready 2"]] idle).

Lemma WaitForLog_correct_witness :
  (@WaitForLog _ LiteralRegexp 3 test_machine "d.service" "ready" quick journal_fills).1
    = Ok "ready 1" ∧
  later journal_fills
    (@WaitForLog _ LiteralRegexp 3 test_machine "d.service" "ready" quick journal_fills).2.
Proof.
  split; [by vm_compute|].
  by destruct (@WaitForLog_correct _ LiteralRegexp 3 test_machine "d.service" "ready" quick
    journal_fills) as [H _]; [by_compute..|].
Defined.
