(* ===== verification/MachineFiles.v ===== *)
(** * MachineFiles: files on their way into the guest and back

    The file methods of machine.go used together: what [CopyFromHost] puts in the
    guest is what [WaitForFile], [FileSize] and [ReadFile] then find there.  The
    guest's file system is only known through what the agent is documented to
    do with it. *)

From S2P Require Import Prelude GoStrings VmLib TestWorld ScriptedVm Retry MachineOps.

Section Files.
Context {P : VmPackage} {RE : Regexp}.
Implicit Types (m : Machine) (w : World).

(** The agent's dealings with the guest's files [fs], and the host's with none
    of them. *)
Record files_laws (a : AgentConn) (fs : Ext → gmap string string) : Prop := {
  law_write : ∀ p d mode g, (agent_WriteFile a p d mode g).1 = Ok tt →
    fs (agent_WriteFile a p d mode g).2.2 = <[p := d]> (fs g);
  law_read : ∀ p g, fs (agent_ReadFile a p g).2.2 = fs g ∧
    ∀ d, fs g !! p = Some d → (agent_ReadFile a p g).1 = Ok d;
  law_stat : ∀ p g, fs (agent_Stat a p g).2.2 = fs g ∧
    ∀ d, fs g !! p = Some d →
      (agent_Stat a p g).1 = Ok {| Exists := true; Size := Z.of_nat (String.length d) |};
  law_host : ∀ p g, fs (host_ReadFile p g).2.2 = fs g;
}.

Lemma outside_effect {R} c (f : answer Ext R) w :
  ∃ w', outside c f w = (Ok (f (ext w)).1, w') ∧ ext w' = (f (ext w)).2.2 ∧ later w w'.
Proof.
  pose proof (outside_later c f w) as Hl. unfold outside in *. cbn [ext add_trace] in *.
  destruct (f (ext w)) as [r [d g]]. by eexists.
Qed.

Variables (m : Machine) (fs : Ext → gmap string string).
Hypothesis (laws : files_laws (agent m) fs).

Lemma stat_present p d w :
  fs (ext w) !! p = Some d →
  ∃ w', outside (CallStat p) (agent_Stat (agent m) p) w
        = (Ok (Ok {| Exists := true; Size := Z.of_nat (String.length d) |}), w') ∧
    fs (ext w') = fs (ext w) ∧ later w w'.
Proof.
  intros Hp. destruct (outside_effect (CallStat p) (agent_Stat (agent m) p) w) as (w' & E & X & L).
  destruct (law_stat _ _ laws p (ext w)) as [K S]. rewrite (S d Hp) in E. exists w'. by rewrite X.
Qed.

Lemma WaitForFile_present fuel p opts d w :
  (0 < timeout (applyRetryOpts opts))%Z → (0 < fuel)%nat → fs (ext w) !! p = Some d →
  ∃ w', WaitForFile fuel m p opts w = (Ok tt, w') ∧ fs (ext w') = fs (ext w) ∧ later w w'.
Proof.
  intros Ht Hf Hp. destruct fuel as [|fuel]; [lia|]. destruct (stat_present p d w Hp) as (w' & E & X & L).
  exists w'. split; [|done]. unfold WaitForFile, poll_unit. rewrite bind_run. unfold gets. cbv beta iota zeta.
  rewrite bind_run. cbn [poll]. rewrite bind_run. unfold gets. cbv beta iota zeta.
  destruct (Z.ltb_spec (now w) (now w + timeout (applyRetryOpts opts))); [|lia].
  by rewrite !bind_run, E.
Qed.
Lemma ReadFile_present p d w :
  fs (ext w) !! p = Some d →
  ∃ w', ReadFile m p w = (Ok d, w') ∧ fs (ext w') = fs (ext w) ∧ later w w'.
Proof.
  intros Hp. destruct (outside_effect (CallReadFile p) (agent_ReadFile (agent m) p) w) as (w' & E & X & L).
  destruct (law_read _ _ laws p (ext w)) as [K S]. rewrite (S d Hp) in E. exists w'.
  split; [|by rewrite X]. unfold ReadFile. by rewrite bind_run, E.
Qed.
Lemma FileSize_present p d w :
  fs (ext w) !! p = Some d →
  ∃ w', FileSize m p w = (Ok (Z.of_nat (String.length d)), w') ∧ fs (ext w') = fs (ext w) ∧ later w w'.
Proof.
  intros Hp. destruct (stat_present p d w Hp) as (w' & E & X & L). exists w'. split; [|done].
  unfold FileSize. by rewrite bind_run, E.
Qed.

(** Copying either fails the test or puts the file there. *)
Lemma CopyFromHost_run host guest w :
  (∃ d w', CopyFromHost m host guest w = (Ok tt, w') ∧ (host_ReadFile host (ext w)).1 = Ok d ∧
     fs (ext w') = <[guest := d]> (fs (ext w)) ∧ later w w') ∨
  (∃ e w', CopyFromHost m host guest w = (Err (Fatal e), w') ∧ failed w' = true ∧ later w w' ∧
     ((∃ x, e = CopyHost host x ∧ (host_ReadFile host (ext w)).1 = Err x ∧ fs (ext w') = fs (ext w)) ∨
      (∃ x d, e = CopyGuest guest x ∧ (host_ReadFile host (ext w)).1 = Ok d))).
Proof.
  unfold CopyFromHost.
  destruct (outside_effect (CallHostReadFile host) (host_ReadFile host) w) as (w1 & E1 & X1 & L1).
  rewrite bind_run, E1. pose proof (law_host _ _ laws host (ext w)) as Hh. rewrite <- X1 in Hh.
  destruct (host_ReadFile host (ext w)).1 as [d|x]; cbn [must]; rewrite bind_run.
  2: { right. eexists (CopyHost host x), _. split; [reflexivity|]. split; [done|].
       split; [etrans; [exact L1|apply (Fatalf_later (A := string))]|]. left. by exists x. }
  cbn [mret M_ret].
  destruct (outside_effect (CallWriteFile guest d 420) (agent_WriteFile (agent m) guest d 420) w1) as (w2 & E2 & X2 & L2).
  rewrite bind_run, E2. pose proof (law_write _ _ laws guest d 420%Z (ext w1)) as Hw. rewrite <- X2 in Hw.
  destruct (agent_WriteFile (agent m) guest d 420 (ext w1)).1 as [[]|x]; cbn [must].
  - left. exists d, w2. split_and!; [done|done|rewrite Hw by done; by rewrite Hh|by etrans].
  - right. eexists (CopyGuest guest x), _. split; [reflexivity|]. split; [done|].
    split; [etrans; [exact L1|]; etrans; [exact L2|apply (Fatalf_later (A := ()))]|]. right. by exists x, d.
Qed.
End Files.

(** ** Properties *)

Section FilesProperties.
Context {P : VmPackage} {RE : Regexp}.
Implicit Types (m : Machine) (w : World).

(** C27: a file copied in is the file read back.  After [CopyFromHost] a test that
    waits for the file, asks for its size and reads it gets exactly the bytes of
    the host's file and their number, without a timeout or any other failure,
    and no other file of the guest has changed; when copying fails it stops
    there, marked as failed, with the host's or the guest's error, and nothing
    is read. *)
Theorem files_roundtrip fuel m fs host guest opts w :
  files_laws (agent m) fs → (0 < timeout (applyRetryOpts opts))%Z → (0 < fuel)%nat →
  let out := (CopyFromHost m host guest;;
              WaitForFile fuel m guest opts;;
              n ← FileSize m guest;
              d ← ReadFile m guest;
              mret (n, d)) w in
  later w out.2 ∧
  match out.1 with
  | Ok (n, d) =>
      (host_ReadFile host (ext w)).1 = Ok d ∧ n = Z.of_nat (String.length d) ∧
      fs (ext out.2) = <[guest := d]> (fs (ext w))
  | Err e =>
      failed out.2 = true ∧
      ((∃ x, e = Fatal (CopyHost host x) ∧ (host_ReadFile host (ext w)).1 = Err x ∧
             fs (ext out.2) = fs (ext w)) ∨
       (∃ x, e = Fatal (CopyGuest guest x) ∧ is_ok (host_ReadFile host (ext w)).1 = true))
  end.
Proof.
  intros laws Ht Hf. cbv zeta. rewrite bind_run.
  destruct (CopyFromHost_run m fs laws host guest w) as [(d & w1 & E1 & Hh & X1 & L1)|(e & w1 & E1 & Hx & L1 & He)];
    rewrite E1.
  - assert (Hp : fs (ext w1) !! guest = Some d) by by rewrite X1, lookup_insert_eq.
    destruct (WaitForFile_present m fs laws fuel guest opts d w1 Ht Hf Hp) as (w2 & E2 & X2 & L2).
    rewrite bind_run, E2. rewrite <- X2 in Hp.
    destruct (FileSize_present m fs laws guest d w2 Hp) as (w3 & E3 & X3 & L3).
    rewrite bind_run, E3. rewrite <- X3 in Hp.
    destruct (ReadFile_present m fs laws guest d w3 Hp) as (w4 & E4 & X4 & L4).
    rewrite bind_run, E4. cbn [fst snd mret M_ret]. split; [by repeat (etrans; [eassumption|])|].
    split_and!; [done|done|congruence].
  - cbn [fst snd]. split; [done|]. split; [done|].
    destruct He as [(x & -> & Hr & X)|(x & d & -> & Hr)]; [left; by exists x|right; exists x; by rewrite Hr].
Qed.
End FilesProperties.

Definition with_host_file (path content : string) : Script := {|
  boots := true; connects := true; serial_on := true; next_tap := 1;
  execs := []; units := []; ports := []; pages := []; journals := [];
  processes := []; networks := []; guest_files := ∅; host_files := <[path := content]> ∅ |}.

Lemma scripted_files_laws : files_laws (P := ScriptedVm) (agent test_machine) guest_files.
Proof.
  split.
  - by intros p d mode [].
  - intros p g. split; [done|]. intros d Hd. cbn. by rewrite Hd.
  - intros p g. split; [done|]. intros d Hd. cbn. by rewrite Hd.
  - done.
Qed.
Lemma files_roundtrip_witness :
  let w := fresh_test (with_host_file "/tmp/unit" "[Unit]") in
  let out := (CopyFromHost test_machine "/tmp/unit" "/etc/a.service";;
              WaitForFile 1 test_machine "/etc/a.service" [];;
              n ← FileSize test_machine "/etc/a.service";
              d ← ReadFile test_machine "/etc/a.service";
              mret (n, d)) w in
  out.1 = Ok (6%Z, "[Unit]") ∧ guest_files (ext out.2) = <["/etc/a.service" := "[Unit]"]> ∅.
Proof.
  cbv zeta.
  destruct (files_roundtrip (P := ScriptedVm) 1 test_machine guest_files "/tmp/unit" "/etc/a.service" []
    (fresh_test (with_host_file "/tmp/unit" "[Unit]")) scripted_files_laws eq_refl ltac:(lia)) as [_ Hr].
  split; [exact eq_refl|]. exact (proj2 (proj2 Hr)).
Defined.
