(* ===== verification/MachineInspect.v ===== *)
(** * MachineInspect: what a test reads off the guest

    The methods of machine.go that fetch a report from the agent and reshape
    it: [JournalLines] (lines 658-691), [FindProcesses] (715-744),
    [NetworkAddrs], [NetworkRoutes], [NetworkLinks] (746-818) and the helper
    [Time] (820-830).  A slice made with its final length and filled by index
    is [fill]; a slice grown by [append] is a left fold. *)

From S2P Require Import Prelude GoStrings VmLib TestWorld ScriptedVm.

(** [out := make([]B, len(l)); for i, e := range l { out[i] = f(e) }] *)
Definition fill {A B} (f : A → B) (zero : B) (l : list A) : list B :=
  foldl (λ out ie, <[ie.1 := f ie.2]> out) (replicate (length l) zero) (imap pair l).

Section Inspect.
Context {P : VmPackage}.
Implicit Types (m : Machine).

Record journalConfig := { lines : Z; since : string }.
Definition JournalOption : Type := journalConfig → journalConfig.
Definition WithJournalLines (n : Z) : JournalOption := λ c, {| lines := n; since := since c |}.
Definition WithJournalSince (s : string) : JournalOption := λ c, {| lines := lines c; since := s |}.
Definition journal_settings (opts : list JournalOption) : journalConfig :=
  foldl (λ c o, o c) {| lines := 100; since := "" |} opts.

Definition JournalLines m (unit : string) (opts : list JournalOption) : TestM (list string) :=
  let jc := journal_settings opts in
  r ← outside (CallJournalLines unit (lines jc) (since jc))
        (agent_JournalLines (agent m) unit (lines jc) (since jc));
  must (JournalFailed unit) r.

Record ProcessInfo := { PID : Z; UID : Z; GID : Z; Cmdline : string; State : string }.
Definition no_process : ProcessInfo :=
  {| PID := 0; UID := 0; GID := 0; Cmdline := ""; State := "" |}.
Definition process_info (e : ProcessEntry) : ProcessInfo :=
  {| PID := EntryPID e; UID := EntryUID e; GID := EntryGID e;
     Cmdline := EntryCmdline e; State := EntryState e |}.

Definition FindProcesses m (pattern : string) : TestM (list ProcessInfo) :=
  r ← outside (CallFindProcesses pattern) (agent_FindProcesses (agent m) pattern);
  entries ← must (FindProcessesFailed pattern) r;
  mret (fill process_info no_process entries).

Record Route := { Destination : string; Gateway : string; Interface : string }.
Definition no_route : Route := {| Destination := ""; Gateway := ""; Interface := "" |}.
Definition route (r : RouteEntry) : Route :=
  {| Destination := RouteDestination r; Gateway := RouteGateway r; Interface := RouteInterface r |}.

Record Link := { Name : string; LState : string; MTU : Z; Addrs : list string }.

Definition NetworkAddrs m (iface : string) : TestM (list string) :=
  r ← outside (CallNetworkInfo iface) (agent_NetworkInfo (agent m) iface);
  resp ← must (AddrsFailed iface) r;
  mret (foldl (λ addrs a, addrs ++ [Address a]) [] (RespAddrs resp)).

Definition NetworkRoutes m : TestM (list Route) :=
  r ← outside (CallNetworkInfo "") (agent_NetworkInfo (agent m) "");
  resp ← must RoutesFailed r;
  mret (fill route no_route (RespRoutes resp)).

(** The body of the loop over links: the addresses of this link are collected
    by a pass over all addresses. *)
Definition link_of (resp : NetworkInfoResponse) (l : LinkEntry) : Link :=
  {| Name := LinkName l; LState := LinkState l; MTU := LinkMTU l;
     Addrs := foldl (λ addrs a, if String.eqb (AddrInterface a) (LinkName l)
                                then addrs ++ [Address a] else addrs) [] (RespAddrs resp) |}.

Definition NetworkLinks m : TestM (list Link) :=
  r ← outside (CallNetworkInfo "") (agent_NetworkInfo (agent m) "");
  resp ← must LinksFailed r;
  mret (foldl (λ links l, links ++ [link_of resp l]) [] (RespLinks resp)).

(** [fn] is any computation of the test. *)
Definition Time (label : string) (fn : TestM ()) : TestM Z :=
  start ← gets now;
  fn;;
  stop_at ← gets now;
  modify (add_log (LogTiming label (stop_at - start)));;
  mret (stop_at - start)%Z.

(** ** Lemmas *)

Lemma foldl_append {A B} (f : A → B) l acc :
  foldl (λ out a, out ++ [f a]) acc l = acc ++ map f l.
Proof.
  revert acc. induction l as [|a l IH]; intros acc; cbn; [by rewrite app_nil_r|].
  by rewrite IH, <- app_assoc.
Qed.

Lemma foldl_append_if {A B} (p : A → bool) (f : A → B) l acc :
  foldl (λ out a, if p a then out ++ [f a] else out) acc l = acc ++ map f (List.filter p l).
Proof.
  revert acc. induction l as [|a l IH]; intros acc; cbn; [by rewrite app_nil_r|].
  rewrite IH. destruct (p a); [by rewrite <- app_assoc|done].
Qed.

Lemma fill_from {A B} (f : A → B) (zero : B) l pre :
  foldl (λ out ie, <[ie.1 := f ie.2]> out) (pre ++ replicate (length l) zero)
    (imap (λ i e, (length pre + i, e)) l) = pre ++ map f l.
Proof.
  revert pre. induction l as [|a l IH]; intros pre; [done|].
  cbn. rewrite Nat.add_0_r, insert_app_r_alt, Nat.sub_diag by lia. cbn.
  replace (pre ++ f a :: replicate (length l) zero)
    with ((pre ++ [f a]) ++ replicate (length l) zero) by (by rewrite <- app_assoc).
  rewrite (imap_ext _ (λ i e, (length (pre ++ [f a]) + i, e))).
  - rewrite IH. by rewrite <- app_assoc.
  - intros i x _. cbn. rewrite length_app. cbn. f_equal. lia.
Qed.

(** Filling by index is mapping. *)
Lemma fill_map {A B} (f : A → B) (zero : B) l : fill f zero l = map f l.
Proof. apply (fill_from f zero l []). Qed.
End Inspect.

(** ** Properties *)

Section InspectProperties.
Context {P : VmPackage}.
Implicit Types (m : Machine) (w : World).

(** [NetworkLinks] reports the guest's links in order, each with exactly the
    addresses the agent gave for an interface of that name, in the agent's
    order; [NetworkRoutes] and [FindProcesses], which fill by index, report
    every entry in order; an RPC error fails the test in all three. *)
Theorem reports_faithful m pattern w :
  (match outside (CallNetworkInfo "") (agent_NetworkInfo (agent m) "") w with
   | (Ok (Ok resp), w') =>
       NetworkLinks m w = (Ok (map (λ l,
         {| Name := LinkName l; LState := LinkState l; MTU := LinkMTU l;
            Addrs := map Address (List.filter
              (λ a, String.eqb (AddrInterface a) (LinkName l)) (RespAddrs resp)) |})
         (RespLinks resp)), w') ∧
       NetworkRoutes m w = (Ok (map route (RespRoutes resp)), w')
   | (Ok (Err e), w') =>
       (NetworkLinks m w).1 = Err (Fatal (LinksFailed e)) ∧
       (NetworkRoutes m w).1 = Err (Fatal (RoutesFailed e)) ∧
       failed (NetworkLinks m w).2 = true ∧ failed (NetworkRoutes m w).2 = true
   | (Err _, _) => False
   end) ∧
  (match outside (CallFindProcesses pattern) (agent_FindProcesses (agent m) pattern) w with
   | (Ok (Ok entries), w') => FindProcesses m pattern w = (Ok (map process_info entries), w')
   | (Ok (Err e), w') => (FindProcesses m pattern w).1 = Err (Fatal (FindProcessesFailed pattern e))
                         ∧ failed (FindProcesses m pattern w).2 = true
   | (Err _, _) => False
   end).
Proof.
  split.
  - unfold NetworkLinks, NetworkRoutes. rewrite !bind_run.
    unfold outside. destruct (agent_NetworkInfo _ _ _) as [[resp|e] [d g]]; cbn.
    + rewrite !bind_run. cbn. rewrite foldl_append, fill_map. split; [|done].
      erewrite (map_ext (link_of resp)); [reflexivity|].
      intros l. unfold link_of. by rewrite foldl_append_if.
    + done.
  - unfold FindProcesses. rewrite bind_run. unfold outside.
    destruct (agent_FindProcesses _ _ _) as [[entries|e] [d g]]; cbn; [|done].
    rewrite bind_run. cbn. by rewrite fill_map.
Qed.
End InspectProperties.
