(* ===== verification/MachineDump.v ===== *)
(** * MachineDump: diagnostics of a failed test, and the cleanup stack

    [DumpOnFailure] with its options and helpers (machine.go, lines 531-656),
    [shellQuote] (832-835), and the running of the functions registered with
    [t.Cleanup]: the one of [New] (lines 158-164) and the one of
    [DumpOnFailure] (585-627).  Go runs them last registered first, and goes
    on with the next when one panics. *)

From S2P Require Import Prelude GoStrings Shell VmLib TestWorld ScriptedVm MachineOps.

Definition nl : string := String newline EmptyString.

(** ** Shell quoting *)

(** The Go literal written there is the five bytes: quote, double quote, quote,
    double quote, quote. *)
Definition quoted_quote : string :=
  String quote (String dquote (String quote (String dquote (String quote EmptyString)))).

Definition shellQuote (s : string) : string :=
  String quote EmptyString +:+ ReplaceAll s quote quoted_quote +:+ String quote EmptyString.

(** ** Options *)

Definition no_dump : dumpConfig :=
  {| journalUnits := []; dmesgFilters := None; processGlob := ""; fileGlobs := [];
     hasOptions := false |}.
Definition DumpOption : Type := dumpConfig → dumpConfig.

Definition DumpJournalUnits (units : list string) : DumpOption := λ c,
  {| journalUnits := journalUnits c ++ units; dmesgFilters := dmesgFilters c;
     processGlob := processGlob c; fileGlobs := fileGlobs c; hasOptions := true |}.
(** [filters] is the variadic parameter: nil when the call names no filter. *)
Definition DumpDmesg (filters : option (list string)) : DumpOption := λ c,
  {| journalUnits := journalUnits c; dmesgFilters := filters;
     processGlob := processGlob c; fileGlobs := fileGlobs c; hasOptions := true |}.
Definition DumpProcessList (pattern : string) : DumpOption := λ c,
  {| journalUnits := journalUnits c; dmesgFilters := dmesgFilters c;
     processGlob := pattern; fileGlobs := fileGlobs c; hasOptions := true |}.
Definition DumpFiles (globs : list string) : DumpOption := λ c,
  {| journalUnits := journalUnits c; dmesgFilters := dmesgFilters c;
     processGlob := processGlob c; fileGlobs := fileGlobs c ++ globs; hasOptions := true |}.
Definition dump_settings (opts : list DumpOption) : dumpConfig :=
  foldl (λ c o, o c) no_dump opts.

(** What a slice holds, nil or not. *)
Definition elems (s : option (list string)) : list string := default [] s.

Section Dump.
Context {P : VmPackage}.
Implicit Types (m : Machine) (w : World).

Definition DumpOnFailure m (opts : list DumpOption) : TestM () :=
  Cleanup (DumpDiagnostics m (dump_settings opts)).

Definition dump_unit_line m (line : string) : TestM () :=
  if String.eqb line "" then mret tt
  else match Fields line with
       | [] => throw PanicIndex
       | unit :: _ =>
           r ← outside (CallJournalLines unit 50 "") (agent_JournalLines (agent m) unit 50 "");
           match r with
           | Ok lines => Logf ("[failed-unit:" +:+ unit +:+ "]" +:+ nl +:+ Join lines nl)
           | Err _ => mret tt
           end
       end.

Definition dumpFailedUnits m : TestM () :=
  x ← Execute m "systemctl --failed --no-legend --no-pager --plain";
  match ex_err x with
  | Some _ => mret tt
  | None => for_each (dump_unit_line m) (Split (TrimSpace (ex_stdout x)) newline)
  end.

Definition dmesg_command (filters : option (list string)) : string :=
  match elems filters with
  | [] => "dmesg --color=never"
  | _ => "dmesg --color=never | grep -E " +:+ shellQuote (Join (elems filters) "|")
  end.

Definition dumpDmesg m (filters : option (list string)) : TestM () :=
  x ← Execute m (dmesg_command filters);
  match ex_err x with
  | Some _ => mret tt
  | None => Logf ("[dmesg]" +:+ nl +:+ ex_stdout x)
  end.

Definition dump_journal m (unit : string) : TestM () :=
  r ← outside (CallJournalLines unit 100 "") (agent_JournalLines (agent m) unit 100 "");
  match r with
  | Ok lines => Logf ("[journal:" +:+ unit +:+ "]" +:+ nl +:+ Join lines nl)
  | Err _ => mret tt
  end.

Definition process_line (p : ProcessEntry) : string :=
  "[process:" +:+ pretty (EntryPID p) +:+ "] " +:+ EntryCmdline p
  +:+ " (state=" +:+ EntryState p +:+ " uid=" +:+ pretty (EntryUID p) +:+ ")".

Definition dump_processes m (glob : string) : TestM () :=
  r ← outside (CallFindProcesses glob) (agent_FindProcesses (agent m) glob);
  match r with
  | Ok procs => for_each (λ p, Logf (process_line p)) procs
  | Err _ => mret tt
  end.

Definition dump_file m (glob : string) : TestM () :=
  r ← outside (CallReadFile glob) (agent_ReadFile (agent m) glob);
  match r with
  | Ok data => Logf ("[file:" +:+ glob +:+ "]" +:+ nl +:+ data)
  | Err _ => mret tt
  end.

(** The closure [DumpOnFailure] registers. *)
Definition dumpDiagnostics m (dc : dumpConfig) : TestM () :=
  f ← gets failed;
  if negb f then mret tt
  else
    Logf "=== DumpOnFailure: collecting diagnostics ===";;
    if negb (hasOptions dc) then dumpFailedUnits m;; dumpDmesg m None
    else
      (if (0 <? length (journalUnits dc))%nat
       then for_each (dump_journal m) (journalUnits dc) else mret tt);;
      (match dmesgFilters dc with
       | None => mret tt
       | Some fs => dumpDmesg m (Some fs)
       end);;
      (if negb (String.eqb (processGlob dc) "") then dump_processes m (processGlob dc)
       else mret tt);;
      for_each (dump_file m) (fileGlobs dc).

(** The closure [New] registers. *)
Definition closeMachine m (logDone : option SerialConsole) : TestM () :=
  outside_void (CallClose (agent m)) (agent_Close (agent m));;
  outside_void (CallKill (vm m)) (vm_Kill (vm m));;
  match logDone with Some s => modify (add_trace (WaitLogDone s)) | None => mret tt end.

Definition run_cleanup (c : cleanup) : TestM () :=
  match c with
  | CloseMachine m logDone => closeMachine m logDone
  | DumpDiagnostics m dc => dumpDiagnostics m dc
  end.

(** The end of a test: the stack is run from its top, whatever each function does. *)
Fixpoint run_stack (cs : list cleanup) (w : World) : World :=
  match cs with
  | [] => w
  | c :: cs' => run_stack cs' (run_cleanup c w).2
  end.
Definition finish_test (w : World) : World := run_stack (cleanups w) (set_cleanups [] w).

(** ** Lemmas *)

Lemma sh_word_replace s t :
  sh_word InSingle (ReplaceAll s quote quoted_quote +:+ String quote t)
  = option_map (append s) (sh_word Unquoted t).
Proof.
  induction s as [|a s IH].
  { change (sh_word Unquoted t = option_map (append "") (sh_word Unquoted t)).
    by destruct (sh_word Unquoted t). }
  cbn [ReplaceAll].
  destruct (Ascii.eqb_spec a quote) as [->|Hne].
  - change (sh_word InSingle ((quoted_quote +:+ ReplaceAll s quote quoted_quote) +:+ String quote t))
      with (option_map (String quote)
              (sh_word InSingle (ReplaceAll s quote quoted_quote +:+ String quote t))).
    rewrite IH. by destruct (sh_word Unquoted t).
  - apply Ascii.eqb_neq in Hne.
    change (sh_word InSingle (String a (ReplaceAll s quote quoted_quote) +:+ String quote t))
      with (if Ascii.eqb a quote then sh_word Unquoted (ReplaceAll s quote quoted_quote +:+ String quote t)
            else option_map (String a)
                   (sh_word InSingle (ReplaceAll s quote quoted_quote +:+ String quote t))).
    rewrite Hne, IH. by destruct (sh_word Unquoted t).
Qed.

(** A dumping function only adds to the trace calls that are no power-off:
    neither the agent connection nor the machine goes away. *)
Definition probe (c : call) : Prop :=
  match c with
  | CallExec _ _ _ | CallJournalLines _ _ _ | CallFindProcesses _ | CallReadFile _ => True
  | _ => False
  end.
Definition probes (w w' : World) : Prop :=
  ∃ l, trace w' = trace w ++ l ∧ Forall (λ tc, probe tc.2) l.

#[export] Instance probes_preorder : PreOrder probes.
Proof.
  split.
  - intros w. exists []. by rewrite app_nil_r.
  - intros w1 w2 w3 (l1 & H1 & F1) (l2 & H2 & F2). exists (l1 ++ l2).
    rewrite H2, H1, app_assoc. split; [done|]. by apply Forall_app.
Qed.

Lemma outside_probes {R} c (f : answer Ext R) : probe c → preserves probes (outside c f).
Proof.
  intros Hc w. unfold outside. destruct (f _) as [r [d g]]. cbn. eexists. by repeat constructor.
Qed.
Lemma Logf_probes s : preserves probes (Logf s).
Proof. intros w. exists []. cbn. by rewrite app_nil_r. Qed.
Hint Resolve outside_probes Logf_probes I : preserve.

Lemma Execute_probes m cmd : preserves probes (Execute m cmd).
Proof.
  apply preserves_bind; [apply _|by apply outside_probes|].
  intros [resp|e]; auto with preserve.
Qed.
Hint Resolve Execute_probes : preserve.

Lemma dump_unit_line_probes m line : preserves probes (dump_unit_line m line).
Proof.
  unfold dump_unit_line. case_bools; auto with preserve. destruct (Fields line); auto with preserve.
  apply preserves_bind; [apply _|by apply outside_probes|]. intros []; auto with preserve.
Qed.
Hint Resolve dump_unit_line_probes : preserve.

Lemma dumpFailedUnits_probes m : preserves probes (dumpFailedUnits m).
Proof.
  apply preserves_bind; [apply _|auto with preserve|].
  intros x. destruct (ex_err x); auto with preserve.
Qed.
Lemma dumpDmesg_probes m fs : preserves probes (dumpDmesg m fs).
Proof.
  apply preserves_bind; [apply _|auto with preserve|].
  intros x. destruct (ex_err x); auto with preserve.
Qed.
Lemma dump_journal_probes m u : preserves probes (dump_journal m u).
Proof.
  apply preserves_bind; [apply _|by apply outside_probes|]. intros []; auto with preserve.
Qed.
Lemma dump_processes_probes m g : preserves probes (dump_processes m g).
Proof.
  apply preserves_bind; [apply _|by apply outside_probes|]. intros []; auto with preserve.
Qed.
Lemma dump_file_probes m g : preserves probes (dump_file m g).
Proof.
  apply preserves_bind; [apply _|by apply outside_probes|]. intros []; auto with preserve.
Qed.
Hint Resolve dumpFailedUnits_probes dumpDmesg_probes dump_journal_probes
  dump_processes_probes dump_file_probes : preserve.

Lemma dumpDiagnostics_probes m dc : preserves probes (dumpDiagnostics m dc).
Proof.
  apply preserves_bind; [apply _|auto with preserve|]. intros f.
  destruct (negb f); [auto with preserve|].
  apply preserves_bind; [apply _|auto with preserve|]. intros _.
  destruct (negb (hasOptions dc)); [auto with preserve|].
  apply preserves_bind; [apply _|destruct (0 <? _)%nat; auto with preserve|]. intros _.
  apply preserves_bind; [apply _|destruct (dmesgFilters dc); auto with preserve|]. intros _.
  apply preserves_bind; [apply _|destruct (negb _); auto with preserve|]. intros _.
  auto with preserve.
Qed.

Lemma closeMachine_trace m ld w :
  ∃ t1 t2 t3, trace (closeMachine m ld w).2
  = trace w ++ [(t1, CallClose (agent m)); (t2, CallKill (vm m))]
            ++ match ld with Some s => [(t3, WaitLogDone s)] | None => [] end.
Proof.
  unfold closeMachine. rewrite bind_run. unfold outside_void at 1.
  destruct (agent_Close _ _) as [d1 g1]. rewrite bind_run. unfold outside_void at 1.
  destruct (vm_Kill _ _) as [d2 g2]. cbn.
  exists (now w), (now w + Z.of_N d1)%Z, (now w + Z.of_N d1 + Z.of_N d2)%Z.
  destruct ld; cbn; by rewrite <- ?app_assoc.
Qed.

Lemma for_each_panics (f : string → TestM ()) l w :
  (∀ x w, (f x w).1 = Ok tt ∨ (f x w).1 = Err PanicIndex) →
  (∀ x w w', is_ok (f x w).1 = is_ok (f x w').1) →
  ((for_each f l w).1 = Err PanicIndex ↔ ∃ x, x ∈ l ∧ (f x w).1 = Err PanicIndex).
Proof.
  intros Hf Hu. revert w. induction l as [|x l IH]; intros w; cbn [for_each].
  - split; [done|]. intros (x & Hx & _). by apply not_elem_of_nil in Hx.
  - rewrite bind_run. pose proof (Hf x w) as Hx. pose proof (λ w', Hu x w w') as Hxu.
    destruct (f x w) as [[[]|e] w'] eqn:E; cbn in *.
    + rewrite IH. split.
      * intros (y & Hy & Hp). exists y. split; [set_solver|].
        specialize (Hf y w). specialize (Hu y w w'). rewrite Hp in Hu. cbn in Hu.
        destruct Hf as [Hf|Hf]; [by rewrite Hf in Hu|done].
      * intros (y & Hy & Hp). apply elem_of_cons in Hy as [->|Hy]; [by rewrite E in Hp|].
        exists y. split; [done|]. specialize (Hf y w'). specialize (Hu y w w').
        rewrite Hp in Hu. cbn in Hu. destruct Hf as [Hf|Hf]; [by rewrite Hf in Hu|done].
    + destruct Hx as [|[= ->]]; [done|]. split; [|done].
      intros _. exists x. split; [set_solver|]. by rewrite E.
Qed.

Lemma dump_unit_line_outcome m line w :
  (dump_unit_line m line w).1 =
  if negb (String.eqb line "") && match Fields line with [] => true | _ => false end
  then Err PanicIndex else Ok tt.
Proof.
  unfold dump_unit_line. destruct (String.eqb line ""); [done|].
  destruct (Fields line); [done|]. cbn [negb andb]. rewrite bind_run. unfold outside.
  by destruct (agent_JournalLines _ _ _ _ _) as [[] [d g]].
Qed.
(** The run of the stack [New] and [DumpOnFailure] build. *)
Lemma run_all_closes m logDone ds w :
  cleanups w = map (λ dc, DumpDiagnostics m dc) ds ++ [CloseMachine m logDone] →
  ∃ l t1 t2 t3,
    trace (finish_test w)
    = trace w ++ l ++ [(t1, CallClose (agent m)); (t2, CallKill (vm m))]
              ++ match logDone with Some s => [(t3, WaitLogDone s)] | None => [] end ∧
    Forall (λ tc, probe tc.2) l.
Proof.
  unfold finish_test. intros ->.
  assert (Hs : trace (set_cleanups [] w) = trace w) by done. revert Hs.
  generalize (set_cleanups [] w) as w0. generalize (trace w) as tr.
  induction ds as [|d ds IH]; intros tr w0 <-; cbn [map app run_stack].
  - destruct (closeMachine_trace m logDone w0) as (t1 & t2 & t3 & Ht).
    exists [], t1, t2, t3. by split.
  - destruct (dumpDiagnostics_probes m d w0) as (l1 & H1 & F1).
    destruct (IH _ (run_cleanup (DumpDiagnostics m d) w0).2 H1) as (l & t1 & t2 & t3 & Ht & F).
    exists (l1 ++ l), t1, t2, t3. rewrite Ht, <- !app_assoc. split; [done|].
    by apply Forall_app.
Qed.
End Dump.

(** ** Properties *)

Section DumpProperties.
Context {P : VmPackage}.
Implicit Types (m : Machine) (w : World).

(** Whatever the filters hold, quotes included, the guest's shell reads the
    last word of the [dmesg] pipeline back as the filters joined by bars, one
    literal word with nothing expanded; with no filter there is no pipeline. *)
Theorem dmesg_command_quoting filters :
  match elems filters with
  | [] => dmesg_command filters = "dmesg --color=never"
  | fs => ∃ word, dmesg_command filters = "dmesg --color=never | grep -E " +:+ word
                  ∧ sh_word Unquoted word = Some (Join fs "|")
  end.
Proof.
  unfold dmesg_command. destruct (elems filters) as [|f fs]; [done|].
  eexists. split; [done|].
  change (sh_word InSingle (ReplaceAll (Join (f :: fs) "|") quote quoted_quote
    +:+ String quote EmptyString) = Some (Join (f :: fs) "|")).
  rewrite sh_word_replace. cbn -[Join]. by rewrite append_nil_r.
Qed.

(** [DumpOnFailure] collects nothing when the test passed.  When it failed,
    [DumpDmesg] called with no filter, which its comment calls optional, also
    collects nothing at all, while no option at all runs [dmesg] unfiltered. *)
Theorem DumpDmesg_needs_a_filter m opts w :
  (failed w = false → run_cleanup (DumpDiagnostics m (dump_settings opts)) w = (Ok tt, w)) ∧
  (failed w = true →
     run_cleanup (DumpDiagnostics m (dump_settings [DumpDmesg None])) w
       = Logf "=== DumpOnFailure: collecting diagnostics ===" w ∧
     (is_ok (dumpFailedUnits m (Logf "=== DumpOnFailure: collecting diagnostics ===" w).2).1 = true →
        ∃ t l1 l2, trace (run_cleanup (DumpDiagnostics m (dump_settings [])) w).2
          = l1 ++ (t, CallExec (120 * Second) "dmesg --color=never" 0) :: l2)).
Proof.
  unfold run_cleanup, dumpDiagnostics. rewrite !bind_run. cbn [gets].
  split; [by intros ->|]. intros ->. split; [done|].
  cbn [negb]. rewrite bind_run. destruct (Logf _ w) as [[[]|] w1] eqn:El; [|done].
  cbn [dump_settings foldl hasOptions no_dump negb]. rewrite bind_run. cbn [snd].
  destruct (dumpFailedUnits m w1) as [[[]|] w2]; [|done]. intros _.
  unfold dumpDmesg. rewrite bind_run.
  destruct (Execute_run m (dmesg_command None) w2) as (x & w3 & -> & Ht).
  exists (now w2), (trace w2), []. destruct (ex_err x); exact Ht.
Qed.

(** C38: cleanup order.  When the machine's own cleanup is at the bottom of the
    stack, as [New] leaves it, every diagnostic registered later runs while the
    agent is still connected and the guest still up: the test ends with the
    probes, then the agent closed, then the guest killed, then the wait for the
    serial log, and no call comes after. *)
Theorem diagnostics_before_close m logDone ds w :
  cleanups w = map (λ dc, DumpDiagnostics m dc) ds ++ [CloseMachine m logDone] →
  ∃ l t1 t2 t3,
    trace (finish_test w)
    = trace w ++ l ++ [(t1, CallClose (agent m)); (t2, CallKill (vm m))]
              ++ match logDone with Some s => [(t3, WaitLogDone s)] | None => [] end ∧
    Forall (λ tc, probe tc.2) l.
Proof. apply run_all_closes. Qed.

(** The dump of failed units panics (index out of range on [Fields]) exactly
    when [systemctl] answered and some non-empty line of its trimmed output is
    white space only. *)
Theorem dumpFailedUnits_panics m w :
  ∃ x w1, Execute m "systemctl --failed --no-legend --no-pager --plain" w = (Ok x, w1) ∧
  ((dumpFailedUnits m w).1 = Err PanicIndex ↔
   ex_err x = None ∧
   ∃ line, line ∈ Split (TrimSpace (ex_stdout x)) newline ∧ line ≠ "" ∧ Fields line = []).
Proof.
  destruct (Execute_run m "systemctl --failed --no-legend --no-pager --plain" w)
    as (x & w1 & Hx & _).
  exists x, w1. split; [done|]. unfold dumpFailedUnits. rewrite bind_run, Hx.
  destruct (ex_err x); [by split; [|intros []]|].
  rewrite for_each_panics.
  - setoid_rewrite dump_unit_line_outcome. split.
    + intros (line & Hin & Hp). split; [done|]. exists line. split; [done|].
      destruct (String.eqb_spec line ""); [done|]. by destruct (Fields line).
    + intros (_ & line & Hin & Hne & Hf). exists line. split; [done|].
      apply String.eqb_neq in Hne. by rewrite Hne, Hf.
  - intros line w0. rewrite dump_unit_line_outcome. case_match; [by right|by left].
  - intros line w0 w2. by rewrite !dump_unit_line_outcome.
Qed.
End DumpProperties.

Definition failing_test : World :=
  {| now := 0; ext := idle; environ := ∅; failed := true; log := [];
     cleanups := [DumpDiagnostics test_machine no_dump; CloseMachine test_machine (Some (tt : @SerialConsole ScriptedVm))];
     trace := [] |}.

Lemma DumpDmesg_needs_a_filter_witness :
  run_cleanup (DumpDiagnostics test_machine (dump_settings [DumpDmesg None])) failing_test
  = Logf "=== DumpOnFailure: collecting diagnostics ===" failing_test.
Proof. by destruct (DumpDmesg_needs_a_filter test_machine [] failing_test) as [_ [H _]]. Defined.

Lemma diagnostics_before_close_witness :
  ∃ l t1 t2 t3,
    trace (finish_test failing_test)
    = trace failing_test ++ l ++ [(t1, CallClose tt); (t2, CallKill None)]
              ++ [(t3, WaitLogDone (tt : @SerialConsole ScriptedVm))] ∧
    Forall (λ tc, probe tc.2) l.
Proof. exact (diagnostics_before_close test_machine (Some (tt : @SerialConsole ScriptedVm)) [no_dump] failing_test eq_refl). Defined.
