(* ===== verification/MachineEnv.v ===== *)
(** * MachineEnv: options of a machine and configuration from the environment

    The machine options of machine.go (lines 29-84), [macFromTap] (50-62) and
    [buildVMOptsFromEnv] (837-922).  A machine option appends to the list of
    [vm] options it is given; only [WithBridge] also acts (it allocates a TAP
    device, and panics when it cannot). *)

From Stdlib Require Import HexadecimalString HexadecimalN.
From S2P Require Import Prelude GoStrings GoStrconv VmLib TestWorld ScriptedVm.

(** ** MAC addresses *)

Definition tap_index (tap : string) : Z :=
  let i := LastIndex tap "tap" in
  if (0 <=? i)%Z then
    match Atoi (skip (Z.to_nat (i + 3)) tap) with
    | Ok n => n
    | Err _ => 0
    end
  else 0.
Definition macFromTap (tap : string) : string := "02:00:00:00:00:" +:+ fmt_02x (tap_index tap).

(** Six groups of two lower-case hexadecimal digits, separated by colons. *)
Definition hex_char (a : ascii) : bool := byte_in 48 57 a || byte_in 97 102 a.
Definition hex_pair (s : string) : bool := (String.length s =? 2)%nat && all_chars hex_char s.
Definition valid_mac (s : string) : bool :=
  (length (Split s ":") =? 6)%nat && forallb hex_pair (Split s ":").

(** ** The environment *)

Definition when_set (v : string) (opt : VmOption) : list VmOption :=
  if String.eqb v "" then [] else [opt].

Definition parse_cpus (v : string) : result fatal (list VmOption) :=
  if String.eqb v "" then Ok []
  else match Atoi v with
       | Ok n => Ok [WithCPUs n]
       | Err _ => Err (EnvCPUs v)
       end.

Fixpoint parse_ports (l : list string) : result fatal (list VmOption) :=
  match l with
  | [] => Ok []
  | p :: l' =>
      match Atoi (TrimSpace p) with
      | Err _ => Err (EnvPort p)
      | Ok port =>
          match parse_ports l' with
          | Ok opts => Ok (WithPortForward port :: opts)
          | Err e => Err e
          end
      end
  end.

Definition network_options (mode : string) : list VmOption :=
  if String.eqb (ToLower mode) "none" then [WithNoNetwork]
  else if String.eqb (ToLower mode) "bridge" then []
  else [WithUserNet].

(** The options before [VMTEST_CPUS] is read. *)
Definition boot_options (env : gmap string string) : list VmOption :=
  let get := Getenv env in
  when_set (get "VMTEST_QEMU") (WithQemuBinary (get "VMTEST_QEMU"))
  ++ when_set (get "VMTEST_QEMU_IMG") (WithQemuImg (get "VMTEST_QEMU_IMG"))
  ++ when_set (get "VMTEST_MACHINE_TYPE") (WithMachineType (get "VMTEST_MACHINE_TYPE"))
  ++ when_set (get "VMTEST_ACCEL") (WithAccel (get "VMTEST_ACCEL"))
  ++ when_set (get "VMTEST_KERNEL")
       (WithKernelBoot (get "VMTEST_KERNEL") (get "VMTEST_INITRD") (get "VMTEST_CMDLINE"))
  ++ (if negb (String.eqb (get "VMTEST_OVMF_CODE") "") && negb (String.eqb (get "VMTEST_OVMF_VARS") "")
      then [WithUEFI (get "VMTEST_OVMF_CODE") (get "VMTEST_OVMF_VARS")] else [])
  ++ when_set (get "VMTEST_ISO") (WithISO (get "VMTEST_ISO"))
  ++ when_set (get "VMTEST_DISK") (WithExistingDisk (get "VMTEST_DISK"))
  ++ when_set (get "VMTEST_DISK_SIZE") (WithDisk (get "VMTEST_DISK_SIZE"))
  ++ when_set (get "VMTEST_MEMORY") (WithMemory (get "VMTEST_MEMORY")).

Definition tpm_options (env : gmap string string) : list VmOption :=
  let get := Getenv env in
  if String.eqb (get "VMTEST_TPM") "true" && negb (String.eqb (get "VMTEST_SWTPM") "")
     && negb (String.eqb (get "VMTEST_SWTPM_SETUP") "")
  then [WithTPM (get "VMTEST_SWTPM") (get "VMTEST_SWTPM_SETUP")] else [].

Definition env_options (env : gmap string string) : result fatal (list VmOption) :=
  let get := Getenv env in
  match parse_cpus (get "VMTEST_CPUS") with
  | Err e => Err e
  | Ok cpus =>
      let opts := boot_options env ++ cpus ++ tpm_options env
                  ++ network_options (get "VMTEST_NETWORK") in
      if String.eqb (get "VMTEST_PORT_FORWARDS") "" then Ok opts
      else match parse_ports (Split (get "VMTEST_PORT_FORWARDS") ",") with
           | Err e => Err e
           | Ok ports => Ok (opts ++ ports)
           end
  end.

Section Options.
Context {P : VmPackage}.

Definition buildVMOptsFromEnv : TestM (list VmOption) :=
  env ← gets environ;
  match env_options env with
  | Ok opts => mret opts
  | Err f => Fatalf f
  end.

(** ** Machine options *)

(** A function on a [machineConfig], which is its [vmOpts]. *)
Definition Option : Type := list VmOption → TestM (list VmOption).

Definition WithBridge (b : Bridge) : Option := λ opts,
  r ← outside (CallAllocateTap b) (bridge_AllocateTap b);
  match r with
  | Err e => throw (PanicBridge e)
  | Ok tap => mret (opts ++ [WithTapDevice tap (bridge_Name b); WithMacAddress (macFromTap tap)])
  end.
Definition WithUserNetwork : Option := λ opts, mret (opts ++ [WithUserNet]).
Definition WithVMOption (opt : VmOption) : Option := λ opts, mret (opts ++ [opt]).
Definition WithPortForwardOption (guestPort : Z) : Option := λ opts,
  mret (opts ++ [WithPortForward guestPort]).

Fixpoint apply_options (opts : list Option) (acc : list VmOption) : TestM (list VmOption) :=
  match opts with
  | [] => mret acc
  | o :: opts' => acc' ← o acc; apply_options opts' acc'
  end.
End Options.

(** ** Lemmas *)

(** The names a bridge hands out: a prefix, [tap], a number. *)
Definition tap_name (prefix : string) (n : Z) : string := prefix +:+ "tap" +:+ fmt_d n.

Lemma prefix_tap_digits s c t :
  all_chars is_digit s = true → s = String c t → String.prefix "tap" s = false.
Proof.
  intros Hd ->. apply not_true_is_false. rewrite prefix_spec. intros [t' H].
  change ("tap" +:+ t') with (String "t" (String "a" (String "p" t'))) in H.
  injection H as -> _. by cbn in Hd.
Qed.

Lemma LastIndex_digits i best s :
  all_chars is_digit s = true → LastIndex_from i best s "tap" = best.
Proof.
  revert i. induction s as [|c s IH]; intros i Hd; [done|]. cbn [LastIndex_from].
  rewrite (prefix_tap_digits _ c s) by done. apply IH.
  cbn in Hd. by apply andb_true_iff in Hd as [_ ?].
Qed.

Lemma LastIndex_tap i best p d :
  all_chars is_digit d = true →
  LastIndex_from i best (p +:+ "tap" +:+ d) "tap" = (i + Z.of_nat (String.length p))%Z.
Proof.
  intros Hd. revert i best. induction p as [|c p IH]; intros i best.
  - change ("" +:+ "tap" +:+ d) with (String "t" (String "a" (String "p" d))).
    cbn [LastIndex_from].
    assert (String.prefix "tap" (String "t" (String "a" (String "p" d))) = true) as ->
      by (apply prefix_spec; by exists d).
    assert (String.prefix "tap" (String "a" (String "p" d)) = false) as -> by done.
    assert (String.prefix "tap" (String "p" d) = false) as -> by done.
    rewrite LastIndex_digits by done. cbn. lia.
  - change (String c p +:+ "tap" +:+ d) with (String c (p +:+ "tap" +:+ d)).
    cbn [LastIndex_from String.length]. rewrite IH. lia.
Qed.

Lemma skip_append p s : skip (String.length p) (p +:+ s) = s.
Proof. induction p; [by destruct s|done]. Qed.

Lemma tap_index_tap_name p n :
  (0 ≤ n ≤ max_int)%Z → tap_index (tap_name p n) = n.
Proof.
  intros Hn. unfold tap_index, tap_name, LastIndex.
  assert (Hd : all_chars is_digit (fmt_d n) = true).
  { unfold fmt_d. rewrite pretty_Z_unfold. destruct (Z.ltb_spec n 0); [lia|]. apply pretty_N_digits. }
  rewrite LastIndex_tap by done. cbn [Z.add].
  destruct (Z.leb_spec 0 (0 + Z.of_nat (String.length p))); [|lia].
  replace (Z.to_nat (0 + Z.of_nat (String.length p) + 3)) with (String.length (p +:+ "tap"))
    by (rewrite length_append; cbn; lia).
  rewrite <- append_assoc, skip_append, Atoi_fmt_d; [done|].
  unfold is_int, min_int, max_int in *. lia.
Qed.

(** The 256 two-digit suffixes, decided by evaluation. *)
Definition suffix_ok (n : nat) : bool :=
  valid_mac ("02:00:00:00:00:" +:+ fmt_02x (Z.of_nat n)).
Definition suffix_differs (n m : nat) : bool :=
  (n =? m)%nat || negb (String.eqb (fmt_02x (Z.of_nat n)) (fmt_02x (Z.of_nat m))).

Lemma suffixes_ok : forallb suffix_ok (seq 0 256) = true.
Proof. by vm_compute. Qed.
Lemma suffixes_differ :
  forallb (λ n, forallb (suffix_differs n) (seq 0 256)) (seq 0 256) = true.
Proof. by vm_compute. Qed.

Lemma forallb_seq (p : nat → bool) k n :
  forallb p (seq 0 k) = true → (n < k)%nat → p n = true.
Proof. intros H Hn. apply (proj1 (forallb_forall p (seq 0 k)) H), in_seq. lia. Qed.

Lemma fmt_02x_inj n m :
  (0 ≤ n < 256)%Z → (0 ≤ m < 256)%Z → fmt_02x n = fmt_02x m → n = m.
Proof.
  intros Hn Hm H.
  pose proof (forallb_seq _ _ (Z.to_nat n) suffixes_differ ltac:(lia)) as Hd. cbn beta in Hd.
  apply (forallb_seq _ _ (Z.to_nat m)) in Hd; [|lia]. unfold suffix_differs in Hd.
  rewrite !Z2Nat.id, H, String.eqb_refl in Hd by lia. cbn in Hd. rewrite orb_false_r in Hd.
  apply Nat.eqb_eq in Hd. lia.
Qed.

Lemma fmt_02x_valid n : (0 ≤ n < 256)%Z → valid_mac ("02:00:00:00:00:" +:+ fmt_02x n) = true.
Proof.
  intros Hn. pose proof (forallb_seq _ _ (Z.to_nat n) suffixes_ok ltac:(lia)) as H.
  unfold suffix_ok in H. by rewrite Z2Nat.id in H by lia.
Qed.

Lemma hex_empty u : String.length (NilEmpty.string_of_uint u) = 0 → u = Hexadecimal.Nil.
Proof. by destruct u. Qed.

Lemma hex_two_digits u :
  (String.length (NilZero.string_of_uint u) ≤ 2)%nat → (N.of_hex_uint u < 256)%N.
Proof.
  destruct u as [|u|u|u|u|u|u|u|u|u|u|u|u|u|u|u|u]; [done|..];
    (destruct u as [|u|u|u|u|u|u|u|u|u|u|u|u|u|u|u|u]; cbn; intros H; [done|..];
     rewrite (hex_empty u) by lia; done).
Qed.

Lemma hex_long n : (256 ≤ n)%N → (2 < String.length (hex n))%nat.
Proof.
  intros Hn. destruct (Nat.lt_ge_cases 2 (String.length (hex n))) as [|Hl]; [done|].
  apply hex_two_digits in Hl. by rewrite HexadecimalN.Unsigned.of_to in Hl; lia.
Qed.

Lemma valid_mac_suffix s :
  valid_mac ("02:00:00:00:00:" +:+ s) = true → String.length s = 2.
Proof.
  unfold valid_mac.
  change (Split ("02:00:00:00:00:" +:+ s) ":")
    with ("02" :: "00" :: "00" :: "00" :: "00" :: Split s ":").
  rewrite andb_true_iff, Nat.eqb_eq. cbn [length forallb].
  intros [Hl Hp]. rewrite !andb_true_iff in Hp. destruct Hp as (_&_&_&_&_&Hp).
  pose proof (Join_Split s ":") as Hj.
  destruct (Split s ":") as [|x [|y l]]; [done| |done]. cbn in Hj, Hp. subst x.
  apply andb_true_iff in Hp as [Hp _]. unfold hex_pair in Hp.
  by apply andb_true_iff in Hp as [Hp%Nat.eqb_eq _].
Qed.

(** The parts of a valid option list: no port forward before [parse_ports]. *)
Definition is_forward (o : VmOption) : bool :=
  match o with WithPortForward _ => true | _ => false end.
Definition is_mode (o : VmOption) : bool :=
  match o with WithNoNetwork | WithUserNet => true | _ => false end.

Lemma when_set_filter (p : VmOption → bool) v o :
  p o = false → List.filter p (when_set v o) = [].
Proof. intros H. unfold when_set. case_match; [done|]. cbn. by rewrite H. Qed.

Lemma boot_options_filter (p : VmOption → bool) env :
  (∀ o, p o = true → is_forward o = true ∨ is_mode o = true) →
  List.filter p (boot_options env) = [].
Proof.
  intros Hp. assert (Hn : ∀ o, is_forward o = false → is_mode o = false → p o = false).
  { intros o H1 H2. apply not_true_is_false. intros H. apply Hp in H. destruct H; congruence. }
  unfold boot_options. rewrite !List.filter_app, !when_set_filter by auto.
  case_match; [|done]. cbn. by rewrite Hn.
Qed.

Lemma tpm_options_filter (p : VmOption → bool) env :
  (∀ a b, p (WithTPM a b) = false) → List.filter p (tpm_options env) = [].
Proof. intros Hp. unfold tpm_options. case_match; [|done]. cbn. by rewrite Hp. Qed.

Lemma parse_cpus_filter (p : VmOption → bool) v l :
  (∀ n, p (WithCPUs n) = false) → parse_cpus v = Ok l → List.filter p l = [].
Proof.
  intros Hp. unfold parse_cpus. repeat case_match; intros; simplify_eq; [done|]. cbn.
  by rewrite Hp.
Qed.

Lemma parse_ports_Ok l opts :
  parse_ports l = Ok opts ↔
  ∃ ns, Forall2 (λ s n, Atoi (TrimSpace s) = Ok n) l ns ∧ opts = map WithPortForward ns.
Proof.
  revert opts. induction l as [|s l IH]; intros opts; cbn [parse_ports].
  - split; [intros [= <-]; by exists []|]. intros (ns & H & ->). by inversion H.
  - destruct (Atoi (TrimSpace s)) as [n|e] eqn:E.
    + destruct (parse_ports l) as [o|f] eqn:El.
      * split.
        -- intros [= <-]. destruct (proj1 (IH o) eq_refl) as (ns & H & ->).
           exists (n :: ns). by split; [constructor|].
        -- intros (ns & H & ->). inversion H as [|? n' ? ns' Hn Hns]; subst.
           rewrite E in Hn. injection Hn as <-.
           assert (Ok o = Ok (E:=fatal) (map WithPortForward ns')) as [= ->] by (apply IH; eauto). done.
      * split; [done|]. intros (ns & H & ->). inversion H as [|? n' ? ns' Hn Hns]; subst.
        assert (Err f = Ok (A:=list VmOption) (map WithPortForward ns')) by (apply IH; eauto). done.
    + split; [done|]. intros (ns & H & ->). inversion H; subst. congruence.
Qed.

Lemma parse_ports_Err l f :
  parse_ports l = Err f ↔
  ∃ before s after, l = before ++ s :: after ∧ f = EnvPort s ∧
    is_ok (Atoi (TrimSpace s)) = false ∧ Forall (λ s, is_ok (Atoi (TrimSpace s)) = true) before.
Proof.
  induction l as [|s l IH]; cbn [parse_ports].
  - split; [done|]. intros (b & x & a & H & _). by destruct b.
  - destruct (Atoi (TrimSpace s)) as [n|e] eqn:E.
    + assert (match parse_ports l with Ok opts => Ok (WithPortForward n :: opts) | Err e => Err e end
              = Err f ↔ parse_ports l = Err f) as -> by by destruct (parse_ports l); split; intros; simplify_eq.
      rewrite IH. split.
      * intros (b & x & a & -> & ? & ? & ?). exists (s :: b), x, a. repeat split; [done..|].
        constructor; [by rewrite E|done].
      * intros (b & x & a & H & ? & Hx & Hb). destruct b as [|y b]; injection H as -> ->.
        -- by rewrite E in Hx.
        -- inversion Hb; subst. by exists b, x, a.
    + split.
      * intros [= <-]. exists [], s, l. by rewrite E.
      * intros (b & x & a & H & -> & Hx & Hb). destruct b as [|y b]; injection H as -> ->; [done|].
        inversion Hb as [|? ? Hy]; subst. by rewrite E in Hy.
Qed.

(** ** Properties *)

(** C40: the MAC address of the TAP device number [n] of a bridge is well formed
    exactly when [n] is below 256, and below that different numbers get
    different addresses; from 256 on the last group has three digits or more. *)
Theorem macFromTap_valid_iff p q n m :
  (0 ≤ n ≤ max_int)%Z → (0 ≤ m < 256)%Z →
  (valid_mac (macFromTap (tap_name p n)) = true ↔ (n < 256)%Z) ∧
  ((n < 256)%Z → macFromTap (tap_name p n) = macFromTap (tap_name q m) → n = m).
Proof.
  intros Hn Hm. unfold macFromTap.
  rewrite tap_index_tap_name by done.
  rewrite tap_index_tap_name by (unfold max_int; lia).
  split; [split|].
  - intros Hv%valid_mac_suffix. destruct (Z.lt_ge_cases n 256) as [|Hge]; [done|].
    unfold fmt_02x in Hv. destruct (Z.ltb_spec n 0); [lia|].
    pose proof (hex_long (Z.to_N n) ltac:(lia)) as Hl. unfold pad_zeros in Hv.
    rewrite length_append in Hv. lia.
  - intros. apply fmt_02x_valid. lia.
  - intros Hlt H. apply append_inj_l in H. apply fmt_02x_inj in H; lia.
Qed.

Lemma macFromTap_valid_iff_witness :
  valid_mac (macFromTap "mltt-tap3") = true ∧ valid_mac (macFromTap "mltt-tap256") = false.
Proof.
  split.
  - apply (macFromTap_valid_iff "mltt-" "mltt-" 3 3); [by vm_compute|by vm_compute|done].
  - apply not_true_is_false. intros H.
    apply (macFromTap_valid_iff "mltt-" "mltt-" 256 3) in H; [done|by vm_compute|by vm_compute].
Defined.

(** C39: the network part of the options read from the environment: exactly one
    network mode option ([none] gives no network, anything but [bridge] gives
    the user network, letter case ignored), none for [bridge]; and one port
    forward per listed port, in order, after every other option, so that a
    later forward has the last word on the mode. *)
Theorem env_network env opts :
  env_options env = Ok opts →
  let mode := ToLower (Getenv env "VMTEST_NETWORK") in
  List.filter is_mode opts
  = (if String.eqb mode "none" then [WithNoNetwork]
     else if String.eqb mode "bridge" then [] else [WithUserNet]) ∧
  ∃ before ports, opts = before ++ map WithPortForward ports ∧
    List.filter is_forward before = [] ∧
    (if String.eqb (Getenv env "VMTEST_PORT_FORWARDS") "" then ports = []
     else Forall2 (λ s n, Atoi (TrimSpace s) = Ok n)
            (Split (Getenv env "VMTEST_PORT_FORWARDS") ",") ports).
Proof.
  unfold env_options. cbv zeta. intros H.
  destruct (parse_cpus _) as [cpus|] eqn:Ec; [|done].
  set (before := boot_options env ++ cpus ++ tpm_options env
                 ++ network_options (Getenv env "VMTEST_NETWORK")) in *.
  assert (Hf : ∀ ns, List.filter is_mode (map WithPortForward ns) = []) by (intros ns; by induction ns).
  assert (Hm : List.filter is_mode before = network_options (Getenv env "VMTEST_NETWORK")).
  { unfold before. rewrite !List.filter_app, (boot_options_filter is_mode), tpm_options_filter by auto.
    rewrite (parse_cpus_filter _ _ _ (λ _, eq_refl) Ec). unfold network_options.
    by repeat case_match. }
  assert (Hp : List.filter is_forward before = []).
  { unfold before. rewrite !List.filter_app, (boot_options_filter is_forward), tpm_options_filter by auto.
    rewrite (parse_cpus_filter _ _ _ (λ _, eq_refl) Ec). unfold network_options.
    by repeat case_match. }
  destruct (String.eqb (Getenv env "VMTEST_PORT_FORWARDS") "").
  - injection H as <-. split; [exact Hm|]. exists before, []. by rewrite app_nil_r.
  - destruct (parse_ports _) as [ports|] eqn:Epp; [|done]. injection H as <-.
    apply parse_ports_Ok in Epp as (ns & Hns & ->).
    split; [by rewrite List.filter_app, Hm, Hf, app_nil_r|]. by exists before, ns.
Qed.

(** An environment with a bridge and two forwards, one written with a space. *)
Definition bridge_env : gmap string string :=
  <["VMTEST_NETWORK" := "Bridge"]> (<["VMTEST_PORT_FORWARDS" := "22, 8080"]> ∅).

Lemma env_network_witness :
  is_ok (env_options bridge_env) = true ∧
  ∃ opts, env_options bridge_env = Ok opts ∧ List.filter is_mode opts = [].
Proof.
  split; [by vm_compute|]. exists [WithPortForward 22; WithPortForward 8080].
  split; [by vm_compute|].
  by destruct (env_network bridge_env [WithPortForward 22; WithPortForward 8080])
    as [H _]; [by vm_compute|].
Defined.

(** The failures of [env_options], as a decision on the two variables. *)
Definition cpus_ok (env : gmap string string) : bool :=
  String.eqb (Getenv env "VMTEST_CPUS") "" || is_ok (Atoi (Getenv env "VMTEST_CPUS")).

(** The environment is refused for two reasons only, in this order: a
    non-empty [VMTEST_CPUS] that is no integer (spaces around it included), and
    else the first entry of a non-empty [VMTEST_PORT_FORWARDS] that is no integer
    once trimmed (an empty entry is one); the message carries that text. *)
Theorem env_options_errors env f :
  env_options env = Err f ↔
  (cpus_ok env = false ∧ f = EnvCPUs (Getenv env "VMTEST_CPUS")) ∨
  (cpus_ok env = true ∧ Getenv env "VMTEST_PORT_FORWARDS" ≠ "" ∧
   ∃ before s after,
     Split (Getenv env "VMTEST_PORT_FORWARDS") "," = before ++ s :: after ∧
     f = EnvPort s ∧ is_ok (Atoi (TrimSpace s)) = false ∧
     Forall (λ s, is_ok (Atoi (TrimSpace s)) = true) before).
Proof.
  rewrite <- parse_ports_Err. unfold env_options, cpus_ok, parse_cpus. cbv zeta.
  destruct (String.eqb_spec (Getenv env "VMTEST_CPUS") ""); cbn [orb];
    [|destruct (Atoi (Getenv env "VMTEST_CPUS")) as [n'|e]; cbn [is_ok]];
    [| |split; [intros [= <-]; by left|by intros [[_ ->]|[? _]]]];
    (destruct (String.eqb_spec (Getenv env "VMTEST_PORT_FORWARDS") "");
     [|destruct (parse_ports _)]; split; intros; simplify_eq; naive_solver).
Qed.
