(* ===== verification/MachineNew.v ===== *)
(** * MachineNew: booting a machine

    [New] (machine.go, lines 112-167): the options are applied, the environment
    is read, the VM started, the agent connected, and the function that closes
    both registered with [t.Cleanup]; then the end of the test, which puts the
    cleanup stack of MachineDump and [New] together.  [QMP] and [Serial] (356-364). *)

From S2P Require Import Prelude GoStrings GoStrconv VmLib TestWorld ScriptedVm MachineOps.
From S2P Require Import MachineDump MachineEnv.

Definition agentBudget : Z := 120 * Second.

Section New.
Context {P : VmPackage}.
Implicit Types (w : World) (m : Machine).

(** [New] always enables the agent, the serial capture and QMP, after the
    environment's options and before the caller's. *)
Definition bootOptions (envOpts mcOpts : list VmOption) : list VmOption :=
  envOpts ++ [WithAgent; WithSerialCapture; WithQMP] ++ mcOpts.

Definition New (opts : list Option) : TestM Machine :=
  mc ← apply_options opts [];
  envOpts ← buildVMOptsFromEnv;
  r ← outside (CallStart (bootOptions envOpts mc)) (vm_Start (bootOptions envOpts mc));
  v ← must NewStart r;
  serial ← gets (λ w, vm_Serial (Some v) (ext w));
  logDone ← (match serial with
             | Some s => outside_void (CallOnLine s) (serial_OnLine s);; mret (Some s)
             | None => mret None
             end);
  c ← outside (CallConnectAgent agentBudget (vm_AgentSocketPath v))
        (vm_ConnectAgent agentBudget (vm_AgentSocketPath v));
  match c with
  | Err e => outside_void (CallKill (Some v)) (vm_Kill (Some v));; Fatalf (NewConnect e)
  | Ok a =>
      let m := {| vm := Some v; agent := a |} in
      Cleanup (CloseMachine m logDone);; mret m
  end.

(** The clients are those of the [vm] package; asking for them does nothing else. *)
Definition QMP m : TestM (option QMPClient) := gets (λ w, vm_QMP (vm m) (ext w)).
Definition Serial m : TestM (option SerialConsole) := gets (λ w, vm_Serial (vm m) (ext w)).

(** ** Lemmas *)

Lemma buildVMOptsFromEnv_run w :
  buildVMOptsFromEnv w = match env_options (environ w) with
                         | Ok opts => (Ok opts, w)
                         | Err f => Fatalf f w
                         end.
Proof. unfold buildVMOptsFromEnv. rewrite bind_run. cbn. by case_match. Qed.

(** A sequence of calls made from [w] on, whatever the times. *)
Definition made (w w' : World) (calls : list call) : Prop :=
  ∃ l, trace w' = trace w ++ l ∧ map snd l = calls.

Lemma outside_made {R} c (f : answer Ext R) w :
  ∃ w', outside c f w = (Ok (f (ext w)).1, w') ∧ made w w' [c] ∧ failed w' = failed w
        ∧ cleanups w' = cleanups w ∧ ext w' = (f (ext w)).2.2.
Proof.
  unfold outside. cbn. destruct (f (ext w)) as [r [d g]]. eexists. split; [done|].
  repeat split. eexists. by split.
Qed.
Lemma outside_void_made c f w :
  ∃ w', outside_void c f w = (Ok tt, w') ∧ made w w' [c] ∧ failed w' = failed w
        ∧ cleanups w' = cleanups w ∧ ext w' = (f (ext w)).2.
Proof.
  unfold outside_void. cbn. destruct (f (ext w)) as [d g]. eexists. split; [done|].
  repeat split. eexists. by split.
Qed.
Lemma made_app w1 w2 w3 l1 l2 : made w1 w2 l1 → made w2 w3 l2 → made w1 w3 (l1 ++ l2).
Proof.
  intros (a & Ha & <-) (b & Hb & <-). exists (a ++ b). by rewrite Hb, Ha, app_assoc, map_app.
Qed.
Lemma made_nil w w' : trace w' = trace w → made w w' [].
Proof. exists []. by rewrite app_nil_r. Qed.

(** The outside world after the lines of a console, if there is one, are listened to. *)
Definition listening (serial : option SerialConsole) (g : Ext) : Ext :=
  match serial with Some s => (serial_OnLine s g).2 | None => g end.
(** The outcome of [New] after its options gave [mc] in the world [w1]: what each
    call of the [vm] package answers, asked in turn, decides. *)
Definition new_outcome (envOpts mc : list VmOption) (w1 : World)
    (out : result stop Machine) (w' : World) : Prop :=
  let boot := envOpts ++ [WithAgent; WithSerialCapture; WithQMP] ++ mc in
  match vm_Start boot (ext w1) with
  | (Err e, _) => out = Err (Fatal (NewStart e)) ∧ made w1 w' [CallStart boot]
                  ∧ failed w' = true ∧ cleanups w' = cleanups w1
  | (Ok v, (_, g)) =>
      let serial := vm_Serial (Some v) g in
      let calls := CallStart boot :: match serial with Some s => [CallOnLine s] | None => [] end
        ++ [CallConnectAgent (120 * Second) (vm_AgentSocketPath v)] in
      match (vm_ConnectAgent (120 * Second) (vm_AgentSocketPath v) (listening serial g)).1 with
      | Ok a => out = Ok {| vm := Some v; agent := a |} ∧ made w1 w' calls ∧ failed w' = failed w1
                ∧ cleanups w' = CloseMachine {| vm := Some v; agent := a |} serial :: cleanups w1
      | Err e => out = Err (Fatal (NewConnect e)) ∧ made w1 w' (calls ++ [CallKill (Some v)])
                 ∧ failed w' = true ∧ cleanups w' = cleanups w1
      end
  end.

(** Asking for the console's lines, where there is a console. *)
Lemma listen_made (serial : option SerialConsole) w :
  ∃ w', (match serial with
         | Some s => outside_void (CallOnLine s) (serial_OnLine s);; mret (Some s)
         | None => mret None
         end) w = (Ok serial, w') ∧
    made w w' (match serial with Some s => [CallOnLine s] | None => [] end) ∧ failed w' = failed w ∧
    cleanups w' = cleanups w ∧ ext w' = listening serial (ext w).
Proof.
  destruct serial as [s|]; [|exists w; split_and!; [done|by apply made_nil|done..]].
  rewrite bind_run. destruct (outside_void_made (CallOnLine s) (serial_OnLine s) w) as (w' & -> & M & F & C & E).
  by exists w'.
Qed.

Lemma New_after_options opts w mc w1 envOpts :
  apply_options opts [] w = (Ok mc, w1) →
  env_options (environ w1) = Ok envOpts →
  new_outcome envOpts mc w1 (New opts w).1 (New opts w).2.
Proof.
  intros Ho He. unfold New. rewrite bind_run, Ho, bind_run, buildVMOptsFromEnv_run, He, bind_run.
  set (boot := bootOptions envOpts mc). unfold new_outcome.
  change (envOpts ++ [WithAgent; WithSerialCapture; WithQMP] ++ mc) with boot.
  destruct (outside_made (CallStart boot) (vm_Start boot) w1) as (w2 & -> & M2 & F2 & C2 & E2).
  destruct (vm_Start boot (ext w1)) as [[v|e] [d g]]; cbn [must fst snd] in *.
  2: { split_and!; try done; destruct M2 as (l & Hl & <-); by exists l. }
  rewrite bind_run. cbn [mret M_ret]. rewrite bind_run. unfold gets. cbv beta zeta. rewrite E2, bind_run.
  destruct (listen_made (vm_Serial (Some v) g) w2) as (w3 & -> & M3 & F3 & C3 & E3). rewrite bind_run.
  destruct (outside_made (CallConnectAgent agentBudget (vm_AgentSocketPath v))
    (vm_ConnectAgent agentBudget (vm_AgentSocketPath v)) w3) as (w4 & -> & M4 & F4 & C4 & _).
  pose proof (made_app _ _ _ _ _ M2 (made_app _ _ _ _ _ M3 M4)) as M. rewrite E3, E2. fold agentBudget.
  destruct (vm_ConnectAgent _ _ _).1 as [a|e].
  - rewrite bind_run. cbn [fst snd]. split_and!; [done|exact M|cbn; congruence|]. cbn. by rewrite C4, C3, C2.
  - rewrite bind_run. destruct (outside_void_made (CallKill (Some v)) (vm_Kill (Some v)) w4)
      as (w5 & -> & M5 & F5 & C5 & _).
    pose proof (made_app _ _ _ _ _ M M5) as (l & Hl & Hc).
    split_and!; [done|by exists l|done|]. cbn. congruence.
Qed.
(** Diagnostics go on top of the machine's own cleanup. *)
Lemma dumps_on_top m serial dumps w ds :
  cleanups w = map (DumpDiagnostics m) ds ++ [CloseMachine m serial] →
  ∃ ds', cleanups (foldl (λ w d, (DumpOnFailure m d w).2) w dumps)
         = map (DumpDiagnostics m) ds' ++ [CloseMachine m serial].
Proof.
  revert w ds. induction dumps as [|d dumps IH]; intros w ds Hw; [by exists ds|].
  apply (IH (DumpOnFailure m d w).2 (dump_settings d :: ds)). cbn. by rewrite Hw.
Qed.
End New.

(** ** Properties *)

Section NewProperties.
Context {P : VmPackage}.
Implicit Types (w : World) (m : Machine).

(** C19: booting a machine, on every branch.  Once the caller's options have
    been applied: a bad environment stops the test before anything is started;
    otherwise one VM is started with the environment's options, then agent,
    serial capture and QMP, then the caller's, in that order; a start that fails
    leaves nothing behind; an agent that cannot be reached within 120 seconds
    has the VM killed before the test stops; and a machine that is returned has
    exactly one cleanup, its own, on top of the stack. *)
Theorem New_correct opts w mc w1 :
  apply_options opts [] w = (Ok mc, w1) →
  match env_options (environ w1) with
  | Err f => (New opts w).1 = Err (Fatal f) ∧ trace (New opts w).2 = trace w1
             ∧ failed (New opts w).2 = true ∧ cleanups (New opts w).2 = cleanups w1
  | Ok envOpts => new_outcome envOpts mc w1 (New opts w).1 (New opts w).2
  end.
Proof.
  intros Ho. destruct (env_options (environ w1)) as [envOpts|f] eqn:He.
  - by apply New_after_options.
  - unfold New. by rewrite bind_run, Ho, bind_run, buildVMOptsFromEnv_run, He.
Qed.

(** C18: a machine never outlives its test.  For a test that starts with no
    cleanup of its own, boots a machine and registers any diagnostics: whatever
    the test did in between to the clock, the guest, its log, its failure flag
    and its trace, the calls made at its end finish with the agent closed, that
    very VM killed, and then, exactly when the VM came up with a serial console,
    the wait for the log of that console, whose lines were listened to before the
    agent was connected. *)
Theorem New_closed_at_end opts w m w' (dumps : list (list DumpOption)) w2 :
  New opts w = (Ok m, w') →
  cleanups w = [] →
  (∀ mc w1, apply_options opts [] w = (Ok mc, w1) → cleanups w1 = []) →
  cleanups w2 = cleanups (foldl (λ w d, (DumpOnFailure m d w).2) w' dumps) →
  ∃ mc w1 envOpts v d g l,
    apply_options opts [] w = (Ok mc, w1) ∧ env_options (environ w1) = Ok envOpts ∧
    let boot := envOpts ++ [WithAgent; WithSerialCapture; WithQMP] ++ mc in
    let of_console (f : SerialConsole → call) := match vm_Serial (Some v) g with Some s => [f s] | None => [] end in
    vm_Start boot (ext w1) = (Ok v, (d, g)) ∧ vm m = Some v ∧
    made w1 w' (CallStart boot :: of_console CallOnLine ++ [CallConnectAgent (120 * Second) (vm_AgentSocketPath v)]) ∧
    made w2 (finish_test w2) (l ++ [CallClose (agent m); CallKill (Some v)] ++ of_console WaitLogDone) ∧
    Forall probe l.
Proof.
  intros Hn Hc Ho Hw2. pose proof Hn as Hn'. unfold New in Hn. rewrite bind_run in Hn.
  destruct (apply_options opts [] w) as [[mc|] w1] eqn:Ea; [|done].
  rewrite bind_run, buildVMOptsFromEnv_run in Hn.
  destruct (env_options (environ w1)) as [envOpts|] eqn:He; [|done]. clear Hn.
  pose proof (New_after_options _ _ _ _ _ Ea He) as Hout. rewrite Hn' in Hout.
  unfold new_outcome in Hout. cbv zeta in Hout. cbn [fst snd] in Hout. rewrite (Ho _ _ eq_refl) in Hout.
  destruct (vm_Start _ (ext w1)) as [[v|e] [d g]] eqn:Es; [|by destruct Hout].
  destruct (vm_ConnectAgent _ _ _).1 as [a|e]; [|by destruct Hout]. destruct Hout as ([= ->] & Hm & _ & Hl).
  destruct (dumps_on_top {| vm := Some v; agent := a |} (vm_Serial (Some v) g) dumps w' [] Hl) as [ds Hds].
  rewrite Hds in Hw2. destruct (run_all_closes _ _ ds w2 Hw2) as (l & t1 & t2 & t3 & Ht & F).
  exists mc, w1, envOpts, v, d, g, (map snd l). cbv zeta. split_and!; try done; [|by apply Forall_fmap].
  eexists. split; [exact Ht|]. rewrite map_app. cbn. by destruct (vm_Serial _ _).
Qed.
End NewProperties.

Lemma New_correct_witness :
  apply_options [WithUserNetwork] [] (fresh_test idle) = (Ok [WithUserNet], fresh_test idle) ∧
  new_outcome [WithUserNet] [WithUserNet] (fresh_test idle)
    (New [WithUserNetwork] (fresh_test idle)).1 (New [WithUserNetwork] (fresh_test idle)).2.
Proof.
  split; [done|].
  exact (New_correct [WithUserNetwork] (fresh_test idle) [WithUserNet] (fresh_test idle) eq_refl).
Defined.

(** The machine a test with an empty environment and no options gets. *)
Definition default_boot : @VM ScriptedVm := [WithUserNet; WithAgent; WithSerialCapture; WithQMP].
Definition default_machine : @Machine ScriptedVm := {| vm := Some default_boot; agent := tt |}.

Definition booted_world : World := (New [] (fresh_test idle)).2.

Lemma New_closed_at_end_witness :
  ∃ l, made booted_world (finish_test booted_world)
      (l ++ [CallClose (agent default_machine); CallKill (vm default_machine);
             WaitLogDone (tt : @SerialConsole ScriptedVm)]) ∧ Forall probe l.
Proof.
  destruct (New_closed_at_end [] (fresh_test idle) default_machine booted_world [] booted_world)
    as (mc & w1 & envOpts & v & d & g & l & Ho & He & Hs & Hv & _ & Hm & Hl);
    [exact eq_refl|exact eq_refl| |exact eq_refl|].
  - intros mc w1 [= _ <-]. exact eq_refl.
  - exists l. split; [|exact Hl]. injection Ho as <- <-. injection He as <-. injection Hs as <- _ <-. exact Hm.
Defined.
