(* ===== verification/TestRunner.v ===== *)
(** * TestRunner: the command that boots a VM and waits for a marker

    vmtest/cmd/testrunner/main.go: the arguments are parsed into flags, flags
    become options, the VM is started and its serial output scanned until a pass
    or fail marker or the deadline.  The deadline is fixed before the VM starts,
    so booting counts against it; minutes are converted at 64 bits, as Go does.
    Signals cancel the context the start and the scan run under: they are part
    of what these answer. *)

From S2P Require Import Prelude GoStrings GoStrconv GoFlag VmLib TestWorld ScriptedVm MachineEnv MachineNew.

(** [serial.ScanForMarker(ctx)], of the package [vm]; the context's deadline. *)
Class MarkerScan {P : VmPackage} := { ScanForMarker : SerialConsole → Z → answer Ext unit }.

Record RunnerFlags := {
  f_kernel : string; f_initrd : string; f_cmdline : string; f_iso : string;
  f_ovmf_code : string; f_ovmf_vars : string; f_disk : string; f_disk_size : string;
  f_memory : string; f_cpus : Z; f_tpm : bool; f_swtpm : string; f_swtpm_setup : string;
  f_network : string; f_timeout : Z; f_share_dir : string; f_qemu : string; f_qemu_img : string;
  f_machine_type : string; f_accel : string; f_work_dir : string;
}.
(** The flags the program defines, with their defaults. *)
Definition runner_flag_list : list setting :=
  [("kernel", VString ""); ("initrd", VString ""); ("cmdline", VString ""); ("iso", VString "");
   ("ovmf-code", VString ""); ("ovmf-vars", VString ""); ("disk", VString "");
   ("disk-size", VString ""); ("memory", VString "2G"); ("cpus", VInt 2); ("tpm", VBool false);
   ("swtpm", VString "swtpm"); ("swtpm-setup", VString "swtpm_setup"); ("network", VString "user");
   ("timeout", VInt 10); ("share-dir", VString ""); ("qemu", VString "");
   ("qemu-img", VString "qemu-img"); ("machine-type", VString ""); ("accel", VString "");
   ("work-dir", VString "")].
Definition runner_flags : flags := list_to_map runner_flag_list.
(** The variables once the flags are parsed. *)
Definition read_runner_flags (m : flags) : RunnerFlags :=
  {| f_kernel := get_string m "kernel"; f_initrd := get_string m "initrd";
     f_cmdline := get_string m "cmdline"; f_iso := get_string m "iso";
     f_ovmf_code := get_string m "ovmf-code"; f_ovmf_vars := get_string m "ovmf-vars";
     f_disk := get_string m "disk"; f_disk_size := get_string m "disk-size";
     f_memory := get_string m "memory"; f_cpus := get_int m "cpus"; f_tpm := get_bool m "tpm";
     f_swtpm := get_string m "swtpm"; f_swtpm_setup := get_string m "swtpm-setup";
     f_network := get_string m "network"; f_timeout := get_int m "timeout";
     f_share_dir := get_string m "share-dir"; f_qemu := get_string m "qemu";
     f_qemu_img := get_string m "qemu-img"; f_machine_type := get_string m "machine-type";
     f_accel := get_string m "accel"; f_work_dir := get_string m "work-dir" |}.

Definition runner_options (f : RunnerFlags) : list VmOption :=
  [WithMemory (f_memory f); WithCPUs (f_cpus f); WithQemuImg (f_qemu_img f);
   WithName "vmtest"; WithSerialCapture]
  ++ when_set (f_qemu f) (WithQemuBinary (f_qemu f))
  ++ when_set (f_machine_type f) (WithMachineType (f_machine_type f))
  ++ when_set (f_accel f) (WithAccel (f_accel f))
  ++ when_set (f_work_dir f) (WithWorkDir (f_work_dir f))
  ++ when_set (f_kernel f) (WithKernelBoot (f_kernel f) (f_initrd f) (f_cmdline f))
  ++ (if negb (String.eqb (f_ovmf_code f) "") && negb (String.eqb (f_ovmf_vars f) "")
      then [WithUEFI (f_ovmf_code f) (f_ovmf_vars f)] else [])
  ++ when_set (f_iso f) (WithISO (f_iso f))
  ++ (if negb (String.eqb (f_disk f) "") then [WithExistingDisk (f_disk f)]
      else when_set (f_disk_size f) (WithDisk (f_disk_size f)))
  ++ (if f_tpm f then [WithTPM (f_swtpm f) (f_swtpm_setup f)] else [])
  ++ (if String.eqb (f_network f) "none" then [WithNoNetwork] else [WithUserNet])
  ++ when_set (f_share_dir f) (With9PShare "vmtest" (f_share_dir f)).

Section TestRunner.
Context {P : VmPackage} {S : MarkerScan}.

(** [time.Duration(minutes) * time.Minute]. *)
Definition minutes (n : Z) : Z := wrap64 (n * Minute).

(** The exit status, once the flags are known.  [os.Exit] does not run the
    deferred [machine.Kill()]; returning from [main] does. *)
Definition runner_boot (f : RunnerFlags) : TestM Z :=
  start ← gets now;
  let deadline := (start + minutes (f_timeout f))%Z in
  let opts := runner_options f in
  r ← outside (CallStart opts) (vm_Start opts);
  match r with
  | Err _ => mret 1%Z
  | Ok v =>
      serial ← gets (λ w, vm_Serial (Some v) (ext w));
      match serial with
      | None => mret 1%Z
      | Some console =>
          m ← outside (CallScanForMarker deadline) (ScanForMarker console deadline);
          match m with
          | Err _ => mret 1%Z
          | Ok _ => outside_void (CallKill (Some v)) (vm_Kill (Some v));; mret 0%Z
          end
      end
  end.

Definition runner_main (args : list string) : TestM Z :=
  match Parse runner_flags args with
  | ExitStatus code => mret code
  | Parsed m _ => runner_boot (read_runner_flags m)
  end.
End TestRunner.

(** ** Lemmas *)

Section RunnerLemmas.
Context {P : VmPackage} {S : MarkerScan}.

Definition is_disk (o : VmOption) : bool :=
  match o with WithExistingDisk _ | WithDisk _ => true | _ => false end.

Lemma runner_options_kinds f :
  List.filter is_mode (runner_options f)
    = (if String.eqb (f_network f) "none" then [WithNoNetwork] else [WithUserNet]) ∧
  List.filter is_disk (runner_options f)
    = (if negb (String.eqb (f_disk f) "") then [WithExistingDisk (f_disk f)]
       else if negb (String.eqb (f_disk_size f) "") then [WithDisk (f_disk_size f)] else []).
Proof.
  unfold runner_options. split; rewrite !List.filter_app;
    rewrite ?(when_set_filter _ (f_qemu f)), ?(when_set_filter _ (f_machine_type f)),
      ?(when_set_filter _ (f_accel f)), ?(when_set_filter _ (f_work_dir f)),
      ?(when_set_filter _ (f_kernel f)), ?(when_set_filter _ (f_iso f)),
      ?(when_set_filter _ (f_share_dir f)) by done;
    unfold when_set; destruct (String.eqb (f_disk f) ""), (String.eqb (f_disk_size f) ""),
      (f_tpm f), (String.eqb (f_network f) "none");
    by destruct (negb (String.eqb (f_ovmf_code f) "") && negb (String.eqb (f_ovmf_vars f) "")).
Qed.

Lemma runner_boot_run f w :
  let opts := runner_options f in
  let deadline := (now w + minutes (f_timeout f))%Z in
  ∃ code w' tail, runner_boot f w = (Ok code, w') ∧ made w w' (CallStart opts :: tail) ∧
    (∀ d, CallScanForMarker d ∈ tail → d = deadline) ∧
    (code = 0%Z ∨ code = 1%Z) ∧
    (code = 0%Z ↔ ∃ v, CallKill (Some v) ∈ tail) ∧
    (code = 0%Z → ∃ v c g, (vm_Start opts (ext w)).1 = Ok v ∧ (ScanForMarker c deadline g).1 = Ok tt).
Proof.
  cbv zeta. unfold runner_boot. rewrite bind_run. unfold gets at 1. cbv beta iota zeta.
  set (opts := runner_options f). set (b := (now w + minutes (f_timeout f))%Z).
  destruct (outside_made (CallStart opts) (vm_Start opts) w) as (w1 & E1 & M1 & _).
  rewrite bind_run, E1. destruct (vm_Start opts (ext w)).1 as [v|e] eqn:Ev.
  2: { exists 1%Z, w1, []. split_and!; try done; [by intros d ?%elem_of_nil|by right|split; [done|by intros (? & ?%elem_of_nil)]]. }
  rewrite bind_run. unfold gets. cbv beta iota zeta.
  destruct (vm_Serial (Some v) (ext w1)) as [console|].
  2: { exists 1%Z, w1, []. split_and!; try done; [by intros d ?%elem_of_nil|by right|split; [done|by intros (? & ?%elem_of_nil)]]. }
  destruct (outside_made (CallScanForMarker b) (ScanForMarker console b) w1) as (w2 & E2 & M2 & _).
  rewrite bind_run, E2. pose proof (made_app _ _ _ _ _ M1 M2) as M.
  destruct (ScanForMarker console b (ext w1)).1 as [[]|e] eqn:Es.
  - destruct (outside_void_made (CallKill (Some v)) (vm_Kill (Some v)) w2) as (w3 & E3 & M3 & _).
    rewrite bind_run, E3. pose proof (made_app _ _ _ _ _ M M3) as M'.
    exists 0%Z, w3, [CallScanForMarker b; CallKill (Some v)].
    split_and!; try done; [|by left| |by intros _; exists v, console, (ext w1)].
    + intros d [[= ->]|?%list_elem_of_singleton]%elem_of_cons; done.
    + split; [|done]. intros _. exists v. right. by left.
  - exists 1%Z, w2, [CallScanForMarker b]. split_and!; try done; [|by right|].
    + by intros d [= ->]%list_elem_of_singleton.
    + split; [done|]. by intros (v' & Hv%list_elem_of_singleton).
Qed.

End RunnerLemmas.

(** ** Properties *)

Section RunnerProperties.
Context {P : VmPackage} {S : MarkerScan}.

(** C35: the marker runner.  Arguments that do not parse end it with 2 (0 for a
    request for help) before anything is started.  Otherwise it starts one VM, with
    exactly one network mode (none only for the flag value "none" itself) and at
    most one disk, an existing one before a new one; the scan is given what is
    left of the timeout that began before the start; it exits with 0 only after
    a scan that succeeded; and only then is the VM killed: whenever it exits with
    1 after a successful start the VM is left running, the deferred [Kill] being
    skipped by [os.Exit]. *)
Theorem runner_main_correct args w :
  match Parse runner_flags args with
  | ExitStatus code => runner_main args w = (Ok code, w) ∧ (code = 0%Z ∨ code = 2%Z)
  | Parsed m _ =>
      let f := read_runner_flags m in
      let deadline := (now w + minutes (f_timeout f))%Z in
      (∃ code w' tail, runner_main args w = (Ok code, w') ∧
        made w w' (CallStart (runner_options f) :: tail) ∧
        (∀ d, CallScanForMarker d ∈ tail → d = deadline) ∧
        (code = 0%Z ∨ code = 1%Z) ∧
        (code = 0%Z ↔ ∃ v, CallKill (Some v) ∈ tail) ∧
        (code = 0%Z → ∃ v c g, (vm_Start (runner_options f) (ext w)).1 = Ok v ∧
                               (ScanForMarker c deadline g).1 = Ok tt)) ∧
      List.filter is_mode (runner_options f)
        = (if String.eqb (f_network f) "none" then [WithNoNetwork] else [WithUserNet]) ∧
      List.filter is_disk (runner_options f)
        = (if negb (String.eqb (f_disk f) "") then [WithExistingDisk (f_disk f)]
           else if negb (String.eqb (f_disk_size f) "") then [WithDisk (f_disk_size f)] else [])
  end.
Proof.
  destruct (Parse runner_flags args) as [m rest|code] eqn:E.
  - cbv zeta. split; [|apply runner_options_kinds]. unfold runner_main. rewrite E. apply runner_boot_run.
  - split; [unfold runner_main; by rewrite E|by eapply Parse_exit].
Qed.
End RunnerProperties.
