(* ===== verification/BazelFiles.v ===== *)
(** * BazelFiles: the files of a rule, where they are and which of them it carries

    A file is known by its short path.  Bazel lays the runfiles of a test out
    below a root, each at its runfiles path ([_to_rlocationpath] of
    vmtest/config.bzl), and starts the test in the directory of the main
    repository there: [short_file_found] says that a short path, read from that
    directory, is the place of the file.  [swtpm_runfiles] is what the three
    rules add for their TPM tools. *)

From S2P Require Import Prelude GoStrings GoPath.

(** [_to_rlocationpath]: from the short path of a file to its runfiles path. *)
Definition to_rlocationpath (workspace short : string) : string :=
  if HasPrefix short "../" then substring 3 (String.length short - 3) short
  else workspace +:+ "/" +:+ short.

(** A short path: of the main repository, or of another one next to it. *)
Definition short_file (f : string) : bool :=
  match Split f slash with
  | e :: es =>
      if String.eqb e ".." then negb (bool_decide (es = [])) && forallb plain es else forallb plain (e :: es)
  | [] => false
  end.
Definition runfile (root ws f : string) : string := path_join [root; to_rlocationpath ws f].
Definition from_test_dir (root ws f : string) : string := path_join [path_join [root; ws]; f].
(** Every one of [fs] is found among [files] from where a test runs. *)
Definition all_found (root ws : string) (files fs : list string) : Prop :=
  Forall (λ f, from_test_dir root ws f ∈ map (runfile root ws) files) fs.

(** ** The tools of the TPM *)

(** What a toolchain gives: its executable, and the runfiles of its default, if any. *)
Record Tool := { tool_executable : string; tool_runfiles : option (list string) }.

(** [ctx.toolchains] holds [None] for an optional toolchain that is not
    registered: asking it for its default ends the analysis. *)
Fixpoint merge_tools (tools : list (option Tool)) : result string (list string) :=
  match tools with
  | [] => Ok []
  | None :: _ => Err "'NoneType' value has no field or method 'default'"
  | Some t :: tools' =>
      match merge_tools tools' with
      | Ok fs => Ok (default [] (tool_runfiles t) ++ fs)
      | Err e => Err e
      end
  end.
Definition swtpm_runfiles (tpm : bool) (swtpm swtpm_setup : option Tool) : result string (list string) :=
  if tpm then merge_tools [swtpm; swtpm_setup] else Ok [].

(** A rule that asks for a TPM has both of its tools. *)
Definition has_tools (tpm : bool) (swtpm swtpm_setup : option Tool) : bool :=
  negb tpm || (bool_decide (is_Some swtpm) && bool_decide (is_Some swtpm_setup)).

Lemma swtpm_runfiles_ok tpm swtpm setup : is_ok (swtpm_runfiles tpm swtpm setup) = has_tools tpm swtpm setup.
Proof. by destruct tpm, swtpm, setup. Qed.

(** ** Where files are *)

Lemma plain_shape es : forallb plain es = true → Forall (λ e, plain e = true) es.
Proof. apply forallb_Forall. Qed.
Lemma short_file_cases f : short_file f = true →
  ∃ es, es ≠ [] ∧ Forall (λ e, plain e = true) es ∧
    (f = Join es slash_s ∨ f = "../" +:+ Join es slash_s).
Proof.
  intros H. unfold short_file in H. pose proof (Join_Split f slash) as E. fold slash_s in E.
  pose proof (Split_not_nil f slash) as Hn. destruct (Split f slash) as [|e es] eqn:Es; [done|].
  destruct (String.eqb_spec e "..") as [->|Hne].
  - cbn in H. apply andb_true_iff in H as [He Hp]. rewrite negb_true_iff, bool_decide_eq_false in He.
    exists es. split_and!; [done|by apply plain_shape|]. right. rewrite <- E. by destruct es.
  - exists (e :: es). split_and!; [done| |by left]. by apply plain_shape.
Qed.

(** A path of these elements below [abs_path res]. *)
Lemma path_join_elems res es :
  Forall (λ e, plain e = true) res → Forall (λ e, lacks slash e = true) es →
  Join es slash_s ≠ "" → es ≠ [] →
  path_join [abs_path res; Join es slash_s] = abs_path (clean_elems true [] (res ++ es)).
Proof.
  intros Hr Hl Hj Hne. unfold path_join. cbn [drop_empty].
  change (String.eqb (abs_path res) "") with false. cbv iota. cbn [drop_empty Join].
  destruct res as [|r res].
  - change (abs_path [] +:+ slash_s +:+ ?x) with (String slash (String slash x)).
    rewrite Clean_rooted by (apply prefix_spec; by eexists).
    change (Split (String slash (String slash ?x)) slash) with ("" :: "" :: Split x slash).
    by rewrite !clean_elems_empty, Split_Join_slash.
  - assert (Hj' : abs_path (r :: res) +:+ slash_s +:+ Join es slash_s = abs_path ((r :: res) ++ es)).
    { unfold abs_path. rewrite append_assoc. f_equal. clear Hj Hr Hl. revert r. induction res as [|r' res IH]; intros r.
      - destruct es; done.
      - change (Join ((r :: r' :: res) ++ es) slash_s) with (r +:+ slash_s +:+ Join ((r' :: res) ++ es) slash_s).
        rewrite <- IH. cbn [Join]. by rewrite !append_assoc. }
    rewrite Hj', Clean_rooted by apply IsAbs_abs_path.
    rewrite Split_abs_path, clean_elems_empty; [done| |done].
    apply Forall_app. split; [by apply plain_lacks|done].
Qed.

Lemma clean_elems_up res e es :
  Forall (λ e, plain e = true) res → plain e = true → Forall (λ e, plain e = true) es →
  clean_elems true [] (res ++ e :: ".." :: es) = res ++ es.
Proof.
  intros Hr He Hs. assert (G : ∀ st, clean_elems true st (res ++ e :: ".." :: es) = rev st ++ res ++ es); [|apply G].
  induction Hr as [|r res Hr Hres IH]; intros st; cbn [app].
  - cbn [clean_elems]. apply plain_inv in He as (E1 & E2 & E3 & _). rewrite E1, E2, E3. cbn.
    by rewrite clean_elems_plain.
  - cbn [clean_elems]. apply plain_inv in Hr as (-> & -> & -> & _). cbn. rewrite IH. cbn. by rewrite <- app_assoc.
Qed.

Lemma substring_all s : substring 0 (String.length s) s = s.
Proof. induction s as [|a s IH]; [done|]. cbn. by rewrite IH. Qed.
Lemma Join_plain_not_empty es : es ≠ [] → Forall (λ e, plain e = true) es → Join es slash_s ≠ "".
Proof. intros Hn Hp. destruct Hp as [|e es He Hes]; [done|]. apply plain_inv in He as (He & _). by destruct e, es. Qed.

Lemma short_file_found res ws f :
  Forall (λ e, plain e = true) res → plain ws = true → short_file f = true →
  from_test_dir (abs_path res) ws f = runfile (abs_path res) ws f.
Proof.
  intros Hr Hw (es & Hn & Hp & Hf)%short_file_cases. unfold from_test_dir, runfile.
  pose proof (Join_plain_not_empty es Hn Hp) as Hj. pose proof (plain_lacks _ Hp) as Hl.
  assert (Hrw : Forall (λ e, plain e = true) (res ++ [ws])) by (apply Forall_app; by repeat constructor).
  rewrite path_join_abs by done. destruct Hf as [->| ->].
  - assert (to_rlocationpath ws (Join es slash_s) = Join (ws :: es) slash_s) as ->.
    { unfold to_rlocationpath. destruct (HasPrefix (Join es slash_s) "../") eqn:E; [|by destruct es].
      apply prefix_spec in E as [t E]. exfalso. destruct Hp as [|e es He Hes]; [done|].
      apply (f_equal (λ s, Split s slash)) in E. rewrite Split_Join_slash in E by done.
      change (Split ("../" +:+ t) slash) with (".." :: Split t slash) in E. injection E as -> _. done. }
    assert (Hws : Forall (λ e, lacks slash e = true) (ws :: es)) by (apply plain_lacks; by constructor).
    rewrite !path_join_elems; try done; [|by apply Join_plain_not_empty; [|constructor]].
    by rewrite <- app_assoc.
  - assert (to_rlocationpath ws ("../" +:+ Join es slash_s) = Join es slash_s) as ->.
    { unfold to_rlocationpath. assert (HasPrefix ("../" +:+ Join es slash_s) "../" = true) as ->
        by (apply prefix_spec; by eexists).
      change (substring 3 (String.length ("../" +:+ ?x) - 3) ("../" +:+ ?x))
        with (substring 0 (String.length x - 0) x). rewrite Nat.sub_0_r. apply substring_all. }
    assert ("../" +:+ Join es slash_s = Join (".." :: es) slash_s) as -> by by destruct es.
    rewrite (path_join_elems (res ++ [ws])); try done; [|by constructor|by destruct es].
    rewrite path_join_elems by done. f_equal.
    rewrite <- app_assoc. cbn [app]. rewrite clean_elems_up by done.
    by rewrite clean_elems_plain by (by apply Forall_app).
Qed.

Lemma all_found_in res ws files fs :
  Forall (λ e, plain e = true) res → plain ws = true → Forall (λ f, short_file f = true) fs → fs ⊆ files →
  all_found (abs_path res) ws files fs.
Proof.
  intros Hr Hw Hs Hf. apply Forall_forall. intros f Hin. rewrite Forall_forall in Hs.
  rewrite short_file_found by auto. apply list_elem_of_In, in_map, list_elem_of_In. auto.
Qed.
