(* ===== verification/VmTestRule.v ===== *)
(** * VmTestRule: the rule vm_test, from its attributes to the VM

    vmtest/vm_test.bzl writes a script that runs the command of TestRunner with
    the rule's attributes as arguments.  The theorem follows an attribute all the
    way: into the argument list, through the quoting of the script, through the
    shell's reading of it and Go's parsing of the flags, to the options the VM is
    started with; and the files it names into the runfiles of the test.  Files are
    known by their short path; the directory shared with the guest is assembled
    by the build (VmTestShare) and only named here. *)

From S2P Require Import Prelude GoStrings GoStrconv GoFlag GoPath BazelFiles Shell ShellScript VmLib TestWorld ScriptedVm.
From S2P Require Import MachineEnv MachineNew TestRunner.

(** The attributes and what the toolchains provide.  A string that was not given
    is empty. *)
Record VmTestAttrs := {
  vt_qemu_system : option string; vt_qemu_img : option string;
  vt_toolchain_code : option string; vt_toolchain_vars : option string;
  vt_machine_type : string; vt_accel : string;
  vt_swtpm_info : option Tool; vt_swtpm_setup_info : option Tool;
  vt_kernel : option string; vt_initrd : option string; vt_cmdline : string;
  vt_iso : option string; vt_ovmf_code : option string; vt_ovmf_vars : option string;
  vt_disk : option string; vt_disk_size : string; vt_memory : string; vt_cpus : Z;
  vt_timeout_minutes : Z; vt_tpm : bool; vt_network : string; vt_share_dir : option string;
}.

Definition vt_swtpm (a : VmTestAttrs) : option string := tool_executable <$> vt_swtpm_info a.
Definition vt_swtpm_setup (a : VmTestAttrs) : option string := tool_executable <$> vt_swtpm_setup_info a.

Definition file_arg (flag : string) (o : option string) : list string :=
  match o with Some p => [flag; p] | None => [] end.
Definition text_arg (flag v : string) : list string := if String.eqb v "" then [] else [flag; v].
(** [x if x else y] *)
Definition first_of (x y : option string) : option string := match x with Some _ => x | None => y end.

(** The list [args]. *)
Definition vm_test_args (a : VmTestAttrs) : list string :=
  file_arg "--qemu" (vt_qemu_system a) ++ file_arg "--qemu-img" (vt_qemu_img a)
  ++ file_arg "--kernel" (vt_kernel a) ++ file_arg "--initrd" (vt_initrd a)
  ++ text_arg "--cmdline" (vt_cmdline a) ++ file_arg "--iso" (vt_iso a)
  ++ file_arg "--ovmf-code" (first_of (vt_ovmf_code a) (vt_toolchain_code a))
  ++ file_arg "--ovmf-vars" (first_of (vt_ovmf_vars a) (vt_toolchain_vars a))
  ++ match vt_disk a with
     | Some p => ["--disk"; p]
     | None => text_arg "--disk-size" (vt_disk_size a)
     end
  ++ ["--memory"; vt_memory a] ++ ["--cpus"; fmt_d (vt_cpus a)]
  ++ ["--timeout"; fmt_d (vt_timeout_minutes a)]
  ++ (if vt_tpm a
      then ["--tpm"] ++ file_arg "--swtpm" (vt_swtpm a) ++ file_arg "--swtpm-setup" (vt_swtpm_setup a)
      else [])
  ++ text_arg "--machine-type" (vt_machine_type a) ++ text_arg "--accel" (vt_accel a)
  ++ ["--network"; vt_network a] ++ file_arg "--share-dir" (vt_share_dir a).

(** [quoted_args]: only a blank or a quote makes an argument quoted. *)
Definition escaped_quote : string := String quote (String "092" (String quote (String quote ""))).
Definition quote_arg (a : string) : string :=
  if Contains a " " || Contains a "'"
  then String quote "" +:+ ReplaceAll a quote escaped_quote +:+ String quote "" else a.
(** What stands between the runner and the arguments of the caller. *)
Definition script_args (a : VmTestAttrs) : string := Join (map quote_arg (vm_test_args a)) " ".

(** [runfiles_files], by short path. *)
Definition vm_test_files (a : VmTestAttrs) : list string :=
  option_list (vt_qemu_system a) ++ option_list (vt_qemu_img a)
  ++ option_list (vt_kernel a) ++ option_list (vt_initrd a) ++ option_list (vt_iso a)
  ++ option_list (first_of (vt_ovmf_code a) (vt_toolchain_code a))
  ++ option_list (first_of (vt_ovmf_vars a) (vt_toolchain_vars a))
  ++ option_list (vt_disk a)
  ++ (if vt_tpm a then option_list (vt_swtpm a) ++ option_list (vt_swtpm_setup a) else [])
  ++ option_list (vt_share_dir a).

(** The script, for the path of the runner. *)
Definition runfiles_dir_line : string :=
  "RUNFILES_DIR=" +:+ String dquote ("${BASH_SOURCE[0]}.runfiles" +:+ String dquote "").
Definition vm_test_script (a : VmTestAttrs) (runner : string) : string :=
  script_head +:+ runfiles_dir_line +:+ newline_s
  +:+ "exec " +:+ String dquote (runner +:+ String dquote "") +:+ " " +:+ script_args a +:+ all_args.
(** The implementation of the rule: the script and its runfiles, for a runner with
    runfiles of its own. *)
Definition vm_test_impl (a : VmTestAttrs) (runner : string) (runner_files : list string)
    : result string (string * list string) :=
  match swtpm_runfiles (vt_tpm a) (vt_swtpm_info a) (vt_swtpm_setup_info a) with
  | Ok fs => Ok (vm_test_script a runner, vm_test_files a ++ runner_files ++ fs)
  | Err e => Err e
  end.

(** ** What the attributes mean *)

Definition vm_test_options (a : VmTestAttrs) : list VmOption :=
  let code := first_of (vt_ovmf_code a) (vt_toolchain_code a) in
  let vars := first_of (vt_ovmf_vars a) (vt_toolchain_vars a) in
  [WithMemory (vt_memory a); WithCPUs (vt_cpus a); WithQemuImg (default "qemu-img" (vt_qemu_img a));
   WithName "vmtest"; WithSerialCapture]
  ++ match vt_qemu_system a with Some p => [WithQemuBinary p] | None => [] end
  ++ when_set (vt_machine_type a) (WithMachineType (vt_machine_type a))
  ++ when_set (vt_accel a) (WithAccel (vt_accel a))
  ++ match vt_kernel a with
     | Some k => [WithKernelBoot k (default "" (vt_initrd a)) (vt_cmdline a)]
     | None => []
     end
  ++ match code, vars with Some c, Some v => [WithUEFI c v] | _, _ => [] end
  ++ match vt_iso a with Some p => [WithISO p] | None => [] end
  ++ match vt_disk a with
     | Some p => [WithExistingDisk p]
     | None => when_set (vt_disk_size a) (WithDisk (vt_disk_size a))
     end
  ++ (if vt_tpm a
      then [WithTPM (default "swtpm" (vt_swtpm a)) (default "swtpm_setup" (vt_swtpm_setup a))] else [])
  ++ [if String.eqb (vt_network a) "none" then WithNoNetwork else WithUserNet]
  ++ match vt_share_dir a with Some d => [With9PShare "vmtest" d] | None => [] end.

(** ** Lemmas *)

(** An argument the script hands over unchanged. *)
Definition carried (s : string) : bool := Contains s " " || Contains s "'" || bare_word s.

Lemma sh_split_escaped w s rest :
  sh_split InSingle (Some w) (ReplaceAll s quote escaped_quote +:+ String quote rest)
  = sh_split Unquoted (Some (w +:+ s)) rest.
Proof.
  revert w. induction s as [|a s IH]; intros w; [by rewrite append_nil_r|].
  cbn [ReplaceAll]. destruct (Ascii.eqb_spec a quote) as [->|Hne].
  - change ((escaped_quote +:+ ReplaceAll s quote escaped_quote) +:+ String quote rest)
      with (escaped_quote +:+ (ReplaceAll s quote escaped_quote +:+ String quote rest)).
    change (sh_split InSingle (Some w) (escaped_quote +:+ ?r))
      with (sh_split InSingle (push (Some w) quote) r). unfold push. rewrite IH. cbn [default].
    by rewrite append_assoc.
  - change (String a (ReplaceAll s quote escaped_quote) +:+ String quote rest)
      with (String a (ReplaceAll s quote escaped_quote +:+ String quote rest)).
    cbn [sh_split]. rewrite (proj2 (Ascii.eqb_neq a quote)) by done. unfold push. rewrite IH.
    cbn [default]. by rewrite append_assoc.
Qed.

Lemma quote_arg_read s rest :
  carried s = true →
  sh_split Unquoted None (quote_arg s +:+ rest) = sh_split Unquoted (Some s) rest.
Proof.
  unfold carried, quote_arg. destruct (Contains s " " || Contains s "'"); cbn [orb].
  - intros _. rewrite !append_assoc. cbn [append String.append]. apply (sh_split_escaped "").
  - apply sh_split_bare_word.
Qed.

Lemma script_words l :
  Forall (λ s, carried s = true) l → sh_words (Join (map quote_arg l) " ") = Some l.
Proof.
  induction l as [|x l IH]; intros Hl; [done|]. apply Forall_cons in Hl as [Hx Hl].
  unfold sh_words in *. destruct l as [|y l].
  - cbn [map Join]. rewrite <- (append_nil_r (quote_arg x)), quote_arg_read by done. done.
  - change (Join (map quote_arg (x :: y :: l)) " ")
      with (quote_arg x +:+ " " +:+ Join (map quote_arg (y :: l)) " ").
    rewrite quote_arg_read by done.
    change (sh_split Unquoted (Some x) (" " +:+ ?r)) with (option_map (cons x) (sh_split Unquoted None r)).
    by rewrite IH.
Qed.

(** The same arguments as settings of flags. *)
Definition file_set (flag : string) (o : option string) : list setting :=
  match o with Some p => [(flag, VString p)] | None => [] end.
Definition text_set (flag v : string) : list setting :=
  if String.eqb v "" then [] else [(flag, VString v)].
Definition vm_test_settings (a : VmTestAttrs) : list setting :=
  file_set "qemu" (vt_qemu_system a) ++ file_set "qemu-img" (vt_qemu_img a)
  ++ file_set "kernel" (vt_kernel a) ++ file_set "initrd" (vt_initrd a)
  ++ text_set "cmdline" (vt_cmdline a) ++ file_set "iso" (vt_iso a)
  ++ file_set "ovmf-code" (first_of (vt_ovmf_code a) (vt_toolchain_code a))
  ++ file_set "ovmf-vars" (first_of (vt_ovmf_vars a) (vt_toolchain_vars a))
  ++ file_set "disk" (vt_disk a)
  ++ (match vt_disk a with Some _ => [] | None => text_set "disk-size" (vt_disk_size a) end)
  ++ [("memory", VString (vt_memory a))] ++ [("cpus", VInt (vt_cpus a))]
  ++ [("timeout", VInt (vt_timeout_minutes a))]
  ++ (if vt_tpm a then [("tpm", VBool true)] else [])
  ++ (if vt_tpm a then file_set "swtpm" (vt_swtpm a) else [])
  ++ (if vt_tpm a then file_set "swtpm-setup" (vt_swtpm_setup a) else [])
  ++ text_set "machine-type" (vt_machine_type a) ++ text_set "accel" (vt_accel a)
  ++ [("network", VString (vt_network a))] ++ file_set "share-dir" (vt_share_dir a).

Lemma flat_map_append {A B} (f : A → list B) l1 l2 : flat_map f (l1 ++ l2) = flat_map f l1 ++ flat_map f l2.
Proof. induction l1 as [|x l1 IH]; [done|]. cbn. by rewrite IH, app_assoc. Qed.
Lemma render_file_set n o : flat_map render (file_set n o) = file_arg ("--" +:+ n) o.
Proof. by destruct o. Qed.
Lemma render_text_set n v : flat_map render (text_set n v) = text_arg ("--" +:+ n) v.
Proof. unfold text_set, text_arg. by destruct (String.eqb v ""). Qed.

Lemma vm_test_args_settings a : vm_test_args a = flat_map render (vm_test_settings a).
Proof.
  unfold vm_test_args, vm_test_settings. rewrite !flat_map_append, !render_file_set, !render_text_set.
  destruct (vt_disk a), (vt_tpm a); rewrite ?render_file_set, ?render_text_set, <- ?app_assoc; reflexivity.
Qed.

(** The last setting of a flag in a list. *)
Fixpoint last_of (k : string) (l : list setting) : option fval :=
  match l with
  | [] => None
  | (n, v) :: l' =>
      match last_of k l' with
      | Some x => Some x
      | None => if String.eqb n k then Some v else None
      end
  end.
Lemma last_of_app k l1 l2 :
  last_of k (l1 ++ l2) = match last_of k l2 with Some x => Some x | None => last_of k l1 end.
Proof.
  induction l1 as [|[n v] l1 IH]; cbn; [by destruct (last_of k l2)|]. rewrite IH.
  by destruct (last_of k l2).
Qed.
Lemma last_of_file_set k n o :
  last_of k (file_set n o) = if String.eqb n k then option_map VString o else None.
Proof. destruct o; cbn; [done|]. by destruct (String.eqb n k). Qed.
Lemma last_of_text_set k n v :
  last_of k (text_set n v)
  = if String.eqb n k then (if String.eqb v "" then None else Some (VString v)) else None.
Proof. unfold text_set. destruct (String.eqb v ""); cbn; [|done]. by destruct (String.eqb n k). Qed.
Lemma foldl_settings m l k :
  foldl (λ m x, <[x.1 := x.2]> m) (m : flags) l !! k
  = match last_of k l with Some v => Some v | None => m !! k end.
Proof.
  revert m. induction l as [|[n v] l IH]; intros m; [done|]. cbn [foldl last_of fst snd].
  rewrite IH. destruct (last_of k l); [done|]. destruct (String.eqb_spec n k) as [->|].
  - by rewrite lookup_insert_eq.
  - by rewrite lookup_insert_ne.
Qed.

Lemma sets_file m n o :
  flag_name n = true → option_map kind (m !! n) = Some 0 → Forall (sets m) (file_set n o).
Proof.
  intros Hn Hk. destruct o as [p|]; [|done]. apply Forall_singleton. split_and!; [done|done|].
  cbn [fst snd]. destruct (m !! n) as [old|]; [|done]. exists old. split; [done|]. by injection Hk.
Qed.
Lemma sets_text m n v :
  flag_name n = true → option_map kind (m !! n) = Some 0 → Forall (sets m) (text_set n v).
Proof.
  intros Hn Hk. unfold text_set. destruct (String.eqb v ""); [done|].
  by apply (sets_file m n (Some v)).
Qed.
Lemma sets_one (m : flags) n v :
  flag_name n = true → fits v → option_map kind (m !! n) = Some (kind v) → Forall (sets m) [(n, v)].
Proof.
  intros Hn Hf Hk. apply Forall_singleton. split_and!; [done|done|]. cbn [fst snd].
  destruct (m !! n) as [old|]; [|done]. exists old. split; [done|]. by injection Hk.
Qed.

Lemma vm_test_settings_fit a :
  is_int (vt_cpus a) → is_int (vt_timeout_minutes a) → Forall (sets runner_flags) (vm_test_settings a).
Proof.
  intros Hc Ht. unfold vm_test_settings. rewrite !Forall_app.
  destruct (vt_disk a), (vt_tpm a); split_and!;
    first [exact (@Forall_nil_2 setting _) | apply sets_file; exact eq_refl
          | apply sets_text; exact eq_refl | apply sets_one; [exact eq_refl|first [done|exact I]|exact eq_refl]].
Qed.


(** What the flags hold after the settings of the rule. *)
Definition parsed_flags (a : VmTestAttrs) : flags :=
  foldl (λ m x, <[x.1 := x.2]> m) runner_flags (vm_test_settings a).
Definition text (v d : string) : string := if String.eqb v "" then d else v.

Ltac flag_value a :=
  unfold get_string, get_int, get_bool, parsed_flags; rewrite foldl_settings; unfold vm_test_settings;
  rewrite !last_of_app, ?last_of_file_set, ?last_of_text_set; destruct (vt_disk a), (vt_tpm a);
  rewrite ?last_of_file_set, ?last_of_text_set; unfold text;
  repeat match goal with |- context [String.eqb (?f a) ""] => generalize (String.eqb (f a) ""); intros ? end;
  vm_compute;
  repeat match goal with
         | |- context [match ?f a with _ => _ end] => destruct (f a)
         | |- context [match ?b with _ => _ end] => is_var b; destruct b
         end; reflexivity.

Lemma parsed_flags_read a :
  read_runner_flags (parsed_flags a) =
  {| f_kernel := default "" (vt_kernel a); f_initrd := default "" (vt_initrd a);
     f_cmdline := text (vt_cmdline a) ""; f_iso := default "" (vt_iso a);
     f_ovmf_code := default "" (first_of (vt_ovmf_code a) (vt_toolchain_code a));
     f_ovmf_vars := default "" (first_of (vt_ovmf_vars a) (vt_toolchain_vars a));
     f_disk := default "" (vt_disk a);
     f_disk_size := (match vt_disk a with Some _ => "" | None => text (vt_disk_size a) "" end);
     f_memory := vt_memory a; f_cpus := vt_cpus a; f_tpm := vt_tpm a;
     f_swtpm := default "swtpm" (if vt_tpm a then vt_swtpm a else None);
     f_swtpm_setup := default "swtpm_setup" (if vt_tpm a then vt_swtpm_setup a else None);
     f_network := vt_network a; f_timeout := vt_timeout_minutes a;
     f_share_dir := default "" (vt_share_dir a); f_qemu := default "" (vt_qemu_system a);
     f_qemu_img := default "qemu-img" (vt_qemu_img a);
     f_machine_type := text (vt_machine_type a) ""; f_accel := text (vt_accel a) "";
     f_work_dir := "" |}.
Proof. unfold read_runner_flags. f_equal; flag_value a. Qed.

Lemma carried_not_empty s : carried s = true → s ≠ "".
Proof. by intros H ->. Qed.
Lemma file_arg_given n o : Forall (λ s, carried s = true) (file_arg n o) → o ≠ Some "".
Proof. destruct o as [p|]; [|done]. cbn. rewrite !Forall_cons. intros (_ & Hp & _) [= ->]. done. Qed.
Lemma when_set_file (o : option string) (f : string → VmOption) :
  o ≠ Some "" →
  when_set (default "" o) (f (default "" o)) = match o with Some p => [f p] | None => [] end.
Proof. destruct o as [[|c p]|]; [done|done|done]. Qed.
Lemma when_set_text v (f : string → VmOption) : when_set (text v "") (f (text v "")) = when_set v (f v).
Proof. unfold when_set, text. by destruct (String.eqb v "") eqn:E; rewrite ?E. Qed.

Lemma uefi_files (c v : option string) :
  c ≠ Some "" → v ≠ Some "" →
  (if negb (String.eqb (default "" c) "") && negb (String.eqb (default "" v) "")
   then [WithUEFI (default "" c) (default "" v)] else [])
  = match c, v with Some c, Some v => [WithUEFI c v] | _, _ => [] end.
Proof. by destruct c as [[]|], v as [[]|]. Qed.

Lemma vm_test_options_read a :
  Forall (λ s, carried s = true) (vm_test_args a) →
  runner_options (read_runner_flags (parsed_flags a)) = vm_test_options a.
Proof.
  intros H. unfold vm_test_args in H. rewrite !Forall_app in H.
  destruct H as (Hq & _ & Hk & _ & _ & Hi & Hc & Hv & Hd & _ & _ & _ & _ & _ & _ & _ & Hs).
  apply file_arg_given in Hq, Hk, Hi, Hc, Hv, Hs.
  rewrite parsed_flags_read. unfold runner_options, vm_test_options.
  cbn [f_kernel f_initrd f_cmdline f_iso f_ovmf_code f_ovmf_vars f_disk f_disk_size f_memory f_cpus
       f_tpm f_swtpm f_swtpm_setup f_network f_share_dir f_qemu f_qemu_img f_machine_type f_accel f_work_dir].
  rewrite !when_set_text.
  rewrite (when_set_file _ WithQemuBinary Hq), (when_set_file _ WithISO Hi),
    (when_set_file _ (With9PShare "vmtest") Hs),
    (when_set_file _ (λ k, WithKernelBoot k (default "" (vt_initrd a)) (text (vt_cmdline a) "")) Hk).
  assert (text (vt_cmdline a) "" = vt_cmdline a) as ->.
  { unfold text. by destruct (String.eqb_spec (vt_cmdline a) "") as [->|]. }
  assert (∀ x : bool, (if x then [WithNoNetwork] else [WithUserNet]) = [if x then WithNoNetwork else WithUserNet])
    as -> by by intros [].
  rewrite (uefi_files _ _ Hc Hv).
  destruct (vt_disk a) as [d|]; rewrite ?when_set_text; cbn [default option_map].
  - apply (file_arg_given "--disk" (Some d)) in Hd. destruct d as [|x d]; [done|].
    by destruct (vt_tpm a).
  - by destruct (vt_tpm a).
Qed.

(** The script becomes the runner, with the arguments of the rule and then its own. *)
Lemma sh_words_exec_args p t l :
  all_chars double_text p = true → sh_words t = Some l →
  sh_words (("exec " +:+ String dquote (p +:+ String dquote "")) +:+ " " +:+ t) = Some ("exec" :: p :: l).
Proof.
  intros Hp Ht. unfold sh_words in *.
  change (sh_split Unquoted None (("exec " +:+ String dquote ?x) +:+ ?r))
    with (option_map (cons "exec") (sh_split InDouble (Some "") (x +:+ r))).
  rewrite append_assoc. change (String dquote "" +:+ ?r) with (String dquote r). rewrite sh_split_double by done.
  change (sh_split Unquoted (Some ("" +:+ p)) (" " +:+ t)) with (option_map (cons p) (sh_split Unquoted None t)).
  by rewrite Ht.
Qed.
Lemma script_becomes_runner self more a runner env :
  Forall (λ s, carried s = true) (vm_test_args a) → all_chars double_text runner = true →
  run_script self more (vm_test_script a runner) env
  = Some (runner :: vm_test_args a ++ more, assign "RUNFILES_DIR" (self +:+ ".runfiles") env).
Proof.
  intros Hq Hr. unfold run_script, vm_test_script. rewrite sh_commands_head.
  change (sh_commands self more (runfiles_dir_line +:+ newline_s +:+ ?r))
    with (sh_script self more (Text InDouble) (Some ("RUNFILES_DIR=" +:+ self)) []
            ((".runfiles" +:+ String dquote "") +:+ String newline r)).
  rewrite (sh_script_line _ _ _ _ _ _ [("RUNFILES_DIR=" +:+ self) +:+ ".runfiles"])
    by by rewrite (sh_split_double _ ".runfiles" "").
  replace ("exec " +:+ String dquote (runner +:+ String dquote "") +:+ " " +:+ script_args a +:+ all_args)
    with ((("exec " +:+ String dquote (runner +:+ String dquote "")) +:+ " " +:+ script_args a) +:+ all_args)
    by by rewrite !append_assoc.
  rewrite (sh_commands_exec _ _ _ ("exec" :: runner :: vm_test_args a))
    by (done || by apply sh_words_exec_args, script_words).
  cbn [option_map mbind option_bind end_command app].
  change (run_commands (["set"; "-euo"; "pipefail"] :: ?cs) env) with (run_commands cs env).
  rewrite append_assoc. change ("RUNFILES_DIR=" +:+ ?r) with ("RUNFILES_DIR" +:+ String "=" r).
  by rewrite run_assignment.
Qed.


(** ** Properties *)

(** C13: the attributes of vm_test reach the VM.  The rule fails exactly when it
    asks for a TPM without a toolchain for one of its two tools.  Otherwise, when
    every argument survives the quoting of the script (it holds a blank or a
    quote, and is then quoted, or only bytes a shell leaves alone), its script,
    run with any arguments, becomes the runner with exactly the rule's argument
    list before them; the command parses that list, whatever follows, and without
    more it starts one VM, with the options the attributes stand for, scans it to
    the end of the rule's timeout at most, and passes only when both succeeded.
    And where Bazel starts the script the path of the runner and each file it is
    given are found in the runfiles. *)
Theorem vm_test_roundtrip {P : VmPackage} {S : MarkerScan} root ws self args a runner runner_files env w :
  Forall (λ s, carried s = true) (vm_test_args a) → all_chars double_text runner = true →
  is_int (vt_cpus a) → is_int (vt_timeout_minutes a) → runner ∈ runner_files →
  match vm_test_impl a runner runner_files with
  | Err _ => has_tools (vt_tpm a) (vt_swtpm_info a) (vt_swtpm_setup_info a) = false
  | Ok (script, files) =>
      has_tools (vt_tpm a) (vt_swtpm_info a) (vt_swtpm_setup_info a) = true ∧
      run_script self args script env
        = Some (runner :: vm_test_args a ++ args, assign "RUNFILES_DIR" (self +:+ ".runfiles") env) ∧
      (∃ m, (∀ more, Parse runner_flags (vm_test_args a ++ more) = Parse m more) ∧
         runner_options (read_runner_flags m) = vm_test_options a ∧
         f_timeout (read_runner_flags m) = vt_timeout_minutes a) ∧
      (let deadline := (now w + minutes (vt_timeout_minutes a))%Z in
       ∃ code w' tail, runner_main (vm_test_args a) w = (Ok code, w') ∧
         made w w' (CallStart (vm_test_options a) :: tail) ∧
         (∀ d, CallScanForMarker d ∈ tail → d = deadline) ∧ (code = 0%Z ∨ code = 1%Z) ∧
         (code = 0%Z → ∃ v c g, (vm_Start (vm_test_options a) (ext w)).1 = Ok v ∧
                                (ScanForMarker c deadline g).1 = Ok tt)) ∧
      (Forall (λ e, plain e = true) root → plain ws = true →
       Forall (λ f, short_file f = true) (runner :: vm_test_files a) →
       all_found (abs_path root) ws files (runner :: vm_test_files a))
  end.
Proof.
  intros Hq Hr Hc Ht Hin. unfold vm_test_impl. rewrite <- swtpm_runfiles_ok.
  destruct (swtpm_runfiles _ _ _) as [fs|e]; [|done]. split; [done|].
  split; [by apply script_becomes_runner|].
  assert (Hp : ∀ more, Parse runner_flags (vm_test_args a ++ more) = Parse (parsed_flags a) more).
  { intros more. rewrite vm_test_args_settings. by apply Parse_render, vm_test_settings_fit. }
  pose proof (vm_test_options_read a Hq) as Ho.
  assert (Hm : f_timeout (read_runner_flags (parsed_flags a)) = vt_timeout_minutes a) by by rewrite parsed_flags_read.
  split; [by exists (parsed_flags a)|]. split.
  - destruct (runner_boot_run (read_runner_flags (parsed_flags a)) w) as (code & w' & tail & E & M & D & C & _ & Z0).
    rewrite Ho, Hm in *. exists code, w', tail. split_and!; try done. unfold runner_main.
    specialize (Hp []). rewrite app_nil_r in Hp. by rewrite Hp.
  - intros Hroot Hws Hs. apply all_found_in; try done.
    intros f [->|Hf]%elem_of_cons; rewrite !elem_of_app; auto.
Qed.

(** A rule like the kernel boot example of the repository, with a shared test script. *)
Definition kernel_test : VmTestAttrs :=
  {| vt_qemu_system := Some "../qemu/bin/qemu-system-x86_64"; vt_qemu_img := None;
     vt_toolchain_code := Some "../qemu/OVMF_CODE.fd"; vt_toolchain_vars := None;
     vt_machine_type := "q35"; vt_accel := "kvm";
     vt_swtpm_info := Some {| tool_executable := "../swtpm+/bin/swtpm"; tool_runfiles := Some ["../swtpm+/lib/libtpms.so"] |};
     vt_swtpm_setup_info := Some {| tool_executable := "../swtpm+/bin/swtpm_setup"; tool_runfiles := None |};
     vt_kernel := Some "vmlinuz"; vt_initrd := Some "initrd.cpio";
     vt_cmdline := "console=ttyS0 motd='it works'"; vt_iso := None; vt_ovmf_code := None;
     vt_ovmf_vars := None; vt_disk := None; vt_disk_size := "1G"; vt_memory := "512M"; vt_cpus := 1;
     vt_timeout_minutes := 5; vt_tpm := true; vt_network := "none";
     vt_share_dir := Some "tests/boot_share" |}.

(** A guest that prints its marker. *)
#[local] Instance MarkerPrinted : @MarkerScan ScriptedVm := {| ScanForMarker := λ _ _ g, (Ok tt, (tick, g)) |}.
Definition test_script_path : string := "/root/.runfiles/_main/tests/boot.sh".
Definition testrunner_path : string := "../rules_vmtest+/vmtest/cmd/testrunner/testrunner_/testrunner".
Lemma vm_test_roundtrip_witness :
  ∃ script files m, vm_test_impl kernel_test testrunner_path [testrunner_path] = Ok (script, files) ∧
    run_script test_script_path ["--timeout=0x10"] script {["RUNFILES_DIR" := "/root/.runfiles"]}
      = Some (testrunner_path :: vm_test_args kernel_test ++ ["--timeout=0x10"],
              {["RUNFILES_DIR" := test_script_path +:+ ".runfiles"]}) ∧
    Parse runner_flags (vm_test_args kernel_test ++ ["--timeout=0x10"]) = Parse m ["--timeout=0x10"] ∧
    runner_options (read_runner_flags m) = vm_test_options kernel_test ∧
    (runner_main (vm_test_args kernel_test) (fresh_test idle)).1 = Ok 0%Z ∧
    all_found "/root/.runfiles" "_main" files (testrunner_path :: vm_test_files kernel_test).
Proof.
  pose proof (vm_test_roundtrip (P := ScriptedVm) (S := MarkerPrinted) ["root"; ".runfiles"] "_main" test_script_path ["--timeout=0x10"] kernel_test
    testrunner_path [testrunner_path] {["RUNFILES_DIR" := "/root/.runfiles"]} (fresh_test idle)) as H.
  destruct (vm_test_impl _ _ _) as [[script files]|e] eqn:E; [|by vm_compute in E].
  destruct H as (_ & R & (m & Hp & Ho & _) & V & F).
  - apply forallb_Forall. exact eq_refl.
  - exact eq_refl.
  - by vm_compute.
  - by vm_compute.
  - by left.
  - exists script, files, m. split; [done|]. split; [rewrite R; f_equal|]. split; [apply Hp|]. split; [exact Ho|]. split; [by vm_compute|].
    apply F; [by repeat constructor|exact eq_refl|]. apply (forallb_Forall short_file). exact eq_refl.
Defined.
