(* ===== verification/VmTestShare.v ===== *)
(** * VmTestShare: the directory vm_test shares with the guest

    vmtest/vm_test.bzl, lines 84-112: the rule assembles its test script and its
    data files into one directory with a shell command it writes itself.  The
    text is read back as a shell reads it, and run with mkdir, cp and chmod as
    their documentation has them (the class [FileTools]). *)

From S2P Require Import Prelude GoStrings GoPath Shell VmTestRule.

(** [File.basename]: what follows the last slash. *)
Definition basename (path : string) : string := List.last (Split path slash) "".

(** The files of a rule, by their paths in the build. *)
Record ShareAttrs := { sh_test_script : option string; sh_data : list string }.

Definition share_files (a : ShareAttrs) : list string :=
  match sh_test_script a with Some s => [s] | None => [] end ++ sh_data a.
Definition share_commands (a : ShareAttrs) (dst : string) : list string :=
  ["mkdir -p " +:+ dst]
  ++ (match sh_test_script a with
      | Some src => ["cp " +:+ src +:+ " " +:+ dst +:+ "/test.sh && chmod +x " +:+ dst +:+ "/test.sh"]
      | None => []
      end)
  ++ map (λ f, "cp " +:+ f +:+ " " +:+ dst +:+ "/" +:+ basename f) (sh_data a).
(** The action, and the argument [--share-dir]: there is one when there are files. *)
Definition share_action (a : ShareAttrs) (dst : string) : option string :=
  match share_files a with [] => None | _ => Some (Join (share_commands a dst) " && ") end.
Definition share_dir_arg (a : ShareAttrs) (short_path : string) : option string :=
  match share_files a with [] => None | _ => Some short_path end.

(** ** Reading and running the text *)

(** Commands joined by [&&], each of plain words. *)
Fixpoint and_parts (l : list string) : option (list string) :=
  match l with
  | [x] => Some [x]
  | x :: "" :: l' => option_map (cons x) (and_parts l')
  | _ => None
  end.
Definition sh_and_list (s : string) : option (list (list string)) :=
  parts ← and_parts (Split s "&"%char);
  cmds ← mapM sh_words parts;
  if forallb (λ c, negb (Nat.eqb (length c) 0)) cmds then Some cmds else None.

(** mkdir, cp and chmod over an unknown state of the file system.  The laws are
    about clean relative paths, which name different files when they differ. *)
Definition plain_path (p : string) : bool := String.eqb (Clean p) p && negb (IsAbs p).
Class FileTools := {
  Tree : Type;
  (** [None]: the command fails. *)
  perform : list string → Tree → option Tree;
  (** A file's content and whether it is executable. *)
  entry : string → Tree → option (string * bool);
  is_dir : string → Tree → bool;
  (** mkdir -p of a directory that is there does nothing. *)
  mkdir_there d t : is_dir d t = true → perform ["mkdir"; "-p"; d] t = Some t;
  (** cp of a file to a new name in a directory that is there copies content and mode. *)
  cp_file d n a t x : lacks slash n = true → plain_path a = true → plain_path (d +:+ "/" +:+ n) = true → is_dir d t = true →
    is_dir (d +:+ "/" +:+ n) t = false → entry a t = Some x → entry (d +:+ "/" +:+ n) t = None →
    ∃ t', perform ["cp"; a; d +:+ "/" +:+ n] t = Some t' ∧ entry (d +:+ "/" +:+ n) t' = Some x ∧
      (∀ p, is_dir p t' = is_dir p t) ∧
      (∀ p, plain_path p = true → p ≠ d +:+ "/" +:+ n → entry p t' = entry p t);
  chmod_file a t content x : plain_path a = true → entry a t = Some (content, x) →
    ∃ t', perform ["chmod"; "+x"; a] t = Some t' ∧ entry a t' = Some (content, true) ∧
      (∀ p, is_dir p t' = is_dir p t) ∧ (∀ p, plain_path p = true → p ≠ a → entry p t' = entry p t);
}.
(** A list joined by [&&] stops at the first failure. *)
Definition run_list `{FileTools} (cmds : list (list string)) (t : Tree) : option Tree :=
  foldl (λ r c, t ← r; perform c t) (Some t) cmds.

(** ** Lemmas: reading *)

Definition share_words (a : ShareAttrs) (dst : string) : list (list string) :=
  ["mkdir"; "-p"; dst]
  :: (match sh_test_script a with
      | Some src => [["cp"; src; dst +:+ "/test.sh"]; ["chmod"; "+x"; dst +:+ "/test.sh"]]
      | None => []
      end)
  ++ map (λ f, ["cp"; f; dst +:+ "/" +:+ basename f]) (sh_data a).
Definition command_text (ws : list string) : string := Join ws " ".

Lemma Join_cons (x : string) l sep : l ≠ [] → Join (x :: l) sep = x +:+ sep +:+ Join l sep.
Proof. by destruct l. Qed.
(** An element that holds the separator is two elements. *)
Lemma Join_merge l1 x y l2 sep : Join (l1 ++ (x +:+ sep +:+ y) :: l2) sep = Join (l1 ++ x :: y :: l2) sep.
Proof.
  induction l1 as [|z l1 IH].
  - cbn [app]. rewrite (Join_cons x) by done. destruct l2 as [|w l2]; [done|].
    rewrite (Join_cons y), (Join_cons (x +:+ sep +:+ y)) by done. by rewrite !append_assoc.
  - change ((z :: l1) ++ ?r) with (z :: (l1 ++ r)). rewrite !Join_cons by by destruct l1. by rewrite IH.
Qed.

Lemma share_text a dst : Join (share_commands a dst) " && " = Join (map command_text (share_words a dst)) " && ".
Proof.
  unfold share_commands, share_words. rewrite map_cons, map_app, map_map.
  destruct (sh_test_script a) as [src|]; [|done].
  pose proof (Join_merge ["mkdir -p " +:+ dst] ("cp " +:+ src +:+ " " +:+ dst +:+ "/test.sh")
    ("chmod +x " +:+ dst +:+ "/test.sh") (map (λ f, "cp " +:+ f +:+ " " +:+ dst +:+ "/" +:+ basename f) (sh_data a))
    " && ") as Hm.
  cbn [app map] in *. rewrite !append_assoc in Hm. exact Hm.
Qed.

Lemma bare_lacks w : bare_word w = true → lacks "&"%char w = true.
Proof.
  unfold bare_word, lacks. intros [_ H]%andb_true_iff. eapply all_chars_impl; [|exact H].
  intros c Hc. apply negb_true_iff, Ascii.eqb_neq. intros ->. by vm_compute in Hc.
Qed.
Lemma command_lacks ws : Forall (λ w, bare_word w = true) ws → lacks "&"%char (command_text ws) = true.
Proof.
  unfold command_text. induction 1 as [|w ws Hw Hws IH]; [done|]. destruct ws as [|v ws]; [by apply bare_lacks|].
  rewrite Join_cons, !lacks_append, IH by done. by rewrite (bare_lacks w).
Qed.
(** Bare words are read back, with blanks around them. *)
Lemma command_read ws rest : ws ≠ [] → Forall (λ w, bare_word w = true) ws →
  (rest = "" ∨ rest = " ") → sh_words (command_text ws +:+ rest) = Some ws.
Proof.
  intros Hn Hb Hr. unfold sh_words, command_text. induction Hb as [|w ws Hw Hws IH]; [done|].
  destruct ws as [|v ws].
  - cbn [Join]. rewrite sh_split_bare_word by done. by destruct Hr as [->| ->].
  - rewrite Join_cons, append_assoc, sh_split_bare_word by done.
    change (sh_split Unquoted (Some w) ((" " +:+ ?r) +:+ rest)) with (option_map (cons w) (sh_split Unquoted None (r +:+ rest))).
    by rewrite IH.
Qed.
Lemma sh_words_blank s : sh_words (" " +:+ s) = sh_words s.
Proof.
  change (sh_words (" " +:+ s)) with (option_map (emit_word None) (sh_words s)). by destruct (sh_words s).
Qed.

Definition readable (cmds : list (list string)) : Prop :=
  Forall (λ ws, ws ≠ [] ∧ Forall (λ w, bare_word w = true) ws) cmds.
Lemma and_list_parts pre cmds :
  pre = "" ∨ pre = " " → cmds ≠ [] → readable cmds →
  ∃ parts, and_parts (Split (pre +:+ Join (map command_text cmds) " && ") "&"%char) = Some parts ∧
    mapM sh_words parts = Some cmds.
Proof.
  intros Hp Hn Hr. revert pre Hp. induction Hr as [|ws cmds [Hw Hb] Hr IH]; [done|]. intros pre Hp.
  assert (Hl : lacks "&"%char (pre +:+ command_text ws) = true).
  { rewrite lacks_append, command_lacks by done. by destruct Hp as [->| ->]. }
  assert (Hread : ∀ rest, rest = "" ∨ rest = " " → sh_words ((pre +:+ command_text ws) +:+ rest) = Some ws).
  { intros rest Hrest. destruct Hp as [->| ->]; [|rewrite append_assoc, sh_words_blank]; by apply command_read. }
  destruct cmds as [|ws' cmds].
  - exists [pre +:+ command_text ws]. cbn [map Join]. rewrite Split_lacks_id by done. split; [done|].
    cbn. rewrite <- (append_nil_r (pre +:+ command_text ws)), Hread by by left. done.
  - destruct (IH ltac:(done) " " (or_intror eq_refl)) as (parts & E & M).
    exists (((pre +:+ command_text ws) +:+ " ") :: parts). split.
    + change (map command_text (ws :: ws' :: cmds)) with (command_text ws :: map command_text (ws' :: cmds)).
      rewrite Join_cons by done.
      replace (pre +:+ command_text ws +:+ " && " +:+ Join (map command_text (ws' :: cmds)) " && ")
        with (((pre +:+ command_text ws) +:+ " ") +:+ String "&" (String "&" (" " +:+ Join (map command_text (ws' :: cmds)) " && ")))
        by by rewrite !append_assoc.
      rewrite Split_sep by by rewrite lacks_append, Hl.
      change (String "&" (" " +:+ ?r)) with ("" +:+ String "&" (" " +:+ r)). rewrite Split_sep by done.
      cbn [and_parts]. by rewrite E.
    + cbn [mapM]. rewrite Hread by by right. cbn. by rewrite M.
Qed.
Lemma and_list_read cmds :
  cmds ≠ [] → readable cmds → sh_and_list (Join (map command_text cmds) " && ") = Some cmds.
Proof.
  intros Hn Hr. destruct (and_list_parts "" cmds (or_introl eq_refl) Hn Hr) as (parts & E & M).
  unfold sh_and_list. change ("" +:+ ?r) with r in E. rewrite E. cbn. rewrite M. cbn.
  replace (forallb _ cmds) with true; [done|]. symmetry. apply forallb_forall. intros ws Hw.
  unfold readable in Hr. rewrite Forall_forall in Hr. destruct (Hr ws) as [Hws _]; [by apply list_elem_of_In|].
  by destruct ws.
Qed.

(** ** Lemmas: running *)

Section Running.
Context `{FT : FileTools}.
Implicit Types (t : Tree).

Lemma run_list_none cmds : foldl (λ r c, t ← r; perform c t) None cmds = None.
Proof. by induction cmds. Qed.
Lemma run_list_cons c cmds t t' : perform c t = Some t' → run_list (c :: cmds) t = run_list cmds t'.
Proof. intros E. unfold run_list. cbn. by rewrite E. Qed.
Lemma run_list_app cmds1 cmds2 t t' : run_list cmds1 t = Some t' → run_list (cmds1 ++ cmds2) t = run_list cmds2 t'.
Proof. intros E. unfold run_list in *. by rewrite foldl_app, E. Qed.

(** The tree changed in these files only. *)
Record only_wrote (ps : list string) t t' : Prop := {
  wrote_dirs : ∀ p, is_dir p t' = is_dir p t;
  wrote_files : ∀ p, plain_path p = true → p ∉ ps → entry p t' = entry p t;
}.
Lemma only_wrote_trans ps1 ps2 t1 t2 t3 :
  only_wrote ps1 t1 t2 → only_wrote ps2 t2 t3 → only_wrote (ps1 ++ ps2) t1 t3.
Proof.
  intros [A1 A2] [B1 B2]. split; [intros p; by rewrite B1|]. intros p Hp Hn. rewrite not_elem_of_app in Hn.
  rewrite B2, A2 by (done || apply Hn). done.
Qed.

(** A name in a directory that can take a file. *)
Definition fresh t (p : string) : Prop := plain_path p = true ∧ is_dir p t = false ∧ entry p t = None.
Definition source t (p : string) : Prop := plain_path p = true ∧ is_Some (entry p t).
Definition into (dst name : string) : string := dst +:+ "/" +:+ name.

Lemma basename_lacks f : lacks slash (basename f) = true.
Proof.
  unfold basename. pose proof (Split_lacks f slash) as Hl. induction Hl as [|x l Hx Hl IH]; [done|]. by destruct l.
Qed.
Lemma into_inj dst n1 n2 : into dst n1 = into dst n2 → n1 = n2.
Proof. intros E. by do 2 apply append_inj_l in E. Qed.

Lemma copy_one dst a n t : lacks slash n = true → is_dir dst t = true → source t a → fresh t (into dst n) →
  ∃ t', perform ["cp"; a; into dst n] t = Some t' ∧ entry (into dst n) t' = entry a t ∧ only_wrote [into dst n] t t'.
Proof.
  intros Hl Hd [Ha [x Hx]] (Hp & Hf & He). destruct (cp_file dst n a t x Hl Ha Hp Hd Hf Hx He) as (t' & E & Hn & Hdirs & Ho).
  exists t'. split_and!; [done|by rewrite Hx|]. split; [done|]. intros p Hpp Hne.
  apply Ho; [done|]. intros ->. apply Hne. by left.
Qed.

Lemma wrote_source ps t t' p :
  only_wrote ps t t' → source t p → Forall (fresh t) ps → entry p t' = entry p t ∧ source t' p.
Proof.
  intros W [Hp [x Hx]] Hf. assert (E : entry p t' = entry p t).
  { apply W; [done|]. intros Hin. rewrite Forall_forall in Hf. destruct (Hf p Hin) as (_ & _ & Hn). congruence. }
  split; [done|]. split; [done|]. exists x. congruence.
Qed.
Lemma wrote_fresh ps t t' p : only_wrote ps t t' → fresh t p → p ∉ ps → fresh t' p.
Proof.
  intros W (H1 & H2 & H3) Hn. split_and!; [done|by rewrite (wrote_dirs _ _ _ W)|by rewrite (wrote_files _ _ _ W)].
Qed.
Lemma into_names dst l n : n ∉ l → into dst n ∉ map (into dst) l.
Proof. intros Hn (m & E%into_inj & Hm)%list_elem_of_fmap. by subst. Qed.

(** The copies of the data files. *)
Lemma copy_all dst data t :
  is_dir dst t = true → Forall (source t) data → NoDup (map basename data) →
  Forall (λ n, fresh t (into dst n)) (map basename data) →
  ∃ t', run_list (map (λ f, ["cp"; f; into dst (basename f)]) data) t = Some t' ∧
    only_wrote (map (into dst) (map basename data)) t t' ∧
    Forall (λ f, entry (into dst (basename f)) t' = entry f t) data.
Proof.
  revert t. induction data as [|f data IH]; intros t Hd Hs Hn Hf.
  { exists t. split_and!; [done|by split|done]. }
  apply Forall_cons in Hs as [Hsf Hs], Hf as [Hff Hf]. cbn in Hn. apply NoDup_cons in Hn as [Hnf Hn].
  destruct (copy_one dst f (basename f) t (basename_lacks f) Hd Hsf Hff) as (t1 & E1 & Hent & W1).
  assert (Hkeep : Forall (λ p, entry p t1 = entry p t ∧ source t1 p) data).
  { eapply Forall_impl; [exact Hs|]. intros p Hp. apply (wrote_source _ _ _ _ W1 Hp). by apply Forall_singleton. }
  destruct (IH t1) as (t2 & E2 & W2 & H2).
  - by rewrite (wrote_dirs _ _ _ W1).
  - eapply Forall_impl; [exact Hkeep|]. by intros p [_ ?].
  - done.
  - rewrite Forall_forall in *. intros n Hin. apply (wrote_fresh _ _ _ _ W1); [by apply Hf|].
    rewrite list_elem_of_singleton. by intros ->%into_inj.
  - exists t2. split_and!.
    + cbn [map]. by rewrite (run_list_cons _ _ _ t1).
    + exact (only_wrote_trans _ _ _ _ _ W1 W2).
    + apply Forall_cons. split.
      * rewrite (wrote_files _ _ _ W2); [done|apply Hff|by apply into_names].
      * rewrite Forall_forall in *. intros g Hg. rewrite H2 by done. by apply Hkeep.
Qed.
End Running.

(** ** Property *)

(** The names in the shared directory. *)
Definition share_names (a : ShareAttrs) : list string :=
  match sh_test_script a with Some _ => ["test.sh"] | None => [] end ++ map basename (sh_data a).

Lemma basename_chars p f : all_chars p f = true → all_chars p (basename f) = true.
Proof.
  intros H. unfold basename. pose proof (Split_chars p slash f H) as Hs.
  induction Hs as [|x l Hx Hl IH]; [done|]. by destruct l.
Qed.
Lemma into_bare dst n : bare_word dst = true → all_chars unquoted_safe n = true → bare_word (into dst n) = true.
Proof.
  unfold bare_word, into. intros [Hd Hs]%andb_true_iff Hn. apply andb_true_iff. split; [by destruct dst|].
  rewrite !all_chars_append, Hs. exact Hn.
Qed.
Lemma bare_chars w : bare_word w = true → all_chars unquoted_safe w = true.
Proof. by intros [_ H]%andb_true_iff. Qed.

Lemma share_readable a dst :
  bare_word dst = true → Forall (λ f, bare_word f = true) (share_files a) → readable (share_words a dst).
Proof.
  intros Hd Hf. unfold share_files in Hf. apply Forall_app in Hf as [Hs Hf]. unfold readable, share_words.
  apply Forall_cons. split; [split; [done|by rewrite !Forall_cons]|]. apply Forall_app. split.
  - destruct (sh_test_script a) as [src|]; [|done]. apply Forall_cons in Hs as [Hs _].
    pose proof (into_bare dst "test.sh" Hd eq_refl) as Ht. unfold into in Ht.
    rewrite !Forall_cons, !Forall_nil. done.
  - apply Forall_map. eapply Forall_impl; [exact Hf|]. intros f Hb. split; [done|].
    pose proof (into_bare dst (basename f) Hd (basename_chars _ _ (bare_chars _ Hb))) as Ht. unfold into in Ht.
    by rewrite !Forall_cons.
Qed.

(** The directory, and the script copied and made executable. *)
Definition script_names (a : ShareAttrs) : list string :=
  match sh_test_script a with Some _ => ["test.sh"] | None => [] end.
Definition script_words (a : ShareAttrs) (dst : string) : list (list string) :=
  match sh_test_script a with
  | Some src => [["cp"; src; into dst "test.sh"]; ["chmod"; "+x"; into dst "test.sh"]]
  | None => []
  end.
Definition script_there `{FileTools} (a : ShareAttrs) (dst : string) (t t' : Tree) : Prop :=
  ∀ src, sh_test_script a = Some src →
    ∃ content x, entry src t = Some (content, x) ∧ entry (into dst "test.sh") t' = Some (content, true).
Lemma copy_script `{FileTools} a dst t :
  is_dir dst t = true → Forall (source t) (match sh_test_script a with Some s => [s] | None => [] end) →
  Forall (λ n, fresh t (into dst n)) (script_names a) →
  ∃ t', run_list (script_words a dst) t = Some t' ∧ script_there a dst t t' ∧
    only_wrote (map (into dst) (script_names a)) t t'.
Proof.
  unfold script_names, script_words, script_there.
  destruct (sh_test_script a) as [src|]; [|intros _ _ _; exists t; by split_and!; [|intros src|split]].
  intros Hd [Hs _]%Forall_cons [Hf _]%Forall_cons.
  destruct (copy_one dst src "test.sh" t eq_refl Hd Hs Hf) as (t1 & E1 & He & W1).
  destruct Hs as [_ [[content x] Hx]]. rewrite Hx in He.
  destruct (chmod_file (into dst "test.sh") t1 content x (proj1 Hf) He) as (t2 & E2 & He2 & Hd2 & Ho2).
  exists t2. split_and!.
  - rewrite (run_list_cons _ _ _ t1) by done. by rewrite (run_list_cons _ _ _ t2).
  - intros src' [= <-]. by exists content, x.
  - split; [intros p; by rewrite Hd2, (wrote_dirs _ _ _ W1)|]. intros p Hp Hn. rewrite Ho2; [by apply W1|done|].
    intros ->. apply Hn. by left.
Qed.

(** C15: what the guest finds in its shared directory.  For a rule with files whose
    paths need no quotes, and in whose directory no two of them have the same
    name, the command of the build is read by the shell as it was meant, succeeds,
    and leaves in the directory the test script, executable, under the name
    test.sh, and every data file under its own name, with the contents they had;
    it changes no other file, and the directory is the argument of the runner.  A
    rule without files has neither. *)
Theorem share_correct `{FileTools} a dst short t :
  bare_word dst = true → Forall (λ f, bare_word f = true) (share_files a) →
  is_dir dst t = true → Forall (source t) (share_files a) →
  NoDup (share_names a) → Forall (λ n, fresh t (into dst n)) (share_names a) →
  (share_files a = [] → share_action a dst = None ∧ share_dir_arg a short = None) ∧
  (share_files a ≠ [] → share_dir_arg a short = Some short ∧
      ∃ text cmds t', share_action a dst = Some text ∧ sh_and_list text = Some cmds ∧ run_list cmds t = Some t' ∧
        only_wrote (map (into dst) (share_names a)) t t' ∧
        script_there a dst t t' ∧
        Forall (λ f, entry (into dst (basename f)) t' = entry f t) (sh_data a)).
Proof.
  intros Hdst Hbare Hd Hs Hn Hf. split; [unfold share_action, share_dir_arg; by intros ->|]. intros Hne.
  split; [unfold share_dir_arg; by destruct (share_files a)|].
  exists (Join (share_commands a dst) " && "), (share_words a dst).
  assert (share_action a dst = Some (Join (share_commands a dst) " && ")) as ->
    by (unfold share_action; by destruct (share_files a)).
  rewrite share_text, and_list_read by (done || by apply share_readable).
  unfold share_files, share_names in *. fold (script_names a) in *.
  apply Forall_app in Hs as [Hs1 Hs2], Hf as [Hf1 Hf2]. apply NoDup_app in Hn as (_ & Hn12 & Hn2).
  destruct (copy_script a dst t Hd Hs1 Hf1) as (t1 & E1 & Hscript & W1).
  assert (Hkeep : Forall (λ p, entry p t1 = entry p t ∧ source t1 p) (sh_data a)).
  { eapply Forall_impl; [exact Hs2|]. intros p Hp. apply (wrote_source _ _ _ _ W1 Hp). by apply Forall_map. }
  destruct (copy_all dst (sh_data a) t1) as (t2 & E2 & W2 & H2).
  - by rewrite (wrote_dirs _ _ _ W1).
  - eapply Forall_impl; [exact Hkeep|]. by intros p [_ ?].
  - done.
  - rewrite Forall_forall in *. intros n Hin. apply (wrote_fresh _ _ _ _ W1); [by apply Hf2|].
    apply into_names. intros Hin'. by apply (Hn12 n).
  - exists t2. split_and!; [done|done| | | |].
    + change (share_words a dst) with (["mkdir"; "-p"; dst] :: script_words a dst
        ++ map (λ f, ["cp"; f; into dst (basename f)]) (sh_data a)).
      rewrite (run_list_cons _ _ t t) by by apply mkdir_there. exact (eq_trans (run_list_app _ _ _ _ E1) E2).
    + rewrite map_app. exact (only_wrote_trans _ _ _ _ _ W1 W2).
    + intros src Hsrc. destruct (Hscript src Hsrc) as (content & x & Hx & Hx1). exists content, x. split; [done|].
      unfold script_names in Hf1, Hn12. rewrite Hsrc in Hf1, Hn12. apply Forall_cons in Hf1 as [(Hp & _) _].
      rewrite (wrote_files _ _ _ W2); [done|done|]. apply into_names, Hn12. by left.
    + rewrite Forall_forall in *. intros f Hin. rewrite H2 by done. by apply Hkeep.
Qed.

(** Files and directories that evaluate. *)
Record MapTree := { tree_files : gmap string (string * bool); tree_dirs : list string }.
Definition write_tree (p : string) (x : string * bool) (t : MapTree) : MapTree :=
  {| tree_files := <[p := x]> (tree_files t); tree_dirs := tree_dirs t |}.
Definition map_perform (ws : list string) (t : MapTree) : option MapTree :=
  match ws with
  | [cmd; a; b] =>
      if String.eqb cmd "mkdir" then if bool_decide (b ∈ tree_dirs t) then Some t else None
      else if String.eqb cmd "cp" then
        x ← tree_files t !! a;
        if bool_decide (b ∈ tree_dirs t) then None
        else if existsb (λ d, String.eqb b (d +:+ "/" +:+ basename b)) (tree_dirs t) then Some (write_tree b x t) else None
      else if String.eqb cmd "chmod" then x ← tree_files t !! b; Some (write_tree b (x.1, true) t)
      else None
  | _ => None
  end.

Lemma basename_into d n : lacks slash n = true → basename (d +:+ "/" +:+ n) = n.
Proof.
  intros Hn. unfold basename. change ("/" +:+ n) with (String slash n). rewrite Split_append.
  cbn [Split]. rewrite Ascii.eqb_refl, (Split_lacks_id n) by done. pose proof (Split_not_nil d slash) as Hd.
  induction (Split d slash) as [|x l IH]; [done|]. destruct l as [|y [|z l]]; [done|exact (IH ltac:(done))..].
Qed.
#[export, program] Instance MapTools : FileTools := {|
  Tree := MapTree; perform := map_perform; entry := λ p t, tree_files t !! p;
  is_dir := λ p t, bool_decide (p ∈ tree_dirs t) |}.
Next Obligation. intros d t Hd. cbn in *. by rewrite Hd. Qed.
Next Obligation.
  intros d n a t x Hl _ _ Hd Hf Ha He. cbn in *. rewrite Ha. cbn. rewrite Hf, (basename_into d n Hl).
  replace (existsb _ (tree_dirs t)) with true.
  - eexists. split_and!; [done| |done|].
    + cbn. by rewrite lookup_insert_eq.
    + intros p _ Hp. cbn. by rewrite lookup_insert_ne.
  - symmetry. apply existsb_exists. exists d. split; [by apply list_elem_of_In; apply bool_decide_eq_true_1 in Hd|apply String.eqb_refl].
Qed.
Next Obligation.
  intros a t content x _ Ha. cbn in *. rewrite Ha. cbn. eexists. split_and!; [done| |done|].
  - cbn. by rewrite lookup_insert_eq.
  - intros p _ Hp. cbn. by rewrite lookup_insert_ne.
Qed.

(** A test with a script and one data file. *)
Definition motd_share : ShareAttrs :=
  {| sh_test_script := Some "tests/motd_test.sh"; sh_data := ["tests/data/expected.txt"] |}.
Definition motd_tree : MapTree :=
  {| tree_files := <["tests/motd_test.sh" := ("grep it /etc/motd", false)]>
       (<["tests/data/expected.txt" := ("it works", false)]> ∅);
     tree_dirs := ["tests"; "bazel-out/bin/tests/motd_share"] |}.

Lemma share_correct_witness :
  ∃ cmds t', sh_and_list (default "" (share_action motd_share "bazel-out/bin/tests/motd_share")) = Some cmds ∧
    run_list cmds motd_tree = Some t' ∧ length cmds = 4 ∧
    entry "bazel-out/bin/tests/motd_share/test.sh" t' = Some ("grep it /etc/motd", true) ∧
    entry "bazel-out/bin/tests/motd_share/expected.txt" t' = Some ("it works", false).
Proof.
  assert (Hfresh : ∀ n, plain_path (into "bazel-out/bin/tests/motd_share" n) = true →
    is_dir (into "bazel-out/bin/tests/motd_share" n) motd_tree = false →
    entry (into "bazel-out/bin/tests/motd_share" n) motd_tree = None →
    fresh motd_tree (into "bazel-out/bin/tests/motd_share" n)) by (intros n H1 H2 H3; exact (conj H1 (conj H2 H3))).
  destruct (@share_correct MapTools motd_share "bazel-out/bin/tests/motd_share" "tests/motd_share" motd_tree)
    as [_ Hc].
  - exact eq_refl.
  - by repeat (apply Forall_cons; split).
  - exact eq_refl.
  - repeat (apply Forall_cons; split); try done; (split; [exact eq_refl|by eexists]).
  - apply NoDup_cons. split; [by intros [=]%list_elem_of_singleton|apply NoDup_singleton].
  - repeat (apply Forall_cons; split); try done; apply Hfresh; exact eq_refl.
  - destruct Hc as (_ & text & cmds & t' & Et & E & R & _ & Hs & Hd); [done|].
    exists cmds, t'. rewrite Et. split; [exact E|]. split; [exact R|].
    destruct (Hs "tests/motd_test.sh" eq_refl) as (content & x & Hx & Hx').
    assert (Hin : entry "tests/motd_test.sh" motd_tree = Some ("grep it /etc/motd", false)) by exact eq_refl.
    rewrite Hin in Hx. injection Hx as <- <-. split; [|split; [exact Hx'|]].
    + vm_compute in Et. injection Et as <-. vm_compute in E. by injection E as <-.
    + apply Forall_cons in Hd as [Hd _]. exact Hd.
Defined.
