(* ===== verification/VmtestConfig.v ===== *)
(** * VmtestConfig: the generated configuration package

    [vmtest_config] (vmtest/config.bzl) writes a Go file whose [init] sets the
    VMTEST_* variables: paths are looked up in the runfiles, other values are
    Go string literals.  The text of the file is read back statement by
    statement, its [init] is run, and [buildVMOptsFromEnv] reads the variables
    (MachineEnv): the theorem is the round trip, from the attributes of the rule
    and the files it carries to the options of the VM.  The literals are written
    without escaping; only values whose bytes stand for themselves in a Go string
    are in scope. *)

From S2P Require Import Prelude GoStrings GoStrconv GoPath BazelFiles VmLib TestWorld ScriptedVm MachineEnv.

(** The attributes of the rule and what it takes from its toolchains; files are
    given by a path. *)
Record ConfigAttrs := {
  t_qemu : option string; t_qemu_img : option string;
  t_ovmf_code : option string; t_ovmf_vars : option string;
  t_machine_type : string; t_accel : string;
  swtpm_info : option Tool; swtpm_setup_info : option Tool;
  a_kernel : option string; a_initrd : option string; a_cmdline : string;
  a_iso : option string; a_ovmf_code : option string; a_ovmf_vars : option string;
  a_disk : option string; a_disk_size : string; a_memory : string; a_cpus : Z; a_tpm : bool;
  a_network : string; a_bridge_name : string; a_port_forwards : list Z;
}.

Definition t_swtpm (a : ConfigAttrs) : option string := tool_executable <$> swtpm_info a.
Definition t_swtpm_setup (a : ConfigAttrs) : option string := tool_executable <$> swtpm_setup_info a.

(** A setting that may be missing. *)
Definition seg (k : string) (o : option string) : list (string * string) :=
  match o with Some v => [(k, v)] | None => [] end.
Definition given (v : string) : option string := if String.eqb v "" then None else Some v.
Definition when (b : bool) {A} (o : option A) : option A := if b then o else None.
Definition or_else {A} (o1 o2 : option A) : option A := match o1 with Some _ => o1 | None => o2 end.

Definition the_ovmf_code (a : ConfigAttrs) : option string :=
  or_else (a_ovmf_code a) (when (negb (bool_decide (is_Some (a_kernel a)))) (t_ovmf_code a)).
Definition the_ovmf_vars (a : ConfigAttrs) : option string :=
  or_else (a_ovmf_vars a) (when (negb (bool_decide (is_Some (a_kernel a)))) (t_ovmf_vars a)).

(** [rlocation_setenvs] and [literal_setenvs]. *)
Definition rlocation_setenvs (a : ConfigAttrs) : list (string * string) :=
  seg "VMTEST_QEMU" (t_qemu a) ++ seg "VMTEST_QEMU_IMG" (t_qemu_img a)
  ++ seg "VMTEST_KERNEL" (a_kernel a) ++ seg "VMTEST_INITRD" (a_initrd a)
  ++ seg "VMTEST_ISO" (a_iso a)
  ++ seg "VMTEST_OVMF_CODE" (the_ovmf_code a) ++ seg "VMTEST_OVMF_VARS" (the_ovmf_vars a)
  ++ seg "VMTEST_DISK" (a_disk a)
  ++ seg "VMTEST_SWTPM" (when (a_tpm a) (t_swtpm a))
  ++ seg "VMTEST_SWTPM_SETUP" (when (a_tpm a) (t_swtpm_setup a)).
Definition port_list (ports : list Z) : string := Join (map fmt_d ports) ",".
Definition literal_setenvs (a : ConfigAttrs) : list (string * string) :=
  seg "VMTEST_CMDLINE" (given (a_cmdline a))
  ++ seg "VMTEST_DISK_SIZE" (when (negb (bool_decide (is_Some (a_disk a)))) (given (a_disk_size a)))
  ++ seg "VMTEST_MEMORY" (Some (a_memory a)) ++ seg "VMTEST_CPUS" (Some (fmt_d (a_cpus a)))
  ++ seg "VMTEST_TPM" (when (a_tpm a) (Some "true"))
  ++ seg "VMTEST_MACHINE_TYPE" (given (t_machine_type a)) ++ seg "VMTEST_ACCEL" (given (t_accel a))
  ++ seg "VMTEST_NETWORK" (Some (a_network a))
  ++ seg "VMTEST_BRIDGE" (when (String.eqb (a_network a) "bridge") (Some (a_bridge_name a)))
  ++ seg "VMTEST_PORT_FORWARDS"
       (match a_port_forwards a with [] => None | ports => Some (port_list ports) end).

(** The attributes with every file, given by its short path, at its runfiles path. *)
Definition rlocated (workspace : string) (a : ConfigAttrs) : ConfigAttrs :=
  let path o := to_rlocationpath workspace <$> o in
  let tool t := {| tool_executable := to_rlocationpath workspace (tool_executable t);
                   tool_runfiles := tool_runfiles t |} in
  {| t_qemu := path (t_qemu a); t_qemu_img := path (t_qemu_img a); t_ovmf_code := path (t_ovmf_code a);
     t_ovmf_vars := path (t_ovmf_vars a); t_machine_type := t_machine_type a; t_accel := t_accel a;
     swtpm_info := tool <$> swtpm_info a; swtpm_setup_info := tool <$> swtpm_setup_info a;
     a_kernel := path (a_kernel a); a_initrd := path (a_initrd a); a_cmdline := a_cmdline a;
     a_iso := path (a_iso a); a_ovmf_code := path (a_ovmf_code a); a_ovmf_vars := path (a_ovmf_vars a);
     a_disk := path (a_disk a); a_disk_size := a_disk_size a; a_memory := a_memory a;
     a_cpus := a_cpus a; a_tpm := a_tpm a; a_network := a_network a;
     a_bridge_name := a_bridge_name a; a_port_forwards := a_port_forwards a |}.
(** [data_files]: the files the target carries, by their short paths. *)
Definition data_files (a : ConfigAttrs) : list string :=
  option_list (t_qemu a) ++ option_list (t_qemu_img a) ++ option_list (a_kernel a)
  ++ option_list (a_initrd a) ++ option_list (a_iso a) ++ option_list (the_ovmf_code a)
  ++ option_list (the_ovmf_vars a) ++ option_list (a_disk a)
  ++ option_list (when (a_tpm a) (t_swtpm a)) ++ option_list (when (a_tpm a) (t_swtpm_setup a)).

(** What a list of settings gives a key: the last one counts. *)
Fixpoint assoc (k : string) (l : list (string * string)) : option string :=
  match l with
  | [] => None
  | (k', v) :: l' => or_else (assoc k l') (if String.eqb k' k then Some v else None)
  end.
Lemma assoc_app k l1 l2 : assoc k (l1 ++ l2) = or_else (assoc k l2) (assoc k l1).
Proof.
  induction l1 as [|[k' v] l1 IH]; cbn; [by destruct (assoc k l2)|]. rewrite IH.
  by destruct (assoc k l2).
Qed.
Lemma assoc_seg k k' o : assoc k (seg k' o) = if String.eqb k' k then o else None.
Proof. destruct o; cbn; by destruct (String.eqb k' k). Qed.

Lemma or_else_l {A} (o : option A) : or_else None o = o.
Proof. done. Qed.
Lemma or_else_r {A} (o : option A) : or_else o None = o.
Proof. by destruct o. Qed.

(** Decide every comparison of two literal keys. *)
Ltac decide_keys :=
  rewrite !assoc_app, !assoc_seg;
  cbv beta iota delta [String.eqb Ascii.eqb Bool.eqb andb];
  repeat first [rewrite or_else_l | rewrite or_else_r].

Section Init.
(** [r.Rlocation]: [None] makes the generated [init] panic. *)
Variable Rlocation : string → option string.

(** The value of a Go string literal whose bytes all stand for themselves. *)
Definition literal_byte (c : ascii) : bool := byte_in 32 126 c && negb (is_byte 34 c || is_byte 92 c).
Definition go_literal (v : string) : option string := if all_chars literal_byte v then Some v else None.

Fixpoint set_all (read : string → option string) (l : list (string * string))
    (env : gmap string string) : option (gmap string string) :=
  match l with
  | [] => Some env
  | (k, v) :: l' => x ← read v; set_all read l' (<[k := x]> env)
  end.
(** Whatever reads the literals. *)
Definition init_with (literal : string → option string) (a : ConfigAttrs)
    (env : gmap string string) : option (gmap string string) :=
  env1 ← set_all Rlocation (rlocation_setenvs a) env; set_all literal (literal_setenvs a) env1.
Definition init : ConfigAttrs → gmap string string → option (gmap string string) :=
  init_with go_literal.

(** ** What the attributes mean *)

Definition located (o : option string) (f : string → VmOption) : list VmOption :=
  match o ≫= Rlocation with Some p => [f p] | None => [] end.
Definition located_path (o : option string) : string := default "" (o ≫= Rlocation).

Definition config_options (a : ConfigAttrs) : list VmOption :=
  located (t_qemu a) WithQemuBinary ++ located (t_qemu_img a) WithQemuImg
  ++ when_set (t_machine_type a) (WithMachineType (t_machine_type a))
  ++ when_set (t_accel a) (WithAccel (t_accel a))
  ++ located (a_kernel a) (λ k, WithKernelBoot k (located_path (a_initrd a)) (a_cmdline a))
  ++ match the_ovmf_code a, the_ovmf_vars a with
     | Some c, Some v => [WithUEFI (located_path (Some c)) (located_path (Some v))]
     | _, _ => []
     end
  ++ located (a_iso a) WithISO
  ++ located (a_disk a) WithExistingDisk
  ++ (if bool_decide (is_Some (a_disk a)) then []
      else when_set (a_disk_size a) (WithDisk (a_disk_size a)))
  ++ when_set (a_memory a) (WithMemory (a_memory a))
  ++ [WithCPUs (a_cpus a)]
  ++ (if a_tpm a then
        match t_swtpm a, t_swtpm_setup a with
        | Some s, Some t => [WithTPM (located_path (Some s)) (located_path (Some t))]
        | _, _ => []
        end
      else [])
  ++ (if String.eqb (a_network a) "none" then [WithNoNetwork]
      else if String.eqb (a_network a) "bridge" then [] else [WithUserNet])
  ++ map WithPortForward (a_port_forwards a).

(** ** Lemmas *)

Lemma set_all_lookup read l env env' k :
  set_all read l env = Some env' →
  env' !! k = match assoc k l with Some v => read v | None => env !! k end.
Proof.
  revert env. induction l as [|[k' v] l IH]; intros env; cbn; [by intros [= <-]|].
  destruct (read v) as [x|] eqn:Ex; cbn; [|done]. intros H. rewrite (IH _ H).
  destruct (assoc k l); cbn; [done|]. destruct (String.eqb_spec k' k) as [->|Hne].
  - by rewrite lookup_insert_eq.
  - by rewrite lookup_insert_ne.
Qed.

Lemma set_all_reads read l env env' k v :
  set_all read l env = Some env' → assoc k l = Some v → is_Some (read v).
Proof.
  revert env. induction l as [|[k' v'] l IH]; intros env; cbn; [done|].
  destruct (read v') as [x|] eqn:Ex; cbn; [|done]. intros H.
  destruct (assoc k l) as [y|] eqn:Ea; cbn.
  - intros [= <-]. by eapply IH.
  - destruct (String.eqb k' k); [|done]. intros [= <-]. by rewrite Ex.
Qed.

Definition unset (env : gmap string string) : Prop :=
  ∀ k, HasPrefix k "VMTEST_" = true → env !! k = None.

Variable literal : string → option string.
Hypothesis literal_text : ∀ v x, literal v = Some x → x = v.

(** The value a test sees for a key: a literal, else a located path. *)
Lemma init_value a env env' k :
  init_with literal a env = Some env' → unset env → HasPrefix k "VMTEST_" = true →
  Getenv env' k = default "" (or_else (assoc k (literal_setenvs a))
                                (assoc k (rlocation_setenvs a) ≫= Rlocation)).
Proof.
  unfold init_with. destruct (set_all Rlocation (rlocation_setenvs a) env) as [env1|] eqn:E1; cbn; [|done].
  intros E2 Hu Hk. unfold Getenv. rewrite (set_all_lookup _ _ _ _ _ E2).
  destruct (assoc k (literal_setenvs a)) as [v|] eqn:Ea; cbn.
  - destruct (set_all_reads _ _ _ _ _ _ E2 Ea) as [x Hx].
    rewrite Hx. cbn. by apply literal_text.
  - rewrite (set_all_lookup _ _ _ _ _ E1). destruct (assoc k (rlocation_setenvs a)); [done|].
    by rewrite Hu.
Qed.
Lemma init_located a env env' k p :
  init_with literal a env = Some env' → assoc k (rlocation_setenvs a) = Some p → is_Some (Rlocation p).
Proof.
  unfold init_with. destruct (set_all Rlocation (rlocation_setenvs a) env) as [env1|] eqn:E1; cbn; [|done].
  intros _. by apply set_all_reads with (1 := E1).
Qed.

Hypothesis Rlocation_not_empty : ∀ p x, Rlocation p = Some x → x ≠ "".

Lemma when_set_located o f : when_set (located_path o) (f (located_path o)) = located o f.
Proof.
  unfold when_set, located_path, located. destruct (o ≫= Rlocation) as [x|] eqn:E; cbn; [|done].
  apply bind_Some in E as (p & _ & E). apply Rlocation_not_empty in E. by apply String.eqb_neq in E as ->.
Qed.
Lemma given_default v : default "" (given v) = v.
Proof. unfold given. by destruct (String.eqb_spec v ""). Qed.

Lemma located_path_empty o :
  (∀ p, o = Some p → is_Some (Rlocation p)) →
  String.eqb (located_path o) "" = negb (bool_decide (is_Some o)).
Proof.
  intros Ho. unfold located_path. destruct o as [p|]; [|done]. cbn.
  destruct (Ho p eq_refl) as [x Hx]. rewrite Hx. cbn. by apply String.eqb_neq, (Rlocation_not_empty p).
Qed.

Lemma parse_port_list ports :
  Forall is_int ports → parse_ports (map fmt_d ports) = Ok (map WithPortForward ports).
Proof.
  induction 1 as [|p ports Hp Hports IH]; [done|]. cbn [map parse_ports].
  by rewrite TrimSpace_visible, Atoi_fmt_d, IH by (done || apply fmt_d_visible).
Qed.
Lemma Split_port_list ports : ports ≠ [] → Split (port_list ports) "," = map fmt_d ports.
Proof.
  intros Hn. unfold port_list. apply Split_Join; [by destruct ports|].
  apply Forall_forall. intros x Hx. apply list_elem_of_In, in_map_iff in Hx as (p & <- & _).
  by apply fmt_d_lacks.
Qed.
Lemma port_list_not_empty ports : ports ≠ [] → port_list ports ≠ "".
Proof.
  intros Hn. unfold port_list. destruct ports as [|p ports]; [done|]. cbn.
  pose proof (fmt_d_not_empty p). destruct (map fmt_d ports); [done|]. by destruct (fmt_d p).
Qed.

Section Values.
Variables (a : ConfigAttrs) (env env' : gmap string string).
Hypotheses (Hinit : init_with literal a env = Some env') (Hunset : unset env).

Ltac value := unfold located_path; rewrite (init_value a env env') by done;
  unfold literal_setenvs, rlocation_setenvs; decide_keys;
  change (None ≫= Rlocation) with (@None string); rewrite ?or_else_r; try done.

Lemma value_qemu : Getenv env' "VMTEST_QEMU" = located_path (t_qemu a).
Proof. value. Qed.
Lemma value_qemu_img : Getenv env' "VMTEST_QEMU_IMG" = located_path (t_qemu_img a).
Proof. value. Qed.
Lemma value_kernel : Getenv env' "VMTEST_KERNEL" = located_path (a_kernel a).
Proof. value. Qed.
Lemma value_initrd : Getenv env' "VMTEST_INITRD" = located_path (a_initrd a).
Proof. value. Qed.
Lemma value_iso : Getenv env' "VMTEST_ISO" = located_path (a_iso a).
Proof. value. Qed.
Lemma value_code : Getenv env' "VMTEST_OVMF_CODE" = located_path (the_ovmf_code a).
Proof. value. Qed.
Lemma value_vars : Getenv env' "VMTEST_OVMF_VARS" = located_path (the_ovmf_vars a).
Proof. value. Qed.
Lemma value_disk : Getenv env' "VMTEST_DISK" = located_path (a_disk a).
Proof. value. Qed.
Lemma value_swtpm : Getenv env' "VMTEST_SWTPM" = located_path (when (a_tpm a) (t_swtpm a)).
Proof. value. Qed.
Lemma value_setup : Getenv env' "VMTEST_SWTPM_SETUP" = located_path (when (a_tpm a) (t_swtpm_setup a)).
Proof. value. Qed.
Lemma value_cmdline : Getenv env' "VMTEST_CMDLINE" = a_cmdline a.
Proof. value. apply given_default. Qed.
Lemma value_disk_size : Getenv env' "VMTEST_DISK_SIZE"
  = if bool_decide (is_Some (a_disk a)) then "" else a_disk_size a.
Proof. value. destruct (bool_decide _); [done|]. apply given_default. Qed.
Lemma value_memory : Getenv env' "VMTEST_MEMORY" = a_memory a.
Proof. value. Qed.
Lemma value_cpus : Getenv env' "VMTEST_CPUS" = fmt_d (a_cpus a).
Proof. value. Qed.
Lemma value_tpm : Getenv env' "VMTEST_TPM" = if a_tpm a then "true" else "".
Proof. value. by destruct (a_tpm a). Qed.
Lemma value_machine : Getenv env' "VMTEST_MACHINE_TYPE" = t_machine_type a.
Proof. value. apply given_default. Qed.
Lemma value_accel : Getenv env' "VMTEST_ACCEL" = t_accel a.
Proof. value. apply given_default. Qed.
Lemma value_network : Getenv env' "VMTEST_NETWORK" = a_network a.
Proof. value. Qed.
Lemma value_ports : Getenv env' "VMTEST_PORT_FORWARDS"
  = match a_port_forwards a with [] => "" | ports => port_list ports end.
Proof. value. by destruct (a_port_forwards a). Qed.

(** Paths that are given are located, or [init] would have panicked. *)
Lemma located_code p : the_ovmf_code a = Some p → is_Some (Rlocation p).
Proof. intros Hp. apply (init_located a env env' "VMTEST_OVMF_CODE"); [done|]. unfold rlocation_setenvs. decide_keys. done. Qed.
Lemma located_vars p : the_ovmf_vars a = Some p → is_Some (Rlocation p).
Proof. intros Hp. apply (init_located a env env' "VMTEST_OVMF_VARS"); [done|]. unfold rlocation_setenvs. decide_keys. done. Qed.
Lemma located_swtpm p : when (a_tpm a) (t_swtpm a) = Some p → is_Some (Rlocation p).
Proof. intros Hp. apply (init_located a env env' "VMTEST_SWTPM"); [done|]. unfold rlocation_setenvs. decide_keys. done. Qed.
Lemma located_setup p : when (a_tpm a) (t_swtpm_setup a) = Some p → is_Some (Rlocation p).
Proof. intros Hp. apply (init_located a env env' "VMTEST_SWTPM_SETUP"); [done|]. unfold rlocation_setenvs. decide_keys. done. Qed.

Lemma boot_options_value :
  boot_options env'
  = located (t_qemu a) WithQemuBinary ++ located (t_qemu_img a) WithQemuImg
    ++ when_set (t_machine_type a) (WithMachineType (t_machine_type a))
    ++ when_set (t_accel a) (WithAccel (t_accel a))
    ++ located (a_kernel a) (λ k, WithKernelBoot k (located_path (a_initrd a)) (a_cmdline a))
    ++ match the_ovmf_code a, the_ovmf_vars a with
       | Some c, Some v => [WithUEFI (located_path (Some c)) (located_path (Some v))]
       | _, _ => []
       end
    ++ located (a_iso a) WithISO ++ located (a_disk a) WithExistingDisk
    ++ (if bool_decide (is_Some (a_disk a)) then []
        else when_set (a_disk_size a) (WithDisk (a_disk_size a)))
    ++ when_set (a_memory a) (WithMemory (a_memory a)).
Proof.
  unfold boot_options. cbv zeta.
  rewrite value_qemu, value_qemu_img, value_machine, value_accel, value_kernel, value_initrd,
    value_cmdline, value_code, value_vars, value_iso, value_disk, value_disk_size, value_memory.
  rewrite !when_set_located.
  rewrite (when_set_located (a_kernel a) (λ k, WithKernelBoot k (located_path (a_initrd a)) (a_cmdline a))).
  rewrite (located_path_empty (the_ovmf_code a)) by apply located_code.
  rewrite (located_path_empty (the_ovmf_vars a)) by apply located_vars.
  do 5 f_equal. f_equal; [by destruct (the_ovmf_code a), (the_ovmf_vars a)|]. do 2 f_equal.
  by destruct (bool_decide (is_Some (a_disk a))).
Qed.

Lemma tpm_options_value :
  tpm_options env' = if a_tpm a then
      match t_swtpm a, t_swtpm_setup a with
      | Some s, Some t => [WithTPM (located_path (Some s)) (located_path (Some t))]
      | _, _ => []
      end
    else [].
Proof.
  unfold tpm_options. cbv zeta. rewrite value_tpm, value_swtpm, value_setup.
  rewrite (located_path_empty (when (a_tpm a) (t_swtpm a))) by apply located_swtpm.
  rewrite (located_path_empty (when (a_tpm a) (t_swtpm_setup a))) by apply located_setup.
  destruct (a_tpm a); [|done]. by destruct (t_swtpm a), (t_swtpm_setup a).
Qed.
End Values.
End Init.

(** Read back, whatever reads the literals. *)
Lemma settings_roundtrip Rlocation literal a env env' :
  (∀ p x, Rlocation p = Some x → x ≠ "") → (∀ v x, literal v = Some x → x = v) →
  init_with Rlocation literal a env = Some env' → unset env →
  is_int (a_cpus a) → Forall is_int (a_port_forwards a) →
  a_network a ∈ ["user"; "bridge"; "none"] →
  env_options env' = Ok (config_options Rlocation a).
Proof.
  intros Hr Hlit Hi Hu Hc Hp Hn. unfold env_options, config_options. cbv zeta.
  rewrite (boot_options_value Rlocation literal Hlit Hr a env), (tpm_options_value Rlocation literal Hlit Hr a env) by done.
  rewrite (value_cpus Rlocation literal Hlit a env), (value_ports Rlocation literal Hlit a env),
    (value_network Rlocation literal Hlit a env) by done.
  unfold parse_cpus. destruct (String.eqb_spec (fmt_d (a_cpus a)) "") as [E|_];
    [by apply fmt_d_not_empty in E|].
  rewrite Atoi_fmt_d by done.
  assert (Hm : network_options (a_network a)
    = if String.eqb (a_network a) "none" then [WithNoNetwork]
      else if String.eqb (a_network a) "bridge" then [] else [WithUserNet]).
  { rewrite !elem_of_cons, elem_of_nil in Hn. by destruct Hn as [->|[->|[->|[]]]]. }
  rewrite Hm. destruct (a_port_forwards a) as [|p ports] eqn:Ep.
  - cbn [String.eqb map]. rewrite <- !app_assoc, app_nil_r. by rewrite <- ?app_assoc.
  - destruct (String.eqb_spec (port_list (p :: ports)) "") as [E|_]; [by apply port_list_not_empty in E|].
    rewrite Split_port_list, parse_port_list by done. by rewrite <- !app_assoc.
Qed.

Lemma set_all_total read l env :
  Forall (λ x, is_Some (read x.2)) l → is_Some (set_all read l env).
Proof.
  revert env. induction l as [|[k v] l IH]; intros env Hl; [by eexists|].
  apply Forall_cons in Hl as [[x Hx] Hl]. cbn in *. rewrite Hx. cbn. by apply IH.
Qed.

(** Every path [init] looks up is the path of a file the target carries. *)
Lemma rlocated_swtpm ws a : t_swtpm (rlocated ws a) = to_rlocationpath ws <$> t_swtpm a.
Proof. unfold t_swtpm. cbn. by destruct (swtpm_info a). Qed.
Lemma rlocated_setup ws a : t_swtpm_setup (rlocated ws a) = to_rlocationpath ws <$> t_swtpm_setup a.
Proof. unfold t_swtpm_setup. cbn. by destruct (swtpm_setup_info a). Qed.
Lemma rlocated_paths ws a :
  map snd (rlocation_setenvs (rlocated ws a)) = map (to_rlocationpath ws) (data_files a).
Proof.
  unfold rlocation_setenvs, data_files. rewrite !map_app.
  assert (Hseg : ∀ k o, map snd (seg k (to_rlocationpath ws <$> o)) = map (to_rlocationpath ws) (option_list o))
    by (by intros k []).
  assert (Hor : ∀ o1 o2 : option string, or_else (to_rlocationpath ws <$> o1) (to_rlocationpath ws <$> o2)
    = to_rlocationpath ws <$> or_else o1 o2) by (by intros []).
  assert (Hwhen : ∀ b (o : option string), when b (to_rlocationpath ws <$> o) = to_rlocationpath ws <$> when b o)
    by (by intros []).
  assert (Hk : bool_decide (is_Some (a_kernel (rlocated ws a))) = bool_decide (is_Some (a_kernel a)))
    by (cbn; by destruct (a_kernel a)).
  unfold the_ovmf_code, the_ovmf_vars. rewrite Hk, rlocated_swtpm, rlocated_setup.
  cbn [rlocated t_qemu t_qemu_img a_kernel a_initrd a_iso a_ovmf_code t_ovmf_code a_ovmf_vars t_ovmf_vars
    a_disk a_tpm].
  by rewrite !Hwhen, !Hor, !Hseg.
Qed.
Lemma rlocated_literals ws a : literal_setenvs (rlocated ws a) = literal_setenvs a.
Proof. unfold literal_setenvs. cbn. by destruct (a_disk a). Qed.

(** With its files in the runfiles and its values readable, [init] does not panic. *)
Lemma rlocated_init Rlocation literal ws a env :
  Forall (λ f, is_Some (Rlocation (to_rlocationpath ws f))) (data_files a) →
  Forall (λ x, is_Some (literal x.2)) (literal_setenvs a) →
  is_Some (init_with Rlocation literal (rlocated ws a) env).
Proof.
  intros Hf Hl. unfold init_with. destruct (set_all_total Rlocation (rlocation_setenvs (rlocated ws a)) env) as [env1 ->].
  - apply (Forall_map snd (λ p, is_Some (Rlocation p))). change (snd <$> ?l) with (map snd l).
    rewrite rlocated_paths. by apply Forall_map.
  - cbn. apply set_all_total. by rewrite rlocated_literals.
Qed.

(** ** Examples *)

(** A kernel under test with two forwarded ports, its files in a runfiles tree. *)
Definition kernel_rule : ConfigAttrs := {|
  t_qemu := Some "qemu/bin"; t_qemu_img := Some "qemu/img"; t_ovmf_code := Some "ovmf/code";
  t_ovmf_vars := Some "ovmf/vars"; t_machine_type := "q35"; t_accel := "kvm";
  swtpm_info := Some {| tool_executable := "../swtpm+/bin/swtpm"; tool_runfiles := Some ["../swtpm+/lib/libtpms.so"] |};
  swtpm_setup_info := Some {| tool_executable := "../swtpm+/bin/swtpm_setup"; tool_runfiles := None |};
  a_kernel := Some "kernel/vmlinuz"; a_initrd := Some "kernel/initrd"; a_cmdline := "console=ttyS0";
  a_iso := None; a_ovmf_code := None; a_ovmf_vars := None; a_disk := None; a_disk_size := "";
  a_memory := "1G"; a_cpus := 4; a_tpm := true; a_network := "user"; a_bridge_name := "mltt-br0";
  a_port_forwards := [22; 8080]%Z |}.
Definition runfiles_tree (p : string) : option string := Some ("/runfiles/" +:+ p).
