(* ===== verification/ConfigSource.v ===== *)
(** * ConfigSource: the Go file of vmtest_config

    vmtest/config.bzl, lines 98-173: the text of the file, and the whole
    implementation of the rule with the runfiles its target carries.  The text is
    read back as the Go compiler reads it, as far as the rule writes it: the
    package clause and the statements of [init], which are then run against the
    runfiles of a test. *)

From S2P Require Import Prelude GoStrings GoStrconv GoPath BazelFiles VmLib TestWorld ScriptedVm MachineEnv.
From S2P Require Import VmtestConfig.

(** Source lines are written here with a grave accent for each double quote. *)
Definition dquoted (s : string) : string := ReplaceAll s "`" (String dquote "").
Definition tab : string := String "009" "".
(** A Go string literal, as the rule writes it. *)
Definition in_quotes (v : string) : string := String dquote (v +:+ String dquote "").

Definition new_line : string := tab +:+ "r, err := runfiles.New()".
Definition check_line : string := tab +:+ dquoted "if err != nil { panic(`vmtest: ` + err.Error()) }".
Definition must_line (x : string * string) : string :=
  tab +:+ "vmtestMustSetenv(r, " +:+ in_quotes x.1 +:+ ", " +:+ in_quotes x.2 +:+ ")".
Definition setenv_line (x : string * string) : string :=
  tab +:+ "os.Setenv(" +:+ in_quotes x.1 +:+ ", " +:+ in_quotes x.2 +:+ ")".
(** [init_lines]: the runfiles are opened when there is something to look up. *)
Definition init_lines (rlocations literals : list (string * string)) : list string :=
  match rlocations with
  | [] => []
  | _ => [new_line; check_line] ++ map must_line rlocations
  end ++ map setenv_line literals.

Definition source_head (pkg : string) : list string :=
  ["package " +:+ pkg; ""; "import ("; tab +:+ dquoted "`os`"; tab +:+ dquoted "`testing`"; "";
   tab +:+ dquoted "`github.com/bazelbuild/rules_go/go/runfiles`";
   tab +:+ dquoted "`github.com/mikn/rules_vmtest/machine`"; ")"; ""].
Definition source_tail : list string :=
  [""; "func vmtestMustSetenv(r *runfiles.Runfiles, key, rlocationPath string) {";
   tab +:+ "p, err := r.Rlocation(rlocationPath)";
   tab +:+ dquoted "if err != nil { panic(`vmtest: ` + key + `: ` + err.Error()) }";
   tab +:+ "os.Setenv(key, p)"; "}"; "";
   "// New boots a VM configured by this package.";
   "func New(t testing.TB, opts ...machine.Option) *machine.Machine {";
   tab +:+ "return machine.New(t, opts...)"; "}"; "";
   "// Re-exports for convenience."; "type (";
   tab +:+ "Machine     = machine.Machine"; tab +:+ "Option      = machine.Option";
   tab +:+ "RetryOption = machine.RetryOption"; ")"; ""; "var (";
   tab +:+ "WithRetryTimeout  = machine.WithRetryTimeout"; tab +:+ "WithRetryInterval = machine.WithRetryInterval";
   tab +:+ "WithUserNetwork   = machine.WithUserNetwork"; tab +:+ "WithVMOption      = machine.WithVMOption";
   tab +:+ "WithPortForward   = machine.WithPortForward"; ")"; ""].
(** [content]. *)
Definition go_source (pkg : string) (lines : list string) : string :=
  Join (source_head pkg ++ ["func init() {"; Join lines newline_s; "}"] ++ source_tail) newline_s.

(** The macro takes the package name from the import path. *)
Definition package_of (importpath : string) : string := List.last (Split importpath slash) "".

(** The file, and the runfiles of the target. *)
Definition vmtest_config_impl (ws pkg : string) (a : ConfigAttrs) : result string (string * list string) :=
  let source := go_source pkg (init_lines (rlocation_setenvs (rlocated ws a)) (literal_setenvs a)) in
  match swtpm_runfiles (a_tpm a) (swtpm_info a) (swtpm_setup_info a) with
  | Ok fs => Ok (source, data_files a ++ fs)
  | Err e => Err e
  end.

(** ** Reading and running the file *)

Inductive go_stmt :=
| RunfilesNew
| PanicOnError
| MustSetenv (key rlocation : string)
| Setenv (key value : string).

Fixpoint strip (p s : string) : option string :=
  match p, s with
  | EmptyString, _ => Some s
  | String a p', String b s' => if Ascii.eqb a b then strip p' s' else None
  | _, _ => None
  end.
(** A string literal without escapes, and what follows it. *)
Fixpoint literal_text (s : string) : option (string * string) :=
  match s with
  | String a s' =>
      if Ascii.eqb a dquote then Some (EmptyString, s')
      else if literal_byte a
      then match literal_text s' with Some (v, r) => Some (String a v, r) | None => None end
      else None
  | EmptyString => None
  end.
Definition read_literal (s : string) : option (string * string) :=
  rest ← strip (String dquote "") s; literal_text rest.
(** Two literals, a comma between them, up to the end of the call. *)
Definition two_literals (s : string) : option (string * string) :=
  match read_literal s with
  | Some (k, s1) =>
      match strip ", " s1 with
      | Some s2 =>
          match read_literal s2 with
          | Some (v, s3) => if String.eqb s3 ")" then Some (k, v) else None
          | None => None
          end
      | None => None
      end
  | None => None
  end.
Definition read_stmt (line : string) : option go_stmt :=
  if String.eqb line new_line then Some RunfilesNew
  else if String.eqb line check_line then Some PanicOnError
  else match strip (tab +:+ "vmtestMustSetenv(r, ") line with
       | Some s => '(k, v) ← two_literals s; Some (MustSetenv k v)
       | None =>
           match strip (tab +:+ "os.Setenv(") line with
           | Some s => '(k, v) ← two_literals s; Some (Setenv k v)
           | None => None
           end
       end.

Fixpoint after_line (x : string) (l : list string) : option (list string) :=
  match l with [] => None | y :: l' => if String.eqb y x then Some l' else after_line x l' end.
Fixpoint until_line (x : string) (l : list string) : option (list string) :=
  match l with
  | [] => None
  | y :: l' => if String.eqb y x then Some [] else option_map (cons y) (until_line x l')
  end.
(** The package of a file and the statements of its [init]. *)
Definition read_source (text : string) : option (string * list go_stmt) :=
  match Split text newline with
  | first :: lines =>
      pkg ← strip "package " first;
      rest ← after_line "func init() {" lines;
      body ← until_line "}" rest;
      stmts ← mapM read_stmt body;
      Some (pkg, stmts)
  | [] => None
  end.

Section Run.
(** What [runfiles.New] gives, and its [Rlocation]; [None] is an error. *)
Variable New : option (string → option string).

(** [None]: a panic.  [r]: the runfiles, once they are opened. *)
Fixpoint run_stmts (r : option (string → option string)) (l : list go_stmt) (env : gmap string string)
    : option (gmap string string) :=
  match l with
  | [] => Some env
  | RunfilesNew :: l' => run_stmts New l' env
  | PanicOnError :: l' => match r with Some _ => run_stmts r l' env | None => None end
  | MustSetenv k p :: l' => Rlocation ← r; x ← Rlocation p; run_stmts r l' (<[k := x]> env)
  | Setenv k v :: l' => run_stmts r l' (<[k := v]> env)
  end.
Definition run_init (text : string) (env : gmap string string) : option (gmap string string) :=
  '(_, stmts) ← read_source text; run_stmts None stmts env.
End Run.

(** ** Lemmas *)

Lemma strip_append p s : strip p (p +:+ s) = Some s.
Proof.
  induction p as [|a p IH]; [done|]. change (String a p +:+ s) with (String a (p +:+ s)). cbn [strip].
  by rewrite Ascii.eqb_refl.
Qed.

Lemma read_literal_quoted v rest :
  all_chars literal_byte v = true → read_literal (in_quotes v +:+ rest) = Some (v, rest).
Proof.
  intros Hv. unfold read_literal, in_quotes. change (strip (String dquote "") (String dquote ?s +:+ ?r)) with (strip "" (s +:+ r)).
  cbn [strip mbind option_bind]. induction v as [|a v IH]; [done|]. cbn [all_chars] in Hv.
  apply andb_true_iff in Hv as [Ha Hv].
  change ((String a v +:+ String dquote "") +:+ rest) with (String a ((v +:+ String dquote "") +:+ rest)).
  cbn [literal_text]. destruct (Ascii.eqb_spec a dquote) as [->|_]; [done|]. by rewrite Ha, IH.
Qed.
Lemma two_literals_quoted k v :
  all_chars literal_byte k = true → all_chars literal_byte v = true →
  two_literals (in_quotes k +:+ ", " +:+ in_quotes v +:+ ")") = Some (k, v).
Proof. intros Hk Hv. unfold two_literals. by rewrite read_literal_quoted, strip_append, read_literal_quoted. Qed.

Definition literal_pair (x : string * string) : bool := all_chars literal_byte x.1 && all_chars literal_byte x.2.
Lemma read_must x : literal_pair x = true → read_stmt (must_line x) = Some (MustSetenv x.1 x.2).
Proof.
  intros [Hk Hv]%andb_true_iff. unfold read_stmt, must_line.
  change (String.eqb (tab +:+ "vmtestMustSetenv(r, " +:+ ?r) new_line) with false.
  change (String.eqb (tab +:+ "vmtestMustSetenv(r, " +:+ ?r) check_line) with false. cbv iota.
  rewrite <- (append_assoc tab), strip_append. by rewrite two_literals_quoted.
Qed.
Lemma read_setenv x : literal_pair x = true → read_stmt (setenv_line x) = Some (Setenv x.1 x.2).
Proof.
  intros [Hk Hv]%andb_true_iff. unfold read_stmt, setenv_line.
  change (String.eqb (tab +:+ "os.Setenv(" +:+ ?r) new_line) with false.
  change (String.eqb (tab +:+ "os.Setenv(" +:+ ?r) check_line) with false.
  change (strip (tab +:+ "vmtestMustSetenv(r, ") (tab +:+ "os.Setenv(" +:+ ?r)) with (@None string). cbv iota.
  rewrite <- (append_assoc tab), strip_append. by rewrite two_literals_quoted.
Qed.

(** A line the rule writes: one line, not a lone brace, read as this statement. *)
Definition source_line (l : string) (st : go_stmt) : Prop :=
  lacks newline l = true ∧ l ≠ "}" ∧ read_stmt l = Some st.
Definition init_stmts (rlocations literals : list (string * string)) : list go_stmt :=
  match rlocations with
  | [] => []
  | _ => [RunfilesNew; PanicOnError] ++ map (λ x, MustSetenv x.1 x.2) rlocations
  end ++ map (λ x, Setenv x.1 x.2) literals.

Lemma literal_lacks_newline v : all_chars literal_byte v = true → lacks newline v = true.
Proof.
  apply all_chars_impl. intros c Hc. apply negb_true_iff, Ascii.eqb_neq. intros ->. by vm_compute in Hc.
Qed.
Lemma quoted_lacks v : all_chars literal_byte v = true → lacks newline (in_quotes v) = true.
Proof.
  intros Hv. unfold in_quotes. change (lacks newline (String dquote ?r)) with (lacks newline r).
  by rewrite lacks_append, literal_lacks_newline.
Qed.
Lemma call_lacks p x : lacks newline p = true → literal_pair x = true →
  lacks newline (p +:+ in_quotes x.1 +:+ ", " +:+ in_quotes x.2 +:+ ")") = true.
Proof. intros Hp [Hk Hv]%andb_true_iff. by rewrite !lacks_append, Hp, !quoted_lacks. Qed.
Lemma must_source_line x : literal_pair x = true → source_line (must_line x) (MustSetenv x.1 x.2).
Proof.
  intros Hx. split_and!; [|done|by apply read_must]. unfold must_line. rewrite <- (append_assoc tab).
  by apply call_lacks.
Qed.
Lemma setenv_source_line x : literal_pair x = true → source_line (setenv_line x) (Setenv x.1 x.2).
Proof.
  intros Hx. split_and!; [|done|by apply read_setenv]. unfold setenv_line. rewrite <- (append_assoc tab).
  by apply call_lacks.
Qed.
Lemma init_source_lines rl lit :
  Forall (λ x, literal_pair x = true) rl → Forall (λ x, literal_pair x = true) lit →
  Forall2 source_line (init_lines rl lit) (init_stmts rl lit).
Proof.
  intros Hr Hl. apply Forall2_app.
  - destruct Hr as [|x rl Hx Hr]; [done|]. do 2 (constructor; [by split_and!|]).
    apply Forall2_fmap_2, Forall_Forall2_diag. constructor; [by apply must_source_line|].
    eapply Forall_impl; [exact Hr|]. apply must_source_line.
  - apply Forall2_fmap_2, Forall_Forall2_diag. eapply Forall_impl; [exact Hl|]. apply setenv_source_line.
Qed.

Lemma Split_both a b c : Split (a +:+ String c b) c = Split a c ++ Split b c.
Proof.
  induction a as [|x a IH]; [change ("" +:+ ?r) with r; cbn [Split]; by rewrite Ascii.eqb_refl|].
  change (String x a +:+ ?r) with (String x (a +:+ r)). cbn [Split]. rewrite IH.
  pose proof (Split_not_nil a c) as Hn. destruct (Ascii.eqb x c); [done|]. by destruct (Split a c).
Qed.
Lemma Split_Join_parts l c : l ≠ [] → Split (Join l (String c "")) c = List.concat (map (λ x, Split x c) l).
Proof.
  induction l as [|x l IH]; [done|]. intros _. destruct l as [|y l]; [cbn; by rewrite app_nil_r|].
  change (Join (x :: y :: l) (String c "")) with (x +:+ String c (Join (y :: l) (String c ""))).
  by rewrite Split_both, IH.
Qed.
Lemma Split_parts_id l : Forall (λ x, lacks newline x = true) l → List.concat (map (λ x, Split x newline) l) = l.
Proof. induction 1 as [|x l Hx Hl IH]; [done|]. cbn. by rewrite Split_lacks_id, IH. Qed.

Lemma go_source_lines pkg lines :
  lacks newline pkg = true → lines ≠ [] → Forall (λ x, lacks newline x = true) lines →
  Split (go_source pkg lines) newline
  = ("package " +:+ pkg) :: List.tl (source_head pkg) ++ "func init() {" :: lines ++ "}" :: source_tail.
Proof.
  intros Hp Hn Hl. unfold go_source, newline_s. rewrite Split_Join_parts by done.
  rewrite !map_app, !List.concat_app. rewrite Split_parts_id, (Split_parts_id source_tail).
  - change (List.concat (map ?f ["func init() {"; ?x; "}"])) with ("func init() {" :: Split x newline ++ ["}"]).
    rewrite Split_Join by done. cbn [app]. by rewrite <- app_assoc.
  - by apply (forallb_Forall (lacks newline)).
  - constructor; [by rewrite lacks_append, Hp|]. by apply (forallb_Forall (lacks newline)).
Qed.

Lemma until_line_app x l1 l2 : Forall (λ y, y ≠ x) l1 → until_line x (l1 ++ x :: l2) = Some l1.
Proof.
  induction 1 as [|y l1 Hy Hl IH]; cbn; [by rewrite String.eqb_refl|].
  apply String.eqb_neq in Hy as ->. by rewrite IH.
Qed.
Lemma read_go_source pkg lines stmts :
  lacks newline pkg = true → lines ≠ [] → Forall2 source_line lines stmts →
  read_source (go_source pkg lines) = Some (pkg, stmts).
Proof.
  intros Hp Hn Hl. unfold read_source. rewrite go_source_lines; try done.
  - rewrite strip_append. cbn [mbind option_bind].
    change (after_line "func init() {" (List.tl (source_head pkg) ++ "func init() {" :: ?r)) with (Some r).
    cbn [mbind option_bind]. rewrite until_line_app.
    + cbn [mbind option_bind]. assert (mapM read_stmt lines = Some stmts) as ->; [|done].
      apply mapM_Some. eapply Forall2_impl; [exact Hl|]. by intros l st (_ & _ & ?).
    + induction Hl as [|l st lines stmts (_ & H & _) Hl IH]; [done|]. constructor; [done|].
      destruct lines; [done|]. by apply IH.
  - induction Hl as [|l st lines stmts (H & _) Hl IH]; [done|]. constructor; [done|].
    destruct lines; [done|]. by apply IH.
Qed.

(** Running the statements is running the two lists of settings. *)
Lemma run_setenvs New r lit env :
  Forall (λ x, literal_pair x = true) lit →
  run_stmts New r (map (λ x, Setenv x.1 x.2) lit) env = set_all go_literal lit env.
Proof.
  intros Hl. revert env. induction Hl as [|[k v] lit Hx Hl IH]; intros env; [done|].
  apply andb_true_iff in Hx as [_ Hv]. cbn [snd] in Hv. cbn [map run_stmts set_all fst snd].
  assert (go_literal v = Some v) as -> by (unfold go_literal; by rewrite Hv). apply IH.
Qed.
Lemma run_musts New R rl l env :
  run_stmts New (Some R) (map (λ x, MustSetenv x.1 x.2) rl ++ l) env
  = (env1 ← set_all R rl env; run_stmts New (Some R) l env1).
Proof.
  revert env. induction rl as [|[k v] rl IH]; intros env; [done|].
  cbn [map app run_stmts set_all fst snd mbind option_bind].
  destruct (R v) as [x|]; cbn [mbind option_bind]; [apply IH|done].
Qed.
Lemma run_init_stmts R rl lit env :
  Forall (λ x, literal_pair x = true) lit →
  run_stmts (Some R) None (init_stmts rl lit) env = (env1 ← set_all R rl env; set_all go_literal lit env1).
Proof.
  intros Hl. unfold init_stmts. destruct rl as [|x rl]; [by apply run_setenvs|].
  cbn [app run_stmts]. rewrite run_musts. destruct (set_all R (x :: rl) env) as [env1|]; [|done]. by apply run_setenvs.
Qed.

(** ** Property *)

Lemma keys_literal ws a :
  Forall (λ x, all_chars literal_byte x.1 = true) (rlocation_setenvs (rlocated ws a) ++ literal_setenvs a).
Proof.
  unfold rlocation_setenvs, literal_setenvs. rewrite !Forall_app. split_and!;
    match goal with |- Forall _ (seg _ ?o) => destruct o; [apply Forall_singleton; exact eq_refl|done] end.
Qed.
Lemma literal_setenvs_not_empty a : literal_setenvs a ≠ [].
Proof. unfold literal_setenvs. cbn [seg]. intros H. apply (f_equal length) in H. rewrite !length_app in H. cbn in H. lia. Qed.

Lemma run_go_source R ws pkg a env :
  lacks newline pkg = true →
  Forall (λ x, all_chars literal_byte x.2 = true) (rlocation_setenvs (rlocated ws a) ++ literal_setenvs a) →
  let source := go_source pkg (init_lines (rlocation_setenvs (rlocated ws a)) (literal_setenvs a)) in
  fst <$> read_source source = Some pkg ∧ run_init (Some R) source env = init R (rlocated ws a) env.
Proof.
  intros Hp Hv source. pose proof (keys_literal ws a) as Hk.
  assert (Hb : Forall (λ x, literal_pair x = true) (rlocation_setenvs (rlocated ws a) ++ literal_setenvs a)).
  { rewrite Forall_forall in *. intros x Hx. unfold literal_pair. by rewrite Hk, Hv. }
  apply Forall_app in Hb as [Hr Hl].
  assert (E : read_source source = Some (pkg, init_stmts (rlocation_setenvs (rlocated ws a)) (literal_setenvs a))).
  { apply read_go_source; [done| |by apply init_source_lines]. unfold init_lines. intros [_ H]%app_eq_nil.
    by apply map_eq_nil, literal_setenvs_not_empty in H. }
  unfold run_init. rewrite E. split; [done|]. cbn [mbind option_bind]. rewrite run_init_stmts by done.
  unfold init, init_with. by rewrite rlocated_literals.
Qed.

(** C12: the round trip of the configuration.  The rule fails exactly when it asks
    for a TPM without a toolchain for one of its two tools.  Otherwise, when its
    values and paths need no escape in a Go string, its network mode is known and
    its integers have machine size, its file is the package that the import path
    names, and in every environment with no VMTEST_* variable of its own and
    runfiles that hold what the target carries, the [init] of that file does not
    panic and a test reads back exactly the options the attributes mean: files
    where runfiles put them, firmware only as a pair, a disk before a disk size,
    the TPM with both of its tools, the network mode, every forwarded port in
    order. *)
Theorem config_roundtrip Rlocation ws importpath a env :
  (∀ p x, Rlocation p = Some x → x ≠ "") → lacks newline importpath = true →
  Forall (λ x, all_chars literal_byte x.2 = true) (rlocation_setenvs (rlocated ws a) ++ literal_setenvs a) →
  unset env → is_int (a_cpus a) → Forall is_int (a_port_forwards a) →
  a_network a ∈ ["user"; "bridge"; "none"] →
  match vmtest_config_impl ws (package_of importpath) a with
  | Err _ => has_tools (a_tpm a) (swtpm_info a) (swtpm_setup_info a) = false
  | Ok (source, files) =>
      has_tools (a_tpm a) (swtpm_info a) (swtpm_setup_info a) = true ∧
      fst <$> read_source source = Some (package_of importpath) ∧
      (Forall (λ f, is_Some (Rlocation (to_rlocationpath ws f))) files →
       ∃ env', run_init (Some Rlocation) source env = Some env' ∧
         env_options env' = Ok (config_options Rlocation (rlocated ws a)))
  end.
Proof.
  intros Hr Hi Hv Hu Hc Hp Hn. unfold vmtest_config_impl. rewrite <- swtpm_runfiles_ok.
  destruct (swtpm_runfiles _ _ _) as [fs|e]; [|done]. split; [done|].
  destruct (run_go_source Rlocation ws (package_of importpath) a env) as [E1 E2]; [|done|].
  { unfold package_of. pose proof (Split_chars _ slash importpath Hi) as Hs.
    induction Hs as [|x l Hx Hs IH]; [done|]. by destruct l. }
  split; [done|]. intros [Hf _]%Forall_app. rewrite E2.
  destruct (rlocated_init Rlocation go_literal ws a env Hf) as [env' E].
  - apply Forall_app in Hv as [_ Hv]. eapply Forall_impl; [exact Hv|]. intros x Hx. unfold go_literal. rewrite Hx. by eexists.
  - exists env'. split; [exact E|]. apply (settings_roundtrip _ go_literal _ env); try done.
    intros v x. unfold go_literal. case_match; by intros [= <-].
Qed.

Lemma config_roundtrip_witness :
  ∃ source files env', vmtest_config_impl "_main" (package_of "example.com/tests/vmconfig") kernel_rule = Ok (source, files) ∧
    fst <$> read_source source = Some "vmconfig" ∧ length files = 7 ∧
    run_init (Some runfiles_tree) source ∅ = Some env' ∧
    env_options env' = Ok (config_options runfiles_tree (rlocated "_main" kernel_rule)) ∧
    length (config_options runfiles_tree (rlocated "_main" kernel_rule)) = 11.
Proof.
  pose proof (config_roundtrip runfiles_tree "_main" "example.com/tests/vmconfig" kernel_rule ∅) as H.
  destruct (vmtest_config_impl _ _ _) as [[source files]|e] eqn:E; [|by vm_compute in E].
  destruct H as (_ & Hs & H).
  - intros p x [= <-]. done.
  - exact eq_refl.
  - apply (forallb_Forall (λ x : string * string, all_chars literal_byte x.2)). exact eq_refl.
  - intros k _. apply lookup_empty.
  - by vm_compute.
  - apply Forall_cons; split; [by vm_compute|]. apply Forall_singleton. by vm_compute.
  - by left.
  - destruct H as (env' & Hi & Ho); [apply Forall_forall; intros f _; by eexists|].
    exists source, files, env'. split; [done|]. split; [exact Hs|]. split; [vm_compute in E; by injection E as _ <-|].
    split; [exact Hi|]. split; [exact Ho|exact eq_refl].
Defined.
