(* ===== verification/GoTestRule.v ===== *)
(** * GoTestRule: the rule vm_go_test, from its attributes to the options of the VM

    vmtest/vm_go_test.bzl writes a script that exports the VMTEST_* variables
    and becomes a Go test, whose [New] reads them back (MachineEnv).  The
    attributes are those of VmtestConfig; here files are known by their short
    path, and the values stand between double quotes in a shell script instead of
    a Go file.  The whole script is read and run as bash does (ShellScript). *)

From S2P Require Import Prelude GoStrings GoStrconv GoPath BazelFiles Shell ShellScript VmLib TestWorld ScriptedVm MachineEnv.
From S2P Require Import VmtestConfig.

(** The variables, in the order of the script. *)
Definition go_test_exports (a : ConfigAttrs) : list (string * string) :=
  seg "VMTEST_QEMU" (t_qemu a) ++ seg "VMTEST_QEMU_IMG" (t_qemu_img a)
  ++ seg "VMTEST_KERNEL" (a_kernel a) ++ seg "VMTEST_INITRD" (a_initrd a)
  ++ seg "VMTEST_CMDLINE" (given (a_cmdline a)) ++ seg "VMTEST_ISO" (a_iso a)
  ++ seg "VMTEST_OVMF_CODE" (the_ovmf_code a) ++ seg "VMTEST_OVMF_VARS" (the_ovmf_vars a)
  ++ seg "VMTEST_DISK" (a_disk a)
  ++ seg "VMTEST_DISK_SIZE" (when (negb (bool_decide (is_Some (a_disk a)))) (given (a_disk_size a)))
  ++ seg "VMTEST_MEMORY" (Some (a_memory a)) ++ seg "VMTEST_CPUS" (Some (fmt_d (a_cpus a)))
  ++ seg "VMTEST_TPM" (when (a_tpm a) (Some "true"))
  ++ seg "VMTEST_SWTPM" (when (a_tpm a) (t_swtpm a))
  ++ seg "VMTEST_SWTPM_SETUP" (when (a_tpm a) (t_swtpm_setup a))
  ++ seg "VMTEST_MACHINE_TYPE" (given (t_machine_type a)) ++ seg "VMTEST_ACCEL" (given (t_accel a))
  ++ seg "VMTEST_NETWORK" (Some (a_network a))
  ++ seg "VMTEST_BRIDGE" (when (String.eqb (a_network a) "bridge") (Some (a_bridge_name a)))
  ++ seg "VMTEST_PORT_FORWARDS"
       (match a_port_forwards a with [] => None | ports => Some (port_list ports) end).

(** One of [env_lines]. *)
Definition export_line (x : string * string) : string :=
  "export " +:+ x.1 +:+ String "=" (String dquote (x.2 +:+ String dquote "")).

(** The script, for the path of the Go test. *)
Definition go_test_script (a : ConfigAttrs) (test : string) : string :=
  script_head +:+ Join (map export_line (go_test_exports a)) newline_s +:+ newline_s
  +:+ "exec " +:+ String dquote (test +:+ String dquote "") +:+ all_args.
(** The implementation of the rule: the script and its runfiles, for a Go test
    with runfiles of its own. *)
Definition vm_go_test_impl (a : ConfigAttrs) (test : string) (test_files : list string)
    : result string (string * list string) :=
  match swtpm_runfiles (a_tpm a) (swtpm_info a) (swtpm_setup_info a) with
  | Ok fs => Ok (go_test_script a test, data_files a ++ test_files ++ fs)
  | Err e => Err e
  end.

(** ** Lemmas *)

Definition quoted_text (v : string) : option string := if all_chars double_text v then Some v else None.
Lemma quoted_text_same v x : quoted_text v = Some x → x = v.
Proof. unfold quoted_text. case_match; by intros [= <-]. Qed.

(** A variable name as the scripts use them. *)
Definition var_name (k : string) : bool := bare_word k && lacks "=" k.

Definition export_cmd (x : string * string) : list string := ["export"; x.1 +:+ "=" +:+ x.2].
Lemma export_line_words k v :
  var_name k = true → all_chars double_text v = true → sh_words (export_line (k, v)) = Some (export_cmd (k, v)).
Proof.
  intros [Hb _]%andb_true_iff Hv. unfold export_line, export_cmd, sh_words. cbn [fst snd].
  change (sh_split Unquoted None ("export " +:+ ?r))
    with (option_map (cons "export") (sh_split Unquoted None r)).
  rewrite (sh_split_bare_word k _ Hb).
  change (sh_split Unquoted (Some k) (String "=" (String dquote (v +:+ String dquote ""))))
    with (sh_split InDouble (Some (k +:+ String "=" "")) (v +:+ String dquote "")).
  rewrite sh_split_double by done. cbn [sh_split option_map emit_word]. by rewrite append_assoc.
Qed.

(** Variables a script can export as they are. *)
Definition exportable (l : list (string * string)) : Prop :=
  Forall (λ x, var_name x.1 = true ∧ all_chars double_text x.2 = true) l.
Lemma export_lines_read self args l rest :
  l ≠ [] → exportable l →
  sh_commands self args (Join (map export_line l) newline_s +:+ newline_s +:+ rest)
  = option_map (app (map export_cmd l)) (sh_commands self args rest).
Proof.
  intros Hn Hl. induction Hl as [|[k v] l [Hk Hv] Hl IH]; [done|]. cbn [fst snd] in *.
  pose proof (export_line_words k v Hk Hv) as Hw. destruct l as [|y l].
  - cbn [map Join]. unfold newline_s. change (String newline "" +:+ rest) with (String newline rest).
    rewrite (sh_commands_line _ _ _ _ _ Hw). by destruct (sh_commands self args rest).
  - change (Join (map export_line ((k, v) :: y :: l)) newline_s +:+ newline_s +:+ rest)
      with ((export_line (k, v) +:+ String newline (Join (map export_line (y :: l)) newline_s)) +:+ newline_s +:+ rest).
    rewrite append_assoc. change (String newline ?x +:+ ?r) with (String newline (x +:+ r)).
    rewrite (sh_commands_line _ _ _ _ _ Hw), IH by done. by destruct (sh_commands self args rest).
Qed.
Lemma run_export_cmds l cs env :
  exportable l →
  run_commands (map export_cmd l ++ cs) env = (env' ← set_all quoted_text l env; run_commands cs env').
Proof.
  intros Hl. revert env. induction Hl as [|[k v] l [Hk Hv] Hl IH]; intros env; [done|]. cbn [fst snd] in *.
  apply andb_true_iff in Hk as [_ Hk]. cbn [map app export_cmd run_commands set_all fst snd].
  change (String.eqb "export" "exec") with false. change (String.eqb "export" "set") with false.
  change (String.eqb "export" "export") with true. cbv iota.
  rewrite (proj2 (cut_at_spec "=" _ k v)) by done.
  assert (quoted_text v = Some v) as -> by (unfold quoted_text; by rewrite Hv). apply IH.
Qed.

(** [env_options] reads these variables and no other. *)
Definition read_vars : list string :=
  ["VMTEST_QEMU"; "VMTEST_QEMU_IMG"; "VMTEST_KERNEL"; "VMTEST_INITRD"; "VMTEST_CMDLINE"; "VMTEST_ISO";
   "VMTEST_OVMF_CODE"; "VMTEST_OVMF_VARS"; "VMTEST_DISK"; "VMTEST_DISK_SIZE"; "VMTEST_MEMORY";
   "VMTEST_CPUS"; "VMTEST_TPM"; "VMTEST_SWTPM"; "VMTEST_SWTPM_SETUP"; "VMTEST_MACHINE_TYPE";
   "VMTEST_ACCEL"; "VMTEST_NETWORK"; "VMTEST_PORT_FORWARDS"].
Lemma env_options_ext env1 env2 :
  Forall (λ k, Getenv env1 k = Getenv env2 k) read_vars → env_options env1 = env_options env2.
Proof.
  unfold read_vars. rewrite !Forall_cons.
  intros (E1&E2&E3&E4&E5&E6&E7&E8&E9&E10&E11&E12&E13&E14&E15&E16&E17&E18&E19&_).
  unfold env_options, boot_options, tpm_options. cbv zeta.
  by rewrite E1, E2, E3, E4, E5, E6, E7, E8, E9, E10, E11, E12, E13, E14, E15, E16, E17, E18, E19.
Qed.

(** The script sets a variable to what [vmtest_config] would set it to. *)
Lemma exports_settings a :
  Forall (λ k, assoc k (go_test_exports a) = or_else (assoc k (literal_setenvs a)) (assoc k (rlocation_setenvs a)))
    read_vars.
Proof.
  unfold read_vars, go_test_exports, literal_setenvs, rlocation_setenvs.
  repeat (apply Forall_cons; split; [decide_keys; reflexivity|]). apply Forall_nil_2.
Qed.

Section GoTest.
Variables (a : ConfigAttrs) (env : gmap string string).
Hypothesis Hplain : Forall (λ x, all_chars double_text x.2 = true) (go_test_exports a).

Lemma exports_exportable : exportable (go_test_exports a).
Proof.
  apply Forall_forall. intros x Hx. split; [|by apply (proj1 (Forall_forall _ _) Hplain)].
  assert (Hn : Forall (λ x, var_name x.1 = true) (go_test_exports a)); [|by apply (proj1 (Forall_forall _ _) Hn)].
  unfold go_test_exports. rewrite !Forall_app. split_and!;
    match goal with |- Forall _ (seg _ ?o) => destruct o; [apply Forall_singleton; exact eq_refl|done] end.
Qed.
Lemma go_test_exports_not_empty : go_test_exports a ≠ [].
Proof. unfold go_test_exports. intros H. apply (f_equal length) in H. rewrite !length_app in H. cbn in H. lia. Qed.
(** The script becomes the test, in this environment. *)
Lemma script_runs self args test : all_chars double_text test = true →
  ∃ env', set_all quoted_text (go_test_exports a) env = Some env' ∧
    run_script self args (go_test_script a test) env = Some (test :: args, env').
Proof.
  intros Ht. destruct (set_all_total quoted_text (go_test_exports a) env) as [env' E].
  { eapply Forall_impl; [exact Hplain|]. intros x Hx. unfold quoted_text. rewrite Hx. by eexists. }
  exists env'. split; [done|]. unfold run_script, go_test_script.
  rewrite sh_commands_head.
  rewrite export_lines_read by (apply go_test_exports_not_empty || apply exports_exportable).
  replace ("exec " +:+ String dquote (test +:+ String dquote "") +:+ all_args)
    with (("exec " +:+ String dquote (test +:+ String dquote "")) +:+ all_args) by by rewrite append_assoc.
  rewrite (sh_commands_exec _ _ _ ["exec"; test]) by (done || by apply sh_words_exec).
  cbn [option_map mbind option_bind].
  change (run_commands (["set"; "-euo"; "pipefail"] :: ?cs) env) with (run_commands cs env).
  rewrite run_export_cmds by apply exports_exportable. rewrite E. done.
Qed.

Hypothesis Hfiles : Forall (λ x, x.2 ≠ "") (rlocation_setenvs a).

Lemma literals_plain : Forall (λ x, is_Some (quoted_text x.2)) (literal_setenvs a).
Proof.
  assert (H : Forall (λ x, all_chars double_text x.2 = true) (literal_setenvs a)).
  { pose proof Hplain as Hp. unfold go_test_exports in Hp. rewrite !Forall_app in Hp.
    unfold literal_setenvs. rewrite !Forall_app. by intuition. }
  eapply Forall_impl; [exact H|]. intros x Hx. unfold quoted_text. rewrite Hx. by eexists.
Qed.

(** A path that was given is itself; there is no empty path. *)
Lemma given_located x : x ≠ "" → given x = Some x.
Proof. intros Hx. unfold given. by apply String.eqb_neq in Hx as ->. Qed.

Lemma files_init : is_Some (init_with given quoted_text a env).
Proof.
  unfold init_with. destruct (set_all_total given (rlocation_setenvs a) env) as [env1 ->].
  - eapply Forall_impl; [exact Hfiles|]. intros x Hx. rewrite given_located by done. by eexists.
  - cbn. apply set_all_total, literals_plain.
Qed.

Hypothesis Hunset : unset env.

Lemma same_values env1 env2 :
  set_all quoted_text (go_test_exports a) env = Some env1 →
  init_with given quoted_text a env = Some env2 →
  Forall (λ k, Getenv env1 k = Getenv env2 k) read_vars.
Proof.
  intros E1 E2. apply Forall_forall. intros k Hk.
  assert (Hp : HasPrefix k "VMTEST_" = true).
  { apply (proj1 (Forall_forall (λ k, HasPrefix k "VMTEST_" = true) read_vars)); [|done].
    by apply forallb_Forall. }
  rewrite (init_value given quoted_text quoted_text_same a env env2 k) by done.
  unfold Getenv. rewrite (set_all_lookup _ _ _ _ _ E1).
  pose proof (proj1 (Forall_forall _ _) (exports_settings a) k Hk) as Hv. cbn beta in Hv.
  assert (Hf : assoc k (rlocation_setenvs a) ≫= given = assoc k (rlocation_setenvs a)).
  { destruct (assoc k (rlocation_setenvs a)) as [v|] eqn:Ev; [|done]. cbn.
    apply given_located. revert Ev Hfiles. generalize (rlocation_setenvs a). intros l.
    induction l as [|[k' v'] l IH]; cbn; [done|]. rewrite Forall_cons. intros Ev [Hn Hl].
    destruct (assoc k l); [cbn in Ev; injection Ev as ->; by apply IH|]. cbn in Ev.
    destruct (String.eqb k' k); [by injection Ev as ->|done]. }
  rewrite Hf. destruct (assoc k (go_test_exports a)) as [v|] eqn:Ev.
  - rewrite <- Hv. destruct (set_all_reads _ _ _ _ _ _ E1 Ev) as [x Hx]. rewrite Hx. cbn.
    by apply quoted_text_same.
  - rewrite <- Hv. by rewrite Hunset.
Qed.
End GoTest.

(** The variables that hold files are the files the test carries. *)
Lemma setenvs_files a : map snd (rlocation_setenvs a) = data_files a.
Proof.
  unfold rlocation_setenvs, data_files. rewrite !map_app.
  assert (Hseg : ∀ k o, map snd (seg k o) = option_list o) by by intros k [].
  by rewrite !Hseg.
Qed.

(** ** Properties *)

(** C14: the round trip of vm_go_test.  The rule fails exactly when it asks for a
    TPM without a toolchain for one of its two tools.  Otherwise, for values a
    shell takes literally between double quotes, files with a path, integers of
    machine size and a known network mode, its script, run with any arguments in
    an environment with no VMTEST_* variable of its own, becomes the Go test with
    these arguments, in an environment from which [New] reads exactly the options
    the attributes mean: the same as those of [vmtest_config], with files at
    their short paths.  And where Bazel starts the script, each of these paths,
    and that of the test, is a file of its runfiles. *)
Theorem go_test_roundtrip root ws self args a test test_files env :
  Forall (λ x, all_chars double_text x.2 = true) (go_test_exports a) → all_chars double_text test = true →
  Forall (λ x, x.2 ≠ "") (rlocation_setenvs a) → unset env →
  is_int (a_cpus a) → Forall is_int (a_port_forwards a) →
  a_network a ∈ ["user"; "bridge"; "none"] → test ∈ test_files →
  match vm_go_test_impl a test test_files with
  | Err _ => has_tools (a_tpm a) (swtpm_info a) (swtpm_setup_info a) = false
  | Ok (script, files) =>
      has_tools (a_tpm a) (swtpm_info a) (swtpm_setup_info a) = true ∧
      (∃ env', run_script self args script env = Some (test :: args, env') ∧
         env_options env' = Ok (config_options given a)) ∧
      (Forall (λ e, plain e = true) root → plain ws = true →
       let paths := test :: map snd (rlocation_setenvs a) in
       Forall (λ f, short_file f = true) paths → all_found (abs_path root) ws files paths)
  end.
Proof.
  intros Hp Ht Hf Hu Hc Hports Hn Htest. unfold vm_go_test_impl. rewrite <- swtpm_runfiles_ok.
  destruct (swtpm_runfiles _ _ _) as [fs|e]; [|done]. split; [done|]. split.
  - destruct (script_runs a env Hp self args test Ht) as (env1 & E1 & E). exists env1. split; [done|].
    destruct (files_init a env Hp Hf) as [env2 E2].
    rewrite (env_options_ext env1 env2) by by eapply same_values.
    apply (settings_roundtrip given quoted_text a env); try done.
    + intros p x. unfold given. destruct (String.eqb_spec p ""); [done|]. by intros [= <-].
    + apply quoted_text_same.
  - cbv zeta. rewrite setenvs_files. intros Hr Hw Hs. apply all_found_in; try done.
    intros f [->|Hin]%elem_of_cons; rewrite !elem_of_app; auto.
Qed.

(** The same kernel, started from a script. *)
Definition go_test_script_path : string := "/root/.runfiles/_main/tests/boot.sh".
Lemma go_test_roundtrip_witness :
  ∃ script files env', vm_go_test_impl kernel_rule "tests/boot_test" ["tests/boot_test"] = Ok (script, files) ∧
    run_script go_test_script_path ["-test.v"] script ∅ = Some (["tests/boot_test"; "-test.v"], env') ∧
    env_options env' = Ok (config_options given kernel_rule) ∧
    all_found "/root/.runfiles" "_main" files ("tests/boot_test" :: map snd (rlocation_setenvs kernel_rule)).
Proof.
  pose proof (go_test_roundtrip ["root"; ".runfiles"] "_main" go_test_script_path ["-test.v"] kernel_rule
    "tests/boot_test" ["tests/boot_test"] ∅) as H.
  destruct (vm_go_test_impl _ _ _) as [[script files]|e] eqn:E; [|by vm_compute in E].
  destruct H as (_ & (env' & R & O) & P).
  - apply (forallb_Forall (λ x : string * string, all_chars double_text x.2)). exact eq_refl.
  - exact eq_refl.
  - by repeat (apply Forall_cons; split; [done|]).
  - intros k _. apply lookup_empty.
  - by vm_compute.
  - apply Forall_cons; split; [by vm_compute|]. apply Forall_singleton. by vm_compute.
  - by left.
  - by left.
  - exists script, files, env'. split; [done|]. split; [exact R|]. split; [exact O|].
    apply P; [by repeat constructor|exact eq_refl|]. apply (forallb_Forall short_file). exact eq_refl.
Defined.
