(* ===== verification/HostWorld.v ===== *)
(** * HostWorld: the state the runner works in

    The package [runner] drives the host: it runs programs, copies files, sends
    signals.  What the operating system and the package [vm] do is a parameter,
    the class [Host] over an unknown host state; [RunWorld] holds that state
    with the runner's own: the [ProcessManager], the started commands (a Go
    [*exec.Cmd] is an index in [cmds]), the context, the attached streams, and
    the trace of every call that acts on the host.

    Another goroutine may cancel the runner's context at any moment; it shows
    whenever the host is asked something ([host_cancels]).  QEMU is started with
    [exec.CommandContext]: a goroutine of os/exec kills it once that context is
    done, at a moment of its own.  That kill belongs to how the host moves on
    (in [host_wait], [host_drain], [host_select] or any later call); the trace
    holds the calls the runner itself makes. *)

From S2P Require Import Prelude GoStrings VmLib.

Inductive signal := SIGTERM | SIGKILL.
Inductive StreamType := Monitored | Detached.
(** Where QEMU's standard streams go: the runner's own, or pipes. *)
Inductive stdio := Inherited | Piped.

(** How [cmd.Wait] ends: the process ended, with its exit status (-1 when a
    signal ended it; an [ExitError] unless 0) and its description, or it ended and
    [Wait] reports something else (the context's error, one of copying).  Either
    way [cmd.ProcessState] is set.  That the wait system call itself fails, which
    would leave it nil, is not modelled: nobody else reaps the runner's children. *)
Inductive wait_status :=
| Exited (code : Z) (description : string)
| WaitFailed (e : error).

(** What the [select] of [runBuildMode] can see first. *)
Inductive build_event :=
| QemuEnded (s : wait_status)
| BuildTimeout
| ContextDone.

Definition fails {R} (r : result error R) : bool := negb (is_ok r).

Class Host := {
  HostState : Type;
  Proc : Type;
  (** [exec.Command(argv).CombinedOutput()] and [.Run()]. *)
  host_combined : list string → HostState → (string * option error) * HostState;
  host_run : list string → HostState → result error () * HostState;
  (** The pipe of [cmd.StdoutPipe()]; [cmd.Start()], [cmd.Wait()], and the [select] around a running command. *)
  host_Pipe : HostState → result error () * HostState;
  host_start : list string → stdio → HostState → result error Proc * HostState;
  host_wait : Proc → HostState → wait_status * HostState;
  host_select : Proc → Z → HostState → build_event * HostState;
  host_signal : Proc → signal → HostState → HostState;
  host_kill : Z → signal → HostState → HostState;
  (** [streamer.Wait()]: every monitored stream reached its end. *)
  host_drain : list (string * StreamType) → HostState → HostState;
  host_sleep : Z → HostState → HostState;
  host_MkdirAll : string → Z → HostState → result error () * HostState;
  host_ReadPidFile : string → HostState → result error string * HostState;
  host_Remove : string → HostState → HostState;
  (** Read-only questions. *)
  host_ModTime : string → HostState → result error Z;
  host_Abs : string → HostState → result error string;
  vm_FileExists : string → HostState → bool;
  (** The package [vm]. *)
  vm_CopyFile : string → string → HostState → result error () * HostState;
  vm_CopyDir : string → string → HostState → result error () * HostState;
  vm_InitializeTPMState : string → string → list string → HostState → result error () * HostState;
  vm_StartSwtpm : string → string → HostState → result error (string * string) * HostState;
  (** Has the runner's context been cancelled from elsewhere by now? *)
  host_cancels : HostState → bool;
}.

(** runtime.GOOS and runtime.GOARCH. *)
Class Platform := { GOOS : string; GOARCH : string }.

(** Calls that act on the host.  A call whose answer decides what must be cleaned
    up later, and how, carries it. *)
Inductive hcall :=
| HOutput (argv : list string)
| HRun (argv : list string)
| HPipe
| HStart (argv : list string) (io : stdio) (started : bool)
| HWait (cmd : nat)
| HSelect (cmd : nat) (budget : Z) (event : build_event)
| HSignal (cmd : nat) (s : signal)
| HKill (pid : Z) (s : signal)
| HDrain (streams : list (string * StreamType))
| HSleep (d : Z)
| HMkdirAll (path : string) (mode : Z)
| HReadPidFile (path : string) (content : result error string)
| HRemove (path : string)
| HCopyFile (src dst : string)
| HCopyDir (src dst : string)
| HInitTPM (setup dir : string) (banks : list string)
| HSwtpm (bin dir : string) (answer : result error (string * string))
| HCancelManager.

Section HostWorld.
Context {H : Host}.

(** process_manager.go, [type ProcessManager]: its context is a child of the
    runner's, done when either was cancelled. *)
Record ProcessManager := {
  processes : list nat;
  pidFiles : list string;
  pm_cancelled : bool;
}.
(** A started command: its process, and whether [Wait] has returned
    ([cmd.ProcessState] is nil before). *)
Record Cmd := { cmd_process : Proc; cmd_waited : bool }.

Record RunWorld := {
  host : HostState;
  cmds : list Cmd;
  pm : ProcessManager;
  workDir : string;
  ctx_done : bool;
  streams : list (string * StreamType);
  printed : list string;
  calls : list hcall;
}.

#[local] Notation RunM := (M RunWorld error).

Definition set_host (h : HostState) (w : RunWorld) : RunWorld :=
  {| host := h; cmds := cmds w; pm := pm w; workDir := workDir w;
     ctx_done := ctx_done w || host_cancels h;
     streams := streams w; printed := printed w; calls := calls w |}.
Definition add_call (c : hcall) (w : RunWorld) : RunWorld :=
  {| host := host w; cmds := cmds w; pm := pm w; workDir := workDir w; ctx_done := ctx_done w;
     streams := streams w; printed := printed w; calls := calls w ++ [c] |}.
Definition set_cmds (l : list Cmd) (w : RunWorld) : RunWorld :=
  {| host := host w; cmds := l; pm := pm w; workDir := workDir w; ctx_done := ctx_done w;
     streams := streams w; printed := printed w; calls := calls w |}.
Definition set_pm (m : ProcessManager) (w : RunWorld) : RunWorld :=
  {| host := host w; cmds := cmds w; pm := m; workDir := workDir w; ctx_done := ctx_done w;
     streams := streams w; printed := printed w; calls := calls w |}.
Definition set_workDir (d : string) (w : RunWorld) : RunWorld :=
  {| host := host w; cmds := cmds w; pm := pm w; workDir := d; ctx_done := ctx_done w;
     streams := streams w; printed := printed w; calls := calls w |}.
Definition cancel_ctx (w : RunWorld) : RunWorld :=
  {| host := host w; cmds := cmds w; pm := pm w; workDir := workDir w; ctx_done := true;
     streams := streams w; printed := printed w; calls := calls w |}.
Definition add_stream (s : string * StreamType) (w : RunWorld) : RunWorld :=
  {| host := host w; cmds := cmds w; pm := pm w; workDir := workDir w; ctx_done := ctx_done w;
     streams := streams w ++ [s]; printed := printed w; calls := calls w |}.
Definition print (s : string) (w : RunWorld) : RunWorld :=
  {| host := host w; cmds := cmds w; pm := pm w; workDir := workDir w; ctx_done := ctx_done w;
     streams := streams w; printed := printed w ++ [s]; calls := calls w |}.

Definition Printf (s : string) : RunM () := modify (print s).

(** A call answered by the host; the record [c] may mention the answer. *)
Definition ask {R} (c : R → hcall) (f : HostState → R * HostState) : RunM R := λ w,
  let (r, h) := f (host w) in (Ok r, set_host h (add_call (c r) w)).
Definition tell (c : hcall) (f : HostState → HostState) : RunM () :=
  ask (λ _, c) (λ h, (tt, f h)).
(** [if err != nil { return err }] *)
Definition lift {R} (r : result error R) : RunM R :=
  match r with Ok x => mret x | Err e => throw e end.
Definition attempt {R} (c : hcall) (f : HostState → result error R * HostState) : RunM R :=
  r ← ask (λ _, c) f; lift r.

(** The thin wrappers of utils.go and of [os]. *)
Definition fileExists (path : string) : RunM bool := gets (λ w, vm_FileExists path (host w)).
Definition copyFile (src dst : string) : RunM () :=
  attempt (HCopyFile src dst) (vm_CopyFile src dst).
Definition copyDir (src dst : string) : RunM () :=
  attempt (HCopyDir src dst) (vm_CopyDir src dst).
Definition isNewer (src dst : string) : RunM bool :=
  gets (λ w, match host_ModTime src (host w) with
             | Err _ => false
             | Ok ts => match host_ModTime dst (host w) with
                        | Err _ => true
                        | Ok td => (td <? ts)%Z
                        end
             end).
Definition MkdirAll (path : string) (mode : Z) : RunM () :=
  attempt (HMkdirAll path mode) (host_MkdirAll path mode).
Definition RunCommand (argv : list string) : RunM () := attempt (HRun argv) (host_run argv).
Definition CombinedOutput (argv : list string) : RunM (string * option error) :=
  ask (λ _, HOutput argv) (host_combined argv).

(** [exec.CommandContext(r.ctx, ...)] then [Start]: a context that is done
    refuses the start.  Returns the command's index. *)
Definition Start (argv : list string) (io : stdio) : RunM nat := λ w,
  if ctx_done w then (Err "context canceled", w)
  else match host_start argv io (host w) with
       | (Err e, h) => (Err e, set_host h (add_call (HStart argv io false) w))
       | (Ok p, h) =>
           (Ok (length (cmds w)),
            set_cmds (cmds w ++ [{| cmd_process := p; cmd_waited := false |}])
              (set_host h (add_call (HStart argv io true) w)))
       end.

(** Go on with the command of index [i]; an index not in the table (which the
    program never makes) does nothing. *)
Definition on_cmd {R} (i : nat) (none : R) (f : Cmd → RunM R) : RunM R :=
  c ← gets (λ w, cmds w !! i);
  match c with Some c => f c | None => mret none end.

Definition mark_waited (i : nat) (w : RunWorld) : RunWorld :=
  set_cmds (alter (λ c, {| cmd_process := cmd_process c; cmd_waited := true |}) i (cmds w)) w.
(** [cmd.Wait()]: a second call fails at once. *)
Definition Wait (i : nat) : RunM wait_status :=
  on_cmd i (WaitFailed "exec: not started") (λ c,
    if cmd_waited c then mret (WaitFailed "exec: Wait was already called")
    else s ← ask (λ _, HWait i) (host_wait (cmd_process c));
         modify (mark_waited i);;
         mret s).
Definition Signal (i : nat) (s : signal) : RunM () :=
  on_cmd i tt (λ c, tell (HSignal i s) (host_signal (cmd_process c) s)).
Definition SyscallKill (pid : Z) (s : signal) : RunM () := tell (HKill pid s) (host_kill pid s).
Definition SleepFor (d : Z) : RunM () := tell (HSleep d) (host_sleep d).
Definition RemoveFile (path : string) : RunM () := tell (HRemove path) (host_Remove path).
End HostWorld.

(** Computations of the runner. *)
Notation RunM := (M RunWorld error).
