(* ===== verification/RunnerConfig.v ===== *)
(** * RunnerConfig: configuration of the runner and its defaults

    runner/config.go; the types, paths and constructor of runner/runner.go
    (lines 13-98); [defaultMachineType] of runner/qemu.go (16-30). *)

From S2P Require Import Prelude GoStrings GoPath VmLib HostWorld.

Record ToolPaths := {
  QemuSystem : string;
  QemuImg : string;
  OVMFCode : string;
  OVMFVars : string;
  Swtpm : string;
  SwtpmSetup : string;
}.

Record TransitNetwork := { IPv4 : string; IPv6 : string }.

Record RunnerConfig := {
  ServerName : string;
  WorkDir : string;
  Mode : string;
  toolPaths : ToolPaths;
  MachineType : string;
  TapDevice : string;
  SecondTapDevice : string;
  MacAddress : string;
  BridgeName : string;
  DiskSize : string;
  Memory : string;
  CPUs : Z;
  TPMPristinePath : string;
  ISOPath : string;
  transit : TransitNetwork;
  OutputMode : string;
  ShutdownMode : bool;
  NoCleanup : bool;
}.

(** The zero value of the Go struct. *)
Definition no_tools : ToolPaths :=
  {| QemuSystem := ""; QemuImg := ""; OVMFCode := ""; OVMFVars := ""; Swtpm := "";
     SwtpmSetup := "" |}.
Definition no_config : RunnerConfig :=
  {| ServerName := ""; WorkDir := ""; Mode := ""; toolPaths := no_tools; MachineType := "";
     TapDevice := ""; SecondTapDevice := ""; MacAddress := ""; BridgeName := ""; DiskSize := "";
     Memory := ""; CPUs := 0; TPMPristinePath := ""; ISOPath := "";
     transit := {| IPv4 := ""; IPv6 := "" |}; OutputMode := ""; ShutdownMode := false;
     NoCleanup := false |}.

(** [if s == "" { s = d }]. *)
Definition or_default (s d : string) : string := if String.eqb s "" then d else s.

Section Defaults.
Context {G : Platform}.

Definition DefaultToolPaths : ToolPaths :=
  {| QemuSystem := if String.eqb GOARCH "arm64" then "qemu-system-aarch64"
                   else "qemu-system-x86_64";
     QemuImg := "qemu-img"; OVMFCode := ""; OVMFVars := "";
     Swtpm := "swtpm"; SwtpmSetup := "swtpm_setup" |}.

Definition defaultMachineType : string :=
  if String.eqb GOOS "darwin"
  then if String.eqb GOARCH "arm64" then "virt,accel=hvf" else "q35,accel=hvf"
  else if String.eqb GOARCH "arm64" then "virt,accel=kvm" else "q35,accel=kvm,smm=on".

(** What [NewRunner] writes into the configuration it is given. *)
Definition NewRunner (c : RunnerConfig) : RunnerConfig :=
  let tp := toolPaths c in
  {| ServerName := ServerName c; WorkDir := WorkDir c; Mode := Mode c;
     toolPaths :=
       {| QemuSystem := or_default (QemuSystem tp) (QemuSystem DefaultToolPaths);
          QemuImg := or_default (QemuImg tp) "qemu-img";
          OVMFCode := OVMFCode tp; OVMFVars := OVMFVars tp;
          Swtpm := or_default (Swtpm tp) "swtpm";
          SwtpmSetup := or_default (SwtpmSetup tp) "swtpm_setup" |};
     MachineType := MachineType c; TapDevice := TapDevice c;
     SecondTapDevice := SecondTapDevice c; MacAddress := MacAddress c;
     BridgeName := or_default (BridgeName c) "mltt-br0";
     DiskSize := DiskSize c; Memory := Memory c; CPUs := CPUs c;
     TPMPristinePath := TPMPristinePath c; ISOPath := ISOPath c; transit := transit c;
     OutputMode := OutputMode c; ShutdownMode := ShutdownMode c; NoCleanup := NoCleanup c |}.

(** The world a fresh runner starts in: no process, no file, nothing printed.
    Its context may be cancelled before it did anything. *)
Definition new_world {H : Host} (h : HostState) : RunWorld :=
  {| host := h; cmds := []; pm := {| processes := []; pidFiles := []; pm_cancelled := false |};
     workDir := ""; ctx_done := host_cancels h; streams := []; printed := []; calls := [] |}.
End Defaults.

(** Paths under the work directory. *)
Definition tpmDir (workDir : string) : string := path_join [workDir; "tpm"].
Definition diskPath (workDir : string) : string := path_join [workDir; "disk.img"].
Definition varsPath (workDir : string) : string := path_join [workDir; "vars.fd"].
(** The file swtpm keeps its state in. *)
Definition permallPath (dir : string) : string := path_join [dir; "tpm2-00.permall"].
