(* ===== verification/QemuArgs.v ===== *)
(** * QemuArgs: the QEMU command line

    [buildQEMUArgs] (runner/qemu.go, lines 33-122), and how QEMU reads such a
    command line: a list of options, each with a value but for [-nographic];
    a value is a list of [key=value] properties separated by commas, and
    devices name their back ends by [id].  [view] is the machine the command
    line describes; the theorem says it is the one asked for. *)

From S2P Require Import Prelude GoStrings GoStrconv HostWorld RunnerConfig.

#[local] Arguments String.append !s1 s2 / : simpl nomatch.

Section Args.
Context {G : Platform}.

Definition qemu_memory (c : RunnerConfig) : string := or_default (Memory c) "6G".
Definition qemu_cpus (c : RunnerConfig) : Z := if (CPUs c =? 0)%Z then 2 else CPUs c.
Definition qemu_machine (c : RunnerConfig) : string := or_default (MachineType c) defaultMachineType.
Definition cpu_model (c : RunnerConfig) : string :=
  if Contains (qemu_machine c) "accel=tcg" then "max" else "host".

Definition buildQEMUArgs (c : RunnerConfig) (ovmfCode varsPath diskPath isoPath tpmSocket : string)
    (bootFromISO : bool) (tapName secondTapName : string) (directMode : bool) : list string :=
  ["-name"; ServerName c; "-machine"; qemu_machine c; "-cpu"; cpu_model c;
   "-m"; qemu_memory c; "-smp"; fmt_d (qemu_cpus c); "-device"; "virtio-rng-pci"]
  ++ ["-netdev"; "tap,id=net0,ifname=" +:+ tapName +:+ ",script=no,downscript=no";
      "-device"; if String.eqb (MacAddress c) "" then "virtio-net-pci,netdev=net0"
                 else "virtio-net-pci,netdev=net0,mac=" +:+ MacAddress c]
  ++ (if String.eqb secondTapName "" then []
      else ["-netdev"; "tap,id=net1,ifname=" +:+ secondTapName +:+ ",script=no,downscript=no";
            "-device"; "virtio-net-pci,netdev=net1,addr=0x6"])
  ++ ["-chardev"; "socket,id=char0,path=" +:+ tpmSocket;
      "-tpmdev"; "emulator,id=tpm0,chardev=char0";
      "-device"; "tpm-tis,tpmdev=tpm0"]
  ++ ["-global"; "driver=cfi.pflash01,property=secure,value=on";
      "-drive"; "if=pflash,format=raw,unit=0,file=" +:+ ovmfCode +:+ ",readonly=on";
      "-drive"; "if=pflash,format=raw,unit=1,file=" +:+ varsPath]
  ++ (if bootFromISO && negb (String.eqb isoPath "") then
        ["-device"; "virtio-scsi-pci,id=scsi0,addr=0x4";
         "-drive"; "file=" +:+ isoPath +:+ ",format=raw,cache=none,media=cdrom,if=none,id=cd0";
         "-device"; "scsi-cd,bus=scsi0.0,drive=cd0,bootindex=0";
         "-drive"; "file=" +:+ diskPath +:+ ",format=raw,if=none,id=disk";
         "-device"; "virtio-blk-pci,drive=disk,addr=0x5,bootindex=1"]
      else
        ["-drive"; "file=" +:+ diskPath +:+ ",format=raw,if=none,id=disk";
         "-device"; "virtio-blk-pci,drive=disk,addr=0x5,bootindex=0"])
  ++ (if directMode then ["-nographic"] else ["-serial"; "stdio"; "-display"; "none"]).
End Args.

(** ** Reading a command line *)

(** The options of a command line; [None] when the last one lacks its value. *)
Fixpoint read_args (l : list string) : option (list (string * string)) :=
  match l with
  | [] => Some []
  | f :: l' =>
      if String.eqb f "-nographic" then option_map (cons (f, "")) (read_args l')
      else match l' with
           | [] => None
           | v :: l'' => option_map (cons (f, v)) (read_args l'')
           end
  end.

Definition values (f : string) (os : list (string * string)) : list string :=
  map snd (List.filter (λ o, String.eqb o.1 f) os).

Definition props (v : string) : list (string * string) :=
  map (λ p, default (p, "") (cut_at "=" p)) (Split v ",").
Definition prop (k v : string) : option string :=
  option_map snd (List.find (λ p, String.eqb p.1 k) (props v)).
Definition has_prop (k x v : string) : bool :=
  match prop k v with Some y => String.eqb y x | None => false end.

(** The first value of option [f] that has the given [id]. *)
Definition backend (f id : string) (os : list (string * string)) : option string :=
  List.find (has_prop "id" id) (values f os).

(** Network cards: host interface and MAC address of each. *)
Definition nics (os : list (string * string)) : list (string * option string) :=
  omap (λ d, n ← prop "netdev" d; b ← backend "-netdev" n os; i ← prop "ifname" b;
             Some (i, prop "mac" d)) (values "-device" os).
(** Drives a device uses: file, medium and boot index of each. *)
Definition disks (os : list (string * string)) : list (string * option string * option string) :=
  omap (λ d, n ← prop "drive" d; b ← backend "-drive" n os; f ← prop "file" b;
             Some (f, prop "media" b, prop "bootindex" d)) (values "-device" os).
(** TPMs: the socket of each, through its [tpmdev] and that one's [chardev]. *)
Definition tpms (os : list (string * string)) : list string :=
  omap (λ d, t ← prop "tpmdev" d; b ← backend "-tpmdev" t os; n ← prop "chardev" b;
             c ← backend "-chardev" n os; prop "path" c) (values "-device" os).
(** Firmware flash: unit, file, read-only flag. *)
Definition flash (os : list (string * string)) :
    list (option string * option string * option string) :=
  omap (λ v, if has_prop "if" "pflash" v
             then Some (prop "unit" v, prop "file" v, prop "readonly" v) else None)
    (values "-drive" os).

Record view := {
  v_name : list string;
  v_machine : list string;
  v_cpu : list string;
  v_memory : list string;
  v_smp : list string;
  v_nics : list (string * option string);
  v_tpms : list string;
  v_flash : list (option string * option string * option string);
  v_disks : list (string * option string * option string);
  v_nographic : bool;
  v_serial : list string;
}.

Definition view_of (os : list (string * string)) : view :=
  {| v_name := values "-name" os; v_machine := values "-machine" os; v_cpu := values "-cpu" os;
     v_memory := values "-m" os; v_smp := values "-smp" os; v_nics := nics os; v_tpms := tpms os;
     v_flash := flash os; v_disks := disks os;
     v_nographic := (0 <? length (values "-nographic" os))%nat;
     v_serial := values "-serial" os |}.

(** ** Lemmas *)

(** Text of the configuration in the middle or at the end of a value. *)
Lemma Split_mid pre t post l r x :
  lacks "," t = true → Split pre "," = l ++ [x] → Split post "," = "" :: r →
  Split (pre +:+ t +:+ post) "," = l ++ (x +:+ t) :: r.
Proof.
  intros Ht Hl Hr. rewrite !Split_append, (Split_lacks_id t), Hl, Hr by done.
  cbn [glue]. rewrite append_nil_r. clear. induction l as [|y l IH]; [done|].
  cbn [app glue]. rewrite IH. by destruct l.
Qed.
Lemma Split_end pre t l x :
  lacks "," t = true → Split pre "," = l ++ [x] →
  Split (pre +:+ t) "," = l ++ [x +:+ t].
Proof.
  intros Ht Hl. rewrite Split_append, (Split_lacks_id t), Hl by done.
  clear. induction l as [|y l IH]; [done|]. cbn [app glue]. rewrite IH. by destruct l.
Qed.

Section ViewLemmas.
Context {G : Platform}.

(** The machine of a host that nothing is asked of: board, accelerator, and system
    management mode where the firmware of a PC needs it. *)
Definition board : string := if String.eqb GOARCH "arm64" then "virt" else "q35".
Definition accelerator : string := if String.eqb GOOS "darwin" then "hvf" else "kvm".
Definition with_smm : string :=
  if String.eqb board "q35" && String.eqb accelerator "kvm" then ",smm=on" else "".
(** The machine the caller of [buildQEMUArgs] asks for. *)
Definition intended (c : RunnerConfig) (ovmfCode varsPath diskPath isoPath tpmSocket : string)
    (bootFromISO : bool) (tapName secondTapName : string) (directMode : bool) : view :=
  let machine := if String.eqb (MachineType c) "" then board +:+ ",accel=" +:+ accelerator +:+ with_smm
                 else MachineType c in
  {| v_name := [ServerName c]; v_machine := [machine];
     v_cpu := [if Contains machine "accel=tcg" then "max" else "host"];
     v_memory := [if String.eqb (Memory c) "" then "6G" else Memory c];
     v_smp := [if (CPUs c =? 0)%Z then "2" else fmt_d (CPUs c)];
     v_nics := (tapName, if String.eqb (MacAddress c) "" then None else Some (MacAddress c))
               :: (if String.eqb secondTapName "" then [] else [(secondTapName, None)]);
     v_tpms := [tpmSocket];
     v_flash := [(Some "0", Some ovmfCode, Some "on"); (Some "1", Some varsPath, None)];
     v_disks := if bootFromISO && negb (String.eqb isoPath "")
                then [(isoPath, Some "cdrom", Some "0"); (diskPath, None, Some "1")]
                else [(diskPath, None, Some "0")];
     v_nographic := directMode;
     v_serial := if directMode then [] else ["stdio"] |}.

Lemma has_prop_contains k x v : has_prop k x v = true → Contains v (k +:+ "=" +:+ x) = true ∨ x = "".
Proof.
  unfold has_prop, prop, props. destruct (List.find _ _) as [[k' y]|] eqn:E; [|done]. cbn. intros Hy%String.eqb_eq.
  subst y. apply List.find_some in E as [Hin Hk]. cbn in Hk. apply String.eqb_eq in Hk as ->.
  apply List.in_map_iff in Hin as (q & Hq & Hin). destruct (cut_at "=" q) as [[h r]|] eqn:Ec; cbn in Hq; [|right; congruence].
  left. injection Hq as -> ->. apply cut_at_spec in Ec as [-> _]. apply (Contains_Split v ",").
  by apply list_elem_of_In.
Qed.
Lemma tcg_model m :
  Exists (λ m, has_prop "accel" "tcg" m = true) [m] → [if Contains m "accel=tcg" then "max" else "host"] = ["max"].
Proof.
  intros Ht. inversion Ht as [? ? Hm|? ? Hm]; subst; [|by inversion Hm].
  apply has_prop_contains in Hm as [Hm|[=]]. by replace (Contains m "accel=tcg") with true.
Qed.
Lemma default_machine : defaultMachineType = board +:+ ",accel=" +:+ accelerator +:+ with_smm.
Proof.
  unfold defaultMachineType, with_smm, accelerator, board. by destruct (String.eqb GOOS "darwin"), (String.eqb GOARCH "arm64").
Qed.
Lemma intended_machine c :
  qemu_machine c = if String.eqb (MachineType c) "" then board +:+ ",accel=" +:+ accelerator +:+ with_smm else MachineType c.
Proof. unfold qemu_machine, or_default. by rewrite default_machine. Qed.
Lemma intended_smp c : fmt_d (qemu_cpus c) = if (CPUs c =? 0)%Z then "2" else fmt_d (CPUs c).
Proof. unfold qemu_cpus. by destruct (CPUs c =? 0)%Z. Qed.
End ViewLemmas.

(** The values of a command line that hold texts of the configuration, with the
    parts QEMU splits them into. *)
Section AbstractValues.
Context {G : Platform}.
Variables (code vars disk iso socket tap tap2 mac : string).
Hypothesis (Hcode : lacks "," code = true) (Hvars : lacks "," vars = true)
  (Hdisk : lacks "," disk = true) (Hiso : lacks "," iso = true)
  (Hsocket : lacks "," socket = true) (Htap : lacks "," tap = true)
  (Htap2 : lacks "," tap2 = true) (Hmac : lacks "," mac = true).

Lemma parts_tap : Split ("tap,id=net0,ifname=" +:+ tap +:+ ",script=no,downscript=no") ","
  = ["tap"; "id=net0"; "ifname=" +:+ tap; "script=no"; "downscript=no"].
Proof. by apply (Split_mid _ tap _ ["tap"; "id=net0"] ["script=no"; "downscript=no"] "ifname="). Qed.
Lemma parts_tap2 : Split ("tap,id=net1,ifname=" +:+ tap2 +:+ ",script=no,downscript=no") ","
  = ["tap"; "id=net1"; "ifname=" +:+ tap2; "script=no"; "downscript=no"].
Proof. by apply (Split_mid _ tap2 _ ["tap"; "id=net1"] ["script=no"; "downscript=no"] "ifname="). Qed.
Lemma parts_mac : Split ("virtio-net-pci,netdev=net0,mac=" +:+ mac) ","
  = ["virtio-net-pci"; "netdev=net0"; "mac=" +:+ mac].
Proof. by apply (Split_end _ mac ["virtio-net-pci"; "netdev=net0"] "mac="). Qed.
Lemma parts_socket : Split ("socket,id=char0,path=" +:+ socket) ","
  = ["socket"; "id=char0"; "path=" +:+ socket].
Proof. by apply (Split_end _ socket ["socket"; "id=char0"] "path="). Qed.
Lemma parts_code : Split ("if=pflash,format=raw,unit=0,file=" +:+ code +:+ ",readonly=on") ","
  = ["if=pflash"; "format=raw"; "unit=0"; "file=" +:+ code; "readonly=on"].
Proof. by apply (Split_mid _ code _ ["if=pflash"; "format=raw"; "unit=0"] ["readonly=on"] "file="). Qed.
Lemma parts_vars : Split ("if=pflash,format=raw,unit=1,file=" +:+ vars) ","
  = ["if=pflash"; "format=raw"; "unit=1"; "file=" +:+ vars].
Proof. by apply (Split_end _ vars ["if=pflash"; "format=raw"; "unit=1"] "file="). Qed.
Lemma parts_iso :
  Split ("file=" +:+ iso +:+ ",format=raw,cache=none,media=cdrom,if=none,id=cd0") ","
  = ["file=" +:+ iso; "format=raw"; "cache=none"; "media=cdrom"; "if=none"; "id=cd0"].
Proof.
  by apply (Split_mid _ iso _ [] ["format=raw"; "cache=none"; "media=cdrom"; "if=none"; "id=cd0"] "file=").
Qed.
Lemma parts_disk : Split ("file=" +:+ disk +:+ ",format=raw,if=none,id=disk") ","
  = ["file=" +:+ disk; "format=raw"; "if=none"; "id=disk"].
Proof. by apply (Split_mid _ disk _ [] ["format=raw"; "if=none"; "id=disk"] "file="). Qed.

Lemma view_of_values c boot direct :
  MacAddress c = mac →
  option_map view_of (read_args (buildQEMUArgs c code vars disk iso socket boot tap tap2 direct))
  = Some (intended c code vars disk iso socket boot tap tap2 direct).
Proof.
  unfold buildQEMUArgs, intended. cbv zeta. unfold cpu_model, qemu_memory, or_default.
  rewrite <- intended_machine, <- intended_smp. intros ->.
  generalize (if Contains (qemu_machine c) "accel=tcg" then "max" else "host").
  generalize (if String.eqb (Memory c) "" then "6G" else Memory c) (fmt_d (qemu_cpus c)) (ServerName c) (qemu_machine c).
  intros memory smp name machine cpu.
  pose proof parts_tap as P1. pose proof parts_tap2 as P2. pose proof parts_mac as P3.
  pose proof parts_socket as P4. pose proof parts_code as P5. pose proof parts_vars as P6.
  pose proof parts_iso as P7. pose proof parts_disk as P8.
  revert P1 P2 P3 P4 P5 P6 P7 P8.
  generalize ("tap,id=net0,ifname=" +:+ tap +:+ ",script=no,downscript=no") as v1.
  generalize ("tap,id=net1,ifname=" +:+ tap2 +:+ ",script=no,downscript=no") as v2.
  generalize ("virtio-net-pci,netdev=net0,mac=" +:+ mac) as v3.
  generalize ("socket,id=char0,path=" +:+ socket) as v4.
  generalize ("if=pflash,format=raw,unit=0,file=" +:+ code +:+ ",readonly=on") as v5.
  generalize ("if=pflash,format=raw,unit=1,file=" +:+ vars) as v6.
  generalize ("file=" +:+ iso +:+ ",format=raw,cache=none,media=cdrom,if=none,id=cd0") as v7.
  generalize ("file=" +:+ disk +:+ ",format=raw,if=none,id=disk") as v8.
  intros v8 v7 v6 v5 v4 v3 v2 v1 P1 P2 P3 P4 P5 P6 P7 P8.
  destruct (String.eqb mac ""), (String.eqb tap2 ""), (boot && negb (String.eqb iso "")), direct;
    unfold view_of, nics, tpms, flash, disks, backend, has_prop, prop, props; cbn;
    rewrite ?P1, ?P2, ?P3, ?P4, ?P5, ?P6, ?P7, ?P8; cbn;
    rewrite ?P1, ?P2, ?P3, ?P4, ?P5, ?P6, ?P7, ?P8; done.
Qed.
End AbstractValues.

(** ** Properties *)

(** C11: the command line says what was asked for.  QEMU reading the arguments of
    [buildQEMUArgs] finds: the name; the memory and CPU count of the configuration, or
    6G and 2; its machine, or the host's own (q35, virt on ARM; KVM, HVF on a Mac; with
    system management mode only on q35 with KVM); the CPU model max when that text
    asks for TCG, as every machine whose accelerator QEMU reads to be tcg does, else host; one network
    card per tap device, the first with the configured MAC; one TPM on the given
    socket; the OVMF code read-only in flash unit 0 and the variables in unit 1; the
    ISO, when there is one to boot from, as the first boot device with the disk
    second, else the disk first; and exactly one kind of console.  Whatever bytes
    they hold, no value is taken for another option; but QEMU splits file and device
    names at commas, so names with one are out of scope. *)
Theorem QEMU_reads_intended `{Platform} c ovmfCode varsPath diskPath isoPath tpmSocket
    bootFromISO tapName secondTapName directMode :
  Forall (λ s, lacks "," s = true)
    [ovmfCode; varsPath; diskPath; isoPath; tpmSocket; tapName; secondTapName; MacAddress c] →
  let v := intended c ovmfCode varsPath diskPath isoPath tpmSocket bootFromISO tapName secondTapName directMode in
  option_map view_of
    (read_args (buildQEMUArgs c ovmfCode varsPath diskPath isoPath tpmSocket bootFromISO
                  tapName secondTapName directMode))
  = Some v ∧
  (Exists (λ m, has_prop "accel" "tcg" m = true) (v_machine v) → v_cpu v = ["max"]).
Proof.
  rewrite !Forall_cons. intros (H1 & H2 & H3 & H4 & H5 & H6 & H7 & H8 & _) v. split.
  - by apply (view_of_values _ _ _ _ _ _ _ (MacAddress c)).
  - apply tcg_model.
Qed.

Definition linux_amd64 : Platform := {| GOOS := "linux"; GOARCH := "amd64" |}.

(** An emulated machine on a Linux host. *)
Definition emulated : RunnerConfig :=
  {| ServerName := "node"; WorkDir := "/w"; Mode := "run"; toolPaths := no_tools; MachineType := "q35,accel=tcg";
     TapDevice := ""; SecondTapDevice := ""; MacAddress := ""; BridgeName := ""; DiskSize := "";
     Memory := ""; CPUs := 3; TPMPristinePath := ""; ISOPath := "";
     transit := {| IPv4 := ""; IPv6 := "" |}; OutputMode := "direct"; ShutdownMode := false; NoCleanup := false |}.
Lemma QEMU_reads_intended_witness :
  let G := linux_amd64 in
  option_map (λ os, let v := view_of os in (v_machine v, v_cpu v, v_memory v, v_smp v))
    (read_args (buildQEMUArgs emulated "/ovmf/code.fd" "/w/vars.fd" "/w/disk.img" "" "/w/tpm.sock"
                  false "mltt-tap0" "" true))
  = Some (["q35,accel=tcg"], ["max"], ["6G"], ["3"]).
Proof.
  intros G. destruct (QEMU_reads_intended emulated "/ovmf/code.fd" "/w/vars.fd" "/w/disk.img" "" "/w/tpm.sock"
    false "mltt-tap0" "" true) as [E _]; [by repeat constructor|].
  destruct (read_args _) as [os|]; [|done]. cbn [option_map] in *. apply (inj Some) in E. cbv zeta. by rewrite E.
Defined.
