(* ===== verification/ScriptedHost.v ===== *)
(** * ScriptedHost: a concrete host

    An instance of [Host] that evaluates: files are a map from path to
    content, [ip] finds every device up or none, [qemu-img] and [swtpm_setup]
    create the files they are asked for, swtpm writes its process number, QEMU
    ends as the script says.  The witnesses of the runner run on it. *)

From S2P Require Import Prelude GoStrings GoPath VmLib HostWorld RunnerConfig.

Record HostScript := {
  h_files : gmap string string;
  h_ip : option string;
  h_exit : wait_status;
  h_event : build_event;
}.
Definition set_files (f : gmap string string) (s : HostScript) : HostScript :=
  {| h_files := f; h_ip := h_ip s; h_exit := h_exit s; h_event := h_event s |}.

Definition has_file (path : string) (s : HostScript) : bool := is_ok
  (match h_files s !! path with Some c => Ok c | None => Err tt end).
Definition put (path content : string) (s : HostScript) : HostScript :=
  set_files (<[path := content]> (h_files s)) s.
Definition copy_to (src dst : string) (s : HostScript) : result error () * HostScript :=
  match h_files s !! src with
  | Some c => (Ok tt, put dst c s)
  | None => (Err "no such file", s)
  end.
Definition newline_s : string := String newline EmptyString.

#[export] Instance ScriptedHost : Host := {|
  HostState := HostScript;
  Proc := ();
  host_combined := λ _ s, match h_ip s with
                          | Some out => ((out, None), s)
                          | None => (("", Some "exit status 1"), s)
                          end;
  host_run := λ argv s, match argv with
                        | [_; cmd; _; _; path; _] =>
                            if String.eqb cmd "create" then (Ok tt, put path "disk" s)
                            else (Err "exit status 1", s)
                        | _ => (Err "exit status 1", s)
                        end;
  host_Pipe := λ s, (Ok tt, s);
  host_start := λ _ _ s, (Ok tt, s);
  host_wait := λ _ s, (h_exit s, s);
  host_select := λ _ _ s, (h_event s, s);
  host_signal := λ _ _ s, s;
  host_kill := λ _ _ s, s;
  host_drain := λ _ s, s;
  host_sleep := λ _ s, s;
  host_MkdirAll := λ _ _ s, (Ok tt, s);
  host_ReadPidFile := λ path s,
    (match h_files s !! path with Some c => Ok c | None => Err "no such file" end, s);
  host_Remove := λ path s, set_files (delete path (h_files s)) s;
  host_ModTime := λ path s, if has_file path s then Ok 0%Z else Err "no such file";
  host_Abs := λ path _, Ok (path_join ["/cwd"; path]);
  vm_FileExists := has_file;
  vm_CopyFile := copy_to;
  vm_CopyDir := λ src dst, copy_to (permallPath src) (permallPath dst);
  vm_InitializeTPMState := λ _ dir _ s, (Ok tt, put (permallPath dir) "state" s);
  vm_StartSwtpm := λ _ dir s,
    (Ok (path_join [dir; "swtpm.sock"], path_join [dir; "swtpm.pid"]),
     put (path_join [dir; "swtpm.pid"]) ("4242" +:+ newline_s) s);
  host_cancels := λ _, false;
|}.

Definition bridge_up : string := "3: mltt-br0: <BROADCAST,MULTICAST,UP,LOWER_UP> mtu 1500".

(** A host where the bridge is up, the firmware is installed, QEMU ends well. *)
Definition ready_host : HostScript :=
  {| h_files := <["/ovmf/code.fd" := "code"]> (<["/ovmf/vars.fd" := "vars"]> ∅);
     h_ip := Some bridge_up; h_exit := Exited 0 "exit status 0"; h_event := QemuEnded (Exited 0 "exit status 0") |}.
