(* ===== verification/ProcessManager.v ===== *)
(** * ProcessManager: what the runner must stop before it ends

    runner/process_manager.go, lines 20-82.  The mutex is left out: the methods
    are only called from the goroutine of [Run]. *)

From S2P Require Import Prelude GoStrings GoStrconv VmLib HostWorld RunnerConfig ScriptedHost.

Definition grace : Z := 500 * Millisecond.

Section ProcessManager.
Context {H : Host}.
Implicit Types (w : RunWorld).

Definition AddProcess (i : nat) : RunM () := modify (λ w,
  set_pm {| processes := processes (pm w) ++ [i]; pidFiles := pidFiles (pm w);
            pm_cancelled := pm_cancelled (pm w) |} w).
Definition AddPIDFile (f : string) : RunM () := modify (λ w,
  set_pm {| processes := processes (pm w); pidFiles := pidFiles (pm w) ++ [f];
            pm_cancelled := pm_cancelled (pm w) |} w).

(** [syscall.Kill] twice, half a second apart. *)
Definition terminate_pid (pid : Z) : RunM () :=
  SyscallKill pid SIGTERM;; SleepFor grace;; SyscallKill pid SIGKILL.

Definition cleanupPIDFile (f : string) : RunM () :=
  data ← ask (HReadPidFile f) (host_ReadPidFile f);
  (match data with
   | Err _ => mret tt
   | Ok text => match Atoi (TrimSpace text) with
                | Err _ => mret tt
                | Ok pid => terminate_pid pid
                end
   end);;
  RemoveFile f.

(** One turn of the second loop of [CleanupAll]. *)
Definition stop_process (i : nat) : RunM () :=
  on_cmd i tt (λ _,
    Signal i SIGTERM;;
    SleepFor grace;;
    c ← gets (λ w, cmds w !! i);
    (if match c with Some c => cmd_waited c | None => true end then mret tt
     else Signal i SIGKILL);;
    Wait i;;
    mret tt).

Definition CleanupAll : RunM () :=
  modify (λ w, set_pm {| processes := processes (pm w); pidFiles := pidFiles (pm w);
                         pm_cancelled := true |} (add_call HCancelManager w));;
  fs ← gets (λ w, pidFiles (pm w));
  for_each cleanupPIDFile fs;;
  ps ← gets (λ w, processes (pm w));
  for_each stop_process ps.

(** ** Lemmas *)

(** What only acts on the host, leaving the runner's tables alone. *)
Record outward (w w' : RunWorld) (l : list hcall) : Prop := {
  outward_calls : calls w' = calls w ++ l;
  outward_cmds : cmds w' = cmds w;
  outward_pm : pm w' = pm w;
  outward_dir : workDir w' = workDir w;
}.

Lemma outward_nil w : outward w w [].
Proof. split; [by rewrite app_nil_r|done..]. Qed.
Lemma outward_app w1 w2 w3 l1 l2 : outward w1 w2 l1 → outward w2 w3 l2 → outward w1 w3 (l1 ++ l2).
Proof.
  intros [A1 A2 A3 A4] [B1 B2 B3 B4]. split; [|congruence..]. by rewrite B1, A1, app_assoc.
Qed.

Lemma ask_run {R} c (f : HostState → R * HostState) w :
  ∃ w', ask c f w = (Ok (f (host w)).1, w') ∧ outward w w' [c (f (host w)).1]
        ∧ host w' = (f (host w)).2.
Proof. unfold ask. destruct (f (host w)) as [r h]. eexists. by repeat split. Qed.
Lemma tell_run c f w :
  ∃ w', tell c f w = (Ok tt, w') ∧ outward w w' [c] ∧ host w' = f (host w).
Proof. unfold tell, ask. eexists. by repeat split. Qed.

Lemma bind_ok {A B} (c : RunM A) (k : A → RunM B) w a w' :
  c w = (Ok a, w') → (c ≫= k) w = k a w'.
Proof. intros E. by rewrite bind_run, E. Qed.

Lemma terminate_pid_run pid w :
  ∃ w', terminate_pid pid w = (Ok tt, w')
        ∧ outward w w' [HKill pid SIGTERM; HSleep grace; HKill pid SIGKILL].
Proof.
  unfold terminate_pid.
  destruct (tell_run (HKill pid SIGTERM) (host_kill pid SIGTERM) w) as (w1 & E1 & O1 & _).
  destruct (tell_run (HSleep grace) (host_sleep grace) w1) as (w2 & E2 & O2 & _).
  destruct (tell_run (HKill pid SIGKILL) (host_kill pid SIGKILL) w2) as (w3 & E3 & O3 & _).
  exists w3. unfold SyscallKill, SleepFor.
  rewrite (bind_ok _ _ _ _ _ E1), (bind_ok _ _ _ _ _ E2). split; [done|].
  exact (outward_app _ _ _ _ _ O1 (outward_app _ _ _ _ _ O2 O3)).
Qed.

(** The process a PID file names: it could be read and holds a number. *)
Definition pid_in (data : result error string) : option Z :=
  match data with
  | Ok text => match Atoi (TrimSpace text) with Ok pid => Some pid | Err _ => None end
  | Err _ => None
  end.
(** What dealing with a PID file that reads [data] must be: the process it names
    gets SIGTERM, the grace period and SIGKILL, no other process gets anything, and
    the file is removed.  [data] is the answer the trace holds. *)
Definition pid_file_calls (f : string) (data : result error string) : list hcall :=
  HReadPidFile f data ::
  (match pid_in data with
   | Some pid => [HKill pid SIGTERM; HSleep grace; HKill pid SIGKILL]
   | None => []
   end) ++ [HRemove f].

Lemma cleanupPIDFile_run f w :
  ∃ w', cleanupPIDFile f w = (Ok tt, w')
        ∧ outward w w' (pid_file_calls f (host_ReadPidFile f (host w)).1).
Proof.
  unfold cleanupPIDFile, pid_file_calls.
  destruct (ask_run (HReadPidFile f) (host_ReadPidFile f) w) as (w1 & E1 & O1 & _).
  rewrite (bind_ok _ _ _ _ _ E1). set (data := (host_ReadPidFile f (host w)).1) in *.
  assert (∃ w2 l, (match data with
     | Ok text => match Atoi (TrimSpace text) with Ok pid => terminate_pid pid | Err _ => mret tt end
     | Err _ => mret tt end) w1 = (Ok tt, w2) ∧ outward w1 w2 l
     ∧ l = match pid_in data with
           | Some pid => [HKill pid SIGTERM; HSleep grace; HKill pid SIGKILL]
           | None => []
           end) as (w2 & l & E2 & O2 & <-).
  { unfold pid_in. destruct data as [text|]; [destruct (Atoi (TrimSpace text)) as [pid|]|];
      [|exists w1, []; by split_and!; [|apply outward_nil|]..].
    destruct (terminate_pid_run pid w1) as (w2 & ? & ?). by exists w2, [HKill pid SIGTERM; HSleep grace; HKill pid SIGKILL]. }
  rewrite (bind_ok _ _ _ _ _ E2).
  destruct (tell_run (HRemove f) (host_Remove f) w2) as (w3 & E3 & O3 & _).
  exists w3. split; [done|]. exact (outward_app _ _ _ _ _ O1 (outward_app _ _ _ _ _ O2 O3)).
Qed.

(** The host answered so when it was asked for the file. *)
Definition answered (f : string) (data : result error string) : Prop := ∃ h, data = (host_ReadPidFile f h).1.
Lemma cleanup_files_run fs w :
  ∃ w' datas, for_each cleanupPIDFile fs w = (Ok tt, w') ∧ Forall2 answered fs datas
    ∧ outward w w' (List.concat (zip_with pid_file_calls fs datas)).
Proof.
  revert w. induction fs as [|f fs IH]; intros w; cbn [for_each].
  - exists w, []. split_and!; [done|constructor|]. apply outward_nil.
  - destruct (cleanupPIDFile_run f w) as (w1 & E1 & O1). rewrite (bind_ok _ _ _ _ _ E1).
    destruct (IH w1) as (w2 & ds & E2 & L2 & O2). exists w2, ((host_ReadPidFile f (host w)).1 :: ds).
    split_and!; [done|constructor; [by eexists|done]|]. exact (outward_app _ _ _ _ _ O1 O2).
Qed.

(** What stopping command [i] asks of the host. *)
Definition stop_calls (i : nat) (c : option Cmd) : list hcall :=
  match c with
  | None => []
  | Some c => [HSignal i SIGTERM; HSleep grace]
              ++ (if cmd_waited c then [] else [HSignal i SIGKILL; HWait i])
  end.
Definition waited (c : Cmd) : Cmd := {| cmd_process := cmd_process c; cmd_waited := true |}.

Lemma waited_id c : cmd_waited c = true → waited c = c.
Proof. by destruct c as [p []]. Qed.

Lemma alter_same {A} (f : A → A) i (l : list A) :
  (∀ x, l !! i = Some x → f x = x) → alter f i l = l.
Proof.
  intros Hf. apply list_eq. intros j. destruct (decide (i = j)) as [<-|].
  - rewrite list_lookup_alter_eq. destruct (l !! i) as [x|] eqn:E; [|done]. cbn. by rewrite Hf.
  - by rewrite list_lookup_alter_ne.
Qed.

Lemma Wait_run i c w :
  cmds w !! i = Some c →
  ∃ s w', Wait i w = (Ok s, w') ∧ pm w' = pm w ∧ workDir w' = workDir w
    ∧ calls w' = calls w ++ (if cmd_waited c then [] else [HWait i])
    ∧ cmds w' = alter waited i (cmds w).
Proof.
  intros Hc. unfold Wait, on_cmd. rewrite bind_run. cbn [gets]. unfold gets. rewrite Hc.
  destruct (cmd_waited c) eqn:Ew.
  - eexists _, w. split_and!; [done..|by rewrite app_nil_r|]. symmetry.
    apply alter_same. intros x Hx. rewrite Hc in Hx. injection Hx as <-. by apply waited_id.
  - destruct (ask_run (λ _, HWait i) (host_wait (cmd_process c)) w) as (w1 & E1 & O1 & _).
    rewrite (bind_ok _ _ _ _ _ E1). destruct O1 as [A1 A2 A3 A4].
    eexists _, _. split; [done|]. cbn. split_and!; [done..|]. by rewrite A2.
Qed.

Lemma Signal_run i c s w :
  cmds w !! i = Some c → ∃ w', Signal i s w = (Ok tt, w') ∧ outward w w' [HSignal i s].
Proof.
  intros Hc. unfold Signal, on_cmd. rewrite bind_run. unfold gets. rewrite Hc.
  destruct (tell_run (HSignal i s) (host_signal (cmd_process c) s) w) as (w1 & ? & ? & _).
  by exists w1.
Qed.

Lemma stop_process_run i w :
  ∃ w', stop_process i w = (Ok tt, w') ∧ pm w' = pm w
    ∧ calls w' = calls w ++ stop_calls i (cmds w !! i)
    ∧ cmds w' = alter waited i (cmds w).
Proof.
  unfold stop_process, on_cmd. rewrite bind_run. unfold gets at 1. cbv beta iota zeta.
  destruct (cmds w !! i) as [c|] eqn:Hc; cbn [stop_calls].
  2: { exists w. split_and!; [done..|by rewrite app_nil_r|]. symmetry. apply alter_same.
       intros x Hx. congruence. }
  destruct (Signal_run i c SIGTERM w Hc) as (w1 & E1 & O1). rewrite (bind_ok _ _ _ _ _ E1).
  destruct (tell_run (HSleep grace) (host_sleep grace) w1) as (w2 & E2 & O2 & _).
  unfold SleepFor. rewrite (bind_ok _ _ _ _ _ E2), bind_run. unfold gets at 1. cbv beta iota zeta.
  pose proof (outward_app _ _ _ _ _ O1 O2) as O.
  assert (Hc2 : cmds w2 !! i = Some c) by by rewrite (outward_cmds _ _ _ O).
  rewrite Hc2.
  assert (∃ w3 l, (if cmd_waited c then mret tt else Signal i SIGKILL) w2 = (Ok tt, w3)
    ∧ outward w2 w3 l ∧ l = if cmd_waited c then [] else [HSignal i SIGKILL])
    as (w3 & l & E3 & O3 & ->).
  { destruct (cmd_waited c); [exists w2, []; by split_and!; [|apply outward_nil|]|].
    destruct (Signal_run i c SIGKILL w2 Hc2) as (w3 & ? & ?). by exists w3, [HSignal i SIGKILL]. }
  rewrite (bind_ok _ _ _ _ _ E3).
  assert (Hc3 : cmds w3 !! i = Some c) by by rewrite (outward_cmds _ _ _ O3).
  destruct (Wait_run i c w3 Hc3) as (s & w4 & E4 & P4 & _ & C4 & M4). rewrite (bind_ok _ _ _ _ _ E4).
  exists w4. split_and!; [done| | |].
  - by rewrite P4, (outward_pm _ _ _ O3), (outward_pm _ _ _ O).
  - rewrite C4, (outward_calls _ _ _ O3), (outward_calls _ _ _ O), <- !app_assoc. cbn [app].
    by destruct (cmd_waited c).
  - by rewrite M4, (outward_cmds _ _ _ O3), (outward_cmds _ _ _ O).
Qed.

Lemma stop_all_run ps w :
  NoDup ps →
  ∃ w', for_each stop_process ps w = (Ok tt, w') ∧ pm w' = pm w
    ∧ calls w' = calls w ++ List.concat (map (λ i, stop_calls i (cmds w !! i)) ps)
    ∧ ∀ j, cmds w' !! j = if decide (j ∈ ps) then waited <$> cmds w !! j else cmds w !! j.
Proof.
  revert w. induction ps as [|i ps IH]; intros w Hnd; cbn [for_each].
  - exists w. split_and!; [done..|by rewrite app_nil_r|]. intros j.
    by destruct (decide (j ∈ [])) as [?%elem_of_nil|].
  - apply NoDup_cons in Hnd as [Hi Hnd].
    destruct (stop_process_run i w) as (w1 & E1 & P1 & C1 & M1). rewrite (bind_ok _ _ _ _ _ E1).
    destruct (IH w1 Hnd) as (w2 & E2 & P2 & C2 & M2). exists w2.
    assert (Hother : ∀ j, j ∈ ps → cmds w1 !! j = cmds w !! j).
    { intros j Hj. rewrite M1. apply list_lookup_alter_ne. intros ->. done. }
    split_and!; [done|congruence| |].
    + rewrite C2, C1, <- app_assoc. cbn. do 3 f_equal. apply map_ext_in. intros j Hj.
      by rewrite Hother by by apply list_elem_of_In.
    + intros j. rewrite M2. destruct (decide (j = i)) as [->|Hj].
      * rewrite decide_False by done. rewrite decide_True by by constructor.
        by rewrite M1, list_lookup_alter_eq.
      * rewrite M1, list_lookup_alter_ne by done.
        destruct (decide (j ∈ ps)); [rewrite decide_True by by constructor|]; [done|].
        rewrite decide_False; [done|]. by intros [?|?]%elem_of_cons.
Qed.
End ProcessManager.

(** ** Properties *)

Section ManagerProperties.
Context {H : Host}.
Implicit Types (w : RunWorld).

(** The PID file of swtpm is honoured and always removed.  When the file
    holds a decimal number the way a daemon writes it, with or without a newline
    at its end, that process gets SIGTERM, half a second, SIGKILL; any other
    content, or no file, kills nothing; in every case the file is removed last
    and nothing is reported as an error.  Numbers that are no process (0 and
    negatives, which address process groups) are signalled like any other. *)
Theorem cleanupPIDFile_correct f w :
  let data := (host_ReadPidFile f (host w)).1 in
  ∃ w' l, cleanupPIDFile f w = (Ok tt, w') ∧ outward w w' (HReadPidFile f data :: l ++ [HRemove f]) ∧
    (∀ pid s, HKill pid s ∈ l → ∃ text, data = Ok text ∧ Atoi (TrimSpace text) = Ok pid) ∧
    (∀ pid nl, is_int pid → (nl = EmptyString ∨ nl = String newline EmptyString) →
       data = Ok (fmt_d pid +:+ nl) →
       l = [HKill pid SIGTERM; HSleep grace; HKill pid SIGKILL]).
Proof.
  cbv zeta. destruct (cleanupPIDFile_run f w) as (w' & E & O). unfold pid_file_calls, pid_in in O.
  exists w'. eexists. split_and!; [done|exact O|..].
  - intros pid s Hin. destruct (host_ReadPidFile f (host w)).1 as [text|]; [|by apply elem_of_nil in Hin].
    destruct (Atoi (TrimSpace text)) as [p|] eqn:Ea; [|by apply elem_of_nil in Hin].
    exists text. split; [done|]. rewrite !elem_of_cons, elem_of_nil in Hin. by destruct Hin as [[= -> _]|[[=]|[[= -> _]|[]]]].
  - intros pid nl Hp Hnl ->. replace (TrimSpace (fmt_d pid +:+ nl)) with (fmt_d pid).
    + by rewrite Atoi_fmt_d.
    + destruct Hnl as [-> | ->].
      * by rewrite append_nil_r, TrimSpace_visible by apply fmt_d_visible.
      * by rewrite TrimSpace_newline by auto using fmt_d_not_empty, fmt_d_visible.
Qed.

(** C28: [CleanupAll] stops everything it was told of, and only that: it always
    succeeds, cancels its own context (which no command runs under), then goes
    through every PID file in order: the host is asked for it, and exactly the
    number in the answer, if there is one, gets SIGTERM, half a second and
    SIGKILL, before the file is removed; then through the processes in order:
    SIGTERM, half a second, and for those not yet waited for SIGKILL and [Wait].
    Afterwards [Wait] was called for every registered process and no other command
    has changed. *)
Theorem CleanupAll_correct w :
  NoDup (processes (pm w)) →
  ∃ w' datas, CleanupAll w = (Ok tt, w') ∧
    Forall2 answered (pidFiles (pm w)) datas ∧
    calls w' = calls w ++ HCancelManager
      :: List.concat (zip_with pid_file_calls (pidFiles (pm w)) datas)
      ++ List.concat (map (λ i, stop_calls i (cmds w !! i)) (processes (pm w))) ∧
    pm_cancelled (pm w') = true ∧
    (∀ j, cmds w' !! j
      = if decide (j ∈ processes (pm w)) then waited <$> cmds w !! j else cmds w !! j).
Proof.
  intros Hnd. unfold CleanupAll. rewrite bind_run. unfold modify, gets.
  set (w0 := set_pm _ _). cbv beta iota. rewrite bind_run. cbv beta iota.
  destruct (cleanup_files_run (pidFiles (pm w0)) w0) as (w1 & datas & E1 & L & O1).
  rewrite (bind_ok _ _ _ _ _ E1), bind_run. cbv beta iota zeta.
  rewrite (outward_pm _ _ _ O1).
  destruct (stop_all_run (processes (pm w0)) w1 Hnd) as (w2 & E2 & P2 & C2 & M2).
  rewrite (outward_cmds _ _ _ O1) in C2, M2. exists w2, datas. split_and!; [done|done| |by rewrite P2, (outward_pm _ _ _ O1)|exact M2].
  rewrite C2, (outward_calls _ _ _ O1). cbn. by rewrite <- !app_assoc.
Qed.
End ManagerProperties.

(** A world with swtpm's PID file and one running QEMU registered. *)
Definition busy_world : @RunWorld ScriptedHost := {|
  host := put "/w/swtpm.pid" ("4242" +:+ newline_s) ready_host;
  cmds := [{| cmd_process := tt; cmd_waited := false |}];
  pm := {| processes := [0]; pidFiles := ["/w/swtpm.pid"]; pm_cancelled := false |};
  workDir := "/w"; ctx_done := false; streams := []; printed := []; calls := [] |}.

Lemma cleanupPIDFile_correct_witness :
  (host_ReadPidFile "/w/swtpm.pid" (host busy_world)).1 = Ok (fmt_d 4242 +:+ newline_s) ∧
  ∃ w' l, cleanupPIDFile "/w/swtpm.pid" busy_world = (Ok tt, w')
    ∧ l = [HKill 4242 SIGTERM; HSleep grace; HKill 4242 SIGKILL].
Proof.
  split; [exact eq_refl|].
  destruct (cleanupPIDFile_correct "/w/swtpm.pid" busy_world) as (w' & l & E & _ & _ & Hk).
  exists w', l. split; [exact E|]. apply (Hk _ newline_s); [done|by right|exact eq_refl].
Defined.

Lemma CleanupAll_correct_witness :
  NoDup (processes (pm busy_world)) ∧ ∃ w', CleanupAll busy_world = (Ok tt, w') ∧
    calls w' = HCancelManager :: pid_file_calls "/w/swtpm.pid" (Ok ("4242" +:+ newline_s))
                 ++ [HSignal 0 SIGTERM; HSleep grace; HSignal 0 SIGKILL; HWait 0] ∧
    cmds w' !! 0 = Some (waited {| cmd_process := tt; cmd_waited := false |}).
Proof.
  assert (Hnd : NoDup (processes (pm busy_world))) by (apply NoDup_singleton).
  split; [exact Hnd|].
  destruct (CleanupAll_correct busy_world Hnd) as (w' & datas & E & _ & _ & _ & M).
  exists w'. split; [exact E|]. split; [|exact (M 0)].
  apply (f_equal (λ x, calls x.2)) in E. cbn [snd] in E. rewrite <- E. vm_compute. reflexivity.
Defined.
