(* ===== verification/OutputStreamer.v ===== *)
(** * OutputStreamer: copying the output of a process line by line

    runner/process_manager.go, lines 84-197.  A reader is the list of what its
    [Read] calls return: some bytes, and whether an error (end of file included)
    came with them; the copying goroutine stops at the first error.  The filter
    of escape sequences is [vm.ProcessEscapeSequences], which is not in the
    repository: a parameter that gives, for some bytes, the output and the
    incomplete sequence at their end. *)

From stdpp Require Import relations.
From S2P Require Import Prelude GoStrings VmLib HostWorld.

Definition newline_str : string := String newline EmptyString.
(** The bytes of a text that are no newline. *)
Definition drop_newlines (s : string) : string := ReplaceAll s newline EmptyString.
Definition not_empty (s : string) : bool := negb (String.eqb s "").
(** What is printed of a text: its lines, empty ones left out. *)
Definition text_lines (s : string) : list string := List.filter not_empty (Split s newline).

Definition maxLineBuf : nat := 4096.

Section AttachTagged.
Variable ProcessEscapeSequences : string → string * string.

Record copier := { pending : string; lineBuf : string }.

(** The inner loop: print the complete lines, keep the rest. *)
Fixpoint lines_loop (fuel : nat) (buf : string) : list string * string :=
  match fuel with
  | O => ([], buf)
  | S fuel' =>
      match cut_at newline buf with
      | None => ([], buf)
      | Some (line, rest) =>
          let '(ls, last) := lines_loop fuel' rest in
          ((if String.eqb line "" then [] else [line]) ++ ls, last)
      end
  end.

Definition on_data (chunk : string) (st : copier) : list string * copier :=
  let '(output, incomplete) := ProcessEscapeSequences (pending st +:+ chunk) in
  let buf := lineBuf st +:+ output in
  let '(ls, rest) := lines_loop (S (String.length buf)) buf in
  if (maxLineBuf <? String.length rest)%nat
  then (ls ++ [rest], {| pending := incomplete; lineBuf := "" |})
  else (ls, {| pending := incomplete; lineBuf := rest |}).

Definition at_end (st : copier) : list string :=
  let buf := lineBuf st +:+ pending st in
  if String.eqb buf "" then [] else [buf].

(** The texts printed after the tag, in order. *)
Fixpoint copy_tagged (st : copier) (reads : list (string * bool)) : list string :=
  match reads with
  | [] => []
  | (chunk, err) :: reads' =>
      let '(out, st') := if String.eqb chunk "" then ([], st) else on_data chunk st in
      out ++ (if err then at_end st' else copy_tagged st' reads')
  end.

Definition AttachTagged (reads : list (string * bool)) : list string :=
  copy_tagged {| pending := ""; lineBuf := "" |} reads.

(** What the filter makes of a stream: all its outputs, then what was left
    incomplete at the end. *)
Fixpoint filtered (pend : string) (reads : list (string * bool)) : string :=
  match reads with
  | [] => ""
  | (chunk, err) :: reads' =>
      let '(output, incomplete) :=
        if String.eqb chunk "" then ("", pend) else ProcessEscapeSequences (pend +:+ chunk) in
      output +:+ (if err then incomplete else filtered incomplete reads')
  end.

(** A stream that was read to its end, in one call with the error or before. *)
Definition finished (reads : list (string * bool)) : Prop :=
  ∃ before last, reads = before ++ [(last, true)] ∧ Forall (λ r, r.2 = false) before.

(** ** Lemmas *)

Definition last_line (s : string) : string := List.last (Split s newline) "".

Lemma Split_cut s line rest :
  cut_at newline s = Some (line, rest) → Split s newline = line :: Split rest newline.
Proof. intros [-> H]%cut_at_spec. by apply Split_sep. Qed.

Lemma lines_loop_spec fuel buf :
  (String.length buf < fuel)%nat →
  lines_loop fuel buf = (List.filter not_empty (removelast (Split buf newline)), last_line buf).
Proof.
  revert buf. induction fuel as [|fuel IH]; intros buf Hl; [lia|]. cbn [lines_loop].
  destruct (cut_at newline buf) as [[line rest]|] eqn:E.
  - pose proof (Split_cut _ _ _ E) as Hs. apply cut_at_spec in E as [-> _].
    rewrite length_append in Hl. cbn in Hl. rewrite IH by lia.
    unfold last_line. rewrite Hs. pose proof (Split_not_nil rest newline).
    destruct (Split rest newline) as [|x l]; [done|]. cbn [removelast List.filter].
    unfold not_empty at 2. by destruct (String.eqb line "").
  - apply cut_at_None in E. unfold last_line. by rewrite Split_lacks_id.
Qed.

Lemma text_lines_last s :
  text_lines s = List.filter not_empty (removelast (Split s newline))
                 ++ (if String.eqb (last_line s) "" then [] else [last_line s]).
Proof.
  unfold text_lines, last_line. pose proof (Split_not_nil s newline) as Hn.
  rewrite (app_removelast_last "" Hn) at 1. rewrite List.filter_app. f_equal. cbn.
  unfold not_empty. by destruct (String.eqb _ "").
Qed.

Lemma drop_newlines_append s t : drop_newlines (s +:+ t) = drop_newlines s +:+ drop_newlines t.
Proof.
  unfold drop_newlines. induction s as [|a s IH]; [done|].
  change (String a s +:+ t) with (String a (s +:+ t)). cbn [ReplaceAll]. rewrite IH.
  by destruct (Ascii.eqb a newline).
Qed.

Fixpoint concat_all (l : list string) : string :=
  match l with
  | [] => ""
  | x :: l' => x +:+ concat_all l'
  end.

Lemma concat_all_app l1 l2 : concat_all (l1 ++ l2) = concat_all l1 +:+ concat_all l2.
Proof. induction l1 as [|x l1 IH]; [done|]. cbn [app concat_all]. by rewrite IH, append_assoc. Qed.
Lemma concat_all_not_empty l : concat_all (List.filter not_empty l) = concat_all l.
Proof. induction l as [|x l IH]; [done|]. cbn. destruct x; cbn; by rewrite IH. Qed.

Lemma drop_newlines_lacks s : lacks newline s = true → drop_newlines s = s.
Proof.
  unfold drop_newlines. induction s as [|a s IH]; [done|]. cbn. rewrite andb_true_iff, negb_true_iff.
  intros [Ha Hs]. by rewrite Ha, IH.
Qed.
Lemma drop_newlines_concat l :
  drop_newlines (concat_all l) = concat_all (map drop_newlines l).
Proof. induction l as [|x l IH]; [done|]. cbn [concat_all map]. by rewrite drop_newlines_append, IH. Qed.
Lemma drop_newlines_split s : drop_newlines s = concat_all (Split s newline).
Proof.
  unfold drop_newlines. induction s as [|a s IH]; [done|]. cbn [ReplaceAll Split].
  rewrite IH. destruct (Ascii.eqb a newline); [done|].
  pose proof (Split_not_nil s newline). by destruct (Split s newline).
Qed.

(** One read: what is printed and what is kept, without newlines, is what was
    kept and what came. *)
Lemma on_data_conserves chunk st out st' :
  on_data chunk st = (out, st') →
  drop_newlines (concat_all out +:+ lineBuf st')
  = drop_newlines (lineBuf st +:+ (ProcessEscapeSequences (pending st +:+ chunk)).1)
  ∧ pending st' = (ProcessEscapeSequences (pending st +:+ chunk)).2.
Proof.
  unfold on_data. destruct (ProcessEscapeSequences _) as [output incomplete]. cbn [fst snd].
  rewrite lines_loop_spec by lia. set (buf := lineBuf st +:+ output).
  assert (Hb : drop_newlines (concat_all (List.filter not_empty (removelast (Split buf newline)))
               +:+ last_line buf) = drop_newlines buf).
  { rewrite <- (Join_Split buf newline) at 3. rewrite Join_Split, (drop_newlines_split buf).
    rewrite drop_newlines_append, drop_newlines_concat.
    pose proof (Split_lacks buf newline) as Hl. unfold last_line.
    rewrite (app_removelast_last "" (Split_not_nil buf newline)) in Hl at 1.
    apply Forall_app in Hl as [Hl Hlast]. inversion Hlast; subst.
    rewrite (drop_newlines_lacks (List.last _ _)) by done.
    rewrite (app_removelast_last "" (Split_not_nil buf newline)) at 3.
    rewrite concat_all_app. cbn. rewrite append_nil_r. f_equal.
    rewrite <- (concat_all_not_empty (removelast _)). f_equal. rewrite <- map_id.
    apply map_ext_in. intros x [Hx _]%filter_In. apply drop_newlines_lacks.
    rewrite List.Forall_forall in Hl. by apply Hl. }
  destruct (maxLineBuf <? _)%nat; intros [= <- <-]; cbn [lineBuf pending]; split; try done.
  rewrite concat_all_app. cbn. by rewrite !append_nil_r.
Qed.

Lemma copy_conserves before last st :
  Forall (λ r, r.2 = false) before →
  let reads := before ++ [(last, true)] in
  drop_newlines (concat_all (copy_tagged st reads))
  = drop_newlines (lineBuf st +:+ filtered (pending st) reads).
Proof.
  intros Hb. cbv zeta. revert st.
  assert (Hend : ∀ st, concat_all (at_end st) = lineBuf st +:+ pending st).
  { intros st. unfold at_end. destruct (String.eqb_spec (lineBuf st +:+ pending st) "") as [->|]; [done|].
    cbn. by rewrite append_nil_r. }
  induction Hb as [|[chunk err] before Herr Hb IH]; intros st; cbn [app copy_tagged filtered].
  - destruct (String.eqb last "").
    + cbn [app]. rewrite Hend. done.
    + destruct (on_data last st) as [out st'] eqn:E. apply on_data_conserves in E as [E Ep].
      destruct (ProcessEscapeSequences _) as [output inc]. cbn [fst snd] in *. subst inc.
      rewrite concat_all_app, Hend, <- !append_assoc, drop_newlines_append, E.
      by rewrite <- !drop_newlines_append.
  - cbn in Herr. subst err. destruct (String.eqb chunk "").
    + cbn [app]. exact (IH st).
    + destruct (on_data chunk st) as [out st'] eqn:E. apply on_data_conserves in E as [E Ep].
      destruct (ProcessEscapeSequences _) as [output inc]. cbn [fst snd] in *. subst inc.
      rewrite concat_all_app, drop_newlines_append, IH.
      rewrite <- drop_newlines_append, <- !append_assoc, drop_newlines_append, E.
      by rewrite <- !drop_newlines_append.
Qed.

(** Short lines: the text printed does not depend on the reads. *)
Definition short_lines (s : string) : Prop :=
  Forall (λ l, (String.length l ≤ maxLineBuf)%nat) (Split s newline).

Lemma text_lines_app a b :
  text_lines (a +:+ b)
  = List.filter not_empty (removelast (Split a newline)) ++ text_lines (last_line a +:+ b).
Proof. unfold text_lines, last_line. by rewrite Split_app_last, List.filter_app. Qed.

Lemma last_line_lacks s : lacks newline (last_line s) = true.
Proof.
  unfold last_line. pose proof (Split_lacks s newline) as Hl.
  rewrite (app_removelast_last "" (Split_not_nil s newline)) in Hl.
  apply Forall_app in Hl as [_ Hl]. by inversion Hl.
Qed.

Lemma short_lines_app a b :
  short_lines (a +:+ b) →
  (String.length (last_line a) ≤ maxLineBuf)%nat ∧ short_lines (last_line a +:+ b).
Proof.
  unfold short_lines. rewrite Split_app_last. fold (last_line a). intros [_ H]%Forall_app.
  split; [|done]. rewrite Split_append, (Split_lacks_id (last_line a)) in H by apply last_line_lacks.
  pose proof (Split_not_nil b newline). destruct (Split b newline) as [|x l]; [done|].
  cbn in H. inversion H; subst. rewrite length_append in *. lia.
Qed.

Hypothesis incomplete_no_newline : ∀ s, lacks newline (ProcessEscapeSequences s).2 = true.

Lemma copy_lines before last st :
  Forall (λ r, r.2 = false) before → lacks newline (lineBuf st) = true →
  lacks newline (pending st) = true →
  let reads := before ++ [(last, true)] in
  short_lines (lineBuf st +:+ filtered (pending st) reads) →
  copy_tagged st reads = text_lines (lineBuf st +:+ filtered (pending st) reads).
Proof.
  intros Hb. cbv zeta. revert st.
  assert (Hend : ∀ st, lacks newline (lineBuf st) = true → lacks newline (pending st) = true →
                 at_end st = text_lines (lineBuf st +:+ pending st)).
  { intros st H1 H2. unfold at_end, text_lines. rewrite Split_lacks_id.
    - cbn. unfold not_empty. by destruct (String.eqb _ _).
    - unfold lacks in *. by rewrite all_chars_append, H1, H2. }
  assert (Hstep : ∀ chunk st out st' more, on_data chunk st = (out, st') →
     short_lines (lineBuf st +:+ (ProcessEscapeSequences (pending st +:+ chunk)).1 +:+ more) →
     pending st' = (ProcessEscapeSequences (pending st +:+ chunk)).2 ∧
     lacks newline (lineBuf st') = true ∧ short_lines (lineBuf st' +:+ more) ∧
     text_lines (lineBuf st +:+ (ProcessEscapeSequences (pending st +:+ chunk)).1 +:+ more)
     = out ++ text_lines (lineBuf st' +:+ more)).
  { intros chunk st out st' more. unfold on_data. destruct (ProcessEscapeSequences _) as [output inc].
    cbn [fst snd]. rewrite lines_loop_spec by lia. rewrite <- append_assoc.
    set (buf := lineBuf st +:+ output). intros E Hs. apply short_lines_app in Hs as [Hl Hs].
    destruct (Nat.ltb_spec maxLineBuf (String.length (last_line buf))); [lia|].
    injection E as <- <-. cbn [lineBuf pending]. split_and!; [done|apply last_line_lacks|done|].
    apply text_lines_app. }
  induction Hb as [|[chunk err] before Herr Hb IH]; intros st H1 H2 Hs; cbn [app copy_tagged filtered] in *.
  - destruct (String.eqb last ""); [by apply Hend|].
    destruct (on_data last st) as [out st'] eqn:E.
    pose proof (Hstep last st out st' (ProcessEscapeSequences (pending st +:+ last)).2 E) as Hst.
    pose proof (incomplete_no_newline (pending st +:+ last)) as Hi.
    destruct (ProcessEscapeSequences _) as [output inc]. cbn [fst snd] in *.
    destruct (Hst Hs) as (Hp & Hl & _ & ->). rewrite Hend, Hp; [done|done|by rewrite Hp].
  - cbn in Herr. subst err. destruct (String.eqb chunk ""); [by apply IH|].
    destruct (on_data chunk st) as [out st'] eqn:E.
    pose proof (λ m, Hstep chunk st out st' m E) as Hst.
    pose proof (incomplete_no_newline (pending st +:+ chunk)) as Hi.
    destruct (ProcessEscapeSequences _) as [output inc]. cbn [fst snd] in *.
    destruct (Hst _ Hs) as (Hp & Hl & Hs' & ->). rewrite <- Hp in *. f_equal. apply IH; [done| |done].
    done.
Qed.
End AttachTagged.

(** ** Filtered and searched streams

    [bufio.Scanner] with its default settings on what a pipe delivers before its
    end: the lines, without their newline and one carriage return before it, an
    empty last line left out.  Its buffer holds 65536 bytes: when they are in it and
    no newline among them, [Scan] gives up, and nobody reads on. *)
Definition maxToken : N := 65536.
Definition too_long (line : string) : bool := (maxToken <=? N.of_nat (String.length line))%N.
Definition carriage_return : ascii := "013"%char.

Definition drop_cr (line : string) : string :=
  match rev_string line with
  | String c r => if Ascii.eqb c carriage_return then rev_string r else line
  | EmptyString => line
  end.

(** What is behind the first [n] bytes. *)
Fixpoint behind (n : N) (s : string) : string :=
  match s with
  | EmptyString => ""
  | String _ s' => if (n =? 0)%N then s else behind (N.pred n) s'
  end.
(** [scanner.Scan()] with [text] still to come: the line, and what comes after it;
    or that there is none, and what is left unread. *)
Inductive token := Line (line rest : string) | NoLine (unread : string).
Definition Scan (text : string) : token :=
  match cut_at newline text with
  | Some (line, rest) => if too_long line then NoLine (behind maxToken text) else Line (drop_cr line) rest
  | None => if too_long text then NoLine (behind maxToken text)
            else if String.eqb text "" then NoLine "" else Line (drop_cr text) ""
  end.

(** [for scanner.Scan()], doing [body] with each line: what the bodies print, and
    what is left unread. *)
Fixpoint scan_loop {A} (fuel : nat) (body : string → list A) (text : string) : list A * string :=
  match fuel with
  | O => ([], text)
  | S fuel' =>
      match Scan text with
      | NoLine unread => ([], unread)
      | Line line rest => let '(out, unread) := scan_loop fuel' body rest in (body line ++ out, unread)
      end
  end.
Definition scan_all {A} (body : string → list A) (text : string) : list A * string :=
  scan_loop (S (String.length text)) body text.

(** [AttachFilter]: the writes to standard error ([fmt.Fprintln]), and what is left
    unread. *)
Definition matches_any (patterns : list string) (line : string) : bool :=
  existsb (Contains line) patterns.
Definition AttachFilter (tag text : string) (patterns : list string) : list string * string :=
  scan_all (λ line, if matches_any patterns line then [tag +:+ " " +:+ line +:+ newline_str] else []) text.

(** [MatchSync]: the submatches the callback gets, if it is called. *)
Fixpoint first_match (re : string → option (list string)) (lines : list string) :
    option (list string) :=
  match lines with
  | [] => None
  | l :: lines' =>
      match re l with
      | Some (m :: ms) => Some (m :: ms)
      | _ => first_match re lines'
      end
  end.
Definition MatchSync (text : string) (re : string → option (list string)) : option (list string) :=
  first_match re (scan_all (λ line, [line]) text).1.

(** ** Waiting for the streams

    The two wait groups as a state machine.  A stream is live from its attach
    to the end of its goroutine; [panicked]: a counter would go below zero. *)
Record groups := {
  monitored : nat;
  detached : nat;
  live : list (nat * StreamType);
  attached : list (nat * StreamType);
  panicked : bool;
}.
Definition NewOutputStreamer : groups :=
  {| monitored := 0; detached := 0; live := []; attached := []; panicked := false |}.

(** [wg.Add(1)] and the start of the goroutine. *)
Definition attach (t : StreamType) (g : groups) : groups :=
  let id := length (attached g) in
  {| monitored := match t with Monitored => S (monitored g) | Detached => monitored g end;
     detached := match t with Monitored => detached g | Detached => S (detached g) end;
     live := live g ++ [(id, t)]; attached := attached g ++ [(id, t)]; panicked := panicked g |}.
(** [defer wg.Done()] at the end of stream [s]. *)
Definition stream_done (s : nat * StreamType) (g : groups) : groups :=
  {| monitored := match s.2 with Monitored => pred (monitored g) | Detached => monitored g end;
     detached := match s.2 with Monitored => detached g | Detached => pred (detached g) end;
     live := List.filter (λ x, negb (x.1 =? s.1)%nat) (live g); attached := attached g;
     panicked := panicked g
       || match s.2 with Monitored => (monitored g =? 0)%nat | Detached => (detached g =? 0)%nat end |}.

Inductive groups_step : groups → groups → Prop :=
| step_attach t g : groups_step g (attach t g)
| step_done s g : s ∈ live g → groups_step g (stream_done s g).

(** [Wait] can return. *)
Definition Wait_returns (g : groups) : Prop := monitored g = 0.
(** [WaitAll] waits for one group and then for the other: it can return in [g'] when
    the first wait returned in [g], [g'] being that state or a later one. *)
Definition WaitAll_returns (g g' : groups) : Prop := monitored g = 0 ∧ detached g' = 0.

Definition stream_type_eqb (a b : StreamType) : bool :=
  match a, b with Monitored, Monitored | Detached, Detached => true | _, _ => false end.
Definition live_of (t : StreamType) (g : groups) : list (nat * StreamType) :=
  List.filter (λ s, stream_type_eqb s.2 t) (live g).

(** The counters count the live streams, each of which was attached under its
    own number. *)
Record groups_ok (g : groups) : Prop := {
  ok_monitored : monitored g = length (live_of Monitored g);
  ok_detached : detached g = length (live_of Detached g);
  ok_distinct : NoDup (map fst (live g));
  ok_attached : ∀ s, s ∈ live g → s.1 < length (attached g);
  ok_panicked : panicked g = false;
}.

Lemma filter_removes_one (p : nat * StreamType → bool) s l :
  NoDup (map fst l) → s ∈ l →
  length (List.filter p (List.filter (λ x, negb (x.1 =? s.1)%nat) l))
  = if p s then pred (length (List.filter p l)) else length (List.filter p l).
Proof.
  induction l as [|x l IH]; [by intros _ ?%elem_of_nil|]. cbn [map]. intros [Hx Hnd]%NoDup_cons Hs.
  cbn [List.filter]. apply elem_of_cons in Hs as [->|Hs].
  - rewrite Nat.eqb_refl. cbn [negb].
    assert (List.filter (λ y, negb (y.1 =? x.1)%nat) l = l) as ->.
    { clear -Hx. induction l as [|y l IH]; [done|]. cbn in *.
      destruct (Nat.eqb_spec y.1 x.1) as [E|]; [|cbn; f_equal; apply IH; by intros ?; apply Hx; constructor].
      destruct Hx. rewrite <- E. by constructor. }
    by destruct (p x).
  - assert (Hne : x.1 ≠ s.1). { intros E. apply Hx. rewrite E. apply list_elem_of_In, in_map, list_elem_of_In, Hs. }
    apply Nat.eqb_neq in Hne. rewrite Hne. cbn [negb List.filter]. destruct (p x); cbn [length]; [|by apply IH].
    rewrite IH by done. destruct (p s) eqn:Ep; [|done]. cbn.
    assert (length (List.filter p l) ≠ 0); [|lia].
    assert (Hin : In s (List.filter p l)) by (apply filter_In; by split; [apply list_elem_of_In|]).
    by destruct (List.filter p l).
Qed.

Lemma filter_sub {A} (p : A → bool) l x : x ∈ List.filter p l → x ∈ l.
Proof. rewrite !list_elem_of_In, filter_In. tauto. Qed.

Lemma NoDup_filter_fst (p : nat * StreamType → bool) l :
  NoDup (map fst l) → NoDup (map fst (List.filter p l)).
Proof.
  induction l as [|x l IH]; [done|]. cbn [map]. intros [Hx Hnd]%NoDup_cons. cbn.
  destruct (p x); [|by apply IH]. cbn. apply NoDup_cons. split; [|by apply IH].
  rewrite list_elem_of_In in Hx |- *. rewrite !in_map_iff in *.
  intros (y & E & Hy). apply Hx. exists y. split; [done|]. by apply filter_In in Hy as [? _].
Qed.

Lemma live_counted g s :
  groups_ok g → s ∈ live g → 0 < length (live_of s.2 g).
Proof.
  intros Hg Hs. assert (Hin : In s (live_of s.2 g)).
  { apply filter_In. split; [by apply list_elem_of_In|]. by destruct s as [? []]. }
  destruct (live_of s.2 g); [done|cbn; lia].
Qed.

Lemma attach_ok t g : groups_ok g → groups_ok (attach t g).
Proof.
  intros [A B C D E]. split; cbn.
  - unfold live_of. cbn. rewrite List.filter_app, length_app. fold (live_of Monitored g). destruct t; cbn; lia.
  - unfold live_of. cbn. rewrite List.filter_app, length_app. fold (live_of Detached g). destruct t; cbn; lia.
  - rewrite map_app. apply NoDup_app. split_and!; [done| |apply NoDup_singleton].
    intros i Hi ?%list_elem_of_singleton. cbn in *. subst.
    apply list_elem_of_In, in_map_iff in Hi as (s & E' & Hs%list_elem_of_In). apply D in Hs. lia.
  - intros s [Hs|Hs%list_elem_of_singleton]%elem_of_app; rewrite length_app; cbn.
    + apply D in Hs. lia.
    + subst. cbn. lia.
  - done.
Qed.

Lemma stream_done_ok s g : s ∈ live g → groups_ok g → groups_ok (stream_done s g).
Proof.
  intros Hs Hg. pose proof (live_counted g s Hg Hs) as Hc. destruct Hg as [A B C D E].
  assert (Hl : ∀ t, length (live_of t (stream_done s g))
    = if stream_type_eqb s.2 t then pred (length (live_of t g)) else length (live_of t g)).
  { intros t. unfold live_of. cbn. by apply (filter_removes_one (λ x, stream_type_eqb x.2 t)). }
  split.
  - rewrite Hl. cbn. rewrite A. by destruct s as [? []].
  - rewrite Hl. cbn. rewrite B. by destruct s as [? []].
  - by apply NoDup_filter_fst.
  - intros x Hx. cbn. apply D. cbn in Hx. by apply filter_sub in Hx.
  - cbn. rewrite E, A, B. cbn. destruct s as [i []]; cbn in *; apply Nat.eqb_neq; lia.
Qed.

Lemma reachable_ok g : rtc groups_step NewOutputStreamer g → groups_ok g.
Proof.
  apply (rtc_ind_r (groups_ok)).
  - split; try done; try apply NoDup_nil_2. intros s Hs. by apply elem_of_nil in Hs.
  - intros g1 g2 _ [t ?|s ? Hs] Hg; [by apply attach_ok|by apply stream_done_ok].
Qed.

Lemma no_monitored g : groups_ok g → (monitored g = 0 ↔ ∀ s, s ∈ live g → s.2 = Detached).
Proof.
  intros Hg. pose proof (live_counted g) as Hc. pose proof Hg as [A _ _ _ _]. split.
  - intros H0 s Hs. apply Hc in Hs; [|done]. destruct s as [i []]; cbn in *; [lia|done].
  - intros H0. rewrite A. destruct (live_of Monitored g) as [|s l] eqn:El; [done|].
    assert (Hin : In s (live_of Monitored g)) by (rewrite El; by left).
    apply filter_In in Hin as [Hin Ht]. apply list_elem_of_In, H0 in Hin. by rewrite Hin in Ht.
Qed.
Lemma no_detached g : groups_ok g → (detached g = 0 ↔ ∀ s, s ∈ live g → s.2 = Monitored).
Proof.
  intros Hg. pose proof (live_counted g) as Hc. pose proof Hg as [_ B _ _ _]. split.
  - intros H0 s Hs. apply Hc in Hs; [|done]. destruct s as [i []]; cbn in *; [done|lia].
  - intros H0. rewrite B. destruct (live_of Detached g) as [|s l] eqn:El; [done|].
    assert (Hin : In s (live_of Detached g)) by (rewrite El; by left).
    apply filter_In in Hin as [Hin Ht]. apply list_elem_of_In, H0 in Hin. by rewrite Hin in Ht.
Qed.
(** A live stream was live before or has been attached since. *)
Lemma live_since g g' s :
  rtc groups_step g g' → s ∈ live g' → s ∈ live g ∨ length (attached g) ≤ s.1.
Proof.
  intros Hr. induction Hr as [g|g1 g2 g3 St _ IH]; [by left|]. intros Hs. apply IH in Hs. clear IH.
  destruct St as [t g|x g _]; cbn in Hs.
  - rewrite length_app in Hs. cbn in Hs. destruct Hs as [[?|Hs%list_elem_of_singleton]%elem_of_app|?];
      [by left|right; by subst|right; lia].
  - destruct Hs as [Hs|?]; [left|by right]. by apply filter_sub in Hs.
Qed.

(** ** Properties *)

(** Nothing is lost.  Whatever the filter of escape sequences is and
    however the reads cut the stream, the text printed for a stream that was
    read to its end is, newlines aside, the filter's output followed by the
    incomplete sequence left at the end, byte for byte and in order. *)
Theorem AttachTagged_conserves esc reads :
  finished reads →
  drop_newlines (concat_all (AttachTagged esc reads)) = drop_newlines (filtered esc "" reads).
Proof.
  intros (before & last & -> & Hb).
  exact (copy_conserves esc before last {| pending := ""; lineBuf := "" |} Hb).
Qed.

(** The filter works on a stream: cutting it elsewhere changes nothing. *)
Definition incremental (esc : string → string * string) : Prop :=
  esc "" = ("", "") ∧
  ∀ a b, esc (a +:+ b)
         = ((esc a).1 +:+ (esc ((esc a).2 +:+ b)).1, (esc ((esc a).2 +:+ b)).2).

Lemma filtered_whole esc before last a :
  incremental esc → Forall (λ r, r.2 = false) before →
  (esc a).1 +:+ filtered esc (esc a).2 (before ++ [(last, true)])
  = (esc (a +:+ concat_all (map fst (before ++ [(last, true)])))).1
    +:+ (esc (a +:+ concat_all (map fst (before ++ [(last, true)])))).2.
Proof.
  intros [Hnil Hinc] Hb. revert a.
  induction Hb as [|[chunk err] before Herr Hb IH]; intros a; cbn [app map fst concat_all filtered].
  - rewrite append_nil_r. destruct (String.eqb_spec last "") as [->|Hne].
    + by rewrite append_nil_r.
    + rewrite (Hinc a last). destruct (esc ((esc a).2 +:+ last)) as [o i]. cbn [fst snd]. by rewrite append_assoc.
  - cbn in Herr. subst err. destruct (String.eqb_spec chunk "") as [->|Hne]; [apply IH|].
    pose proof (Hinc a chunk) as Ha.
    destruct (esc ((esc a).2 +:+ chunk)) as [o i]. cbn [fst snd] in Ha.
    specialize (IH (a +:+ chunk)). rewrite Ha in IH. cbn [fst snd] in IH.
    rewrite <- !append_assoc. exact IH.
Qed.

(** C20: lines do not depend on how the stream was cut.  For an incremental
    filter that never keeps a newline back, two ways of reading the same bytes
    print the same lines, namely the non-empty lines of the filtered text, as
    long as no line is over 4096 bytes (a longer one is printed in pieces where
    the reads cut it). *)
Theorem AttachTagged_lines esc reads1 reads2 :
  incremental esc → (∀ s, lacks newline (esc s).2 = true) →
  finished reads1 → finished reads2 →
  concat_all (map fst reads1) = concat_all (map fst reads2) →
  short_lines (filtered esc "" reads1) →
  AttachTagged esc reads1 = text_lines (filtered esc "" reads1) ∧
  AttachTagged esc reads2 = AttachTagged esc reads1.
Proof.
  intros Hi Hn (b1 & l1 & -> & H1) (b2 & l2 & -> & H2) Hsame Hs.
  assert (Hw : filtered esc "" (b1 ++ [(l1, true)]) = filtered esc "" (b2 ++ [(l2, true)])).
  { pose proof (filtered_whole esc b1 l1 "" Hi H1) as W1.
    pose proof (filtered_whole esc b2 l2 "" Hi H2) as W2.
    destruct Hi as [Hnil _]. rewrite Hnil in W1, W2. cbn [fst snd] in W1, W2.
    assert (E : ∀ s, "" +:+ s = s) by done. rewrite !E in W1, W2. congruence. }
  pose proof (copy_lines esc Hn b1 l1 {| pending := ""; lineBuf := "" |} H1 eq_refl eq_refl Hs) as C1.
  rewrite Hw in Hs.
  pose proof (copy_lines esc Hn b2 l2 {| pending := ""; lineBuf := "" |} H2 eq_refl eq_refl Hs) as C2.
  cbn in C1, C2. split; [exact C1|]. unfold AttachTagged. rewrite C1, C2, Hw. done.
Qed.

Lemma append_lacks c head rest line r :
  head +:+ rest = line +:+ String c r → lacks c head = true → ∃ s, line = head +:+ s.
Proof.
  revert line. induction head as [|x head IH]; intros line E Hn; [by exists line|].
  cbn in Hn. apply andb_true_iff in Hn as [Hx Hn]. destruct line as [|y line]; injection E as -> E.
  - by rewrite Ascii.eqb_refl in Hx.
  - destruct (IH line E Hn) as [s ->]. by exists s.
Qed.
Lemma string_cut n s : n ≤ String.length s → ∃ a b, s = a +:+ b ∧ String.length a = n.
Proof.
  revert s. induction n as [|n IH]; intros s Hs; [by exists "", s|]. destruct s as [|x s]; cbn in Hs; [lia|].
  destruct (IH s) as (a & b & -> & <-); [lia|]. by exists (String x a), b.
Qed.
Lemma long_head line :
  too_long line = true → lacks newline line = true →
  ∃ head s, line = head +:+ s ∧ lacks newline head = true ∧ N.of_nat (String.length head) = maxToken.
Proof.
  unfold too_long. intros Hl%N.leb_le Hn. destruct (string_cut (N.to_nat maxToken) line) as (head & s & -> & Hs); [lia|].
  rewrite lacks_append in Hn. apply andb_true_iff in Hn as [Hn _]. exists head, s. split_and!; [done..|lia].
Qed.

(** What a run of lines looks like in a stream. *)
Definition in_lines (l : list string) : string := concat_all (map (λ x, x +:+ newline_str) l).
Definition scannable (line : string) : Prop := lacks newline line = true ∧ too_long line = false.

Lemma behind_append a b : behind (N.of_nat (String.length a)) (a +:+ b) = b.
Proof.
  induction a as [|x a IH]; [by destruct b|].
  change (String.length (String x a)) with (S (String.length a)).
  change (String x a +:+ b) with (String x (a +:+ b)). rewrite Nat2N.inj_succ. cbn [behind].
  destruct (N.eqb_spec (N.succ (N.of_nat (String.length a))) 0); [lia|]. by rewrite N.pred_succ.
Qed.
Lemma in_lines_cons line l tail :
  in_lines (line :: l) +:+ tail = line +:+ String newline (in_lines l +:+ tail).
Proof. unfold in_lines. cbn [map concat_all]. by rewrite !append_assoc. Qed.

Section ScanLoop.
Context {A : Type} (body : string → list A).
Lemma scan_loop_lines fuel l tail :
  Forall scannable l → length l ≤ fuel →
  scan_loop fuel body (in_lines l +:+ tail)
  = let '(out, unread) := scan_loop (fuel - length l) body tail in (flat_map body (map drop_cr l) ++ out, unread).
Proof.
  intros Hl. revert fuel. induction Hl as [|line l [Hn Hs] Hl IH]; intros fuel Hf.
  { change (in_lines [] +:+ tail) with tail. cbn [length map flat_map app]. rewrite Nat.sub_0_r.
    by destruct (scan_loop fuel body tail). }
  cbn [length] in Hf. destruct fuel as [|fuel]; [lia|].
  rewrite in_lines_cons. cbn [scan_loop]. unfold Scan.
  rewrite (proj2 (cut_at_spec newline _ line (in_lines l +:+ tail))) by done. rewrite Hs, IH by lia.
  cbn [length]. rewrite Nat.sub_succ. destruct (scan_loop (fuel - length l) body tail) as [out unread].
  cbn [map flat_map]. by rewrite app_assoc.
Qed.
Lemma in_lines_length l tail : length l + String.length tail ≤ String.length (in_lines l +:+ tail).
Proof.
  induction l as [|line l IH]; [done|]. rewrite in_lines_cons, length_append. cbn [length String.length]. lia.
Qed.
Lemma scan_all_lines l tail :
  Forall scannable l → ∃ fuel,
  scan_all body (in_lines l +:+ tail)
  = let '(out, unread) := scan_loop (S (String.length tail + fuel)) body tail in (flat_map body (map drop_cr l) ++ out, unread).
Proof.
  intros Hl. pose proof (in_lines_length l tail) as Hlen.
  exists (String.length (in_lines l +:+ tail) - length l - String.length tail). unfold scan_all.
  rewrite scan_loop_lines by (done || lia).
  by replace (S (String.length (in_lines l +:+ tail)) - length l)
    with (S (String.length tail + (String.length (in_lines l +:+ tail) - length l - String.length tail))) by lia.
Qed.
(** A last line without a newline, of a length that fits. *)
Lemma scan_all_end l last :
  Forall scannable l → scannable last →
  scan_all body (in_lines l +:+ last)
  = (flat_map body (map drop_cr (l ++ if String.eqb last "" then [] else [last])), "").
Proof.
  intros Hl [Hn Hs]. destruct (scan_all_lines l last Hl) as [fuel ->]. cbn [scan_loop]. unfold Scan.
  rewrite (proj2 (cut_at_None newline last) Hn), Hs. destruct (String.eqb_spec last "") as [->|Hne].
  - by rewrite !app_nil_r.
  - rewrite map_app, flat_map_app. cbn [map flat_map].
    destruct last as [|x s]; [done|]. cbn [String.length plus scan_loop]. unfold Scan. cbn [cut_at].
    change (too_long "") with false. cbn [String.eqb]. by rewrite !app_nil_r.
Qed.
(** So many bytes without a newline: the end of the scan. *)
Lemma scan_all_stuck l head rest :
  Forall scannable l → lacks newline head = true → N.of_nat (String.length head) = maxToken →
  scan_all body (in_lines l +:+ head +:+ rest) = (flat_map body (map drop_cr l), rest).
Proof.
  intros Hl Hn Hs. destruct (scan_all_lines l (head +:+ rest) Hl) as [fuel ->]. cbn [scan_loop].
  assert (Hscan : Scan (head +:+ rest) = NoLine rest).
  { assert (Hlong : ∀ s, too_long (head +:+ s) = true).
    { intros s. unfold too_long. rewrite length_append. apply N.leb_le. lia. }
    unfold Scan. rewrite <- Hs, behind_append. destruct (cut_at newline (head +:+ rest)) as [[line r]|] eqn:E.
    - apply cut_at_spec in E as [E Hline]. apply append_lacks in E as [s ->]; [|done..]. by rewrite Hlong.
    - by rewrite Hlong. }
  rewrite Hscan. by rewrite app_nil_r.
Qed.
End ScanLoop.

(** Every stream has short lines first, and then its end or a line too long. *)
Lemma stream_parts text :
  ∃ l tail, text = in_lines l +:+ tail ∧ Forall scannable l ∧
    (scannable tail ∨ ∃ head rest, tail = head +:+ rest ∧ lacks newline head = true ∧
       N.of_nat (String.length head) = maxToken).
Proof.
  remember (String.length text) as n eqn:En. revert text En. induction (lt_wf n) as [n _ IH]. intros text ->.
  destruct (cut_at newline text) as [[line rest]|] eqn:E.
  - apply cut_at_spec in E as [-> Hn]. destruct (too_long line) eqn:Hs.
    + destruct (long_head line Hs Hn) as (head & s & -> & ? & ?). exists [], ((head +:+ s) +:+ String newline rest).
      split; [done|]. split; [done|]. right. exists head, (s +:+ String newline rest). by rewrite append_assoc.
    + destruct (IH (String.length rest)) with (text := rest) as (l & tail & -> & Hl & Ht);
        [rewrite length_append; cbn; lia|done|].
      exists (line :: l), tail. split; [by rewrite in_lines_cons|]. split; [by constructor|done].
  - apply cut_at_None in E. exists [], text. split; [done|]. split; [done|].
    destruct (too_long text) eqn:Hs; [right|by left].
    destruct (long_head text Hs E) as (head & s & -> & ? & ?). by exists head, s.
Qed.
Lemma filter_flat_map (p : string → bool) (f : string → string) l :
  flat_map (λ x, if p x then [f x] else []) l = map f (List.filter p l).
Proof. induction l as [|x l IH]; [done|]. cbn. rewrite IH. by destruct (p x). Qed.

(** C33: a filtered stream prints exactly its lines that contain a pattern, after
    the tag, in order, each once, and reads to the end, as long as no line has 65536
    bytes; the last line counts with or without a newline.  The first line that
    long ends the scan for good: what comes before it is printed as above, and all
    that follows its first 65536 bytes is left unread.  Every stream is one or the other. *)
Theorem AttachFilter_correct tag text patterns :
  let printed l := map (λ line, tag +:+ " " +:+ line +:+ newline_str)
                     (List.filter (λ line, existsb (Contains line) patterns) (map drop_cr l)) in
  ∃ before tail, text = in_lines before +:+ tail ∧ Forall scannable before ∧
    ((scannable tail ∧
      AttachFilter tag text patterns = (printed (before ++ if String.eqb tail "" then [] else [tail]), "")) ∨
     (∃ head unread, tail = head +:+ unread ∧ lacks newline head = true ∧
        N.of_nat (String.length head) = 65536%N ∧ AttachFilter tag text patterns = (printed before, unread))).
Proof.
  intros printed. destruct (stream_parts text) as (l & tail & -> & Hl & Ht). exists l, tail. do 2 (split; [done|]).
  unfold AttachFilter, printed. destruct Ht as [Ht|(head & rest & -> & Hn & Hs)]; [left|right].
  - split; [done|]. by rewrite scan_all_end, filter_flat_map.
  - exists head, rest. do 3 (split; [done|]). by rewrite scan_all_stuck, filter_flat_map.
Qed.

(** C32: the wait groups.  In every state the streamer can reach, whatever the
    order in which streams are attached and end, no counter has gone below zero,
    [Wait] can return exactly when no monitored stream is still being copied
    (detached ones do not hold it back), and [WaitAll], when nothing is attached
    meanwhile, when no stream is.  In general [WaitAll] returns exactly when its first
    wait found only detached streams and what its second wait finds still being copied are
    monitored streams attached since. *)
Theorem Wait_correct g :
  rtc groups_step NewOutputStreamer g →
  panicked g = false ∧
  (Wait_returns g ↔ ∀ s, s ∈ live g → s.2 = Detached) ∧
  (WaitAll_returns g g ↔ live g = []) ∧
  (∀ g', rtc groups_step g g' →
     (WaitAll_returns g g' ↔
      (∀ s, s ∈ live g → s.2 = Detached) ∧
      (∀ s, s ∈ live g' → s.2 = Monitored ∧ length (attached g) ≤ s.1))).
Proof.
  intros Hr. apply reachable_ok in Hr as Hg. unfold Wait_returns, WaitAll_returns.
  split_and!; [apply Hg|by apply no_monitored| |].
  - rewrite no_monitored, no_detached by done. split; [|by intros ->; split; intros s Hs%elem_of_nil].
    intros [H1 H2]. destruct (live g) as [|s l] eqn:El; [done|].
    assert (Hs : s ∈ live g) by (rewrite El; constructor). rewrite <- El in H1, H2.
    specialize (H1 s Hs). specialize (H2 s Hs). congruence.
  - intros g' Hl. assert (Hg' : groups_ok g') by (apply reachable_ok; by etrans).
    rewrite no_monitored, no_detached by done. split.
    + intros [H1 H2]. split; [done|]. intros s Hs. split; [by apply H2|].
      destruct (live_since g g' s Hl Hs) as [Hold|]; [|done]. apply H1 in Hold. apply H2 in Hs. congruence.
    + intros [H1 H2]. split; [done|]. intros s Hs. by apply H2.
Qed.

(** A filter that drops escape bytes. *)
Definition escape_byte : ascii := "027"%char.
Definition drop_escapes (s : string) : string * string := (ReplaceAll s escape_byte "", "").
Definition one_read : list (string * bool) :=
  [("ab" +:+ String escape_byte (String newline "cd"), false); ("", true)].
Definition two_reads : list (string * bool) :=
  [("a", false); ("b" +:+ String escape_byte "", false); (String newline "cd", true)].

Lemma finished_one : finished one_read.
Proof.
  exists [("ab" +:+ String escape_byte (String newline "cd"), false)], "".
  split; [done|by repeat constructor].
Qed.
Lemma finished_two : finished two_reads.
Proof.
  exists [("a", false); ("b" +:+ String escape_byte "", false)], (String newline "cd").
  split; [done|by repeat constructor].
Qed.
Lemma drop_escapes_incremental : incremental drop_escapes.
Proof.
  split; [done|]. intros a b. unfold drop_escapes. cbn [fst snd]. f_equal.
  change ("" +:+ b) with b. induction a as [|x a IH]; [done|].
  change (String x a +:+ b) with (String x (a +:+ b)). cbn [ReplaceAll].
  rewrite IH. by destruct (Ascii.eqb x escape_byte).
Qed.

Lemma AttachTagged_conserves_witness :
  drop_newlines (concat_all (AttachTagged drop_escapes one_read)) = "abcd".
Proof. rewrite (AttachTagged_conserves drop_escapes one_read finished_one). by vm_compute. Defined.

Lemma AttachTagged_lines_witness :
  AttachTagged drop_escapes one_read = ["ab"; "cd"] ∧
  AttachTagged drop_escapes two_reads = AttachTagged drop_escapes one_read.
Proof.
  split; [by vm_compute|].
  destruct (AttachTagged_lines drop_escapes one_read two_reads drop_escapes_incremental
    (λ _, eq_refl) finished_one finished_two) as [_ H]; [by vm_compute| |exact H].
  unfold short_lines.
  replace (Split (filtered drop_escapes "" one_read) newline) with ["ab"; "cd"] by by vm_compute.
  apply Forall_cons; split; [apply Nat.leb_le; by vm_compute|].
  apply Forall_singleton, Nat.leb_le. by vm_compute.
Defined.

(** Lines with and without a pattern, the last one without a newline. *)
Example AttachFilter_prints :
  AttachFilter "[serial]" (in_lines ["boot ok"; "panic: x"] +:+ "late panic") ["panic"; "x"]
  = (["[serial] panic: x" +:+ newline_str; "[serial] late panic" +:+ newline_str], "").
Proof. vm_compute. reflexivity. Qed.

Definition two_streams : groups := attach Monitored (attach Detached NewOutputStreamer).

Lemma Wait_correct_witness :
  rtc groups_step NewOutputStreamer (stream_done (1, Monitored) two_streams) ∧
  Wait_returns (stream_done (1, Monitored) two_streams).
Proof.
  assert (Hr : rtc groups_step NewOutputStreamer (stream_done (1, Monitored) two_streams)).
  { do 2 (eapply rtc_l; [apply step_attach|]). apply rtc_once, step_done. right. by left. }
  split; [exact Hr|]. destruct (Wait_correct _ Hr) as (_ & [_ Hw] & _).
  apply Hw. intros s Hs.
  by apply list_elem_of_singleton in Hs as ->.
Defined.
