(* ===== verification/RunnerNet.v ===== *)
(** * RunnerNet: the runner's checks of the host network, and the TPM emulator

    runner/network.go and runner/tpm.go. *)

From S2P Require Import Prelude GoStrings VmLib HostWorld RunnerConfig ScriptedHost ProcessManager.

Section Net.
Context {H : Host}.
Implicit Types (c : RunnerConfig) (w : RunWorld).

Definition errorf {A} (msg : string) : RunM A := throw msg.
(** [fmt.Errorf("...: %w", err)]. *)
Definition wrapf {A} (msg : string) (m : RunM A) : RunM A :=
  wrap_err (λ e, msg +:+ ": " +:+ e) m.

(** [if addr != "" && !strings.Contains(out, addr)]. *)
Definition require_address (tap out family addr : string) : RunM () :=
  if negb (String.eqb addr "") && negb (Contains out addr)
  then errorf ("host tap " +:+ tap +:+ " missing " +:+ family +:+ " transit address ("
               +:+ addr +:+ ")")
  else mret tt.

Definition check_transit c : RunM () :=
  let tap := SecondTapDevice c in
  if String.eqb tap "" then mret tt
  else
    r ← CombinedOutput ["ip"; "addr"; "show"; tap];
    match r.2 with
    | Some _ => errorf ("host tap device " +:+ tap
                        +:+ " not found - ensure bridge setup has been run")
    | None => require_address tap r.1 "IPv4" (IPv4 (transit c));;
              require_address tap r.1 "IPv6" (IPv6 (transit c))
    end.

Definition bridge_accepts (out : string) : bool := Contains out "<" && Contains out "UP".

Definition checkBridgeSetup c : RunM () :=
  r ← CombinedOutput ["ip"; "link"; "show"; BridgeName c];
  match r.2 with
  | Some _ => errorf ("bridge " +:+ BridgeName c +:+ " not found")
  | None =>
      if bridge_accepts r.1 then
        check_transit c;;
        Printf ("Bridge " +:+ BridgeName c +:+ " is configured and ready")
      else errorf ("bridge " +:+ BridgeName c +:+ " exists but is not administratively UP")
  end.

(** [ip link show dev], with the message of a device that is missing. *)
Definition require_device (what dev : string) : RunM () :=
  r ← CombinedOutput ["ip"; "link"; "show"; dev];
  match r.2 with
  | Some e => errorf (what +:+ " '" +:+ dev
      +:+ "' not found - ensure bridge setup has been run" +:+ newline_s
      +:+ "Command output: " +:+ r.1 +:+ newline_s +:+ "Error: " +:+ e)
  | None => mret tt
  end.

Definition useTapDevice c : RunM string :=
  if String.eqb (TapDevice c) "" then errorf "no tap device specified in configuration"
  else
    require_device "tap device" (TapDevice c);;
    Printf ("Using tap device " +:+ TapDevice c +:+ " on bridge " +:+ BridgeName c);;
    (if String.eqb (SecondTapDevice c) "" then mret tt
     else require_device "second tap device" (SecondTapDevice c);;
          Printf ("Using second tap device " +:+ SecondTapDevice c +:+ " for host connectivity"));;
    Printf "VM will obtain IP from IPAM on transit network";;
    mret (TapDevice c).

(** tpm.go *)
Definition initializeTPMState c (dir : string) : RunM () :=
  attempt (HInitTPM (SwtpmSetup (toolPaths c)) dir ["sha256"])
    (vm_InitializeTPMState (SwtpmSetup (toolPaths c)) dir ["sha256"]).

Definition startTPMWithDir c (dir : string) : RunM (string * string) :=
  r ← ask (HSwtpm (Swtpm (toolPaths c)) dir) (vm_StartSwtpm (Swtpm (toolPaths c)) dir);
  x ← lift r;
  Printf "TPM emulator started";;
  Printf ("  Socket: " +:+ x.1);;
  mret x.

(** ** Lemmas *)

(** The questions to [ip]: the only calls before the configuration is accepted. *)
Definition ip_query (c : hcall) : Prop :=
  match c with HOutput ("ip" :: _) => True | _ => False end.
Definition queries_only (w w' : RunWorld) : Prop :=
  ∃ l, outward w w' l ∧ Forall ip_query l.

#[export] Instance queries_only_preorder : PreOrder queries_only.
Proof.
  split.
  - intros w. exists []. split; [apply outward_nil|constructor].
  - intros w1 w2 w3 (l1 & O1 & F1) (l2 & O2 & F2). exists (l1 ++ l2).
    split; [by eapply outward_app|by apply Forall_app].
Qed.

Lemma Printf_queries s : preserves queries_only (Printf s).
Proof. intros w. exists []. by split; [split; cbn; rewrite ?app_nil_r|]. Qed.
Lemma CombinedOutput_queries argv :
  preserves queries_only (CombinedOutput ("ip" :: argv)).
Proof.
  intros w. destruct (ask_run (λ _, HOutput ("ip" :: argv)) (host_combined ("ip" :: argv)) w)
    as (w' & E & O & _). unfold CombinedOutput. rewrite E.
  exists [HOutput ("ip" :: argv)]. split; [exact O|by repeat constructor].
Qed.
Hint Resolve Printf_queries CombinedOutput_queries : preserve.

Lemma require_address_queries tap out fam addr : preserves queries_only (require_address tap out fam addr).
Proof. unfold require_address. case_match; [apply (preserves_throw _)|apply (preserves_ret _)]. Qed.
Hint Resolve require_address_queries : preserve.

Lemma check_transit_queries c : preserves queries_only (check_transit c).
Proof.
  unfold check_transit. case_match; [apply (preserves_ret _)|].
  apply (preserves_bind _); [auto with preserve|]. intros [out [e|]]; [apply (preserves_throw _)|].
  apply (preserves_bind _); auto with preserve.
Qed.
Hint Resolve check_transit_queries : preserve.

Lemma checkBridgeSetup_queries c : preserves queries_only (checkBridgeSetup c).
Proof.
  apply (preserves_bind _); [auto with preserve|]. intros [out [e|]]; [apply (preserves_throw _)|].
  cbn [fst snd]. case_match; [|apply (preserves_throw _)].
  apply (preserves_bind _); auto with preserve.
Qed.

Lemma CombinedOutput_run argv w :
  ∃ w', CombinedOutput argv w = (Ok (host_combined argv (host w)).1, w')
        ∧ host w' = (host_combined argv (host w)).2.
Proof.
  destruct (ask_run (λ _, HOutput argv) (host_combined argv) w) as (w' & E & _ & Hh).
  by exists w'.
Qed.

(** What the two questions of [checkBridgeSetup] were answered, from [w]. *)
Definition bridge_answer c w := (host_combined ["ip"; "link"; "show"; BridgeName c] (host w)).1.
Definition after_bridge c w := (host_combined ["ip"; "link"; "show"; BridgeName c] (host w)).2.
Definition transit_answer c w :=
  (host_combined ["ip"; "addr"; "show"; SecondTapDevice c] (after_bridge c w)).1.

Definition address_ok (out addr : string) : bool := String.eqb addr "" || Contains out addr.

Lemma require_address_ok tap out fam addr w :
  is_ok (require_address tap out fam addr w).1 = address_ok out addr
  ∧ (require_address tap out fam addr w).2 = w.
Proof.
  unfold require_address, address_ok. destruct (String.eqb addr ""); [done|].
  by destruct (Contains out addr).
Qed.
Lemma address_ok_given out addr : address_ok out addr = true ↔ (addr ≠ "" → Contains out addr = true).
Proof. unfold address_ok. destruct (String.eqb_spec addr "") as [->|Hne]; cbn; [done|tauto]. Qed.
Lemma accepted_texts c w :
  (bridge_answer c w).2 = None ∧ bridge_accepts (bridge_answer c w).1 = true ∧
  (SecondTapDevice c = "" ∨
   (transit_answer c w).2 = None ∧
   address_ok (transit_answer c w).1 (IPv4 (transit c)) = true ∧
   address_ok (transit_answer c w).1 (IPv6 (transit c)) = true) ↔
  (bridge_answer c w).2 = None ∧
  Contains (bridge_answer c w).1 "<" = true ∧ Contains (bridge_answer c w).1 "UP" = true ∧
  (SecondTapDevice c ≠ "" →
   (transit_answer c w).2 = None ∧
   (IPv4 (transit c) ≠ "" → Contains (transit_answer c w).1 (IPv4 (transit c)) = true) ∧
   (IPv6 (transit c) ≠ "" → Contains (transit_answer c w).1 (IPv6 (transit c)) = true)).
Proof.
  unfold bridge_accepts. rewrite andb_true_iff, !address_ok_given.
  destruct (decide (SecondTapDevice c = "")); tauto.
Qed.
End Net.

#[export] Hint Resolve Printf_queries CombinedOutput_queries checkBridgeSetup_queries : preserve.

(** ** Properties *)

Section NetProperties.
Context {H : Host}.
Implicit Types (c : RunnerConfig) (w : RunWorld).

(** C23: the bridge check, on every branch, asks [ip] and nothing else, and
    accepts exactly when the bridge is known and its description holds a
    less-than sign and the letters UP somewhere, and, when there is a second tap
    device, that one is known and its description holds each transit address
    given.  Both are searches in the whole text: a bridge whose name has UP in it
    is accepted whatever its flags are. *)
Theorem checkBridgeSetup_correct c w :
  queries_only w (checkBridgeSetup c w).2 ∧
  (is_ok (checkBridgeSetup c w).1 = true ↔
     (bridge_answer c w).2 = None ∧
     Contains (bridge_answer c w).1 "<" = true ∧ Contains (bridge_answer c w).1 "UP" = true ∧
     (SecondTapDevice c ≠ "" →
      (transit_answer c w).2 = None ∧
      (IPv4 (transit c) ≠ "" → Contains (transit_answer c w).1 (IPv4 (transit c)) = true) ∧
      (IPv6 (transit c) ≠ "" → Contains (transit_answer c w).1 (IPv6 (transit c)) = true))) ∧
  (∀ before after, (bridge_answer c w).2 = None →
     (bridge_answer c w).1 = before +:+ BridgeName c +:+ ": <" +:+ after →
     Contains (BridgeName c) "UP" = true → SecondTapDevice c = "" →
     is_ok (checkBridgeSetup c w).1 = true).
Proof.
  assert (Hiff : is_ok (checkBridgeSetup c w).1 = true ↔
     (bridge_answer c w).2 = None ∧ bridge_accepts (bridge_answer c w).1 = true ∧
     (SecondTapDevice c = "" ∨
      (transit_answer c w).2 = None ∧
      address_ok (transit_answer c w).1 (IPv4 (transit c)) = true ∧
      address_ok (transit_answer c w).1 (IPv6 (transit c)) = true)).
  { unfold checkBridgeSetup, bridge_answer, transit_answer, after_bridge.
    destruct (CombinedOutput_run ["ip"; "link"; "show"; BridgeName c] w) as (w1 & E1 & <-).
    rewrite (bind_ok _ _ _ _ _ E1). destruct (host_combined _ (host w)).1 as [out [e|]];
      cbn [fst snd]; [by split; [|intros (? & _)]|].
    destruct (bridge_accepts out); cbn [is_ok]; [|by split; [|intros (_ & ? & _)]].
    rewrite bind_run. unfold check_transit.
    destruct (String.eqb_spec (SecondTapDevice c) "") as [->|Hne]; [by split; [auto|]|].
    destruct (CombinedOutput_run ["ip"; "addr"; "show"; SecondTapDevice c] w1) as (w2 & E2 & _).
    rewrite (bind_ok _ _ _ _ _ E2). destruct (host_combined _ (host w1)).1 as [out2 [e|]];
      cbn [fst snd]; [split; [done|]; by intros (_ & _ & [?|[? _]])|].
    rewrite bind_run. pose proof (require_address_ok (SecondTapDevice c) out2 "IPv4" (IPv4 (transit c)) w2) as [A4 W4].
    destruct (require_address _ _ "IPv4" _ w2) as [[[]|e] w3]; cbn in A4, W4; subst w3; rewrite <- A4;
      [|by split; [|intros (_ & _ & [?|(_ & ? & _)])]].
    pose proof (require_address_ok (SecondTapDevice c) out2 "IPv6" (IPv6 (transit c)) w2) as [A6 W6].
    destruct (require_address _ _ "IPv6" _ w2) as [[[]|e] w3]; cbn in A6, W6; subst w3; rewrite <- A6;
      [|by split; [|intros (_ & _ & [?|(_ & _ & ?)])]].
    split; [|done]. intros _. split; [done|]. split; [done|]. by right. }
  split_and!; [apply checkBridgeSetup_queries|rewrite Hiff; apply accepted_texts|].
  intros before after Hn Ho Hup Ht. apply Hiff. split_and!; [done| |by left].
  unfold bridge_accepts. rewrite Ho. apply andb_true_iff. apply Contains_spec in Hup as (l & r & ->).
  rewrite !Contains_spec. split.
  - exists (before +:+ (l +:+ "UP" +:+ r) +:+ ": "), after. by rewrite !append_assoc.
  - exists (before +:+ l), (r +:+ ": <" +:+ after). by rewrite !append_assoc.
Qed.
End NetProperties.

(** A bridge that is down, whose name has the two letters. *)
Definition uplink_config : RunnerConfig :=
  {| ServerName := ""; WorkDir := ""; Mode := "run"; toolPaths := no_tools; MachineType := "";
     TapDevice := "mltt-tap0"; SecondTapDevice := ""; MacAddress := ""; BridgeName := "br-UPLINK";
     DiskSize := ""; Memory := ""; CPUs := 0; TPMPristinePath := ""; ISOPath := "";
     transit := {| IPv4 := ""; IPv6 := "" |}; OutputMode := ""; ShutdownMode := false;
     NoCleanup := false |}.
Definition uplink_down : HostScript :=
  {| h_files := ∅; h_ip := Some "3: br-UPLINK: <BROADCAST,MULTICAST> mtu 1500 state DOWN";
     h_exit := Exited 0 "exit status 0"; h_event := BuildTimeout |}.

Definition uplink_world : RunWorld := new_world (H := ScriptedHost) uplink_down.

Lemma checkBridgeSetup_correct_witness :
  (bridge_answer uplink_config uplink_world).1
    = "3: " +:+ BridgeName uplink_config +:+ ": <" +:+ "BROADCAST,MULTICAST> mtu 1500 state DOWN" ∧
  is_ok (checkBridgeSetup uplink_config uplink_world).1 = true.
Proof.
  split; [exact eq_refl|].
  destruct (checkBridgeSetup_correct uplink_config uplink_world) as (_ & _ & Hup).
  apply (Hup "3: " "BROADCAST,MULTICAST> mtu 1500 state DOWN"); exact eq_refl.
Defined.
