(* ===== verification/RunnerRun.v ===== *)
(** * RunnerRun: build mode and run mode

    runner/runner.go, lines 100-401: [Run] validates, resolves the work
    directory and hands over to [runBuildMode] or [runRunMode]; unless told not
    to, it runs [CleanupAll] whatever way they end.  Permissions are the octal
    modes of the source, in decimal. *)

From S2P Require Import Prelude GoStrings GoPath VmLib HostWorld RunnerConfig QemuArgs.
From S2P Require Import ScriptedHost ProcessManager RunnerNet.

Definition buildBudget : Z := 20 * Minute.

Section Run.
Context {H : Host} {G : Platform}.
Implicit Types (c : RunnerConfig) (w : RunWorld).

Definition Cancel : RunM () := modify cancel_ctx.

(** [if !cond { return fmt.Errorf(msg) }]. *)
Definition require (cond : bool) (msg : string) : RunM () :=
  if cond then mret tt else errorf msg.

Definition setupTPMState c : RunM () :=
  wd ← gets workDir;
  if String.eqb (TPMPristinePath c) "" then
    Printf "Creating fresh TPM state in work directory...";;
    initializeTPMState c (tpmDir wd)
  else
    ex ← fileExists (permallPath (TPMPristinePath c));
    (if (ex : bool) then mret tt
     else Printf ("Creating pristine TPM state at " +:+ TPMPristinePath c);;
          wrapf "failed to create pristine TPM state" (initializeTPMState c (TPMPristinePath c)));;
    Printf "Copying pristine TPM state to work directory";;
    wrapf "failed to create work TPM directory" (MkdirAll (tpmDir wd) 448);;
    copyDir (TPMPristinePath c) (tpmDir wd).

Definition createDisk c (path : string) : RunM () :=
  let size := or_default (DiskSize c) "50G" in
  wrapf "qemu-img create failed"
    (RunCommand [QemuImg (toolPaths c); "create"; "-f"; "raw"; path; size]);;
  Printf ("Created disk image: " +:+ path +:+ " (" +:+ size +:+ ")").

(** [runBuildMode] up to the TPM state; returns the tap device. *)
Definition build_artifacts c : RunM string :=
  Printf ("Running in build mode for " +:+ ServerName c);;
  tap ← wrapf "failed to use tap device" (useTapDevice c);
  wd ← gets workDir;
  wrapf "failed to create vars directory" (MkdirAll (Dir (varsPath wd)) 493);;
  wrapf "failed to copy OVMF VARS template" (copyFile (OVMFVars (toolPaths c)) (varsPath wd));;
  Printf ("Copied OVMF VARS template to " +:+ varsPath wd);;
  iso_ok ← (if String.eqb (ISOPath c) "" then mret true else fileExists (ISOPath c));
  require iso_ok ("ISO not found at " +:+ ISOPath c);;
  wrapf "failed to create parent directory" (MkdirAll (Dir (diskPath wd)) 493);;
  createDisk c (diskPath wd);;
  wrapf "failed to setup TPM state" (setupTPMState c);;
  mret tap.

Definition qemu_command c (wd tpmSocket tap : string) (direct : bool) : list string :=
  QemuSystem (toolPaths c)
  :: buildQEMUArgs c (OVMFCode (toolPaths c)) (varsPath wd) (diskPath wd) (ISOPath c) tpmSocket
       (negb (String.eqb (ISOPath c) "")) tap (SecondTapDevice c) direct.

(** [StdoutPipe], [StderrPipe], [Start]. *)
Definition start_piped (argv : list string) : RunM nat :=
  wrapf "failed to create stdout pipe" (attempt HPipe host_Pipe);;
  wrapf "failed to create stderr pipe" (attempt HPipe host_Pipe);;
  wrapf "failed to start QEMU" (Start argv Piped).

Definition attach_stream (tag : string) (t : StreamType) : RunM () :=
  modify (add_stream (tag, t)).

(** The [select]: the waiting goroutine, the timer, the context. *)
Definition await_build (i : nat) : RunM build_event :=
  on_cmd i BuildTimeout (λ cmd,
    e ← ask (HSelect i buildBudget) (host_select (cmd_process cmd) buildBudget);
    (match e with
     | QemuEnded _ => modify (mark_waited i)
     | BuildTimeout => mret tt
     | ContextDone => modify cancel_ctx
     end);;
    mret e).

Definition build_verdict (i : nat) (e : build_event) : RunM () :=
  match e with
  | QemuEnded (Exited code text) =>
      if (code =? 0)%Z then mret tt else errorf ("QEMU exited with error: " +:+ text)
  | QemuEnded (WaitFailed e) => errorf ("QEMU failed: " +:+ e)
  | BuildTimeout => Signal i SIGTERM;; errorf "provisioning timeout after 20 minutes"
  | ContextDone => Signal i SIGTERM;; errorf "context canceled"
  end.

(** [runBuildMode] once QEMU runs as command [i]. *)
Definition watch_build c (wd pidFile : string) (i : nat) : RunM () :=
  attach_stream "[qemu-stdout]" Detached;;
  attach_stream "[qemu-stderr]" Detached;;
  e ← await_build i;
  build_verdict i e;;
  cleanupPIDFile pidFile;;
  Printf ("Build completed for " +:+ ServerName c);;
  Printf "Artifacts written to:";;
  Printf ("  Disk: " +:+ diskPath wd);;
  Printf ("  Work TPM state: " +:+ tpmDir wd).

(** The rest of [runBuildMode]. *)
Definition build_vm c (tap : string) : RunM () :=
  wd ← gets workDir;
  x ← wrapf "failed to start TPM" (startTPMWithDir c (tpmDir wd));
  AddPIDFile x.2;;
  SleepFor grace;;
  i ← start_piped (qemu_command c wd x.1 tap false);
  watch_build c wd x.2 i.

Definition runBuildMode c : RunM () := tap ← build_artifacts c; build_vm c tap.

Definition setupRunArtifacts c (disk : string) : RunM () :=
  wd ← gets workDir;
  wrapf "failed to create work directory" (MkdirAll wd 493);;
  let dst := diskPath wd in
  src_there ← fileExists disk;
  dst_there ← fileExists dst;
  newer ← isNewer disk dst;
  (if negb src_there then
     if negb dst_there then createDisk c dst else mret tt
   else if negb dst_there || newer then wrapf "failed to copy disk" (copyFile disk dst)
   else mret tt);;
  vars_there ← fileExists (varsPath wd);
  require vars_there ("OVMF VARS not found at " +:+ varsPath wd +:+ " - run build first");;
  Printf ("Using existing OVMF VARS from: " +:+ varsPath wd);;
  tpm_there ← fileExists (permallPath (tpmDir wd));
  require tpm_there ("TPM state not found at " +:+ permallPath (tpmDir wd) +:+ " - run build first");;
  Printf ("Using existing TPM state from: " +:+ tpmDir wd).

(** [runRunMode] up to the artifacts. *)
Definition run_artifacts c : RunM string :=
  Printf ("Running in run mode for " +:+ ServerName c);;
  tap ← wrapf "failed to use tap device" (useTapDevice c);
  wd ← gets workDir;
  vars_there ← fileExists (varsPath wd);
  require vars_there ("OVMF VARS not found at " +:+ varsPath wd +:+ " (run build mode first)");;
  wrapf "failed to setup run artifacts" (setupRunArtifacts c (diskPath wd));;
  mret tap.

Definition run_tagged c (argv : list string) : RunM () :=
  i ← start_piped argv;
  AddProcess i;;
  attach_stream ("[" +:+ ServerName c +:+ "]") Monitored;;
  attach_stream ("[" +:+ ServerName c +:+ ":err]") Monitored;;
  Printf ("VM started for " +:+ ServerName c +:+ " (tagged output mode)");;
  ss ← gets streams;
  tell (HDrain ss) (host_drain ss);;
  Wait i;;
  mret tt.

Definition run_direct c (pidFile : string) (argv : list string) : RunM () :=
  AddPIDFile pidFile;;
  r ← try (Start argv Inherited);
  match r with
  | Err e => cleanupPIDFile pidFile;; errorf ("failed to start QEMU: " +:+ e)
  | Ok i =>
      AddProcess i;;
      Printf ("VM started for " +:+ ServerName c +:+ " (direct output mode)");;
      Printf "Press Ctrl-A X to exit QEMU";;
      s ← Wait i;
      match s with
      | Exited code text => require (code =? 0)%Z ("QEMU exited: " +:+ text)
      | WaitFailed e => errorf ("QEMU exited: " +:+ e)
      end
  end.

Definition is_tagged c : bool := String.eqb (OutputMode c) "tagged".

Definition run_vm c (tap : string) : RunM () :=
  wd ← gets workDir;
  x ← wrapf "failed to start TPM" (startTPMWithDir c (tpmDir wd));
  (if is_tagged c then AddPIDFile x.2 else mret tt);;
  let argv := qemu_command c wd x.1 tap (negb (is_tagged c)) in
  if is_tagged c then run_tagged c argv else run_direct c x.2 argv.

Definition runRunMode c : RunM () := tap ← run_artifacts c; run_vm c tap.

Definition is_build c : bool := String.eqb (Mode c) "build".
Definition run_mode c : RunM () := if is_build c then runBuildMode c else runRunMode c.

(** The firmware checks of [Run]. *)
Definition check_firmware c : RunM () :=
  let tp := toolPaths c in
  require (negb (String.eqb (OVMFCode tp) "")) "OVMF CODE path not configured";;
  code ← fileExists (OVMFCode tp);
  require code ("OVMF CODE not found at " +:+ OVMFCode tp);;
  if is_build c then
    require (negb (String.eqb (OVMFVars tp) "")) "OVMF VARS path not configured";;
    vars ← fileExists (OVMFVars tp);
    require vars ("OVMF VARS template not found at " +:+ OVMFVars tp)
  else mret tt.

Definition resolve_workDir c : RunM () :=
  modify (set_workDir (WorkDir c));;
  if IsAbs (WorkDir c) then mret tt
  else
    r ← gets (λ w, host_Abs (WorkDir c) (host w));
    abs ← wrapf "failed to resolve work directory" (lift r);
    modify (set_workDir abs).

(** [Run] after its validation. *)
Definition run_validated c : RunM () :=
  resolve_workDir c;;
  wd ← gets workDir;
  wrapf "failed to create work directory" (MkdirAll wd 493);;
  if NoCleanup c then run_mode c else deferred (run_mode c) CleanupAll.

Definition Run c : RunM () :=
  wrapf "bridge check failed" (checkBridgeSetup c);;
  check_firmware c;;
  run_validated c.

(** ** Lemmas: what the phases leave alone *)

(** Calls that start, end or signal a QEMU, or leave a swtpm running. *)
Definition quiet (c : hcall) : Prop :=
  match c with
  | HStart _ _ true | HWait _ | HSelect _ _ _ | HSignal _ _ | HSwtpm _ _ (Ok _) => False
  | _ => True
  end.
(** From [w] to [w'] only quiet calls were made and the tables did not change,
    but for PID files added. *)
Record steady w w' : Prop := {
  steady_calls : ∃ l, calls w' = calls w ++ l ∧ Forall quiet l;
  steady_cmds : cmds w' = cmds w;
  steady_processes : processes (pm w') = processes (pm w);
  steady_files : pidFiles (pm w) ⊆ pidFiles (pm w');
}.
#[export] Instance steady_preorder : PreOrder steady.
Proof.
  split.
  - intros w. split; try done. exists []. by rewrite app_nil_r.
  - intros w1 w2 w3 [(l1 & C1 & F1) A1 A2 A3] [(l2 & C2 & F2) B1 B2 B3].
    split; [|congruence|congruence|set_solver].
    exists (l1 ++ l2). rewrite C2, C1, app_assoc. split; [done|]. by apply Forall_app.
Qed.

Lemma outward_steady w w' l : outward w w' l → Forall quiet l → steady w w'.
Proof. intros [A B C D] F. split; [by exists l|congruence|by rewrite C|by rewrite C]. Qed.

Lemma ask_steady {R} (c : R → hcall) (f : HostState → R * HostState) :
  (∀ r, quiet (c r)) → preserves steady (ask c f).
Proof.
  intros Hq w. destruct (ask_run c f w) as (w' & E & O & _). rewrite E.
  eapply outward_steady; [exact O|by repeat constructor].
Qed.
Lemma tell_steady (c : hcall) f : quiet c → preserves steady (tell c f).
Proof. intros Hq. by apply ask_steady. Qed.
Lemma lift_steady {R} (r : result error R) : preserves steady (lift r).
Proof. destruct r; [apply (preserves_ret _)|apply (preserves_throw _)]. Qed.
Lemma attempt_steady {R} (c : hcall) (f : HostState → result error R * HostState) :
  quiet c → preserves steady (attempt c f).
Proof.
  intros Hq. apply (preserves_bind _); [by apply ask_steady|]. intros r. apply lift_steady.
Qed.
Lemma Printf_steady s : preserves steady (Printf s).
Proof. intros w. split; try done. exists []. cbn. by rewrite app_nil_r. Qed.
Lemma AddPIDFile_steady f : preserves steady (AddPIDFile f).
Proof. intros w. split; cbn; try done; [exists []; by rewrite app_nil_r|set_solver]. Qed.
Lemma attach_stream_steady tag t : preserves steady (attach_stream tag t).
Proof. intros w. split; try done. exists []. cbn. by rewrite app_nil_r. Qed.
Lemma errorf_steady {A} msg : preserves steady (errorf msg : RunM A).
Proof. apply (preserves_throw _). Qed.
Lemma require_steady b msg : preserves steady (require b msg).
Proof. destruct b; [apply (preserves_ret _)|apply errorf_steady]. Qed.
Lemma wrapf_steady {A} msg (m : RunM A) : preserves steady m → preserves steady (wrapf msg m).
Proof. apply (preserves_wrap_err _). Qed.
Lemma queries_steady {A} (m : RunM A) : preserves queries_only m → preserves steady m.
Proof.
  intros Hm w. destruct (Hm w) as (l & O & F). eapply outward_steady; [exact O|].
  eapply Forall_impl; [exact F|]. by intros [].
Qed.
#[local] Hint Resolve ask_steady tell_steady lift_steady attempt_steady Printf_steady AddPIDFile_steady
  attach_stream_steady errorf_steady require_steady wrapf_steady I : preserve.
#[local] Hint Extern 1 (quiet _) => exact I : preserve.

(** Peel a sequence into its steps and close each with the hints. *)
Ltac steady_seq :=
  repeat first
    [ solve [eauto 3 with preserve]
    | apply (preserves_bind _); [|intros ?]
    | apply wrapf_steady
    | match goal with |- context [if ?b then _ else _] => destruct b end
    | match goal with |- context [match ?x with _ => _ end] => destruct x end ].

Lemma require_device_steady what dev : preserves steady (require_device what dev).
Proof. unfold require_device, CombinedOutput. steady_seq. Qed.
#[local] Hint Resolve require_device_steady : preserve.
Lemma useTapDevice_steady c : preserves steady (useTapDevice c).
Proof. unfold useTapDevice. steady_seq. Qed.
Lemma fileExists_steady p : preserves steady (fileExists p).
Proof. apply (preserves_gets _). Qed.
Lemma isNewer_steady a b : preserves steady (isNewer a b).
Proof. apply (preserves_gets _). Qed.
#[local] Hint Resolve useTapDevice_steady fileExists_steady isNewer_steady : preserve.

Lemma createDisk_steady c p : preserves steady (createDisk c p).
Proof. unfold createDisk, RunCommand. steady_seq. Qed.
Lemma MkdirAll_steady p m : preserves steady (MkdirAll p m).
Proof. unfold MkdirAll. steady_seq. Qed.
Lemma copyFile_steady a b : preserves steady (copyFile a b).
Proof. unfold copyFile. steady_seq. Qed.
Lemma copyDir_steady a b : preserves steady (copyDir a b).
Proof. unfold copyDir. steady_seq. Qed.
Lemma initializeTPMState_steady c d : preserves steady (initializeTPMState c d).
Proof. unfold initializeTPMState. steady_seq. Qed.
#[local] Hint Resolve createDisk_steady MkdirAll_steady copyFile_steady copyDir_steady
  initializeTPMState_steady : preserve.

Lemma setupTPMState_steady c : preserves steady (setupTPMState c).
Proof. unfold setupTPMState. steady_seq. Qed.
#[local] Hint Resolve setupTPMState_steady : preserve.
Lemma build_artifacts_steady c : preserves steady (build_artifacts c).
Proof. unfold build_artifacts. steady_seq. Qed.
Lemma setupRunArtifacts_steady c d : preserves steady (setupRunArtifacts c d).
Proof. unfold setupRunArtifacts. steady_seq. Qed.
#[local] Hint Resolve setupRunArtifacts_steady : preserve.
Lemma run_artifacts_steady c : preserves steady (run_artifacts c).
Proof. unfold run_artifacts. steady_seq. Qed.
Lemma cleanupPIDFile_steady f : preserves steady (cleanupPIDFile f).
Proof. unfold cleanupPIDFile, terminate_pid, SyscallKill, SleepFor, RemoveFile. steady_seq. Qed.
Lemma resolve_workDir_steady c : preserves steady (resolve_workDir c).
Proof.
  assert (Hd : ∀ d, preserves steady (modify (set_workDir d) : RunM ())).
  { intros d w. split; try done. exists []. cbn. by rewrite app_nil_r. }
  unfold resolve_workDir. apply (preserves_bind _); [apply Hd|]. intros _.
  destruct (IsAbs _); [apply (preserves_ret _)|]. apply (preserves_bind _); [apply (preserves_gets _)|].
  intros r. apply (preserves_bind _); [auto with preserve|]. intros d. apply Hd.
Qed.

(** The phases of [Run]: it stops while only quiet calls were made, or hands
    over to the mode. *)
Definition finish_mode c : RunM () :=
  if NoCleanup c then run_mode c else deferred (run_mode c) CleanupAll.

Lemma Run_phases c w :
  (∃ e w', Run c w = (Err e, w') ∧ steady w w') ∨
  (∃ w', steady w w' ∧ Run c w = finish_mode c w').
Proof.
  assert (Hs : preserves steady (wrapf "bridge check failed" (checkBridgeSetup c);;
    check_firmware c;; resolve_workDir c;; wd ← gets workDir;
    wrapf "failed to create work directory" (MkdirAll wd 493))).
  { apply (preserves_bind _); [apply wrapf_steady, queries_steady, checkBridgeSetup_queries|intros _].
    apply (preserves_bind _); [unfold check_firmware; steady_seq|intros _].
    apply (preserves_bind _); [apply resolve_workDir_steady|intros _]. steady_seq. }
  specialize (Hs w). revert Hs. unfold Run, run_validated. fold (finish_mode c).
  rewrite !bind_run. destruct (wrapf _ (checkBridgeSetup c) w) as [[[]|e] w1]; [|by left; eauto].
  rewrite !bind_run. destruct (check_firmware c w1) as [[[]|e] w2]; [|by left; eauto].
  rewrite !bind_run. destruct (resolve_workDir c w2) as [[[]|e] w3]; [|by left; eauto].
  rewrite !bind_run. unfold gets. cbv beta iota zeta. rewrite bind_run.
  destruct (wrapf _ (MkdirAll _ _) w3) as [[[]|e] w4]; [|by left; eauto]. right. by exists w4.
Qed.
End Run.

#[export] Hint Resolve ask_steady tell_steady lift_steady attempt_steady Printf_steady
  AddPIDFile_steady attach_stream_steady errorf_steady require_steady
  cleanupPIDFile_steady build_artifacts_steady run_artifacts_steady MkdirAll_steady : preserve.
#[export] Hint Extern 1 (quiet _) => exact I : preserve.
