(* ===== verification/RunnerSafety.v ===== *)
(** * RunnerSafety: what a run leaves behind

    The properties of [Run] on every path: nothing is touched before the
    configuration is accepted, swtpm is always stopped, a QEMU started in run
    mode is always waited for, and what happens to one started in build mode. *)

From S2P Require Import Prelude GoStrings GoStrconv GoPath VmLib HostWorld RunnerConfig QemuArgs.
From S2P Require Import ScriptedHost ProcessManager RunnerNet RunnerRun.

Section Swtpm.
Context {H : Host} {G : Platform}.
Implicit Types (c : RunnerConfig) (w : RunWorld).

(** Every swtpm started has its PID file on record. *)
Definition leaves_swtpm (x : hcall) (pidFile : string) : Prop :=
  match x with HSwtpm _ _ (Ok (_, p)) => p = pidFile | _ => False end.
Definition registered w : Prop :=
  ∀ x p, x ∈ calls w → leaves_swtpm x p → p ∈ pidFiles (pm w).

(** No swtpm was started, no PID file forgotten. *)
Record keeps w w' : Prop := {
  keeps_calls : ∃ l, calls w' = calls w ++ l ∧ Forall (λ x, ∀ p, ¬ leaves_swtpm x p) l;
  keeps_files : pidFiles (pm w) ⊆ pidFiles (pm w');
}.
#[export] Instance keeps_preorder : PreOrder keeps.
Proof.
  split.
  - intros w. split; [|done]. exists []. by rewrite app_nil_r.
  - intros w1 w2 w3 [(l1 & C1 & F1) A] [(l2 & C2 & F2) B]. split; [|set_solver].
    exists (l1 ++ l2). rewrite C2, C1, app_assoc. split; [done|]. by apply Forall_app.
Qed.

Lemma steady_world_keeps w w' : steady w w' → keeps w w'.
Proof.
  intros [(l & C & F) _ _ Hf]. split; [|done].
  exists l. split; [done|]. eapply Forall_impl; [exact F|].
  intros x Hq p Hl. unfold leaves_swtpm, quiet in *. by repeat case_match.
Qed.
Lemma steady_keeps {A} (m : RunM A) : preserves steady m → preserves keeps m.
Proof. intros Hm w. apply steady_world_keeps, Hm. Qed.
Lemma keeps_registered w w' : keeps w w' → registered w → registered w'.
Proof.
  intros [(l & C & F) Hf] Hr x p Hx Hp. rewrite C in Hx. apply elem_of_app in Hx as [Hx|Hx].
  - apply Hf, (Hr x p Hx Hp).
  - rewrite Forall_forall in F. by destruct (F x Hx p).
Qed.

Lemma ask_keeps {R} (x : R → hcall) (f : HostState → R * HostState) :
  (∀ r p, ¬ leaves_swtpm (x r) p) → preserves keeps (ask x f).
Proof.
  intros Hx w. destruct (ask_run x f w) as (w' & E & O & _). rewrite E.
  destruct O as [C _ P _]. split; [|by cbn; rewrite P]. eexists. split; [exact C|by repeat constructor].
Qed.
Lemma modify_keeps (f : RunWorld → RunWorld) :
  (∀ w, calls (f w) = calls w ∧ pidFiles (pm (f w)) = pidFiles (pm w)) →
  preserves keeps (modify f : RunM ()).
Proof.
  intros Hf w. cbn. destruct (Hf w) as [C P]. split; [|by rewrite P].
  exists []. by rewrite app_nil_r.
Qed.
Lemma on_cmd_keeps {R} i (none : R) (f : Cmd → RunM R) :
  (∀ x, preserves keeps (f x)) → preserves keeps (on_cmd i none f).
Proof.
  intros Hf. apply (preserves_bind _); [apply (preserves_gets _)|].
  intros []; [apply Hf|apply (preserves_ret _)].
Qed.
Lemma Wait_keeps i : preserves keeps (Wait i).
Proof.
  apply on_cmd_keeps. intros x. destruct (cmd_waited x); [apply (preserves_ret _)|].
  apply (preserves_bind _); [apply ask_keeps; intros _ ? []|]. intros s.
  apply (preserves_bind _); [by apply modify_keeps|]. intros _. apply (preserves_ret _).
Qed.
Lemma Signal_keeps i s : preserves keeps (Signal i s).
Proof. apply on_cmd_keeps. intros x. apply ask_keeps. intros _ ? []. Qed.
Lemma await_keeps i : preserves keeps (await_build i).
Proof.
  apply on_cmd_keeps. intros x. apply (preserves_bind _); [apply ask_keeps; intros _ ? []|].
  intros e. apply (preserves_bind _); [|intros _; apply (preserves_ret _)].
  destruct e; [by apply modify_keeps|apply (preserves_ret _)|by apply modify_keeps].
Qed.
Lemma Start_keeps argv io : preserves keeps (Start argv io).
Proof.
  intros w. unfold Start. destruct (ctx_done w); [reflexivity|].
  destruct (host_start argv io (host w)) as [[p|e] h]; split; cbn; try done; eexists;
    (split; [reflexivity|apply Forall_singleton; by intros ? []]).
Qed.
Lemma AddProcess_keeps i : preserves keeps (AddProcess i).
Proof. by apply modify_keeps. Qed.
#[local] Hint Resolve steady_keeps Wait_keeps Signal_keeps await_keeps Start_keeps AddProcess_keeps
  : preserve.

Ltac keeps_seq :=
  repeat first
    [ solve [eauto 4 with preserve]
    | apply (preserves_bind _); [|intros ?]
    | apply (preserves_wrap_err _)
    | apply (preserves_try _)
    | match goal with |- context [if ?b then _ else _] => destruct b end
    | match goal with |- context [match ?x with _ => _ end] => destruct x end ].

Lemma run_tagged_keeps c argv : preserves keeps (run_tagged c argv).
Proof. unfold run_tagged, start_piped, wrapf. keeps_seq. Qed.
Lemma run_direct_keeps c f argv : preserves keeps (run_direct c f argv).
Proof. unfold run_direct. keeps_seq. Qed.

(** A start of swtpm: recorded with its answer, nothing else. *)
Lemma startTPM_run c d w :
  let bin := Swtpm (toolPaths c) in
  ∃ w1, startTPMWithDir c d w = ((vm_StartSwtpm bin d (host w)).1, w1) ∧
    outward w w1 [HSwtpm bin d (vm_StartSwtpm bin d (host w)).1] ∧
    host w1 = (vm_StartSwtpm bin d (host w)).2.
Proof.
  cbv zeta. unfold startTPMWithDir.
  destruct (ask_run (HSwtpm (Swtpm (toolPaths c)) d) (vm_StartSwtpm (Swtpm (toolPaths c)) d) w)
    as (w1 & E & O & Hh). rewrite (bind_ok _ _ _ _ _ E).
  destruct (vm_StartSwtpm _ d (host w)).1 as [x|e] eqn:Ex; [|by exists w1].
  eexists. split; [done|]. destruct O. by split; [split|].
Qed.

(** Started, then put on record at once: the invariant is back. *)
Lemma started_registered w w1 x bin d s :
  registered w → outward w w1 [HSwtpm bin d (Ok (s, x))] →
  registered (AddPIDFile x w1).2.
Proof.
  intros Hr [C _ P _] y p Hy Hp. cbn in *. rewrite C in Hy. rewrite P.
  apply elem_of_app in Hy as [Hy|Hy%list_elem_of_singleton].
  - apply elem_of_app. left. by apply (Hr y).
  - subst. cbn in Hp. subst. apply elem_of_app. right. by left.
Qed.

Lemma preserves_registered {A} (m : RunM A) w :
  preserves keeps m → registered w → registered (m w).2.
Proof. intros Hm. apply keeps_registered, Hm. Qed.

Lemma bind_registered {A B} (m : RunM A) (k : A → RunM B) w :
  registered (m w).2 → (∀ a w', m w = (Ok a, w') → registered (k a w').2) →
  registered ((m ≫= k) w).2.
Proof. rewrite bind_run. intros Hm Hk. destruct (m w) as [[a|e] w'] eqn:E; [by apply Hk|done]. Qed.

Lemma with_swtpm_registered {B} c d (k : string * string → RunM B) w :
  registered w →
  (∀ s p w1, registered (AddPIDFile p w1).2 → registered (k (s, p) w1).2) →
  registered ((x ← wrapf "failed to start TPM" (startTPMWithDir c d); k x) w).2.
Proof.
  intros Hr Hk. destruct (startTPM_run c d w) as (w1 & E & O & _).
  rewrite bind_run. unfold wrapf, wrap_err. rewrite E.
  destruct (vm_StartSwtpm _ d (host w)).1 as [[s p]|e].
  - apply Hk. by eapply started_registered.
  - cbn. destruct O as [C _ P _]. intros x p Hx Hp. rewrite C in Hx. rewrite P.
    apply elem_of_app in Hx as [Hx|Hx%list_elem_of_singleton]; [by apply (Hr x)|].
    by subst.
Qed.

Lemma build_vm_registered c tap w : registered w → registered (build_vm c tap w).2.
Proof.
  intros Hr. unfold build_vm. rewrite bind_run. unfold gets. cbv beta iota zeta.
  apply with_swtpm_registered; [done|]. intros s p w1 Hw1. rewrite bind_run. cbn [snd].
  destruct (AddPIDFile p w1) as [[[]|] w2] eqn:E; [|done].
  apply preserves_registered; [|exact Hw1]. unfold start_piped, watch_build, wrapf, SleepFor, build_verdict. keeps_seq.
Qed.

Lemma run_vm_registered c tap w : registered w → registered (run_vm c tap w).2.
Proof.
  intros Hr. unfold run_vm. rewrite bind_run. unfold gets. cbv beta iota zeta.
  apply with_swtpm_registered; [done|]. intros s p w1 Hw1. cbn [snd fst].
  destruct (is_tagged c).
  - rewrite bind_run. destruct (AddPIDFile p w1) as [[[]|] w2] eqn:E; [|done].
    apply preserves_registered; [apply run_tagged_keeps|exact Hw1].
  - rewrite bind_run. cbn [mret M_ret]. unfold run_direct. rewrite bind_run.
    destruct (AddPIDFile p w1) as [[[]|] w2] eqn:E; [|done].
    apply preserves_registered; [|exact Hw1]. keeps_seq.
Qed.

Lemma run_mode_registered c w : registered w → registered (run_mode c w).2.
Proof.
  intros Hr. unfold run_mode, runBuildMode, runRunMode. destruct (is_build c).
  - apply bind_registered; [apply preserves_registered; auto with preserve|].
    intros tap w1 E. apply build_vm_registered.
    replace w1 with (build_artifacts c w).2 by by rewrite E.
    apply preserves_registered; auto with preserve.
  - apply bind_registered; [apply preserves_registered; auto with preserve|].
    intros tap w1 E. apply run_vm_registered.
    replace w1 with (run_artifacts c w).2 by by rewrite E.
    apply preserves_registered; auto with preserve.
Qed.

(** The first thing wrong with the firmware files, if any. *)
Definition firmware_problem c (h : HostState) : option error :=
  let tp := toolPaths c in
  if String.eqb (OVMFCode tp) "" then Some "OVMF CODE path not configured"
  else if negb (vm_FileExists (OVMFCode tp) h)
  then Some ("OVMF CODE not found at " +:+ OVMFCode tp)
  else if negb (is_build c) then None
  else if String.eqb (OVMFVars tp) "" then Some "OVMF VARS path not configured"
  else if negb (vm_FileExists (OVMFVars tp) h)
  then Some ("OVMF VARS template not found at " +:+ OVMFVars tp)
  else None.

Lemma check_firmware_run c w :
  check_firmware c w = (match firmware_problem c (host w) with Some e => Err e | None => Ok tt end, w).
Proof.
  unfold check_firmware, firmware_problem, require, fileExists. rewrite bind_run.
  destruct (String.eqb (OVMFCode _) ""); [done|]. cbn [negb mret M_ret].
  rewrite bind_run. unfold gets at 1. cbv beta iota zeta. rewrite bind_run.
  destruct (vm_FileExists (OVMFCode _) _); [|done]. cbn [negb mret M_ret].
  destruct (is_build c); [|done]. rewrite bind_run.
  destruct (String.eqb (OVMFVars _) ""); [done|]. cbn [negb mret M_ret].
  rewrite bind_run. unfold gets. cbv beta iota zeta.
  by destruct (vm_FileExists (OVMFVars _) _).
Qed.

(** [CleanupAll] in any world: the PID files in order, then processes; it starts nothing. *)
Lemma stop_calls_no_swtpm i x : Forall (λ y, ∀ p, ¬ leaves_swtpm y p) (stop_calls i x).
Proof.
  destruct x as [[? []]|]; cbn; repeat first [apply Forall_cons; split|apply Forall_nil]; by try intros ? [].
Qed.
Lemma pid_file_calls_no_swtpm f d : Forall (λ y, ∀ p, ¬ leaves_swtpm y p) (pid_file_calls f d).
Proof.
  unfold pid_file_calls. apply Forall_cons; split; [by intros ? []|]. apply Forall_app; split.
  - repeat case_match; repeat first [apply Forall_cons; split|apply Forall_nil]; by try intros ? [].
  - apply Forall_singleton. by intros ? [].
Qed.

Lemma stop_each_run ps w :
  ∃ w' l, for_each stop_process ps w = (Ok tt, w') ∧ calls w' = calls w ++ l
    ∧ Forall (λ y, ∀ p, ¬ leaves_swtpm y p) l.
Proof.
  revert w. induction ps as [|i ps IH]; intros w; cbn [for_each].
  - exists w, []. by rewrite app_nil_r.
  - destruct (stop_process_run i w) as (w1 & E & _ & C & _). rewrite (bind_ok _ _ _ _ _ E).
    destruct (IH w1) as (w2 & l & E2 & C2 & F). exists w2, (stop_calls i (cmds w !! i) ++ l).
    split; [done|]. split; [by rewrite C2, C, app_assoc|]. apply Forall_app. split; [|done].
    apply stop_calls_no_swtpm.
Qed.

Lemma CleanupAll_run w :
  ∃ w' datas l, CleanupAll w = (Ok tt, w') ∧ Forall2 answered (pidFiles (pm w)) datas ∧
    calls w' = calls w ++ HCancelManager
      :: List.concat (zip_with pid_file_calls (pidFiles (pm w)) datas) ++ l ∧
    Forall (λ y, ∀ p, ¬ leaves_swtpm y p)
      (HCancelManager :: List.concat (zip_with pid_file_calls (pidFiles (pm w)) datas) ++ l).
Proof.
  unfold CleanupAll. rewrite bind_run. unfold modify, gets.
  set (w0 := set_pm _ _). cbv beta iota. rewrite bind_run. cbv beta iota.
  destruct (cleanup_files_run (pidFiles (pm w0)) w0) as (w1 & datas & E1 & L & O1).
  rewrite (bind_ok _ _ _ _ _ E1), bind_run. cbv beta iota zeta.
  destruct (stop_each_run (processes (pm w1)) w1) as (w2 & l & E2 & C2 & F2).
  exists w2, datas, l. split_and!; [done|done| |].
  - rewrite C2, (outward_calls _ _ _ O1). cbn. by rewrite <- !app_assoc.
  - apply Forall_cons; split; [by intros ? []|]. apply Forall_app. split; [|done].
    clear. generalize (pidFiles (pm w)) as fs. revert datas.
    induction datas as [|d datas IH]; intros [|f fs]; cbn -[pid_file_calls]; try apply Forall_nil_2.
    apply Forall_app. split; [apply pid_file_calls_no_swtpm|apply IH].
Qed.

Lemma mjoin_zip_in p fs (ds : list (result error string)) :
  p ∈ fs → Forall2 answered fs ds →
  ∃ d l r, answered p d ∧ List.concat (zip_with pid_file_calls fs ds) = l ++ pid_file_calls p d ++ r.
Proof.
  intros Hp Hl. revert Hp. induction Hl as [|f d fs ds Hd Hl IH]; intros Hp; [by apply elem_of_nil in Hp|].
  cbn -[pid_file_calls]. apply elem_of_cons in Hp as [->|Hp].
  - by exists d, [], (List.concat (zip_with pid_file_calls fs ds)).
  - destruct (IH Hp) as (d' & l & r & Hd' & E).
    exists d', (pid_file_calls f d ++ l), r. split; [done|]. by rewrite E, <- app_assoc.
Qed.
End Swtpm.

Section Qemu.
Context {H : Host} {G : Platform}.
Implicit Types (c : RunnerConfig) (w : RunWorld).

Definition all_reaped w : Prop := Forall (λ x, cmd_waited x = true) (cmds w).
Definition fresh_cmd (p : Proc) : Cmd := {| cmd_process := p; cmd_waited := false |}.

Lemma Forall_alter_keep {A} (P : A → Prop) f i l :
  (∀ x, P x → P (f x)) → Forall P l → Forall P (alter f i l).
Proof.
  intros Hf. rewrite !Forall_lookup. intros Hl j x. destruct (decide (i = j)) as [<-|].
  - rewrite list_lookup_alter_eq. intros (y & Hy & ->)%fmap_Some. eauto.
  - rewrite list_lookup_alter_ne by done. apply Hl.
Qed.
Lemma alter_last {A} (f : A → A) l x : alter f (length l) (l ++ [x]) = l ++ [f x].
Proof. induction l as [|y l IH]; [done|]. cbn. by f_equal. Qed.

(** [start_piped] adds one command or none. *)
Lemma Start_run argv io w :
  (∃ e w', Start argv io w = (Err e, w') ∧ cmds w' = cmds w ∧ pm w' = pm w) ∨
  (∃ p w', Start argv io w = (Ok (length (cmds w)), w')
     ∧ cmds w' = cmds w ++ [fresh_cmd p] ∧ pm w' = pm w).
Proof.
  unfold Start. destruct (ctx_done w); [left; by eexists _, _|].
  destruct (host_start argv io (host w)) as [[p|e] h]; [right|left]; by eexists _, _.
Qed.

Lemma start_piped_run argv w :
  (∃ e w', start_piped argv w = (Err e, w') ∧ cmds w' = cmds w
     ∧ processes (pm w') = processes (pm w)) ∨
  (∃ p w', start_piped argv w = (Ok (length (cmds w)), w')
     ∧ cmds w' = cmds w ++ [fresh_cmd p] ∧ processes (pm w') = processes (pm w)).
Proof.
  unfold start_piped. rewrite bind_run.
  assert (Hp : ∀ msg w, steady w (wrapf msg (attempt HPipe host_Pipe) w).2).
  { intros msg w0. apply wrapf_steady. auto with preserve. }
  pose proof (Hp "failed to create stdout pipe" w) as [_ S1 S2 _].
  destruct (wrapf _ _ w) as [[[]|e] w1]; cbn [snd] in *; [|left; by eexists _, _].
  rewrite bind_run. pose proof (Hp "failed to create stderr pipe" w1) as [_ T1 T2 _].
  destruct (wrapf _ _ w1) as [[[]|e] w2]; cbn [snd] in *; [|left; eexists _, _; split_and!; [done|congruence..]].
  unfold wrapf, wrap_err.
  destruct (Start_run argv Piped w2) as [(e & w3 & -> & A & B)|(p & w3 & -> & A & B)]; [left|right].
  - eexists _, _. split_and!; [done|congruence|]. rewrite B. congruence.
  - exists p, w3. rewrite T1, S1 in *. split_and!; [done|done|]. rewrite B. congruence.
Qed.

Lemma steady_reaped w w' : steady w w' → all_reaped w → all_reaped w'.
Proof. intros [_ E _ _]. unfold all_reaped. by rewrite E. Qed.

Lemma waited_last w x :
  all_reaped w → Forall (λ x, cmd_waited x = true) (alter waited (length (cmds w)) (cmds w ++ [x])).
Proof. intros Hr. rewrite alter_last. apply Forall_app. split; [done|]. by apply Forall_singleton. Qed.

Lemma run_tagged_reaped c argv w : all_reaped w → all_reaped (run_tagged c argv w).2.
Proof.
  intros Hr. unfold run_tagged. rewrite bind_run.
  destruct (start_piped_run argv w) as [(e & w1 & -> & A & _)|(p & w1 & -> & A & _)].
  { unfold all_reaped. cbn. by rewrite A. }
  unfold AddProcess, attach_stream, Printf, gets, modify. do 5 (rewrite bind_run; cbv beta iota zeta).
  set (w2 := print _ _).
  destruct (tell_run (HDrain (streams w2)) (host_drain (streams w2)) w2) as (w3 & E3 & O3 & _).
  rewrite (bind_ok _ _ _ _ _ E3).
  assert (Hc : cmds w3 = cmds w ++ [fresh_cmd p]) by by rewrite (outward_cmds _ _ _ O3).
  destruct (Wait_run (length (cmds w)) (fresh_cmd p) w3) as (s & w4 & E4 & _ & _ & _ & C4).
  { by rewrite Hc, lookup_app_r, Nat.sub_diag. }
  rewrite (bind_ok _ _ _ _ _ E4). unfold all_reaped. cbn. rewrite C4, Hc. by apply waited_last.
Qed.

Lemma run_direct_reaped c f argv w : all_reaped w → all_reaped (run_direct c f argv w).2.
Proof.
  intros Hr. unfold run_direct, AddPIDFile, modify. rewrite bind_run. cbv beta iota.
  set (w0 := set_pm _ _). assert (Hr0 : all_reaped w0) by done. clearbody w0. clear w Hr.
  rewrite bind_run. unfold try.
  destruct (Start_run argv Inherited w0) as [(e & w1 & -> & A & _)|(p & w1 & -> & A & _)].
  - assert (Hr1 : all_reaped w1) by (unfold all_reaped; by rewrite A).
    rewrite bind_run. pose proof (cleanupPIDFile_steady f w1) as S.
    destruct (cleanupPIDFile f w1) as [[[]|] w2]; by apply (steady_reaped w1).
  - unfold AddProcess, Printf, modify. do 3 (rewrite bind_run; cbv beta iota zeta).
    set (w2 := print _ _).
    destruct (Wait_run (length (cmds w0)) (fresh_cmd p) w2) as (s & w4 & E4 & _ & _ & _ & C4).
    { cbn. by rewrite A, lookup_app_r, Nat.sub_diag. }
    rewrite (bind_ok _ _ _ _ _ E4).
    assert (Hr4 : all_reaped w4) by (unfold all_reaped; rewrite C4; cbn; rewrite A; by apply waited_last).
    destruct s as [code text|e]; [|done]. unfold require. by destruct (code =? 0)%Z.
Qed.

Lemma runRunMode_reaped c w : all_reaped w → all_reaped (runRunMode c w).2.
Proof.
  intros Hr. unfold runRunMode. rewrite bind_run. pose proof (run_artifacts_steady c w) as S.
  destruct (run_artifacts c w) as [[tap|e] w1]; cbn [snd] in S; pose proof (steady_reaped _ _ S Hr) as Hr1;
    [|done].
  unfold run_vm. rewrite bind_run. unfold gets. cbv beta iota zeta. rewrite bind_run.
  destruct (startTPM_run c (tpmDir (workDir w1)) w1) as (w2 & E & O & _).
  unfold wrapf, wrap_err. rewrite E.
  assert (Hr2 : all_reaped w2) by (unfold all_reaped; by rewrite (outward_cmds _ _ _ O)).
  destruct (vm_StartSwtpm _ _ _).1 as [[s p]|e]; [|done]. cbn [fst snd]. destruct (is_tagged c).
  - rewrite bind_run. unfold AddPIDFile, modify. by apply run_tagged_reaped.
  - rewrite bind_run. cbn [mret M_ret]. by apply run_direct_reaped.
Qed.

Lemma CleanupAll_reaped w : all_reaped w → all_reaped (CleanupAll w).2.
Proof.
  intros Hr. unfold CleanupAll. rewrite bind_run. unfold modify, gets.
  set (w0 := set_pm _ _). cbv beta iota. rewrite bind_run. cbv beta iota.
  destruct (cleanup_files_run (pidFiles (pm w0)) w0) as (w1 & datas & E1 & L & O1).
  rewrite (bind_ok _ _ _ _ _ E1), bind_run. cbv beta iota zeta.
  assert (Hr1 : all_reaped w1) by (unfold all_reaped; by rewrite (outward_cmds _ _ _ O1)).
  revert Hr1. generalize (processes (pm w1)) as ps. clear. intros ps. revert w1.
  induction ps as [|i ps IH]; intros w Hr; [done|]. cbn [for_each].
  destruct (stop_process_run i w) as (w1 & E & _ & _ & C). rewrite (bind_ok _ _ _ _ _ E).
  apply IH. unfold all_reaped. rewrite C. by apply Forall_alter_keep.
Qed.

(** Did QEMU end by itself, and did it end well? *)
Definition ended (e : build_event) : bool :=
  match e with QemuEnded _ => true | _ => false end.
Definition ended_well (e : build_event) : bool :=
  match e with QemuEnded (Exited code _) => (code =? 0)%Z | _ => false end.
(** The calls from the [select] on that concern QEMU. *)
Definition verdict_calls (i : nat) (e : build_event) : list hcall :=
  HSelect i buildBudget e :: (if ended e then [] else [HSignal i SIGTERM]).
Definition left_as (e : build_event) (p : Proc) : Cmd :=
  {| cmd_process := p; cmd_waited := ended e |}.

Lemma await_build_run i x w :
  cmds w !! i = Some x →
  ∃ e w', await_build i w = (Ok e, w') ∧ calls w' = calls w ++ [HSelect i buildBudget e] ∧
    cmds w' = (if ended e then alter waited i (cmds w) else cmds w) ∧ pm w' = pm w.
Proof.
  intros Hx. unfold await_build, on_cmd. rewrite bind_run. unfold gets. cbv beta iota zeta. rewrite Hx.
  destruct (ask_run (HSelect i buildBudget) (host_select (cmd_process x) buildBudget) w)
    as (w1 & E & O & _). rewrite (bind_ok _ _ _ _ _ E). destruct O as [C M P _].
  set (e := (host_select _ _ _).1) in *. exists e.
  destruct e; cbn [ended]; eexists; (split; [done|]); cbn; rewrite ?M, ?P; by split_and!.
Qed.

Lemma build_verdict_run i e x w :
  cmds w !! i = Some x →
  ∃ w', (build_verdict i e w).2 = w' ∧ outward w w' (tail (verdict_calls i e)) ∧
    is_ok (build_verdict i e w).1 = ended_well e.
Proof.
  intros Hx. eexists. split; [done|]. unfold build_verdict, verdict_calls. cbn [tail].
  destruct e as [[code text|e]| |]; cbn [ended ended_well].
  - destruct (code =? 0)%Z; (split; [apply outward_nil|done]).
  - split; [apply outward_nil|done].
  - destruct (Signal_run i x SIGTERM w Hx) as (w1 & E & O). by rewrite (bind_ok _ _ _ _ _ E).
  - destruct (Signal_run i x SIGTERM w Hx) as (w1 & E & O). by rewrite (bind_ok _ _ _ _ _ E).
Qed.

(** What the rest of a build does about command [i], the last one started. *)
Definition build_watched (i : nat) (p : Proc) w (r : result error ()) w' : Prop :=
  ∃ e before after,
    cmds w' = removelast (cmds w) ++ [left_as e p] ∧
    processes (pm w') = processes (pm w) ∧
    calls w' = before ++ verdict_calls i e ++ after ∧ Forall quiet after ∧
    is_ok r = ended_well e.

Lemma report_steady c wd f :
  preserves steady (cleanupPIDFile f;; Printf ("Build completed for " +:+ ServerName c);;
    Printf "Artifacts written to:";; Printf ("  Disk: " +:+ diskPath wd);;
    Printf ("  Work TPM state: " +:+ tpmDir wd)).
Proof. repeat (apply (preserves_bind _); [auto with preserve|intros _]). auto with preserve. Qed.
Lemma report_ok c wd f w :
  is_ok ((cleanupPIDFile f;; Printf ("Build completed for " +:+ ServerName c);;
    Printf "Artifacts written to:";; Printf ("  Disk: " +:+ diskPath wd);;
    Printf ("  Work TPM state: " +:+ tpmDir wd)) w).1 = true.
Proof.
  rewrite bind_run. by destruct (cleanupPIDFile_run f w) as (w1 & -> & _).
Qed.

Lemma watch_build_run c wd f l p w :
  cmds w = l ++ [fresh_cmd p] →
  build_watched (length l) p w (watch_build c wd f (length l) w).1 (watch_build c wd f (length l) w).2.
Proof.
  intros Hw. unfold watch_build, attach_stream, modify.
  do 2 (rewrite bind_run; cbv beta iota zeta).
  set (w1 := add_stream _ _). assert (Hc1 : cmds w1 = l ++ [fresh_cmd p]) by done.
  assert (Hl : cmds w1 !! length l = Some (fresh_cmd p)) by by rewrite Hc1, lookup_app_r, Nat.sub_diag.
  destruct (await_build_run _ _ _ Hl) as (e & w2 & E2 & C2 & M2 & P2).
  rewrite (bind_ok _ _ _ _ _ E2).
  assert (Hc2 : cmds w2 = l ++ [left_as e p]).
  { rewrite M2, Hc1. unfold left_as. destruct (ended e); [by rewrite alter_last|done]. }
  assert (Hl2 : cmds w2 !! length l = Some (left_as e p)) by by rewrite Hc2, lookup_app_r, Nat.sub_diag.
  destruct (build_verdict_run (length l) e _ w2 Hl2) as (w3 & E3 & [C3 M3 P3 _] & Hok).
  unfold build_watched. rewrite Hw, removelast_last, bind_run.
  destruct (build_verdict (length l) e w2) as [[[]|err] w3']; cbn in E3; subst w3'.
  - pose proof (report_steady c wd f w3) as [(l4 & C4 & F4) M4 P4 _].
    exists e, (calls w1), l4. split_and!; [congruence|by rewrite P4, P3, P2| |done|by rewrite report_ok].
    rewrite C4, C3, C2. unfold verdict_calls. by list_simplifier.
  - exists e, (calls w1), []. cbn [fst snd]. split_and!; [congruence|by rewrite P3, P2| |done|done].
    rewrite C3, C2. unfold verdict_calls. by list_simplifier.
Qed.

Lemma build_vm_run c tap w :
  let out := build_vm c tap w in
  (is_ok out.1 = false ∧ cmds out.2 = cmds w ∧ processes (pm out.2) = processes (pm w)) ∨
  (∃ p w1, cmds w1 = cmds w ++ [fresh_cmd p] ∧ processes (pm w1) = processes (pm w) ∧
           build_watched (length (cmds w)) p w1 out.1 out.2).
Proof.
  cbv zeta. unfold build_vm. rewrite bind_run. unfold gets. cbv beta iota zeta. rewrite bind_run.
  destruct (startTPM_run c (tpmDir (workDir w)) w) as (w1 & E1 & O1 & _).
  unfold wrapf, wrap_err. rewrite E1. destruct O1 as [_ M1 P1 _].
  destruct (vm_StartSwtpm _ _ _).1 as [[s f]|e]; [|left; cbn [fst snd]; by rewrite M1, P1]. cbn [fst snd].
  unfold AddPIDFile, modify. rewrite bind_run. cbv beta iota zeta.
  set (w2 := set_pm _ _). unfold SleepFor.
  destruct (tell_run (HSleep grace) (host_sleep grace) w2) as (w3 & E3 & [_ M3 P3 _] & _).
  rewrite (bind_ok _ _ _ _ _ E3), bind_run.
  assert (Hc : cmds w3 = cmds w) by by rewrite M3.
  assert (Hp : processes (pm w3) = processes (pm w)) by (rewrite P3; cbn; by rewrite P1).
  destruct (start_piped_run (qemu_command c (workDir w) s tap false) w3)
    as [(e & w4 & -> & A & B)|(p & w4 & -> & A & B)].
  - left. cbn. by rewrite A, B.
  - right. exists p, w4. rewrite Hc in *. split_and!; [done|congruence|].
    by apply watch_build_run.
Qed.

Lemma pid_file_calls_quiet f d : Forall quiet (pid_file_calls f d).
Proof.
  unfold pid_file_calls. apply Forall_cons; split; [done|]. apply Forall_app; split; [|by repeat constructor].
  repeat case_match; by repeat constructor.
Qed.

(** With no process on record, [CleanupAll] only deals with PID files. *)
Lemma CleanupAll_steady w : processes (pm w) = [] → steady w (CleanupAll w).2.
Proof.
  intros Hp. unfold CleanupAll. rewrite bind_run. unfold modify, gets.
  set (w0 := set_pm _ _). cbv beta iota. rewrite bind_run. cbv beta iota.
  destruct (cleanup_files_run (pidFiles (pm w0)) w0) as (w1 & datas & E1 & L & [C M P _]).
  rewrite (bind_ok _ _ _ _ _ E1), bind_run. cbv beta iota zeta. rewrite P. cbn [w0 pm set_pm processes].
  rewrite Hp. cbn [for_each]. split.
  - eexists. split; [cbn [mret M_ret snd]; rewrite C; cbn; rewrite <- app_assoc; reflexivity|].
    apply Forall_app. split; [by repeat constructor|]. clear.
    generalize (pidFiles (pm w)) as fs. revert datas.
    induction datas as [|d datas IH]; intros [|f fs]; cbn -[pid_file_calls]; try apply Forall_nil_2.
    apply Forall_app. split; [apply pid_file_calls_quiet|apply IH].
  - by cbn [mret M_ret snd].
  - cbn [mret M_ret snd]. rewrite P. cbn. by rewrite Hp.
  - cbn [mret M_ret snd]. by rewrite P.
Qed.
End Qemu.


(** ** Properties *)

Section SafetyProperties.
Context {H : Host} {G : Platform}.
Implicit Types (c : RunnerConfig) (w : RunWorld).

(** C22: nothing happens before validation.  When the bridge is refused, or the
    first missing piece of firmware is found (the code image always, the
    variables template in build mode), [Run] ends with that very error having
    asked [ip] and done nothing else: no directory, no file, no process.  Only
    when both accept does the rest of [Run] start. *)
Theorem Run_validates_first c w :
  let w1 := (checkBridgeSetup c w).2 in
  match (checkBridgeSetup c w).1, firmware_problem c (host w1) with
  | Err e, _ => Run c w = (Err ("bridge check failed: " +:+ e), w1) ∧ queries_only w w1
  | Ok _, Some e => Run c w = (Err e, w1) ∧ queries_only w w1
  | Ok _, None => Run c w = run_validated c w1
  end.
Proof.
  cbv zeta. pose proof (checkBridgeSetup_queries c w) as Hq.
  unfold Run, wrapf, wrap_err. rewrite bind_run.
  destruct (checkBridgeSetup c w) as [[[]|e] w1]; [|done]. cbn [fst snd] in *.
  rewrite bind_run, check_firmware_run. by destruct (firmware_problem c (host w1)).
Qed.

(** Every swtpm started has its PID file dealt with later. *)
Lemma Run_cleans_swtpm c w :
  NoCleanup c = false → calls w = [] →
  ∀ bin dir s p, HSwtpm bin dir (Ok (s, p)) ∈ calls (Run c w).2 →
  ∃ data before after, calls (Run c w).2 = before ++ pid_file_calls p data ++ after ∧ answered p data ∧
    HSwtpm bin dir (Ok (s, p)) ∈ before.
Proof.
  intros Hn Hw bin dir s p Hin.
  assert (Hr : registered w) by (intros x q Hx; rewrite Hw in Hx; by apply elem_of_nil in Hx).
  assert (Hq : ∀ w', steady w w' → HSwtpm bin dir (Ok (s, p)) ∉ calls w').
  { intros w' [(l & C & F) _ _ _] Hx. rewrite C, Hw in Hx. cbn in Hx.
    rewrite Forall_forall in F. by apply F in Hx. }
  destruct (Run_phases c w) as [(e & w' & E & S)|(w1 & S & E)].
  { rewrite E in Hin. by apply Hq in Hin. }
  rewrite E in *. unfold finish_mode in *. rewrite Hn in *. unfold deferred in *.
  assert (Hr1 : registered w1) by (by eapply keeps_registered; [apply steady_world_keeps|]).
  pose proof (run_mode_registered c w1 Hr1) as Hr2.
  destruct (run_mode c w1) as [r w2]. cbn [snd] in *.
  destruct (CleanupAll_run w2) as (w3 & datas & l & E3 & L & C3 & F3). rewrite E3 in *. cbn [snd] in *.
  assert (Hin2 : HSwtpm bin dir (Ok (s, p)) ∈ calls w2).
  { rewrite C3 in Hin. apply elem_of_app in Hin as [Hin|Hin]; [done|].
    rewrite Forall_forall in F3. by destruct (F3 _ Hin p). }
  destruct (mjoin_zip_in p (pidFiles (pm w2)) datas) as (d & l1 & r1 & Hd & El); [by eapply Hr2|done|].
  exists d, (calls w2 ++ HCancelManager :: l1), (r1 ++ l).
  rewrite C3, El. split; [by list_simplifier|]. split; [done|].
  apply elem_of_app. by left.
Qed.

(** C4: swtpm never survives a run.  Unless cleanup is switched off, whatever
    mode and output mode are configured and however the run ends (error,
    timeout, cancellation, success), every swtpm that was started has its PID
    file dealt with after that: the host is asked for it, the process whose number
    it answers gets SIGTERM, half a second and SIGKILL, and the file is removed;
    only when it cannot be read or holds no number is nothing killed. *)
Theorem Run_stops_swtpm c w :
  NoCleanup c = false → calls w = [] →
  ∀ bin dir s p, HSwtpm bin dir (Ok (s, p)) ∈ calls (Run c w).2 →
  ∃ data before after, calls (Run c w).2 = before ++ pid_file_calls p data ++ after ∧ answered p data ∧
    HSwtpm bin dir (Ok (s, p)) ∈ before.
Proof. apply Run_cleans_swtpm. Qed.

(** C7: a QEMU started in run mode never outlives the run, in either output
    mode and with or without cleanup: on every path the runner has waited for
    each command it started before it returns. *)
Theorem Run_waits_for_qemu c w :
  is_build c = false → all_reaped w → all_reaped (Run c w).2.
Proof.
  intros Hb Hr. destruct (Run_phases c w) as [(e & w' & E & S)|(w1 & S & E)]; rewrite E.
  { by apply (steady_reaped w). }
  pose proof (steady_reaped _ _ S Hr) as Hr1.
  pose proof (runRunMode_reaped c w1 Hr1) as Hr2.
  unfold finish_mode, run_mode. rewrite Hb. destruct (NoCleanup c); [done|].
  unfold deferred. destruct (runRunMode c w1) as [r w2]. by apply CleanupAll_reaped.
Qed.

(** C21: QEMU in build mode.  A run of build mode starts at most one QEMU; when it
    does, the run succeeds exactly when that QEMU ends by itself with status 0.
    When the twenty minutes are over or the context is done first, the runner
    sends it one SIGTERM and then does nothing more about it, cleanup included,
    since it was never registered with the process manager: it sends no SIGKILL
    and abandons the goroutine that waits for it.  (When it was the context,
    os/exec kills QEMU on its own; after the timeout nobody does.) *)
Theorem Run_build_qemu c w :
  is_build c = true → cmds w = [] → processes (pm w) = [] →
  let out := Run c w in
  (is_ok out.1 = false ∧ cmds out.2 = []) ∨
  (∃ p e before after, cmds out.2 = [left_as e p] ∧ is_ok out.1 = ended_well e ∧
     calls out.2 = before ++ verdict_calls 0 e ++ after ∧ Forall quiet after).
Proof.
  intros Hb Hc Hp. cbv zeta. destruct (Run_phases c w) as [(e & w' & E & S)|(w1 & S & E)]; rewrite E.
  { left. split; [done|]. cbn. by rewrite (steady_cmds _ _ S). }
  assert (Hm : let out := runBuildMode c w1 in
    (is_ok out.1 = false ∧ cmds out.2 = [] ∧ processes (pm out.2) = []) ∨
    (∃ p e before after, cmds out.2 = [left_as e p] ∧ processes (pm out.2) = [] ∧
       is_ok out.1 = ended_well e ∧
       calls out.2 = before ++ verdict_calls 0 e ++ after ∧ Forall quiet after)).
  { cbv zeta. unfold runBuildMode. rewrite bind_run. pose proof (build_artifacts_steady c w1) as S2.
    destruct (build_artifacts c w1) as [[tap|e] w2]; cbn [snd] in S2;
      [|left; cbn; by rewrite (steady_cmds _ _ S2), (steady_cmds _ _ S),
          (steady_processes _ _ S2), (steady_processes _ _ S)].
    assert (Hc2 : cmds w2 = []) by by rewrite (steady_cmds _ _ S2), (steady_cmds _ _ S).
    assert (Hp2 : processes (pm w2) = []) by by rewrite (steady_processes _ _ S2), (steady_processes _ _ S).
    destruct (build_vm_run c tap w2) as [(Ho & A & B)|(p & w3 & A & B & Hwt)]; rewrite Hc2, Hp2 in *.
    - left. by rewrite A, B.
    - right. destruct Hwt as (e & before & after & D1 & D2 & D3 & D4 & D5). rewrite A in D1.
      exists p, e, before, after. rewrite D2, B. by split_and!. }
  unfold finish_mode, run_mode. rewrite Hb. cbv zeta in Hm.
  destruct (NoCleanup c); [destruct Hm as [(? & ? & _)|(p & e & b & a & ? & _ & ?)]; [by left|]|].
  { right. by exists p, e, b, a. }
  unfold deferred. destruct (runBuildMode c w1) as [r w2]. cbn [fst snd] in *.
  assert (Hp2 : processes (pm w2) = []) by (by destruct Hm as [(_ & _ & ?)|(?&?&?&?&?&?&_)]).
  destruct (CleanupAll_steady w2 Hp2) as [(l & Cl & Fl) Ml _ _].
  destruct Hm as [(Ho & A & _)|(p & e & b & a & A & _ & Ho & C & F)].
  - left. split; [done|]. congruence.
  - right. exists p, e, b, (a ++ l). split_and!; [congruence|done| |by apply Forall_app].
    rewrite Cl, C. by list_simplifier.
Qed.
End SafetyProperties.

(** Configurations for the scripted host. *)
Definition vm_tools : ToolPaths :=
  {| QemuSystem := "qemu"; QemuImg := "qemu-img"; OVMFCode := "/ovmf/code.fd";
     OVMFVars := "/ovmf/vars.fd"; Swtpm := "swtpm"; SwtpmSetup := "swtpm_setup" |}.
Definition config_for (mode output : string) : RunnerConfig :=
  {| ServerName := "srv"; WorkDir := "/w"; Mode := mode; toolPaths := vm_tools; MachineType := "";
     TapDevice := "mltt-tap0"; SecondTapDevice := ""; MacAddress := "02:00:00:00:00:01";
     BridgeName := "mltt-br0"; DiskSize := "10G"; Memory := "4G"; CPUs := 2;
     TPMPristinePath := ""; ISOPath := ""; transit := {| IPv4 := ""; IPv6 := "" |};
     OutputMode := output; ShutdownMode := false; NoCleanup := false |}.
#[export] Existing Instance linux_amd64.

Definition build_world : RunWorld := new_world (H := ScriptedHost) ready_host.
Definition built_host : HostScript :=
  put "/w/vars.fd" "vars" (put "/w/disk.img" "disk" (put "/w/tpm/tpm2-00.permall" "state" ready_host)).
Definition slow_host : HostScript :=
  {| h_files := h_files ready_host; h_ip := h_ip ready_host; h_exit := h_exit ready_host;
     h_event := BuildTimeout |}.

Lemma Run_stops_swtpm_witness :
  ∃ data before after,
    calls (Run (config_for "build" "direct") build_world).2
    = before ++ pid_file_calls "/w/tpm/swtpm.pid" data ++ after ∧
    answered (H := ScriptedHost) "/w/tpm/swtpm.pid" data ∧
    HSwtpm "swtpm" "/w/tpm" (Ok ("/w/tpm/swtpm.sock", "/w/tpm/swtpm.pid")) ∈ before.
Proof.
  refine (Run_stops_swtpm (config_for "build" "direct") build_world eq_refl eq_refl _ _ _ _ _).
  apply list_elem_of_In. vm_compute. repeat first [left; reflexivity|right].
Defined.

Lemma Run_waits_for_qemu_witness :
  length (cmds (Run (config_for "run" "tagged") (new_world built_host)).2) = 1 ∧
  all_reaped (Run (config_for "run" "tagged") (new_world built_host)).2.
Proof.
  split; [exact eq_refl|].
  refine (Run_waits_for_qemu (config_for "run" "tagged") (new_world built_host) eq_refl _).
  apply Forall_nil_2.
Defined.

Lemma Run_build_qemu_witness :
  is_ok (Run (config_for "build" "direct") (new_world slow_host)).1 = false ∧
  ((is_ok (Run (config_for "build" "direct") (new_world slow_host)).1 = false ∧
    cmds (Run (config_for "build" "direct") (new_world slow_host)).2 = []) ∨
   ∃ p e before after,
     cmds (Run (config_for "build" "direct") (new_world slow_host)).2 = [left_as e p] ∧
     is_ok (Run (config_for "build" "direct") (new_world slow_host)).1 = ended_well e ∧
     calls (Run (config_for "build" "direct") (new_world slow_host)).2
       = before ++ verdict_calls 0 e ++ after ∧ Forall quiet after).
Proof.
  split; [exact eq_refl|].
  exact (Run_build_qemu (config_for "build" "direct") (new_world slow_host) eq_refl eq_refl eq_refl).
Defined.
