(* ===== verification/RunnerProtocol.v ===== *)
(** * RunnerProtocol: the order in which a run acts on the host

    An abstract specification of a run of the package [runner], as an automaton
    over the calls of its trace: first the checks and the artifacts, then swtpm,
    then QEMU, then stopping.  The automaton says what no single function
    promises: that an artifact is never written while something uses it, that at
    most one swtpm and one QEMU are ever started, that SIGKILL only follows a
    SIGTERM and a pause, and never goes to a process already waited for, that
    only the PID file of that swtpm is ever read or removed, that the process it
    names, and no other, is killed by number, and that this is done before the
    file is removed.  [Run] implements
    it: a forward simulation relates the state of the automaton to the runner's
    own tables, and every computation of the runner keeps it. *)

From S2P Require Import Prelude GoStrings GoStrconv GoPath VmLib HostWorld RunnerConfig QemuArgs.
From S2P Require Import ScriptedHost ProcessManager RunnerNet RunnerRun RunnerSafety.

(** ** The specification *)

Inductive tpm_state := TpmOff | TpmOn (pidfile : string).
Inductive qemu_state := QemuOff | QemuOn | QemuOver.
(** What is being stopped, and how far. *)
Inductive attention :=
| Free
| HasRead (f : string) (holds : option Z)
| AskedPid (f : string) (pid : Z)
| PausedPid (f : string) (pid : Z)
| KilledPid (f : string)
| AskedQemu
| PausedQemu
| KilledQemu.
Record life := { tpm : tpm_state; qemu : qemu_state; hand : attention; cancelled : bool }.
#[export] Instance tpm_state_eq_dec : EqDecision tpm_state.
Proof. solve_decision. Defined.
#[export] Instance qemu_state_eq_dec : EqDecision qemu_state.
Proof. solve_decision. Defined.
#[export] Instance attention_eq_dec : EqDecision attention.
Proof. solve_decision. Defined.

Definition nothing_yet : life := {| tpm := TpmOff; qemu := QemuOff; hand := Free; cancelled := false |}.
Definition with_tpm (t : tpm_state) (s : life) : life :=
  {| tpm := t; qemu := qemu s; hand := hand s; cancelled := cancelled s |}.
Definition with_qemu (q : qemu_state) (s : life) : life :=
  {| tpm := tpm s; qemu := q; hand := hand s; cancelled := cancelled s |}.
Definition with_hand (a : attention) (s : life) : life :=
  {| tpm := tpm s; qemu := qemu s; hand := a; cancelled := cancelled s |}.
Definition with_cancelled (s : life) : life :=
  {| tpm := tpm s; qemu := qemu s; hand := hand s; cancelled := true |}.

Definition guard_ {A} (P : Prop) `{Decision P} (o : option A) : option A := if decide P then o else None.

(** One call, where it is allowed. *)
Definition allowed (s : life) (c : hcall) : option life :=
  match c with
  | HOutput _ | HRun _ | HMkdirAll _ _ | HCopyFile _ _ | HCopyDir _ _ | HInitTPM _ _ _ =>
      guard_ (tpm s = TpmOff ∧ qemu s = QemuOff ∧ hand s = Free ∧ cancelled s = false) (Some s)
  | HSwtpm _ _ answer =>
      guard_ (tpm s = TpmOff ∧ qemu s = QemuOff ∧ hand s = Free ∧ cancelled s = false)
        (Some match answer with Ok x => with_tpm (TpmOn x.2) s | Err _ => s end)
  | HPipe => guard_ (tpm s ≠ TpmOff ∧ qemu s = QemuOff ∧ hand s = Free ∧ cancelled s = false) (Some s)
  | HStart _ _ started =>
      guard_ (tpm s ≠ TpmOff ∧ qemu s = QemuOff ∧ hand s = Free ∧ cancelled s = false)
        (Some (if started then with_qemu QemuOn s else s))
  | HDrain _ => guard_ (qemu s = QemuOn ∧ hand s = Free ∧ cancelled s = false) (Some s)
  | HSelect i _ e =>
      guard_ (i = 0 ∧ qemu s = QemuOn ∧ hand s = Free ∧ cancelled s = false)
        (Some match e with QemuEnded _ => with_qemu QemuOver s | _ => s end)
  | HWait i =>
      guard_ (i = 0 ∧ qemu s = QemuOn ∧ (hand s = Free ∨ hand s = KilledQemu))
        (Some (with_hand Free (with_qemu QemuOver s)))
  | HSignal i SIGTERM =>
      guard_ (i = 0 ∧ qemu s ≠ QemuOff ∧ (hand s = Free ∨ hand s = PausedQemu)) (Some (with_hand AskedQemu s))
  | HSignal i SIGKILL => guard_ (i = 0 ∧ qemu s = QemuOn ∧ hand s = PausedQemu) (Some (with_hand KilledQemu s))
  | HSleep d =>
      guard_ (d = grace)
        match hand s with
        | Free => guard_ (tpm s ≠ TpmOff ∧ qemu s = QemuOff ∧ cancelled s = false) (Some s)
        | AskedPid f pid => Some (with_hand (PausedPid f pid) s)
        | AskedQemu => Some (with_hand PausedQemu s)
        | _ => None
        end
  | HReadPidFile f data =>
      guard_ (tpm s = TpmOn f ∧ hand s = Free) (Some (with_hand (HasRead f (pid_in data)) s))
  | HKill pid SIGTERM =>
      match hand s with
      | HasRead f holds => guard_ (holds = Some pid) (Some (with_hand (AskedPid f pid) s))
      | _ => None
      end
  | HKill pid SIGKILL =>
      match hand s with
      | PausedPid f pid' => guard_ (pid = pid') (Some (with_hand (KilledPid f) s))
      | _ => None
      end
  | HRemove f => guard_ (hand s = HasRead f None ∨ hand s = KilledPid f) (Some (with_hand Free s))
  | HCancelManager =>
      guard_ ((hand s = Free ∨ hand s = AskedQemu) ∧ cancelled s = false)
        (Some (with_hand Free (with_cancelled s)))
  end.

Fixpoint follow (s : life) (l : list hcall) : option life :=
  match l with [] => Some s | c :: l' => s' ← allowed s c; follow s' l' end.

Lemma follow_app s l1 l2 : follow s (l1 ++ l2) = s' ← follow s l1; follow s' l2.
Proof.
  revert s. induction l1 as [|c l1 IH]; intros s; [done|]. cbn.
  destruct (allowed s c) as [s1|]; [|done]. cbn. apply IH.
Qed.
Lemma guard_true {A} P `{!Decision P} (o : option A) : P → guard_ P o = o.
Proof. intros HP. unfold guard_. by rewrite decide_True. Qed.

(** ** The simulation *)

Section Simulation.
Context {H : Host} {G : Platform}.
Implicit Types (c : RunnerConfig) (w : RunWorld) (s : life).

(** What the runner's tables hold in a state of the automaton. *)
Definition qemu_table (q : qemu_state) (l : list Cmd) : Prop :=
  match q with
  | QemuOff => l = []
  | QemuOn => ∃ p, l = [{| cmd_process := p; cmd_waited := false |}]
  | QemuOver => ∃ p, l = [{| cmd_process := p; cmd_waited := true |}]
  end.
Record tables s w : Prop := {
  tables_cmds : qemu_table (qemu s) (cmds w);
  tables_processes : Forall (λ i, i = 0 ∧ qemu s ≠ QemuOff) (processes (pm w));
  tables_files : Forall (λ f, tpm s = TpmOn f) (pidFiles (pm w));
}.
(** [w] was reached by allowed calls, to the state [s]. *)
Definition sim s w : Prop := follow nothing_yet (calls w) = Some s ∧ tables s w.

(** From a related state that satisfies [P], [m] ends in one that satisfies [Q],
    having made allowed calls only. *)
Definition hoare {A} (P : life → Prop) (m : RunM A) (Q : result error A → life → Prop) : Prop :=
  ∀ s w, sim s w → P s → ∃ s', sim s' (m w).2 ∧ Q (m w).1 s'.
Definition stays {A} (s : life) (m : RunM A) : Prop := hoare (λ x, x = s) m (λ _ x, x = s).

Lemma hoare_conseq {A} (P P' : life → Prop) (m : RunM A) (Q Q' : result error A → life → Prop) :
  hoare P m Q → (∀ s, P' s → P s) → (∀ r s, Q r s → Q' r s) → hoare P' m Q'.
Proof. intros Hm HP HQ s w S Hs. destruct (Hm s w S (HP s Hs)) as (s' & ? & ?). eauto. Qed.
Lemma hoare_ret {A} (P : life → Prop) (a : A) Q : (∀ s, P s → Q (Ok a) s) → hoare P (mret a) Q.
Proof. intros HQ s w S Hs. exists s. auto. Qed.
Lemma hoare_throw {A} (P : life → Prop) e (Q : result error A → life → Prop) :
  (∀ s, P s → Q (Err e) s) → hoare P (throw e) Q.
Proof. intros HQ s w S Hs. exists s. auto. Qed.
Lemma hoare_bind {A B} P (m : RunM A) (k : A → RunM B) (R : A → life → Prop) Q :
  hoare P m (λ r s, match r with Ok a => R a s | Err e => Q (Err e) s end) →
  (∀ a, hoare (R a) (k a) Q) → hoare P (m ≫= k) Q.
Proof.
  intros Hm Hk s w S Hs. destruct (Hm s w S Hs) as (s1 & S1 & H1). rewrite bind_run.
  destruct (m w) as [[a|e] w1]; cbn in *; [by eapply Hk|by exists s1].
Qed.
Lemma hoare_gets {A} P (f : RunWorld → A) Q :
  (∀ s w, tables s w → P s → Q (Ok (f w)) s) → hoare P (gets f) Q.
Proof. intros HQ s w S Hs. exists s. split; [done|]. by apply HQ; [apply S|]. Qed.
Lemma hoare_modify P (f : RunWorld → RunWorld) (Q : result error () → life → Prop) :
  (∀ w, calls (f w) = calls w) → (∀ s w, tables s w → P s → tables s (f w) ∧ Q (Ok tt) s) →
  hoare P (modify f) Q.
Proof.
  intros Hc Hf s w [S T] Hs. destruct (Hf s w T Hs). exists s. split; [|done]. split; [|done].
  cbn. by rewrite Hc.
Qed.

Lemma outward_tables w w' l s : outward w w' l → tables s w → tables s w'.
Proof. intros [_ C M _] [T1 T2 T3]. split; by rewrite ?C, ?M. Qed.
Lemma hoare_ask {R} (P : life → Prop) (c : R → hcall) (f : HostState → R * HostState) Q :
  (∀ s r, P s → ∃ s', allowed s (c r) = Some s' ∧ Q (Ok r) s' ∧ (∀ w, tables s w → tables s' w)) →
  hoare P (ask c f) Q.
Proof.
  intros Hc s w [S T] Hs. destruct (ask_run c f w) as (w' & E & O & _). rewrite E. cbn [fst snd].
  destruct (Hc s (f (host w)).1 Hs) as (s' & A & Qs & F). exists s'. split; [|done].
  split; [|by apply F, (outward_tables w w' _ s O)].
  rewrite (outward_calls _ _ _ O), follow_app, S. cbn. by rewrite A.
Qed.

Lemma hoare_wrapf {A} P msg (m : RunM A) (Q : result error A → life → Prop) :
  hoare P m (λ r s, match r with Ok a => Q (Ok a) s | Err e => ∀ e', Q (Err e') s end) → hoare P (wrapf msg m) Q.
Proof.
  intros Hm s w S Hs. destruct (Hm s w S Hs) as (s' & S' & H'). exists s'. unfold wrapf, wrap_err.
  destruct (m w) as [[a|e] w']; cbn in *; by auto.
Qed.
Lemma hoare_for_each {A} (P : life → Prop) (f : A → RunM ()) (l : list A) :
  (∀ x, x ∈ l → hoare P (f x) (λ r s, r = Ok tt ∧ P s)) →
  hoare P (for_each f l) (λ r s, r = Ok tt ∧ P s).
Proof.
  induction l as [|x l IH]; intros Hf; [by apply hoare_ret|]. cbn.
  apply (hoare_bind _ _ _ (λ _, P)).
  - eapply hoare_conseq; [apply Hf; by left|done|]. by intros r s [-> HP].
  - intros _. apply IH. intros y Hy. apply Hf. by right.
Qed.

(** Computations that leave the automaton where it is. *)
Lemma stays_ret {A} s (a : A) : stays s (mret a).
Proof. by apply hoare_ret. Qed.
Lemma stays_throw {A} s e : stays s (throw e : RunM A).
Proof. by apply hoare_throw. Qed.
Lemma stays_bind {A B} s (m : RunM A) (k : A → RunM B) :
  stays s m → (∀ a, stays s (k a)) → stays s (m ≫= k).
Proof.
  intros Hm Hk. apply (hoare_bind _ _ _ (λ _ x, x = s)); [|done].
  eapply hoare_conseq; [exact Hm|done|]. by intros [] ?.
Qed.
Lemma stays_gets {A} s (f : RunWorld → A) : stays s (gets f).
Proof. by apply hoare_gets. Qed.
Lemma stays_wrapf {A} s msg (m : RunM A) : stays s m → stays s (wrapf msg m).
Proof. intros Hm. apply hoare_wrapf. eapply hoare_conseq; [exact Hm|done|]. by intros [] ?. Qed.
Lemma stays_Printf s msg : stays s (Printf msg).
Proof. apply hoare_modify; [done|]. intros s' w [] ->. by split. Qed.
Lemma stays_attach s tag t : stays s (attach_stream tag t).
Proof. apply hoare_modify; [done|]. intros s' w [] ->. by split. Qed.
Lemma stays_workDir s d : stays s (modify (set_workDir d) : RunM ()).
Proof. apply hoare_modify; [done|]. intros s' w [] ->. by split. Qed.
Lemma stays_errorf {A} s msg : stays s (errorf msg : RunM A).
Proof. apply stays_throw. Qed.
Lemma stays_require s b msg : stays s (require b msg).
Proof. destruct b; [apply stays_ret|apply stays_errorf]. Qed.
Lemma stays_lift {R} s (r : result error R) : stays s (lift r).
Proof. destruct r; [apply stays_ret|apply stays_throw]. Qed.
Lemma stays_ask {R} s (call : R → hcall) f : (∀ r, allowed s (call r) = Some s) → stays s (ask call f).
Proof. intros Hc. apply hoare_ask. intros s' r ->. exists s. auto. Qed.
Lemma stays_attempt {R} s (call : hcall) (f : HostState → result error R * HostState) :
  allowed s call = Some s → stays s (attempt call f).
Proof. intros Hc. apply stays_bind; [by apply stays_ask|]. intros r. apply stays_lift. Qed.

(** ** Checks and artifacts *)

Ltac stay :=
  repeat first
    [ simple apply stays_ret | simple apply stays_throw | simple apply stays_errorf | simple apply stays_require
    | simple apply stays_gets | simple apply stays_Printf | simple apply stays_attach | simple apply stays_workDir
    | simple apply stays_lift
    | simple apply stays_wrapf
    | simple apply stays_attempt; exact eq_refl
    | simple apply stays_ask; intros ?; exact eq_refl
    | simple apply stays_bind; [|intros ?]
    | match goal with |- context [if ?b then _ else _] => destruct b end
    | match goal with |- context [match ?x with _ => _ end] => destruct x end ].

Lemma stays_checkBridgeSetup c : stays nothing_yet (checkBridgeSetup c).
Proof. unfold checkBridgeSetup, check_transit, require_address, CombinedOutput. stay. Qed.
Lemma stays_useTapDevice c : stays nothing_yet (useTapDevice c).
Proof. unfold useTapDevice, require_device, CombinedOutput. stay. Qed.
Lemma stays_check_firmware c : stays nothing_yet (check_firmware c).
Proof. unfold check_firmware, fileExists. stay. Qed.
Lemma stays_resolve_workDir c : stays nothing_yet (resolve_workDir c).
Proof. unfold resolve_workDir. stay. Qed.
Lemma stays_MkdirAll p m : stays nothing_yet (MkdirAll p m).
Proof. unfold MkdirAll. stay. Qed.
Lemma stays_createDisk c p : stays nothing_yet (createDisk c p).
Proof. unfold createDisk, RunCommand. stay. Qed.
Lemma stays_setupTPMState c : stays nothing_yet (setupTPMState c).
Proof. unfold setupTPMState, initializeTPMState, fileExists, MkdirAll, copyDir. stay. Qed.
Lemma stays_build_artifacts c : stays nothing_yet (build_artifacts c).
Proof.
  unfold build_artifacts, MkdirAll, copyFile, fileExists.
  repeat first [ apply stays_useTapDevice | apply stays_createDisk | apply stays_setupTPMState | progress stay
               | apply stays_wrapf | apply stays_bind; [|intros ?] ].
Qed.
Lemma stays_run_artifacts c : stays nothing_yet (run_artifacts c).
Proof.
  unfold run_artifacts, setupRunArtifacts, MkdirAll, copyFile, fileExists, isNewer.
  repeat first [ apply stays_useTapDevice | apply stays_createDisk
               | match goal with |- context [if ?b then _ else _] => destruct b end | progress stay
               | apply stays_wrapf | apply stays_bind; [|intros ?] ].
Qed.

(** ** swtpm and QEMU *)

Definition tpm_up (p : string) : life := with_tpm (TpmOn p) nothing_yet.
Definition running (p : string) : life := with_qemu QemuOn (tpm_up p).
Definition over (p : string) : life := with_qemu QemuOver (tpm_up p).

(** Steps that only print or attach a stream. *)
Lemma hoare_silent {A} P (f : RunWorld → RunWorld) (k : RunM A) Q :
  (∀ w, calls (f w) = calls w ∧ cmds (f w) = cmds w ∧ pm (f w) = pm w) →
  hoare P k Q → hoare P (modify f;; k) Q.
Proof.
  intros Hf Hk. apply (hoare_bind _ _ _ (λ _, P)); [|done].
  apply hoare_modify; [apply Hf|]. intros s w [T1 T2 T3] Hs. destruct (Hf w) as (_ & C & M).
  split; [|done]. split; by rewrite ?C, ?M.
Qed.
Ltac silent := repeat (apply hoare_silent; [done|]).

Lemma hoare_value {A B} P (f : RunWorld → A) (k : A → RunM B) Q :
  (∀ a, hoare P (k a) Q) → hoare P (x ← gets f; k x) Q.
Proof. intros Hk. apply (hoare_bind _ _ _ (λ _, P)); [by apply hoare_gets|done]. Qed.

(** Calls that leave the runner's tables alone. *)
Lemma hoare_outward (P : life → Prop) (m : RunM ()) (Q : result error () → life → Prop) :
  (∀ s w, tables s w → P s → ∃ r w' l s', m w = (r, w') ∧ outward w w' l ∧ follow s l = Some s' ∧
     (∀ w, tables s w → tables s' w) ∧ Q r s') →
  hoare P m Q.
Proof.
  intros Hm s w [S T] Hs. destruct (Hm s w T Hs) as (r & w' & l & s' & -> & O & F & K & HQ).
  exists s'. split; [|done]. split; [|by apply K, (outward_tables w _ l)]. cbn [snd].
  by rewrite (outward_calls _ _ _ O), follow_app, S.
Qed.

Lemma startTPM_hoare c dir :
  hoare (λ s, s = nothing_yet) (startTPMWithDir c dir)
    (λ r s, match r with Ok x => s = tpm_up x.2 | Err _ => s = nothing_yet end).
Proof.
  unfold startTPMWithDir.
  apply (hoare_bind _ _ _ (λ r s, match r with Ok x => s = tpm_up x.2 | Err _ => s = nothing_yet end)).
  - apply hoare_ask. intros s [[sock p]|e] ->.
    + exists (tpm_up p). split_and!; [exact eq_refl|done|]. intros w [T1 T2 T3]. split; [done|done|].
      eapply Forall_impl; [exact T3|done].
    + exists nothing_yet. by split_and!.
  - intros [x|e]; [|by apply hoare_throw].
    apply (hoare_bind _ _ _ (λ y s, y = x ∧ s = tpm_up x.2)); [by apply hoare_ret|].
    intros y. unfold Printf. silent. apply hoare_ret. by intros s [-> ->].
Qed.

Lemma AddPIDFile_hoare s f : tpm s = TpmOn f → hoare (λ x, x = s) (AddPIDFile f) (λ r x, r = Ok tt ∧ x = s).
Proof.
  intros Hf. apply hoare_modify; [done|]. intros s' w [T1 T2 T3] ->. split; [|done]. split; [done..|].
  cbn. apply Forall_app. split; [done|by apply Forall_singleton].
Qed.
Lemma AddProcess_hoare s : qemu s ≠ QemuOff → hoare (λ x, x = s) (AddProcess 0) (λ r x, r = Ok tt ∧ x = s).
Proof.
  intros Hf. apply hoare_modify; [done|]. intros s' w [T1 T2 T3] ->. split; [|done]. split; [done| |done].
  cbn. apply Forall_app. split; [done|by apply Forall_singleton].
Qed.

Lemma Start_hoare p argv io :
  hoare (λ s, s = tpm_up p) (Start argv io)
    (λ r s, match r with Ok i => i = 0 ∧ s = running p | Err _ => s = tpm_up p end).
Proof.
  intros s w [S T] ->. unfold Start. destruct (ctx_done w); [by exists (tpm_up p)|].
  destruct T as [T1 T2 T3]. cbn in T1. destruct (host_start argv io (host w)) as [[pr|e] h]; cbn [fst snd].
  - exists (running p). rewrite T1. split; [|done]. split; [cbn [calls set_cmds set_host add_call]; by rewrite follow_app, S|].
    split; [by exists pr| |done]. cbn. eapply Forall_impl; [exact T2|]. by intros i [-> _].
  - exists (tpm_up p). split; [|done]. split; [cbn [calls set_host add_call]; by rewrite follow_app, S|].
    by split.
Qed.

Lemma start_piped_hoare p argv :
  hoare (λ s, s = tpm_up p) (start_piped argv)
    (λ r s, match r with Ok i => i = 0 ∧ s = running p | Err _ => s = tpm_up p end).
Proof.
  unfold start_piped. apply (hoare_bind _ _ _ (λ _ s, s = tpm_up p)).
  { eapply hoare_conseq; [apply (stays_wrapf (tpm_up p)); stay|done|]. by intros [] s. }
  intros _. apply (hoare_bind _ _ _ (λ _ s, s = tpm_up p)).
  { eapply hoare_conseq; [apply (stays_wrapf (tpm_up p)); stay|done|]. by intros [] s. }
  intros _. apply hoare_wrapf. eapply hoare_conseq; [apply (Start_hoare p)|done|].
  intros [i|e] s Hs; [done|by intros _].
Qed.

(** Waiting for QEMU, once it was started. *)
Lemma Wait_hoare s :
  qemu s ≠ QemuOff → hand s = Free →
  hoare (λ x, x = s) (Wait 0)
    (λ _ x, x = if decide (qemu s = QemuOn) then with_hand Free (with_qemu QemuOver s) else s).
Proof.
  intros Hq Hh s' w [S T] ->. pose proof T as [T1 T2 T3].
  assert (∃ x, cmds w = [x] ∧ cmd_waited x = negb (bool_decide (qemu s = QemuOn))) as (x & Hc & Hw).
  { destruct (qemu s); [done|..]; destruct T1 as [pr ->]; by eexists. }
  destruct (Wait_run 0 x w) as (st & w' & E & M & _ & C & K); [by rewrite Hc|]. rewrite E. cbn [snd].
  rewrite Hc in K. cbn [alter list_alter] in K. destruct (decide (qemu s = QemuOn)) as [Ho|Ho].
  - eexists. split; [|done]. rewrite Hw, bool_decide_true in C by done. cbn [negb] in C. split.
    + rewrite C, follow_app, S. cbn. by rewrite guard_true by auto.
    + split; cbn; rewrite ?M; [| |done].
      * rewrite K. destruct x as [pr b]. by exists pr.
      * eapply Forall_impl; [exact T2|]. by intros i [-> _].
  - exists s. split; [|done]. rewrite Hw, bool_decide_false in C by done. cbn [negb] in C.
    rewrite app_nil_r in C. split; [by rewrite C|]. split; rewrite ?M; [|done..].
    rewrite K. destruct (qemu s); [done..|]. destruct T1 as [pr Hp]. rewrite Hc in Hp. injection Hp as ->.
    by exists pr.
Qed.

(** A loop of outward computations over what [tables] knows. *)
Lemma tables_hand s a w : tables s w → tables (with_hand a s) w.
Proof. by intros []. Qed.

Lemma cleanupPIDFile_hoare s f :
  tpm s = TpmOn f → hand s = Free →
  hoare (λ x, x = s) (cleanupPIDFile f) (λ r x, r = Ok tt ∧ x = s).
Proof.
  intros Hf Hh. apply hoare_outward. intros s' w _ ->.
  destruct (cleanupPIDFile_run f w) as (w' & E & O).
  exists (Ok tt), w', (pid_file_calls f (host_ReadPidFile f (host w)).1), s. split_and!; try done.
  unfold pid_file_calls. destruct s as [t q a k]; cbn in Hf, Hh; subst t a.
  generalize (host_ReadPidFile f (host w)).1 as data. intros data.
  assert (∀ l, follow {| tpm := TpmOn f; qemu := q; hand := Free; cancelled := k |} (HReadPidFile f data :: l)
    = follow {| tpm := TpmOn f; qemu := q; hand := HasRead f (pid_in data); cancelled := k |} l) as ->.
  { intros l. cbn [follow allowed]. by rewrite guard_true. }
  assert (∀ a, a = HasRead f None ∨ a = KilledPid f →
    follow {| tpm := TpmOn f; qemu := q; hand := a; cancelled := k |} [HRemove f]
    = Some {| tpm := TpmOn f; qemu := q; hand := Free; cancelled := k |}) as Hr.
  { intros a Ha. cbn [follow allowed]. by rewrite guard_true. }
  destruct (pid_in data) as [pid|]; [|by apply Hr; left].
  rewrite <- (Hr (KilledPid f)) by by right. cbn [app follow allowed hand with_hand mbind option_bind].
  rewrite guard_true by done. cbn [mbind option_bind hand with_hand]. rewrite guard_true by done.
  cbn [mbind option_bind hand with_hand]. by rewrite guard_true.
Qed.

Lemma await_build_hoare p :
  hoare (λ s, s = running p) (await_build 0)
    (λ r s, ∃ e, r = Ok e ∧ s = if ended e then over p else running p).
Proof.
  intros s w [S T] ->. pose proof T as [[pr Hc] T2 T3].
  destruct (await_build_run 0 {| cmd_process := pr; cmd_waited := false |} w) as (e & w' & E & C & K & M).
  { by rewrite Hc. }
  rewrite E. cbn [fst snd]. exists (if ended e then over p else running p). split; [|by eexists].
  split.
  - rewrite C, follow_app, S. by destruct e.
  - rewrite Hc in K. split; rewrite ?M.
    + rewrite K. destruct e; by exists pr.
    + eapply Forall_impl; [exact T2|]. intros i [-> _]. by destruct e.
    + eapply Forall_impl; [exact T3|]. intros f Hf. by destruct e.
Qed.

Lemma Signal_hoare s sg s' :
  qemu s ≠ QemuOff → allowed s (HSignal 0 sg) = Some s' → (∀ w, tables s w → tables s' w) →
  hoare (λ x, x = s) (Signal 0 sg) (λ r x, r = Ok tt ∧ x = s').
Proof.
  intros Hq Ha Ht. apply hoare_outward. intros x w [T1 T2 T3] ->.
  assert (∃ k, cmds w !! 0 = Some k) as [k Hk].
  { destruct (qemu s); [done|..]; destruct T1 as [pr ->]; by eexists. }
  destruct (Signal_run 0 k sg w Hk) as (w' & E & O).
  exists (Ok tt), w', [HSignal 0 sg], s'. split_and!; try done. cbn [follow]. by rewrite Ha.
Qed.

Lemma ask_qemu_hoare p :
  hoare (λ s, s = running p) (Signal 0 SIGTERM)
    (λ r s, r = Ok tt ∧ s = with_hand AskedQemu (running p)).
Proof. apply Signal_hoare; [done|exact eq_refl|]. intros w. apply tables_hand. Qed.

Lemma build_verdict_hoare p e :
  hoare (λ s, s = if ended e then over p else running p) (build_verdict 0 e)
    (λ r s, if is_ok r then s = over p else s = over p ∨ s = with_hand AskedQemu (running p)).
Proof.
  unfold build_verdict. destruct e as [[code text|e]| |]; cbn [ended].
  - destruct (code =? 0)%Z; [by apply hoare_ret|]. apply hoare_throw. by left.
  - apply hoare_throw. by left.
  - apply (hoare_bind _ _ _ (λ _ s, s = with_hand AskedQemu (running p))).
    + eapply hoare_conseq; [apply (ask_qemu_hoare p)|done|].
      by intros r s [-> ->].
    + intros _. apply hoare_throw. by right.
  - apply (hoare_bind _ _ _ (λ _ s, s = with_hand AskedQemu (running p))).
    + eapply hoare_conseq; [apply (ask_qemu_hoare p)|done|].
      by intros r s [-> ->].
    + intros _. apply hoare_throw. by right.
Qed.

(** Where a mode may end: nothing started, swtpm up, QEMU over, or (in build mode
    only) QEMU asked to stop and left. *)
Definition mode_end (build : bool) s : Prop :=
  s = nothing_yet ∨ ∃ p, s = tpm_up p ∨ s = over p ∨ (build = true ∧ s = with_hand AskedQemu (running p)).

Lemma watch_build_hoare c wd p :
  hoare (λ s, s = running p) (watch_build c wd p 0) (λ _ s, mode_end true s).
Proof.
  unfold watch_build, attach_stream. silent.
  apply (hoare_bind _ _ _ (λ e s, s = if ended e then over p else running p)).
  { eapply hoare_conseq; [apply (await_build_hoare p)|done|]. by intros r s (e & -> & ->). }
  intros e. apply (hoare_bind _ _ _ (λ _ s, s = over p)).
  { eapply hoare_conseq; [apply (build_verdict_hoare p)|done|]. intros [[]|e']; [done|].
    cbn. intros s [->| ->]; right; exists p; by auto. }
  intros _. apply (hoare_bind _ _ _ (λ _ s, s = over p)).
  { eapply hoare_conseq; [by apply (cleanupPIDFile_hoare (over p) p)|done|]. by intros r s [-> ->]. }
  intros _. unfold Printf. silent. apply hoare_modify; [done|]. intros s w T ->. split; [by destruct T|].
  right. exists p. by auto.
Qed.

Lemma with_swtpm_hoare build c dir (k : string * string → RunM ()) :
  (∀ x, hoare (λ s, s = tpm_up x.2) (k x) (λ _ s, mode_end build s)) →
  hoare (λ s, s = nothing_yet) (x ← wrapf "failed to start TPM" (startTPMWithDir c dir); k x)
    (λ _ s, mode_end build s).
Proof.
  intros Hk. apply (hoare_bind _ _ _ (λ x s, s = tpm_up x.2)); [|done].
  apply hoare_wrapf. eapply hoare_conseq; [apply startTPM_hoare|done|]. intros [x|e] s; [done|].
  intros -> _. by left.
Qed.

(** The first command started has index 0. *)
Lemma hoare_index {A} s0 (m : RunM A) Q i :
  (i = 0 → hoare (λ s, s = s0) m Q) → hoare (λ s, i = 0 ∧ s = s0) m Q.
Proof. intros Hm s w S [Hi ->]. exact (Hm Hi s0 w S eq_refl). Qed.

Lemma build_vm_hoare c tap : hoare (λ s, s = nothing_yet) (build_vm c tap) (λ _ s, mode_end true s).
Proof.
  unfold build_vm. apply hoare_value. intros wd. apply with_swtpm_hoare. intros x.
  apply (hoare_bind _ _ _ (λ _ s, s = tpm_up x.2)).
  { eapply hoare_conseq; [by apply (AddPIDFile_hoare (tpm_up x.2))|done|]. by intros r s [-> ->]. }
  intros _. apply (hoare_bind _ _ _ (λ _ s, s = tpm_up x.2)).
  { eapply hoare_conseq; [apply (stays_ask (tpm_up x.2)); intros ?; exact eq_refl|done|].
    intros [] s ->; [done|]. right. exists x.2. by left. }
  intros _. apply (hoare_bind _ _ _ (λ i s, i = 0 ∧ s = running x.2)).
  { eapply hoare_conseq; [apply (start_piped_hoare x.2)|done|]. intros [i|e] s; [done|]. intros ->.
    right. exists x.2. by left. }
  intros i. apply hoare_index. intros ->. apply watch_build_hoare.
Qed.

Lemma hoare_keep {A} P (m : RunM ()) (k : RunM A) Q :
  hoare P m (λ r s, r = Ok tt ∧ P s) → hoare P k Q → hoare P (m;; k) Q.
Proof.
  intros Hm Hk. apply (hoare_bind _ _ _ (λ _, P)); [|done].
  eapply hoare_conseq; [exact Hm|done|]. by intros r s [-> HP].
Qed.

Lemma run_tagged_hoare c p argv :
  hoare (λ s, s = tpm_up p) (run_tagged c argv) (λ _ s, mode_end false s).
Proof.
  unfold run_tagged. apply (hoare_bind _ _ _ (λ i s, i = 0 ∧ s = running p)).
  { eapply hoare_conseq; [apply (start_piped_hoare p)|done|]. intros [i|e] s; [done|]. intros ->.
    right. exists p. by left. }
  intros i. apply hoare_index. intros ->. apply hoare_keep; [by apply AddProcess_hoare|]. unfold attach_stream, Printf. silent.
  apply hoare_value. intros ss. apply (hoare_bind _ _ _ (λ _ s, s = running p)).
  { apply hoare_ask. intros s r ->. exists (running p). by split_and!. }
  intros _. apply (hoare_bind _ _ _ (λ _ s, s = over p)).
  - eapply hoare_conseq; [by apply (Wait_hoare (running p))|done|]. intros [] s ->; [done|].
    right. exists p. by auto.
  - intros _. apply hoare_ret. intros s ->. right. exists p. by auto.
Qed.

Lemma run_direct_hoare c p argv :
  hoare (λ s, s = tpm_up p) (run_direct c p argv) (λ _ s, mode_end false s).
Proof.
  unfold run_direct. apply hoare_keep; [by apply AddPIDFile_hoare|].
  apply (hoare_bind _ _ _ (λ r s, match r with Ok i => i = 0 ∧ s = running p | Err _ => s = tpm_up p end)).
  { intros s w S Hs. destruct (Start_hoare p argv Inherited s w S Hs) as (s' & S' & Hr). exists s'.
    unfold try. destruct (Start argv Inherited w) as [r w']. by split. }
  intros [i|e].
  - apply hoare_index. intros ->. apply hoare_keep; [by apply AddProcess_hoare|]. unfold Printf. silent.
    apply (hoare_bind _ _ _ (λ _ s, s = over p)).
    + eapply hoare_conseq; [by apply (Wait_hoare (running p))|done|]. intros [] s ->; [done|].
      right. exists p. by auto.
    + intros [code text|e]; [|apply hoare_throw; intros s ->; right; exists p; by auto].
      eapply hoare_conseq; [apply (stays_require (over p))|done|]. intros r s ->. right. exists p. by auto.
  - apply hoare_keep; [by apply cleanupPIDFile_hoare|]. apply hoare_throw. intros s ->. right. exists p. by auto.
Qed.

Lemma run_vm_hoare c tap : hoare (λ s, s = nothing_yet) (run_vm c tap) (λ _ s, mode_end false s).
Proof.
  unfold run_vm. apply hoare_value. intros wd. apply with_swtpm_hoare. intros x. destruct (is_tagged c).
  - apply hoare_keep; [by apply AddPIDFile_hoare|]. apply run_tagged_hoare.
  - apply hoare_keep; [by apply hoare_ret|]. apply run_direct_hoare.
Qed.

Lemma run_mode_hoare c : hoare (λ s, s = nothing_yet) (run_mode c) (λ _ s, mode_end (is_build c) s).
Proof.
  unfold run_mode. destruct (is_build c); unfold runBuildMode, runRunMode;
    (apply (hoare_bind _ _ _ (λ _ s, s = nothing_yet));
     [eapply hoare_conseq; [first [apply (stays_build_artifacts c)|apply (stays_run_artifacts c)]|done|];
      intros [] s ->; [done|by left]
     |intros tap; first [apply build_vm_hoare|apply run_vm_hoare]]).
Qed.

(** ** Cleanup *)

(** What is read from the tables is as they say. *)
Lemma hoare_learn {A B} s (f : RunWorld → A) (R : A → Prop) (k : A → RunM B) Q :
  (∀ w, tables s w → R (f w)) → (∀ a, R a → hoare (λ x, x = s) (k a) Q) →
  hoare (λ x, x = s) (a ← gets f; k a) Q.
Proof. intros HR Hk x w S ->. exact (Hk (f w) (HR w (proj2 S)) s w S eq_refl). Qed.

Definition stopped s : Prop := cancelled s = true ∧ (hand s = Free ∨ hand s = PausedQemu).

Lemma stop_process_hoare :
  hoare (λ s, stopped s ∧ qemu s ≠ QemuOff) (stop_process 0)
    (λ r s, r = Ok tt ∧ stopped s ∧ qemu s = QemuOver).
Proof.
  intros s w [S T] ([Hc Hh] & Hq). pose proof T as [T1 T2 T3].
  destruct (stop_process_run 0 w) as (w' & E & M & C & K). rewrite E. cbn [fst snd].
  assert (∃ pr, cmds w = [{| cmd_process := pr; cmd_waited := negb (bool_decide (qemu s = QemuOn)) |}]) as [pr Hw].
  { destruct (qemu s); [done|..]; destruct T1 as [pr ->]; by eexists. }
  rewrite Hw in C, K. cbn [lookup list_lookup stop_calls cmd_waited alter list_alter] in C, K.
  assert (Hsig : ∀ l, follow s (HSignal 0 SIGTERM :: HSleep grace :: l) = follow (with_hand PausedQemu s) l).
  { intros l. cbn [follow allowed]. rewrite guard_true by done. cbn [mbind option_bind hand with_hand].
    by rewrite guard_true. }
  destruct (decide (qemu s = QemuOn)) as [Ho|Ho].
  - rewrite bool_decide_true in C by done. cbn [negb app] in C.
    exists (with_hand Free (with_qemu QemuOver s)). split; [|split_and!; try done; split; [done|by left]]. split.
    + rewrite C, follow_app, S. cbn [mbind option_bind]. rewrite Hsig. cbn [follow allowed].
      rewrite guard_true by done. cbn [mbind option_bind]. by rewrite guard_true by auto.
    + split; cbn; rewrite ?M; [rewrite K; by exists pr| |done].
      eapply Forall_impl; [exact T2|]. by intros i [-> _].
  - rewrite bool_decide_false in C by done. cbn [negb app] in C. exists (with_hand PausedQemu s).
    split; [|split_and!; [done|split; [done|by right]|cbn; by destruct (qemu s)]]. split.
    + rewrite C, follow_app, S. cbn [mbind option_bind]. by rewrite Hsig.
    + split; cbn; rewrite ?M; [|done..]. rewrite K. destruct (qemu s); [done..|]. by exists pr.
Qed.

Lemma cleanup_files_hoare s fs :
  hand s = Free → Forall (λ f, tpm s = TpmOn f) fs →
  hoare (λ x, x = s) (for_each cleanupPIDFile fs) (λ r x, r = Ok tt ∧ x = s).
Proof.
  intros Hh Hf. apply hoare_for_each. intros f Hin. rewrite Forall_forall in Hf.
  apply cleanupPIDFile_hoare; auto.
Qed.
Lemma stop_all_hoare s ps :
  stopped s → Forall (λ i, i = 0 ∧ qemu s ≠ QemuOff) ps →
  hoare (λ x, x = s) (for_each stop_process ps)
    (λ r x, r = Ok tt ∧ stopped x ∧ (qemu x = qemu s ∨ qemu x = QemuOver)).
Proof.
  intros Hs Hp. assert (H0 : Forall (λ i, i = 0) ps).
  { eapply Forall_impl; [exact Hp|]. by intros i []. }
  destruct Hp as [|i ps [_ Hq] _]; [apply hoare_ret; intros ? ->; by auto|].
  apply (hoare_conseq (λ x, stopped x ∧ qemu x ≠ QemuOff ∧ (qemu x = qemu s ∨ qemu x = QemuOver)) _ _
    (λ r x, r = Ok tt ∧ stopped x ∧ qemu x ≠ QemuOff ∧ (qemu x = qemu s ∨ qemu x = QemuOver))).
  - apply hoare_for_each. intros j Hj. rewrite Forall_forall in H0. rewrite (H0 j Hj).
    eapply hoare_conseq; [apply stop_process_hoare|by intros x (? & ? & _)|].
    intros r x (-> & ? & E). rewrite E. by auto.
  - intros ? ->. by auto.
  - by intros r x (? & ? & _ & ?).
Qed.

Lemma CleanupAll_hoare s :
  (hand s = Free ∨ hand s = AskedQemu) → cancelled s = false →
  hoare (λ x, x = s) CleanupAll (λ r x, r = Ok tt ∧ stopped x ∧ (qemu x = qemu s ∨ qemu x = QemuOver)).
Proof.
  intros Hh Hc. set (s1 := with_hand Free (with_cancelled s)). unfold CleanupAll.
  apply (hoare_bind _ _ _ (λ _ x, x = s1)).
  { intros x w [S [T1 T2 T3]] ->. exists s1. split; [|done]. split; [|by split].
    cbn [snd modify calls set_pm add_call]. rewrite follow_app, S. cbn. by rewrite guard_true. }
  intros _. apply (hoare_learn s1 _ (Forall (λ f, tpm s1 = TpmOn f))); [intros w T; apply T|].
  intros fs Hf. apply hoare_keep; [by apply cleanup_files_hoare|].
  apply (hoare_learn s1 _ (Forall (λ i, i = 0 ∧ qemu s1 ≠ QemuOff))); [intros w T; apply T|].
  intros ps Hp. apply (stop_all_hoare s1); [|done]. split; [done|by left].
Qed.

(** ** The whole run *)

(** How a run may leave things: a QEMU that still runs is one of build mode, and
    cleanup was not switched off where it took place. *)
Definition run_end c s : Prop :=
  (qemu s = QemuOn → is_build c = true) ∧ (cancelled s = true → NoCleanup c = false).

Lemma mode_end_run_end c s : mode_end (is_build c) s → run_end c s ∧ cancelled s = false ∧
  (hand s = Free ∨ hand s = AskedQemu).
Proof.
  intros [->|(p & [->|[->|[Hb ->]]])]; cbn; split_and!; try split; try done; auto.
Qed.

Lemma finish_hoare c :
  hoare (λ s, s = nothing_yet) (if NoCleanup c then run_mode c else deferred (run_mode c) CleanupAll)
    (λ _ s, run_end c s).
Proof.
  intros s w S Hs. destruct (run_mode_hoare c s w S Hs) as (s1 & S1 & E1).
  apply mode_end_run_end in E1 as ([E1 E2] & Hc & Hh). destruct (NoCleanup c) eqn:En.
  { exists s1. split; [done|]. split; [done|congruence]. }
  unfold deferred. destruct (run_mode c w) as [r w1]. cbn [fst snd] in *.
  destruct (CleanupAll_hoare s1 Hh Hc s1 w1 S1 eq_refl) as (s2 & S2 & _ & _ & Q).
  exists s2. split; [done|]. split; [|done]. destruct Q as [-> | ->]; [done|discriminate].
Qed.

Lemma Run_hoare c : hoare (λ s, s = nothing_yet) (Run c) (λ _ s, run_end c s).
Proof.
  assert (He : ∀ A (m : RunM A), stays nothing_yet m →
    hoare (λ s, s = nothing_yet) m (λ r s, match r with Ok _ => s = nothing_yet | Err _ => run_end c s end)).
  { intros A m Hm. eapply hoare_conseq; [exact Hm|done|]. intros [a|e] s ->; done. }
  unfold Run, run_validated.
  apply (hoare_bind _ _ _ (λ _ s, s = nothing_yet)); [apply He, stays_wrapf, stays_checkBridgeSetup|intros _].
  apply (hoare_bind _ _ _ (λ _ s, s = nothing_yet)); [apply He, stays_check_firmware|intros _].
  apply (hoare_bind _ _ _ (λ _ s, s = nothing_yet)); [apply He, stays_resolve_workDir|intros _].
  apply hoare_value. intros wd.
  apply (hoare_bind _ _ _ (λ _ s, s = nothing_yet)); [apply He, stays_wrapf, stays_MkdirAll|intros _].
  apply finish_hoare.
Qed.
End Simulation.

(** ** Properties *)

Section ProtocolProperties.
Context {H : Host} {G : Platform}.
Implicit Types (c : RunnerConfig).

Lemma sim_start h : sim nothing_yet (new_world h).
Proof. split; [done|]. split; [done|by apply Forall_nil_2..]. Qed.

(** C1: a run follows the protocol.  Whatever is configured and however the host
    answers, the trace of a run from the start is accepted by the automaton:
    checks and artifacts come first, swtpm after them, QEMU after swtpm and
    nothing but stopping after QEMU, each at most once and each in the one order
    in which it is polite and safe.  At the end the runner's tables are the ones
    the state of the automaton stands for; a QEMU that is still running is one of
    build mode; and cleanup only took place where it was not switched off. *)
Theorem Run_follows_protocol c h :
  ∃ s, follow nothing_yet (calls (Run c (new_world h)).2) = Some s ∧
    tables s (Run c (new_world h)).2 ∧
    (qemu s = QemuOn → is_build c = true) ∧ (cancelled s = true → NoCleanup c = false).
Proof.
  destruct (Run_hoare c nothing_yet _ (sim_start h) eq_refl) as (s & [S T] & E1 & E2).
  by exists s.
Qed.

End ProtocolProperties.
