(* ===== verification/RunnerOrder.v ===== *)
(** * RunnerOrder: what the protocol says of a trace

    The automaton of RunnerProtocol read as facts about the trace of a run: what
    was started, in which order, what is ever signalled and removed, and what the
    runner's tables hold at the end. *)

From S2P Require Import Prelude GoStrings GoStrconv GoPath VmLib HostWorld RunnerConfig QemuArgs.
From S2P Require Import ScriptedHost ProcessManager RunnerNet RunnerRun RunnerSafety RunnerProtocol.

Section History.
Implicit Types (s : life).

Definition is_swtpm_start (x : hcall) : bool := match x with HSwtpm _ _ (Ok _) => true | _ => false end.
Definition is_qemu_start (x : hcall) : bool := match x with HStart _ _ true => true | _ => false end.
Definition is_artifact (x : hcall) : bool :=
  match x with
  | HRun _ | HMkdirAll _ _ | HCopyFile _ _ | HCopyDir _ _ | HInitTPM _ _ _ => true
  | _ => false
  end.
(** The command a call is about. *)
Definition command_of (x : hcall) : option nat :=
  match x with HWait i | HSelect i _ _ | HSignal i _ => Some i | _ => None end.
Definition has_swtpm (f : string) (l : list hcall) : Prop :=
  ∃ bin dir sock, HSwtpm bin dir (Ok (sock, f)) ∈ l.

(** What the last calls of [l] were, by what is being stopped. *)
Definition tail_of (a : attention) (l : list hcall) : Prop :=
  match a with
  | Free | KilledQemu => True
  | HasRead f holds => ∃ l0 data, l = l0 ++ [HReadPidFile f data] ∧ pid_in data = holds ∧ has_swtpm f l0
  | AskedPid f pid =>
      ∃ l0 data, l = l0 ++ [HReadPidFile f data; HKill pid SIGTERM] ∧ pid_in data = Some pid ∧ has_swtpm f l0
  | PausedPid f pid =>
      ∃ l0 data, l = l0 ++ [HReadPidFile f data; HKill pid SIGTERM; HSleep grace] ∧ pid_in data = Some pid
                 ∧ has_swtpm f l0
  | KilledPid f => has_swtpm f l
  | AskedQemu => ∃ l0, l = l0 ++ [HSignal 0 SIGTERM]
  | PausedQemu => ∃ l0, l = l0 ++ [HSignal 0 SIGTERM; HSleep grace]
  end.
Record history s (l : list hcall) : Prop := {
  history_swtpm : length (List.filter is_swtpm_start l) = (match tpm s with TpmOff => 0 | TpmOn _ => 1 end);
  history_pid : ∀ f, tpm s = TpmOn f → has_swtpm f l;
  history_start : length (List.filter is_qemu_start l) = (match qemu s with QemuOff => 0 | _ => 1 end);
  history_wait : qemu s = QemuOn → HWait 0 ∉ l;
  history_index : ∀ x i, x ∈ l → command_of x = Some i → i = 0 ∧ qemu s ≠ QemuOff;
  history_hand : tail_of (hand s) l;
}.

Lemma guard_some {A} P `{!Decision P} (o : option A) a : guard_ P o = Some a → P ∧ o = Some a.
Proof. unfold guard_. by destruct (decide P). Qed.
Lemma has_swtpm_app f l l' : has_swtpm f l → has_swtpm f (l ++ l').
Proof. intros (b & d & x & Hin). exists b, d, x. apply elem_of_app. by left. Qed.

Ltac open_allowed :=
  repeat match goal with
  | E : guard_ _ _ = Some _ |- _ => apply guard_some in E as [? E]; destruct_and?
  | E : Some _ = Some _ |- _ => injection E as <-
  | E : None = Some _ |- _ => discriminate E
  | E : match ?x with _ => _ end = Some _ |- _ => destruct x eqn:?
  end.

Lemma history_nil : history nothing_yet [].
Proof.
  split; try done. by intros x i ?%elem_of_nil.
Qed.

(** A call that starts nothing and is about no command. *)
Lemma history_same s s' l x :
  is_swtpm_start x = false → is_qemu_start x = false → command_of x = None →
  tpm s' = tpm s → qemu s' = qemu s → tail_of (hand s') (l ++ [x]) →
  history s l → history s' (l ++ [x]).
Proof.
  intros H1 H2 H3 Hs Hq Ht [A B C D E _].
  split; rewrite ?Hs, ?Hq, ?List.filter_app, ?length_app; cbn; rewrite ?H1, ?H2; cbn; rewrite ?Nat.add_0_r; try done.
  - intros f Hf. by apply has_swtpm_app, B.
  - intros Ho [Hin|Hx%list_elem_of_singleton]%elem_of_app; [by apply D|by subst x].
  - intros y i [Hin| ->%list_elem_of_singleton]%elem_of_app Hy; [by eapply E|congruence].
Qed.
(** A call about the one command. *)
Lemma history_command s l x s' :
  is_swtpm_start x = false → is_qemu_start x = false → command_of x = Some 0 → qemu s ≠ QemuOff →
  tpm s' = tpm s → (qemu s' = qemu s ∨ qemu s' = QemuOver) → tail_of (hand s') (l ++ [x]) →
  (x = HWait 0 → qemu s' = QemuOver) →
  history s l → history s' (l ++ [x]).
Proof.
  intros H1 H2 H3 Hq Ht Hq' Hh Hw [A B C D E _].
  split; rewrite ?Ht, ?List.filter_app, ?length_app; cbn; rewrite ?H1, ?H2; cbn; rewrite ?Nat.add_0_r; try done.
  - intros f Hf. by apply has_swtpm_app, B.
  - rewrite C. destruct Hq' as [->| ->]; [done|]. by destruct (qemu s).
  - intros Ho [Hin|Hx%list_elem_of_singleton]%elem_of_app.
    + destruct Hq' as [Hs|Hs]; rewrite Hs in Ho; [by apply D|done].
    + by rewrite Hw in Ho.
  - assert (qemu s' ≠ QemuOff) by by destruct Hq' as [->| ->].
    intros y i [Hin| ->%list_elem_of_singleton]%elem_of_app Hy.
    + split; [|done]. by eapply E.
    + by simplify_eq.
Qed.
Lemma history_swtpm_started s l b d k f :
  tpm s = TpmOff → hand s = Free → history s l → history (with_tpm (TpmOn f) s) (l ++ [HSwtpm b d (Ok (k, f))]).
Proof.
  intros Ht Hh [A B C D E _]. rewrite Ht in A.
  split; rewrite ?List.filter_app, ?length_app; cbn; rewrite ?A, ?Nat.add_0_r, ?Hh; try done.
  - intros g [= <-]. exists b, d, k. apply elem_of_app. right. by left.
  - intros Hq [Hin|?%list_elem_of_singleton]%elem_of_app; [by apply D|done].
  - intros y i [Hin| ->%list_elem_of_singleton]%elem_of_app Hy; [by eapply E|done].
Qed.
Lemma history_qemu_started s l argv io :
  qemu s = QemuOff → hand s = Free → history s l → history (with_qemu QemuOn s) (l ++ [HStart argv io true]).
Proof.
  intros Ht Hh [A B C D E _]. rewrite Ht in C.
  split; rewrite ?List.filter_app, ?length_app; cbn; rewrite ?C, ?Nat.add_0_r, ?Hh; try done.
  - intros g Hg. by apply has_swtpm_app, B.
  - intros _ [Hin|?%list_elem_of_singleton]%elem_of_app; [|done]. by destruct (E (HWait 0) 0 Hin eq_refl).
  - intros y i [Hin| ->%list_elem_of_singleton]%elem_of_app Hy; [|done]. by destruct (E y i Hin Hy).
Qed.

Lemma history_step s l x s' : history s l → allowed s x = Some s' → history s' (l ++ [x]).
Proof.
  intros Hi Ha. pose proof (history_hand _ _ Hi) as Ht. pose proof (history_pid _ _ Hi) as Hp.
  assert (Hsame : ∀ s', is_swtpm_start x = false → is_qemu_start x = false → command_of x = None →
    tpm s' = tpm s → qemu s' = qemu s → tail_of (hand s') (l ++ [x]) → history s' (l ++ [x])).
  { intros. by eapply history_same. }
  destruct x as [argv|argv| |argv io st|i|i b e|i sg|pid sg|ss|d|p m|p data|p|a b|a b|a b k|a b ans|];
    cbn [allowed] in Ha; open_allowed; subst;
    try (by apply Hsame; cbn; repeat match goal with E : hand s = _ |- _ => rewrite E end).
  - destruct st; [by apply history_qemu_started|].
    apply Hsame; cbn; repeat match goal with E : hand s = _ |- _ => rewrite E end; done.
  - apply (history_command s); cbn; auto; congruence.
  - apply (history_command s); cbn; try done; try congruence; destruct e; cbn; auto;
      repeat match goal with E : hand s = _ |- _ => rewrite E end; done.
  - apply (history_command s); cbn; auto; [by exists l|done].
  - apply (history_command s); cbn; auto; congruence.
  - destruct Ht as (l0 & data & -> & Hd & Hf). apply Hsame; try done. exists l0, data. by rewrite <- app_assoc.
  - destruct Ht as (l0 & data & -> & Hd & Hf). apply Hsame; try done. cbn. by do 2 apply has_swtpm_app.
  - destruct Ht as (l0 & data & -> & Hd & Hf). apply Hsame; try done. exists l0, data. by rewrite <- app_assoc.
  - destruct Ht as (l0 & ->). apply Hsame; try done. exists l0. by rewrite <- app_assoc.
  - apply Hsame; try done. exists l, data. auto.
  - destruct ans as [[k f]|e']; [by apply history_swtpm_started|].
    apply Hsame; cbn; repeat match goal with E : hand s = _ |- _ => rewrite E end; done.
Qed.

Lemma follow_history l s : follow nothing_yet l = Some s → history s l.
Proof.
  revert s. induction l as [|x l IH] using rev_ind; intros s.
  - intros [= <-]. apply history_nil.
  - rewrite follow_app. destruct (follow nothing_yet l) as [s0|] eqn:E; [|done]. cbn.
    destruct (allowed s0 x) as [s1|] eqn:Ea; [|done]. intros [= <-].
    eapply history_step; [by apply IH|done].
Qed.
(** The history up to any call, and that call allowed there. *)
Lemma follow_at l1 x l2 s :
  follow nothing_yet (l1 ++ x :: l2) = Some s → ∃ s1 s2, history s1 l1 ∧ allowed s1 x = Some s2.
Proof.
  rewrite follow_app. destruct (follow nothing_yet l1) as [s1|] eqn:E; [|done]. cbn.
  destruct (allowed s1 x) as [s2|] eqn:Ea; [|done]. intros _. exists s1, s2. split; [|done].
  by apply follow_history.
Qed.
End History.

(** ** Properties *)

Section OrderProperties.
Context {H : Host} {G : Platform}.
Implicit Types (c : RunnerConfig).

Lemma qemu_table_length q (l : list Cmd) : qemu_table q l → length l = match q with QemuOff => 0 | _ => 1 end.
Proof. destruct q; [by intros ->|by intros [p ->]..]. Qed.
(** The table of commands has an entry for each QEMU that was started. *)
Lemma Run_cmds_count c h :
  length (cmds (Run c (new_world h)).2) = length (List.filter is_qemu_start (calls (Run c (new_world h)).2)).
Proof.
  destruct (Run_hoare c nothing_yet _ (sim_start h) eq_refl) as (s & [S [T1 _ _]] & _).
  apply follow_history in S as [_ _ C _ _ _]. rewrite C. by apply qemu_table_length.
Qed.

(** C25: the runner's tables mean something at the end of every run.  One command
    at most was started, and the table of commands has one entry for it; every
    registered process and every command signalled, waited for or watched is an
    index of that table; and every registered PID file is the one of the swtpm
    that was started, of which there is one at most. *)
Theorem Run_tables_valid c h :
  let w := (Run c (new_world h)).2 in
  length (cmds w) = length (List.filter is_qemu_start (calls w)) ∧ length (cmds w) ≤ 1 ∧
  length (List.filter is_swtpm_start (calls w)) ≤ 1 ∧
  Forall (λ i, is_Some (cmds w !! i)) (processes (pm w)) ∧
  (∀ x i, x ∈ calls w → command_of x = Some i → is_Some (cmds w !! i)) ∧
  Forall (λ f, has_swtpm f (calls w)) (pidFiles (pm w)).
Proof.
  cbv zeta. split; [apply Run_cmds_count|].
  destruct (Run_hoare c nothing_yet _ (sim_start h) eq_refl) as (s & [S [T1 T2 T3]] & _).
  set (w := (Run c (new_world h)).2) in *. apply follow_history in S as [A B C _ D _].
  assert (Hc : ∀ i, i = 0 ∧ qemu s ≠ QemuOff → is_Some (cmds w !! i)).
  { intros i [-> Hq]. destruct (qemu s); [done|..]; destruct T1 as [p ->]; by eexists. }
  split_and!.
  - rewrite (qemu_table_length _ _ T1). destruct (qemu s); lia.
  - rewrite A. destruct (tpm s); lia.
  - eapply Forall_impl; [exact T2|exact Hc].
  - intros x i Hx Hi. by eapply Hc, D.
  - eapply Forall_impl; [exact T3|exact B].
Qed.

(** C2: the order of a run.  No artifact is written once a swtpm or a QEMU was
    started; QEMU is started after swtpm; SIGKILL goes to QEMU only right after a
    SIGTERM and the grace period, and never once the runner has waited for it;
    a number is only sent a signal when it is the number in a PID file the host
    was just asked for, the file of a swtpm this run started: SIGTERM right after
    the answer, SIGKILL right after that and the grace period; and no other file
    is removed. *)
Theorem Run_in_order c h before x after :
  calls (Run c (new_world h)).2 = before ++ x :: after →
  (is_artifact x = true → Forall (λ y, is_swtpm_start y = false ∧ is_qemu_start y = false) before) ∧
  (is_qemu_start x = true → ∃ f, has_swtpm f before) ∧
  (∀ i, x = HSignal i SIGKILL →
     HWait i ∉ before ∧ ∃ l, before = l ++ [HSignal i SIGTERM; HSleep grace]) ∧
  (∀ pid sg, x = HKill pid sg →
     ∃ f text l, Atoi (TrimSpace text) = Ok pid ∧ has_swtpm f l ∧
       before = l ++ HReadPidFile f (Ok text)
                  :: match sg with SIGTERM => [] | SIGKILL => [HKill pid SIGTERM; HSleep grace] end) ∧
  (∀ f, x = HRemove f → has_swtpm f before).
Proof.
  intros E. destruct (Run_hoare c nothing_yet _ (sim_start h) eq_refl) as (s & [S _] & _).
  rewrite E in S. apply follow_at in S as (s1 & s2 & [A B C D _ F] & Ha). split_and!.
  - intros Hx. assert (tpm s1 = TpmOff ∧ qemu s1 = QemuOff) as [Ht Hq].
    { destruct x; try done; apply guard_some in Ha as [(? & ? & _) _]; done. }
    rewrite Ht in A. rewrite Hq in C. apply Forall_forall. intros y Hy.
    assert (Hn : ∀ p, length (List.filter p before) = 0 → p y = false).
    { intros p Hp. destruct (p y) eqn:Ey; [|done]. apply nil_length_inv in Hp.
      assert (Hin : y ∈ List.filter p before) by by apply list_elem_of_In, List.filter_In; rewrite <- list_elem_of_In.
      rewrite Hp in Hin. by apply elem_of_nil in Hin. }
    by auto.
  - intros Hx. destruct x as [| | |argv io []| | | | | | | | | | | | | |]; try done.
    apply guard_some in Ha as [(Ht & _) _]. destruct (tpm s1) as [|f]; [done|]. exists f. by apply B.
  - intros i ->. apply guard_some in Ha as [(-> & Hq & Hh) _]. rewrite Hh in F. by auto.
  - assert (Hin : ∀ data pid, pid_in data = Some pid → ∃ text, data = Ok text ∧ Atoi (TrimSpace text) = Ok pid).
    { intros [text|] pid; [|done]. cbn. destruct (Atoi (TrimSpace text)) eqn:Et; [|done]. intros [= <-]. by exists text. }
    intros pid sg ->. destruct sg; cbn in Ha; destruct (hand s1) eqn:Hh; try done;
      apply guard_some in Ha as [-> _]; destruct F as (l & data & El & Hd & Hl);
      apply Hin in Hd as (text & -> & Ht); by eexists _, text, l.
  - intros f ->. apply guard_some in Ha as [[Hh|Hh] _]; rewrite Hh in F; [|done].
    destruct F as (l & data & -> & _ & Hl). by apply has_swtpm_app.
Qed.
End OrderProperties.

Definition build_trace : list hcall :=
  calls (Run (config_for "build" "direct") (new_world (H := ScriptedHost) ready_host)).2.

Lemma Run_in_order_witness :
  build_trace !! 17 = Some (HKill 4242 SIGKILL) ∧
  ∃ f text l0, Atoi (TrimSpace text) = Ok 4242%Z ∧ has_swtpm f l0 ∧
    take 17 build_trace = l0 ++ [HReadPidFile f (Ok text); HKill 4242 SIGTERM; HSleep grace].
Proof.
  assert (E : build_trace !! 17 = Some (HKill 4242 SIGKILL)) by (vm_compute; reflexivity). split; [exact E|].
  pose proof (eq_sym (take_drop_middle _ _ _ E)) as E'.
  pose proof (Run_in_order (H := ScriptedHost) (config_for "build" "direct") ready_host (take 17 build_trace)
    (HKill 4242 SIGKILL) (drop 18 build_trace)) as Ho.
  destruct (Ho E') as (_ & _ & _ & Hk & _). exact (Hk 4242%Z SIGKILL eq_refl).
Defined.
