(* ===== verification/Cancellation.v ===== *)
(** * Cancellation: a run whose context is cancelled at a chosen moment

    A goroutine may cancel the runner's context between any two of the calls of
    [Run].  Here that moment is an input: [Interruptible] takes any host and makes
    one that is interrupted after a given number of calls, from which on the
    context is done and the host may know it (os/exec then kills what it started
    under that context).  The code of [Run] is run on it unchanged.  Two things
    are shown about every computation the runner is made of: up to that moment it
    does what it would have done undisturbed, and after it no QEMU is started. *)

From S2P Require Import Prelude GoStrings VmLib HostWorld RunnerConfig QemuArgs.
From S2P Require Import ScriptedHost ProcessManager RunnerNet RunnerRun RunnerSafety RunnerProtocol RunnerOrder.

(** When the interruption is due: never, after so many calls and one, or it came. *)
Inductive schedule := Never | Pending (n : nat) | Interrupted.
#[export] Instance schedule_eq_dec : EqDecision schedule.
Proof. solve_decision. Defined.

(** The moment, counted in calls; [None] for a run left alone. *)
Notation moment := (option nat).

Section Interruptible.
Context {H0 : Host} (interrupt : HostState → HostState).

(** After an answer. *)
Definition tick (s : HostState * schedule) : HostState * schedule :=
  match s.2 with
  | Pending 0 => (interrupt s.1, Interrupted)
  | Pending (S n) => (s.1, Pending n)
  | _ => s
  end.
Definition ticked {R} (f : HostState → R * HostState) (s : HostState * schedule) : R * (HostState * schedule) :=
  let (r, h) := f s.1 in (r, tick (h, s.2)).
Definition ticked_ (f : HostState → HostState) (s : HostState * schedule) : HostState * schedule :=
  tick (f s.1, s.2).

Definition Interruptible : Host := {|
  HostState := HostState * schedule;
  Proc := Proc;
  host_combined := λ argv, ticked (host_combined argv);
  host_run := λ argv, ticked (host_run argv);
  host_Pipe := ticked host_Pipe;
  host_start := λ argv io, ticked (host_start argv io);
  host_wait := λ p, ticked (host_wait p);
  host_select := λ p d, ticked (host_select p d);
  host_signal := λ p s, ticked_ (host_signal p s);
  host_kill := λ pid s, ticked_ (host_kill pid s);
  host_drain := λ l, ticked_ (host_drain l);
  host_sleep := λ d, ticked_ (host_sleep d);
  host_MkdirAll := λ p m, ticked (host_MkdirAll p m);
  host_ReadPidFile := λ p, ticked (host_ReadPidFile p);
  host_Remove := λ p, ticked_ (host_Remove p);
  host_ModTime := λ p s, host_ModTime p s.1;
  host_Abs := λ p s, host_Abs p s.1;
  vm_FileExists := λ p s, vm_FileExists p s.1;
  vm_CopyFile := λ a b, ticked (vm_CopyFile a b);
  vm_CopyDir := λ a b, ticked (vm_CopyDir a b);
  vm_InitializeTPMState := λ b d l, ticked (vm_InitializeTPMState b d l);
  vm_StartSwtpm := λ b d, ticked (vm_StartSwtpm b d);
  host_cancels := λ s, bool_decide (s.2 = Interrupted) || host_cancels s.1;
|}.
(** The host in which the interruption comes after [m] calls. *)
Definition interrupted_at (m : moment) (h : HostState) : HostState * schedule :=
  match m with
  | None => (h, Never)
  | Some 0 => (interrupt h, Interrupted)
  | Some (S n) => (h, Pending n)
  end.
End Interruptible.

(** The calls the host answers: all but the runner's cancelling of its manager. *)
Definition leaves (x : hcall) : bool := match x with HCancelManager => false | _ => true end.
Definition asked (l : list hcall) : list hcall := List.filter leaves l.

Lemma asked_app l l' : asked (l ++ l') = asked l ++ asked l'.
Proof. apply List.filter_app. Qed.
Lemma start_leaves x : is_qemu_start x = true → leaves x = true.
Proof. by destruct x. Qed.

Lemma asked_split l b x a : asked l = b ++ x :: a → ∃ b' a', l = b' ++ x :: a' ∧ asked b' = b.
Proof.
  revert b. induction l as [|y l IH]; intros b E; [by destruct b|]. cbn in E.
  destruct (leaves y) eqn:Ey.
  - destruct b as [|z b]; injection E as -> E; [by exists [], l|].
    apply IH in E as (b' & a' & -> & <-). exists (z :: b'), a'. split; [done|]. cbn. by rewrite Ey.
  - apply IH in E as (b' & a' & -> & <-). exists (y :: b'), a'. split; [done|]. cbn. by rewrite Ey.
Qed.

(** ** The computations of the runner

    What [Run] is made of, on an interruptible host: nothing else looks at the
    schedule, and every call gives the interruption its chance. *)
Section Programs.
Context {H0 : Host} (interrupt : HostState → HostState) {G : Platform}.
#[local] Notation J := (Interruptible interrupt).
#[local] Notation World := (@RunWorld J).
#[local] Notation Prog := (M World error).
Implicit Types (w : World).

Definition with_schedule (m : schedule) w : World :=
  {| host := (fst (host w), m) : @HostState J; cmds := cmds w; pm := pm w; workDir := workDir w;
     ctx_done := ctx_done w; streams := streams w; printed := printed w; calls := calls w |}.
(** Changes the runner's own tables only. *)
Record internal (f : World → World) : Prop := {
  internal_host : ∀ w, host (f w) = host w;
  internal_calls : ∀ w, ∃ l, calls (f w) = calls w ++ l ∧ asked l = [];
  internal_cmds : ∀ w, length (cmds w) ≤ length (cmds (f w));
  internal_ctx : ∀ w, ctx_done w = true → ctx_done (f w) = true;
  internal_stable : ∀ w m, f (with_schedule m w) = with_schedule m (f w);
}.

Inductive program : ∀ {A}, Prog A → Prop :=
| program_ret {A} (a : A) : program (mret a)
| program_throw {A} e : program (throw e : Prog A)
| program_gets {A} (f : World → A) : (∀ w m, f (with_schedule m w) = f w) → program (gets f)
| program_modify (f : World → World) : internal f → program (modify f)
| program_ask {R} (c : R → hcall) (f : @HostState J → R * @HostState J) (g : HostState → R * HostState) :
    (∀ s, f s = ticked interrupt g s) → (∀ r, leaves (c r) = true ∧ is_qemu_start (c r) = false) →
    program (ask c f)
| program_start argv io : program (@Start J argv io)
| program_bind {A B} (m : Prog A) (k : A → Prog B) : program m → (∀ a, program (k a)) → program (m ≫= k)
| program_try {A} (m : Prog A) : program m → program (try m : Prog (result error A))
| program_wrap {A} (g : error → error) (m : Prog A) : program m → program (wrap_err g m)
| program_deferred {A} (m : Prog A) (d : Prog ()) : program m → program d → program (deferred m d).

Create HintDb is_program.
#[local] Hint Constructors program : is_program.

Lemma program_tell (c : hcall) (f : @HostState J → @HostState J) (g : HostState → HostState) :
  (∀ s, f s = ticked_ interrupt g s) → leaves c = true ∧ is_qemu_start c = false → program (tell c f).
Proof.
  intros Hf Hc. apply (program_ask _ _ (λ h, (tt, g h))); [|done]. intros s. unfold ticked. by rewrite Hf.
Qed.
Lemma program_attempt {R} (c : hcall) (f : @HostState J → result error R * @HostState J) g :
  (∀ s, f s = ticked interrupt g s) → leaves c = true ∧ is_qemu_start c = false → program (attempt c f).
Proof.
  intros Hf Hc. apply program_bind; [by eapply program_ask|]. intros []; unfold lift; auto with is_program.
Qed.
Lemma program_for_each {A} (f : A → Prog ()) l : (∀ x, program (f x)) → program (for_each f l).
Proof. intros Hf. induction l as [|x l IH]; cbn; auto with is_program. Qed.
Lemma program_on_cmd {R} i (none : R) (f : @Cmd J → Prog R) : (∀ x, program (f x)) → program (on_cmd i none f).
Proof. intros Hf. apply program_bind; [by apply program_gets|]. intros []; auto with is_program. Qed.
Lemma program_tables (f : World → World) :
  (∀ w, host (f w) = host w ∧ calls (f w) = calls w ∧ length (cmds (f w)) = length (cmds w)
        ∧ (ctx_done w = true → ctx_done (f w) = true)) →
  (∀ w m, f (with_schedule m w) = with_schedule m (f w)) → program (modify f).
Proof.
  intros Hf Hs. apply program_modify.
  split; [| |intros w; destruct (Hf w) as (_ & _ & -> & _)| |]; try done; try (intros w; apply Hf).
  intros w. exists []. rewrite app_nil_r. split; [apply Hf|done].
Qed.
#[local] Hint Resolve program_for_each program_on_cmd : is_program.

(** Take a computation apart down to calls, questions and table changes. *)
Ltac program_seq :=
  repeat first
    [ done
    | solve [auto 2 with is_program nocore]
    | apply program_ret | apply program_throw | apply program_start
    | apply program_gets; done
    | eapply program_ask; [done|done]
    | eapply program_tell; [done|done]
    | eapply program_attempt; [done|done]
    | apply program_tables; [intros w; cbn; by rewrite ?length_alter|by intros]
    | apply program_bind; [|intros ?]
    | apply program_wrap | apply program_try | apply program_for_each; intros ?
    | apply program_on_cmd; intros ?
    | match goal with |- program (if ?b then _ else _) => destruct b end
    | match goal with |- program (match ?x with _ => _ end) => destruct x end ].

Lemma program_Printf msg : program (Printf (H := J) msg).
Proof. unfold Printf. program_seq. Qed.
#[local] Hint Resolve program_Printf : is_program.
Lemma program_require_device what dev : program (require_device (H := J) what dev).
Proof. unfold require_device, CombinedOutput, errorf. program_seq. Qed.
#[local] Hint Resolve program_require_device : is_program.
Lemma program_useTapDevice c : program (useTapDevice (H := J) c).
Proof. unfold useTapDevice, errorf. program_seq. Qed.
Lemma program_checkBridgeSetup c : program (checkBridgeSetup (H := J) c).
Proof.
  unfold checkBridgeSetup, check_transit, require_address, CombinedOutput, errorf. program_seq.
Qed.
Lemma program_require b msg : program (require (H := J) b msg).
Proof. unfold require, errorf. program_seq. Qed.
Lemma program_fileExists p : program (fileExists (H := J) p).
Proof. unfold fileExists. program_seq. Qed.
Lemma program_isNewer a b : program (isNewer (H := J) a b).
Proof. unfold isNewer. program_seq. Qed.
#[local] Hint Resolve program_useTapDevice program_checkBridgeSetup program_require program_fileExists
  program_isNewer : is_program.
Lemma program_MkdirAll p m : program (MkdirAll (H := J) p m).
Proof. unfold MkdirAll. program_seq. Qed.
Lemma program_copyFile a b : program (copyFile (H := J) a b).
Proof. unfold copyFile. program_seq. Qed.
Lemma program_createDisk c p : program (createDisk (H := J) c p).
Proof. unfold createDisk, wrapf, RunCommand. program_seq. Qed.
#[local] Hint Resolve program_MkdirAll program_copyFile program_createDisk : is_program.
Lemma program_setupTPMState c : program (setupTPMState (H := J) c).
Proof. unfold setupTPMState, initializeTPMState, copyDir, wrapf. program_seq. Qed.
#[local] Hint Resolve program_setupTPMState : is_program.
Lemma program_build_artifacts c : program (build_artifacts (H := J) c).
Proof. unfold build_artifacts, wrapf. program_seq. Qed.
Lemma program_startTPM c d : program (startTPMWithDir (H := J) c d).
Proof. unfold startTPMWithDir, lift. program_seq. Qed.
Lemma program_AddPIDFile f : program (AddPIDFile (H := J) f).
Proof. unfold AddPIDFile. program_seq. Qed.
Lemma program_AddProcess i : program (AddProcess (H := J) i).
Proof. unfold AddProcess. program_seq. Qed.
Lemma program_attach_stream tag t : program (attach_stream (H := J) tag t).
Proof. unfold attach_stream. program_seq. Qed.
Lemma program_SleepFor d : program (SleepFor (H := J) d).
Proof. unfold SleepFor. program_seq. Qed.
Lemma program_cleanupPIDFile f : program (cleanupPIDFile (H := J) f).
Proof. unfold cleanupPIDFile, terminate_pid, SyscallKill, SleepFor, RemoveFile. program_seq. Qed.
Lemma program_Signal i s : program (Signal (H := J) i s).
Proof. unfold Signal. program_seq. Qed.
Lemma program_Wait i : program (Wait (H := J) i).
Proof. unfold Wait. program_seq. Qed.
Lemma program_start_piped argv : program (start_piped (H := J) argv).
Proof. unfold start_piped, wrapf. program_seq. Qed.
#[local] Hint Resolve program_build_artifacts program_startTPM program_AddPIDFile program_AddProcess
  program_attach_stream program_SleepFor program_cleanupPIDFile program_Signal program_Wait
  program_start_piped : is_program.
Lemma program_build_vm c tap : program (build_vm (H := J) c tap).
Proof. unfold build_vm, watch_build, await_build, build_verdict, wrapf, errorf. program_seq. Qed.
Lemma program_run_artifacts c : program (run_artifacts (H := J) c).
Proof. unfold run_artifacts, setupRunArtifacts, wrapf. program_seq. Qed.
Lemma program_run_vm c tap : program (run_vm (H := J) c tap).
Proof. unfold run_vm, run_tagged, run_direct, wrapf, errorf. program_seq. Qed.
#[local] Hint Resolve program_build_vm program_run_artifacts program_run_vm : is_program.
Lemma program_run_mode c : program (run_mode (H := J) c).
Proof. unfold run_mode, runBuildMode, runRunMode. program_seq. Qed.
Lemma program_CleanupAll : program (CleanupAll (H := J)).
Proof.
  unfold CleanupAll, stop_process. apply program_bind; [|intros _; program_seq].
  apply program_modify. split; [done| |done..]. intros w. by exists [HCancelManager].
Qed.
#[local] Hint Resolve program_run_mode program_CleanupAll : is_program.
Lemma program_Run c : program (Run (H := J) c).
Proof.
  unfold Run, run_validated, check_firmware, resolve_workDir, wrapf, lift. program_seq.
  all: apply program_deferred; auto with is_program.
Qed.

(** ** After the interruption *)

(** The schedule after [k] of the calls of a run interrupted after [t]. *)
Definition due (t k : nat) : schedule := if k <? t then Pending (t - 1 - k) else Interrupted.
Record on_time (t : nat) w : Prop := {
  on_time_due : snd (host w) = due t (length (asked (calls w)));
  on_time_ctx : snd (host w) = Interrupted → ctx_done w = true;
}.
(** From [w] to [w'], every QEMU was started before the interruption. *)
Definition paced (t : nat) w w' : Prop :=
  on_time t w → on_time t w' ∧ ∃ l, calls w' = calls w ++ l ∧
    ∀ b x a, l = b ++ x :: a → is_qemu_start x = true → length (asked (calls w ++ b)) < t.

#[export] Instance paced_preorder t : PreOrder (paced t).
Proof.
  split.
  - intros w O. split; [done|]. exists []. rewrite app_nil_r. split; [done|]. by intros [] x a [=].
  - intros w1 w2 w3 P1 P2 O1. destruct (P1 O1) as (O2 & l1 & C1 & Q1). destruct (P2 O2) as (O3 & l2 & C2 & Q2).
    split; [done|]. exists (l1 ++ l2). split; [by rewrite C2, C1, app_assoc|].
    intros b x a E Hx. apply app_eq_inv in E as [(k & -> & E)|(k & -> & E)].
    + destruct k as [|y k]; cbn in E.
      * specialize (Q2 [] x a (eq_sym E) Hx). by rewrite C1, !app_nil_r in Q2.
      * injection E as <- ->. by apply (Q1 b x k).
    + rewrite app_assoc, <- C1. by apply (Q2 k x a).
Qed.

Lemma due_start t : due (S t) 0 = Pending t.
Proof. unfold due. rewrite (proj2 (Nat.ltb_lt _ _)) by lia. f_equal. lia. Qed.
Lemma due_tick t k h : (tick interrupt (h, due t k)).2 = due t (S k).
Proof.
  unfold due. destruct (Nat.ltb_spec k t), (Nat.ltb_spec (S k) t); try lia; [| |done].
  - destruct (t - 1 - k) as [|n] eqn:E; [lia|]. cbn. f_equal. lia.
  - by replace (t - 1 - k) with 0 by lia.
Qed.
(** One call of the host: it is paced if it does not start QEMU too late. *)
Lemma paced_call t w (x : hcall) h w' :
  leaves x = true → (is_qemu_start x = true → ctx_done w = false) →
  host w' = tick interrupt (h, snd (host w)) → calls w' = calls w ++ [x] →
  ctx_done w' = ctx_done w || host_cancels (host w') → paced t w w'.
Proof.
  intros Hx Hs Hh Hc Hd O. assert (Ha : asked (calls w') = asked (calls w) ++ [x]).
  { rewrite Hc, asked_app. cbn. by rewrite Hx. }
  split; [split|].
  - rewrite Hh, Ha, length_app, (on_time_due _ _ O), due_tick. f_equal. cbn. lia.
  - intros Hi. rewrite Hd. cbn. rewrite Hi. by rewrite bool_decide_true, orb_true_r.
  - exists [x]. split; [done|]. intros b y a E Hy. destruct b as [|z b]; [|by destruct b].
    injection E as <- <-. rewrite app_nil_r. pose proof (on_time_due _ _ O) as Hdue. unfold due in Hdue.
    destruct (Nat.ltb_spec (length (asked (calls w))) t) as [|Hge]; [done|].
    pose proof (on_time_ctx _ _ O Hdue). rewrite Hs in *; congruence.
Qed.
Lemma paced_internal t f w : internal f → paced t w (f w).
Proof.
  intros Hf O. destruct (internal_calls f Hf w) as (l & C & Hl). split; [split|].
  - rewrite (internal_host f Hf), C, asked_app, Hl, app_nil_r. apply O.
  - rewrite (internal_host f Hf). intros Hi. by apply (internal_ctx f Hf), O.
  - exists l. split; [done|]. intros b x a -> Hx. rewrite asked_app in Hl. cbn in Hl.
    rewrite (start_leaves x Hx) in Hl. by destruct (asked b).
Qed.

Lemma program_paced t {A} (m : Prog A) : program m → preserves (paced t) m.
Proof.
  induction 1; auto with preserve.
  - intros w. by apply paced_internal.
  - intros w. unfold ask. rewrite H. unfold ticked. destruct (g (host w).1) as [r h].
    destruct (H1 r) as [Hl Hs]. by apply (paced_call t w (c r) h); rewrite ?Hs.
  - intros w. unfold Start. destruct (ctx_done w) eqn:Ec; [reflexivity|].
    cbn. unfold ticked. destruct (host_start argv io (host w).1) as [[p|e] h];
      [apply (paced_call t w (HStart argv io true) h)|apply (paced_call t w (HStart argv io false) h)]; done.
Qed.

(** ** Before the interruption *)

Definition grows w w' : Prop := calls w `prefix_of` calls w'.
#[export] Instance grows_preorder : PreOrder grows.
Proof. unfold grows. split; [by intros w|]. intros w1 w2 w3. apply transitivity. Qed.
Lemma program_grows {A} (m : Prog A) : program m → preserves grows m.
Proof.
  induction 1; auto with preserve.
  - intros w. destruct (internal_calls _ H w) as (l & C & _). by exists l.
  - intros w. unfold ask. destruct (f (host w)) as [r h]. by eexists.
  - intros w. unfold Start. destruct (ctx_done w); [reflexivity|].
    by destruct (host_start argv io (host w)) as [[p|e] h]; eexists.
Qed.

(** A run left alone and one that will be interrupted, before that moment. *)
Record together (t : nat) w1 w2 : Prop := {
  together_alone : snd (host w1) = Never;
  together_due : w2 = with_schedule (due t (length (asked (calls w1)))) w1;
  together_early : length (asked (calls w1)) < t;
}.
(** They have parted at that moment. *)
Definition parted (t : nat) w1 w2 : Prop :=
  ∃ p, p `prefix_of` calls w1 ∧ p `prefix_of` calls w2 ∧ length (asked p) = t.
Definition agree (t : nat) {A} (m : Prog A) : Prop := ∀ w1 w2, together t w1 w2 →
  ((m w1).1 = (m w2).1 ∧ together t (m w1).2 (m w2).2) ∨ parted t (m w1).2 (m w2).2.

Lemma parted_grow t w1 w2 w1' w2' :
  parted t w1 w2 → grows w1 w1' → grows w2 w2' → parted t w1' w2'.
Proof.
  intros (p & P1 & P2 & L) G1 G2. exists p.
  split_and!; [by transitivity (calls w1)|by transitivity (calls w2)|done].
Qed.

Lemma together_call t w1 w2 (x : hcall) h w1' w2' :
  together t w1 w2 → leaves x = true → calls w1' = calls w1 ++ [x] →
  host w1' = (h, Never) → host w2' = tick interrupt (h, snd (host w2)) →
  calls w2' = calls w2 ++ [x] → (snd (host w2') ≠ Interrupted → w2' = with_schedule (snd (host w2')) w1') →
  together t w1' w2' ∨ parted t w1' w2'.
Proof.
  intros [T1 T2 T3] Hx Hc Hh Hh2 Hc2 Hw. assert (Ha : length (asked (calls w1')) = S (length (asked (calls w1)))).
  { rewrite Hc, asked_app, length_app. cbn. rewrite Hx. cbn. lia. }
  subst w2. cbn [with_schedule host snd calls] in *. pose proof (due_tick t (length (asked (calls w1))) h) as D.
  rewrite <- Hh2 in D. destruct (decide (S (length (asked (calls w1))) = t)) as [E|E].
  - right. exists (calls w1'). split_and!; [done|by rewrite Hc, Hc2|lia].
  - left. split; [by rewrite Hh| |lia]. rewrite Ha, <- D. apply Hw. rewrite D. unfold due.
    by rewrite (proj2 (Nat.ltb_lt _ _)) by lia.
Qed.
Lemma together_internal t f w1 w2 : internal f → together t w1 w2 → together t (f w1) (f w2).
Proof.
  intros Hf [T1 -> T3]. assert (Ha : asked (calls (f w1)) = asked (calls w1)).
  { destruct (internal_calls f Hf w1) as (l & -> & Hl). by rewrite asked_app, Hl, app_nil_r. }
  split; [by rewrite (internal_host f Hf)|rewrite Ha; apply (internal_stable f Hf)|by rewrite Ha].
Qed.

Lemma call_with_schedule m h w x :
  (tick interrupt (h, m)).2 ≠ Interrupted →
  set_host (H := J) (tick interrupt (h, m)) (add_call x (with_schedule m w))
  = with_schedule (tick interrupt (h, m)).2 (set_host (H := J) (h, Never) (add_call x w)).
Proof. by destruct m as [|[|n]|]. Qed.

Lemma agree_call t w1 w2 x h : together t w1 w2 → leaves x = true →
  let w1' := set_host (H := J) (h, Never) (add_call x w1) in
  let w2' := set_host (H := J) (tick interrupt (h, (host w2).2)) (add_call x w2) in
  together t w1' w2' ∨ parted t w1' w2'.
Proof.
  intros T Hx w1' w2'. apply (together_call t w1 w2 x h); try done. intros Hi. unfold w2' in *.
  rewrite (together_due _ _ _ T) in *. by apply call_with_schedule.
Qed.
Lemma internal_add_cmd x : internal (λ w, set_cmds (cmds w ++ [x]) w).
Proof.
  split; try done; intros w; cbn.
  - exists []. by rewrite app_nil_r.
  - rewrite length_app. lia.
Qed.

Lemma program_agree t {A} (m : Prog A) : program m → agree t m.
Proof.
  induction 1 as [A a|A e|A f Hf|f Hf|R c f g Hf Hc|argv io|A B m k Hm IHm Hk IHk|A m Hm IHm|A g m Hm IHm
    |A m d Hm IHm Hd IHd]; intros w1 w2 T; pose proof (together_due _ _ _ T) as E;
    pose proof (together_alone _ _ _ T) as Ea;
    assert (Eh : (host w2).1 = (host w1).1) by (by rewrite E).
  - by left.
  - by left.
  - left. split; [|done]. cbn. by rewrite E, Hf.
  - left. split; [done|]. by apply together_internal.
  - unfold ask. rewrite !Hf. unfold ticked. rewrite Ea, Eh. destruct (g (host w1).1) as [r h].
    destruct (Hc r) as [Hl _]. by destruct (agree_call t w1 w2 (c r) h T Hl); [left|right].
  - unfold Start. replace (ctx_done w2) with (ctx_done w1) by (by rewrite E).
    destruct (ctx_done w1); [by left|]. cbn. unfold ticked. rewrite Ea, Eh.
    destruct (host_start argv io (host w1).1) as [[p|e] h]; cbn.
    + destruct (agree_call t w1 w2 (HStart argv io true) h T eq_refl) as [T'|P].
      * left. split; [by rewrite E|]. exact (together_internal t _ _ _ (internal_add_cmd _) T').
      * by right.
    + by destruct (agree_call t w1 w2 (HStart argv io false) h T eq_refl); [left|right].
  - rewrite !bind_run. destruct (IHm w1 w2 T) as [[Er T']|P].
    + destruct (m w1) as [[a|e] w1'], (m w2) as [[a'|e'] w2']; cbn in *; simplify_eq; [by apply IHk|by left].
    + right. assert (Hg : ∀ w, grows (m w).2 (mbind k m w).2).
      { intros w. rewrite bind_run. destruct (m w) as [[a|e] w']; [apply program_grows, Hk|reflexivity]. }
      by apply (parted_grow t (m w1).2 (m w2).2).
  - unfold try. specialize (IHm w1 w2 T).
    destruct (m w1) as [r1 w1'], (m w2) as [r2 w2']; cbn in *. naive_solver.
  - unfold wrap_err. specialize (IHm w1 w2 T).
    destruct (m w1) as [[a|e] w1'], (m w2) as [[a'|e'] w2']; cbn in *; naive_solver.
  - unfold deferred. specialize (IHm w1 w2 T).
    destruct (m w1) as [r1 w1'], (m w2) as [r2 w2']; cbn in *. destruct IHm as [[-> T']|P].
    + destruct (IHd w1' w2' T') as [[_ ?]|?]; auto.
    + right. apply (parted_grow t w1' w2'); [done|by apply program_grows..].
Qed.

(** A run that succeeds has started a QEMU. *)
Definition more w w' : Prop := length (cmds w) ≤ length (cmds w').
#[export] Instance more_preorder : PreOrder more.
Proof. unfold more. split; [intros w; done|intros w1 w2 w3; cbn; lia]. Qed.
Lemma program_more {A} (m : Prog A) : program m → preserves more m.
Proof.
  induction 1; auto with preserve.
  - intros w. by apply (internal_cmds f).
  - intros w. unfold ask. destruct (f (host w)) as [r h]. unfold more. cbn. lia.
  - intros w. unfold Start. destruct (ctx_done w); [reflexivity|].
    destruct (host_start argv io (host w)) as [[p|e] h]; unfold more; cbn; rewrite ?length_app; lia.
Qed.
(** [m] adds a command when it succeeds. *)
Definition starts {A} (m : Prog A) : Prop := ∀ w a w', m w = (Ok a, w') → length (cmds w) < length (cmds w').

Lemma starts_bind_r {A B} (m : Prog A) (k : A → Prog B) : program m → (∀ a, starts (k a)) → starts (m ≫= k).
Proof.
  intros Hm Hk w b w'. rewrite bind_run. pose proof (program_more m Hm w) as Hl. unfold more in Hl.
  destruct (m w) as [[a|e] w1]; [|done]. intros E. apply Hk in E. cbn in Hl. lia.
Qed.
Lemma starts_bind_l {A B} (m : Prog A) (k : A → Prog B) : starts m → (∀ a, program (k a)) → starts (m ≫= k).
Proof.
  intros Hm Hk w b w'. rewrite bind_run. destruct (m w) as [[a|e] w1] eqn:E; [|done]. apply Hm in E.
  intros E'. pose proof (program_more _ (Hk a) w1) as Hl. unfold more in Hl. rewrite E' in Hl. cbn in Hl. lia.
Qed.
Lemma starts_deferred {A} (m : Prog A) d : starts m → program d → starts (deferred m d).
Proof.
  intros Hm Hd w a w'. unfold deferred. destruct (m w) as [[b|e] w1] eqn:E; [|by intros [=]]. apply Hm in E.
  intros [= <- <-]. pose proof (program_more d Hd w1) as Hl. unfold more in Hl. lia.
Qed.
Lemma starts_start_piped argv : starts (start_piped (H := J) argv).
Proof.
  intros w i w' E. destruct (start_piped_run (H := J) argv w) as [(e & w1 & E' & _)|(p & w1 & E' & A & _)];
    rewrite E in E'; simplify_eq. rewrite A, length_app. cbn. lia.
Qed.
Lemma starts_throw {A} e : starts (throw e : Prog A).
Proof. by intros w a w'. Qed.
Lemma starts_build_vm c tap : starts (build_vm (H := J) c tap).
Proof.
  unfold build_vm, wrapf. do 4 (apply starts_bind_r; [by program_seq|intros ?]).
  apply starts_bind_l; [apply starts_start_piped|intros i].
  unfold watch_build, await_build, build_verdict, errorf. program_seq.
Qed.
Lemma starts_run_direct c f argv : starts (run_direct (H := J) c f argv).
Proof.
  unfold run_direct. apply starts_bind_r; [by program_seq|intros _].
  intros w a w'. rewrite bind_run. unfold try.
  destruct (Start_run (H := J) argv Inherited w) as [(e & w1 & -> & _)|(p & w1 & -> & A & _)].
  { rewrite bind_run. by destruct (cleanupPIDFile f w1) as [[[]|] w2]. }
  intros E. assert (Hl : length (cmds w) < length (cmds w1)) by (rewrite A, length_app; cbn; lia).
  apply (Nat.lt_le_trans _ _ _ Hl). revert E. match goal with |- ?m w1 = _ → _ => assert (Hm : program m) end.
  { unfold errorf. program_seq. }
  intros E. pose proof (program_more _ Hm w1) as Hw. unfold more in Hw. by rewrite E in Hw.
Qed.
Lemma starts_run_vm c tap : starts (run_vm (H := J) c tap).
Proof.
  unfold run_vm, wrapf. do 3 (apply starts_bind_r; [by program_seq|intros ?]).
  destruct (is_tagged c); [|apply starts_run_direct].
  unfold run_tagged. apply starts_bind_l; [apply starts_start_piped|intros i].
  program_seq.
Qed.
Lemma starts_Run c : starts (Run (H := J) c).
Proof.
  assert (Hm : starts (run_mode (H := J) c)).
  { unfold run_mode, runBuildMode, runRunMode.
    destruct (is_build c); (apply starts_bind_r; [by program_seq|intros ?]);
      [apply starts_build_vm|apply starts_run_vm]. }
  unfold Run, run_validated, check_firmware, resolve_workDir, wrapf, lift.
  do 5 (apply starts_bind_r; [by program_seq|intros ?]).
  destruct (NoCleanup c); [done|]. apply starts_deferred; [done|apply program_CleanupAll].
Qed.
End Programs.

(** ** Whole runs *)

Section CancelledRuns.
Context {H0 : Host} (interrupt : HostState → HostState) {G : Platform}.
#[local] Notation J := (Interruptible interrupt).

(** A run of the package, its context cancelled after [m] calls. *)
Definition run_interrupted (c : RunnerConfig) (m : moment) (h : HostState) : result error () * @RunWorld J :=
  Run (H := J) c (new_world (H := J) (interrupted_at interrupt m h)).
Definition calls_of (c : RunnerConfig) (m : moment) (h : HostState) : list hcall :=
  asked (calls (run_interrupted c m h).2).

Lemma interrupted_on_time t h : on_time interrupt t (new_world (H := J) (interrupted_at interrupt (Some t) h)).
Proof.
  split.
  - destruct t as [|t]; [done|]. symmetry. apply (due_start t).
  - cbn. intros ->. by rewrite bool_decide_true.
Qed.
(** Late calls start no QEMU. *)
Lemma run_paced c t h b x a :
  calls (run_interrupted c (Some t) h).2 = b ++ x :: a → is_qemu_start x = true → length (asked b) < t.
Proof.
  intros E Hx. destruct (program_paced interrupt t _ (program_Run interrupt c) _ (interrupted_on_time t h))
    as (_ & l & C & Q). apply (Q b x a); [|done]. rewrite <- E. symmetry. exact C.
Qed.
Lemma calls_paced c t h : Forall (λ x, is_qemu_start x = false) (drop t (calls_of c (Some t) h)).
Proof.
  apply Forall_forall. intros x Hx. destruct (is_qemu_start x) eqn:Es; [|done].
  apply list_elem_of_lookup in Hx as [i Hi]. rewrite lookup_drop in Hi. unfold calls_of in Hi.
  apply list_elem_of_split_length in Hi as (b & a & E & L).
  apply asked_split in E as (b' & a' & E & Hb).
  pose proof (run_paced c t h b' x a' E Es) as Hl. rewrite Hb in Hl. lia.
Qed.
Lemma calls_agree c t h :
  (t ≤ length (calls_of c None h) →
     t ≤ length (calls_of c (Some t) h) ∧ take t (calls_of c (Some t) h) = take t (calls_of c None h)) ∧
  (length (calls_of c None h) < t →
     (run_interrupted c (Some t) h).1 = (run_interrupted c None h).1 ∧ calls_of c (Some t) h = calls_of c None h).
Proof.
  destruct t as [|t].
  { split; [|lia]. intros _. rewrite !take_0. split; [lia|done]. }
  assert (T : together interrupt (S t) (new_world (H := J) (interrupted_at interrupt None h))
    (new_world (H := J) (interrupted_at interrupt (Some (S t)) h))).
  { split; [done| |cbn; lia]. cbn [new_world calls asked List.filter length].
    by rewrite due_start. }
  destruct (program_agree interrupt (S t) _ (program_Run interrupt c) _ _ T) as [[E T']|(p & P1 & P2 & L)];
    fold (run_interrupted c None h) (run_interrupted c (Some (S t)) h) in *.
  - destruct T' as [_ E2 Hl]. split; [unfold calls_of; lia|]. intros _. split; [done|].
    unfold calls_of. by rewrite E2.
  - assert (Hp : ∀ m, p `prefix_of` calls (run_interrupted c m h).2 →
      S t ≤ length (calls_of c m h) ∧ take (S t) (calls_of c m h) = asked p).
    { intros m [k Hk]. unfold calls_of. rewrite Hk, asked_app, length_app, take_app_le, take_ge by lia.
      split; [lia|done]. }
    destruct (Hp _ P1) as [L1 ->], (Hp _ P2) as [L2 ->]. split; [by auto|lia].
Qed.

Lemma asked_starts l : List.filter is_qemu_start (asked l) = List.filter is_qemu_start l.
Proof.
  unfold asked. induction l as [|x l IH]; [done|]. cbn. destruct (leaves x) eqn:El; cbn; rewrite IH; [done|].
  destruct (is_qemu_start x) eqn:Es; [|done]. apply start_leaves in Es. congruence.
Qed.
Lemma no_starts l : Forall (λ x, is_qemu_start x = false) l → List.filter is_qemu_start l = [].
Proof. induction 1 as [|x l Hx _ IH]; [done|]. cbn. by rewrite Hx. Qed.

(** A run that starts no QEMU fails. *)
Lemma run_without_qemu c m h :
  Forall (λ x, is_qemu_start x = false) (calls_of c m h) →
  cmds (run_interrupted c m h).2 = [] ∧ is_ok (run_interrupted c m h).1 = false.
Proof.
  intros Hn. apply no_starts in Hn. unfold calls_of in Hn. rewrite asked_starts in Hn.
  pose proof (Run_cmds_count (H := J) c (interrupted_at interrupt m h)) as L.
  fold (run_interrupted c m h) in L. rewrite Hn in L. apply nil_length_inv in L. split; [done|].
  destruct (run_interrupted c m h) as [[[]|e] w] eqn:E; [|done]. apply starts_Run in E. cbn in L.
  rewrite L in E. cbn in E. lia.
Qed.
End CancelledRuns.
