(* ===== verification/RunAlone.v ===== *)
(** * RunAlone: an interruptible host that is never interrupted

    Cancellation compares a cancelled run with a run left alone on the same
    interruptible host.  Here that run is shown to be the run on the host itself,
    computation by computation, which gives the property of a cancelled run: it
    is compared with [Run] on the host it was given. *)

From S2P Require Import Prelude GoStrings VmLib HostWorld RunnerConfig QemuArgs.
From S2P Require Import ScriptedHost ProcessManager RunnerNet RunnerRun RunnerSafety RunnerProtocol RunnerOrder Cancellation.

Section Alone.
Context {H0 : Host} (interrupt : HostState → HostState) {G : Platform}.
#[local] Notation J := (Interruptible interrupt).
#[local] Notation World := (@RunWorld J).
#[local] Notation Prog := (M World error).
#[local] Notation World0 := (@RunWorld H0).
#[local] Notation Prog0 := (M World0 error).

Definition embed_cmd (x : @Cmd H0) : @Cmd J :=
  {| cmd_process := (cmd_process x : @Proc J); cmd_waited := cmd_waited x |}.
Definition embed (w : World0) : World :=
  {| host := (host w, Never) : @HostState J; cmds := map embed_cmd (cmds w); pm := pm w; workDir := workDir w;
     ctx_done := ctx_done w; streams := streams w; printed := printed w; calls := calls w |}.
(** [m] does what [m0] does. *)
Definition twin {A} (m0 : Prog0 A) (m : Prog A) : Prop := ∀ w, m (embed w) = ((m0 w).1, embed (m0 w).2).

Lemma twin_ret {A} (a : A) : twin (mret a) (mret a).
Proof. done. Qed.
Lemma twin_throw {A} e : twin (throw e : Prog0 A) (throw e : Prog A).
Proof. done. Qed.
Lemma twin_gets {A} (f0 : World0 → A) (f : World → A) : (∀ w, f (embed w) = f0 w) → twin (gets f0) (gets f).
Proof. intros Hf w. unfold gets. by rewrite Hf. Qed.
Lemma twin_modify (f0 : World0 → World0) (f : World → World) :
  (∀ w, f (embed w) = embed (f0 w)) → twin (modify f0) (modify f).
Proof. intros Hf w. unfold modify. by rewrite Hf. Qed.
Lemma twin_bind {A B} (m0 : Prog0 A) (m : Prog A) (k0 : A → Prog0 B) (k : A → Prog B) :
  twin m0 m → (∀ a, twin (k0 a) (k a)) → twin (m0 ≫= k0) (m ≫= k).
Proof.
  intros Hm Hk w. rewrite !bind_run, Hm. destruct (m0 w) as [[a|e] w']; cbn [fst snd]; [apply Hk|done].
Qed.
Lemma twin_try {A} (m0 : Prog0 A) (m : Prog A) :
  twin m0 m → twin (try m0 : Prog0 (result error A)) (try m : Prog (result error A)).
Proof. intros Hm w. unfold try. rewrite Hm. by destruct (m0 w). Qed.
Lemma twin_wrap {A} g (m0 : Prog0 A) (m : Prog A) :
  twin m0 m → twin (wrap_err g m0 : Prog0 A) (wrap_err g m : Prog A).
Proof. intros Hm w. unfold wrap_err. rewrite Hm. by destruct (m0 w) as [[a|e] w']. Qed.
Lemma twin_deferred {A} (m0 : Prog0 A) (m : Prog A) d0 d :
  twin m0 m → twin d0 d → twin (deferred m0 d0) (deferred m d).
Proof. intros Hm Hd w. unfold deferred. rewrite Hm. destruct (m0 w) as [r w']. cbn. by rewrite Hd. Qed.
Lemma twin_for_each {A} (f0 : A → Prog0 ()) (f : A → Prog ()) l :
  (∀ x, twin (f0 x) (f x)) → twin (for_each f0 l) (for_each f l).
Proof. intros Hf. induction l as [|x l IH]; [apply twin_ret|]. by apply twin_bind. Qed.

(** What a host and its interruptible form answer. *)
Lemma twin_ask {R} (c : R → hcall) (f0 : HostState → R * HostState) (f : @HostState J → R * @HostState J) :
  (∀ s, f s = ticked interrupt f0 s) → twin (ask c f0) (ask c f).
Proof.
  intros Hf w. unfold ask. rewrite Hf. unfold ticked. cbn [embed host fst snd].
  by destruct (f0 (host w)) as [r h].
Qed.
Lemma twin_tell (c : hcall) (f0 : HostState → HostState) (f : @HostState J → @HostState J) :
  (∀ s, f s = ticked_ interrupt f0 s) → twin (tell c f0) (tell c f).
Proof. intros Hf. apply twin_ask. intros s. unfold ticked. by rewrite Hf. Qed.
Lemma twin_attempt {R} (c : hcall) f0 (f : @HostState J → result error R * @HostState J) :
  (∀ s, f s = ticked interrupt f0 s) → twin (attempt c f0) (attempt c f).
Proof.
  intros Hf. apply twin_bind; [by apply twin_ask|]. intros []; [apply twin_ret|apply twin_throw].
Qed.
Lemma twin_start argv io : twin (Start argv io) (@Start J argv io).
Proof.
  intros w. unfold Start. change (ctx_done (embed w)) with (ctx_done w). destruct (ctx_done w); [done|].
  change (@host_start J argv io (host (embed w))) with (ticked interrupt (host_start argv io) (host w, Never)).
  unfold ticked. cbn [fst snd]. destruct (host_start argv io (host w)) as [[p|e] h]; [|done].
  unfold embed, set_cmds. cbn. by rewrite length_map, map_app.
Qed.
(** A look at the table of commands. *)
Lemma twin_lookup {B} i (k0 : option (@Cmd H0) → Prog0 B) (k : option (@Cmd J) → Prog B) :
  (∀ o, twin (k0 o) (k (embed_cmd <$> o))) → twin (gets (λ w, cmds w !! i) ≫= k0) (gets (λ w, cmds w !! i) ≫= k).
Proof.
  intros Hk w. rewrite !bind_run. unfold gets. cbn [embed cmds]. rewrite list_lookup_fmap. apply Hk.
Qed.
Lemma twin_on_cmd {R} i (none : R) (f0 : @Cmd H0 → Prog0 R) (f : @Cmd J → Prog R) :
  (∀ x, twin (f0 x) (f (embed_cmd x))) → twin (on_cmd i none f0) (on_cmd i none f).
Proof. intros Hf. apply twin_lookup. intros [x|]; [apply Hf|apply twin_ret]. Qed.
Lemma embed_mark_waited i w : mark_waited i (embed w) = embed (mark_waited i w).
Proof.
  unfold mark_waited, set_cmds, embed. cbn. f_equal.
  generalize (cmds w). intros l. revert i. induction l as [|x l IH]; intros [|i]; cbn; [done..|]. by rewrite IH.
Qed.

(** ** The code of the package, function by function *)

Create HintDb twins.
#[local] Hint Resolve twin_ret twin_throw twin_start twin_for_each : twins.

Ltac twin_seq :=
  repeat first
    [ done
    | solve [auto 2 with twins nocore]
    | apply twin_ret | apply twin_throw | apply twin_start
    | apply twin_on_cmd; intros ?; cbn [embed_cmd cmd_waited cmd_process]
    | apply twin_lookup; intros []; cbn [fmap option_fmap option_map embed_cmd cmd_waited cmd_process]
    | apply twin_gets; done
    | apply twin_ask; done
    | apply twin_tell; done
    | apply twin_attempt; done
    | apply twin_modify; first [done | intros w; apply embed_mark_waited]
    | apply twin_bind; [|intros ?]
    | apply twin_wrap | apply twin_try | apply twin_for_each; intros ?
    | match goal with |- twin (if ?b then _ else _) _ => destruct b end
    | match goal with |- twin (match ?x with _ => _ end) _ => destruct x end ].

Lemma twin_Printf msg : twin (Printf msg) (Printf msg).
Proof. unfold Printf. twin_seq. Qed.
#[local] Hint Resolve twin_Printf : twins.
Lemma twin_require_device what dev : twin (require_device what dev) (require_device what dev).
Proof. unfold require_device, CombinedOutput, errorf. twin_seq. Qed.
#[local] Hint Resolve twin_require_device : twins.
Lemma twin_useTapDevice c : twin (useTapDevice c) (useTapDevice c).
Proof. unfold useTapDevice, errorf. twin_seq. Qed.
Lemma twin_checkBridgeSetup c : twin (checkBridgeSetup c) (checkBridgeSetup c).
Proof. unfold checkBridgeSetup, check_transit, require_address, CombinedOutput, errorf. twin_seq. Qed.
Lemma twin_require b msg : twin (require b msg) (require b msg).
Proof. unfold require, errorf. twin_seq. Qed.
Lemma twin_fileExists p : twin (fileExists p) (fileExists p).
Proof. unfold fileExists. twin_seq. Qed.
Lemma twin_isNewer a b : twin (isNewer a b) (isNewer a b).
Proof. unfold isNewer. twin_seq. Qed.
#[local] Hint Resolve twin_useTapDevice twin_checkBridgeSetup twin_require twin_fileExists twin_isNewer : twins.
Lemma twin_MkdirAll p m : twin (MkdirAll p m) (MkdirAll p m).
Proof. unfold MkdirAll. twin_seq. Qed.
Lemma twin_copyFile a b : twin (copyFile a b) (copyFile a b).
Proof. unfold copyFile. twin_seq. Qed.
Lemma twin_createDisk c p : twin (createDisk c p) (createDisk c p).
Proof. unfold createDisk, wrapf, RunCommand. twin_seq. Qed.
#[local] Hint Resolve twin_MkdirAll twin_copyFile twin_createDisk : twins.
Lemma twin_setupTPMState c : twin (setupTPMState c) (setupTPMState c).
Proof. unfold setupTPMState, initializeTPMState, copyDir, wrapf. twin_seq. Qed.
#[local] Hint Resolve twin_setupTPMState : twins.
Lemma twin_build_artifacts c : twin (build_artifacts c) (build_artifacts c).
Proof. unfold build_artifacts, wrapf. twin_seq. Qed.
Lemma twin_startTPM c d : twin (startTPMWithDir c d) (startTPMWithDir c d).
Proof. unfold startTPMWithDir, lift. twin_seq. Qed.
Lemma twin_AddPIDFile f : twin (AddPIDFile f) (AddPIDFile f).
Proof. unfold AddPIDFile. twin_seq. Qed.
Lemma twin_AddProcess i : twin (AddProcess i) (AddProcess i).
Proof. unfold AddProcess. twin_seq. Qed.
Lemma twin_attach_stream tag t : twin (attach_stream tag t) (attach_stream tag t).
Proof. unfold attach_stream. twin_seq. Qed.
Lemma twin_cleanupPIDFile f : twin (cleanupPIDFile f) (cleanupPIDFile f).
Proof. unfold cleanupPIDFile, terminate_pid, SyscallKill, SleepFor, RemoveFile. twin_seq. Qed.
Lemma twin_Signal i s : twin (Signal i s) (Signal i s).
Proof. unfold Signal. twin_seq. Qed.
Lemma twin_Wait i : twin (Wait i) (Wait i).
Proof. unfold Wait. twin_seq. Qed.
Lemma twin_start_piped argv : twin (start_piped argv) (start_piped argv).
Proof. unfold start_piped, wrapf. twin_seq. Qed.
#[local] Hint Resolve twin_build_artifacts twin_startTPM twin_AddPIDFile twin_AddProcess
  twin_attach_stream twin_cleanupPIDFile twin_Signal twin_Wait twin_start_piped : twins.
Lemma twin_build_vm c tap : twin (build_vm c tap) (build_vm c tap).
Proof. unfold build_vm, watch_build, await_build, build_verdict, SleepFor, wrapf, errorf. twin_seq. Qed.
Lemma twin_run_artifacts c : twin (run_artifacts c) (run_artifacts c).
Proof. unfold run_artifacts, setupRunArtifacts, wrapf. twin_seq. Qed.
Lemma twin_run_vm c tap : twin (run_vm c tap) (run_vm c tap).
Proof. unfold run_vm, run_tagged, run_direct, wrapf, errorf. twin_seq. Qed.
#[local] Hint Resolve twin_build_vm twin_run_artifacts twin_run_vm : twins.
Lemma twin_run_mode c : twin (run_mode c) (run_mode c).
Proof. unfold run_mode, runBuildMode, runRunMode. twin_seq. Qed.
Lemma twin_CleanupAll : twin CleanupAll CleanupAll.
Proof. unfold CleanupAll, stop_process, SleepFor. twin_seq. Qed.
#[local] Hint Resolve twin_run_mode twin_CleanupAll : twins.
Lemma twin_Run c : twin (Run c) (Run c).
Proof.
  unfold Run, run_validated, check_firmware, resolve_workDir, wrapf, lift. twin_seq.
  apply twin_deferred; auto with twins.
Qed.

(** ** A run left alone *)

Lemma embed_new_world h :
  embed (new_world h) = new_world (H := J) (interrupted_at interrupt None h).
Proof. done. Qed.
Lemma run_left_alone c h :
  (run_interrupted interrupt c None h).1 = (Run c (new_world h)).1 ∧
  calls_of interrupt c None h = asked (calls (Run c (new_world h)).2).
Proof. unfold calls_of, run_interrupted. by rewrite <- embed_new_world, twin_Run. Qed.

(** ** Property *)

(** C5: a cancelled run.  Whatever is configured, however the host answers, and
    whatever the cancellation does to it: when the context is cancelled after [t]
    calls, those calls are the ones of [Run] left alone on that host (and the
    whole run is that run, answer included, when it ended earlier); no call after
    them starts a QEMU; and when none of them did, the run starts no QEMU at all,
    has no command left and fails. *)
Theorem cancelled_run c t h :
  let alone := asked (calls (Run c (new_world h)).2) in
  let cut := calls_of interrupt c (Some t) h in
  (t ≤ length alone → t ≤ length cut ∧ take t cut = take t alone) ∧
  (length alone < t → (run_interrupted interrupt c (Some t) h).1 = (Run c (new_world h)).1 ∧ cut = alone) ∧
  Forall (λ x, is_qemu_start x = false) (drop t cut) ∧
  (Forall (λ x, is_qemu_start x = false) (take t cut) →
     Forall (λ x, is_qemu_start x = false) cut ∧
     cmds (run_interrupted interrupt c (Some t) h).2 = [] ∧
     is_ok (run_interrupted interrupt c (Some t) h).1 = false).
Proof.
  cbv zeta. destruct (run_left_alone c h) as [<- <-]. split; [apply calls_agree|]. split; [apply calls_agree|].
  split; [apply calls_paced|]. intros Ht.
  assert (Ha : Forall (λ x, is_qemu_start x = false) (calls_of interrupt c (Some t) h)).
  { rewrite <- (take_drop t (calls_of interrupt c (Some t) h)). apply Forall_app.
    split; [done|apply calls_paced]. }
  split; [done|]. by apply run_without_qemu.
Qed.
End Alone.
