(* ===== verification/RunnerArtifacts.v ===== *)
(** * RunnerArtifacts: what build mode leaves for run mode

    The disk, the OVMF variables and the TPM state under the work directory are
    the contract between the two modes of runner/runner.go. *)

From S2P Require Import Prelude GoStrings GoStrconv GoPath VmLib HostWorld RunnerConfig QemuArgs.
From S2P Require Import ScriptedHost ProcessManager RunnerNet RunnerRun RunnerSafety.

Section Artifacts.
Context {H : Host} {G : Platform}.
Implicit Types (c : RunnerConfig) (w : RunWorld) (h : HostState).

Definition has (p : string) h : Prop := vm_FileExists p h = true.
(** The three artifacts, and the state a pristine TPM is copied from. *)
Definition artifacts (wd pristine : string) : list string :=
  [varsPath wd; diskPath wd; permallPath (tpmDir wd); permallPath pristine].

(** What is relied on of the host: the files named in [fs] are only removed by
    being removed, what reports success has made its file, and swtpm's PID file
    is none of them. *)
Record file_laws (wd : string) (fs : list string) : Prop := {
  law_combined : ∀ argv h p, p ∈ fs → has p h → has p (host_combined argv h).2;
  law_run : ∀ argv h p, p ∈ fs → has p h → has p (host_run argv h).2;
  law_Pipe : ∀ h p, p ∈ fs → has p h → has p (host_Pipe h).2;
  law_start : ∀ argv io h p, p ∈ fs → has p h → has p (host_start argv io h).2;
  law_select : ∀ q d h p, p ∈ fs → has p h → has p (host_select q d h).2;
  law_kill : ∀ q s h p, p ∈ fs → has p h → has p (host_kill q s h);
  law_signal : ∀ q s h p, p ∈ fs → has p h → has p (host_signal q s h);
  law_sleep : ∀ d h p, p ∈ fs → has p h → has p (host_sleep d h);
  law_MkdirAll : ∀ d m h p, p ∈ fs → has p h → has p (host_MkdirAll d m h).2;
  law_ReadPidFile : ∀ f h p, p ∈ fs → has p h → has p (host_ReadPidFile f h).2;
  law_Remove : ∀ f h p, p ∈ fs → p ≠ f → has p h → has p (host_Remove f h);
  law_CopyFile : ∀ s d h p, p ∈ fs → has p h → has p (vm_CopyFile s d h).2;
  law_CopyDir : ∀ s d h p, p ∈ fs → has p h → has p (vm_CopyDir s d h).2;
  law_InitTPM : ∀ b d l h p, p ∈ fs → has p h → has p (vm_InitializeTPMState b d l h).2;
  law_Swtpm : ∀ b d h p, p ∈ fs → has p h → has p (vm_StartSwtpm b d h).2;
  law_copied : ∀ s d h, is_ok (vm_CopyFile s d h).1 = true → has d (vm_CopyFile s d h).2;
  law_dir_copied : ∀ s d h, has (permallPath s) h → is_ok (vm_CopyDir s d h).1 = true →
    has (permallPath d) (vm_CopyDir s d h).2;
  law_initialized : ∀ b d l h, is_ok (vm_InitializeTPMState b d l h).1 = true →
    has (permallPath d) (vm_InitializeTPMState b d l h).2;
  law_created : ∀ img path size h,
    is_ok (host_run [img; "create"; "-f"; "raw"; path; size] h).1 = true →
    has path (host_run [img; "create"; "-f"; "raw"; path; size] h).2;
  law_pid_file : ∀ b h s f, (vm_StartSwtpm b (tpmDir wd) h).1 = Ok (s, f) → f ∉ fs;
}.

Variables (home : string) (fs : list string).
Hypothesis laws : file_laws home fs.

(** The files of [fs] and the work directory stay. *)
Record stays w w' : Prop := {
  stays_files : ∀ p, p ∈ fs → has p (host w) → has p (host w');
  stays_dir : workDir w' = workDir w;
}.
#[local] Instance stays_preorder : PreOrder stays.
Proof.
  split; [by intros w|]. intros w1 w2 w3 [A1 A2] [B1 B2]. split; [auto|congruence].
Qed.

Lemma ask_stays {R} x (f : HostState → R * HostState) :
  (∀ h p, p ∈ fs → has p h → has p (f h).2) → preserves stays (ask x f).
Proof.
  intros Hf w. destruct (ask_run x f w) as (w' & E & O & Hh). rewrite E.
  split; [|apply (outward_dir _ _ _ O)]. cbn [snd]. rewrite Hh. auto.
Qed.
Lemma attempt_stays {R} x (f : HostState → result error R * HostState) :
  (∀ h p, p ∈ fs → has p h → has p (f h).2) → preserves stays (attempt x f).
Proof.
  intros Hf. apply (preserves_bind _); [by apply ask_stays|]. intros [r|e]; by intros w.
Qed.
Lemma modify_stays (f : RunWorld → RunWorld) :
  (∀ w, host (f w) = host w ∧ workDir (f w) = workDir w) →
  preserves stays (modify f : RunM ()).
Proof. intros Hf w. destruct (Hf w) as [A B]. split; cbn; [by rewrite A|done]. Qed.
Lemma Start_stays argv io : preserves stays (Start argv io).
Proof.
  intros w. unfold Start. destruct (ctx_done w); [reflexivity|].
  pose proof (law_start _ _ laws argv io (host w)) as Hl.
  destruct (host_start argv io (host w)) as [[p|e] h]; split; cbn in *; auto.
Qed.
Lemma errorf_stays {A} msg : preserves stays (errorf msg : RunM A).
Proof. by intros w. Qed.
Lemma require_stays b msg : preserves stays (require b msg).
Proof. by destruct b; intros w. Qed.
Lemma Printf_stays s : preserves stays (Printf s).
Proof. by apply modify_stays. Qed.
Lemma wrapf_stays {A} msg (m : RunM A) : preserves stays m → preserves stays (wrapf msg m).
Proof. apply (preserves_wrap_err _). Qed.
Lemma gets_stays {A} (f : RunWorld → A) : preserves stays (gets f : RunM A).
Proof. by intros w. Qed.
#[local] Hint Resolve ask_stays attempt_stays Start_stays errorf_stays require_stays Printf_stays
  wrapf_stays gets_stays law_combined law_run law_Pipe law_select law_kill law_sleep law_MkdirAll
  law_ReadPidFile law_CopyFile law_CopyDir law_InitTPM law_Swtpm laws : preserve.

Ltac stays_seq :=
  repeat first
    [ solve [eauto 4 with preserve]
    | by intros w
    | apply (preserves_bind _); [|intros ?]
    | match goal with |- context [if ?b then _ else _] => destruct b end
    | match goal with |- context [match ?x with _ => _ end] => destruct x end ].

Lemma CombinedOutput_stays argv : preserves stays (CombinedOutput argv).
Proof. apply ask_stays, (law_combined _ _ laws). Qed.
Lemma MkdirAll_stays p m : preserves stays (MkdirAll p m).
Proof. apply attempt_stays, (law_MkdirAll _ _ laws). Qed.
Lemma copyFile_stays a b : preserves stays (copyFile a b).
Proof. apply attempt_stays, (law_CopyFile _ _ laws). Qed.
Lemma copyDir_stays a b : preserves stays (copyDir a b).
Proof. apply attempt_stays, (law_CopyDir _ _ laws). Qed.
Lemma RunCommand_stays argv : preserves stays (RunCommand argv).
Proof. apply attempt_stays, (law_run _ _ laws). Qed.
Lemma initializeTPMState_stays c d : preserves stays (initializeTPMState c d).
Proof. apply attempt_stays, (law_InitTPM _ _ laws). Qed.
Lemma SleepFor_stays d : preserves stays (SleepFor d).
Proof. apply ask_stays. intros h p. apply (law_sleep _ _ laws). Qed.
#[local] Hint Resolve CombinedOutput_stays MkdirAll_stays copyFile_stays copyDir_stays RunCommand_stays
  initializeTPMState_stays SleepFor_stays : preserve.

Lemma useTapDevice_stays c : preserves stays (useTapDevice c).
Proof. unfold useTapDevice, require_device. stays_seq. Qed.
Lemma createDisk_stays c p : preserves stays (createDisk c p).
Proof. unfold createDisk. stays_seq. Qed.
Lemma setupTPMState_stays c : preserves stays (setupTPMState c).
Proof. unfold setupTPMState, fileExists. stays_seq. Qed.
Lemma startTPM_stays c d : preserves stays (startTPMWithDir c d).
Proof.
  unfold startTPMWithDir. apply (preserves_bind _); [apply ask_stays, (law_Swtpm _ _ laws)|].
  intros [x|e]; [|by intros w]. cbn [lift]. stays_seq.
Qed.
Lemma cleanupPIDFile_stays f : f ∉ fs → preserves stays (cleanupPIDFile f).
Proof.
  intros Hf. unfold cleanupPIDFile. apply (preserves_bind _); [apply ask_stays, (law_ReadPidFile _ _ laws)|].
  intros d. apply (preserves_bind _).
  - assert (Hk : ∀ q s, preserves stays (SyscallKill q s)).
    { intros q s. apply ask_stays. intros h p. apply (law_kill _ _ laws). }
    unfold terminate_pid. stays_seq; apply Hk.
  - intros _. apply ask_stays. intros h p Hp. apply (law_Remove _ _ laws); [done|].
    by intros ->.
Qed.
#[local] Hint Resolve useTapDevice_stays createDisk_stays setupTPMState_stays startTPM_stays : preserve.

(** ** Inverting a successful sequence *)

Lemma bind_inv {A B} (m : RunM A) (k : A → RunM B) w b w' :
  (m ≫= k) w = (Ok b, w') → ∃ a w1, m w = (Ok a, w1) ∧ k a w1 = (Ok b, w').
Proof. rewrite bind_run. destruct (m w) as [[a|e] w1]; [by eauto|done]. Qed.
Lemma wrapf_inv {A} msg (m : RunM A) w a w' : wrapf msg m w = (Ok a, w') → m w = (Ok a, w').
Proof. unfold wrapf, wrap_err. destruct (m w) as [[x|e] w1]; congruence. Qed.
Lemma stays_step {A} (m : RunM A) w a w' : preserves stays m → m w = (Ok a, w') → stays w w'.
Proof. intros Hm E. specialize (Hm w). by rewrite E in Hm. Qed.
Lemma attempt_ok {R} x (f : HostState → result error R * HostState) w a w' :
  attempt x f w = (Ok a, w') → is_ok (f (host w)).1 = true ∧ host w' = (f (host w)).2.
Proof.
  unfold attempt. destruct (ask_run (λ _, x) f w) as (w1 & E & _ & Hh).
  rewrite (bind_ok _ _ _ _ _ E). destruct (f (host w)).1; [|done]. by intros [= _ <-].
Qed.
Lemma Printf_host s w a w' : Printf s w = (Ok a, w') → host w' = host w.
Proof. by intros [= _ <-]. Qed.

Lemma createDisk_makes c p w a w' : createDisk c p w = (Ok a, w') → has p (host w').
Proof.
  unfold createDisk. intros (x & w1 & E1 & E2)%bind_inv. apply wrapf_inv, attempt_ok in E1 as [Ho Hh].
  apply Printf_host in E2. rewrite E2, Hh. by apply law_created with home fs.
Qed.

Lemma setupTPMState_makes c w a w' :
  permallPath (TPMPristinePath c) ∈ fs → setupTPMState c w = (Ok a, w') →
  has (permallPath (tpmDir (workDir w))) (host w').
Proof.
  intros Hp. unfold setupTPMState. intros (wd & w0 & [= <- <-] & E)%bind_inv.
  assert (Hinit : ∀ d w a w', initializeTPMState c d w = (Ok a, w') → has (permallPath d) (host w')).
  { intros d w1 x w2 [Ho Hh]%attempt_ok. rewrite Hh. by apply law_initialized with home fs. }
  destruct (String.eqb (TPMPristinePath c) "").
  - apply bind_inv in E as (x & w1 & _ & E). by eapply Hinit.
  - apply bind_inv in E as (ex & w1 & [= <- <-] & E).
    apply bind_inv in E as ([] & w2 & E2 & E).
    assert (Hpr : has (permallPath (TPMPristinePath c)) (host w2)).
    { destruct (vm_FileExists _ (host w)) eqn:Ex; [by injection E2 as <-|].
      apply bind_inv in E2 as (x & w3 & _ & E2). apply wrapf_inv in E2. by eapply Hinit. }
    apply bind_inv in E as (x & w3 & E3 & E). apply bind_inv in E as (y & w4 & E4 & E).
    apply wrapf_inv in E4. apply attempt_ok in E as [Ho Hh]. rewrite Hh.
    apply law_dir_copied with home fs; [done| |done].
    apply (stays_files w3 w4); [by eapply stays_step; [apply MkdirAll_stays|]|done|].
    by apply Printf_host in E3 as ->.
Qed.

Lemma build_artifacts_make c w tap w' :
  varsPath (workDir w) ∈ fs → diskPath (workDir w) ∈ fs →
  permallPath (TPMPristinePath c) ∈ fs →
  build_artifacts c w = (Ok tap, w') →
  workDir w' = workDir w ∧ has (varsPath (workDir w)) (host w') ∧
  has (diskPath (workDir w)) (host w') ∧ has (permallPath (tpmDir (workDir w))) (host w').
Proof.
  intros Hv Hd Hp. unfold build_artifacts.
  intros (? & w1 & E1 & E)%bind_inv. apply (stays_step _ _ _ _ (Printf_stays _)) in E1 as S1.
  apply bind_inv in E as (? & w2 & E2%wrapf_inv & E).
  apply (stays_step _ _ _ _ (useTapDevice_stays c)) in E2 as S2.
  apply bind_inv in E as (wd & ? & [= <- <-] & E).
  assert (Hwd : workDir w2 = workDir w) by by rewrite (stays_dir _ _ S2), (stays_dir _ _ S1).
  rewrite Hwd in E.
  apply bind_inv in E as (? & w3 & E3%wrapf_inv & E).
  apply (stays_step _ _ _ _ (MkdirAll_stays _ _)) in E3 as S3.
  apply bind_inv in E as (? & w4 & E4%wrapf_inv & E).
  apply (stays_step _ _ _ _ (copyFile_stays _ _)) in E4 as S4.
  assert (Hv4 : has (varsPath (workDir w)) (host w4)).
  { apply attempt_ok in E4 as [Ho Hh]. rewrite Hh. by apply law_copied with home fs. }
  apply bind_inv in E as (? & w5 & E5 & E).
  apply (stays_step _ _ _ _ (Printf_stays _)) in E5 as S5.
  apply bind_inv in E as (iso & w6 & E6 & E).
  assert (S6 : stays w5 w6).
  { revert E6. by destruct (String.eqb (ISOPath c) ""); intros [= _ <-]. }
  apply bind_inv in E as (? & w7 & E7 & E).
  apply (stays_step _ _ _ _ (require_stays _ _)) in E7 as S7.
  apply bind_inv in E as (? & w8 & E8%wrapf_inv & E).
  apply (stays_step _ _ _ _ (MkdirAll_stays _ _)) in E8 as S8.
  apply bind_inv in E as (? & w9 & E9 & E).
  apply (stays_step _ _ _ _ (createDisk_stays _ _)) in E9 as S9. apply createDisk_makes in E9.
  apply bind_inv in E as (? & w10 & E10%wrapf_inv & E). injection E as <- <-.
  apply (stays_step _ _ _ _ (setupTPMState_stays c)) in E10 as S10.
  apply setupTPMState_makes in E10; [|done].
  assert (S49 : stays w4 w9) by (rewrite S5, S6, S7, S8; exact S9).
  assert (Hwd9 : workDir w9 = workDir w).
  { rewrite (stays_dir _ _ S49), (stays_dir _ _ S4), (stays_dir _ _ S3). exact Hwd. }
  rewrite Hwd9 in E10. split_and!; [by rewrite (stays_dir _ _ S10)| | |done].
  - apply (stays_files _ _ S10); [done|]. by apply (stays_files _ _ S49).
  - by apply (stays_files _ _ S10).
Qed.

Lemma build_vm_keeps_files c tap w w' :
  workDir w = home → build_vm c tap w = (Ok tt, w') → stays w w'.
Proof.
  intros Hwd. unfold build_vm. intros (wd & ? & [= <- <-] & E)%bind_inv.
  apply bind_inv in E as ([s f] & w1 & E1%wrapf_inv & E). cbn [fst snd] in E.
  apply (stays_step _ _ _ _ (startTPM_stays _ _)) in E1 as S1.
  assert (Hf : f ∉ fs).
  { destruct (startTPM_run c (tpmDir (workDir w)) w) as (w1' & E1' & _). rewrite E1', Hwd in E1.
    injection E1 as E1 _. by eapply law_pid_file in E1. }
  rewrite S1. revert E. apply stays_step.
  apply (preserves_bind _); [by apply modify_stays|intros _].
  apply (preserves_bind _); [apply SleepFor_stays|intros _].
  apply (preserves_bind _).
  { unfold start_piped. pose proof (law_Pipe _ _ laws).
    assert (Hp : preserves stays (attempt HPipe host_Pipe : RunM ())) by by apply attempt_stays.
    stays_seq. }
  intros i. unfold watch_build, attach_stream.
  do 2 (apply (preserves_bind _); [by apply modify_stays|intros _]).
  apply (preserves_bind _).
  - unfold await_build, on_cmd. apply (preserves_bind _); [apply gets_stays|]. intros [x|]; [|by intros w0].
    apply (preserves_bind _); [apply ask_stays, (law_select _ _ laws)|]. intros e.
    apply (preserves_bind _); [|by intros ? w0]. by destruct e; try apply modify_stays.
  - intros e. apply (preserves_bind _).
    + assert (Hs : preserves stays (Signal i SIGTERM)).
      { apply (preserves_bind _); [apply gets_stays|]. intros [x|]; [|by intros w0].
        apply ask_stays. intros h p. apply (law_signal _ _ laws). }
      destruct e as [[code t|e]| |]; cbn [build_verdict]; stays_seq.
    + intros _. apply (preserves_bind _); [by apply cleanupPIDFile_stays|intros _]. stays_seq.
Qed.

(** ** The run side *)

(** What [setupRunArtifacts] decides on, with the work directory's own disk. *)
Definition disk_missing w : bool := negb (vm_FileExists (diskPath (workDir w)) (host w)).
Definition vars_and_state w : bool :=
  vm_FileExists (varsPath (workDir w)) (host w)
  && vm_FileExists (permallPath (tpmDir (workDir w))) (host w).

Lemma attempt_run {R} x (f : HostState → result error R * HostState) w :
  ∃ w', attempt x f w = ((f (host w)).1, w') ∧ outward w w' [x] ∧ host w' = (f (host w)).2.
Proof.
  unfold attempt. destruct (ask_run (λ _, x) f w) as (w1 & E & O & Hh).
  rewrite (bind_ok _ _ _ _ _ E). by destruct (f (host w)).1; exists w1.
Qed.

Lemma fileExists_run p w : fileExists p w = (Ok (vm_FileExists p (host w)), w).
Proof. done. Qed.
Lemma isNewer_self p w : isNewer p p w = (Ok false, w).
Proof. unfold isNewer, gets. destruct (host_ModTime p (host w)); [by rewrite Z.ltb_irrefl|done]. Qed.

(** The end of [setupRunArtifacts]: two checks and two messages. *)
Lemma check_artifacts_run w :
  ∃ w' r, (vars_there ← fileExists (varsPath (workDir w));
    require vars_there ("OVMF VARS not found at " +:+ varsPath (workDir w) +:+ " - run build first");;
    Printf ("Using existing OVMF VARS from: " +:+ varsPath (workDir w));;
    tpm_there ← fileExists (permallPath (tpmDir (workDir w)));
    require tpm_there ("TPM state not found at " +:+ permallPath (tpmDir (workDir w))
                       +:+ " - run build first");;
    Printf ("Using existing TPM state from: " +:+ tpmDir (workDir w))) w = (r, w')
  ∧ outward w w' [] ∧ host w' = host w ∧ is_ok r = vars_and_state w.
Proof.
  unfold vars_and_state, fileExists, gets, require, Printf, modify. rewrite bind_run. cbv beta iota zeta.
  rewrite bind_run. destruct (vm_FileExists (varsPath _) _).
  - cbn [mret M_ret]. rewrite bind_run. cbv beta iota zeta. rewrite bind_run. cbv beta iota zeta.
    rewrite bind_run. cbn [print host]. destruct (vm_FileExists (permallPath _) _).
    + eexists _, _. split; [done|]. by repeat split; cbn; rewrite ?app_nil_r.
    + eexists _, _. split; [done|]. by repeat split; cbn; rewrite ?app_nil_r.
  - eexists w, _. split; [done|]. by repeat split; rewrite ?app_nil_r.
Qed.

(** The command that creates the disk. *)
Definition create_command c (path : string) : list string :=
  [QemuImg (toolPaths c); "create"; "-f"; "raw"; path; or_default (DiskSize c) "50G"].

Lemma createDisk_run c p w :
  ∃ r w', createDisk c p w = (r, w') ∧ outward w w' [HRun (create_command c p)] ∧
    host w' = (host_run (create_command c p) (host w)).2 ∧
    is_ok r = is_ok (host_run (create_command c p) (host w)).1.
Proof.
  unfold createDisk, RunCommand. fold (create_command c p).
  destruct (attempt_run (HRun (create_command c p)) (host_run (create_command c p)) w) as (w1 & E & O & Hh).
  rewrite bind_run. unfold wrapf, wrap_err. rewrite E.
  destruct (host_run _ _).1; (eexists _, _; split; [done|]); destruct O; by repeat split.
Qed.

Lemma setupRunArtifacts_run c w :
  let wd := workDir w in
  ∃ r w1 w', setupRunArtifacts c (diskPath wd) w = (r, w') ∧
    outward w w1 [HMkdirAll wd 493] ∧ host w1 = (host_MkdirAll wd 493 (host w)).2 ∧
    if negb (is_ok (host_MkdirAll wd 493 (host w)).1) then is_ok r = false ∧ w' = w1
    else if disk_missing w1 then
      outward w1 w' [HRun (create_command c (diskPath wd))] ∧
      host w' = (host_run (create_command c (diskPath wd)) (host w1)).2 ∧
      is_ok r = is_ok (host_run (create_command c (diskPath wd)) (host w1)).1 && vars_and_state w'
    else outward w1 w' [] ∧ host w' = host w1 ∧ is_ok r = vars_and_state w'.
Proof.
  cbv zeta. unfold setupRunArtifacts. rewrite bind_run. unfold gets at 1. cbv beta iota zeta.
  destruct (attempt_run (HMkdirAll (workDir w) 493) (host_MkdirAll (workDir w) 493) w) as (w1 & E & O & Hh).
  rewrite bind_run. unfold wrapf at 1, wrap_err, MkdirAll. rewrite E.
  destruct (host_MkdirAll (workDir w) 493 (host w)).1 as [[]|e]; cbn [is_ok negb];
    [|by eexists _, w1, w1].
  do 2 rewrite (bind_ok _ _ _ _ _ (fileExists_run _ _)).
  rewrite (bind_ok _ _ _ _ _ (isNewer_self _ _)). rewrite orb_false_r.
  pose proof (outward_dir _ _ _ O) as D. rewrite <- D in O, Hh |- *. unfold disk_missing.
  destruct (vm_FileExists (diskPath (workDir w1)) (host w1)) eqn:Ed; cbn [negb].
  - rewrite bind_run. cbn [mret M_ret].
    destruct (check_artifacts_run w1) as (w' & r & Ec & Oc & Hc & Rc).
    exists r, w1, w'. split; [exact Ec|]. split; [exact O|]. split; [exact Hh|].
    unfold disk_missing. rewrite Ed. cbn [negb].
    split; [exact Oc|]. split; [done|]. rewrite Rc. unfold vars_and_state.
    by rewrite (outward_dir _ _ _ Oc), Hc.
  - destruct (createDisk_run c (diskPath (workDir w1)) w1) as (r2 & w2 & E2 & O2 & H2 & R2).
    rewrite bind_run, E2. destruct r2 as [[]|e]; cbn [is_ok] in R2.
    + destruct (check_artifacts_run w2) as (w' & r & Ec & Oc & Hc & Rc).
      rewrite (outward_dir _ _ _ O2) in Ec. exists r, w1, w'. split; [exact Ec|].
      split; [done|]. split; [done|]. unfold disk_missing. rewrite Ed. cbn [negb].
      split; [exact (outward_app _ _ _ _ _ O2 Oc)|].
      split; [congruence|]. rewrite <- R2. cbn [andb]. rewrite Rc. unfold vars_and_state.
      by rewrite (outward_dir _ _ _ Oc), Hc.
    + exists (Err e), w1, w2. unfold disk_missing. rewrite Ed, <- R2.
      by split_and!.
Qed.
End Artifacts.

(** ** Properties *)

Section ArtifactProperties.
Context {H : Host} {G : Platform}.
Implicit Types (c : RunnerConfig) (w : RunWorld).

(** C6: run mode finds what build mode wrote.  On a host that keeps files, after
    a build that succeeded the variables, the disk and the TPM state are under
    the names run mode looks for, whatever way the TPM state was made; so a later
    run in that work directory passes [setupRunArtifacts] touching nothing but
    the directory. *)
Theorem build_enables_run c w w' :
  file_laws (workDir w) (artifacts (workDir w) (TPMPristinePath c)) →
  runBuildMode c w = (Ok tt, w') →
  workDir w' = workDir w ∧ disk_missing w' = false ∧ vars_and_state w' = true ∧
  ∀ c' w2, host w2 = host w' → workDir w2 = workDir w →
    is_ok (host_MkdirAll (workDir w) 493 (host w')).1 = true →
    ∃ w3, setupRunArtifacts c' (diskPath (workDir w)) w2 = (Ok tt, w3) ∧
          outward w2 w3 [HMkdirAll (workDir w) 493].
Proof.
  intros laws. set (fs := artifacts _ _) in *.
  assert (Hin : varsPath (workDir w) ∈ fs ∧ diskPath (workDir w) ∈ fs
    ∧ permallPath (tpmDir (workDir w)) ∈ fs ∧ permallPath (TPMPristinePath c) ∈ fs).
  { subst fs. unfold artifacts. set_solver. }
  destruct Hin as (I1 & I2 & I3 & I4). unfold runBuildMode.
  intros (tap & w1 & E1 & E2)%bind_inv.
  destruct (build_artifacts_make _ fs laws c w tap w1 I1 I2 I4 E1) as (D1 & V1 & K1 & T1).
  destruct (build_vm_keeps_files _ fs laws c tap w1 w' D1 E2) as [F2 D2].
  pose proof (F2 _ I1 V1) as V2. pose proof (F2 _ I2 K1) as K2. pose proof (F2 _ I3 T1) as T2.
  unfold has in *. unfold disk_missing, vars_and_state. rewrite D2, D1, V2, K2, T2.
  split_and!; [done..|]. intros c' w2 Hh Hd Hm.
  destruct (setupRunArtifacts_run c' w2) as (r & w3 & w4 & E & O & Hh3 & Hcase).
  rewrite Hd, Hh in *. rewrite Hm in Hcase. cbn [negb] in Hcase.
  assert (Hkeep : ∀ p, p ∈ fs → vm_FileExists p (host w') = true → vm_FileExists p (host w3) = true).
  { intros p Hp He. rewrite Hh3. by apply (law_MkdirAll _ fs laws). }
  unfold disk_missing in Hcase. rewrite (outward_dir _ _ _ O), Hd, (Hkeep _ I2 K2) in Hcase.
  cbn [negb] in Hcase. destruct Hcase as (O4 & H4 & R4).
  unfold vars_and_state in R4.
  rewrite (outward_dir _ _ _ O4), (outward_dir _ _ _ O), Hd, H4, (Hkeep _ I1 V2), (Hkeep _ I3 T2) in R4.
  destruct r as [[]|]; [|done]. exists w4. split; [exact E|].
  exact (outward_app _ _ _ _ _ O O4).
Qed.

(** [setupRunArtifacts] as [runRunMode] calls it, on every branch: it makes
    the directory, creates a disk exactly when there is none, never copies one
    (the branch that would compares the disk with itself), and succeeds exactly
    when those steps did and both the OVMF variables and the TPM state are there. *)
Theorem setupRunArtifacts_correct c w :
  let wd := workDir w in
  ∃ r w1 w', setupRunArtifacts c (diskPath wd) w = (r, w') ∧
    outward w w1 [HMkdirAll wd 493] ∧ host w1 = (host_MkdirAll wd 493 (host w)).2 ∧
    if negb (is_ok (host_MkdirAll wd 493 (host w)).1) then is_ok r = false ∧ w' = w1
    else if disk_missing w1 then
      outward w1 w' [HRun (create_command c (diskPath wd))] ∧
      host w' = (host_run (create_command c (diskPath wd)) (host w1)).2 ∧
      is_ok r = is_ok (host_run (create_command c (diskPath wd)) (host w1)).1 && vars_and_state w'
    else outward w1 w' [] ∧ host w' = host w1 ∧ is_ok r = vars_and_state w'.
Proof. apply setupRunArtifacts_run. Qed.
End ArtifactProperties.

(** The scripted host keeps files. *)
Lemma has_put p q c (s : HostScript) : has_file p s = true → has_file p (put q c s) = true.
Proof.
  unfold has_file, put. cbn. destruct (decide (q = p)) as [->|].
  - by rewrite lookup_insert_eq.
  - by rewrite lookup_insert_ne.
Qed.
Lemma has_put_self p c (s : HostScript) : has_file p (put p c s) = true.
Proof. unfold has_file, put. cbn. by rewrite lookup_insert_eq. Qed.
Lemma has_copy p a b (s : HostScript) : has_file p s = true → has_file p (copy_to a b s).2 = true.
Proof. unfold copy_to. destruct (h_files s !! a); [apply has_put|done]. Qed.

Lemma scripted_file_laws : file_laws (H := ScriptedHost) "/w" (artifacts "/w" "").
Proof.
  split; unfold has; cbn [host_combined host_run host_Pipe host_start host_select host_kill host_signal
    host_sleep host_MkdirAll host_ReadPidFile host_Remove vm_FileExists vm_CopyFile vm_CopyDir
    vm_InitializeTPMState vm_StartSwtpm ScriptedHost]; intros; try done;
    try (by apply has_put); try (by apply has_put_self); try (by apply has_copy).
  - by destruct (h_ip h).
  - repeat case_match; try done. by apply has_put.
  - unfold has_file, set_files in *. cbn. by rewrite lookup_delete_ne.
  - unfold copy_to in *. destruct (h_files h !! s); [apply has_put_self|done].
  - unfold copy_to in *. destruct (h_files h !! _); [apply has_put_self|done].
  - match goal with E : _ = Ok (_, _) |- _ => cbn [fst] in E; injection E as <- <- end.
    refine (bool_decide_unpack _ _). by vm_compute.
Qed.

Definition in_work_dir : @RunWorld ScriptedHost := set_workDir "/w" build_world.
Definition built_world : @RunWorld ScriptedHost := (runBuildMode (config_for "build" "direct") in_work_dir).2.

Lemma build_enables_run_witness :
  runBuildMode (config_for "build" "direct") in_work_dir = (Ok tt, built_world) ∧
  vars_and_state built_world = true.
Proof.
  assert (E : runBuildMode (config_for "build" "direct") in_work_dir = (Ok tt, built_world)).
  { assert (E1 : (runBuildMode (config_for "build" "direct") in_work_dir).1 = Ok tt) by exact eq_refl.
    unfold built_world. rewrite <- E1. apply surjective_pairing. }
  split; [exact E|].
  destruct (build_enables_run (config_for "build" "direct") in_work_dir built_world scripted_file_laws E)
    as (_ & _ & Hv & _). exact Hv.
Defined.
