(* ===== verification/VmCmd.v ===== *)
(** * VmCmd: the command that runs one VM

    vmtest/cmd/main.go.  The link-time variables are a record, the runfiles
    library is a parameter, the arguments are parsed by GoFlag.  [main] ends in
    an exit status; how it comes to that with signals is in Signals. *)

From S2P Require Import Prelude GoStrings GoStrconv GoPath GoFlag VmLib HostWorld RunnerConfig QemuArgs.
From S2P Require Import ScriptedHost ProcessManager RunnerNet RunnerRun RunnerSafety.

(** github.com/bazelbuild/rules_go/go/runfiles. *)
Class Runfiles := {
  runfiles_New : result error ();
  Rlocation : string → result error string;
  runfiles_Env : result error (list string);
}.

(** Build-time variables set via x_defs. *)
Record XDefs := {
  vmServer : string; vmTap : string; vmSecondTap : string; vmMac : string;
  vmMemory : string; vmCPUs : string; vmDiskSize : string;
  vmMode : string; vmTPMPristinePath : string; vmISORunfile : string;
  vmOVMFCode : string; vmOVMFVars : string; vmSwtpm : string; vmSwtpmSetup : string;
  vmBridgeName : string; vmTransitIPv4 : string; vmTransitIPv6 : string;
}.
Record Flags := { flag_output : string; flag_shutdown : bool; flag_no_cleanup : bool }.
(** The flags the program defines, with their defaults. *)
Definition cmd_flags : flags :=
  list_to_map [("output", VString "direct"); ("shutdown-mode", VBool false); ("no-cleanup", VBool false)].
Definition read_flags (m : flags) : Flags :=
  {| flag_output := get_string m "output"; flag_shutdown := get_bool m "shutdown-mode";
     flag_no_cleanup := get_bool m "no-cleanup" |}.
Definition default_flags : Flags := read_flags cmd_flags.

(** Sequencing of steps that may end the program with a message. *)
Definition then_ {E A B} (r : result E A) (k : A → result E B) : result E B :=
  match r with Ok a => k a | Err e => Err e end.
Notation "x <- r ;; k" := (then_ r (λ x, k)) (at level 100, r at next level, right associativity).

Section Main.
Context {H : Host} {G : Platform} {F : Runfiles}.

Definition must_be_set (name v : string) : result error () :=
  if String.eqb v "" then Err (name +:+ " not set via x_defs") else Ok tt.

(** A tool path: resolved from runfiles when given, else the default. *)
Definition resolve_tool (what path dflt : string) : result error string :=
  if String.eqb path "" then Ok dflt
  else match Rlocation path with
       | Ok p => Ok p
       | Err e => Err ("failed to resolve " +:+ what +:+ " from runfiles " +:+ path +:+ ": " +:+ e)
       end.

Definition check_xdefs (x : XDefs) : result error () :=
  _ <- must_be_set "vmMode" (vmMode x);;
  _ <- runfiles_New;;
  _ <- must_be_set "vmServer" (vmServer x);;
  _ <- must_be_set "vmTap" (vmTap x);;
  _ <- must_be_set "vmMac" (vmMac x);;
  _ <- must_be_set "vmMemory" (vmMemory x);;
  _ <- must_be_set "vmCPUs" (vmCPUs x);;
  must_be_set "vmDiskSize" (vmDiskSize x).

Definition parse_cpu_count (x : XDefs) : result error Z :=
  match Atoi (vmCPUs x) with
  | Ok n => Ok n
  | Err _ => Err ("invalid vmCPUs value " +:+ vmCPUs x)
  end.

Definition resolve_tools (x : XDefs) : result error ToolPaths :=
  let d := DefaultToolPaths in
  code <- resolve_tool "OVMF CODE" (vmOVMFCode x) (OVMFCode d);;
  vars <- resolve_tool "OVMF VARS" (vmOVMFVars x) (OVMFVars d);;
  swtpm <- resolve_tool "swtpm" (vmSwtpm x) (Swtpm d);;
  setup <- resolve_tool "swtpm_setup" (vmSwtpmSetup x) (SwtpmSetup d);;
  Ok {| QemuSystem := QemuSystem d; QemuImg := QemuImg d; OVMFCode := code; OVMFVars := vars;
        Swtpm := swtpm; SwtpmSetup := setup |}.

(** Everything up to the flags. *)
Definition base_config (x : XDefs) (env : gmap string string) : result error RunnerConfig :=
  _ <- check_xdefs x;;
  cpus <- parse_cpu_count x;;
  let workspace := default "" (env !! "BUILD_WORKSPACE_DIRECTORY") in
  _ <- (if String.eqb workspace "" then Err "BUILD_WORKSPACE_DIRECTORY not set" else Ok tt);;
  tools <- resolve_tools x;;
  iso <- (if String.eqb (vmMode x) "build" then resolve_tool "ISO" (vmISORunfile x) "" else Ok "");;
  Ok {| ServerName := vmServer x; WorkDir := path_join [workspace; ".vms"; vmServer x];
        Mode := vmMode x; toolPaths := tools; MachineType := ""; TapDevice := vmTap x;
        SecondTapDevice := vmSecondTap x; MacAddress := vmMac x; BridgeName := vmBridgeName x;
        DiskSize := vmDiskSize x; Memory := vmMemory x; CPUs := cpus;
        TPMPristinePath := if String.eqb (vmTPMPristinePath x) "" then ""
                           else path_join [workspace; vmTPMPristinePath x];
        ISOPath := iso; transit := {| IPv4 := vmTransitIPv4 x; IPv6 := vmTransitIPv6 x |};
        OutputMode := ""; ShutdownMode := false; NoCleanup := false |}.

(** The fields of [config] that are flag variables. *)
Definition with_flags (fl : Flags) (c : RunnerConfig) : RunnerConfig :=
  {| ServerName := ServerName c; WorkDir := WorkDir c; Mode := Mode c; toolPaths := toolPaths c;
     MachineType := MachineType c; TapDevice := TapDevice c; SecondTapDevice := SecondTapDevice c;
     MacAddress := MacAddress c; BridgeName := BridgeName c; DiskSize := DiskSize c;
     Memory := Memory c; CPUs := CPUs c; TPMPristinePath := TPMPristinePath c; ISOPath := ISOPath c;
     transit := transit c; OutputMode := flag_output fl; ShutdownMode := flag_shutdown fl;
     NoCleanup := flag_no_cleanup fl |}.
Definition configure (x : XDefs) (env : gmap string string) (fl : Flags) : result error RunnerConfig :=
  c <- base_config x env;;
  Ok (with_flags fl c).

(** Signals are only handled away from run mode's direct output. *)
Definition handles_signals (c : RunnerConfig) : bool :=
  negb (String.eqb (Mode c) "run" && String.eqb (OutputMode c) "direct").

(** [rnr.Run()] and how it ends.  [signalled]: a signal came before [Run]
    returned; it has cancelled the runner's context on the way (see
    [host_cancels]). *)
Definition launch (c : RunnerConfig) (signalled : bool) (h : HostState) : Z * RunWorld :=
  let '(r, w) := Run (NewRunner c) (new_world h) in
  if handles_signals c && signalled then (0%Z, w)
  else (if is_ok r then 0%Z else 1%Z, w).

(** The exit status. *)
Definition main (x : XDefs) (env : gmap string string) (args : list string) (signalled : bool)
    (h : HostState) : Z * RunWorld :=
  match base_config x env with
  | Err _ => (1%Z, new_world h)
  | Ok c =>
      match Parse cmd_flags args with
      | ExitStatus code => (code, new_world h)
      | Parsed m _ => launch (with_flags (read_flags m) c) signalled h
      end
  end.

(** ** Lemmas *)

Lemma then_ok {E A B} (r : result E A) (k : A → result E B) b :
  then_ r k = Ok b ↔ ∃ a, r = Ok a ∧ k a = Ok b.
Proof. destruct r; cbn; naive_solver. Qed.

Lemma must_be_set_ok name v u : must_be_set name v = Ok u ↔ v ≠ "".
Proof. unfold must_be_set. destruct (String.eqb_spec v ""), u; naive_solver. Qed.

Lemma resolve_tool_ok what path d p :
  resolve_tool what path d = Ok p ↔ (path = "" ∧ p = d) ∨ (path ≠ "" ∧ Rlocation path = Ok p).
Proof. unfold resolve_tool. destruct (String.eqb_spec path ""); [|destruct (Rlocation path)]; naive_solver. Qed.

Lemma check_xdefs_ok x u :
  check_xdefs x = Ok u ↔
  runfiles_New = Ok tt ∧
  Forall (λ v, v ≠ "") [vmMode x; vmServer x; vmTap x; vmMac x; vmMemory x; vmCPUs x; vmDiskSize x].
Proof.
  unfold check_xdefs. repeat setoid_rewrite then_ok. repeat setoid_rewrite must_be_set_ok.
  rewrite !Forall_cons, Forall_nil. split.
  - intros ([] & ? & [] & ? & [] & ? & [] & ? & [] & ? & [] & ? & [] & ? & ?). by split_and!.
  - intros (? & ? & ? & ? & ? & ? & ? & ? & _). do 7 (exists tt; split; [done|]). done.
Qed.

Lemma or_default_id s d : s ≠ "" → or_default s d = s.
Proof. intros Hs. unfold or_default. by destruct (String.eqb_spec s ""). Qed.
Lemma or_default_not_empty s d : d ≠ "" → or_default s d ≠ "".
Proof. intros Hd. unfold or_default. by destruct (String.eqb_spec s ""). Qed.

Lemma DefaultToolPaths_not_empty :
  QemuSystem DefaultToolPaths ≠ "" ∧ QemuImg DefaultToolPaths ≠ "" ∧
  Swtpm DefaultToolPaths ≠ "" ∧ SwtpmSetup DefaultToolPaths ≠ "".
Proof. cbn. by destruct (String.eqb GOARCH "arm64"). Qed.

Lemma resolve_tools_ok x tp :
  resolve_tools x = Ok tp →
  QemuSystem tp ≠ "" ∧ QemuImg tp ≠ "" ∧
  (vmSwtpm x = "" → Swtpm tp ≠ "") ∧ (vmSwtpmSetup x = "" → SwtpmSetup tp ≠ "") ∧
  (vmOVMFCode x = "" → OVMFCode tp = "") ∧ (vmOVMFVars x = "" → OVMFVars tp = "").
Proof.
  unfold resolve_tools. rewrite then_ok. intros (code & E1 & E). rewrite then_ok in E.
  destruct E as (vars & E2 & E). rewrite then_ok in E. destruct E as (swtpm & E3 & E).
  rewrite then_ok in E. destruct E as (setup & E4 & [= <-]). cbn [QemuSystem QemuImg Swtpm SwtpmSetup OVMFCode OVMFVars].
  pose proof DefaultToolPaths_not_empty as (D1 & D2 & D3 & D4).
  rewrite resolve_tool_ok in E1, E2, E3, E4. split_and!; [done|done|naive_solver..].
Qed.
Lemma resolve_tools_is_ok x :
  is_ok (resolve_tools x) = true ↔
  Forall (λ p, p = "" ∨ is_ok (Rlocation p) = true)
    [vmOVMFCode x; vmOVMFVars x; vmSwtpm x; vmSwtpmSetup x].
Proof.
  assert (Hr : ∀ what p d, is_ok (resolve_tool what p d) = true ↔ p = "" ∨ is_ok (Rlocation p) = true).
  { intros what p d. unfold resolve_tool. destruct (String.eqb_spec p ""); [naive_solver|].
    destruct (Rlocation p); naive_solver. }
  rewrite !Forall_cons, Forall_nil. unfold resolve_tools.
  rewrite <- (Hr "OVMF CODE" (vmOVMFCode x) (OVMFCode DefaultToolPaths)),
    <- (Hr "OVMF VARS" (vmOVMFVars x) (OVMFVars DefaultToolPaths)),
    <- (Hr "swtpm" (vmSwtpm x) (Swtpm DefaultToolPaths)),
    <- (Hr "swtpm_setup" (vmSwtpmSetup x) (SwtpmSetup DefaultToolPaths)).
  destruct (resolve_tool _ (vmOVMFCode x) _); [|naive_solver].
  destruct (resolve_tool _ (vmOVMFVars x) _); [|naive_solver].
  destruct (resolve_tool _ (vmSwtpm x) _); [|naive_solver].
  destruct (resolve_tool _ (vmSwtpmSetup x) _); naive_solver.
Qed.

(** What [configure] must be given. *)
Definition configurable (x : XDefs) (env : gmap string string) : Prop :=
  runfiles_New = Ok tt ∧
  Forall (λ v, v ≠ "") [vmMode x; vmServer x; vmTap x; vmMac x; vmMemory x; vmCPUs x; vmDiskSize x] ∧
  is_ok (Atoi (vmCPUs x)) = true ∧
  default "" (env !! "BUILD_WORKSPACE_DIRECTORY") ≠ "" ∧
  Forall (λ p, p = "" ∨ is_ok (Rlocation p) = true)
    [vmOVMFCode x; vmOVMFVars x; vmSwtpm x; vmSwtpmSetup x] ∧
  (vmMode x = "build" → vmISORunfile x = "" ∨ is_ok (Rlocation (vmISORunfile x)) = true).

(** Where a runfile is: [dflt] when none is named, or its place is the empty text. *)
Definition found (path dflt place : string) : Prop :=
  if String.eqb path "" then place = dflt
  else ∃ p, Rlocation path = Ok p ∧ place = if String.eqb p "" then dflt else p.

(** The whole configuration, from what was given. *)
Lemma configure_fields x env fl c :
  configure x env fl = Ok c →
  ∃ tools iso cpus, c = {|
      ServerName := vmServer x;
      WorkDir := path_join [default "" (env !! "BUILD_WORKSPACE_DIRECTORY"); ".vms"; vmServer x];
      Mode := vmMode x; toolPaths := tools; MachineType := ""; TapDevice := vmTap x;
      SecondTapDevice := vmSecondTap x; MacAddress := vmMac x; BridgeName := vmBridgeName x;
      DiskSize := vmDiskSize x; Memory := vmMemory x; CPUs := cpus;
      TPMPristinePath := if String.eqb (vmTPMPristinePath x) "" then ""
                         else path_join [default "" (env !! "BUILD_WORKSPACE_DIRECTORY"); vmTPMPristinePath x];
      ISOPath := iso; transit := {| IPv4 := vmTransitIPv4 x; IPv6 := vmTransitIPv6 x |};
      OutputMode := flag_output fl; ShutdownMode := flag_shutdown fl; NoCleanup := flag_no_cleanup fl |} ∧
    resolve_tools x = Ok tools ∧
    (if String.eqb (vmMode x) "build" then resolve_tool "ISO" (vmISORunfile x) "" else Ok "") = Ok iso ∧
    Atoi (vmCPUs x) = Ok cpus.
Proof.
  unfold configure. rewrite then_ok. intros (c0 & E & [= <-]). unfold base_config in E.
  rewrite then_ok in E. destruct E as ([] & E1 & E). rewrite then_ok in E.
  destruct E as (cpus & E2 & E). cbv zeta in E. rewrite then_ok in E. destruct E as ([] & E3 & E).
  rewrite then_ok in E. destruct E as (tools & E4 & E). rewrite then_ok in E.
  destruct E as (iso & E5 & [= <-]). exists tools, iso, cpus. split; [done|]. split; [done|]. split; [done|].
  unfold parse_cpu_count in E2. destruct (Atoi (vmCPUs x)); [by injection E2 as ->|done].
Qed.
Lemma configure_accepts x env fl c :
  configure x env fl = Ok c → check_xdefs x = Ok tt ∧ default "" (env !! "BUILD_WORKSPACE_DIRECTORY") ≠ "".
Proof.
  unfold configure. rewrite then_ok. intros (c0 & E & _). unfold base_config in E.
  rewrite then_ok in E. destruct E as ([] & E1 & E). rewrite then_ok in E.
  destruct E as (cpus & E2 & E). cbv zeta in E. rewrite then_ok in E. destruct E as ([] & E3 & _).
  split; [done|]. by destruct (String.eqb_spec (default "" (env !! "BUILD_WORKSPACE_DIRECTORY")) "").
Qed.

Lemma resolve_tool_found what path d p :
  resolve_tool what path d = Ok p → found path d (if String.eqb p "" then d else p).
Proof.
  intros E. apply resolve_tool_ok in E. unfold found. destruct (String.eqb_spec path "").
  - destruct E as [[_ ->]|[? _]]; [|done]. by destruct (String.eqb_spec d "").
  - destruct E as [[? _]|[_ E]]; [done|]. by exists p.
Qed.
Lemma no_default (p : string) : (if String.eqb p "" then "" else p) = p.
Proof. by destruct (String.eqb_spec p ""). Qed.
Lemma resolve_tools_found x tp :
  resolve_tools x = Ok tp →
  found (vmOVMFCode x) "" (OVMFCode tp) ∧ found (vmOVMFVars x) "" (OVMFVars tp) ∧
  found (vmSwtpm x) "swtpm" (or_default (Swtpm tp) "swtpm") ∧
  found (vmSwtpmSetup x) "swtpm_setup" (or_default (SwtpmSetup tp) "swtpm_setup") ∧
  QemuSystem tp = QemuSystem DefaultToolPaths ∧ QemuImg tp = "qemu-img".
Proof.
  unfold resolve_tools. rewrite then_ok. intros (code & E1 & E). rewrite then_ok in E.
  destruct E as (vars & E2 & E). rewrite then_ok in E. destruct E as (swtpm & E3 & E).
  rewrite then_ok in E. destruct E as (setup & E4 & [= <-]). cbn [QemuSystem QemuImg Swtpm SwtpmSetup OVMFCode OVMFVars].
  apply resolve_tool_found in E1, E2, E3, E4. cbn [OVMFCode OVMFVars DefaultToolPaths] in E1, E2.
  rewrite no_default in E1, E2. split_and!; done.
Qed.
Lemma NewRunner_twice c : NewRunner (NewRunner c) = NewRunner c.
Proof.
  assert (Hne : ∀ s d, d ≠ "" → or_default (or_default s d) d = or_default s d).
  { intros s d Hd. apply or_default_id. by apply or_default_not_empty. }
  pose proof DefaultToolPaths_not_empty as (D1 & D2 & D3 & D4).
  unfold NewRunner. cbn [toolPaths QemuSystem QemuImg Swtpm SwtpmSetup OVMFCode OVMFVars BridgeName
    ServerName WorkDir Mode MachineType TapDevice SecondTapDevice MacAddress DiskSize Memory CPUs
    TPMPristinePath ISOPath transit OutputMode ShutdownMode NoCleanup]. by rewrite !Hne.
Qed.

Lemma base_config_mode x env c : base_config x env = Ok c → Mode c = vmMode x.
Proof.
  intros E. destruct (configure_fields x env default_flags (with_flags default_flags c)) as (? & ? & ? & E' & _).
  - unfold configure. by rewrite E.
  - by injection E'.
Qed.

Lemma configure_ok x env fl : is_ok (configure x env fl) = true ↔ configurable x env.
Proof.
  split.
  - destruct (configure x env fl) as [c|] eqn:E; [|done]. intros _.
    apply configure_accepts in E as Ha. destruct Ha as [E1 E3].
    apply configure_fields in E as (tools & iso & cpus & _ & E4 & E5 & E2).
    apply check_xdefs_ok in E1 as [N S]. split_and!; [done|done|by rewrite E2|done| |].
    + apply resolve_tools_is_ok. by rewrite E4.
    + intros Hb. rewrite Hb in E5. cbn in E5. apply resolve_tool_ok in E5 as [[? _]|[_ ->]]; [by left|by right].
  - intros (N & S & A & W & T & I). unfold configure, base_config.
    rewrite (proj2 (check_xdefs_ok x tt)) by done. cbn [then_]. unfold parse_cpu_count.
    destruct (Atoi (vmCPUs x)); [|done]. cbn [then_].
    apply String.eqb_neq in W. rewrite W. cbn [then_].
    apply resolve_tools_is_ok in T. destruct (resolve_tools x); [|done]. cbn [then_].
    destruct (String.eqb_spec (vmMode x) "build") as [Hb|]; [|done].
    unfold resolve_tool. destruct (String.eqb_spec (vmISORunfile x) ""); [done|].
    destruct (I Hb); [done|]. by destruct (Rlocation (vmISORunfile x)).
Qed.
End Main.

(** ** Properties *)

Section VmProperties.
Context {H : Host} {G : Platform} {F : Runfiles}.

(** C34: when a VM can be run, and which one.  [configure] accepts exactly the inputs
    that name what they must (seven link-time values, the workspace), hold an integer
    CPU count and only name runfiles that resolve.  The runner made from them has,
    field by field, what was given: each of OVMF code and variables, swtpm and
    swtpm_setup is where the runfile named for it is (the tools of the system, and no
    firmware, when none is named or its place is the empty text); server, mode, both taps, MAC, memory,
    CPUs, disk size, transit addresses and flags are the given ones, the bridge the
    given one or mltt-br0, QEMU that of the host; it works in its own directory under
    [.vms] of the workspace, where a TPM state named is looked for too, and boots from
    an ISO only in build mode.  Defaulting it again changes nothing. *)
Theorem configure_correct x env fl :
  (is_ok (configure x env fl) = true ↔ configurable x env) ∧
  ∀ c, configure x env fl = Ok c →
    let r := NewRunner c in
    let workspace := default "" (env !! "BUILD_WORKSPACE_DIRECTORY") in
    NewRunner r = r ∧
    found (vmOVMFCode x) "" (OVMFCode (toolPaths r)) ∧ found (vmOVMFVars x) "" (OVMFVars (toolPaths r)) ∧
    found (vmSwtpm x) "swtpm" (Swtpm (toolPaths r)) ∧
    found (vmSwtpmSetup x) "swtpm_setup" (SwtpmSetup (toolPaths r)) ∧
    QemuSystem (toolPaths r) = "qemu-system-" +:+ (if String.eqb GOARCH "arm64" then "aarch64" else "x86_64") ∧
    QemuImg (toolPaths r) = "qemu-img" ∧
    (vmMode x = "build" → found (vmISORunfile x) "" (ISOPath r)) ∧ (vmMode x ≠ "build" → ISOPath r = "") ∧
    [ServerName r; Mode r; TapDevice r; SecondTapDevice r; MacAddress r; Memory r; DiskSize r;
       IPv4 (transit r); IPv6 (transit r); OutputMode r; MachineType r]
    = [vmServer x; vmMode x; vmTap x; vmSecondTap x; vmMac x; vmMemory x; vmDiskSize x;
       vmTransitIPv4 x; vmTransitIPv6 x; flag_output fl; ""] ∧
    ShutdownMode r = flag_shutdown fl ∧ NoCleanup r = flag_no_cleanup fl ∧
    Atoi (vmCPUs x) = Ok (CPUs r) ∧ is_int (CPUs r) ∧
    BridgeName r = (if String.eqb (vmBridgeName x) "" then "mltt-br0" else vmBridgeName x) ∧
    WorkDir r = path_join [workspace; ".vms"; vmServer x] ∧
    TPMPristinePath r = (if String.eqb (vmTPMPristinePath x) "" then ""
                         else path_join [workspace; vmTPMPristinePath x]).
Proof.
  split; [apply configure_ok|]. intros c E. cbv zeta. destruct (configure_fields x env fl c E) as (tp & iso & cpus & -> & Et & Ei & Ec).
  destruct (resolve_tools_found x tp Et) as (F1 & F2 & F3 & F4 & F5 & F6).
  split; [apply NewRunner_twice|]. unfold NewRunner, or_default.
  cbn [toolPaths QemuSystem QemuImg Swtpm SwtpmSetup OVMFCode OVMFVars BridgeName
    ServerName WorkDir Mode MachineType TapDevice SecondTapDevice MacAddress DiskSize Memory CPUs
    TPMPristinePath ISOPath transit OutputMode ShutdownMode NoCleanup IPv4 IPv6].
  rewrite F5, F6. split_and!; try done.
  - cbn [DefaultToolPaths QemuSystem]. by destruct (String.eqb GOARCH "arm64").
  - intros Hb. rewrite Hb in Ei. apply resolve_tool_found in Ei. by rewrite no_default in Ei.
  - intros Hb%String.eqb_neq. rewrite Hb in Ei. by injection Ei as <-.
  - by eapply Atoi_range.
Qed.

(** Two servers never share a work directory.  In a workspace with a clean
    absolute path, a server with a plain name works in its own directory below
    [.vms], an absolute path, so that different servers get different ones. *)
Theorem work_directories_differ es x1 x2 env fl1 fl2 c1 c2 :
  es ≠ [] → Forall (λ e, plain e = true) es →
  env !! "BUILD_WORKSPACE_DIRECTORY" = Some (abs_path es) →
  plain (vmServer x1) = true → plain (vmServer x2) = true →
  configure x1 env fl1 = Ok c1 → configure x2 env fl2 = Ok c2 →
  WorkDir c1 = abs_path (es ++ [".vms"; vmServer x1]) ∧ IsAbs (WorkDir c1) = true ∧
  (WorkDir c1 = WorkDir c2 → vmServer x1 = vmServer x2).
Proof.
  intros He Hes Hw P1 P2 E1 E2.
  apply configure_fields in E1 as (? & ? & ? & -> & _). apply configure_fields in E2 as (? & ? & ? & -> & _).
  cbn [WorkDir]. rewrite Hw. change (default "" (Some (abs_path es))) with (abs_path es).
  rewrite !path_join_abs3 by done.
  split; [done|]. split; [apply IsAbs_abs_path|].
  intros Heq. apply Join_inj in Heq.
  - apply app_inv_head in Heq. by injection Heq.
  - by destruct es.
  - by destruct es.
  - apply Forall_app. by repeat constructor.
  - apply Forall_app. by repeat constructor.
Qed.

(** The exit status.  It is 1 when the configuration is refused and 2 (0 for
    a request for help) when the arguments then do not parse, and in both cases
    nothing at all was asked of the host.  Otherwise it is 0 exactly when the run
    succeeded or a signal ended it where signals are handled, that is everywhere
    but in run mode with direct output. *)
Theorem main_exit_status x env args signalled h :
  match base_config x env, Parse cmd_flags args with
  | Err _, _ => main x env args signalled h = (1%Z, new_world h)
  | Ok _, ExitStatus code =>
      main x env args signalled h = (code, new_world h) ∧ (code = 0%Z ∨ code = 2%Z)
  | Ok c, Parsed m _ =>
      let out := Run (NewRunner (with_flags (read_flags m) c)) (new_world h) in
      (main x env args signalled h).2 = out.2 ∧
      ((main x env args signalled h).1 = 0%Z ↔
         is_ok out.1 = true ∨
         signalled = true ∧ ¬ (vmMode x = "run" ∧ get_string m "output" = "direct"))
  end.
Proof.
  unfold main. destruct (base_config x env) as [c|e] eqn:E; [|done].
  destruct (Parse cmd_flags args) as [m rest|code] eqn:Ep; [|split; [done|by eapply Parse_exit]].
  cbv zeta. apply base_config_mode in E. unfold launch, handles_signals.
  destruct (Run _ _) as [r w]. cbn [Mode OutputMode with_flags read_flags flag_output]. rewrite E.
  destruct (String.eqb_spec (vmMode x) "run"), (String.eqb_spec (get_string m "output") "direct"), signalled;
    cbn [negb andb fst snd]; destruct (is_ok r); naive_solver.
Qed.
End VmProperties.

(** A configured server on a scripted host. *)
#[export] Instance scripted_runfiles : Runfiles := {|
  runfiles_New := Ok tt;
  Rlocation := λ p, if String.eqb p "missing" then Err "not found" else Ok ("/runfiles/" +:+ p);
  runfiles_Env := Ok ["RUNFILES_DIR=/runfiles"] |}.
Definition server_named (name : string) : XDefs :=
  {| vmServer := name; vmTap := "mltt-tap0"; vmSecondTap := ""; vmMac := "02:00:00:00:00:01";
     vmMemory := "4G"; vmCPUs := "4"; vmDiskSize := "10G"; vmMode := "run";
     vmTPMPristinePath := ""; vmISORunfile := ""; vmOVMFCode := "ovmf/code.fd"; vmOVMFVars := "";
     vmSwtpm := ""; vmSwtpmSetup := ""; vmBridgeName := ""; vmTransitIPv4 := ""; vmTransitIPv6 := "" |}.
Definition workspace_env : gmap string string := <["BUILD_WORKSPACE_DIRECTORY" := "/src/repo"]> ∅.
Definition configured (name : string) : RunnerConfig :=
  match configure (server_named name) workspace_env default_flags with Ok c => c | Err _ => no_config end.

Lemma configure_correct_witness :
  configure (server_named "alpha") workspace_env default_flags = Ok (configured "alpha") ∧
  OVMFCode (toolPaths (NewRunner (configured "alpha"))) = "/runfiles/ovmf/code.fd".
Proof.
  split; [by vm_compute|].
  destruct (configure_correct (server_named "alpha") workspace_env default_flags) as [_ Hc].
  destruct (Hc (configured "alpha") ltac:(by vm_compute)) as (_ & (p & [= <-] & E) & _). exact E.
Defined.

Lemma work_directories_differ_witness :
  WorkDir (configured "alpha") = "/src/repo/.vms/alpha" ∧
  (WorkDir (configured "alpha") = WorkDir (configured "beta") → "alpha" = "beta").
Proof.
  destruct (work_directories_differ ["src"; "repo"] (server_named "alpha") (server_named "beta")
    workspace_env default_flags default_flags (configured "alpha") (configured "beta"))
    as (W & _ & Hd); [done|by repeat constructor|by vm_compute|by vm_compute|by vm_compute
                     |by vm_compute|by vm_compute|].
  split; [exact W|exact Hd].
Defined.
