(* ===== verification/Signals.v ===== *)
(** * Signals: the goroutines of the vm command

    vmtest/cmd/main.go, lines 171-201, as a step relation.  [Run] is a sequence of
    calls made one at a time, by a goroutine of its own where signals are handled;
    the main goroutine selects between its answer and a signal.  Both channels
    hold one value.  In run mode with direct output [Run] is called by the main
    goroutine and nobody asks for signals, so that one ends the process.  The
    host, which answers every call, is fixed: the cancellation a signal causes is
    among its answers, and what is proved holds for every host. *)

From S2P Require Import Prelude GoStrings GoStrconv GoFlag VmLib HostWorld RunnerConfig ProcessManager.
From S2P Require Import ScriptedHost RunnerRun RunnerSafety Cancellation VmCmd.

(** How the process ends. *)
Inductive ending := ExitWith (code : Z) | KilledBySignal.
(** Where the main goroutine is. *)
Inductive main_phase :=
| InRun
| Selecting
| Draining
| Over (e : ending).

Record system := {
  phase : main_phase;
  to_call : list hcall;
  done_chan : option (result error ());
  sig_chan : bool;
  cancelled_ctx : bool;
}.

(** SIGINT or SIGTERM; a signal nobody asks for whose default is to end the
    process, such as the SIGHUP of a terminal that goes away; a step of the
    program. *)
Inductive event := SignalArrives | HangUp | ProgramStep.

Section Signals.
Context {H : Host} {G : Platform} (c : RunnerConfig) (h : HostState).
Implicit Types (s : system).

(** What [rnr.Run()] does and answers. *)
Definition run_calls : list hcall := asked (calls (Run (NewRunner c) (new_world h)).2).
Definition run_answer : result error () := (Run (NewRunner c) (new_world h)).1.
Definition exit_code (r : result error ()) : Z := if is_ok r then 0 else 1.

Definition with_phase (p : main_phase) s : system :=
  {| phase := p; to_call := to_call s; done_chan := done_chan s; sig_chan := sig_chan s;
     cancelled_ctx := cancelled_ctx s |}.
Definition is_over (p : main_phase) : bool := match p with Over _ => true | _ => false end.

Definition start : system :=
  {| phase := if handles_signals c then Selecting else InRun; to_call := run_calls;
     done_chan := None; sig_chan := false; cancelled_ctx := false |}.

Inductive step : system → event → system → Prop :=
(** [signal.Notify]: the channel keeps one signal, others are dropped. *)
| step_notify s : phase s = Selecting ∨ phase s = Draining →
    step s SignalArrives {| phase := phase s; to_call := to_call s; done_chan := done_chan s;
                            sig_chan := true; cancelled_ctx := cancelled_ctx s |}
| step_default s : phase s = InRun → step s SignalArrives (with_phase (Over KilledBySignal) s)
| step_hangup s : is_over (phase s) = false → step s HangUp (with_phase (Over KilledBySignal) s)
| step_call s x l : is_over (phase s) = false → to_call s = x :: l →
    step s ProgramStep {| phase := phase s; to_call := l; done_chan := done_chan s;
                          sig_chan := sig_chan s; cancelled_ctx := cancelled_ctx s |}
(** [done <- rnr.Run()] *)
| step_answer s : phase s = Selecting ∨ phase s = Draining → to_call s = [] → done_chan s = None →
    step s ProgramStep {| phase := phase s; to_call := []; done_chan := Some run_answer;
                          sig_chan := sig_chan s; cancelled_ctx := cancelled_ctx s |}
| step_return s : phase s = InRun → to_call s = [] →
    step s ProgramStep (with_phase (Over (ExitWith (exit_code run_answer))) s)
| step_done s r : phase s = Selecting → done_chan s = Some r →
    step s ProgramStep (with_phase (Over (ExitWith (exit_code r))) s)
(** [rnr.Cancel()], then waiting for [done]. *)
| step_cancel s : phase s = Selecting → sig_chan s = true →
    step s ProgramStep {| phase := Draining; to_call := to_call s; done_chan := done_chan s;
                          sig_chan := false; cancelled_ctx := true |}
| step_drain s r : phase s = Draining → done_chan s = Some r →
    step s ProgramStep (with_phase (Over (ExitWith 0)) s).

(** Without a hangup. *)
Definition goes s s' : Prop := ∃ e, e ≠ HangUp ∧ step s e s'.
Definition reachable s : Prop := rtc goes start s.

(** ** Lemmas *)

(** What holds of every reachable state. *)
Record good s : Prop := {
  good_calls : ∃ made, run_calls = made ++ to_call s;
  good_done : ∀ r, done_chan s = Some r → r = run_answer ∧ to_call s = [];
  good_mode : match phase s with
              | InRun => handles_signals c = false ∧ done_chan s = None ∧ cancelled_ctx s = false
              | Selecting => handles_signals c = true ∧ cancelled_ctx s = false
              | Draining => handles_signals c = true ∧ cancelled_ctx s = true
              | Over KilledBySignal => handles_signals c = false ∧ cancelled_ctx s = false
              | Over (ExitWith code) =>
                  to_call s = [] ∧ code = (launch c (cancelled_ctx s) h).1 ∧
                  (cancelled_ctx s = true → handles_signals c = true)
              end;
}.

Lemma launch_code (b : bool) :
  (launch c b h).1 = if handles_signals c && b then 0%Z else exit_code run_answer.
Proof.
  unfold launch, exit_code, run_answer. destruct (Run (NewRunner c) (new_world h)) as [r w].
  cbn [fst]. by destruct (handles_signals c && b), (is_ok r).
Qed.

Ltac fields := cbn [with_phase to_call done_chan phase cancelled_ctx sig_chan].

Lemma start_good : good start.
Proof.
  split; cbn [start to_call done_chan phase cancelled_ctx]; [by exists []|by intros r [=]|].
  by destruct (handles_signals c).
Qed.
Lemma step_good s e s' : e ≠ HangUp → step s e s' → good s → good s'.
Proof.
  intros He St [(made & Hc) Hd Hm]. destruct St as [s Hp|s Hp|s Hp|s x l Hp Hl|s Hp Hl Hn|s Hp Hl|s r Hp Hr|s Hp Hg|s r Hp Hr].
  - split; [by exists made|done|done].
  - rewrite Hp in Hm. split; [by exists made|done|]. cbn. tauto.
  - done.
  - rewrite Hl in Hc. split; fields.
    + exists (made ++ [x]). by rewrite <- app_assoc.
    + intros r Hr. apply Hd in Hr as [_ Hr]. congruence.
    + by destruct (phase s).
  - split; fields; [by exists made; rewrite <- Hl|by intros r [= <-]|].
    by destruct Hp as [Hp|Hp]; rewrite Hp in *.
  - rewrite Hp in Hm. destruct Hm as (Hh & Hn & Hx). split; fields; [by exists made|done|].
    rewrite Hx, launch_code, Hh. done.
  - rewrite Hp in Hm. destruct Hm as (Hh & Hx). apply Hd in Hr as [-> Hl].
    split; fields; [by exists made|done|]. by rewrite Hx, launch_code, Hh.
  - rewrite Hp in Hm. split; fields; [by exists made|done|]. tauto.
  - rewrite Hp in Hm. destruct Hm as (Hh & Hx). apply Hd in Hr as [-> Hl].
    split; fields; [by exists made|done|]. by rewrite Hx, launch_code, Hh.
Qed.
Lemma reachable_good s : reachable s → good s.
Proof.
  intros Hr. unfold reachable in Hr. assert (Hg := start_good). revert Hg.
  induction Hr as [s|s1 s2 s3 (e & He & St) _ IH]; [done|]. intros Hg. apply IH. by eapply step_good.
Qed.

(** Steps the program still has to make, at most. *)
Definition rank (p : main_phase) : nat :=
  match p with InRun => 1 | Selecting => 2 | Draining => 1 | Over _ => 0 end.
Definition remaining s : nat :=
  length (to_call s) + (match done_chan s with None => 1 | Some _ => 0 end) + rank (phase s).

Lemma step_remaining s e s' :
  step s e s' →
  match e with
  | ProgramStep => (remaining s' < remaining s)%nat
  | SignalArrives | HangUp => (remaining s' ≤ remaining s)%nat
  end.
Proof.
  unfold remaining. intros [t Hp|t Hp|t Hp|t x l Hp Hl|t Hp Hl Hn|t Hp Hl|t r Hp Hr|t Hp Hg|t r Hp Hr];
    fields; rewrite ?Hp, ?Hl, ?Hn, ?Hr; cbn; lia.
Qed.
(** The program's next step, [done] before a signal. *)
Definition advance s : system :=
  if is_over (phase s) then s else
  match to_call s, phase s, done_chan s with
  | _ :: l, _, _ => {| phase := phase s; to_call := l; done_chan := done_chan s; sig_chan := sig_chan s;
                       cancelled_ctx := cancelled_ctx s |}
  | [], InRun, _ => with_phase (Over (ExitWith (exit_code run_answer))) s
  | [], Selecting, Some r => with_phase (Over (ExitWith (exit_code r))) s
  | [], Draining, Some _ => with_phase (Over (ExitWith 0)) s
  | [], _, None => {| phase := phase s; to_call := []; done_chan := Some run_answer; sig_chan := sig_chan s;
                      cancelled_ctx := cancelled_ctx s |}
  | [], Over _, _ => s
  end.
Lemma advance_step s : is_over (phase s) = false → step s ProgramStep (advance s).
Proof.
  intros Ho. unfold advance. rewrite Ho. destruct (to_call s) as [|x l] eqn:El; [|by eapply step_call].
  destruct (phase s) eqn:Ep; [|destruct (done_chan s) eqn:Ed|destruct (done_chan s) eqn:Ed|done].
  - by apply step_return.
  - by eapply step_done.
  - rewrite <- Ep. apply step_answer; auto.
  - by eapply step_drain.
  - rewrite <- Ep. apply step_answer; auto.
Qed.
Lemma program_can s : is_over (phase s) = false → ∃ s', step s ProgramStep s'.
Proof. intros Ho. eexists. by apply advance_step. Qed.
Lemma over_stops s e s' : is_over (phase s) = true → ¬ step s e s'.
Proof.
  intros Ho St.
  destruct St as [t Hp|t Hp|t Hp|t x l Hp Hl|t Hp Hl Hn|t Hp Hl|t r Hp Hr|t Hp Hg|t r Hp Hr];
    try destruct Hp as [Hp|Hp]; try rewrite Hp in Ho; by try congruence.
Qed.

(** The next calls made, in whatever phase. *)
Lemma make_calls l s rest :
  is_over (phase s) = false → to_call s = l ++ rest →
  rtc goes s {| phase := phase s; to_call := rest; done_chan := done_chan s; sig_chan := sig_chan s;
                cancelled_ctx := cancelled_ctx s |}.
Proof.
  revert s. induction l as [|x l IH]; intros s Ho El.
  - cbn in El. rewrite <- El. by destruct s.
  - eapply rtc_l; [exists ProgramStep; split; [done|]; by eapply step_call|].
    exact (IH {| phase := phase s; to_call := l ++ rest; done_chan := done_chan s; sig_chan := sig_chan s;
                 cancelled_ctx := cancelled_ctx s |} Ho eq_refl).
Qed.
End Signals.

(** ** Properties *)

Section SignalProperties.
Context {H : Host} {G : Platform}.
Implicit Types (c : RunnerConfig).

(** C8: where signals are handled the process never ends before its run does.
    However many SIGINT and SIGTERM come and however the goroutines are interleaved
    with them, a process that has ended did so by itself, after the last call of [Run], the
    cleanup included.  Otherwise, in run mode with direct output, the first signal
    ends it on the spot, whatever [Run] still had to do. *)
Theorem exit_after_run c h s :
  reachable c h s →
  (handles_signals c = true → ∀ e, phase s = Over e →
     to_call s = [] ∧ ∃ code, e = ExitWith code) ∧
  (handles_signals c = false → is_over (phase s) = false →
     step c h s SignalArrives (with_phase (Over KilledBySignal) s)).
Proof.
  intros Hr. apply reachable_good in Hr as [_ _ Hm]. split.
  - intros Hh e Hp. rewrite Hp in Hm. destruct e as [code|]; [|destruct Hm; congruence].
    split; [apply Hm|by exists code].
  - intros Hh Ho. apply step_default. destruct (phase s) as [| | |e]; [done| | |done]; destruct Hm; congruence.
Qed.

(** C26: the goroutines implement the exit status.  The process can end with a
    status exactly when that is the status [launch] gives without a signal or with
    one; and when it ends with one, it is that of the case the [select] took. *)
Theorem exit_refines_launch c h code :
  ((∃ s, reachable c h s ∧ phase s = Over (ExitWith code)) ↔ ∃ signalled, (launch c signalled h).1 = code) ∧
  ∀ s, reachable c h s → phase s = Over (ExitWith code) → code = (launch c (cancelled_ctx s) h).1.
Proof.
  assert (Hret : ∀ s, reachable c h s → phase s = Over (ExitWith code) → code = (launch c (cancelled_ctx s) h).1).
  { intros s Hr Hp. apply reachable_good in Hr as [_ _ Hm]. rewrite Hp in Hm. apply Hm. }
  split; [|done]. split.
  - intros (s & Hr & Hp). exists (cancelled_ctx s). symmetry. by apply Hret.
  - intros [b <-]. rewrite launch_code. unfold reachable.
    pose proof (make_calls c h (run_calls c h) (start c h) []) as Hc. rewrite app_nil_r in Hc.
    cbn [start phase done_chan sig_chan cancelled_ctx to_call] in Hc.
    destruct (handles_signals c) eqn:Hh; cbn [andb]; specialize (Hc eq_refl eq_refl).
    + destruct b.
      * eexists. split.
        { etrans; [exact Hc|]. eapply rtc_l; [exists SignalArrives; split; [done|]; by apply step_notify; left|].
          eapply rtc_l; [exists ProgramStep; split; [done|]; by apply step_cancel|].
          eapply rtc_l; [exists ProgramStep; split; [done|]; apply step_answer; by auto|].
          apply rtc_once. exists ProgramStep. split; [done|]. by eapply step_drain. }
        done.
      * eexists. split.
        { etrans; [exact Hc|]. eapply rtc_l; [exists ProgramStep; split; [done|]; apply step_answer; by auto|].
          apply rtc_once. exists ProgramStep. split; [done|]. by eapply step_done. }
        done.
    + eexists. split; [etrans; [exact Hc|]; apply rtc_once; exists ProgramStep; split; [done|]; by apply step_return|done].
Qed.
End SignalProperties.

(** A build on the scripted host, and a run that a signal cuts short. *)
Lemma exit_after_run_witness :
  ∃ s, reachable (H := ScriptedHost) (config_for "run" "direct") built_host s ∧
    phase s = Over KilledBySignal ∧ to_call s ≠ [].
Proof.
  set (c := config_for "run" "direct").
  assert (Hr : reachable (H := ScriptedHost) c built_host (start (H := ScriptedHost) c built_host)) by apply rtc_refl.
  destruct (exit_after_run (H := ScriptedHost) c built_host _ Hr) as [_ Hk].
  exists (with_phase (Over KilledBySignal) (start (H := ScriptedHost) c built_host)).
  split_and!; [|done|vm_compute; done].
  eapply rtc_r; [exact Hr|]. exists SignalArrives. split; [done|]. exact (Hk eq_refl eq_refl).
Defined.
