(* ===== verification/Interrupts.v ===== *)
(** * Interrupts: the signal brings the cancellation about

    The goroutines of Signals on the hosts of Cancellation: when the main goroutine
    takes a signal and calls [rnr.Cancel()], what [Run] still has to do becomes
    what it does once its context is cancelled at that very moment.  Every
    execution is one of Signals on the host that is interrupted then, so what is
    proved there holds; and now the moment of the signal and its effect on the run
    can be related.  With calls that wait for a QEMU that hangs, the last part shows
    that it is the cancellation that ends the process. *)

From S2P Require Import Prelude GoStrings GoStrconv VmLib HostWorld RunnerConfig ScriptedHost ProcessManager RunnerRun.
From S2P Require Import RunnerSafety RunnerProtocol RunnerOrder Cancellation VmCmd Signals.

Section Interrupts.
Context {H0 : Host} (interrupt : HostState → HostState) {G : Platform} (c : RunnerConfig) (h : HostState).
#[local] Notation J := (Interruptible interrupt).
#[local] Notation host_at m := (interrupted_at interrupt m h).
#[local] Notation calls_at m := (run_calls (H := J) c (host_at m)).
Implicit Types (s : system).

(** The goroutines, and when the context was cancelled. *)
Definition process : Type := moment * system.
(** Calls made, when no signal was taken yet. *)
Definition made s : nat := length (calls_at None) - length (to_call s).
(** The moment of a cancellation: between two calls, or after the run. *)
Definition cut_at s : nat := match done_chan s with Some _ => S (made s) | None => made s end.
Definition cancel s : process :=
  (Some (cut_at s),
   {| phase := Draining; to_call := drop (made s) (calls_at (Some (cut_at s))); done_chan := done_chan s;
      sig_chan := false; cancelled_ctx := true |}).

Inductive pstep : process → event → process → Prop :=
(** Every step of the goroutines but the one that cancels. *)
| pstep_same m s e s' :
    step (H := J) c (host_at m) s e s' → cancelled_ctx s' = cancelled_ctx s → pstep (m, s) e (m, s')
(** [case sig := <-sigChan: rnr.Cancel()] *)
| pstep_cancel s : phase s = Selecting → sig_chan s = true → pstep (None, s) ProgramStep (cancel s).

Definition pstart : process := (None, start (H := J) c (host_at None)).
Definition pgoes (x y : process) : Prop := ∃ e, e ≠ HangUp ∧ pstep x e y.
Definition preachable (x : process) : Prop := rtc pgoes pstart x.
(** The calls made so far. *)
Definition so_far (x : process) : list hcall :=
  take (length (calls_at x.1) - length (to_call x.2)) (calls_at x.1).

(** ** Lemmas *)

Record linked (x : process) : Prop := {
  linked_signals : reachable (H := J) c (host_at x.1) x.2;
  linked_cancelled : cancelled_ctx x.2 = bool_decide (is_Some x.1);
  linked_late : ∀ t, x.1 = Some t → t ≤ length (so_far x) ∨ to_call x.2 = [];
}.

Lemma answer_at m : (run_interrupted interrupt (NewRunner c) m h).1 = run_answer (H := J) c (host_at m).
Proof. done. Qed.
Lemma calls_of_at m : calls_of interrupt (NewRunner c) m h = calls_at m.
Proof. done. Qed.
Lemma step_to_call m s e s' :
  step (H := J) c (host_at m) s e s' → to_call s' = to_call s ∨ ∃ y, to_call s = y :: to_call s'.
Proof. intros []; cbn; eauto. Qed.
Lemma linked_split x : linked x → calls_at x.1 = so_far x ++ to_call x.2.
Proof.
  intros [Hr _ _]. apply reachable_good in Hr as [(l & E) _ _]. unfold so_far.
  rewrite E, length_app, take_app_le by lia. rewrite take_ge by lia. done.
Qed.
Lemma so_far_length x : linked x → length (so_far x) + length (to_call x.2) = length (calls_at x.1).
Proof. intros L. rewrite (linked_split x L), length_app. lia. Qed.

Lemma linked_start : linked pstart.
Proof.
  split; [apply rtc_refl|done|by intros t].
Qed.
Lemma linked_same m s e s' :
  linked (m, s) → e ≠ HangUp → step (H := J) c (host_at m) s e s' → cancelled_ctx s' = cancelled_ctx s → linked (m, s').
Proof.
  intros L He St Hx. pose proof (so_far_length _ L) as Hl. destruct L as [Hr Hc Ht]. cbn [fst snd] in *.
  assert (Hr' : reachable (H := J) c (host_at m) s') by (eapply rtc_r; [exact Hr|by exists e]).
  split; cbn [fst snd]; [exact Hr'|congruence|]. intros t Hm. destruct (step_to_call m s e s' St) as [E|[y E]].
  - unfold so_far in *. cbn [fst snd] in *. rewrite E. by apply Ht.
  - destruct (Ht t Hm) as [Hle|Hn]; [left|congruence].
    apply reachable_good in Hr' as [(l & El) _ _]. unfold so_far in *. cbn [fst snd] in *.
    rewrite length_take in *. rewrite E in *. cbn in *. lia.
Qed.
(** The run cancelled now goes through everything the run did so far. *)
Lemma cancel_calls s :
  linked (None, s) →
  let t := cut_at s in
  made s = length (so_far (None, s)) ∧
  match done_chan s with
  | Some r => to_call s = [] ∧ r = run_answer (H := J) c (host_at (Some t)) ∧ calls_at (Some t) = calls_at None
              ∧ made s = length (calls_at None)
  | None => t = made s ∧ t ≤ length (calls_at (Some t)) ∧ take t (calls_at (Some t)) = so_far (None, s)
  end.
Proof.
  intros L t. pose proof (so_far_length _ L) as Hl. pose proof (linked_split _ L) as Hs.
  destruct L as [Hr _ _]. apply reachable_good in Hr as [_ Hd _]. cbn [fst snd] in *.
  assert (Hm : made s = length (so_far (None, s))) by (unfold made; lia).
  split; [done|]. destruct (calls_agree interrupt (NewRunner c) t h) as [A B]. rewrite !calls_of_at in A, B.
  destruct (done_chan s) as [r|] eqn:Ed.
  - destruct (Hd r eq_refl) as [-> Hn]. rewrite Hn in Hl. cbn [length] in Hl.
    assert (Ht : t = S (made s)) by (unfold t, cut_at; by rewrite Ed). destruct B as [B1 B2]; [rewrite Ht; lia|].
    split_and!; [done|symmetry; exact B1|exact B2|lia].
  - assert (Ht : t = made s) by (unfold t, cut_at; by rewrite Ed). destruct A as [A1 A2]; [rewrite Ht; lia|].
    split_and!; [done|exact A1|]. rewrite A2, Hs, Ht, Hm. by rewrite take_app_length.
Qed.

(** Selecting, with the run where it stands, can become the cancelled state. *)
Lemma reach_cancel t l rest d :
  handles_signals c = true → calls_at (Some t) = l ++ rest →
  (d = None ∨ rest = [] ∧ d = Some (run_answer (H := J) c (host_at (Some t)))) →
  reachable (H := J) c (host_at (Some t))
    {| phase := Draining; to_call := rest; done_chan := d; sig_chan := false; cancelled_ctx := true |}.
Proof.
  intros Hh El Hd. unfold reachable.
  pose proof (make_calls (H := J) c (host_at (Some t)) l (start (H := J) c (host_at (Some t))) rest) as Hc.
  cbn [start phase done_chan sig_chan cancelled_ctx to_call] in Hc. rewrite Hh in Hc. specialize (Hc eq_refl El).
  etrans; [exact Hc|]. destruct Hd as [->|[-> ->]].
  - eapply rtc_l; [exists SignalArrives; split; [done|]; by apply step_notify; left|].
    apply rtc_once. exists ProgramStep. split; [done|]. by apply step_cancel.
  - eapply rtc_l; [exists ProgramStep; split; [done|]; apply step_answer; by auto|].
    eapply rtc_l; [exists SignalArrives; split; [done|]; by apply step_notify; left|].
    apply rtc_once. exists ProgramStep. split; [done|]. by apply step_cancel.
Qed.
Lemma linked_cancel s : linked (None, s) → phase s = Selecting → sig_chan s = true → linked (cancel s).
Proof.
  intros L Hp Hg. destruct (cancel_calls s L) as [Hm Hd]. destruct L as [Hr _ _].
  apply reachable_good in Hr as [_ _ Hmode]. cbn [fst snd] in *. rewrite Hp in Hmode. destruct Hmode as [Hh _].
  unfold cancel. split; cbn [fst snd]; [|done|].
  - apply (reach_cancel _ (take (made s) (calls_at (Some (cut_at s))))); [done|by rewrite take_drop|].
    destruct (done_chan s) as [r|]; [right|by left]. destruct Hd as (_ & -> & E & El).
    split; [|done]. rewrite E. apply drop_ge. lia.
  - intros t [= <-]. cbn [to_call]. destruct (done_chan s) as [r|] eqn:Ed.
    + right. destruct Hd as (_ & _ & E & El). rewrite E. apply drop_ge. lia.
    + left. destruct Hd as (Ht & Hle & _). unfold so_far. cbn [fst snd to_call].
      rewrite length_take, length_drop. lia.
Qed.
Lemma linked_step x e y : e ≠ HangUp → pstep x e y → linked x → linked y.
Proof.
  intros He St L. destruct St as [m s e s' St Hx|s Hp Hg]; [|by apply linked_cancel].
  exact (linked_same m s e s' L He St Hx).
Qed.
Lemma preachable_linked x : preachable x → linked x.
Proof.
  intros Hr. unfold preachable in Hr. assert (L := linked_start). revert L.
  induction Hr as [x|x y z (e & He & St) _ IH]; [done|]. intros L. apply IH. by eapply linked_step.
Qed.

(** What was called stays called, whatever happens next. *)
Lemma so_far_step x e y : linked x → e ≠ HangUp → pstep x e y → so_far x `prefix_of` so_far y.
Proof.
  intros L He St. pose proof (linked_step x e y He St L) as L'. destruct St as [m s e s' St Hx|s Hp Hg].
  - pose proof (linked_split _ L) as E. pose proof (linked_split _ L') as E'. cbn [fst snd] in *.
    rewrite E in E'. destruct (step_to_call m s e s' St) as [Ec|[z Ec]]; rewrite Ec in E'.
    + apply app_inv_tail in E'. by rewrite E'.
    + rewrite cons_middle, app_assoc in E'. apply app_inv_tail in E'. rewrite <- E'. by eexists.
  - destruct (cancel_calls s L) as [Hm Hd]. destruct (done_chan s) as [r|] eqn:Ed.
    + destruct Hd as (Hn & _ & Ec & El). pose proof (linked_split _ L) as E. cbn [fst snd] in E.
      rewrite Hn, app_nil_r in E. unfold so_far at 2, cancel. cbn [fst snd to_call].
      rewrite drop_ge, Ec by (rewrite Ec; lia). cbn [length]. rewrite Nat.sub_0_r, firstn_all. by rewrite E.
    + destruct Hd as (Ht & Hle & Et). rewrite <- Et. unfold so_far, cancel. cbn [fst snd to_call].
      rewrite length_drop, <- Ht.
      by replace (length (calls_at (Some (cut_at s))) - (length (calls_at (Some (cut_at s))) - cut_at s)) with (cut_at s) by lia.
Qed.

(** A signal can be taken after any number of calls. *)
Lemma signal_any_time n :
  handles_signals c = true → n ≤ length (calls_at None) →
  preachable (Some n, {| phase := Draining; to_call := drop n (calls_at (Some n)); done_chan := None;
                         sig_chan := false; cancelled_ctx := true |}).
Proof.
  intros Hh Hn. unfold preachable, pstart, start. rewrite Hh.
  assert (Hc : ∀ l rest, rtc pgoes
    (None, {| phase := Selecting; to_call := l ++ rest; done_chan := None; sig_chan := false; cancelled_ctx := false |})
    (None, {| phase := Selecting; to_call := rest; done_chan := None; sig_chan := false; cancelled_ctx := false |})).
  { intros l rest. induction l as [|y l IH]; [apply rtc_refl|]. eapply rtc_l; [|exact IH].
    exists ProgramStep. split; [done|]. apply pstep_same; [by eapply (step_call (H := J))|done]. }
  rewrite <- (take_drop n (calls_at None)). etrans; [apply Hc|].
  eapply rtc_l; [exists SignalArrives; split; [done|]; apply pstep_same; [apply (step_notify (H := J)); by left|done]|].
  apply rtc_once. exists ProgramStep. split; [done|]. set (s := {| phase := _; sig_chan := true |}).
  assert (Hm : made s = n) by (unfold made; cbn [s to_call]; rewrite length_drop; lia).
  assert (Hcut : cut_at s = n) by exact Hm.
  pose proof (pstep_cancel s eq_refl eq_refl) as St. unfold cancel in St. by rewrite Hcut, Hm in St.
Qed.

(** ** Executions

    A call that waits for QEMU may never return by itself ([select] has a timer, and does): [hangs] says which of
    them, whatever the host would have answered.  Once the context is done, os/exec
    kills QEMU, which was started under it, and such a call returns too. *)
Section Blocking.
Context (hangs : hcall → bool).

Definition waits_for_qemu (y : hcall) : bool :=
  match y with HWait _ | HDrain _ => true | _ => false end.
Definition held (y : hcall) : bool := waits_for_qemu y && hangs y.
(** [Run] waits for a QEMU that does not end, and nobody has cancelled its context. *)
Definition blocked (x : process) : bool :=
  match x.1, to_call x.2 with None, y :: _ => held y | _, _ => false end.
(** [Run] makes its next call. *)
Definition calls_next (x y : process) : Prop := x.1 = y.1 ∧ ∃ z, to_call x.2 = z :: to_call y.2.

Definition bstep (x : process) (e : event) (y : process) : Prop :=
  pstep x e y ∧ (blocked x = true → ¬ calls_next x y).
(** The states, and what happens in each, if anything. *)
Record bexecution (x : nat → process) (ev : nat → option event) : Prop := {
  exec_start : x 0 = pstart;
  exec_step : ∀ n, match ev n with None => x (S n) = x n | Some e => bstep (x n) e (x (S n)) end;
}.
(** The program is not starved: again and again it makes a step or has none to make. *)
Definition bfair (x : nat → process) (ev : nat → option event) : Prop :=
  ∀ n, ∃ m, n ≤ m ∧ (ev m = Some ProgramStep ∨ ¬ ∃ y, bstep (x m) ProgramStep y).
Definition signal_comes (ev : nat → option event) : Prop :=
  ∃ n, ev n = Some SignalArrives ∨ ev n = Some HangUp.

Section Leads.
Context (x : nat → process) (ev : nat → option event) (Hx : bexecution x ev) (Hf : bfair x ev).
Context (Inv stop : process → Prop) `{!∀ p, Decision (stop p)}.
Context (can : ∀ p, Inv p → ¬ stop p → ∃ q, bstep p ProgramStep q).
Context (down : ∀ p e q, Inv p → ¬ stop p → bstep p e q → Inv q ∧
  (stop q ∨ match e with ProgramStep => remaining q.2 < remaining p.2 | _ => remaining q.2 ≤ remaining p.2 end)).

Lemma leads_between n m : n ≤ m → Inv (x n) →
  (∃ k, n ≤ k ≤ m ∧ Inv (x k) ∧ stop (x k)) ∨ (Inv (x m) ∧ ¬ stop (x m) ∧ remaining (x m).2 ≤ remaining (x n).2).
Proof.
  intros Hle Hi. induction Hle as [|m Hle IH].
  { destruct (decide (stop (x n))); [left; by exists n|by right]. }
  destruct IH as [(k & Hk & ?)|(Im & Sm & Mm)]; [left; exists k; split; [lia|done]|].
  pose proof (exec_step _ _ Hx m) as Hm. destruct (ev m) as [e|]; [|rewrite Hm; by right].
  destruct (down _ _ _ Im Sm Hm) as [Iq Dq].
  destruct (decide (stop (x (S m)))); [left; exists (S m); split; [lia|done]|right].
  split_and!; [done..|]. destruct Dq as [?|Dq]; [done|]. destruct e; lia.
Qed.
(** When every step of the program is one step less, it comes to [stop]. *)
Lemma leads n : Inv (x n) → ∃ m, n ≤ m ∧ Inv (x m) ∧ stop (x m).
Proof.
  remember (remaining (x n).2) as k eqn:Ek. revert n Ek. induction (lt_wf k) as [k _ IH]. intros n -> Hi.
  destruct (Hf n) as (m & Hm & St).
  destruct (leads_between n m Hm Hi) as [(j & Hj & ?)|(Im & Sm & Mm)]; [exists j; split; [lia|done]|].
  destruct St as [Ee|Hno]; [|destruct Hno; by apply can].
  pose proof (exec_step _ _ Hx m) as St. rewrite Ee in St.
  destruct (down _ _ _ Im Sm St) as [Iq [Sq|Dq]]; [exists (S m); split; [lia|done]|].
  destruct (IH (remaining (x (S m)).2) ltac:(lia) (S m) eq_refl Iq) as (m' & Hm' & ?). exists m'. split; [lia|done].
Qed.
End Leads.

Lemma advance_cancelled m s : cancelled_ctx (advance (H := J) c (host_at m) s) = cancelled_ctx s.
Proof. unfold advance. by repeat case_match. Qed.
Lemma process_can m s : is_over (phase s) = false → blocked (m, s) = false →
  bstep (m, s) ProgramStep (m, advance (H := J) c (host_at m) s).
Proof.
  intros Ho Hb. split; [|congruence]. apply pstep_same; [by apply advance_step|apply advance_cancelled].
Qed.
Lemma cancel_can s : phase s = Selecting → sig_chan s = true → bstep (None, s) ProgramStep (cancel s).
Proof. intros Hp Hg. split; [by apply pstep_cancel|]. by intros _ [? _]. Qed.
Lemma pstep_down m s e y : pstep (m, s) e y →
  (m = None ∧ is_Some y.1) ∨
  (y.1 = m ∧ match e with ProgramStep => remaining y.2 < remaining s | _ => remaining y.2 ≤ remaining s end).
Proof.
  intros St. inversion St as [m0 s0 e0 s' Sg _|]; subst; [right|left; split; [done|by eexists]].
  split; [done|]. exact (step_remaining _ _ _ _ _ Sg).
Qed.

#[local] Instance over_dec (x : process) : Decision (is_over (phase x.2) = true) := _.
Definition settled (x : process) : Prop := is_Some x.1 ∨ is_over (phase x.2) = true.
#[local] Instance settled_dec x : Decision (settled x) := _.

(** Once the context is cancelled, nothing holds the run up. *)
Lemma after_cancel_ends x ev n :
  bexecution x ev → bfair x ev → settled (x n) → ∃ m, is_over (phase (x m).2) = true.
Proof.
  intros Hx Hf [Hn|Hn]; [|by exists n].
  destruct (leads x ev Hx Hf (λ p, is_Some p.1) (λ p, is_over (phase p.2) = true)) with (n := n)
    as (m & _ & _ & Ho); [| |done|by exists m].
  - intros [m s] [t Ht] Ho. cbn in Ht. subst m. eexists. apply process_can; [by apply not_true_is_false|done].
  - intros [m s] e q Hi _ [St _]. apply pstep_down in St as [[-> _]|[-> D]]; [by destruct Hi|]. split; [done|by right].
Qed.
(** A signal that waits to be taken is taken. *)
Definition pending (x : process) : Prop :=
  phase x.2 = Selecting ∧ sig_chan x.2 = true ∧ cancelled_ctx x.2 = false.
Lemma pending_step m s e s' :
  pending (m, s) → step (H := J) c (host_at m) s e s' → cancelled_ctx s' = cancelled_ctx s →
  pending (m, s') ∨ is_over (phase s') = true.
Proof.
  unfold pending. cbn. intros (Hp & Hg & Hx) St Hc. rewrite Hc. inversion St; subst; cbn in *; auto; congruence.
Qed.
Lemma pending_settles x ev n : bexecution x ev → bfair x ev → pending (x n) → ∃ m, settled (x m).
Proof.
  intros Hx Hf Hn.
  destruct (leads x ev Hx Hf (λ p, settled p ∨ pending p) settled) with (n := n)
    as (m & _ & _ & Ho); [| |by right|by exists m].
  - intros [[m|] s] Hi Ho; [destruct Ho; left; by eexists|]. destruct Hi as [Hs|(Hp & Hg & _)]; [done|].
    eexists. by apply cancel_can.
  - intros [m s] e q Hi Ho [St _]. destruct Hi as [Hs|Hp]; [done|]. pose proof (pstep_down m s e q St) as D.
    destruct D as [[_ D]|[Em D]]; [split; left; by left|]. split; [|by right].
    inversion St as [m' s0 e0 s' Sg Hc|]; subst; [|left; left; by eexists].
    destruct (pending_step _ _ _ _ Hp Sg Hc); [by right|left; by right].
Qed.
(** Without a signal the calls made are those that return by themselves. *)
Record unsignalled (x : process) : Prop := {
  uns_moment : x.1 = None;
  uns_sig : sig_chan x.2 = false;
  uns_phase : phase x.2 ≠ Draining ∧ phase x.2 ≠ Over KilledBySignal;
  uns_over : is_Some (done_chan x.2) ∨ is_over (phase x.2) = true → to_call x.2 = [];
  uns_made : ∃ l, calls_at None = l ++ to_call x.2 ∧ Forall (λ y, held y = false) l;
}.
Lemma unsignalled_step x y : unsignalled x → bstep x ProgramStep y → unsignalled y.
Proof.
  intros [Hm Hg Hp Ho (l & El & Hl)] [St Hb]. destruct x as [m s]. cbn in Hm. subst m. cbn [snd] in *.
  inversion St as [m s0 e s' Sg _|]; subst; [|congruence].
  inversion Sg as [| | |s0 z l' Hov Hc|s0 Hq Hc Hd|s0 Hq Hc|s0 r Hq Hc|s0 Hq Hc|s0 r Hq Hc]; subst;
    (split; cbn [fst snd to_call sig_chan phase with_phase done_chan]; try done; try tauto; try congruence;
       try (exists l; by rewrite <- ?Hc); try (intros _; apply Ho; left; by eexists)).
  { intros [Hd|Hd]; [|congruence]. rewrite Ho in Hc by (by left). congruence. }
  exists (l ++ [z]). rewrite <- app_assoc. split; [by rewrite El, Hc|]. apply Forall_app. split; [done|].
  constructor; [|done]. destruct (held z) eqn:Ez; [|done]. exfalso.
  apply Hb; [unfold blocked; cbn; by rewrite Hc|]. split; [done|]. exists z. done.
Qed.
Lemma unsignalled_over x e : unsignalled x → phase x.2 = Over e → Forall (λ y, held y = false) (calls_at None).
Proof.
  intros [_ _ _ Ho (l & -> & Hl)] He. rewrite Ho by (right; by rewrite He). by rewrite app_nil_r.
Qed.
Lemma signal_dec x ev n :
  bexecution x ev → (∃ k, k < n ∧ (ev k = Some SignalArrives ∨ ev k = Some HangUp)) ∨ unsignalled (x n).
Proof.
  intros Hx. induction n as [|n [(k & Hk & ?)|IH]].
  - right.
    rewrite (exec_start _ _ Hx). split; cbn; try done; [by destruct (handles_signals c)| |by exists []].
    intros [[? [=]]|Ho]. by destruct (handles_signals c).
  - left. exists k. split; [lia|done].
  - pose proof (exec_step _ _ Hx n) as St. destruct (ev n) as [[]|] eqn:Ee.
    + left. exists n. auto.
    + left. exists n. auto.
    + right. by eapply unsignalled_step.
    + right. by rewrite St.
Qed.
(** Draining means that the context was cancelled, and only then is it. *)
Definition consistent (x : process) : Prop :=
  (x.1 = None → cancelled_ctx x.2 = false) ∧ (phase x.2 = Selecting → cancelled_ctx x.2 = false) ∧
  (phase x.2 = Draining → is_Some x.1) ∧ (x.1 = None → is_Some (done_chan x.2) → to_call x.2 = []).
Lemma consistent_step x e y : consistent x → pstep x e y → consistent y.
Proof.
  intros (C1 & C2 & C3 & C4) St. unfold consistent. inversion St as [m s e0 s' Sg Hc|s Hp Hg]; subst; cbn in *.
  - rewrite Hc. inversion Sg; subst; cbn in *; split_and!; auto; try congruence.
    + intros Hm Hd. apply C4 in Hd; [congruence|done].
    + intros _. destruct m; [by eexists|]. rewrite C1 in Hc by done. congruence.
  - split_and!; [done..|by eexists|done].
Qed.
Lemma consistent_always x ev n : bexecution x ev → consistent (x n).
Proof.
  intros Hx. induction n as [|n IH].
  - rewrite (exec_start _ _ Hx). unfold consistent. cbn. destruct (handles_signals c); (split_and!; [done..|by intros _ [? [=]]]).
  - pose proof (exec_step _ _ Hx n) as St. destruct (ev n); [|by rewrite St]. destruct St as [St _].
    by eapply consistent_step.
Qed.
Lemma signal_settles x ev n :
  bexecution x ev → bfair x ev → ev n = Some SignalArrives ∨ ev n = Some HangUp → ∃ m, settled (x m).
Proof.
  intros Hx Hf He. pose proof (exec_step _ _ Hx n) as St. destruct (consistent_always x ev n Hx) as (_ & C2 & C3 & _).
  destruct (x n) as [m s] eqn:En. cbn in C2, C3.
  destruct He as [He|He]; rewrite He in St; destruct St as [St _]; inversion St as [m0 s0 e0 s' Sg Hc Em Ee E|]; subst.
  - inversion Sg as [s1 [Hp|Hp]|s1 Hp| | | | | | |]; subst.
    + apply (pending_settles x ev (S n) Hx Hf). rewrite <- E. split_and!; cbn; auto.
    + exists n. rewrite En. left. by apply C3.
    + exists (S n). rewrite <- E. by right.
  - inversion Sg; subst. exists (S n). rewrite <- E. by right.
Qed.
(** A run that waits for nothing that hangs comes to its end. *)
Lemma unheld_settles x ev :
  bexecution x ev → bfair x ev → Forall (λ y, held y = false) (calls_at None) → ∃ m, settled (x m).
Proof.
  intros Hx Hf Hh.
  destruct (leads x ev Hx Hf (λ p, settled p ∨ p.1 = None ∧ Forall (λ y, held y = false) (to_call p.2)) settled)
    with (n := 0) as (m & _ & _ & Ho); [| | |by exists m].
  - intros [m s] [Hs|[Hm Hl]] Ho; [done|]. cbn in *. subst m. eexists. apply process_can.
    + apply not_true_is_false. intros E. apply Ho. by right.
    + unfold blocked. cbn. destruct (to_call s) as [|y l]; [done|]. by inversion Hl.
  - intros [m s] e q [Hs|[Hm Hl]] Ho [St _]; [done|]. pose proof (pstep_down m s e q St) as D.
    destruct D as [[_ D]|[Em D]]; [split; left; by left|]. split; [|by right]. right. cbn in *.
    inversion St as [m' s0 e0 s' Sg Hc|]; subst; [|done]. split; [done|]. cbn.
    destruct (step_to_call _ _ _ _ Sg) as [->|[z Ez]]; [done|]. rewrite Ez in Hl. by inversion Hl.
  - right. rewrite (exec_start _ _ Hx). done.
Qed.

(** The execution in which [done] goes before a signal, and one may come at a
    chosen moment. *)
Definition receive s : system :=
  match phase s with
  | InRun => with_phase (Over KilledBySignal) s
  | _ => {| phase := phase s; to_call := to_call s; done_chan := done_chan s; sig_chan := true;
            cancelled_ctx := cancelled_ctx s |}
  end.
Definition can_cancel s : bool := match phase s with Selecting => sig_chan s | _ => false end.
Definition happens (arrives : bool) (x : process) : option event :=
  if is_over (phase x.2) then None
  else if arrives then Some SignalArrives
  else if blocked x && negb (can_cancel x.2) then None else Some ProgramStep.
Definition next (arrives : bool) (x : process) : process :=
  match happens arrives x with
  | None | Some HangUp => x
  | Some SignalArrives => (x.1, receive x.2)
  | Some ProgramStep => if blocked x then cancel x.2 else (x.1, advance (H := J) c (host_at x.1) x.2)
  end.
Context (arrival : option nat).
#[local] Notation arrives n := (bool_decide (arrival = Some n)).
Fixpoint scheduled (n : nat) : process :=
  match n with 0 => pstart | S n => next (arrives n) (scheduled n) end.
Definition schedule_of (n : nat) : option event := happens (arrives n) (scheduled n).

Lemma receive_step m s : is_over (phase s) = false → bstep (m, s) SignalArrives (m, receive s).
Proof.
  intros Ho. split.
  - apply pstep_same; unfold receive; destruct (phase s) eqn:Ep; try done;
      [by apply step_default|rewrite <- Ep; apply step_notify; by left|rewrite <- Ep; apply step_notify; by right].
  - intros _ [_ [z Ez]]. apply (f_equal length) in Ez. unfold receive in Ez. cbn in Ez. destruct (phase s); cbn in Ez; lia.
Qed.
Lemma blocked_moment x : blocked x = true → x = (None, x.2).
Proof. destruct x as [[t|] s]; [done|]. done. Qed.
Lemma next_step b x : match happens b x with None => next b x = x | Some e => bstep x e (next b x) end.
Proof.
  unfold next. destruct (happens b x) as [e|] eqn:E; [|done]. revert E. unfold happens.
  destruct (is_over (phase x.2)) eqn:Eo; [done|]. destruct b.
  { intros [= <-]. destruct x. by apply receive_step. }
  destruct (blocked x) eqn:Eb; cbn [andb].
  - destruct (can_cancel x.2) eqn:Ec; [|done]. intros [= <-]. unfold can_cancel in Ec.
    rewrite (blocked_moment x Eb) at 1. destruct (phase x.2) eqn:Ep; try done. by apply cancel_can.
  - intros [= <-]. destruct x. by apply process_can.
Qed.
Lemma scheduled_execution : bexecution scheduled schedule_of.
Proof. split; [done|]. intros n. apply next_step. Qed.
Lemma blocked_waits x : consistent x → blocked x = true → can_cancel x.2 = false → ¬ ∃ y, bstep x ProgramStep y.
Proof.
  intros (C1 & C2 & C3 & C4) Hb Hc [y [St Hn]]. specialize (Hn Hb). pose proof (blocked_moment x Hb) as Ex.
  destruct x as [m s]. injection Ex as ->. cbn in C1, C3, C4, Hc. unfold blocked in Hb. cbn in Hb. unfold can_cancel in Hc.
  destruct (to_call s) as [|z l] eqn:El; [done|].
  inversion St as [m s0 e s' Sg Hx Em Ee E|s0 Hp Hg]; subst; [|rewrite Hp in Hc; congruence].
  inversion Sg as [| | |s1 y l'| | | | |]; subst; cbn in *; try congruence.
  - apply Hn. split; [done|]. cbn. exists y. congruence.
  - discriminate (C4 eq_refl). by eexists.
  - rewrite C1 in Hx by done. congruence.
  - by destruct C3.
Qed.
Lemma scheduled_fair : bfair scheduled schedule_of.
Proof.
  assert (Hq : ∀ n, arrives n = false → schedule_of n = Some ProgramStep ∨ ¬ ∃ y, bstep (scheduled n) ProgramStep y).
  { intros n Hn. unfold schedule_of, happens. rewrite Hn. pose proof (consistent_always _ _ n scheduled_execution) as C.
    destruct (is_over (phase (scheduled n).2)) eqn:Eo.
    { right. intros [y [St _]]. destruct (scheduled n) as [m s]. inversion St as [m0 s0 e s' Sg _|s0 Hp _]; subst.
      - by apply over_stops in Sg.
      - cbn in Eo. by rewrite Hp in Eo. }
    destruct (blocked (scheduled n)) eqn:Eb; [|by left]. destruct (can_cancel (scheduled n).2) eqn:Ec; [by left|].
    right. by apply blocked_waits. }
  intros n. destruct (arrives n) eqn:En; [exists (S n)|exists n]; (split; [lia|]); apply Hq; [|done].
  apply bool_decide_eq_false. apply bool_decide_eq_true in En. rewrite En. intros [= E]. lia.
Qed.
End Blocking.
End Interrupts.

(** ** Properties *)

Section InterruptProperties.
Context {H0 : Host} (interrupt : HostState → HostState) {G : Platform}.
#[local] Notation J := (Interruptible interrupt).
Implicit Types (c : RunnerConfig) (x : process).

Lemma asked_pid_file_calls p data : asked (pid_file_calls p data) = pid_file_calls p data.
Proof. unfold pid_file_calls. by destruct (pid_in data). Qed.
(** Every swtpm that was started is dealt with later in the calls the host saw. *)
Lemma calls_of_clean c m h bin dir s p :
  NoCleanup c = false → HSwtpm bin dir (Ok (s, p)) ∈ calls_of interrupt c m h →
  ∃ data before after, calls_of interrupt c m h = before ++ pid_file_calls p data ++ after ∧ answered p data ∧
    HSwtpm bin dir (Ok (s, p)) ∈ before.
Proof.
  intros Hn Hin. assert (Hin' : HSwtpm bin dir (Ok (s, p)) ∈ calls (run_interrupted interrupt c m h).2).
  { apply list_elem_of_In in Hin. apply List.filter_In in Hin as [Hin _]. by apply list_elem_of_In. }
  destruct (Run_cleans_swtpm (H := J) c (new_world (H := J) (interrupted_at interrupt m h)) Hn eq_refl _ _ _ _ Hin')
    as (data & before & after & E & (hd & Hd) & Hb).
  exists data, (asked before), (asked after). unfold calls_of, run_interrupted. rewrite E, !asked_app, asked_pid_file_calls.
  split; [done|]. split; [exists hd.1; rewrite Hd; by destruct hd as [hh ?]; cbn; unfold ticked; cbn; destruct (host_ReadPidFile p hh)|]. apply list_elem_of_In, List.filter_In. by split; [apply list_elem_of_In|].
Qed.

(** C3: a signal stops a run cleanly.  Once it was taken, at whatever moment and
    whatever the host makes of the cancellation, no QEMU is started any more; when
    none had been started, the run starts none at all and fails.  The process then
    ends by itself, with status 0 whatever became of the run, after every call of
    it; and unless cleanup is off, the PID file of every swtpm that was started
    was dealt with before. *)
Theorem signal_stops_run c h t s :
  preachable interrupt c h (Some t, s) →
  Forall (λ y, is_qemu_start y = false) (to_call s) ∧
  (Forall (λ y, is_qemu_start y = false) (so_far interrupt c h (Some t, s)) →
     Forall (λ y, is_qemu_start y = false) (run_calls (H := J) c (interrupted_at interrupt (Some t) h)) ∧
     is_ok (run_answer (H := J) c (interrupted_at interrupt (Some t) h)) = false) ∧
  (∀ e, phase s = Over e → e = ExitWith 0 ∧ to_call s = [] ∧
     (NoCleanup c = false → ∀ bin dir sock p, HSwtpm bin dir (Ok (sock, p)) ∈ so_far interrupt c h (Some t, s) →
        ∃ data before after, so_far interrupt c h (Some t, s) = before ++ pid_file_calls p data ++ after ∧
          answered p data ∧ HSwtpm bin dir (Ok (sock, p)) ∈ before)).
Proof.
  intros Hr. apply preachable_linked in Hr as L. pose proof (linked_split _ _ _ _ L) as E. cbn [fst snd] in E.
  assert (Hlate : Forall (λ y, is_qemu_start y = false) (to_call s)).
  { destruct (linked_late _ _ _ _ L t eq_refl) as [Hl|Hn]; [|cbn in Hn; by rewrite Hn].
    pose proof (calls_paced interrupt (NewRunner c) t h) as Hp. rewrite calls_of_at, E, drop_app_le in Hp by done.
    by apply Forall_app in Hp as [_ Hp]. }
  split_and!; [done| |].
  - intros Hs. assert (Ha : Forall (λ y, is_qemu_start y = false) (run_calls (H := J) c (interrupted_at interrupt (Some t) h))).
    { rewrite E. by apply Forall_app. }
    split; [done|]. rewrite <- calls_of_at in Ha. apply run_without_qemu in Ha as [_ Ha]. by rewrite answer_at in Ha.
  - intros e He. pose proof (linked_cancelled _ _ _ _ L) as Hc. cbn in Hc.
    pose proof (reachable_good _ _ _ (linked_signals _ _ _ _ L)) as [_ _ Hm]. cbn [fst snd] in Hm.
    rewrite He in Hm. destruct e as [code|]; [|destruct Hm; congruence].
    destruct Hm as (Hn & Hcode & Hh). rewrite launch_code, Hc, (Hh Hc) in Hcode. split; [by rewrite Hcode|].
    split; [done|]. intros Hclean bin dir sock p. rewrite Hn, app_nil_r, <- calls_of_at in E.
    rewrite <- E. by apply calls_of_clean.
Qed.

(** C9: a process whose QEMU hangs ends exactly when a signal comes.  Let any of
    the calls that wait for QEMU be such that they return only once the context is
    cancelled.  In every execution in which the program is not starved, whenever
    signals come and whatever the host makes of the cancellation, the process ends
    if a signal ever comes, and it ends without one just when its run waits for
    nothing that hangs. *)
Theorem interrupted_process_ends c h hangs xs ev :
  bexecution interrupt c h hangs xs ev → bfair interrupt c h hangs xs ev →
  (∃ n e, phase (xs n).2 = Over e) ↔
  signal_comes ev ∨ Forall (λ y, held hangs y = false) (run_calls (H := J) c (interrupted_at interrupt None h)).
Proof.
  intros Hx Hf. split.
  - intros (n & e & He). destruct (signal_dec interrupt c h hangs xs ev n Hx) as [Hs|U]; [left|right].
    + destruct Hs as (k & _ & Hk). by exists k.
    + by apply (unsignalled_over interrupt c h hangs (xs n) e).
  - intros Hs. assert (∃ m, settled (xs m)) as (m & Hm).
    { destruct Hs as [[n Hn]|Hh]; [by eapply signal_settles|by eapply unheld_settles]. }
    destruct (after_cancel_ends interrupt c h hangs xs ev m Hx Hf Hm) as (k & Ho). exists k.
    destruct (phase (xs k).2) as [| | |e]; [done..|]. by exists e.
Qed.
End InterruptProperties.

(** A build on the scripted host, which reports a done context once it is told. *)
Definition told (s : HostScript) : HostScript :=
  {| h_files := h_files s; h_ip := h_ip s; h_exit := h_exit s; h_event := ContextDone |}.
Definition signalled_after (n : nat) : process :=
  (Some n, {| phase := Draining;
              to_call := drop n (run_calls (H := Interruptible (H0 := ScriptedHost) told) (config_for "build" "direct")
                                   (interrupted_at (H0 := ScriptedHost) told (Some n) ready_host));
              done_chan := None; sig_chan := false; cancelled_ctx := true |}).
Lemma signalled_reachable n : (n <? 21) = true →
  preachable (H0 := ScriptedHost) told (config_for "build" "direct") ready_host (signalled_after n).
Proof.
  intros Hn%Nat.ltb_lt. apply signal_any_time; [done|].
  assert (El : length (run_calls (H := Interruptible (H0 := ScriptedHost) told) (config_for "build" "direct")
    (interrupted_at (H0 := ScriptedHost) told None ready_host)) = 21) by (vm_compute; reflexivity).
  lia.
Qed.

(** The signal comes when swtpm runs and QEMU is about to be started. *)
Lemma signal_stops_run_witness :
  Forall (λ y, is_qemu_start y = false) (run_calls (H := Interruptible (H0 := ScriptedHost) told) (config_for "build" "direct")
    (interrupted_at (H0 := ScriptedHost) told (Some 12) ready_host)) ∧
  is_ok (run_answer (H := Interruptible (H0 := ScriptedHost) told) (config_for "build" "direct")
    (interrupted_at (H0 := ScriptedHost) told (Some 12) ready_host)) = false.
Proof.
  destruct (signal_stops_run (H0 := ScriptedHost) told (config_for "build" "direct") ready_host 12 (signalled_after 12).2
    (signalled_reachable 12 eq_refl)) as (_ & Hs & _).
  assert (Hb : forallb (λ y, negb (is_qemu_start y)) (so_far (H0 := ScriptedHost) told (config_for "build" "direct")
    ready_host (Some 12, (signalled_after 12).2)) = true) by (vm_compute; reflexivity).
  apply Hs. eapply Forall_impl; [exact (forallb_Forall _ _ Hb)|]. intros y Hy. by apply negb_true_iff.
Defined.

(** A VM that would run for ever: the command goes on until it is signalled, long
    after it began to wait, and not otherwise. *)
Definition endless (arrival : moment) : nat → process :=
  scheduled (H0 := ScriptedHost) told (config_for "run" "tagged") built_host (λ _, true) arrival.
Lemma interrupted_process_ends_witness :
  (∃ n e, phase (endless (Some 40) n).2 = Over e) ∧ ¬ ∃ n e, phase (endless None n).2 = Over e.
Proof.
  set (c := config_for "run" "tagged").
  pose proof (scheduled_execution (H0 := ScriptedHost) told c built_host (λ _, true)) as X.
  pose proof (scheduled_fair (H0 := ScriptedHost) told c built_host (λ _, true)) as F.
  pose proof (λ a, interrupted_process_ends (H0 := ScriptedHost) told c built_host (λ _, true) _ _ (X a) (F a)) as Ends.
  split.
  - apply Ends. left. exists 40. left. vm_compute. reflexivity.
  - intros Ho. apply Ends in Ho as [(n & Hn)|Hh].
    + unfold schedule_of, happens in Hn. rewrite bool_decide_eq_false_2 in Hn by done.
      destruct Hn as [Hn|Hn]; repeat case_match; congruence.
    + assert (Hb : forallb (λ y, negb (held (λ _, true) y)) (run_calls (H := Interruptible (H0 := ScriptedHost) told) c
        (interrupted_at (H0 := ScriptedHost) told None built_host)) = false) by (vm_compute; reflexivity).
      apply not_true_iff_false in Hb. apply Hb, forallb_forall. intros y Hy. rewrite Forall_forall in Hh.
      rewrite Hh; [done|by apply list_elem_of_In].
Defined.
