(* ===== verification/Orchestrator.v ===== *)
(** * Orchestrator: a tmux session with one window per VM

    orchestrator/main.go.  tmux and the foreground command are parameters over
    an unknown state; the runfiles library is the one of VmCmd.  Messages on
    standard output and error are not modelled; [os.Exit] is the error of the
    monad. *)

From S2P Require Import Prelude GoStrings GoFlag VmLib HostWorld RunnerConfig ScriptedHost VmCmd.

Class Tmux := {
  TmuxState : Type;
  (** [exec.Command("tmux", args...)]: the output, or the failure. *)
  tmux_exec : list string → TmuxState → result error string * TmuxState;
  (** The command of [--run], with its environment, in the foreground. *)
  foreground : list string → list string → TmuxState → wait_status * TmuxState;
  settle : TmuxState → TmuxState;
}.

Record Job := { ID : string; Command : string }.
#[export] Instance Job_eq_dec : EqDecision Job.
Proof. solve_decision. Defined.

Record OrchArgs := {
  vmPrimary : string;
  vmDependencies : string;
  sessionName : string;
  attach_flag : bool;
  run_flag : string;
}.

(** The last element of [strings.Split(s, "/")]. *)
Definition base_name (s : string) : string := List.last (Split s "/") "".

Section Jobs.
Context {F : Runfiles}.

(** The loop over the dependencies, then the primary. *)
Fixpoint resolve_jobs (paths : list string) : result error (list Job) :=
  match paths with
  | [] => Ok []
  | p :: paths' =>
      bin <- Rlocation p;;
      jobs <- resolve_jobs paths';;
      Ok ({| ID := base_name p; Command := bin |} :: jobs)
  end.
Definition dependency_paths (deps : string) : list string :=
  if String.eqb deps "" then []
  else List.filter (λ d, negb (String.eqb d "")) (map TrimSpace (Split deps ",")).
Definition job_paths (a : OrchArgs) : list string :=
  dependency_paths (vmDependencies a) ++ [vmPrimary a].
(** [allJobs]: the last path with a window name wins. *)
Definition allJobs (a : OrchArgs) : gmap string string :=
  foldl (λ m p, <[base_name p := p]> m) ∅ (job_paths a).

(** The window the [--run] command would have had. *)
Definition run_window (run : string) (jobs : list Job) : string :=
  if Contains run "/" && existsb (λ j, String.eqb (ID j) (base_name run)) jobs
  then base_name run else run.
Definition filter_jobs (run : string) (jobs : list Job) : list Job :=
  if String.eqb run "" then jobs
  else
    let filtered := List.filter (λ j, negb (String.eqb (ID j) (run_window run jobs))) jobs in
    if (length filtered <? length jobs)%nat then filtered else jobs.
End Jobs.

Definition contains (l : list string) (item : string) : bool := existsb (String.eqb item) l.

Section Session.
Context {F : Runfiles} {T : Tmux}.

Inductive ocall :=
| OTmux (argv : list string)
| OForeground (argv env : list string)
| OSleep.

Record OrchWorld := { tmux : TmuxState; ocalls : list ocall; oenviron : list string;
                      workspace : string }.
#[local] Notation OrchM := (M OrchWorld Z).

Definition act {R} (c : ocall) (f : TmuxState → R * TmuxState) : OrchM R := λ w,
  let '(r, t) := f (tmux w) in
  (Ok r, {| tmux := t; ocalls := ocalls w ++ [c]; oenviron := oenviron w;
            workspace := workspace w |}).
Definition tmux_run (argv : list string) : OrchM (result error string) :=
  act (OTmux argv) (tmux_exec argv).
Definition exit {A} (code : Z) : OrchM A := throw code.

Definition session_exists (s : string) : OrchM bool :=
  r ← tmux_run ["has-session"; "-t"; s]; mret (is_ok r).

Definition listWindows (s : string) : OrchM (list string) :=
  r ← tmux_run ["list-windows"; "-t"; s; "-F"; "#{window_name}"];
  match r with
  | Err _ => mret []
  | Ok out => mret (List.filter (λ l, negb (String.eqb l "")) (Split (TrimSpace out) newline))
  end.
Definition hasWindow (s window : string) : OrchM bool :=
  ws ← listWindows s; mret (existsb (λ w, String.eqb w window) ws).

Definition env_flags (env : list string) (ws : string) : list string :=
  flat_map (λ e, ["-e"; e]) env
  ++ (if String.eqb ws "" then [] else ["-e"; "BUILD_WORKSPACE_DIRECTORY=" +:+ ws]).

(** The common body of [create] and [createWindow]. *)
Definition spawn (head : list string) (s window command : string) : OrchM (result error ()) :=
  match runfiles_Env with
  | Err e => mret (Err ("failed to get runfiles env: " +:+ e))
  | Ok env =>
      ws ← gets workspace;
      r ← tmux_run (head ++ env_flags env ws ++ [command]);
      match r with
      | Err e => mret (Err e)
      | Ok _ =>
          act OSleep (λ t, (tt, settle t));;
          there ← hasWindow s window;
          mret (if (there : bool) then Ok tt
                else Err ("window " +:+ window +:+ " exited immediately after creation"))
      end
  end.
Definition create (s window command : string) : OrchM (result error ()) :=
  spawn ["new-session"; "-d"; "-s"; s; "-n"; window] s window command.
Definition createWindow (s window command : string) : OrchM (result error ()) :=
  spawn ["new-window"; "-t"; s; "-n"; window] s window command.

Definition killWindow (s window : string) : OrchM () :=
  tmux_run ["kill-window"; "-t"; s +:+ ":" +:+ window];; mret tt.
Definition attach (s : string) : OrchM (result error string) := tmux_run ["attach-session"; "-t"; s].

Definition runForeground (command : list string) : OrchM Z :=
  match command with
  | [] => mret 1%Z
  | _ =>
      env ← gets oenviron;
      let full := env ++ match runfiles_Env with Ok e => e | Err _ => [] end in
      s ← act (OForeground command full) (foreground command full);
      mret match s with
           | Exited code _ => code
           | WaitFailed _ => 127%Z
           end
  end.

(** Creating what is missing. *)
Definition ensure_windows (s : string) (jobs : list Job) : OrchM () :=
  has ← session_exists s;
  if (has : bool) then
    existing ← listWindows s;
    for_each (λ j, if contains existing (ID j) then mret tt
                   else createWindow s (ID j) (Command j);; mret tt) jobs
  else match jobs with
       | [] => mret tt
       | first :: rest =>
           r ← create s (ID first) (Command first);
           match r with
           | Err _ => exit 1
           | Ok _ => for_each (λ j, createWindow s (ID j) (Command j);; mret tt) rest
           end
       end.

(** The command of [--run]: a window name stands for its path; a path that is not
    absolute is looked up in the runfiles. *)
Definition resolve_run (a : OrchArgs) : result error string :=
  let cmd := if Contains (run_flag a) "/" then run_flag a
             else default (run_flag a) (allJobs a !! run_flag a) in
  if HasPrefix cmd "/" then Ok cmd else Rlocation cmd.

Definition run_in_foreground (a : OrchArgs) (jobs : list Job) : OrchM () :=
  match resolve_run a with
  | Err _ => exit 1
  | Ok cmd =>
      code ← runForeground (Fields cmd);
      for_each (λ j, killWindow (sessionName a) (ID j)) jobs;;
      exit code
  end.

Definition attach_session (a : OrchArgs) : OrchM () :=
  tmux_run ["select-window"; "-t"; sessionName a +:+ ":" +:+ base_name (vmPrimary a)];;
  r ← attach (sessionName a);
  match r with Ok _ => mret tt | Err _ => exit 1 end.

(** [main] once its flags are known. *)
Definition orchestrate (a : OrchArgs) : OrchM () :=
  match runfiles_New with
  | Err _ => exit 1
  | Ok _ =>
      match resolve_jobs (job_paths a) with
      | Err _ => exit 1
      | Ok all =>
          let jobs := filter_jobs (run_flag a) all in
          ensure_windows (sessionName a) jobs;;
          if negb (String.eqb (run_flag a) "") then run_in_foreground a jobs
          else if attach_flag a then attach_session a
          else mret tt
      end
  end.

Definition orch_flags : flags :=
  list_to_map [("session", VString "molnett"); ("attach", VBool true); ("run", VString "")].
Definition orch_args (primary deps : string) (m : flags) : OrchArgs :=
  {| vmPrimary := primary; vmDependencies := deps; sessionName := get_string m "session";
     attach_flag := get_bool m "attach"; run_flag := get_string m "run" |}.
Definition orch_main (primary deps : string) (args : list string) : OrchM () :=
  if String.eqb primary "" then exit 1
  else match Parse orch_flags args with
       | ExitStatus code => exit code
       | Parsed m _ => orchestrate (orch_args primary deps m)
       end.
End Session.

Notation OrchM := (M OrchWorld Z).

(** ** Lemmas: names and paths *)

Lemma base_name_no_slash s : lacks "/" (base_name s) = true.
Proof.
  unfold base_name. pose proof (Split_lacks s "/") as Hl.
  rewrite (app_removelast_last "" (Split_not_nil s "/")) in Hl.
  apply Forall_app in Hl as [_ Hl]. by inversion Hl.
Qed.
Lemma base_name_id s : lacks "/" s = true → base_name s = s.
Proof. intros Hs. unfold base_name. by rewrite Split_lacks_id. Qed.

Lemma lacks_Contains c s : lacks c s = true ↔ Contains s (String c "") = false.
Proof.
  rewrite <- not_true_iff_false, Contains_spec. unfold lacks. split.
  - intros Hl (l & r & ->). rewrite !all_chars_append, !andb_true_iff in Hl.
    destruct Hl as (_ & Hl & _). cbn in Hl. by rewrite Ascii.eqb_refl in Hl.
  - intros Hn. induction s as [|a s IH]; [done|]. cbn. apply andb_true_iff. split.
    + destruct (Ascii.eqb_spec a c) as [->|]; [|done]. destruct Hn. by exists "", s.
    + apply IH. intros (l & r & ->). apply Hn. by exists (String a l), r.
Qed.

Section JobLemmas.
Context {F : Runfiles}.

Lemma resolve_jobs_ids paths jobs :
  resolve_jobs paths = Ok jobs → map ID jobs = map base_name paths.
Proof.
  revert jobs. induction paths as [|p paths IH]; intros jobs; cbn; [by intros [= <-]|].
  destruct (Rlocation p) as [bin|]; [|done]. cbn.
  destruct (resolve_jobs paths) as [js|]; [|done]. intros [= <-]. cbn. f_equal. by apply IH.
Qed.

Lemma foldl_insert_other paths (m : gmap string string) n :
  n ∉ map base_name paths → foldl (λ m p, <[base_name p := p]> m) m paths !! n = m !! n.
Proof.
  revert m. induction paths as [|p paths IH]; intros m Hn; [done|]. cbn in *.
  rewrite IH by set_solver. apply lookup_insert_ne. set_solver.
Qed.
Lemma foldl_insert_path paths (m : gmap string string) p :
  NoDup (map base_name paths) → p ∈ paths →
  foldl (λ m p, <[base_name p := p]> m) m paths !! base_name p = Some p.
Proof.
  revert m. induction paths as [|q paths IH]; intros m; [by intros _ ?%elem_of_nil|].
  cbn. intros [Hq Hnd]%NoDup_cons [->|Hp]%elem_of_cons; [|by apply IH].
  rewrite foldl_insert_other by done. apply lookup_insert_eq.
Qed.

Lemma filter_shorter {A} (p : A → bool) l :
  (if (length (List.filter p l) <? length l)%nat then List.filter p l else l) = List.filter p l.
Proof.
  destruct (Nat.ltb_spec (length (List.filter p l)) (length l)) as [|Hl]; [done|].
  induction l as [|x l IH]; [done|]. cbn in *. destruct (p x); cbn in *; [f_equal; apply IH; lia|].
  assert (length (List.filter p l) ≤ length l); [|lia].
  clear. induction l as [|x l IH]; [done|]. cbn. destruct (p x); cbn; lia.
Qed.

Lemma run_window_of_job p run jobs :
  base_name p ∈ map ID jobs → run = p ∨ run = base_name p → run_window run jobs = base_name p.
Proof.
  intros Hin Hr. unfold run_window. destruct (Contains run "/") eqn:Ec.
  - destruct Hr as [->| ->].
    + assert (existsb (λ j, String.eqb (ID j) (base_name p)) jobs = true) as ->; [|done].
      apply existsb_exists. apply list_elem_of_In, in_map_iff in Hin as (j & E & Hj). exists j.
      by rewrite E, String.eqb_refl.
    + pose proof (base_name_no_slash p) as Hl. apply lacks_Contains in Hl. congruence.
  - cbn [andb]. apply lacks_Contains in Ec. destruct Hr as [->| ->]; [by rewrite base_name_id|done].
Qed.
End JobLemmas.

(** ** Lemmas: a tmux that works *)

Definition good_name (n : string) : Prop := n ≠ "" ∧ all_chars visible n = true.
Definition nl_s : string := String newline EmptyString.

Lemma starts_visible_append a b : starts_visible a = true → starts_visible (a +:+ b) = true.
Proof. by destruct a. Qed.

Lemma Join_starts ws : ws ≠ [] → Forall good_name ws → starts_visible (Join ws nl_s) = true.
Proof.
  intros Hn Hg. destruct ws as [|x ws]; [done|]. inversion Hg as [|? ? [Hx Hv] _]; subst.
  apply all_visible_starts in Hv; [|done]. cbn. destruct ws; [done|]. by apply starts_visible_append.
Qed.
Lemma Join_ends ws : ws ≠ [] → Forall good_name ws → starts_visible (rev_string (Join ws nl_s)) = true.
Proof.
  intros Hn Hg. induction Hg as [|x ws [Hx Hv] Hg IH]; [done|]. destruct ws as [|y ws].
  - change (Join [x] nl_s) with x. apply all_visible_starts; [|by rewrite all_chars_rev].
    intros E. apply Hx. by rewrite <- (rev_string_involutive x), E.
  - change (Join (x :: y :: ws) nl_s) with (x +:+ nl_s +:+ Join (y :: ws) nl_s).
    rewrite !rev_string_append, append_assoc. apply starts_visible_append. by apply IH.
Qed.

Lemma listing ws :
  ws ≠ [] → Forall good_name ws →
  List.filter (λ l, negb (String.eqb l "")) (Split (TrimSpace (Join ws nl_s +:+ nl_s)) newline) = ws.
Proof.
  intros Hn Hg.
  replace (TrimSpace (Join ws nl_s +:+ nl_s)) with (Join ws nl_s).
  - unfold nl_s. rewrite Split_Join; [|done|].
    + clear Hn. induction Hg as [|x ws [Hx _] Hg IH]; [done|]. cbn.
      destruct (String.eqb_spec x ""); [done|]. cbn. by rewrite IH.
    + eapply Forall_impl; [exact Hg|]. intros x [_ Hv]. eapply all_chars_impl; [|exact Hv].
      intros a Ha. destruct (Ascii.eqb_spec a newline) as [->|]; [done|done].
  - symmetry. apply (TrimSpace_blanks "" (Join ws nl_s) nl_s); [done|done| |].
    + by apply Join_starts.
    + by apply Join_ends.
Qed.

Section Ensure.
Context {F : Runfiles} {T : Tmux}.
Implicit Types (w : OrchWorld) (t : TmuxState).

(** What is relied on of tmux for session [s]: [windows] is the list of its
    window names, [None] when there is no such session (and none whose name only
    begins with [s], which [-t] would take for it).  It is asked about in the four
    ways the orchestrator asks, with names that are words, environments given by
    [-e] and one command; and the commands in the windows outlast the moment the
    orchestrator waits to see whether they do. *)
Record tmux_laws (s : string) (windows : TmuxState → option (list string)) : Prop := {
  law_not_empty : ∀ t, windows t ≠ Some [];
  law_has : ∀ t, is_ok (tmux_exec ["has-session"; "-t"; s] t).1 = bool_decide (windows t ≠ None)
                 ∧ windows (tmux_exec ["has-session"; "-t"; s] t).2 = windows t;
  law_list : ∀ t ws, windows t = Some ws → Forall good_name ws →
    (tmux_exec ["list-windows"; "-t"; s; "-F"; "#{window_name}"] t).1 = Ok (Join ws nl_s +:+ nl_s)
    ∧ windows (tmux_exec ["list-windows"; "-t"; s; "-F"; "#{window_name}"] t).2 = Some ws;
  law_new_session : ∀ t n env dir command, windows t = None → good_name n →
    let argv := ["new-session"; "-d"; "-s"; s; "-n"; n] ++ env_flags env dir ++ [command] in
    is_ok (tmux_exec argv t).1 = true ∧ windows (tmux_exec argv t).2 = Some [n];
  law_new_window : ∀ t ws n env dir command, windows t = Some ws → good_name n →
    let argv := ["new-window"; "-t"; s; "-n"; n] ++ env_flags env dir ++ [command] in
    is_ok (tmux_exec argv t).1 = true ∧ windows (tmux_exec argv t).2 = Some (ws ++ [n]);
  law_settle : ∀ t, windows (settle t) = windows t;
}.

Variables (s : string) (windows : TmuxState → option (list string)) (env : list string).
Hypotheses (laws : tmux_laws s windows) (Henv : runfiles_Env = Ok env).

Lemma act_run {R} c (f : TmuxState → R * TmuxState) w :
  ∃ w', act c f w = (Ok (f (tmux w)).1, w') ∧ tmux w' = (f (tmux w)).2 ∧ workspace w' = workspace w.
Proof. unfold act. destruct (f (tmux w)) as [r t]. by eexists. Qed.

Lemma bind_next {A B} (m : OrchM A) (k : A → OrchM B) w a w' :
  m w = (Ok a, w') → (m ≫= k) w = k a w'.
Proof. intros E. by rewrite bind_run, E. Qed.

Lemma listWindows_run w ws :
  windows (tmux w) = Some ws → Forall good_name ws →
  ∃ w', listWindows s w = (Ok ws, w') ∧ windows (tmux w') = Some ws.
Proof.
  intros Hw Hg. unfold listWindows, tmux_run.
  destruct (act_run (OTmux ["list-windows"; "-t"; s; "-F"; "#{window_name}"])
    (tmux_exec ["list-windows"; "-t"; s; "-F"; "#{window_name}"]) w) as (w1 & E & Ht & _).
  rewrite (bind_next _ _ _ _ _ E). destruct (law_list _ _ laws _ _ Hw Hg) as [-> Hl].
  exists w1. split; [|by rewrite Ht]. unfold mret, M_ret. rewrite listing; [done| |done].
  intros ->. by apply (law_not_empty _ _ laws (tmux w)).
Qed.

Lemma spawn_run head name cmd w ws :
  Forall good_name ws → name ∈ ws →
  (∀ env dir, let argv := head ++ env_flags env dir ++ [cmd] in
     is_ok (tmux_exec argv (tmux w)).1 = true ∧ windows (tmux_exec argv (tmux w)).2 = Some ws) →
  ∃ w', spawn head s name cmd w = (Ok (Ok tt), w') ∧ windows (tmux w') = Some ws.
Proof.
  intros Hg Hin Hx. unfold spawn. rewrite Henv, bind_run. unfold gets. cbv beta iota zeta.
  set (args := env_flags env (workspace w) ++ [cmd]). unfold tmux_run.
  destruct (act_run (OTmux (head ++ args)) (tmux_exec (head ++ args)) w) as (w1 & E1 & H1 & _).
  rewrite (bind_next _ _ _ _ _ E1). destruct (Hx env (workspace w)) as [Hok Hws].
  fold args in Hok, Hws.
  destruct (tmux_exec (head ++ args) (tmux w)).1; [|done].
  destruct (act_run OSleep (λ t, (tt, settle t)) w1) as (w2 & E2 & H2 & _).
  rewrite (bind_next _ _ _ _ _ E2).
  assert (Hw2 : windows (tmux w2) = Some ws).
  { rewrite H2. cbn. by rewrite (law_settle _ _ laws), H1. }
  destruct (listWindows_run w2 ws Hw2 Hg) as (w3 & E3 & H3). exists w3. split; [|done].
  unfold hasWindow. rewrite bind_run, (bind_next _ _ _ _ _ E3). cbn [mret M_ret].
  assert (existsb (λ x, String.eqb x name) ws = true) as ->; [|done].
  apply existsb_exists. exists name. split; [by apply list_elem_of_In|apply String.eqb_refl].
Qed.

Lemma createWindow_run name cmd w ws :
  windows (tmux w) = Some ws → Forall good_name ws → good_name name →
  ∃ w', createWindow s name cmd w = (Ok (Ok tt), w') ∧ windows (tmux w') = Some (ws ++ [name]).
Proof.
  intros Hw Hg Hn. apply spawn_run; [apply Forall_app; split; [done|by apply Forall_singleton]|set_solver|].
  intros e dir. by apply (law_new_window _ _ laws).
Qed.
Lemma create_run name cmd w :
  windows (tmux w) = None → good_name name →
  ∃ w', create s name cmd w = (Ok (Ok tt), w') ∧ windows (tmux w') = Some [name].
Proof.
  intros Hw Hn. apply spawn_run; [by apply Forall_singleton|set_solver|].
  intros e dir. by apply (law_new_session _ _ laws).
Qed.

(** The loop over the jobs that skips the windows in [existing]. *)
Lemma create_missing existing jobs w ws :
  windows (tmux w) = Some ws → Forall good_name ws → Forall good_name (map ID jobs) →
  ∃ w', for_each (λ j, if contains existing (ID j) then mret tt
                       else createWindow s (ID j) (Command j);; mret tt) jobs w = (Ok tt, w')
    ∧ windows (tmux w')
      = Some (ws ++ List.filter (λ n, negb (contains existing n)) (map ID jobs)).
Proof.
  revert w ws. induction jobs as [|j jobs IH]; intros w ws Hw Hg Hj; cbn [for_each map List.filter].
  - exists w. by rewrite app_nil_r.
  - cbn in Hj. apply Forall_cons in Hj as [Hj1 Hj]. destruct (contains existing (ID j)); cbn [negb].
    + rewrite bind_run. cbn [mret M_ret]. by apply IH.
    + destruct (createWindow_run (ID j) (Command j) w ws) as (w1 & E & H1); [done..|].
      rewrite bind_run, (bind_next _ _ _ _ _ E). cbn [mret M_ret].
      destruct (IH w1 (ws ++ [ID j])) as (w2 & E2 & H2); [done| |done|].
      { apply Forall_app. split; [done|by apply Forall_singleton]. }
      exists w2. split; [done|]. by rewrite H2, <- app_assoc.
Qed.

(** The kill of every job's window. *)
Definition kill_call (session : string) (j : Job) : ocall :=
  OTmux ["kill-window"; "-t"; session +:+ ":" +:+ ID j].
Lemma kill_all_run session jobs w :
  ∃ w', for_each (λ j, killWindow session (ID j)) jobs w = (Ok tt, w')
    ∧ ocalls w' = ocalls w ++ map (kill_call session) jobs.
Proof.
  revert w. induction jobs as [|j jobs IH]; intros w; cbn [for_each map].
  - exists w. by rewrite app_nil_r.
  - assert (∃ w1, killWindow session (ID j) w = (Ok tt, w1) ∧ ocalls w1 = ocalls w ++ [kill_call session j])
      as (w1 & E & Hc).
    { unfold killWindow, tmux_run, act, kill_call. rewrite bind_run.
      destruct (tmux_exec _ (tmux w)) as [r t]. by eexists. }
    destruct (IH w1) as (w2 & E2 & H2). exists w2. rewrite (bind_next _ _ _ _ _ E).
    split; [done|]. by rewrite H2, Hc, <- app_assoc.
Qed.
End Ensure.

Section OrchLemmas.
Context {F : Runfiles} {T : Tmux}.
Implicit Types (w : OrchWorld).

Lemma run_replaces_jobs a all p :
  resolve_jobs (job_paths a) = Ok all → p ∈ job_paths a → run_flag a ≠ "" →
  run_flag a = p ∨ run_flag a = base_name p →
  filter_jobs (run_flag a) all = List.filter (λ j, negb (String.eqb (ID j) (base_name p))) all ∧
  (NoDup (map base_name (job_paths a)) → HasPrefix p "/" = false →
     resolve_run a = Rlocation p ∧
     ∀ j, j ∈ all → ID j = base_name p → Rlocation p = Ok (Command j)).
Proof.
  intros Hr Hp Hne Hrun. pose proof (resolve_jobs_ids _ _ Hr) as Hids.
  assert (Hin : base_name p ∈ map ID all) by (rewrite Hids; by apply list_elem_of_fmap_2).
  split.
  - unfold filter_jobs. destruct (String.eqb_spec (run_flag a) ""); [done|].
    cbv zeta. rewrite filter_shorter. by rewrite (run_window_of_job p).
  - intros Hnd Hslash. split.
    + unfold resolve_run. destruct (Contains (run_flag a) "/") eqn:Ec; cbv beta iota zeta.
      * destruct Hrun as [E|Hb]; [by rewrite E, Hslash|].
        pose proof (base_name_no_slash p) as Hl. rewrite <- Hb in Hl. apply lacks_Contains in Hl. congruence.
      * assert (Hb : run_flag a = base_name p).
        { destruct Hrun as [E|E]; [|done]. rewrite E in *. symmetry. by apply base_name_id, lacks_Contains. }
        rewrite Hb. unfold allJobs. rewrite foldl_insert_path by done.
        change (default (base_name p) (Some p)) with p. by rewrite Hslash.
    + intros j Hj Hjp. clear Hin Hids Hne Hrun. revert all Hr Hj Hp Hnd.
      generalize (job_paths a) as paths. induction paths as [|q paths IH]; intros all Hr Hj Hp Hnd.
      * by apply elem_of_nil in Hp.
      * cbn in Hr, Hnd. apply NoDup_cons in Hnd as [Hq Hnd].
        destruct (Rlocation q) as [bin|] eqn:Eq; [|done]. cbn in Hr.
        destruct (resolve_jobs paths) as [js|] eqn:Ej; [|done]. injection Hr as <-.
        apply elem_of_cons in Hj as [->|Hj].
        -- cbn in Hjp |- *. apply elem_of_cons in Hp as [->|Hp]; [done|].
           destruct Hq. rewrite Hjp. by apply list_elem_of_fmap_2.
        -- apply elem_of_cons in Hp as [->|Hp]; [|by eapply IH].
           destruct Hq. rewrite <- Hjp, <- (resolve_jobs_ids _ _ Ej). by apply list_elem_of_fmap_2.
Qed.

Lemma ensure_windows_run s windows env jobs w :
  tmux_laws s windows → runfiles_Env = Ok env →
  Forall good_name (map ID jobs) → Forall good_name (default [] (windows (tmux w))) →
  let out := ensure_windows s jobs w in
  out.1 = Ok tt ∧
  windows (tmux out.2)
  = match windows (tmux w) with
    | Some ws => Some (ws ++ List.filter (λ n, negb (contains ws n)) (map ID jobs))
    | None => match jobs with [] => None | _ => Some (map ID jobs) end
    end.
Proof.
  intros laws Henv Hj Hg. cbv zeta. unfold ensure_windows, session_exists, tmux_run.
  destruct (act_run (OTmux ["has-session"; "-t"; s]) (tmux_exec ["has-session"; "-t"; s]) w)
    as (w1 & E1 & H1 & _).
  rewrite bind_run, (bind_next _ _ _ _ _ E1). cbn [mret M_ret].
  destruct (law_has _ _ laws (tmux w)) as [-> Hsame]. rewrite <- H1 in Hsame.
  destruct (windows (tmux w)) as [ws|] eqn:Hw.
  - rewrite bool_decide_true by done. cbn [default] in Hg.
    destruct (listWindows_run s windows laws w1 ws Hsame Hg) as (w2 & E2 & H2).
    rewrite (bind_next _ _ _ _ _ E2).
    destruct (create_missing s windows env laws Henv ws jobs w2 ws H2 Hg Hj) as (w3 & E3 & H3).
    by rewrite E3.
  - rewrite bool_decide_false by (by intros []). destruct jobs as [|j jobs]; [by rewrite <- Hsame|].
    cbn in Hj. inversion Hj as [|? ? Hn Hj']; subst.
    destruct (create_run s windows env laws Henv (ID j) (Command j) w1 Hsame Hn) as (w2 & E2 & H2).
    rewrite (bind_next _ _ _ _ _ E2).
    destruct (create_missing s windows env laws Henv [] jobs w2 [ID j] H2) as (w3 & E3 & H3);
      [by apply Forall_singleton|done|].
    assert (Hall : ∀ l : list string, List.filter (λ _, true) l = l).
    { intros l. induction l as [|x l IH]; [done|]. cbn. by rewrite IH. }
    cbn [contains existsb] in E3, H3. rewrite E3. cbn [fst snd]. rewrite H3. split; [done|].
    cbn [map app]. do 2 f_equal. exact (Hall _).
Qed.

Lemma run_in_foreground_run a jobs w :
  let out := run_in_foreground a jobs w in
  let kills := map (kill_call (sessionName a)) jobs in
  match resolve_run a with
  | Err _ => out = (Err 1%Z, w)
  | Ok cmd =>
      match Fields cmd with
      | [] => out.1 = Err 1%Z ∧ ocalls out.2 = ocalls w ++ kills
      | argv =>
          let env := oenviron w ++ match runfiles_Env with Ok e => e | Err _ => [] end in
          out.1 = Err match (foreground argv env (tmux w)).1 with
                      | Exited code _ => code
                      | WaitFailed _ => 127
                      end%Z
          ∧ ocalls out.2 = ocalls w ++ OForeground argv env :: kills
      end
  end.
Proof.
  cbv zeta. unfold run_in_foreground. destruct (resolve_run a) as [cmd|]; [|done].
  rewrite bind_run. destruct (Fields cmd) as [|x argv].
  - cbn [runForeground mret M_ret].
    destruct (kill_all_run (sessionName a) jobs w) as (w1 & E & Hc).
    by rewrite (bind_next _ _ _ _ _ E).
  - unfold runForeground. rewrite bind_run. unfold gets. cbv beta iota zeta. rewrite bind_run.
    unfold act. destruct (foreground _ _ (tmux w)) as [st t]. cbn [fst].
    cbn [mret M_ret]. match goal with |- context [(for_each _ _ ≫= _) ?w1] =>
      destruct (kill_all_run (sessionName a) jobs w1) as (w2 & E & Hc) end.
    rewrite (bind_next _ _ _ _ _ E). split; [done|]. cbn [snd exit throw]. rewrite Hc. cbn [ocalls].
    by rewrite <- app_assoc.
Qed.

(** Calls are only added, and the environment stays. *)
Definition keeps_env w w' : Prop := oenviron w' = oenviron w ∧ ∃ l, ocalls w' = ocalls w ++ l.
#[export] Instance keeps_env_preorder : PreOrder keeps_env.
Proof.
  split.
  - intros w. split; [done|]. exists []. by rewrite app_nil_r.
  - intros w1 w2 w3 [E1 [l1 C1]] [E2 [l2 C2]]. split; [congruence|]. exists (l1 ++ l2).
    by rewrite C2, C1, app_assoc.
Qed.
Lemma act_env {R} c (f : TmuxState → R * TmuxState) : preserves keeps_env (act c f : OrchM R).
Proof. intros w. unfold act. destruct (f (tmux w)) as [r t]. split; [done|by eexists]. Qed.
Lemma listWindows_env s : preserves keeps_env (listWindows s).
Proof.
  apply (preserves_bind _); [apply act_env|]. intros []; apply (preserves_ret _).
Qed.
Lemma spawn_env head s name cmd : preserves keeps_env (spawn head s name cmd).
Proof.
  unfold spawn. destruct runfiles_Env; [|apply (preserves_ret _)].
  apply (preserves_bind _); [apply (preserves_gets _)|]. intros ws.
  apply (preserves_bind _); [apply act_env|]. intros []; [|apply (preserves_ret _)].
  apply (preserves_bind _); [apply act_env|]. intros _. unfold hasWindow.
  apply (preserves_bind _); [apply (preserves_bind _); [apply listWindows_env|intros ?; apply (preserves_ret _)]|].
  intros ?. apply (preserves_ret _).
Qed.
Lemma ensure_windows_env s jobs : preserves keeps_env (ensure_windows s jobs).
Proof.
  assert (Hc : ∀ j, preserves keeps_env (createWindow s (ID j) (Command j);; mret tt)).
  { intros j. apply (preserves_bind _); [apply spawn_env|]. intros ?. apply (preserves_ret _). }
  unfold ensure_windows, session_exists. apply (preserves_bind _).
  { apply (preserves_bind _); [apply act_env|]. intros ?. apply (preserves_ret _). }
  intros []; [|destruct jobs as [|first rest]; [apply (preserves_ret _)|]].
  - apply (preserves_bind _); [apply listWindows_env|]. intros ex. apply (preserves_for_each _). intros j.
    destruct (contains ex (ID j)); [apply (preserves_ret _)|apply Hc].
  - apply (preserves_bind _); [apply spawn_env|].
    intros []; [by apply (preserves_for_each _)|apply (preserves_throw _)].
Qed.
End OrchLemmas.

(** ** Properties *)

Section OrchProperties.
Context {F : Runfiles} {T : Tmux}.
Implicit Types (w : OrchWorld).

(** The VM of [--run] gets no window.  Whether the flag gives the path of one
    of the VMs or the name of its window, exactly the jobs with that window name
    are left out, the others kept in order; and the command that will run in
    the foreground is the one the window would have run, when window names are
    distinct and the path is relative to the runfiles. *)
Theorem run_replaces_window a all p :
  resolve_jobs (job_paths a) = Ok all → p ∈ job_paths a → run_flag a ≠ "" →
  run_flag a = p ∨ run_flag a = base_name p →
  filter_jobs (run_flag a) all = List.filter (λ j, negb (String.eqb (ID j) (base_name p))) all ∧
  (NoDup (map base_name (job_paths a)) → HasPrefix p "/" = false →
     resolve_run a = Rlocation p ∧
     ∀ j, j ∈ all → ID j = base_name p → Rlocation p = Ok (Command j)).
Proof. apply run_replaces_jobs. Qed.

(** C24: every job has its window.  With a tmux that works and window names that
    tmux can list back, ensuring the windows of some jobs keeps every window the
    session had, in place, and adds one for each job whose name is not there
    yet, in order; without a session it makes one with exactly the jobs' windows. *)
Theorem ensure_windows_correct s windows env jobs w :
  tmux_laws s windows → runfiles_Env = Ok env →
  Forall good_name (map ID jobs) → Forall good_name (default [] (windows (tmux w))) →
  let out := ensure_windows s jobs w in
  out.1 = Ok tt ∧
  windows (tmux out.2)
  = match windows (tmux w) with
    | Some ws => Some (ws ++ List.filter (λ n, negb (contains ws n)) (map ID jobs))
    | None => match jobs with [] => None | _ => Some (map ID jobs) end
    end.
Proof. apply ensure_windows_run. Qed.

(** C36: after the foreground command.  Once the command is known, [--run] always
    ends the program with that command's own exit status (127 when it could not
    be started, 1 when there is nothing to start), and before that it kills the
    window of every job, each once and in order, whether this run created it or
    found it; a command that cannot be resolved ends it with 1 at once. *)
Theorem run_in_foreground_correct a jobs w :
  let out := run_in_foreground a jobs w in
  let kills := map (kill_call (sessionName a)) jobs in
  match resolve_run a with
  | Err _ => out = (Err 1%Z, w)
  | Ok cmd =>
      match Fields cmd with
      | [] => out.1 = Err 1%Z ∧ ocalls out.2 = ocalls w ++ kills
      | argv =>
          let env := oenviron w ++ match runfiles_Env with Ok e => e | Err _ => [] end in
          out.1 = Err match (foreground argv env (tmux w)).1 with
                      | Exited code _ => code
                      | WaitFailed _ => 127
                      end%Z
          ∧ ocalls out.2 = ocalls w ++ OForeground argv env :: kills
      end
  end.
Proof. apply run_in_foreground_run. Qed.
End OrchProperties.

(** A tmux server with at most one session, whose windows never close: the first
    window and the others. *)
Definition server_windows (t : option (string * list string)) : option (list string) :=
  option_map (λ p, p.1 :: p.2) t.
Definition server_exec (argv : list string) (t : option (string * list string)) :
    result error string * option (string * list string) :=
  let verb := nth 0 argv "" in
  match t with
  | None =>
      if String.eqb verb "new-session" then (Ok "", Some (nth 5 argv "", []))
      else (Err "no server running", None)
  | Some (x, ws) =>
      if String.eqb verb "has-session" then (Ok "", t)
      else if String.eqb verb "list-windows" then (Ok (Join (x :: ws) nl_s +:+ nl_s), t)
      else if String.eqb verb "new-window" then (Ok "", Some (x, ws ++ [nth 4 argv ""]))
      else if String.eqb verb "new-session" then (Err "duplicate session", t)
      else (Ok "", t)
  end.
#[export] Instance ListTmux : Tmux := {|
  TmuxState := option (string * list string);
  tmux_exec := server_exec;
  foreground := λ _ _ t, (Exited 3 "exit status 3", t);
  settle := λ t, t |}.

Lemma list_tmux_laws s : tmux_laws (T := ListTmux) s server_windows.
Proof.
  split; cbn [tmux_exec settle ListTmux].
  - by intros [[x ws]|].
  - by intros [[x ws]|].
  - intros [[x ws']|] ws; cbn; [|done]. by intros [= <-].
  - intros [[x ws']|] n env dir command; cbn; [done|]. by intros _.
  - intros [[x ws']|] ws n env dir command; cbn; [|done]. by intros [= <-].
  - done.
Qed.

Definition two_vms (run : string) : OrchArgs :=
  {| vmPrimary := "repo/vms/web"; vmDependencies := "repo/vms/db"; sessionName := "molnett";
     attach_flag := true; run_flag := run |}.
Definition two_jobs : list Job :=
  [{| ID := "db"; Command := "/runfiles/repo/vms/db" |};
   {| ID := "web"; Command := "/runfiles/repo/vms/web" |}].
Definition session_with (t : option (string * list string)) : @OrchWorld ListTmux :=
  {| tmux := (t : @TmuxState ListTmux); ocalls := []; oenviron := []; workspace := "/src/repo" |}.

Lemma run_replaces_window_witness :
  resolve_jobs (job_paths (two_vms "web")) = Ok two_jobs ∧
  filter_jobs "web" two_jobs = [{| ID := "db"; Command := "/runfiles/repo/vms/db" |}].
Proof.
  assert (E : resolve_jobs (job_paths (two_vms "web")) = Ok two_jobs) by by vm_compute.
  split; [exact E|].
  destruct (run_replaces_window (two_vms "web") two_jobs "repo/vms/web" E) as [H _].
  - vm_compute. right. by left.
  - done.
  - by right.
  - exact H.
Defined.

Lemma ensure_windows_correct_witness :
  server_windows (tmux (ensure_windows "molnett" two_jobs (session_with (Some ("shell", ["db"])))).2)
  = Some ["shell"; "db"; "web"].
Proof.
  destruct (ensure_windows_correct (F := scripted_runfiles) (T := ListTmux) "molnett" server_windows ["RUNFILES_DIR=/runfiles"] two_jobs
    (session_with (Some ("shell", ["db"]))) (list_tmux_laws "molnett") eq_refl) as [_ H].
  - by apply Forall_cons; split; [|apply Forall_singleton].
  - by apply Forall_cons; split; [|apply Forall_singleton].
  - exact H.
Defined.
