(* ===== verification/VmRules.v ===== *)
(** * VmRules: the macros that declare VMs and clusters

    vmtest/rules.bzl.  A macro makes Go binaries: the vm command of VmCmd with
    its link-time variables set, and the orchestrator that runs several of them.
    A keyword argument that was not given is the empty string, which the macros
    treat alike.  Bazel's expansion of [$(rlocationpath label)] is a parameter;
    what the macros only pass on (visibility, library labels, further keyword
    arguments) is left out. *)

From S2P Require Import Prelude GoStrings GoStrconv GoPath GoFlag VmLib HostWorld RunnerConfig.
From S2P Require Import ScriptedHost RunnerRun RunnerSafety VmCmd Orchestrator.

(** The path a label stands for in the runfiles. *)
Class Labels := { rlocationpath : string → string }.

(** The library a binary embeds. *)
Inductive library := RunnerLib | OrchestratorLib.
Record GoBinary := {
  gb_name : string;
  gb_embed : library;
  gb_x_defs : gmap string string;
  gb_data : list string;
  gb_args : list string;
}.

(** The arguments of [qemu_vm] and [qemu_vm_run]. *)
Record VmRule := {
  r_name : string; r_server_name : string; r_tap_device : string; r_mac_address : string;
  r_ovmf_code : string; r_ovmf_vars : string; r_swtpm : string; r_swtpm_setup : string;
  r_bridge_name : string; r_transit_ipv4 : string; r_transit_ipv6 : string;
  r_memory : string; r_cpus : Z; r_disk_size : string; r_second_tap_device : string;
  r_iso : string; r_tpm_pristine_path : string; r_needs_running : list string;
}.

Section Macros.
Context {B : Labels}.

(** [x_defs] and [data_deps] while they are put together. *)
Definition defs_deps : Type := gmap string string * list string.
Definition set_def (key v : string) (s : defs_deps) : defs_deps :=
  if String.eqb v "" then s else (<[key := v]> s.1, s.2).
Definition add_dep (key label : string) (s : defs_deps) : defs_deps :=
  if String.eqb label "" then s else (<[key := rlocationpath label]> s.1, s.2 ++ [label]).

Definition add_tool_deps (ovmf_code ovmf_vars swtpm swtpm_setup : string) (s : defs_deps) : defs_deps :=
  add_dep "main.vmSwtpmSetup" swtpm_setup (add_dep "main.vmSwtpm" swtpm
    (add_dep "main.vmOVMFVars" ovmf_vars (add_dep "main.vmOVMFCode" ovmf_code s))).
Definition add_transit_network (ipv4 ipv6 : string) (s : defs_deps) : defs_deps :=
  set_def "main.vmTransitIPv6" ipv6 (set_def "main.vmTransitIPv4" ipv4 s).

(** The dictionary every macro starts from. *)
Definition vm_dict (mode server tap mac memory cpus disk bridge : string) : gmap string string :=
  list_to_map [("main.vmMode", mode); ("main.vmServer", server); ("main.vmTap", tap);
    ("main.vmMac", mac); ("main.vmMemory", memory); ("main.vmCPUs", cpus);
    ("main.vmDiskSize", disk); ("main.vmBridgeName", bridge)].
Definition rule_dict (mode : string) (r : VmRule) : gmap string string :=
  vm_dict mode (r_server_name r) (r_tap_device r) (r_mac_address r) (r_memory r) (fmt_d (r_cpus r))
    (r_disk_size r) (r_bridge_name r).

Definition build_defs (r : VmRule) : defs_deps :=
  let s := (rule_dict "build" r, []) in
  let s := set_def "main.vmSecondTap" (r_second_tap_device r) s in
  let s := set_def "main.vmTPMPristinePath" (r_tpm_pristine_path r) s in
  let s := add_tool_deps (r_ovmf_code r) (r_ovmf_vars r) (r_swtpm r) (r_swtpm_setup r) s in
  let s := add_transit_network (r_transit_ipv4 r) (r_transit_ipv6 r) s in
  add_dep "main.vmISORunfile" (r_iso r) s.
Definition run_defs (r : VmRule) : defs_deps :=
  let s := (rule_dict "run" r, []) in
  let s := set_def "main.vmSecondTap" (r_second_tap_device r) s in
  let s := add_tool_deps (r_ovmf_code r) (r_ovmf_vars r) (r_swtpm r) (r_swtpm_setup r) s in
  add_transit_network (r_transit_ipv4 r) (r_transit_ipv6 r) s.

Definition runner_binary (name : string) (s : defs_deps) : GoBinary :=
  {| gb_name := name; gb_embed := RunnerLib; gb_x_defs := s.1; gb_data := s.2; gb_args := [] |}.
Definition orchestrator_binary (name primary : string) (deps data args : list string) : GoBinary :=
  {| gb_name := name; gb_embed := OrchestratorLib;
     gb_x_defs := list_to_map [("main.vmPrimary", rlocationpath primary);
       ("main.vmDependencies", Join (map rlocationpath deps) ",")];
     gb_data := data; gb_args := args |}.

Definition vm_target (r : VmRule) : string := ":" +:+ r_name r +:+ "_vm".
Definition qemu_vm (r : VmRule) : list GoBinary :=
  match r_needs_running r with
  | [] => [runner_binary (r_name r) (build_defs r)]
  | deps =>
      [runner_binary (r_name r +:+ "_vm") (build_defs r);
       orchestrator_binary (r_name r) (vm_target r) deps (deps ++ [vm_target r])
         ["--run"; rlocationpath (vm_target r)]]
  end.
Definition qemu_vm_run (r : VmRule) : list GoBinary :=
  match r_needs_running r with
  | [] => [runner_binary (r_name r) (run_defs r)]
  | deps =>
      [runner_binary (r_name r +:+ "_vm") (run_defs r);
       orchestrator_binary (r_name r) (vm_target r) deps (deps ++ [vm_target r]) []]
  end.

(** ** Clusters *)

(** A node's dictionary: keys that may be missing are options.  An ISO given as
    None is the empty string, a TPM path given as None is missing, as the code
    has it. *)
Record Node := {
  n_server_name : string; n_tap_device : string; n_mac_address : string;
  n_memory : option string; n_cpus : option Z; n_disk_size : option string;
  n_second_tap_device : option string; n_iso : option string; n_tpm_pristine_path : option string;
}.
Record Cluster := {
  k_name : string; k_nodes : list Node;
  k_ovmf_code : string; k_ovmf_vars : string; k_swtpm : string; k_swtpm_setup : string;
  k_bridge_name : string; k_transit_ipv4 : string; k_transit_ipv6 : string; k_bgp_server : string;
  k_default_iso : string; k_default_tpm_pristine_base : string;
}.

Definition node_name (k : Cluster) (i : nat) : string := "_" +:+ k_name k +:+ "_node" +:+ fmt_d (Z.of_nat i).
Definition node_rule (k : Cluster) (i : nat) (n : Node) : VmRule :=
  {| r_name := node_name k i; r_server_name := n_server_name n; r_tap_device := n_tap_device n;
     r_mac_address := n_mac_address n; r_ovmf_code := k_ovmf_code k; r_ovmf_vars := k_ovmf_vars k;
     r_swtpm := k_swtpm k; r_swtpm_setup := k_swtpm_setup k; r_bridge_name := k_bridge_name k;
     r_transit_ipv4 := k_transit_ipv4 k; r_transit_ipv6 := k_transit_ipv6 k;
     r_memory := default "6G" (n_memory n); r_cpus := default 2%Z (n_cpus n);
     r_disk_size := default "50G" (n_disk_size n);
     r_second_tap_device := default "" (n_second_tap_device n);
     r_iso := default (k_default_iso k) (n_iso n);
     r_tpm_pristine_path :=
       match n_tpm_pristine_path n with
       | Some p => p
       | None => if String.eqb (k_default_tpm_pristine_base k) "" then ""
                 else k_default_tpm_pristine_base k +:+ "/" +:+ n_server_name n
       end;
     r_needs_running := [] |}.
(** The dictionary of a node in [qemu_cluster_run]. *)
Definition node_run_defs (k : Cluster) (n : Node) : defs_deps :=
  let s := (vm_dict "run" (n_server_name n) (n_tap_device n) (n_mac_address n) "6G" "2" "50G"
              (k_bridge_name k), []) in
  let s := set_def "main.vmSecondTap" (default "" (n_second_tap_device n)) s in
  let s := add_tool_deps (k_ovmf_code k) (k_ovmf_vars k) (k_swtpm k) (k_swtpm_setup k) s in
  add_transit_network (k_transit_ipv4 k) (k_transit_ipv6 k) s.

Definition bgp_dep (k : Cluster) : list string :=
  if String.eqb (k_bgp_server k) "" then [] else [k_bgp_server k].
Definition node_targets (k : Cluster) : list string := imap (λ i _, ":" +:+ node_name k i) (k_nodes k).
(** The orchestrator of a cluster: the last node is the primary. *)
Definition cluster_binary (k : Cluster) : GoBinary :=
  orchestrator_binary (k_name k) (List.last (node_targets k) "")
    (bgp_dep k ++ removelast (node_targets k)) (bgp_dep k ++ node_targets k) [].

Definition qemu_cluster_build (k : Cluster) : result error (list GoBinary) :=
  match k_nodes k with
  | [] => Err "qemu_cluster_build requires at least one node"
  | nodes => Ok (List.concat (imap (λ i n, qemu_vm (node_rule k i n)) nodes) ++ [cluster_binary k])
  end.
Definition qemu_cluster_run (k : Cluster) : result error (list GoBinary) :=
  match k_nodes k with
  | [] => Err "qemu_cluster_run requires at least one node"
  | nodes =>
      Ok (imap (λ i n, runner_binary (node_name k i) (node_run_defs k n)) nodes ++ [cluster_binary k])
  end.

(** ** The link-time variables of a binary *)

Definition linked_var (m : gmap string string) (v : string) : string := default "" (m !! ("main." +:+ v)).
Definition linked (m : gmap string string) : XDefs :=
  let var := linked_var m in
  {| vmServer := var "vmServer"; vmTap := var "vmTap"; vmSecondTap := var "vmSecondTap";
     vmMac := var "vmMac"; vmMemory := var "vmMemory"; vmCPUs := var "vmCPUs";
     vmDiskSize := var "vmDiskSize"; vmMode := var "vmMode";
     vmTPMPristinePath := var "vmTPMPristinePath"; vmISORunfile := var "vmISORunfile";
     vmOVMFCode := var "vmOVMFCode"; vmOVMFVars := var "vmOVMFVars"; vmSwtpm := var "vmSwtpm";
     vmSwtpmSetup := var "vmSwtpmSetup"; vmBridgeName := var "vmBridgeName";
     vmTransitIPv4 := var "vmTransitIPv4"; vmTransitIPv6 := var "vmTransitIPv6" |}.
End Macros.

(** ** Lemmas *)

Section RuleLemmas.
Context {B : Labels} {F : Runfiles} {G : Platform}.

Lemma var_insert q v m k :
  linked_var (<["main." +:+ q := v]> m) k = if String.eqb k q then v else linked_var m k.
Proof.
  unfold linked_var. destruct (String.eqb_spec k q) as [->|Hne]; [by rewrite lookup_insert_eq|].
  rewrite lookup_insert_ne; [done|]. cbn. intros E. injection E. auto.
Qed.
Lemma var_dict k mode server tap mac memory cpus disk bridge :
  linked_var (vm_dict mode server tap mac memory cpus disk bridge) k
  = if String.eqb k "vmMode" then mode else if String.eqb k "vmServer" then server
    else if String.eqb k "vmTap" then tap else if String.eqb k "vmMac" then mac
    else if String.eqb k "vmMemory" then memory else if String.eqb k "vmCPUs" then cpus
    else if String.eqb k "vmDiskSize" then disk else if String.eqb k "vmBridgeName" then bridge else "".
Proof.
  unfold vm_dict, list_to_map. cbn [foldr fst snd].
  rewrite (var_insert "vmMode"), (var_insert "vmServer"), (var_insert "vmTap"), (var_insert "vmMac"),
    (var_insert "vmMemory"), (var_insert "vmCPUs"), (var_insert "vmDiskSize"), (var_insert "vmBridgeName").
  unfold linked_var. by rewrite lookup_empty.
Qed.
Lemma var_set_def k key v s :
  linked_var (set_def ("main." +:+ key) v s).1 k
  = if String.eqb k key && negb (String.eqb v "") then v else linked_var s.1 k.
Proof.
  unfold set_def. destruct (String.eqb_spec v ""); [by rewrite andb_false_r|]. cbn [fst negb].
  by rewrite andb_true_r, var_insert.
Qed.
Lemma var_add_dep k key l s :
  linked_var (add_dep ("main." +:+ key) l s).1 k
  = if String.eqb k key && negb (String.eqb l "") then rlocationpath l else linked_var s.1 k.
Proof.
  unfold add_dep. destruct (String.eqb_spec l ""); [by rewrite andb_false_r|]. cbn [fst negb].
  by rewrite andb_true_r, var_insert.
Qed.

(** What a label, when given, is linked as. *)
Definition path_of (label : string) : string := if String.eqb label "" then "" else rlocationpath label.

(** The variables of the two kinds of binary. *)
Definition rule_xdefs (mode iso tpm : string) (r : VmRule) : XDefs :=
  {| vmServer := r_server_name r; vmTap := r_tap_device r; vmSecondTap := r_second_tap_device r;
     vmMac := r_mac_address r; vmMemory := r_memory r; vmCPUs := fmt_d (r_cpus r);
     vmDiskSize := r_disk_size r; vmMode := mode; vmTPMPristinePath := tpm;
     vmISORunfile := path_of iso; vmOVMFCode := path_of (r_ovmf_code r);
     vmOVMFVars := path_of (r_ovmf_vars r); vmSwtpm := path_of (r_swtpm r);
     vmSwtpmSetup := path_of (r_swtpm_setup r); vmBridgeName := r_bridge_name r;
     vmTransitIPv4 := r_transit_ipv4 r; vmTransitIPv6 := r_transit_ipv6 r |}.

Ltac link_var :=
  repeat first
    [ rewrite (var_set_def _ "vmTransitIPv6") | rewrite (var_set_def _ "vmTransitIPv4")
    | rewrite (var_set_def _ "vmSecondTap") | rewrite (var_set_def _ "vmTPMPristinePath")
    | rewrite (var_add_dep _ "vmISORunfile") | rewrite (var_add_dep _ "vmSwtpmSetup")
    | rewrite (var_add_dep _ "vmSwtpm") | rewrite (var_add_dep _ "vmOVMFVars")
    | rewrite (var_add_dep _ "vmOVMFCode") ];
  cbn [fst]; rewrite var_dict; cbn;
  unfold path_of; try match goal with |- context [negb (String.eqb ?v "")] =>
    destruct (String.eqb_spec v "") as [->|] end; reflexivity.

Lemma linked_build r : linked (build_defs r).1 = rule_xdefs "build" (r_iso r) (r_tpm_pristine_path r) r.
Proof.
  unfold linked, rule_xdefs, build_defs, add_transit_network, add_tool_deps, rule_dict. cbv zeta.
  f_equal; link_var.
Qed.
Lemma linked_run r : linked (run_defs r).1 = rule_xdefs "run" "" "" r.
Proof.
  unfold linked, rule_xdefs, run_defs, add_transit_network, add_tool_deps, rule_dict. cbv zeta.
  f_equal; link_var.
Qed.

(** The files a binary carries. *)
Definition named (l : list string) : list string := List.filter (λ x, negb (String.eqb x "")) l.
Lemma deps_set_def key v s : (set_def key v s).2 = s.2.
Proof. unfold set_def. by destruct (String.eqb v ""). Qed.
Lemma deps_add_dep key l s : (add_dep key l s).2 = s.2 ++ named [l].
Proof. unfold add_dep, named. cbn. destruct (String.eqb l ""); cbn; [by rewrite app_nil_r|done]. Qed.
Lemma deps_tools a b c d s : (add_tool_deps a b c d s).2 = s.2 ++ named [a; b; c; d].
Proof.
  unfold add_tool_deps. rewrite !deps_add_dep, <- !app_assoc. unfold named. by rewrite <- !List.filter_app.
Qed.
Lemma build_deps r :
  (build_defs r).2 = named [r_ovmf_code r; r_ovmf_vars r; r_swtpm r; r_swtpm_setup r; r_iso r].
Proof.
  unfold build_defs, add_transit_network. cbv zeta. rewrite deps_add_dep, !deps_set_def, deps_tools, !deps_set_def.
  cbn [snd app]. unfold named. by rewrite <- List.filter_app.
Qed.
Lemma run_deps r : (run_defs r).2 = named [r_ovmf_code r; r_ovmf_vars r; r_swtpm r; r_swtpm_setup r].
Proof. unfold run_defs, add_transit_network. cbv zeta. by rewrite !deps_set_def, deps_tools, !deps_set_def. Qed.

(** A file that the runfiles hold. *)
Definition in_runfiles (l : string) : Prop := rlocationpath l ≠ "" ∧ is_ok (Rlocation (rlocationpath l)) = true.
(** Where it is, or the default when none was given. *)
Definition located (l d : string) : string :=
  if String.eqb l "" then d
  else match Rlocation (rlocationpath l) with Ok p => p | Err _ => "" end.

Lemma resolve_located what l d :
  (l ≠ "" → in_runfiles l) → resolve_tool what (path_of l) d = Ok (located l d).
Proof.
  intros Hl. unfold resolve_tool, path_of, located. destruct (String.eqb_spec l ""); [done|].
  destruct (Hl n) as [Hn Ho]. destruct (String.eqb_spec (rlocationpath l) ""); [done|].
  by destruct (Rlocation (rlocationpath l)).
Qed.

(** ** What a rule asks for *)

Definition rule_config (mode iso tpm ws : string) (r : VmRule) : RunnerConfig :=
  let d := DefaultToolPaths in
  {| ServerName := r_server_name r; WorkDir := path_join [ws; ".vms"; r_server_name r]; Mode := mode;
     toolPaths := {| QemuSystem := QemuSystem d; QemuImg := QemuImg d;
                     OVMFCode := located (r_ovmf_code r) (OVMFCode d);
                     OVMFVars := located (r_ovmf_vars r) (OVMFVars d);
                     Swtpm := located (r_swtpm r) (Swtpm d);
                     SwtpmSetup := located (r_swtpm_setup r) (SwtpmSetup d) |};
     MachineType := ""; TapDevice := r_tap_device r; SecondTapDevice := r_second_tap_device r;
     MacAddress := r_mac_address r; BridgeName := r_bridge_name r; DiskSize := r_disk_size r;
     Memory := r_memory r; CPUs := r_cpus r;
     TPMPristinePath := if String.eqb tpm "" then "" else path_join [ws; tpm];
     ISOPath := located iso ""; transit := {| IPv4 := r_transit_ipv4 r; IPv6 := r_transit_ipv6 r |};
     OutputMode := ""; ShutdownMode := false; NoCleanup := false |}.
(** The attributes that must be given. *)
Definition complete (r : VmRule) : Prop :=
  Forall (λ v, v ≠ "") [r_server_name r; r_tap_device r; r_mac_address r; r_memory r; r_disk_size r] ∧
  is_int (r_cpus r).

Lemma base_config_rule mode iso tpm ws env r :
  complete r → mode ≠ "" → runfiles_New = Ok tt →
  env !! "BUILD_WORKSPACE_DIRECTORY" = Some ws → ws ≠ "" →
  Forall in_runfiles (named [r_ovmf_code r; r_ovmf_vars r; r_swtpm r; r_swtpm_setup r; iso]) →
  (mode = "build" ∨ iso = "") →
  base_config (rule_xdefs mode iso tpm r) env = Ok (rule_config mode iso tpm ws r).
Proof.
  intros [Hn Hi] Hm HN He Hw Hf Hiso.
  assert (Hl : ∀ l, l ∈ [r_ovmf_code r; r_ovmf_vars r; r_swtpm r; r_swtpm_setup r; iso] → l ≠ "" → in_runfiles l).
  { intros l Hl Hne. rewrite Forall_forall in Hf. apply Hf. apply list_elem_of_In, List.filter_In.
    split; [by apply list_elem_of_In|]. by destruct (String.eqb_spec l ""). }
  unfold base_config. rewrite (proj2 (check_xdefs_ok (rule_xdefs mode iso tpm r) tt)).
  2: { split; [done|]. cbn [vmMode vmServer vmTap vmMac vmMemory vmCPUs vmDiskSize rule_xdefs].
pose proof (fmt_d_not_empty (r_cpus r)).
       repeat match goal with X : Forall _ (_ :: _) |- _ => apply Forall_cons in X as [? X] end.
       repeat (apply Forall_cons; split); try done. }
  cbn [then_]. unfold parse_cpu_count. cbn [vmCPUs rule_xdefs]. rewrite Atoi_fmt_d by done. cbn [then_].
  cbv zeta. rewrite He. change (default "" (Some ws)) with ws.
  destruct (String.eqb_spec ws ""); [done|]. cbn [then_].
  unfold resolve_tools. cbv zeta. cbn [vmOVMFCode vmOVMFVars vmSwtpm vmSwtpmSetup rule_xdefs].
  rewrite !resolve_located by (apply Hl; set_solver). cbn [then_ vmMode rule_xdefs vmISORunfile].
  destruct (String.eqb_spec mode "build") as [->|Hb].
  - rewrite resolve_located by (apply Hl; set_solver). reflexivity.
  - destruct Hiso as [| ->]; [done|]. reflexivity.
Qed.

(** The same rule with other sizes. *)
Definition sized (memory : string) (cpus : Z) (disk : string) (r : VmRule) : VmRule :=
  {| r_name := r_name r; r_server_name := r_server_name r; r_tap_device := r_tap_device r;
     r_mac_address := r_mac_address r; r_ovmf_code := r_ovmf_code r; r_ovmf_vars := r_ovmf_vars r;
     r_swtpm := r_swtpm r; r_swtpm_setup := r_swtpm_setup r; r_bridge_name := r_bridge_name r;
     r_transit_ipv4 := r_transit_ipv4 r; r_transit_ipv6 := r_transit_ipv6 r; r_memory := memory;
     r_cpus := cpus; r_disk_size := disk; r_second_tap_device := r_second_tap_device r;
     r_iso := r_iso r; r_tpm_pristine_path := r_tpm_pristine_path r;
     r_needs_running := r_needs_running r |}.
Lemma linked_node k i n :
  linked (node_run_defs k n).1 = rule_xdefs "run" "" "" (sized "6G" 2 "50G" (node_rule k i n)).
Proof. exact (linked_run (sized "6G" 2 "50G" (node_rule k i n))). Qed.
Lemma map_imap {A C D} (f : C → D) (g : nat → A → C) l : map f (imap g l) = imap (λ i x, f (g i x)) l.
Proof. revert g. induction l as [|x l IH]; intros g; [done|]. cbn. f_equal. apply IH. Qed.
Lemma concat_singles {A C} (g : nat → A → C) l : List.concat (imap (λ i x, [g i x]) l) = imap g l.
Proof. revert g. induction l as [|x l IH]; intros g; [done|]. cbn. f_equal. apply IH. Qed.
End RuleLemmas.

(** ** Lemmas: the orchestrator of a rule *)

Section OrchestratedLemmas.
Context {B : Labels}.

(** A path the orchestrator's list can hold, and tmux can name a window after. *)
Definition listed (p : string) : Prop :=
  p ≠ "" ∧ all_chars visible p = true ∧ lacks "," p = true.

Lemma dependency_paths_Join ps : Forall listed ps → dependency_paths (Join ps ",") = ps.
Proof.
  intros Hp. unfold dependency_paths. destruct ps as [|p ps]; [done|].
  assert (Hj : Join (p :: ps) "," ≠ "").
  { apply Forall_cons in Hp as [[Hp _] _]. destruct ps; cbn; [done|]. by destruct p. }
  destruct (String.eqb_spec (Join (p :: ps) ",") ""); [done|]. rewrite Split_Join; [|done|].
  - clear Hj n. induction Hp as [|q qs (Hq & Hv & _) _ IH]; [done|]. cbn.
    rewrite TrimSpace_visible by done. destruct (String.eqb_spec q ""); [done|]. cbn. by rewrite IH.
  - eapply Forall_impl; [exact Hp|]. by intros q (_ & _ & Hq).
Qed.

(** The jobs of an orchestrator binary: what it was given, in order. *)
Definition binary_args (b : GoBinary) (m : flags) : OrchArgs :=
  orch_args (linked_var (gb_x_defs b) "vmPrimary") (linked_var (gb_x_defs b) "vmDependencies") m.
Lemma orchestrator_vars name primary deps data args :
  let b := orchestrator_binary name primary deps data args in
  linked_var (gb_x_defs b) "vmPrimary" = rlocationpath primary ∧
  linked_var (gb_x_defs b) "vmDependencies" = Join (map rlocationpath deps) ",".
Proof. cbv zeta. unfold linked_var. by split. Qed.
Lemma orchestrator_jobs name primary deps data args m :
  Forall listed (map rlocationpath deps) →
  job_paths (binary_args (orchestrator_binary name primary deps data args) m)
  = map rlocationpath (deps ++ [primary]).
Proof.
  intros Hd. unfold binary_args, job_paths. cbn [vmPrimary vmDependencies orch_args].
  destruct (orchestrator_vars name primary deps data args) as [-> ->].
  by rewrite dependency_paths_Join, map_app.
Qed.

Lemma resolve_jobs_ok {F : Runfiles} (bin : string → string) ps :
  Forall (λ p, Rlocation p = Ok (bin p)) ps →
  resolve_jobs ps = Ok (map (λ p, {| ID := base_name p; Command := bin p |}) ps).
Proof. induction 1 as [|p ps Hp _ IH]; [done|]. cbn. rewrite Hp. cbn. by rewrite IH. Qed.

Lemma all_chars_Split (f : ascii → bool) s c : all_chars f s = true → Forall (λ x, all_chars f x = true) (Split s c).
Proof.
  induction s as [|a s IH]; cbn; [intros _; by apply Forall_singleton|].
  intros [Ha Hs]%andb_true_iff. specialize (IH Hs). destruct (Ascii.eqb a c); [by apply Forall_cons|].
  destruct (Split s c) as [|x l]; [apply Forall_singleton; cbn; by rewrite Ha|].
  apply Forall_cons in IH as [Hx Hl]. apply Forall_cons. split; [cbn; by rewrite Ha|done].
Qed.
Lemma base_name_visible p : all_chars visible p = true → all_chars visible (base_name p) = true.
Proof.
  intros Hp. apply (all_chars_Split _ _ "/") in Hp. unfold base_name.
  rewrite (app_removelast_last "" (Split_not_nil p "/")) in Hp.
  apply Forall_app in Hp as [_ Hp]. by inversion Hp.
Qed.
End OrchestratedLemmas.

(** What a build with [needs_running] relies on: its labels become paths that can
    be listed and told apart, found in the runfiles, and the program of the VM
    has a path without blanks. *)
Record deployable {B : Labels} {F : Runfiles} (r : VmRule) (bin : string → string) (env : list string) : Prop := {
  deployable_listed : Forall listed (map rlocationpath (r_needs_running r ++ [vm_target r]));
  deployable_names : Forall (λ p, base_name p ≠ "") (map rlocationpath (r_needs_running r ++ [vm_target r]));
  deployable_distinct : NoDup (map base_name (map rlocationpath (r_needs_running r ++ [vm_target r])));
  deployable_found : Forall (λ p, Rlocation p = Ok (bin p)) (map rlocationpath (r_needs_running r ++ [vm_target r]));
  deployable_relative : HasPrefix (rlocationpath (vm_target r)) "/" = false;
  deployable_program : bin (rlocationpath (vm_target r)) ≠ "" ∧
                       all_chars visible (bin (rlocationpath (vm_target r))) = true;
  deployable_new : runfiles_New = Ok tt;
  deployable_env : runfiles_Env = Ok env;
}.

Section Orchestrated.
Context {B : Labels} {F : Runfiles} {T : Tmux}.
Variables (r : VmRule) (bin : string → string) (env : list string).
Hypothesis (D : deployable r bin env).
Implicit Types (w : OrchWorld).
Let deps : list string := map rlocationpath (r_needs_running r).
Let vm_path : string := rlocationpath (vm_target r).

Definition path_job (p : string) : Job := {| ID := base_name p; Command := bin p |}.

Lemma filter_out {A} (f : A → string) x l y :
  f y = x → NoDup (map f (l ++ [y])) → List.filter (λ z, negb (String.eqb (f z) x)) (l ++ [y]) = l.
Proof.
  intros <- Hnd. rewrite List.filter_app. cbn. rewrite String.eqb_refl. cbn. rewrite app_nil_r.
  rewrite map_app in Hnd. apply NoDup_app in Hnd as (_ & Hnd & _).
  induction l as [|z l IH]; [done|]. cbn. destruct (String.eqb_spec (f z) (f y)) as [E|_]; cbn.
  - destruct (Hnd (f z)); [by left|]. rewrite E. by left.
  - f_equal. apply IH. intros q Hq. apply Hnd. by right.
Qed.

Lemma missing_added (ws names : list string) n :
  n ∈ ws ++ List.filter (λ n, negb (contains ws n)) names ↔ n ∈ ws ∨ n ∈ names.
Proof.
  assert (Hc : contains ws n = true ↔ n ∈ ws).
  { unfold contains. rewrite existsb_exists, list_elem_of_In. split.
    - intros (y & Hy & E). apply String.eqb_eq in E. by subst.
    - intros Hn. exists n. by rewrite String.eqb_refl. }
  rewrite elem_of_app, !list_elem_of_In, List.filter_In, <- !list_elem_of_In, negb_true_iff, <- not_true_iff_false, Hc.
  destruct (decide (n ∈ ws)); tauto.
Qed.

(** Its orchestrator, given the flag [--run] with the program of the VM. *)
Lemma orchestrated_run w windows name data args (m : flags) :
  get_string m "session" = "molnett" → get_string m "run" = vm_path →
  tmux_laws "molnett" windows → Forall good_name (default [] (windows (tmux w))) →
  let b := orchestrator_binary name (vm_target r) (r_needs_running r) data args in
  let out := orchestrate (binary_args b m) w in
  ∃ t before, windows t = match windows (tmux w) with
                          | Some ws => Some (ws ++ List.filter (λ n, negb (contains ws n)) (map base_name deps))
                          | None => match deps with [] => None | _ => Some (map base_name deps) end
                          end ∧
    out.1 = Err match (foreground [bin vm_path] (oenviron w ++ env) t).1 with
                | Exited code _ => code
                | WaitFailed _ => 127
                end%Z ∧
    ocalls out.2 = before ++ OForeground [bin vm_path] (oenviron w ++ env)
                   :: map (kill_call "molnett") (map path_job deps).
Proof.
  intros Hs Hr laws Hg. destruct D as [D1 D2 D3 D4 D5 [D6 D7] D8 D9]. cbv zeta.
  set (b := orchestrator_binary _ _ _ _ _). set (a := binary_args b m).
  assert (Hjobs : job_paths a = deps ++ [vm_path]).
  { subst a b. rewrite orchestrator_jobs, map_app; [done|].
    rewrite map_app in D1. by apply Forall_app in D1 as [D1 _]. }
  assert (Hall : resolve_jobs (job_paths a) = Ok (map path_job (deps ++ [vm_path]))).
  { rewrite Hjobs. apply resolve_jobs_ok. by rewrite map_app in D4. }
  rewrite map_app in D3. change (map rlocationpath (r_needs_running r)) with deps in D3.
  change (map rlocationpath [vm_target r]) with [vm_path] in D3.
  assert (Hrun : run_flag a = vm_path) by exact Hr.
  assert (Hvp : vm_path ≠ "").
  { rewrite map_app in D1. apply Forall_app in D1 as [_ D1]. by apply Forall_cons in D1 as [[? _] _]. }
  destruct (run_replaces_jobs a _ vm_path Hall) as [Hf Hres];
    [rewrite Hjobs; set_solver|by rewrite Hrun|by left|].
  rewrite Hjobs in Hres. destruct (Hres D3 D5) as [Hcmd _].
  rewrite Hrun, map_app in Hf. change (map path_job [vm_path]) with [path_job vm_path] in Hf.
  rewrite (filter_out ID (base_name vm_path) (map path_job deps) (path_job vm_path)) in Hf;
    [|done|change [path_job vm_path] with (map path_job [vm_path]); by rewrite <- map_app, map_map].
  unfold orchestrate. rewrite D8, Hall, Hrun, map_app. cbv zeta.
  change (map path_job [vm_path]) with [path_job vm_path]. rewrite Hf.
  change (sessionName a) with (get_string m "session"). rewrite Hs.
  assert (Hgd : Forall good_name (map ID (map path_job deps))).
  { rewrite map_map. apply Forall_map. rewrite map_app in D1, D2. apply Forall_app in D1 as [D1 _].
    apply Forall_app in D2 as [D2 _]. rewrite Forall_forall in D1, D2 |- *. intros p Hp. split; cbn.
    - by apply D2.
    - apply base_name_visible. by apply (D1 p Hp). }
  pose proof (ensure_windows_run "molnett" windows env (map path_job deps) w laws D9 Hgd Hg) as He.
  pose proof (ensure_windows_env "molnett" (map path_job deps) w) as [Hen _].
  destruct (ensure_windows "molnett" (map path_job deps) w) as [o w1] eqn:Ew. cbv zeta in He. cbn [fst snd] in He, Hen.
  destruct He as [-> Hws]. rewrite (bind_next _ _ _ _ _ Ew).
  destruct (String.eqb_spec vm_path ""); [done|]. cbn [negb].
  pose proof (run_in_foreground_run a (map path_job deps) w1) as Hfg. cbv zeta in Hfg.
  rewrite Hcmd in Hfg. assert (Hb : Rlocation vm_path = Ok (bin vm_path)).
  { rewrite map_app in D4. apply Forall_app in D4 as [_ D4]. by apply Forall_cons in D4 as [? _]. }
  rewrite Hb, Fields_word, D9, Hen in Hfg by done. destruct Hfg as [H1 H2].
  exists (tmux w1), (ocalls w1). split_and!.
  - rewrite Hws, map_map. destruct (windows (tmux w)); [done|]. by destruct deps.
  - exact H1.
  - rewrite H2. change (sessionName a) with (get_string m "session"). by rewrite Hs.
Qed.
End Orchestrated.

(** ** Properties *)

Section RuleProperties.
Context {B : Labels} {F : Runfiles} {G : Platform} {T : Tmux}.

(** C16: a VM is configured as its rule says.  The vm command that [qemu_vm] or
    [qemu_vm_run] builds, with or without VMs it needs running, accepts its
    configuration when the files among its data are in its runfiles, and the
    configuration holds every attribute: identity, sizes, network, the number of
    CPUs read back from its text, each tool at the path of its label or at its
    default, the ISO and the pristine TPM state in a build only. *)
Theorem vm_rules_configure r ws env b :
  complete r → runfiles_New = Ok tt → env !! "BUILD_WORKSPACE_DIRECTORY" = Some ws → ws ≠ "" →
  gb_embed b = RunnerLib → Forall in_runfiles (gb_data b) →
  (b ∈ qemu_vm r →
     base_config (linked (gb_x_defs b)) env = Ok (rule_config "build" (r_iso r) (r_tpm_pristine_path r) ws r)) ∧
  (b ∈ qemu_vm_run r → base_config (linked (gb_x_defs b)) env = Ok (rule_config "run" "" "" ws r)).
Proof.
  intros Hc HN He Hw Hb Hd. split; intros Hin.
  - assert (∃ n, b = runner_binary n (build_defs r)) as [n ->].
    { unfold qemu_vm in Hin. destruct (r_needs_running r);
        repeat (apply elem_of_cons in Hin as [->|Hin]; [first [discriminate Hb|by eexists]|]); by apply elem_of_nil in Hin. }
    cbn [gb_x_defs gb_data runner_binary] in *. rewrite linked_build. rewrite build_deps in Hd.
    apply base_config_rule; auto.
  - assert (∃ n, b = runner_binary n (run_defs r)) as [n ->].
    { unfold qemu_vm_run in Hin. destruct (r_needs_running r);
        repeat (apply elem_of_cons in Hin as [->|Hin]; [first [discriminate Hb|by eexists]|]); by apply elem_of_nil in Hin. }
    cbn [gb_x_defs gb_data runner_binary] in *. rewrite linked_run. rewrite run_deps in Hd.
    apply base_config_rule; auto.
Qed.

(** C17: a build among running VMs.  The binary that [qemu_vm] makes with
    [needs_running] ends with the status of the VM's own program, run in the
    foreground in a moment when every VM it needs has its window in tmux, the
    windows that were there before are still there, and the VM itself was given no
    window; after it the windows of the needed VMs are killed, in order.  This
    takes labels whose paths can be listed, named and found, and a tmux that
    works. *)
Theorem orchestrated_build r b bin env windows w :
  b ∈ qemu_vm r → gb_embed b = OrchestratorLib → deployable r bin env →
  tmux_laws "molnett" windows → Forall good_name (default [] (windows (tmux w))) →
  let deps := map rlocationpath (r_needs_running r) in
  let program := [bin (rlocationpath (vm_target r))] in
  let out := orch_main (linked_var (gb_x_defs b) "vmPrimary") (linked_var (gb_x_defs b) "vmDependencies")
               (gb_args b) w in
  ∃ t ws before, windows t = Some ws ∧ Forall (λ p, base_name p ∈ ws) deps ∧
    (∀ n, n ∈ ws ↔ n ∈ default [] (windows (tmux w)) ∨ n ∈ map base_name deps) ∧
    out.1 = Err match (foreground program (oenviron w ++ env) t).1 with
                | Exited code _ => code
                | WaitFailed _ => 127
                end%Z ∧
    ocalls out.2 = before ++ OForeground program (oenviron w ++ env)
                   :: map (λ p, OTmux ["kill-window"; "-t"; "molnett:" +:+ base_name p]) deps.
Proof.
  intros Hb He D laws Hg. cbv zeta. unfold qemu_vm in Hb.
  destruct (r_needs_running r) as [|d ds] eqn:En.
  { apply list_elem_of_singleton in Hb. by subst b. }
  apply elem_of_cons in Hb as [->|Hb]; [done|]. apply list_elem_of_singleton in Hb as ->.
  rewrite <- En. clear He. cbn [gb_args orchestrator_binary]. set (b := orchestrator_binary _ _ _ _ _).
  assert (Hne : linked_var (gb_x_defs b) "vmPrimary" ≠ "").
  { unfold b. rewrite (proj1 (orchestrator_vars _ _ _ _ _)). pose proof (deployable_listed _ _ _ D) as Hl.
    rewrite map_app in Hl. apply Forall_app in Hl as [_ Hl]. by apply Forall_cons in Hl as [[? _] _]. }
  set (m := <["run" := VString (rlocationpath (vm_target r))]> orch_flags).
  assert (Hp : Parse orch_flags ["--run"; rlocationpath (vm_target r)] = Parsed m []).
  { apply (Parse_render orch_flags [("run", VString (rlocationpath (vm_target r)))] []).
    apply Forall_singleton. split_and!; [done|done|]. by exists (VString ""). }
  unfold orch_main. apply String.eqb_neq in Hne. rewrite Hne, Hp. change (orch_args _ _ m) with (binary_args b m).
  clear Hne. subst b.
  destruct (orchestrated_run r bin env D w windows (r_name r) (r_needs_running r ++ [vm_target r])
    ["--run"; rlocationpath (vm_target r)] m) as (t & before & H1 & H2 & H3);
    [reflexivity|reflexivity|done|done|].
  assert (Hws : ∃ ws, windows t = Some ws ∧ ∀ n, n ∈ ws ↔ n ∈ default [] (windows (tmux w)) ∨
    n ∈ map base_name (map rlocationpath (r_needs_running r))).
  { rewrite H1. destruct (windows (tmux w)) as [ws|]; cbn [default].
    - eexists. split; [done|]. apply missing_added.
    - rewrite En. cbn [map]. eexists. split; [done|]. intros n. split; [by right|]. intros [Hn|Hn]; [|done].
      by apply elem_of_nil in Hn. }
  destruct Hws as (ws & Hws & Hin). exists t, ws, before. split_and!; [done| |done|exact H2|].
  - apply Forall_forall. intros p Hpin. apply Hin. right. by apply list_elem_of_fmap_2.
  - rewrite H3. by rewrite map_map.
Qed.

(** What a cluster's node is to be: the link-time variables common to building and
    running it, with its sizes, its ISO and its TPM state. *)
Definition node_vars (k : Cluster) (n : Node) (mode memory cpus disk iso tpm : string) : XDefs :=
  let place label := if String.eqb label "" then "" else rlocationpath label in
  {| vmMode := mode; vmServer := n_server_name n; vmTap := n_tap_device n; vmMac := n_mac_address n;
     vmSecondTap := match n_second_tap_device n with Some tap => tap | None => "" end;
     vmMemory := memory; vmCPUs := cpus; vmDiskSize := disk; vmTPMPristinePath := tpm;
     vmISORunfile := place iso; vmOVMFCode := place (k_ovmf_code k); vmOVMFVars := place (k_ovmf_vars k);
     vmSwtpm := place (k_swtpm k); vmSwtpmSetup := place (k_swtpm_setup k); vmBridgeName := k_bridge_name k;
     vmTransitIPv4 := k_transit_ipv4 k; vmTransitIPv6 := k_transit_ipv6 k |}.
Lemma build_node_vars k i n :
  linked (build_defs (node_rule k i n)).1
  = node_vars k n "build" (match n_memory n with Some memory => memory | None => "6G" end)
      (match n_cpus n with Some cpus => fmt_d cpus | None => "2" end)
      (match n_disk_size n with Some disk => disk | None => "50G" end)
      (match n_iso n with Some iso => iso | None => k_default_iso k end)
      (match n_tpm_pristine_path n with
       | Some tpm => tpm
       | None => if String.eqb (k_default_tpm_pristine_base k) "" then ""
                 else k_default_tpm_pristine_base k +:+ "/" +:+ n_server_name n
       end).
Proof.
  rewrite linked_build. unfold rule_xdefs, node_vars, path_of, node_rule.
  cbn [r_name r_server_name r_tap_device r_mac_address r_ovmf_code r_ovmf_vars r_swtpm r_swtpm_setup r_bridge_name
    r_transit_ipv4 r_transit_ipv6 r_memory r_cpus r_disk_size r_second_tap_device r_iso r_tpm_pristine_path].
  by destruct (n_cpus n).
Qed.
Lemma run_node_vars k n : linked (node_run_defs k n).1 = node_vars k n "run" "6G" "2" "50G" "" "".
Proof. by rewrite (linked_node k 0 n). Qed.
Lemma node_run_deps k n : (node_run_defs k n).2 = named [k_ovmf_code k; k_ovmf_vars k; k_swtpm k; k_swtpm_setup k].
Proof. unfold node_run_defs, add_transit_network. cbv zeta. by rewrite !deps_set_def, deps_tools, !deps_set_def. Qed.

(** C37: a cluster's targets.  With one node at least, [qemu_cluster_build] and
    [qemu_cluster_run] make one vm command for each node, named after the cluster and
    its place, and the same orchestrator, which carries all its jobs: the BGP server,
    if any, and then the nodes, the last one primary.  A node is built with its own memory, CPUs, disk,
    ISO and TPM state, or 6G, 2, 50G, the cluster's ISO, and the server's name below the
    cluster's base path, if there is one.  It is run with the same identity, network and
    tools but always with 6G of memory, 2 CPUs and a 50G disk, and neither ISO nor TPM
    state: what the node says of its size only holds for the build.  Each vm command
    carries the files it names. *)
Theorem cluster_correct k m :
  let names := imap (λ i _, "_" +:+ k_name k +:+ "_node" +:+ fmt_d (Z.of_nat i)) (k_nodes k) in
  let jobs := (if String.eqb (k_bgp_server k) "" then [] else [k_bgp_server k]) ++ map (λ x, ":" +:+ x) names in
  let given l := List.filter (λ x, negb (String.eqb x "")) l in
  k_nodes k ≠ [] → Forall listed (map rlocationpath jobs) →
  ∃ builds runs o,
    qemu_cluster_build k = Ok (builds ++ [o]) ∧ qemu_cluster_run k = Ok (runs ++ [o]) ∧
    map gb_name builds = names ∧ map gb_name runs = names ∧
    gb_name o = k_name k ∧ gb_embed o = OrchestratorLib ∧ gb_args o = [] ∧ gb_data o = jobs ∧
    job_paths (binary_args o m) = map rlocationpath jobs ∧
    linked_var (gb_x_defs o) "vmPrimary" = rlocationpath (List.last jobs "") ∧
    ∀ i n, k_nodes k !! i = Some n → ∃ b b', builds !! i = Some b ∧ runs !! i = Some b' ∧
      gb_embed b = RunnerLib ∧ gb_embed b' = RunnerLib ∧
      (let iso := match n_iso n with Some iso => iso | None => k_default_iso k end in
       linked (gb_x_defs b)
       = node_vars k n "build" (match n_memory n with Some memory => memory | None => "6G" end)
           (match n_cpus n with Some cpus => fmt_d cpus | None => "2" end)
           (match n_disk_size n with Some disk => disk | None => "50G" end) iso
           (match n_tpm_pristine_path n with
            | Some tpm => tpm
            | None => if String.eqb (k_default_tpm_pristine_base k) "" then ""
                      else k_default_tpm_pristine_base k +:+ "/" +:+ n_server_name n
            end) ∧
       gb_data b = given [k_ovmf_code k; k_ovmf_vars k; k_swtpm k; k_swtpm_setup k; iso]) ∧
      linked (gb_x_defs b') = node_vars k n "run" "6G" "2" "50G" "" "" ∧
      gb_data b' = given [k_ovmf_code k; k_ovmf_vars k; k_swtpm k; k_swtpm_setup k].
Proof.
  intros names jobs given Hn Hl. exists (imap (λ i n, runner_binary (node_name k i) (build_defs (node_rule k i n))) (k_nodes k)),
    (imap (λ i n, runner_binary (node_name k i) (node_run_defs k n)) (k_nodes k)), (cluster_binary k).
  assert (Ht : node_targets k ≠ []) by (unfold node_targets; by destruct (k_nodes k)).
  assert (Hj : jobs = bgp_dep k ++ node_targets k).
  { unfold jobs, names, bgp_dep, node_targets. by rewrite map_imap. }
  split_and!; try done.
  - unfold qemu_cluster_build. rewrite <- concat_singles. destruct (k_nodes k); [done|].
    do 2 f_equal.
  - unfold qemu_cluster_run. by destruct (k_nodes k).
  - by rewrite map_imap.
  - by rewrite map_imap.
  - unfold cluster_binary. rewrite Hj in *. rewrite orchestrator_jobs.
    + rewrite <- app_assoc. by rewrite <- app_removelast_last.
    + rewrite (app_removelast_last "" Ht), app_assoc, map_app in Hl. by apply Forall_app in Hl as [Hl _].
  - unfold cluster_binary. rewrite (proj1 (orchestrator_vars _ _ _ _ _)), Hj. f_equal.
    rewrite (app_removelast_last "" Ht) at 2. by rewrite app_assoc, List.last_last.
  - intros i n Hi. do 2 eexists. rewrite !list_lookup_imap, Hi.
    do 4 (split; [done|]). split; [split; [apply (build_node_vars k i n)|exact (build_deps (node_rule k i n))]|].
    split; [apply run_node_vars|apply node_run_deps].
Qed.
End RuleProperties.

(** A workspace with two VMs, one of which is built while the other runs. *)
#[export] Instance workspace_labels : Labels :=
  {| rlocationpath := λ l, match l with
                           | String a l' => if Ascii.eqb a ":" then "_main/vms/" +:+ l' else l
                           | EmptyString => ""
                           end |}.
Definition web_rule : VmRule :=
  {| r_name := "web"; r_server_name := "web"; r_tap_device := "mltt-tap1"; r_mac_address := "02:00:00:00:00:01";
     r_ovmf_code := ":code.fd"; r_ovmf_vars := ":vars.fd"; r_swtpm := ""; r_swtpm_setup := "";
     r_bridge_name := "mltt-br0"; r_transit_ipv4 := ""; r_transit_ipv6 := ""; r_memory := "6G";
     r_cpus := 2; r_disk_size := "50G"; r_second_tap_device := ""; r_iso := ":web.iso";
     r_tpm_pristine_path := ""; r_needs_running := [":db"] |}.
Definition web_runner : GoBinary := runner_binary "web_vm" (build_defs web_rule).
Definition web_build : GoBinary :=
  orchestrator_binary "web" ":web_vm" [":db"] [":db"; ":web_vm"] ["--run"; "_main/vms/web_vm"].

Lemma vm_rules_configure_witness :
  base_config (F := scripted_runfiles) (linked (gb_x_defs web_runner)) workspace_env
  = Ok (rule_config "build" ":web.iso" "" "/src/repo" web_rule).
Proof.
  refine (proj1 (vm_rules_configure (F := scripted_runfiles) web_rule "/src/repo" workspace_env web_runner
    _ eq_refl eq_refl _ eq_refl _) _).
  - split; [|done]. repeat (apply Forall_cons; split; [done|]). apply Forall_nil_2.
  - done.
  - cbn [gb_data web_runner runner_binary]. rewrite build_deps.
    repeat (apply Forall_cons; split; [by split|]). apply Forall_nil_2.
  - by left.
Defined.

Lemma web_deployable : deployable (F := scripted_runfiles) web_rule (λ p, "/runfiles/" +:+ p) ["RUNFILES_DIR=/runfiles"].
Proof.
  split; try exact eq_refl.
  - repeat (apply Forall_cons; split; [by split_and!|]). apply Forall_nil_2.
  - repeat (apply Forall_cons; split; [done|]). apply Forall_nil_2.
  - by apply (bool_decide_unpack _).
  - repeat (apply Forall_cons; split; [done|]). apply Forall_nil_2.
  - by split.
Qed.
Lemma orchestrated_build_witness :
  ∃ t ws before, server_windows t = Some ws ∧ "db" ∈ ws ∧
    (orch_main (F := scripted_runfiles) (T := ListTmux) "_main/vms/web_vm" "_main/vms/db" ["--run"; "_main/vms/web_vm"]
      (session_with None)).1 = Err 3%Z ∧
    ocalls (orch_main (F := scripted_runfiles) (T := ListTmux) "_main/vms/web_vm" "_main/vms/db" ["--run"; "_main/vms/web_vm"]
      (session_with None)).2
    = before ++ [OForeground ["/runfiles/_main/vms/web_vm"] ["RUNFILES_DIR=/runfiles"];
                 OTmux ["kill-window"; "-t"; "molnett:db"]].
Proof.
  destruct (orchestrated_build (F := scripted_runfiles) (T := ListTmux) web_rule web_build
    (λ p, "/runfiles/" +:+ p) ["RUNFILES_DIR=/runfiles"] server_windows (session_with None))
    as (t & ws & before & Hw & Hd & _ & Ho & Hc).
  - right. by left.
  - done.
  - apply web_deployable.
  - apply list_tmux_laws.
  - apply Forall_nil_2.
  - exists t, ws, before. split; [exact Hw|]. split; [by apply Forall_cons in Hd as [? _]|]. split; [exact Ho|exact Hc].
Defined.

Definition pair_cluster : Cluster :=
  let node name := {| n_server_name := name; n_tap_device := "mltt-" +:+ name; n_mac_address := "02:00:00:00:00:01";
    n_memory := Some "16G"; n_cpus := Some 8%Z; n_disk_size := None; n_second_tap_device := None;
    n_iso := None; n_tpm_pristine_path := None |} in
  {| k_name := "pair"; k_nodes := [node "a"; node "b"]; k_ovmf_code := ":code.fd"; k_ovmf_vars := ":vars.fd";
     k_swtpm := ""; k_swtpm_setup := ""; k_bridge_name := "mltt-br0"; k_transit_ipv4 := "";
     k_transit_ipv6 := ""; k_bgp_server := ":bgp"; k_default_iso := ":os.iso";
     k_default_tpm_pristine_base := "tpm" |}.
Lemma cluster_correct_witness :
  ∃ b b', vmMemory (linked (gb_x_defs b)) = "16G" ∧ vmMemory (linked (gb_x_defs b')) = "6G" ∧
    ∃ o, job_paths (binary_args o orch_flags)
    = ["_main/vms/bgp"; "_main/vms/_pair_node0"; "_main/vms/_pair_node1"].
Proof.
  destruct (cluster_correct pair_cluster orch_flags) as (builds & runs & o & Hb & _ & _ & _ & _ & _ & _ & _ & Hj & _ & Hn).
  - done.
  - repeat (apply Forall_cons; split; [by split_and!|]). apply Forall_nil_2.
  - destruct (Hn 0 _ eq_refl) as (b & b' & _ & _ & _ & _ & [Eb _] & Eb' & _). exists b, b'. rewrite Eb, Eb'.
    split; [exact eq_refl|]. split; [exact eq_refl|]. exists o. exact Hj.
Defined.
